(* ===== verification/_CoqProject ===== *)
-Q . S2P
Prelude.v
JsValue.v
Json.v
JsonFacts.v
JsonCanon.v
Sha256.v
Async.v
Platform.v
World.v
Hash.v
Validation.v
Storage.v
DomainStorage.v
TransactionService.v
CryptoService.v
WalletService.v
ApiService.v
UseWallet.v
UseTransaction.v
ServiceSafety.v
TransactionFlow.v
TransactionConcurrency.v
WalletView.v
WalletFlow.v
WalletErrors.v
WalletMount.v
Component.v
DomainCreator.v
WalletManager.v
TransactionSigner.v
Home.v
WalletTemplate.v
WalletPage.v
WalletSystem.v
WalletCommitments.v
Gui.v
GuiMessaging.v
GuiData.v
GuiForms.v
GuiFacts.v
GuiViews.v
Go.v
GoText.v
NodeState.v
NodeUTXO.v
NodeCommands.v
NodeBlocks.v
NodeSafety.v
NodeDemo.v
NodeChain.v
NodeProgress.v
NodeMempool.v
NodeHeaders.v
NodePow.v
NodePowFacts.v
NodeLedger.v
NodeForks.v
NodeForkChoice.v
NodeHistory.v
NodeForkDemo.v
NodeForkSafety.v
NodeRestart.v
NodeConsensus.v
NodeMined.v
NodeMiner.v
NodeWire.v
NodeWallet.v
