(* ===== verification/Prelude.v ===== *)
(** * Namecoin on Peerster: a verification of the web clients and of the name chain

    The repository contains a peer-to-peer node written in Go and two JavaScript
    clients of its HTTP interface.  This library models the clients, and the part of
    the node the wallet relies on, and proves the properties that make them correct.

    ** The program

    - [src/frontend]: a wallet (Vue).  [utils/hash.js] (SHA-256, hexadecimal,
      salts, transaction identifiers), [utils/validation.js], [utils/storage.js]
      and [utils/domainStorage.js] (localStorage) are the base;
      [services/transaction.service.js], [services/crypto.service.js],
      [services/wallet.service.js] and [services/api.service.js] build, sign and
      send transactions; [composables/useWallet.js] and
      [composables/useTransaction.js] keep the state the views share;
      [views/Wallet.vue] is the page on which names are registered, revealed and
      updated, and [components/] and [views/Home.vue] are further components over
      the composables.
    - [src/gui/web/assets/scripts/main.js]: the page of a peer.  Stimulus
      controllers over a common base validate forms, send requests and show the
      routing table, the packets, the catalog and search results.
    - [src/peer/impl] (Go): the node.  It checks the transactions that wallets sign,
      collects them in a buffer, mines blocks of them, and applies blocks, its own and
      those of its peers, to a state of names, commitments and unspent outputs
      ([namecoin_state.go] and the files next to it); it keeps the branches of the chain
      apart and follows the longest ([namecoin_chain.go], [namecoin_chain_service.go]).

    ** The files

    Language and environment:
    - [Prelude]: exceptions, the error monad, tactics, strings and characters.
    - [JsValue]: the values of the language and the operations the sources use.
    - [Json], [JsonFacts], [JsonCanon]: [JSON.stringify] and [JSON.parse]
      (executable, with fuel [2 * length + 1], proved sufficient by
      [JsonFacts.parse_value_fuel]), their round trip, and equality of JSON data
      up to the order of members.
    - [Sha256]: the hash function, executable, with test vectors.
    - [Async]: asynchronous functions as trees of effects; [run] executes one
      alone, [interleave] executes several under a schedule, and the server is an
      arbitrary function of the requests sent so far.
    - [Platform]: type classes for what is not in the repository (browser clock
      and entropy, the packages canonicalize and tweetnacl) with the laws the
      clients rely on, and a concrete instance of each.

    The wallet:
    - [World]: the state its scripts share.
    - [Hash], [Validation], [Storage], [DomainStorage]: one file per file of
      [utils/].
    - [TransactionService], [CryptoService], [WalletService], [ApiService]: one
      file per file of [services/].
    - [UseWallet], [UseTransaction]: one file per composable.
    - [TransactionFlow]: from the parameters of a transaction to a request that
      passes the receiver's checks.
    - [ServiceSafety]: what the services write, as a frame for invariants.
    - [TransactionConcurrency]: the same operations under interleaving.
    - [WalletView]: the script of [views/Wallet.vue]; [WalletFlow]: the life of a
      name through its three handlers; [WalletErrors]: refused messages;
      [WalletMount]: the loading of the page.
    - [Component]: rendered trees, the actions they offer, and scripts in a
      component with a state of its own.
    - [DomainCreator], [WalletManager], [TransactionSigner]: one file per file of
      [components/] (script and template); [Home]: [views/Home.vue] and
      [router/index.js].
    - [WalletTemplate]: the template of [views/Wallet.vue] with its listeners;
      [WalletPage]: its types and the actions it offers; [WalletSystem]: the page
      as a transition system of a user, running handlers and the event loop;
      [WalletCommitments]: what is stored, in this system.

    The peer's page:
    - [Gui] (page state, [BaseElement], [Flash], [PeerInfo], collapsible
      sections), [GuiMessaging], [GuiData] (the other controllers, a module each).
    - [GuiForms], [GuiFacts], [GuiViews]: their properties.

    The node:
    - [Go]: what the node uses of its language: methods that change a receiver and
      return errors, slices, 64-bit integers, [encoding/hex] and [encoding/json].
    - [NodeState]: [namecoin_state.go] and [namecoin_state_UTXO.go], with the
      invariant of the expiry index; [NodeUTXO]: balances, supply and spend plans.
    - [NodeCommands]: the four commands ([name_new.go], [name_first_update.go],
      [name_update.go], [reward.go]), transaction identifiers and signatures;
      the packages canonicaljson-go and Ed25519 are type classes.
    - [NodeBlocks]: the checks of a transaction and the application of blocks
      ([transaction_service.go], [namecoin_chain.go], [impl.go]).
    - [GoText]: base64, UTF-8 and the JSON text of the node.
    - [NodeSafety], [NodeChain]: what accepted blocks preserve; [NodeProgress]: what
      the checks are enough for; [NodeMempool]: [tx_buffer.go] and the
      handler of transaction messages; [NodeDemo]: a small concrete chain.
    - [NodeHeaders]: headers, hashes, roots and the stored form of blocks
      ([types/namecoin_def.go]); [NodePow], [NodePowFacts]: targets, difficulty and
      mining ([namecoin_pow.go], [namecoin_consensus.go], [pow_config.go]);
      [NodeLedger]: a chain over a store, validation, replay and loading
      ([namecoin_chain.go]); [NodeForks]: the service of chains
      ([namecoin_chain_service.go]), with positions in lists for the pointers to chains
      and stores.
    - [NodeForkChoice]: termination of the service; [NodeHistory]: the blocks of a chain,
      what stores hold, replay of a history; [NodeForkSafety]: the invariant of the
      service; [NodeRestart]: restarts; [NodeConsensus]: blocks that arrive from
      anywhere; [NodeMiner]: the node that mines and receives blocks ([impl.go],
      [message_handlers.go]); [NodeForkDemo]: blocks of a small fork.
    - [NodeMined]: what a transaction does in a block with others, and the blocks a
      miner assembles.
    - [NodeWire], [NodeWallet]: messages of the wallet as the node decodes them, and
      the two sides together.

    A function of the sources has the name it has there.  A function that reads or
    writes shared state, awaits or fetches is a [task]; a synchronous one that may
    throw returns an [outcome]; the others are plain functions.  A method of the node
    is a [method] of its receiver.  [console] output and logging are omitted.

    ** What is shown

    - Registration end to end: [NodeWallet.submitted_name_committed] and
      [NodeWallet.revealed_name_registered] (a page in front of a node: what the page
      sends is accepted; every next block that contains it, whatever else it contains,
      has the effect that the page shows and stores; and the block that a miner
      assembles from it, reward first, is accepted).  They assume that the packages of
      the two languages agree where their standards say so ([NodeWallet.SameStandards]),
      and that transactions of a block with one identifier carry one request
      ([NodeMined.identified]), identifiers being hashes of requests.
    - Transactions: [TransactionFlow.create_sign_send_accepted] (end to end),
      [UseTransaction.createTransaction_outcome] and
      [UseTransaction.signAndSend_outcome] (every outcome, errors included),
      identifiers, validation, signatures in [TransactionService] and [CryptoService],
      and [CryptoService.commitment_opens] (what a commitment to a valid name binds).
    - Concurrency: [TransactionConcurrency.transaction_refs_invariant] and
      [UseWallet.wallet_identifier_coherent] hold under every interleaving;
      [TransactionConcurrency.Race.signAndSend_mixes_transactions] is a schedule
      under which a transaction is sent with the signature of another.
    - The wallet's page: [WalletFlow.handleSubmit_commits],
      [WalletFlow.handleFirstUpdate_reveals] and [WalletFlow.handleUpdate_updates]
      (each handler sends one message the receiver accepts and stores what the next
      one needs), [WalletErrors.handleFirstUpdate_refused] (what a refusal shows, and
      which entries it drops), [WalletMount.mounted_restores] (what the mount hook, run
      by itself, restores),
      [WalletPage.revealed_then_updatable] (what the page then offers),
      [WalletPage.page_well_typed] (the template renders in every reachable state),
      [WalletSystem.one_submission] and [WalletSystem.submission_ends] (mutual
      exclusion and termination of submissions, whatever the user does, during which
      the name typed cannot change), and
      [WalletSystem.Concrete.reveal_offered_twice] (the protection revelations lack);
      [WalletCommitments.stored_commitments_open] (every stored entry carries the
      opening of its commitment, under every interleaving, when those of earlier visits
      do).
    - The components: [DomainCreator.typed_name_submits],
      [WalletManager.backup_restores], [TransactionSigner.preview_panels] and
      [Home.connect_outcome] state what they promise;
      [DomainCreator.handleSubmit_never_emits],
      [TransactionSigner.next_transaction_not_offered],
      [TransactionSigner.preview_missing_fields], [Home.connect_ignores_address] and
      [Home.wallet_path_unrouted] where they do not fit the rest of the program.
    - Storage: [DomainStorage.pending_domains_refine] (refinement of a contract),
      [Storage.setItem_getItem], [UseWallet.wallet_survives_reload].
    - Requests: [ApiService.api_call_spec] for every call.
    - The page: [GuiForms] states one protocol for ten forms (validation, request,
      body that parses back); [GuiViews] what the views show;
      [GuiViews.Naming_resolve_ignores_check] the method that does not follow the
      protocol; [GuiFacts] flash messages, the peer's address and collapsible
      sections.

    - The chain: [NodeChain.ownership_stable], [NodeChain.names_earned] and
      [NodeChain.names_expire] (who has a name, how it was obtained, how long it
      lasts), [NodeChain.supply_bounded], [NodeChain.prune_by_index],
      [NodeProgress.validated_applies] (checked transactions apply).
    - The buffer: [NodeMempool.buffered_valid] and [NodeMempool.requeue_restores].
    - Forks: [NodeConsensus.chains_accepted] (every chain a node keeps consists of
      accepted blocks, with the work that the blocks before ask for, so that the
      theorems about chains apply to it), [NodeRestart.fork_is_prefix] (a fork is the
      chain its blocks built),
      [NodeConsensus.longest_is_best] and [NodeConsensus.head_improves] (which chain is
      the longest), [NodeConsensus.pending_finishes] (the queue is worked off), whatever
      arrives in which order, for blocks whose hashes determine them.
    - Mining: [NodeMiner.mined_block_extends], [NodeMiner.stopped_search_restores],
      [NodeConsensus.mined_block_valid] and [NodeConsensus.adjustment_bounded].
    - Stores: [NodeRestart.restart_restores], [NodeRestart.restart_keeps_target] and
      [NodeRestart.stored_block_same].
    - Where the node falls short: [NodeChain.reward_unchecked],
      [NodeMempool.client_reward], [NodeProgress.same_sender_conflict],
      [NodeMempool.short_key_panics], [NodeConsensus.losing_branch_overwrites],
      [NodeConsensus.root_ignores_null], [NodeRestart.restart_changes_target],
      [NodeMiner.late_stop_loses] and [NodeMiner.orphan_error_hides_success].

    ** What is not modelled

    Strings are sequences of characters up to U+00FF; numbers are decimals, exact
    for those of at most 15 significant digits (a packet's timestamp in
    nanoseconds is shown with the digits received, where a browser rounds it).
    Object identity is not observable except where a state keeps references.
    The text of a template is kept as the bytes of the file.  A rendered tree holds
    the values of bound attributes and interpolations before Vue turns them into
    attributes and text; an input of a user is the value its [v-model] writes.  How
    vue-router matches a path is a parameter ([Home.Router]).  Styles, the entry
    point, the registration of controllers and the vendored libraries are not
    modelled; neither is the upload's progress message, whose percentage is a
    floating-point quotient.  [TransactionFlow.receiver_checks] are the
    checks of the node that depend on a message alone, as the wallet sees them.

    Of the node, the network (broadcasts, gossip, Paxos, data sharing), the resolver
    and the HTTP layer are not modelled.  [NodeBlocks] and the theorems of [NodeChain]
    see a block as its height and transactions; [NodeHeaders] adds the rest.  Locks are
    left out: each method that takes the lock of the state, of a chain or of the
    service is one step, and [NodeMiner.MinerDoWork] is one step between the signals it
    reads.  The order in which a map is visited, the clock and the stop channel are
    arguments.  A stored block is represented by the value of its JSON document.  A
    [float64] is a mantissa and an exponent without bounds, which durations do not
    reach.  Heights at which expiry heights would exceed 64 bits ([NodeSafety.low]) and
    supplies of 2^64 coins are excluded in theorems; theorems about forks assume that a
    hash determines the header and the transactions among the received blocks, which
    excludes collisions and blocks that differ in absent and empty lists only
    ([NodeConsensus.root_ignores_null]).

    Bounds: the queue of pending blocks gets the square of the number of waiting blocks
    plus two as fuel ([NodeForks.enough], proved sufficient); a store is read through
    as many overlays as there are stores below it; the search for a nonce has the
    number of nonces.

    ** Plan

    Refused updates and submissions of the wallet's page; the resolver; which branch
    wins when nodes receive the same blocks in different orders. *)

From Stdlib Require Export Ascii ZArith Lia.
From stdpp Require Export base gmap strings list list_numbers.

#[global] Set Default Goal Selector "!".

(** ** Exceptions and fallible computations

    JavaScript can throw any value; the sources throw [Error] objects (with a
    constructor name and a message) and, in [gui/web/assets/scripts/main.js],
    bare strings. *)
Inductive exn :=
  | Error (name message : string)
  | Thrown (s : string).

#[export] Instance exn_eq_dec : EqDecision exn.
Proof. solve_decision. Defined.

(** [err.message]: a thrown string has no [message] property. *)
Definition exn_message (e : exn) : option string :=
  match e with
  | Error _ m => Some m
  | Thrown _ => None
  end.

(** [String(e)], as used by ["..." + e]. *)
Definition exn_to_string (e : exn) : string :=
  match e with
  | Error n m => if decide (m = "") then n else n +:+ ": " +:+ m
  | Thrown s => s
  end.

(** The completion of a synchronous computation. *)
Inductive outcome (A : Type) :=
  | Normal (a : A)
  | Throw (e : exn).
Arguments Normal {A} a.
Arguments Throw {A} e.

#[export] Instance outcome_ret : MRet outcome := fun A a => Normal a.
#[export] Instance outcome_bind : MBind outcome := fun A B f m =>
  match m with Normal a => f a | Throw e => Throw e end.
#[export] Instance outcome_fmap : FMap outcome := fun A B f m =>
  match m with Normal a => Normal (f a) | Throw e => Throw e end.

#[export] Instance outcome_eq_dec {A} `{EqDecision A} : EqDecision (outcome A).
Proof. solve_decision. Defined.

(** [try { m } catch (e) { h e }] without effects. *)
Definition outcome_catch {A} (m : outcome A) (h : exn -> outcome A) : outcome A :=
  match m with Normal a => Normal a | Throw e => h e end.

Definition is_normal {A} (m : outcome A) : bool :=
  match m with Normal _ => true | Throw _ => false end.

Lemma outcome_bind_Normal {A B} (m : outcome A) (f : A -> outcome B) b :
  m ≫= f = Normal b <-> exists a, m = Normal a /\ f a = Normal b.
Proof. destruct m; simpl; naive_solver. Qed.

(** ** Automation *)

Create HintDb js.

(** Break every [match] and [if] of the hypotheses and of the goal. *)
Ltac break_match :=
  match goal with
  | |- context [match ?x with _ => _ end] => destruct x eqn:?
  | H : context [match ?x with _ => _ end] |- _ => destruct x eqn:?
  end.

Ltac js_crush :=
  repeat first [ break_match | progress simplify_eq/= ]; auto with js.

Lemma forallb_Forall {A} (f : A -> bool) l :
  forallb f l = true <-> Forall (fun x => f x = true) l.
Proof.
  induction l as [|x l IH]; simpl; [done|]. by rewrite andb_true_iff, Forall_cons, IH.
Qed.

(** ** Strings as sequences of code units *)

Lemma string_app_cons c (a b : string) : String c a +:+ b = String c (a +:+ b).
Proof. done. Qed.

Lemma string_app_nil_l (a : string) : "" +:+ a = a.
Proof. done. Qed.

Lemma string_app_nil_r (s : string) : s +:+ "" = s.
Proof. induction s as [|c s IH]; [done|]. by rewrite string_app_cons, IH. Qed.

Lemma string_app_assoc (a b c : string) : a +:+ (b +:+ c) = (a +:+ b) +:+ c.
Proof. induction a as [|d a IH]; [done|]. by rewrite !string_app_cons, IH. Qed.

Lemma string_length_app (a b : string) :
  String.length (a +:+ b) = String.length a + String.length b.
Proof.
  induction a as [|d a IH]; [done|]. rewrite string_app_cons. simpl. by rewrite IH.
Qed.

(** The code unit of a character, and back. *)
Definition code (c : ascii) : Z := Z.of_N (N_of_ascii c).
Definition chr (z : Z) : ascii := ascii_of_N (Z.to_N z).

Lemma code_bound c : (0 <= code c < 256)%Z.
Proof. unfold code. pose proof (N_ascii_bounded c). lia. Qed.

Lemma chr_code c : chr (code c) = c.
Proof. unfold chr, code. rewrite N2Z.id. apply ascii_N_embedding. Qed.

Lemma code_chr z : (0 <= z < 256)%Z -> code (chr z) = z.
Proof.
  intros ?. unfold chr, code. rewrite N_ascii_embedding; [|lia].
  by rewrite Z2N.id by lia.
Qed.

#[global] Hint Rewrite string_app_nil_r string_length_app : js.

(** The double quote, which HTML attributes and messages contain. *)
Definition dq : string := String (chr 34) "".
