(* ===== verification/JsValue.v ===== *)
(** * JavaScript values

    The values the sources compute with, and the parts of the language and of
    its standard library the sources use on them: numbers and their printing,
    strings, [parseInt], property access, truthiness, conversion to strings.

    Strings are sequences of code units below 256 (Latin-1), which [string]
    represents exactly.  Numbers are [NaN], the infinities and finite decimals
    [m / 10^k]; a binary64 number whose shortest decimal has at most 15
    significant digits is represented exactly, and no source file computes with
    others (amounts, TTLs, HTTP status codes, search budgets).  [-0]
    is identified with [0]: no operation used here distinguishes them. *)

From Stdlib Require Export Sorted.
From S2P Require Import Prelude.
Local Open Scope Z_scope.

#[local] Set Warnings "-register-all".

(** ** Numbers *)

Inductive num :=
  | NaN
  | Inf (neg : bool)
  | Fin (m : Z) (k : nat).

#[export] Instance num_eq_dec : EqDecision num.
Proof. solve_decision. Defined.

(** [fin m k] is [m / 10^k] with the trailing zeros of its fraction removed. *)
Fixpoint fin (m : Z) (k : nat) : num :=
  match k with
  | O => Fin m 0
  | S k' => if m mod 10 =? 0 then fin (m / 10) k' else Fin m k
  end.

(** Every number has one representation: the fraction has no trailing zero. *)
Definition num_wf (n : num) : bool :=
  match n with
  | Fin m (S _) => negb (m mod 10 =? 0)
  | _ => true
  end.

Lemma fin_wf m k : num_wf (fin m k) = true.
Proof.
  revert m. induction k as [|k IH]; intros m; simpl; [done|].
  destruct (m mod 10 =? 0) eqn:E; [apply IH|]. simpl. by rewrite E.
Qed.

Lemma fin_canonical m k : num_wf (Fin m k) = true -> fin m k = Fin m k.
Proof. destruct k; simpl; [done|]. by destruct (m mod 10 =? 0). Qed.

Definition int (z : Z) : num := Fin z 0.

(** [a < b] *)
Definition num_lt (a b : num) : bool :=
  match a, b with
  | NaN, _ | _, NaN => false
  | Inf na, Inf nb => na && negb nb
  | Inf na, Fin _ _ => na
  | Fin _ _, Inf nb => negb nb
  | Fin m k, Fin m' k' => m * 10 ^ Z.of_nat k' <? m' * 10 ^ Z.of_nat k
  end.

(** [Number.isInteger] on a number. *)
Definition num_is_integer (a : num) : bool :=
  match a with
  | Fin m k => m mod 10 ^ Z.of_nat k =? 0
  | _ => false
  end.

(** The mathematical integer part, truncated towards zero
    ([ToIntegerOrInfinity] on finite numbers). *)
Definition num_trunc (m : Z) (k : nat) : Z := Z.quot m (10 ^ Z.of_nat k).

(** ** Digits *)

(** The character of a digit in radix up to 36, in lower case. *)
Definition digit_char (d : Z) : ascii := if d <? 10 then chr (48 + d) else chr (87 + d).

Definition digit_val (radix : Z) (c : ascii) : option Z :=
  let n := code c in
  let d := if (48 <=? n) && (n <=? 57) then n - 48
           else if (97 <=? n) && (n <=? 122) then n - 87
           else if (65 <=? n) && (n <=? 90) then n - 55
           else 36 in
  if d <? radix then Some d else None.

Fixpoint digits (fuel : nat) (radix n : Z) : string :=
  match fuel with
  | O => ""
  | S f =>
      if n <? radix then String (digit_char n) ""
      else digits f radix (n / radix) +:+ String (digit_char (n mod radix)) ""
  end.

(** A non-negative integer in a radix.  A radix of at least 2 halves the number
    at each step, so [log2 n + 1] steps print it. *)
Definition nat_to_string (radix n : Z) : string :=
  digits (S (Z.to_nat (Z.log2 n))) radix n.

(** The longest prefix of digits: its value on top of [acc], and what follows. *)
Fixpoint read_digits (radix acc : Z) (s : string) : Z * string :=
  match s with
  | EmptyString => (acc, "")
  | String c s' =>
      match digit_val radix c with
      | Some d => read_digits radix (acc * radix + d) s'
      | None => (acc, s)
      end
  end.

Definition starts_digit (radix : Z) (s : string) : bool :=
  match s with
  | EmptyString => false
  | String c _ => match digit_val radix c with Some _ => true | None => false end
  end.

(** [s.padStart(n, c)] for a one-character filler. *)
Fixpoint repeat_char (c : ascii) (n : nat) : string :=
  match n with O => "" | S n' => String c (repeat_char c n') end.

Definition pad_start (n : nat) (c : ascii) (s : string) : string :=
  repeat_char c (n - String.length s) +:+ s.

(** [Number.prototype.toString()] in radix 10. *)
Definition num_to_string (x : num) : string :=
  match x with
  | NaN => "NaN"
  | Inf neg => if neg then "-Infinity" else "Infinity"
  | Fin m k =>
      let a := Z.abs m in
      let p := 10 ^ Z.of_nat k in
      (if m <? 0 then "-" else "") +:+ nat_to_string 10 (a / p) +:+
      match k with
      | O => ""
      | S _ => "." +:+ pad_start k "0" (nat_to_string 10 (a mod p))
      end
  end.

(** ** Strings *)

Definition is_space (c : ascii) : bool :=
  let n := code c in ((9 <=? n) && (n <=? 13)) || (n =? 32) || (n =? 160).

Fixpoint trim_start (s : string) : string :=
  match s with
  | EmptyString => ""
  | String c s' => if is_space c then trim_start s' else s
  end.

Fixpoint trim_end (s : string) : string :=
  match s with
  | EmptyString => ""
  | String c s' =>
      match trim_end s' with
      | EmptyString => if is_space c then "" else String c ""
      | t => String c t
      end
  end.

(** [s.trim()] *)
Definition trim (s : string) : string := trim_end (trim_start s).

Definition lower_char (c : ascii) : ascii :=
  let n := code c in
  if ((65 <=? n) && (n <=? 90)) || ((192 <=? n) && (n <=? 222) && negb (n =? 215))
  then chr (n + 32) else c.

(** [s.toLowerCase()] *)
Fixpoint to_lower (s : string) : string :=
  match s with
  | EmptyString => ""
  | String c s' => String (lower_char c) (to_lower s')
  end.

Fixpoint is_prefix (p s : string) : bool :=
  match p, s with
  | EmptyString, _ => true
  | String c p', String d s' => Ascii.eqb c d && is_prefix p' s'
  | _, _ => false
  end.

(** [s.includes(p)] *)
Fixpoint includes (s p : string) : bool :=
  is_prefix p s ||
  match s with
  | EmptyString => false
  | String _ s' => includes s' p
  end.

(** [s.split(c)] for a one-character separator; never empty. *)
Fixpoint split (c : ascii) (s : string) : list string :=
  match s with
  | EmptyString => [""]
  | String d s' =>
      if Ascii.eqb d c then "" :: split c s'
      else match split c s' with
           | w :: ws => String d w :: ws
           | [] => [String d ""]
           end
  end.

(** [l.join(sep)] *)
Fixpoint join (sep : string) (l : list string) : string :=
  match l with
  | [] => ""
  | [w] => w
  | w :: ws => w +:+ sep +:+ join sep ws
  end.

(** [s.substr(i, n)] *)
Definition substr (i n : nat) (s : string) : string := String.substring i n s.

(** [parseInt(s, radix)] for radix 10 or 16; [None] is an absent radix. *)
Definition parseInt (s : string) (radix : option Z) : num :=
  let s := trim_start s in
  let '(sign, s) :=
    match s with
    | String c s' => if Ascii.eqb c "-" then (-1, s')
                     else if Ascii.eqb c "+" then (1, s') else (1, s)
    | EmptyString => (1, s)
    end in
  let strip := match radix with None => true | Some r => r =? 16 end in
  let '(r, s) :=
    if strip && (is_prefix "0x" s || is_prefix "0X" s)
    then (16, substr 2 (String.length s) s)
    else (default 10 radix, s) in
  if starts_digit r s then int (sign * fst (read_digits r 0 s)) else NaN.

(** ** Values *)

Inductive value :=
  | Undefined
  | Null
  | Bool (b : bool)
  | Num (n : num)
  | Str (s : string)
  | Arr (l : list value)
  | Obj (props : list (string * value))
  | Bytes (l : list Z).   (* a Uint8Array *)

(** The induction principle of the nested type. *)
Section value_ind.
Context (P : value -> Prop).
Hypothesis (HU : P Undefined) (HN : P Null) (HB : forall b, P (Bool b))
  (Hn : forall n, P (Num n)) (Hs : forall s, P (Str s))
  (HA : forall l, Forall P l -> P (Arr l))
  (HO : forall props, Forall (fun kv => P kv.2) props -> P (Obj props))
  (Hb : forall l, P (Bytes l)).

Fixpoint value_nested_ind (v : value) : P v :=
  match v with
  | Undefined => HU
  | Null => HN
  | Bool b => HB b
  | Num n => Hn n
  | Str s => Hs s
  | Arr l => HA l ((fix go (l : list value) : Forall P l :=
      match l with
      | [] => Forall_nil_2 _
      | x :: l' => Forall_cons_2 _ _ _ (value_nested_ind x) (go l')
      end) l)
  | Obj props => HO props ((fix go (l : list (string * value)) : Forall (fun kv => P kv.2) l :=
      match l with
      | [] => Forall_nil_2 _
      | (k, x) :: l' => Forall_cons_2 _ (k, x) _ (value_nested_ind x) (go l')
      end) props)
  | Bytes l => Hb l
  end.
End value_ind.

(** The values JavaScript coerces to [true]. *)
Definition truthy (v : value) : bool :=
  match v with
  | Undefined | Null => false
  | Bool b => b
  | Num NaN => false
  | Num (Fin m _) => negb (m =? 0)
  | Num (Inf _) => true
  | Str s => negb (String.eqb s "")
  | Arr _ | Obj _ | Bytes _ => true
  end.

(** [a || b] *)
Definition js_or (a b : value) : value := if truthy a then a else b.

Definition typeof (v : value) : string :=
  match v with
  | Undefined => "undefined"
  | Bool _ => "boolean"
  | Num _ => "number"
  | Str _ => "string"
  | Null | Arr _ | Obj _ | Bytes _ => "object"
  end.

(** [a === b].  On objects it compares identities; every comparison of the
    sources has a primitive on one side, where objects are never equal. *)
Definition strict_eq (a b : value) : bool :=
  match a, b with
  | Undefined, Undefined | Null, Null => true
  | Bool x, Bool y => Bool.eqb x y
  | Num (Fin m k), Num (Fin m' k') => m * 10 ^ Z.of_nat k' =? m' * 10 ^ Z.of_nat k
  | Num (Inf x), Num (Inf y) => Bool.eqb x y
  | Str x, Str y => String.eqb x y
  | _, _ => false
  end.

(** [String(v)], as in template literals. *)
Fixpoint to_string (v : value) : string :=
  match v with
  | Undefined => "undefined"
  | Null => "null"
  | Bool b => if b then "true" else "false"
  | Num n => num_to_string n
  | Str s => s
  | Arr l => join "," (map (fun x => match x with
                                     | Undefined | Null => ""
                                     | _ => to_string x
                                     end) l)
  | Obj _ => "[object Object]"
  | Bytes l => join "," (map (fun b => num_to_string (int b)) l)
  end.

(** ** Objects

    Own properties in enumeration order: array-index keys in ascending order
    first, then the other keys in the order of their creation. *)

(** The array index a key denotes, if any: a canonical decimal below [2^32 - 1]. *)
Definition key_index (k : string) : option Z :=
  let '(n, rest) := read_digits 10 0 k in
  if (n <? 2 ^ 32 - 1) && String.eqb (nat_to_string 10 n) k then Some n else None.

Fixpoint props_get (k : string) (o : list (string * value)) : option value :=
  match o with
  | [] => None
  | (k', v) :: o' => if String.eqb k k' then Some v else props_get k o'
  end.

(** [a] comes before a key [b] created after it. *)
Definition key_before (a b : string) : bool :=
  match key_index a, key_index b with
  | Some i, Some j => i <? j
  | Some _, None => true
  | None, Some _ => false
  | None, None => negb (String.eqb a b)
  end.

Fixpoint props_replace (k : string) (v : value) (o : list (string * value)) :=
  match o with
  | [] => []
  | (k', w) :: o' => if String.eqb k k' then (k, v) :: o' else (k', w) :: props_replace k v o'
  end.

Fixpoint props_insert (k : string) (v : value) (o : list (string * value)) :=
  match o with
  | [] => [(k, v)]
  | (k', w) :: o' => if key_before k' k then (k', w) :: props_insert k v o'
                     else (k, v) :: o
  end.

(** Define the own property [k] ([CreateDataProperty]): the form of object
    literals, spreads and [JSON.parse]. *)
Definition props_define (k : string) (v : value) (o : list (string * value)) :=
  match props_get k o with
  | Some _ => props_replace k v o
  | None => props_insert k v o
  end.

(** [o[k] = v]: as [props_define], except that ["__proto__"] is the accessor
    inherited from [Object.prototype], which creates no own property. *)
Definition props_assign (k : string) (v : value) (o : list (string * value)) :=
  if String.eqb k "__proto__" then o else props_define k v o.

(** Object literal and spread, left to right. *)
Definition props_of (l : list (string * value)) : list (string * value) :=
  fold_left (fun o kv => props_define kv.1 kv.2 o) l [].

Definition props_spread (o extra : list (string * value)) : list (string * value) :=
  fold_left (fun o kv => props_define kv.1 kv.2 o) extra o.

(** [v.k] when [v] is neither [undefined] nor [null]. *)
Definition prop (v : value) (k : string) : value :=
  match v with
  | Obj o => default Undefined (props_get k o)
  | Str s => if String.eqb k "length" then Num (int (Z.of_nat (String.length s))) else Undefined
  | Arr l => if String.eqb k "length" then Num (int (Z.of_nat (length l))) else
             match key_index k with
             | Some i => default Undefined (l !! Z.to_nat i)
             | None => Undefined
             end
  | Bytes l => if String.eqb k "length" then Num (int (Z.of_nat (length l))) else
               match key_index k with
               | Some i => match l !! Z.to_nat i with
                           | Some b => Num (int b)
                           | None => Undefined
                           end
               | None => Undefined
               end
  | _ => Undefined
  end.

Definition is_nullish (v : value) : bool :=
  match v with Undefined | Null => true | _ => false end.

Definition TypeError (m : string) : exn := Error "TypeError" m.

(** [v.k], which throws on [undefined] and [null]. *)
Definition get (v : value) (k : string) : outcome value :=
  if is_nullish v
  then Throw (TypeError ("Cannot read properties of " +:+ to_string v +:+
                         " (reading '" +:+ k +:+ "')"))
  else Normal (prop v k).

(** [v?.k] *)
Definition get_opt (v : value) (k : string) : value :=
  if is_nullish v then Undefined else prop v k.

(** [v.k = w] in module code, which is strict: a primitive is refused.  The
    sources assign to members of plain objects only; an array or a typed array
    is returned as it is. *)
Definition set (v : value) (k : string) (w : value) : outcome value :=
  match v with
  | Undefined | Null =>
      Throw (TypeError ("Cannot set properties of " +:+ to_string v +:+
                        " (setting '" +:+ k +:+ "')"))
  | Bool _ | Num _ | Str _ =>
      Throw (TypeError ("Cannot create property '" +:+ k +:+ "' on " +:+ typeof v +:+
                        " '" +:+ to_string v +:+ "'"))
  | Obj o => Normal (Obj (props_assign k w o))
  | Arr _ | Bytes _ => Normal v
  end.

Definition obj (l : list (string * value)) : value := Obj (props_of l).

(** The own enumerable properties a spread copies. *)
Definition own_props (v : value) : list (string * value) :=
  match v with
  | Obj o => o
  | Arr l => imap (fun i x => (nat_to_string 10 (Z.of_nat i), x)) l
  | Str s => imap (fun i c => (nat_to_string 10 (Z.of_nat i), Str (String c ""))) (String.list_ascii_of_string s)
  | Bytes l => imap (fun i b => (nat_to_string 10 (Z.of_nat i), Num (int b))) l
  | _ => []
  end.

(** [{ ...v, l }] *)
Definition spread (v : value) (l : list (string * value)) : value :=
  Obj (props_spread (own_props v) l).

Definition is_array (v : value) : bool := match v with Arr _ => true | _ => false end.

(** Enumeration order as an invariant: index keys ascending, then distinct
    other keys. *)
Definition props_wf (o : list (string * value)) : Prop :=
  StronglySorted (fun a b => key_before a b = true) o.*1.

(** ** Lemmas on digits *)

Section digits.
Context (radix : Z) (Hr : 2 <= radix <= 36).

Lemma digit_val_char d : 0 <= d < radix -> digit_val radix (digit_char d) = Some d.
Proof.
  intros Hd. unfold digit_val, digit_char.
  destruct (d <? 10) eqn:E; rewrite code_chr by lia.
  - replace ((48 <=? 48 + d) && (48 + d <=? 57)) with true by lia.
    replace (48 + d - 48 <? radix) with true by lia. f_equal. lia.
  - replace ((48 <=? 87 + d) && (87 + d <=? 57)) with false by lia.
    replace ((97 <=? 87 + d) && (87 + d <=? 122)) with true by lia.
    replace (87 + d - 87 <? radix) with true by lia. f_equal. lia.
Qed.

Lemma read_digits_app fuel n acc rest :
  0 <= n -> (Z.to_nat (Z.log2 n) < fuel)%nat ->
  read_digits radix acc (digits fuel radix n +:+ rest)
  = read_digits radix (acc * radix ^ Z.of_nat (String.length (digits fuel radix n)) + n) rest.
Proof.
  revert n acc rest. induction fuel as [|f IH]; intros n acc rest Hn Hf; [lia|].
  cbn [digits]. destruct (n <? radix) eqn:E.
  - rewrite string_app_cons, string_app_nil_l. cbn [read_digits String.length].
    rewrite digit_val_char by lia.
    replace (radix ^ Z.of_nat 1) with radix by (rewrite Z.pow_1_r; lia). done.
  - assert (Hq : 0 <= n / radix) by (apply Z.div_pos; lia).
    assert (Hlog : Z.log2 (n / radix) < Z.log2 n).
    { assert (n / radix <= n / 2) by (apply Z.div_le_compat_l; lia).
      assert (n / 2 < n) by (apply Z.div_lt; lia).
      assert (Z.log2 (n / 2) = Z.log2 n - 1).
      { rewrite <- Z.div2_div, Z.div2_spec, Z.log2_shiftr by lia.
        pose proof (Z.log2_pos n). lia. }
      pose proof (Z.log2_le_mono (n / radix) (n / 2)). lia. }
    pose proof (Z.log2_nonneg (n / radix)).
    rewrite <- string_app_assoc, IH by lia.
    rewrite string_app_cons, string_app_nil_l. cbn [read_digits].
    pose proof (Z.mod_pos_bound n radix).
    rewrite digit_val_char by lia. f_equal.
    rewrite string_length_app, Nat2Z.inj_add. cbn [String.length].
    rewrite Z.pow_add_r, Z.pow_1_r by lia.
    pose proof (Z.div_mod n radix ltac:(lia)). lia.
Qed.

Lemma digits_nonempty fuel n : (0 < fuel)%nat -> (1 <= String.length (digits fuel radix n))%nat.
Proof.
  destruct fuel; simpl; [lia|]. intros _. destruct (n <? radix); [simpl; lia|].
  rewrite string_length_app. simpl. lia.
Qed.

Lemma read_digits_stop acc rest :
  starts_digit radix rest = false -> read_digits radix acc rest = (acc, rest).
Proof. destruct rest as [|c rest]; simpl; [done|]. by destruct (digit_val radix c). Qed.

(** Reading back a printed number. *)
Lemma read_nat_to_string n acc rest :
  0 <= n ->
  read_digits radix acc (nat_to_string radix n +:+ rest)
  = read_digits radix
      (acc * radix ^ Z.of_nat (String.length (nat_to_string radix n)) + n) rest.
Proof. intros Hn. apply read_digits_app; [done|]. lia. Qed.

Lemma nat_to_string_first n :
  0 <= n -> exists c s, nat_to_string radix n = String c s /\ is_Some (digit_val radix c).
Proof.
  intros Hn. unfold nat_to_string. generalize (Z.to_nat (Z.log2 n)) as f.
  intros f. revert n Hn. induction f as [|f IH]; intros n Hn; cbn [digits].
  - destruct (n <? radix) eqn:E; eexists _, _; (split; [done|]).
    + rewrite digit_val_char by lia. eauto.
    + pose proof (Z.mod_pos_bound n radix). rewrite digit_val_char by lia. eauto.
  - destruct (n <? radix) eqn:E.
    + eexists _, _; split; [done|]. rewrite digit_val_char by lia. eauto.
    + destruct (IH (n / radix)) as (c & s & Heq & Hc); [apply Z.div_pos; lia|].
      cbn [digits] in Heq. rewrite Heq. eexists _, _; split; [done|]. done.
Qed.

Lemma nat_to_string_starts n rest :
  0 <= n -> starts_digit radix (nat_to_string radix n +:+ rest) = true.
Proof.
  intros Hn. destruct (nat_to_string_first n Hn) as (c & s & -> & [d Hd]).
  simpl. by rewrite Hd.
Qed.

Lemma nat_to_string_inj n m :
  0 <= n -> 0 <= m -> nat_to_string radix n = nat_to_string radix m -> n = m.
Proof.
  intros Hn Hm Heq.
  pose proof (read_nat_to_string n 0 "" Hn) as H1.
  pose proof (read_nat_to_string m 0 "" Hm) as H2.
  rewrite Heq, H2 in H1. simpl in H1. simplify_eq. lia.
Qed.

(** A number below [radix ^ w] has at most [w] digits. *)
Lemma length_nat_to_string n w :
  0 <= n < radix ^ Z.of_nat w -> (0 < w)%nat ->
  (String.length (nat_to_string radix n) <= w)%nat.
Proof.
  unfold nat_to_string. generalize (S (Z.to_nat (Z.log2 n))) as f.
  intros f. revert n w. induction f as [|f IH]; intros n w Hn Hw; cbn [digits]; [simpl; lia|].
  destruct (n <? radix) eqn:E; [simpl; lia|].
  destruct w as [|[|w]]; [lia|rewrite Z.pow_1_r in Hn; lia|].
  rewrite string_length_app. cbn [String.length].
  rewrite (Nat2Z.inj_succ (S w)), Z.pow_succ_r in Hn by lia.
  assert (String.length (digits f radix (n / radix)) <= S w)%nat; [|lia].
  apply IH; [|lia]. split; [apply Z.div_pos; lia|]. apply Z.div_lt_upper_bound; lia.
Qed.
End digits.

Lemma length_repeat_char c n : String.length (repeat_char c n) = n.
Proof. induction n; simpl; congruence. Qed.

Lemma length_pad_start n c s :
  (String.length s <= n)%nat -> String.length (pad_start n c s) = n.
Proof. intros H. unfold pad_start. rewrite string_length_app, length_repeat_char. lia. Qed.

Lemma read_repeat_zero n acc rest :
  read_digits 10 acc (repeat_char "0" n +:+ rest)
  = read_digits 10 (acc * 10 ^ Z.of_nat n) rest.
Proof.
  revert acc. induction n as [|n IH]; intros acc.
  - simpl. rewrite string_app_nil_l. f_equal. lia.
  - cbn [repeat_char]. rewrite string_app_cons. cbn [read_digits].
    change (digit_val 10 "0") with (Some 0). cbn match. rewrite IH. f_equal.
    rewrite (Nat2Z.inj_succ n), Z.pow_succ_r by lia. ring.
Qed.

(** Reading back a zero-padded fraction. *)
Lemma read_pad_start n w acc rest :
  0 <= n < 10 ^ Z.of_nat w -> (0 < w)%nat ->
  read_digits 10 acc (pad_start w "0" (nat_to_string 10 n) +:+ rest)
  = read_digits 10 (acc * 10 ^ Z.of_nat w + n) rest.
Proof.
  intros Hn Hw. unfold pad_start.
  pose proof (length_nat_to_string 10 ltac:(lia) n w Hn Hw) as Hl.
  rewrite <- string_app_assoc, read_repeat_zero, read_nat_to_string by lia. f_equal.
  set (l := String.length (nat_to_string 10 n)) in *.
  replace (10 ^ Z.of_nat w) with (10 ^ Z.of_nat (w - l) * 10 ^ Z.of_nat l)
    by (rewrite <- Z.pow_add_r by lia; f_equal; lia).
  ring.
Qed.

(** ** Lemmas on objects *)

Lemma props_get_replace k k' v o :
  props_get k' (props_replace k v o) =
  if String.eqb k' k then match props_get k o with Some _ => Some v | None => None end else props_get k' o.
Proof.
  induction o as [|[k2 w] o IH]; simpl; [by destruct (String.eqb k' k)|].
  destruct (String.eqb_spec k k2) as [->|Hne]; simpl.
  - by destruct (String.eqb_spec k' k2).
  - destruct (String.eqb_spec k' k2) as [->|]; [|done].
    by destruct (String.eqb_spec k2 k); [congruence|].
Qed.

Lemma props_get_insert k k' v o :
  props_get k o = None ->
  props_get k' (props_insert k v o) = if String.eqb k' k then Some v else props_get k' o.
Proof.
  induction o as [|[k2 w] o IH]; simpl; intros Hk; [by destruct (String.eqb k' k)|].
  destruct (String.eqb_spec k k2) as [->|Hne]; [done|].
  destruct (key_before k2 k); simpl; [|done]. rewrite IH by done.
  destruct (String.eqb_spec k' k2) as [->|]; [|done].
  by destruct (String.eqb_spec k2 k); [congruence|].
Qed.

(** Reading after defining a property. *)
Lemma props_get_define k k' v o :
  props_get k' (props_define k v o) = if String.eqb k' k then Some v else props_get k' o.
Proof.
  unfold props_define. destruct (props_get k o) eqn:E.
  - rewrite props_get_replace, E. done.
  - by apply props_get_insert.
Qed.

Lemma props_get_assign k k' v o :
  k <> "__proto__" ->
  props_get k' (props_assign k v o) = if String.eqb k' k then Some v else props_get k' o.
Proof.
  intros Hk. unfold props_assign. destruct (String.eqb_spec k "__proto__"); [done|].
  apply props_get_define.
Qed.

Lemma key_before_irrefl k : key_before k k = false.
Proof.
  unfold key_before. destruct (key_index k); [apply Z.ltb_irrefl|].
  by rewrite String.eqb_refl.
Qed.

Lemma key_before_ne a b : key_before a b = true -> a <> b.
Proof. intros H ->. by rewrite key_before_irrefl in H. Qed.

Lemma key_index_Some k n : key_index k = Some n -> nat_to_string 10 n = k.
Proof.
  unfold key_index. destruct (read_digits 10 0 k) as [m r].
  destruct (String.eqb_spec (nat_to_string 10 m) k); rewrite ?andb_false_r; [|done].
  destruct (m <? 2 ^ 32 - 1); simpl; congruence.
Qed.

Lemma key_before_total a b : a <> b -> key_before a b = false -> key_before b a = true.
Proof.
  intros Hne. unfold key_before.
  destruct (key_index a) as [i|] eqn:Ea, (key_index b) as [j|] eqn:Eb; try done.
  - intros H. assert (i <> j).
    { intros ->. apply key_index_Some in Ea, Eb. congruence. }
    lia.
  - by destruct (String.eqb_spec a b).
Qed.

Lemma key_before_trans a b c :
  is_Some (key_index a) -> key_before a b = true -> key_before b c = true ->
  key_before a c = true.
Proof.
  unfold key_before. intros [i ->].
  destruct (key_index b), (key_index c); try done. lia.
Qed.

Lemma key_before_swap_index a b :
  a <> b -> key_before a b = false -> is_Some (key_index b).
Proof.
  intros Hne. unfold key_before.
  destruct (key_index a), (key_index b); try done; eauto.
  by destruct (String.eqb_spec a b).
Qed.

Lemma props_wf_snoc o k v :
  props_wf (o ++ [(k, v)]) <-> props_wf o /\ Forall (fun a => key_before a k = true) o.*1.
Proof.
  unfold props_wf. rewrite fmap_app. simpl. induction (o.*1) as [|a l IH]; simpl.
  - split; [|intros _; repeat constructor]. intros _. split; constructor.
  - rewrite Forall_cons. split.
    + intros [Hs Hf]%StronglySorted_inv. apply IH in Hs as [Hs Hl].
      rewrite Forall_app, Forall_singleton in Hf. destruct Hf. split; [by constructor|done].
    + intros [[Hs Hf]%StronglySorted_inv [Ha Hl]]. constructor; [by apply IH|].
      rewrite Forall_app, Forall_singleton. done.
Qed.

Lemma props_get_None k o : Forall (fun a => a <> k) o.*1 -> props_get k o = None.
Proof.
  induction o as [|[k2 w] o IH]; simpl; [done|]. rewrite Forall_cons. intros [Hne Hf].
  by destruct (String.eqb_spec k k2); [congruence|apply IH].
Qed.

Lemma props_insert_end k v o :
  Forall (fun a => key_before a k = true) o.*1 -> props_insert k v o = o ++ [(k, v)].
Proof.
  induction o as [|[k2 w] o IH]; simpl; [done|]. rewrite Forall_cons.
  intros [-> Hf]. by rewrite IH.
Qed.

(** Defining keys in enumeration order appends them. *)
Lemma props_define_snoc k v o :
  props_wf (o ++ [(k, v)]) -> props_define k v o = o ++ [(k, v)].
Proof.
  intros [_ Hf]%props_wf_snoc. unfold props_define. rewrite props_get_None.
  - by apply props_insert_end.
  - eapply Forall_impl; [exact Hf|]. intros a. apply key_before_ne.
Qed.

Lemma props_of_wf o : props_wf o -> props_of o = o.
Proof.
  unfold props_of. induction o as [|[k v] o IH] using rev_ind; [done|].
  intros Hwf. rewrite fold_left_app. simpl. rewrite IH.
  - by apply props_define_snoc.
  - by apply props_wf_snoc in Hwf as [? _].
Qed.

Lemma props_replace_keys k v o : (props_replace k v o).*1 = o.*1.
Proof.
  induction o as [|[k2 w] o IH]; simpl; [done|].
  destruct (String.eqb_spec k k2) as [->|]; csimpl; [done|by rewrite IH].
Qed.

Lemma props_insert_keys k v o a :
  a ∈ (props_insert k v o).*1 <-> a = k \/ a ∈ o.*1.
Proof.
  induction o as [|[k2 w] o IH]; simpl; [set_solver|].
  destruct (key_before k2 k); simpl; set_solver.
Qed.

Lemma props_insert_wf k v o :
  props_get k o = None -> props_wf o -> props_wf (props_insert k v o).
Proof.
  unfold props_wf. induction o as [|[k2 w] o IH]; simpl; intros Hk Hs.
  { repeat constructor. }
  destruct (String.eqb_spec k k2) as [->|Hne]; [done|].
  apply StronglySorted_inv in Hs as [Hs Hf].
  destruct (key_before k2 k) eqn:E; simpl.
  - constructor; [by apply IH|]. apply Forall_forall. intros a.
    rewrite props_insert_keys. intros [->|Ha]; [done|].
    by rewrite Forall_forall in Hf; apply Hf.
  - constructor; [by constructor|].
    assert (Hi : is_Some (key_index k)) by (by apply (key_before_swap_index k2 k)).
    assert (Hb : key_before k k2 = true) by (by apply key_before_total).
    constructor; [done|]. eapply Forall_impl; [exact Hf|].
    intros a Ha. by eapply key_before_trans.
Qed.

Lemma props_define_wf k v o : props_wf o -> props_wf (props_define k v o).
Proof.
  intros Hwf. unfold props_define. destruct (props_get k o) eqn:E.
  - unfold props_wf. by rewrite props_replace_keys.
  - by apply props_insert_wf.
Qed.

(** Object literals and spreads of well-formed objects are well formed. *)
Lemma props_spread_wf l o : props_wf o -> props_wf (props_spread o l).
Proof.
  unfold props_spread. revert o. induction l as [|[k v] l IH]; intros o Hwf; simpl; [done|].
  apply IH. by apply props_define_wf.
Qed.

Lemma props_of_is_wf l : props_wf (props_of l).
Proof. apply (props_spread_wf l []). constructor. Qed.

#[global] Hint Resolve props_define_wf props_of_is_wf props_spread_wf : js.
