(* ===== verification/Json.v ===== *)
(** * JSON.stringify and JSON.parse

    The serialisation the clients store in [localStorage], put in request
    bodies, write to exported wallet files and read from responses.
    [json_roundtrip] shows that [JSON.parse] inverts [JSON.stringify] (compact
    or indented) on JSON data; [json_parse_ok] that [JSON.parse] only produces
    JSON data; [parse_value_fuel] that the parser's fuel is enough for every
    input. *)

From S2P Require Import Prelude JsValue.
Local Open Scope Z_scope.

Definition dquote : ascii := "034".
Definition backslash : ascii := "092".
Definition newline : ascii := "010".

(** ** Serialisation *)

Definition esc (e : ascii) : string := String backslash (String e "").

(** [QuoteJSONString] on one code unit. *)
Definition quote_char (c : ascii) : string :=
  let n := code c in
  if Ascii.eqb c dquote then esc dquote
  else if Ascii.eqb c backslash then esc backslash
  else if n =? 8 then esc "b"
  else if n =? 9 then esc "t"
  else if n =? 10 then esc "n"
  else if n =? 12 then esc "f"
  else if n =? 13 then esc "r"
  else if n <? 32 then
    String backslash ("u00" +:+ String (digit_char (n / 16)) (String (digit_char (n mod 16)) ""))
  else String c "".

Fixpoint quote_chars (s : string) : string :=
  match s with
  | EmptyString => ""
  | String c s' => quote_char c +:+ quote_chars s'
  end.

Definition quote (s : string) : string :=
  String dquote (quote_chars s +:+ String dquote "").

Definition num_json (n : num) : string :=
  match n with Fin _ _ => num_to_string n | _ => "null" end.

(** The members of an array or object between its brackets. *)
Definition bracket (op cl : ascii) (gap ind : string) (parts : list string) : string :=
  match parts with
  | [] => String op (String cl "")
  | _ =>
      if String.eqb gap "" then String op (join "," parts +:+ String cl "")
      else let nl := String newline (ind +:+ gap) in
           String op (nl +:+ join ("," +:+ nl) parts +:+ String newline ind +:+ String cl "")
  end.

Definition member (gap : string) (k s : string) : string :=
  quote k +:+ (if String.eqb gap "" then ":" else ": ") +:+ s.

(** [SerializeJSONProperty]; [None] is [undefined]. *)
Fixpoint ser (gap ind : string) (v : value) : option string :=
  match v with
  | Undefined => None
  | Null => Some "null"
  | Bool b => Some (if b then "true" else "false")
  | Num n => Some (num_json n)
  | Str s => Some (quote s)
  | Arr l =>
      Some (bracket "[" "]" gap ind (map (fun x => default "null" (ser gap (ind +:+ gap) x)) l))
  | Obj o =>
      Some (bracket "{" "}" gap ind
              (omap (fun '(k, s) => member gap k <$> s)
                 (map (fun '(k, x) => (k, ser gap (ind +:+ gap) x)) o)))
  | Bytes l =>
      Some (bracket "{" "}" gap ind
              (imap (fun i b => member gap (nat_to_string 10 (Z.of_nat i)) (num_json (int b))) l))
  end.

(** [JSON.stringify(v)] *)
Definition stringify (v : value) : value :=
  match ser "" "" v with Some s => Str s | None => Undefined end.

(** [JSON.stringify(v, null, 2)] *)
Definition stringify_2 (v : value) : value :=
  match ser "  " "" v with Some s => Str s | None => Undefined end.

(** ** Parsing *)

Definition is_ws (c : ascii) : bool :=
  let n := code c in (n =? 9) || (n =? 10) || (n =? 13) || (n =? 32).

Fixpoint skip_ws (s : string) : string :=
  match s with
  | EmptyString => ""
  | String c s' => if is_ws c then skip_ws s' else s
  end.

(** An escape after the backslash: the character it denotes. *)
Definition escape_val (e : ascii) : option ascii :=
  if Ascii.eqb e dquote then Some dquote
  else if Ascii.eqb e backslash then Some backslash
  else if Ascii.eqb e "/" then Some "/"%char
  else if Ascii.eqb e "b" then Some (chr 8)
  else if Ascii.eqb e "t" then Some (chr 9)
  else if Ascii.eqb e "n" then Some (chr 10)
  else if Ascii.eqb e "f" then Some (chr 12)
  else if Ascii.eqb e "r" then Some (chr 13)
  else None.

Definition hex4 (a b c d : ascii) : option Z :=
  x ← digit_val 16 a; y ← digit_val 16 b; z ← digit_val 16 c; t ← digit_val 16 d;
  Some (((x * 16 + y) * 16 + z) * 16 + t).

(** The characters of a string literal after its opening quote.  Escapes of code
    units of 256 and more are outside the modelled strings. *)
Fixpoint parse_chars (s : string) : option (string * string) :=
  match s with
  | EmptyString => None
  | String c s' =>
      if Ascii.eqb c dquote then Some ("", s')
      else if Ascii.eqb c backslash then
        match s' with
        | EmptyString => None
        | String e r =>
            if Ascii.eqb e "u" then
              match r with
              | String a (String b (String d (String f r'))) =>
                  n ← hex4 a b d f;
                  if n <? 256 then
                    '(t, rest) ← parse_chars r'; Some (String (chr n) t, rest)
                  else None
              | _ => None
              end
            else
              x ← escape_val e;
              '(t, rest) ← parse_chars r; Some (String x t, rest)
        end
      else if code c <? 32 then None
      else '(t, rest) ← parse_chars s'; Some (String c t, rest)
  end.

(** [int frac? exp?] of the JSON grammar, after an optional minus sign. *)
Definition parse_frac (acc : Z) (s : string) : option (Z * nat * string) :=
  match s with
  | String c s' =>
      if Ascii.eqb c "." then
        if starts_digit 10 s' then
          let '(m, r) := read_digits 10 acc s' in
          Some (m, (String.length s' - String.length r)%nat, r)
        else None
      else Some (acc, 0%nat, s)
  | EmptyString => Some (acc, 0%nat, s)
  end.

Definition parse_exp (s : string) : option (Z * string) :=
  match s with
  | String c s' =>
      if Ascii.eqb c "e" || Ascii.eqb c "E" then
        let '(sg, s'') :=
          match s' with
          | String d r => if Ascii.eqb d "-" then (-1, r)
                          else if Ascii.eqb d "+" then (1, r) else (1, s')
          | EmptyString => (1, s')
          end in
        if starts_digit 10 s'' then
          let '(e, r) := read_digits 10 0 s'' in Some (sg * e, r)
        else None
      else Some (0, s)
  | EmptyString => Some (0, s)
  end.

Definition scale (m : Z) (k : nat) (e : Z) : num :=
  if Z.of_nat k <=? e then Fin (m * 10 ^ (e - Z.of_nat k)) 0
  else fin m (Z.to_nat (Z.of_nat k - e)).

Definition parse_number (s : string) : option (num * string) :=
  let '(sg, s) := match s with
                  | String c s' => if Ascii.eqb c "-" then (-1, s') else (1, s)
                  | EmptyString => (1, s)
                  end in
  if starts_digit 10 s then
    let '(n, r) := match s with
                   | String c s' => if Ascii.eqb c "0" then (0, s') else read_digits 10 0 s
                   | EmptyString => (0, s)
                   end in
    '(m, k, r) ← parse_frac n r;
    '(e, r) ← parse_exp r;
    Some (scale (sg * m) k e, r)
  else None.

Definition strip (p s : string) : option string :=
  if is_prefix p s then Some (substr (String.length p) (String.length s) s) else None.

Fixpoint parse_value (fuel : nat) (s : string) {struct fuel} : option (value * string) :=
  match fuel with
  | O => None
  | S f =>
      match skip_ws s with
      | EmptyString => None
      | String c r as s' =>
          if Ascii.eqb c dquote then '(t, r') ← parse_chars r; Some (Str t, r')
          else if Ascii.eqb c "[" then
            match skip_ws r with
            | String d r' =>
                if Ascii.eqb d "]" then Some (Arr [], r')
                else '(l, r'') ← parse_elems f r; Some (Arr l, r'')
            | EmptyString => None
            end
          else if Ascii.eqb c "{" then
            match skip_ws r with
            | String d r' =>
                if Ascii.eqb d "}" then Some (Obj [], r')
                else '(l, r'') ← parse_members f r; Some (Obj (props_of l), r'')
            | EmptyString => None
            end
          else if Ascii.eqb c "n" then r' ← strip "null" s'; Some (Null, r')
          else if Ascii.eqb c "t" then r' ← strip "true" s'; Some (Bool true, r')
          else if Ascii.eqb c "f" then r' ← strip "false" s'; Some (Bool false, r')
          else '(n, r') ← parse_number s'; Some (Num n, r')
      end
  end
with parse_elems (fuel : nat) (s : string) {struct fuel} : option (list value * string) :=
  match fuel with
  | O => None
  | S f =>
      '(v, r) ← parse_value f s;
      match skip_ws r with
      | String c r' =>
          if Ascii.eqb c "," then '(l, r'') ← parse_elems f r'; Some (v :: l, r'')
          else if Ascii.eqb c "]" then Some ([v], r')
          else None
      | EmptyString => None
      end
  end
with parse_members (fuel : nat) (s : string) {struct fuel}
    : option (list (string * value) * string) :=
  match fuel with
  | O => None
  | S f =>
      match skip_ws s with
      | String q s1 =>
          if Ascii.eqb q dquote then
            '(k, s2) ← parse_chars s1;
            match skip_ws s2 with
            | String c s3 =>
                if Ascii.eqb c ":" then
                  '(v, r) ← parse_value f s3;
                  match skip_ws r with
                  | String c r' =>
                      if Ascii.eqb c "," then
                        '(l, r'') ← parse_members f r'; Some ((k, v) :: l, r'')
                      else if Ascii.eqb c "}" then Some ([(k, v)], r')
                      else None
                  | EmptyString => None
                  end
                else None
            | EmptyString => None
            end
          else None
      | EmptyString => None
      end
  end.

(** The message of a [SyntaxError] is engine-defined; this one stands for it. *)
Definition SyntaxError : exn := Error "SyntaxError" "Unexpected token in JSON".

(** [JSON.parse(s)].  Every call consumes a character or is followed by one that
    does, so [2 * length + 1] calls suffice ([parse_value_fuel]). *)
Definition json_parse (s : string) : outcome value :=
  match parse_value (2 * String.length s + 1) s with
  | Some (v, r) => if String.eqb (skip_ws r) "" then Normal v else Throw SyntaxError
  | None => Throw SyntaxError
  end.

(** ** JSON data *)

Inductive json_ok : value -> Prop :=
  | ok_null : json_ok Null
  | ok_bool b : json_ok (Bool b)
  | ok_num m k : num_wf (Fin m k) = true -> json_ok (Num (Fin m k))
  | ok_str s : json_ok (Str s)
  | ok_arr l : Forall json_ok l -> json_ok (Arr l)
  | ok_obj o : Forall (fun kv => json_ok kv.2) o -> props_wf o -> json_ok (Obj o).

(** JSON data whose objects may list their members in any order. *)
Inductive json_data : value -> Prop :=
  | data_null : json_data Null
  | data_bool b : json_data (Bool b)
  | data_num m k : num_wf (Fin m k) = true -> json_data (Num (Fin m k))
  | data_str s : json_data (Str s)
  | data_arr l : Forall json_data l -> json_data (Arr l)
  | data_obj o : Forall (fun kv => json_data kv.2) o -> json_data (Obj o).

(** The value a parser builds from members given in that order. *)
Fixpoint rebuild (v : value) : value :=
  match v with
  | Arr l => Arr (map rebuild l)
  | Obj o => Obj (props_of (map (fun '(k, x) => (k, rebuild x)) o))
  | _ => v
  end.

Fixpoint keys_okb (l : list string) : bool :=
  match l with
  | [] => true
  | k :: l' => forallb (key_before k) l' && keys_okb l'
  end.

Fixpoint json_okb (v : value) : bool :=
  match v with
  | Null | Bool _ | Str _ => true
  | Num (Fin m k) => num_wf (Fin m k)
  | Arr l => forallb json_okb l
  | Obj o => forallb (fun '(_, x) => json_okb x) o && keys_okb (map fst o)
  | _ => false
  end.
