(* ===== verification/JsonFacts.v ===== *)
(** * JSON: round trips, totality and well-formedness of parsing *)

From S2P Require Import Prelude JsValue Json.
Local Open Scope Z_scope.

#[local] Arguments String.app !_ _ : simpl nomatch.
#[local] Arguments String.eqb : simpl never.
#[local] Arguments Ascii.eqb : simpl never.

(** ** Deciding [json_ok] *)

Lemma keys_okb_spec l : keys_okb l = true <-> StronglySorted (fun a b => key_before a b = true) l.
Proof.
  induction l as [|k l IH]; simpl; [split; [constructor|done]|].
  rewrite andb_true_iff, IH, forallb_Forall. split.
  - intros [Hf Hs]. by constructor.
  - by intros [Hs Hf]%StronglySorted_inv.
Qed.

Lemma json_okb_spec v : json_okb v = true -> json_ok v.
Proof.
  induction v as [| |b|n|s|l IH|o IH|l] using value_nested_ind; simpl; try done; intros H.
  - constructor.
  - constructor.
  - destruct n; [done..|]. by constructor.
  - constructor.
  - constructor. apply forallb_Forall in H. rewrite Forall_forall in IH, H |- *. auto.
  - apply andb_true_iff in H as [H Hk]. constructor; [|by apply keys_okb_spec].
    apply forallb_Forall in H. rewrite Forall_forall in IH, H |- *.
    intros [k x] Hx. apply (IH _ Hx), (H _ Hx).
Qed.

(** ** Parsing consumes input *)

#[local] Abbreviation len := String.length.

Lemma skip_ws_len s : (len (skip_ws s) <= len s)%nat.
Proof. induction s as [|c s IH]; simpl; [lia|]. destruct (is_ws c); simpl; lia. Qed.

Lemma read_digits_len r acc s : (len (read_digits r acc s).2 <= len s)%nat.
Proof.
  revert acc. induction s as [|c s IH]; intros acc; simpl; [lia|].
  destruct (digit_val r c); simpl; [|lia]. specialize (IH (acc * r + z)). lia.
Qed.

Lemma read_digits_lt r acc s :
  starts_digit r s = true -> (len (read_digits r acc s).2 < len s)%nat.
Proof.
  destruct s as [|c s]; simpl; [done|]. destruct (digit_val r c); [|done].
  intros _. pose proof (read_digits_len r (acc * r + z) s). lia.
Qed.

Lemma parse_chars_len n s t r :
  (len s <= n)%nat -> parse_chars s = Some (t, r) -> (len r < len s)%nat.
Proof.
  revert s t r. induction n as [|n IH]; intros [|c s] t r Hn; simpl in *; try done; [lia|].
  destruct (Ascii.eqb c dquote); [intros; simplify_eq; lia|].
  destruct (Ascii.eqb c backslash).
  - destruct s as [|e s]; [done|]. simpl in Hn. destruct (Ascii.eqb e "u").
    + destruct s as [|a [|b [|d [|f s]]]]; try done. simpl in Hn.
      destruct (hex4 a b d f); simpl; [|done]. destruct (z <? 256); [|done].
      destruct (parse_chars s) as [[t' r']|] eqn:E; simpl; [|done].
      intros; simplify_eq. apply IH in E; [simpl; lia|lia].
    + destruct (escape_val e); simpl; [|done].
      destruct (parse_chars s) as [[t' r']|] eqn:E; simpl; [|done].
      intros; simplify_eq. apply IH in E; [simpl; lia|lia].
  - destruct (code c <? 32); [done|].
    destruct (parse_chars s) as [[t' r']|] eqn:E; simpl; [|done].
    intros; simplify_eq. apply IH in E; lia.
Qed.

Lemma parse_frac_len n s m k r : parse_frac n s = Some (m, k, r) -> (len r <= len s)%nat.
Proof.
  unfold parse_frac. destruct s as [|c s]; [intros; by simplify_eq|].
  destruct (Ascii.eqb c "."); [|intros; by simplify_eq].
  destruct (starts_digit 10 s); [|done]. intros H.
  pose proof (read_digits_len 10 n s). destruct (read_digits 10 n s). simplify_eq/=. lia.
Qed.

Lemma parse_exp_len s e r : parse_exp s = Some (e, r) -> (len r <= len s)%nat.
Proof.
  unfold parse_exp. destruct s as [|c s]; [intros; by simplify_eq|].
  destruct (_ || _); [|intros; by simplify_eq].
  assert (Hr : forall sg s'', (if starts_digit 10 s'' then
      let '(e, r) := read_digits 10 0 s'' in Some (sg * e, r) else None) = Some (e, r) ->
      (len r <= len s'')%nat).
  { intros sg s''. destruct (starts_digit 10 s''); [|done]. intros H.
    pose proof (read_digits_len 10 0 s''). destruct (read_digits 10 0 s''). by simplify_eq/=. }
  destruct s as [|d s]; [intros ?%Hr; simpl in *; lia|].
  destruct (Ascii.eqb d "-"); [intros ?%Hr; simpl in *; lia|].
  destruct (Ascii.eqb d "+"); intros ?%Hr; simpl in *; lia.
Qed.

Lemma parse_number_len s n r : parse_number s = Some (n, r) -> (len r < len s)%nat.
Proof.
  unfold parse_number.
  assert (Hr : forall (sg : Z) s', (if starts_digit 10 s' then
      let '(n, r) := match s' with
                   | String c s'' => if Ascii.eqb c "0" then (0, s'') else read_digits 10 0 s'
                   | EmptyString => (0, s')
                   end in
      '(m, k, r) ← parse_frac n r;
      '(e, r) ← parse_exp r;
      Some (scale (sg * m) k e, r) else None) = Some (n, r) -> (len r < len s')%nat).
  { intros sg s'. destruct (starts_digit 10 s') eqn:Hd; [|done].
    destruct s' as [|c s']; [done|].
    assert (Hlt : (len ((if Ascii.eqb c "0" then (0%Z, s') else read_digits 10 0 (String c s')).2)
        < len (String c s'))%nat).
    { destruct (Ascii.eqb c "0"); [simpl; lia|]. by apply read_digits_lt. }
    destruct (if Ascii.eqb c "0" then _ else _) as [a s2].
    destruct (parse_frac a s2) as [[[m k] s3]|] eqn:E1; simpl; [|done].
    destruct (parse_exp s3) as [[e s4]|] eqn:E2; simpl; [|done]. intros; simplify_eq.
    apply parse_frac_len in E1. apply parse_exp_len in E2. simpl in Hlt. lia. }
  destruct s as [|c s]; [done|]. destruct (Ascii.eqb c "-").
  - intros H. apply (Hr (-1) s) in H. simpl. lia.
  - intros H. by apply (Hr 1 (String c s)) in H.
Qed.

Lemma substring_len n m s : (len (String.substring n m s) <= len s - n)%nat.
Proof.
  revert n m. induction s as [|c s IH]; intros [|n] [|m]; simpl; try lia.
  - specialize (IH 0%nat m). lia.
  - apply IH.
  - apply IH.
Qed.

Lemma strip_len p s r : strip p s = Some r -> (len r <= len s - len p)%nat.
Proof.
  unfold strip. destruct (is_prefix p s); [|done]. intros; simplify_eq. apply substring_len.
Qed.

(** Split a monadic chain of options in a hypothesis. *)
Ltac opt_split :=
  repeat match goal with
  | H : (?m ≫= _) = Some _ |- _ => apply bind_Some in H as (? & ? & ?)
  | x : _ * _ |- _ => destruct x; simpl in *
  | H : Some _ = Some _ |- _ => injection H as H; subst
  | H : (_, _) = (_, _) |- _ => injection H as ? ?; subst
  | H : match ?s with EmptyString => _ | String _ _ => _ end = Some _ |- _ =>
      destruct s eqn:?; [try discriminate H|try discriminate H]
  | H : (if ?b then _ else _) = Some _ |- _ => destruct b eqn:?; try discriminate H
  end.

Ltac ws_lens :=
  repeat match goal with
  | H : skip_ws ?s = String ?c ?r |- _ =>
      lazymatch goal with
      | _ : (len (String c r) <= len s)%nat |- _ => fail
      | _ => assert (len (String c r) <= len s)%nat by (rewrite <- H; apply skip_ws_len)
      end
  end.

Lemma parse_len f :
  (forall s v r, parse_value f s = Some (v, r) -> (len r < len s)%nat) /\
  (forall s l r, parse_elems f s = Some (l, r) -> (len r < len s)%nat) /\
  (forall s l r, parse_members f s = Some (l, r) -> (len r < len s)%nat).
Proof.
  induction f as [|f (IHv & IHe & IHm)]; [done|]. split_and!; intros s v r H; simpl in H.
  - opt_split; ws_lens; simpl in *; try lia.
    all: repeat match goal with
         | H : parse_chars ?s = Some _ |- _ => apply (parse_chars_len (len s)) in H; [|lia]
         | H : parse_elems _ _ = Some _ |- _ => apply IHe in H
         | H : parse_members _ _ = Some _ |- _ => apply IHm in H
         | H : strip _ _ = Some _ |- _ => apply strip_len in H
         | H : parse_number _ = Some _ |- _ => apply parse_number_len in H
         end; simpl in *; lia.
  - opt_split; ws_lens.
    all: repeat match goal with
         | H : parse_elems _ _ = Some _ |- _ => apply IHe in H
         | H : parse_value _ _ = Some _ |- _ => apply IHv in H
         end; simpl in *; lia.
  - opt_split; ws_lens.
    all: repeat match goal with
         | H : parse_chars ?s = Some _ |- _ => apply (parse_chars_len (len s)) in H; [|lia]
         | H : parse_members _ _ = Some _ |- _ => apply IHm in H
         | H : parse_value _ _ = Some _ |- _ => apply IHv in H
         end; simpl in *; lia.
Qed.

(** ** The fuel is enough *)

Lemma skip_ws_tail s c r : skip_ws s = String c r -> (len r < len s)%nat.
Proof. intros H. pose proof (skip_ws_len s) as Hl. rewrite H in Hl. simpl in Hl. lia. Qed.

(** With at least [2 * length + 1] fuel the result does not depend on it: the
    parser never stops for lack of fuel. *)
Lemma parse_fuel f :
  (forall g s, (2 * len s + 1 <= f)%nat -> (2 * len s + 1 <= g)%nat ->
     parse_value f s = parse_value g s) /\
  (forall g s, (2 * len s + 2 <= f)%nat -> (2 * len s + 2 <= g)%nat ->
     parse_elems f s = parse_elems g s) /\
  (forall g s, (2 * len s + 2 <= f)%nat -> (2 * len s + 2 <= g)%nat ->
     parse_members f s = parse_members g s).
Proof.
  induction f as [|f (IHv & IHe & IHm)]; [split_and!; intros; lia|].
  split_and!; intros [|g] s Hf Hg; try lia; simpl.
  - destruct (skip_ws s) as [|c r] eqn:Hs; [done|]. apply skip_ws_tail in Hs.
    rewrite (IHe g r), (IHm g r) by lia. done.
  - rewrite (IHv g s) by lia. destruct (parse_value g s) as [[v r]|] eqn:Hv; [|done].
    apply (proj1 (parse_len g)) in Hv. simpl.
    destruct (skip_ws r) as [|c r'] eqn:Hr; [done|]. apply skip_ws_tail in Hr.
    by rewrite (IHe g r') by lia.
  - destruct (skip_ws s) as [|q s1] eqn:Hs; [done|]. apply skip_ws_tail in Hs.
    destruct (Ascii.eqb q dquote); [|done].
    destruct (parse_chars s1) as [[k s2]|] eqn:Hk; [|done]. simpl.
    apply (parse_chars_len (len s1)) in Hk; [|lia].
    destruct (skip_ws s2) as [|c s3] eqn:Hs2; [done|]. apply skip_ws_tail in Hs2.
    rewrite (IHv g s3) by lia. destruct (Ascii.eqb c ":"); [|done].
    destruct (parse_value g s3) as [[v r]|] eqn:Hv; [|done].
    apply (proj1 (parse_len g)) in Hv. simpl.
    destruct (skip_ws r) as [|d r'] eqn:Hr; [done|]. apply skip_ws_tail in Hr.
    by rewrite (IHm g r') by lia.
Qed.

Lemma parse_value_fuel s f g :
  (2 * len s + 1 <= f)%nat -> (2 * len s + 1 <= g)%nat -> parse_value f s = parse_value g s.
Proof. apply parse_fuel. Qed.

(** ** Parsing yields JSON data *)

Lemma scale_ok m k e : json_ok (Num (scale m k e)).
Proof.
  unfold scale. destruct (_ <=? _); [by constructor|].
  pose proof (fin_wf m (Z.to_nat (Z.of_nat k - e))) as H.
  assert (Hfin : exists m' k', fin m (Z.to_nat (Z.of_nat k - e)) = Fin m' k').
  { clear H. generalize (Z.to_nat (Z.of_nat k - e)) as j. intros j. revert m.
    induction j as [|j IH]; intros m; simpl; [eauto|]. destruct (_ =? _); eauto. }
  destruct Hfin as (m' & k' & Heq). rewrite Heq in *. by constructor.
Qed.

Lemma parse_number_ok s n r : parse_number s = Some (n, r) -> json_ok (Num n).
Proof.
  unfold parse_number. destruct (match s with "" => _ | _ => _ end) as [sg s1].
  destruct (starts_digit 10 s1); [|done].
  destruct (match s1 with "" => _ | _ => _ end) as [a s2].
  intros ([[m k] s3] & _ & H)%bind_Some. apply bind_Some in H as ([e s4] & _ & H).
  simplify_eq. apply scale_ok.
Qed.

Lemma props_replace_ok k v o :
  json_ok v -> Forall (fun kv => json_ok kv.2) o ->
  Forall (fun kv => json_ok kv.2) (props_replace k v o).
Proof.
  intros Hv. induction 1 as [|[k' w] o Hw Ho IH]; simpl; [constructor|].
  destruct (String.eqb k k'); by constructor.
Qed.

Lemma props_insert_ok k v o :
  json_ok v -> Forall (fun kv => json_ok kv.2) o ->
  Forall (fun kv => json_ok kv.2) (props_insert k v o).
Proof.
  intros Hv. induction 1 as [|[k' w] o Hw Ho IH]; simpl; [by repeat constructor|].
  destruct (key_before k' k); by repeat constructor.
Qed.

Lemma props_define_ok k v o :
  json_ok v -> Forall (fun kv => json_ok kv.2) o ->
  Forall (fun kv => json_ok kv.2) (props_define k v o).
Proof.
  intros. unfold props_define.
  destruct (props_get k o); [by apply props_replace_ok|by apply props_insert_ok].
Qed.

Lemma props_spread_ok l o :
  Forall (fun kv => json_ok kv.2) l -> Forall (fun kv => json_ok kv.2) o ->
  Forall (fun kv => json_ok kv.2) (props_spread o l).
Proof.
  intros Hl. unfold props_spread. revert o.
  induction Hl as [|[k v] l Hv Hl IH]; intros o Ho; simpl; [done|].
  apply IH. by apply props_define_ok.
Qed.

Lemma obj_ok l : Forall (fun kv => json_ok kv.2) l -> json_ok (obj l).
Proof.
  intros H. constructor; [|apply props_of_is_wf]. apply (props_spread_ok l []); [done|constructor].
Qed.

Lemma parse_ok f :
  (forall s v r, parse_value f s = Some (v, r) -> json_ok v) /\
  (forall s l r, parse_elems f s = Some (l, r) -> Forall json_ok l) /\
  (forall s l r, parse_members f s = Some (l, r) -> Forall (fun kv => json_ok kv.2) l).
Proof.
  induction f as [|f (IHv & IHe & IHm)]; [done|]. split_and!; intros s v r H; simpl in H.
  - opt_split; repeat match goal with
      | H : parse_elems _ _ = Some _ |- _ => apply IHe in H
      | H : parse_members _ _ = Some _ |- _ => apply IHm in H
      | H : parse_number _ = Some _ |- _ => apply parse_number_ok in H
      end; first [done | by apply obj_ok | by repeat constructor].
  - opt_split; repeat match goal with
      | H : parse_elems _ _ = Some _ |- _ => apply IHe in H
      | H : parse_value _ _ = Some _ |- _ => apply IHv in H
      end; by repeat constructor.
  - opt_split; repeat match goal with
      | H : parse_members _ _ = Some _ |- _ => apply IHm in H
      | H : parse_value _ _ = Some _ |- _ => apply IHv in H
      end; by repeat constructor.
Qed.

(** Everything [JSON.parse] returns is JSON data. *)
Lemma json_parse_ok s v : json_parse s = Normal v -> json_ok v.
Proof.
  unfold json_parse. destruct (parse_value _ s) as [[w r]|] eqn:E; [|done].
  destruct (String.eqb _ _); [|done]. intros; simplify_eq. by eapply parse_ok.
Qed.

(** ** Round trip: strings *)

Lemma parse_quote_char c X :
  parse_chars (quote_char c +:+ X) = '(t, r) ← parse_chars X; Some (String c t, r).
Proof. destruct c as [[] [] [] [] [] [] [] []]; reflexivity. Qed.

Lemma parse_chars_quote s rest :
  parse_chars (quote_chars s +:+ String dquote rest) = Some (s, rest).
Proof.
  induction s as [|c s IH]; [done|]. cbn [quote_chars].
  by rewrite <- string_app_assoc, parse_quote_char, IH.
Qed.

(** ** Round trip: numbers *)

Definition is_delim (c : ascii) : bool :=
  is_ws c || Ascii.eqb c "," || Ascii.eqb c "]" || Ascii.eqb c "}".

(** What may follow a value: nothing that could continue a number. *)
Definition delim (s : string) : bool :=
  match s with EmptyString => true | String c _ => is_delim c end.

Lemma is_delim_facts c :
  is_delim c = true ->
  digit_val 10 c = None /\ Ascii.eqb c "." = false /\ Ascii.eqb c "e" || Ascii.eqb c "E" = false.
Proof. destruct c as [[] [] [] [] [] [] [] []]; vm_compute; intros; split_and!; congruence. Qed.

Lemma delim_digit s : delim s = true -> starts_digit 10 s = false.
Proof. destruct s as [|c s]; [done|]. intros (H & _ & _)%is_delim_facts. simpl. by rewrite H. Qed.

Lemma parse_frac_delim n s : delim s = true -> parse_frac n s = Some (n, 0%nat, s).
Proof. destruct s as [|c s]; [done|]. intros (_ & H & _)%is_delim_facts. simpl. by rewrite H. Qed.

Lemma parse_exp_delim s : delim s = true -> parse_exp s = Some (0, s).
Proof. destruct s as [|c s]; [done|]. intros (_ & _ & H)%is_delim_facts. simpl. by rewrite H. Qed.

Lemma digit_char_zero d : 0 <= d < 10 -> Ascii.eqb (digit_char d) "0" = (d =? 0).
Proof.
  intros Hd. assert (Hc : d = 0 \/ d = 1 \/ d = 2 \/ d = 3 \/ d = 4 \/ d = 5 \/ d = 6 \/ d = 7
    \/ d = 8 \/ d = 9) by lia.
  repeat destruct Hc as [->|Hc]; [reflexivity..|]. by subst.
Qed.

Lemma nat_to_string_lead n :
  0 < n -> exists c s, nat_to_string 10 n = String c s /\ Ascii.eqb c "0" = false.
Proof.
  intros Hn. unfold nat_to_string.
  assert (Hf : (Z.to_nat (Z.log2 n) < S (Z.to_nat (Z.log2 n)))%nat) by lia.
  revert Hf. generalize (S (Z.to_nat (Z.log2 n))) as f. intros f. revert n Hn.
  induction f as [|f IH]; intros n Hn Hf; [lia|]. cbn [digits]. destruct (n <? 10) eqn:E.
  - eexists _, _. split; [done|]. rewrite digit_char_zero by lia. lia.
  - destruct (IH (n / 10)) as (c & s & -> & Hc).
    + apply Z.div_str_pos. lia.
    + assert (n / 10 <= n / 2) by (apply Z.div_le_compat_l; lia).
      assert (Z.log2 (n / 2) = Z.log2 n - 1).
      { rewrite <- Z.div2_div, Z.div2_spec, Z.log2_shiftr by lia.
        pose proof (Z.log2_pos n). lia. }
      pose proof (Z.log2_le_mono (n / 10) (n / 2)). pose proof (Z.log2_nonneg (n / 10)). lia.
    + eexists _, _. split; [done|]. done.
Qed.

Lemma parse_int_part n rest :
  0 <= n -> starts_digit 10 rest = false ->
  match nat_to_string 10 n +:+ rest with
  | String c s' => if Ascii.eqb c "0" then (0, s')
                   else read_digits 10 0 (nat_to_string 10 n +:+ rest)
  | EmptyString => (0, nat_to_string 10 n +:+ rest)
  end = (n, rest).
Proof.
  intros Hn Hr. destruct (decide (n = 0)) as [->|Hz]; [reflexivity|].
  destruct (nat_to_string_lead n) as (c & s & Heq & Hc); [lia|].
  pose proof (read_nat_to_string 10 ltac:(lia) n 0 rest Hn) as Hread.
  rewrite Heq in *. rewrite string_app_cons in *. rewrite Hc, Hread.
  by rewrite read_digits_stop by done.
Qed.

Lemma parse_frac_print (n : Z) k f rest :
  0 <= f < 10 ^ Z.of_nat k -> (0 < k)%nat -> delim rest = true ->
  parse_frac n (String "." (pad_start k "0" (nat_to_string 10 f) +:+ rest))
  = Some (n * 10 ^ Z.of_nat k + f, k, rest).
Proof.
  intros Hf Hk Hd. unfold parse_frac. cbn match.
  change (Ascii.eqb "." ".") with true. cbn match.
  pose proof (length_nat_to_string 10 ltac:(lia) f k Hf Hk) as Hl.
  replace (starts_digit 10 _) with true.
  - rewrite read_pad_start by done. rewrite read_digits_stop by (by apply delim_digit).
    rewrite string_length_app, length_pad_start by done. repeat f_equal. lia.
  - unfold pad_start. destruct (k - _)%nat; simpl; [|done].
    by rewrite nat_to_string_starts by lia.
Qed.

(** The fraction part a number prints after its integer part. *)
Definition frac_string (k : nat) (f : Z) : string :=
  match k with O => "" | S _ => "." +:+ pad_start k "0" (nat_to_string 10 f) end.

Lemma frac_not_digit k f rest :
  delim rest = true -> starts_digit 10 (frac_string k f +:+ rest) = false.
Proof. intros Hd. destruct k; [by apply delim_digit|done]. Qed.

Lemma scale_zero m k : num_wf (Fin m k) = true -> scale m k 0 = Fin m k.
Proof.
  intros Hwf. unfold scale. destruct k as [|k]; [simpl; by rewrite Z.mul_1_r|].
  destruct (Z.leb_spec (Z.of_nat (S k)) 0); [lia|].
  replace (Z.to_nat (Z.of_nat (S k) - 0)) with (S k) by lia. by apply fin_canonical.
Qed.

Lemma parse_frac_exp k a sg rest :
  0 <= a -> delim rest = true -> num_wf (Fin (sg * a) k) = true ->
  (let p := 10 ^ Z.of_nat k in
   '(m, j, r) ← parse_frac (a / p) (frac_string k (a mod p) +:+ rest);
   '(e, r) ← parse_exp r;
   Some (scale (sg * m) j e, r)) = Some (Fin (sg * a) k, rest).
Proof.
  intros Ha Hd Hwf. cbv zeta. set (p := 10 ^ Z.of_nat k).
  assert (Hp : 0 < p) by (apply Z.pow_pos_nonneg; lia).
  pose proof (Z.mod_pos_bound a p Hp) as Hm. pose proof (Z.div_mod a p) as Hdm.
  destruct k as [|k].
  - change (frac_string 0 _ +:+ rest) with rest. rewrite parse_frac_delim by done. simpl.
    rewrite parse_exp_delim by done. simpl. subst p. simpl. rewrite Z.div_1_r.
    by rewrite scale_zero.
  - change (frac_string (S k) (a mod p) +:+ rest)
      with (String "." (pad_start (S k) "0" (nat_to_string 10 (a mod p)) +:+ rest)).
    rewrite parse_frac_print by (done || lia). simpl. rewrite parse_exp_delim by done. simpl.
    replace (a / p * _ + a mod p) with a by (subst p; lia).
    by rewrite scale_zero.
Qed.

Lemma parse_unsigned sg k a rest :
  0 <= a -> delim rest = true -> num_wf (Fin (sg * a) k) = true ->
  (let p := 10 ^ Z.of_nat k in
   let s := nat_to_string 10 (a / p) +:+ frac_string k (a mod p) +:+ rest in
   if starts_digit 10 s then
     let '(n, r) := match s with
                    | String c s' => if Ascii.eqb c "0" then (0, s') else read_digits 10 0 s
                    | EmptyString => (0, s)
                    end in
     '(m, k, r) ← parse_frac n r;
     '(e, r) ← parse_exp r;
     Some (scale (sg * m) k e, r)
   else None) = Some (Fin (sg * a) k, rest).
Proof.
  intros Ha Hd Hwf. cbv zeta.
  assert (Hq : 0 <= a / 10 ^ Z.of_nat k) by (apply Z.div_pos; lia).
  rewrite nat_to_string_starts, parse_int_part by (done || lia || by apply frac_not_digit).
  by apply parse_frac_exp.
Qed.

(** Reading back a printed number. *)
Lemma parse_number_print m k rest :
  num_wf (Fin m k) = true -> delim rest = true ->
  parse_number (num_to_string (Fin m k) +:+ rest) = Some (Fin m k, rest).
Proof.
  intros Hwf Hd. unfold parse_number. cbn [num_to_string].
  fold (frac_string k (Z.abs m mod 10 ^ Z.of_nat k)).
  destruct (m <? 0) eqn:E; rewrite <- !string_app_assoc.
  - pose proof (parse_unsigned (-1) k (Z.abs m) rest) as H.
    replace (-1 * Z.abs m) with m in H by lia. apply H; [lia|done..].
  - pose proof (parse_unsigned 1 k (Z.abs m) rest) as H. cbv zeta in H.
    replace (1 * Z.abs m) with m in H by lia.
    destruct (nat_to_string_first 10 ltac:(lia) (Z.abs m / 10 ^ Z.of_nat k))
      as (c & s & Heq & [d Hc]); [apply Z.div_pos; lia|].
    rewrite string_app_nil_l. rewrite Heq, string_app_cons in *.
    destruct (Ascii.eqb_spec c "-") as [->|_]; [done|]. apply H; [lia|done..].
Qed.

(** ** Round trip: values *)

Fixpoint all_ws (s : string) : bool :=
  match s with EmptyString => true | String c s' => is_ws c && all_ws s' end.

Lemma all_ws_app a b : all_ws (a +:+ b) = all_ws a && all_ws b.
Proof. induction a as [|c a IH]; [done|]. simpl. by rewrite IH, andb_assoc. Qed.

Lemma skip_ws_all w s : all_ws w = true -> skip_ws (w +:+ s) = skip_ws s.
Proof.
  induction w as [|c w IH]; [done|]. simpl. intros [-> Hw]%andb_true_iff. auto.
Qed.

Lemma skip_ws_head w c s :
  all_ws w = true -> is_ws c = false -> skip_ws (w +:+ String c s) = String c s.
Proof. intros Hw Hc. rewrite skip_ws_all by done. simpl. by rewrite Hc. Qed.

Lemma parse_value_ws f w s : all_ws w = true -> parse_value f (w +:+ s) = parse_value f s.
Proof. intros Hw. destruct f; [done|]. cbn [parse_value]. by rewrite skip_ws_all. Qed.

Lemma delim_ws w c s : all_ws w = true -> is_delim c = true -> delim (w +:+ String c s) = true.
Proof.
  destruct w as [|d w]; [done|]. simpl. unfold is_delim. by intros [-> _]%andb_true_iff.
Qed.

(** [s] is read back as [v], whatever follows it. *)
Definition reads (v : value) (s : string) : Prop :=
  forall f rest, delim rest = true -> (2 * len (s +:+ rest) + 1 <= f)%nat ->
    parse_value f (s +:+ rest) = Some (v, rest).

(** The first character of a serialised value. *)
Definition good_head (s : string) : Prop :=
  exists c r, s = String c r /\ is_ws c = false /\ Ascii.eqb c "]" = false /\ Ascii.eqb c "}" = false.

Section brackets.
Context (w tail : string) (Hw : all_ws w = true) (Ht : all_ws tail = true).

Lemma parse_elems_print l parts rest f :
  Forall2 reads l parts -> l <> [] ->
  (2 * len (w +:+ join ("," +:+ w) parts +:+ tail +:+ String "]" rest) + 2 <= f)%nat ->
  parse_elems f (w +:+ join ("," +:+ w) parts +:+ tail +:+ String "]" rest) = Some (l, rest).
Proof.
  intros HF. revert f. induction HF as [|x s l parts Hx HF IH]; [done|].
  intros [|f] _; [lia|]. cbn [parse_elems]. rewrite parse_value_ws by done.
  destruct HF as [|y s' l parts Hy HF].
  - cbn [join]. rewrite !string_length_app. intros Hf. rewrite Hx.
    + simpl. by rewrite skip_ws_head.
    + by apply delim_ws.
    + rewrite !string_length_app. lia.
  - change (join ("," +:+ w) (s :: s' :: parts))
      with (s +:+ ("," +:+ w) +:+ join ("," +:+ w) (s' :: parts)).
    set (js := join ("," +:+ w) (s' :: parts)) in *.
    rewrite <- !string_app_assoc. change ("," +:+ ?x) with (String "," x).
    intros Hf. rewrite !string_length_app in Hf. simpl in Hf.
    rewrite !string_length_app in Hf. simpl in Hf. rewrite Hx.
    + simpl. rewrite IH; [done..|]. rewrite !string_length_app. simpl. lia.
    + done.
    + rewrite !string_length_app. simpl. rewrite !string_length_app. simpl. lia.
Qed.

Definition reads_member (kv : string * value) (p : string) : Prop :=
  exists s colon, p = quote kv.1 +:+ String ":" colon +:+ s /\ all_ws colon = true /\ reads kv.2 s.

Lemma parse_member_step f kv p rest :
  reads_member kv p -> delim rest = true -> (2 * len (p +:+ rest) + 2 <= S f)%nat ->
  parse_members (S f) (w +:+ p +:+ rest) =
  match skip_ws rest with
  | String c r' =>
      if Ascii.eqb c "," then
        '(l, r'') ← parse_members f r'; Some (kv :: l, r'')
      else if Ascii.eqb c "}" then Some ([kv], r')
      else None
  | EmptyString => None
  end.
Proof.
  destruct kv as [k x]. intros (s & colon & -> & Hc & Hs) Hd Hf. cbn [parse_members].
  unfold quote in *. cbn [fst snd] in *. rewrite <- !string_app_assoc in *.
  rewrite string_app_cons, skip_ws_head by done.
  change (Ascii.eqb dquote dquote) with true. cbn match.
  rewrite <- !string_app_assoc. rewrite string_app_cons, string_app_nil_l.
  rewrite parse_chars_quote. cbn [mbind option_bind]. rewrite string_app_cons.
  change (skip_ws (String ":" (colon +:+ s +:+ rest))) with (String ":" (colon +:+ s +:+ rest)).
  change (Ascii.eqb ":" ":") with true. cbn match. rewrite parse_value_ws by done.
  rewrite Hs; [done|done|].
  repeat first [rewrite string_length_app in Hf | progress simpl in Hf].
  rewrite string_length_app. lia.
Qed.

Lemma parse_members_print l parts rest f :
  Forall2 reads_member l parts -> l <> [] ->
  (2 * len (w +:+ join ("," +:+ w) parts +:+ tail +:+ String "}" rest) + 2 <= f)%nat ->
  parse_members f (w +:+ join ("," +:+ w) parts +:+ tail +:+ String "}" rest) = Some (l, rest).
Proof.
  intros HF. revert f. induction HF as [|x s l parts Hx HF IH]; [done|].
  intros [|f] _; [lia|]. destruct HF as [|y s' l parts Hy HF].
  - cbn [join]. intros Hf. rewrite (parse_member_step f x s).
    + by rewrite skip_ws_head.
    + done.
    + by apply delim_ws.
    + rewrite !string_length_app in *. lia.
  - change (join ("," +:+ w) (s :: s' :: parts))
      with (s +:+ ("," +:+ w) +:+ join ("," +:+ w) (s' :: parts)).
    set (js := join ("," +:+ w) (s' :: parts)) in *.
    rewrite <- !string_app_assoc. change ("," +:+ ?x) with (String "," x).
    intros Hf. rewrite !string_length_app in Hf. simpl in Hf.
    rewrite !string_length_app in Hf. simpl in Hf. rewrite (parse_member_step f x s).
    + simpl. rewrite IH; [done..|]. rewrite !string_length_app. simpl. lia.
    + done.
    + done.
    + rewrite !string_length_app. simpl. rewrite !string_length_app. simpl. lia.
Qed.
End brackets.

(** Compact and indented brackets have the same shape. *)
Lemma bracket_shape gap ind :
  all_ws gap = true -> all_ws ind = true ->
  exists w tail, all_ws w = true /\ all_ws tail = true /\
    forall op cl p ps, bracket op cl gap ind (p :: ps) =
      String op (w +:+ join ("," +:+ w) (p :: ps) +:+ tail +:+ String cl "").
Proof.
  intros Hg Hi. destruct (String.eqb gap "") eqn:E.
  - exists "", "". split_and!; [done..|]. intros. unfold bracket. by rewrite E.
  - exists (String newline (ind +:+ gap)), (String newline ind). split_and!.
    + simpl. by rewrite all_ws_app, Hg, Hi.
    + done.
    + intros. unfold bracket. by rewrite E.
Qed.

Definition reads_head (v : value) (s : string) : Prop := reads v s /\ good_head s.

Lemma num_head m k : good_head (num_to_string (Fin m k)).
Proof.
  unfold good_head. cbn [num_to_string]. destruct (m <? 0).
  - rewrite string_app_cons. eexists _, _. by split_and!.
  - rewrite string_app_nil_l.
    destruct (nat_to_string_first 10 ltac:(lia) (Z.abs m / 10 ^ Z.of_nat k))
      as (c & s & -> & [d Hd]).
    { apply Z.div_pos; [lia|]. apply Z.pow_pos_nonneg; lia. }
    exists c. eexists. split; [done|].
    destruct c as [[] [] [] [] [] [] [] []]; vm_compute in Hd |- *; (discriminate || done).
Qed.

Lemma parse_value_num f s n r :
  good_head s -> parse_number s = Some (n, r) -> parse_value (S f) s = Some (Num n, r).
Proof.
  intros (c & t & -> & Hc & _ & _) H. cbn [parse_value skip_ws]. rewrite Hc.
  assert (Hnot : Ascii.eqb c dquote = false /\ Ascii.eqb c "[" = false /\ Ascii.eqb c "{" = false
    /\ Ascii.eqb c "n" = false /\ Ascii.eqb c "t" = false /\ Ascii.eqb c "f" = false).
  { split_and!; match goal with |- Ascii.eqb ?c ?d = false =>
      destruct (Ascii.eqb_spec c d) as [->|]; [discriminate H|done] end. }
  destruct Hnot as (-> & -> & -> & -> & -> & ->). by rewrite H.
Qed.

Lemma reads_num m k : num_wf (Fin m k) = true -> reads_head (Num (Fin m k)) (num_to_string (Fin m k)).
Proof.
  intros Hwf. split; [|apply num_head]. intros [|f] rest Hd Hf; [lia|].
  apply parse_value_num; [|by apply parse_number_print].
  destruct (num_head m k) as (c & r & -> & ?). exists c. eexists. split; [apply string_app_cons|done].
Qed.

Lemma substring_all s m : (len s <= m)%nat -> String.substring 0 m s = s.
Proof.
  revert m. induction s as [|c s IH]; intros [|m] Hm; simpl in *; try done; [lia|].
  rewrite IH by lia. done.
Qed.

Lemma reads_quote s : reads_head (Str s) (quote s).
Proof.
  split; [|eexists _, _; by split_and!].
  intros [|f] rest Hd Hf; [lia|]. unfold quote. rewrite string_app_cons, <- string_app_assoc.
  cbn [parse_value]. change (skip_ws (String dquote ?x)) with (String dquote x). cbn match.
  change (Ascii.eqb dquote dquote) with true. cbn match.
  rewrite string_app_cons, string_app_nil_l. by rewrite parse_chars_quote.
Qed.

Lemma reads_lit v p :
  (v, p) ∈ [(Null, "null"); (Bool true, "true"); (Bool false, "false")] -> reads_head v p.
Proof.
  intros Hin. repeat (apply elem_of_cons in Hin as [[= -> ->]|Hin]); [..|by apply elem_of_nil in Hin].
  all: split; [|eexists _, _; by split_and!]; intros [|f] rest Hd Hf; [lia|].
  all: simpl; unfold strip, substr; simpl; by rewrite substring_all by lia.
Qed.

Lemma skip_ws_join w sep p ps X :
  all_ws w = true -> good_head p ->
  exists c r, skip_ws (w +:+ join sep (p :: ps) +:+ X) = String c r /\
    Ascii.eqb c "]" = false /\ Ascii.eqb c "}" = false.
Proof.
  intros Hw (c & r & -> & Hc & H1 & H2). rewrite skip_ws_all by done. destruct ps; simpl.
  - rewrite Hc. eauto.
  - rewrite Hc. eauto.
Qed.

Lemma reads_arr l parts gap ind :
  all_ws gap = true -> all_ws ind = true -> Forall2 reads_head l parts ->
  reads_head (Arr l) (bracket "[" "]" gap ind parts).
Proof.
  intros Hg Hi HF. destruct (bracket_shape gap ind Hg Hi) as (w & tail & Hw & Ht & Hsh).
  destruct HF as [|x p l ps [Hx Hp] HF].
  { split; [|eexists _, _; by split_and!]. intros [|f] rest Hd Hf; [lia|]. done. }
  rewrite Hsh. split; [|eexists _, _; by split_and!].
  intros [|f] rest Hd Hf; [lia|]. rewrite string_app_cons, <- !string_app_assoc in *.
  change ("]" +:+ rest) with (String "]" rest) in *. cbn [parse_value].
  change (skip_ws (String "[" ?x)) with (String "[" x). cbn match.
  change (Ascii.eqb "[" dquote) with false. change (Ascii.eqb "[" "[") with true. cbn match.
  destruct (skip_ws_join w ("," +:+ w) p ps (tail +:+ String "]" rest) Hw Hp)
    as (c & r & -> & -> & _).
  rewrite parse_elems_print with (l := x :: l); try done.
  - constructor; [done|]. by eapply Forall2_impl; [exact HF|]; intros ?? [? _].
  - cbn [String.length] in Hf. lia.
Qed.

Lemma reads_obj o parts gap ind :
  all_ws gap = true -> all_ws ind = true ->
  Forall2 (fun kv p => reads_member kv p) o parts ->
  reads_head (Obj (props_of o)) (bracket "{" "}" gap ind parts).
Proof.
  intros Hg Hi HF. destruct (bracket_shape gap ind Hg Hi) as (w & tail & Hw & Ht & Hsh).
  destruct HF as [|x p l ps Hx HF].
  { split; [|eexists _, _; by split_and!]. intros [|f] rest Hd Hf; [lia|]. done. }
  rewrite Hsh. split; [|eexists _, _; by split_and!].
  intros [|f] rest Hd Hf; [lia|]. rewrite string_app_cons, <- !string_app_assoc in *.
  change ("}" +:+ rest) with (String "}" rest) in *. cbn [parse_value].
  change (skip_ws (String "{" ?x)) with (String "{" x). cbn match.
  change (Ascii.eqb "{" dquote) with false. change (Ascii.eqb "{" "[") with false.
  change (Ascii.eqb "{" "{") with true. cbn match.
  assert (Hp : good_head p).
  { destruct Hx as (s & colon & -> & _). eexists _, _. by split_and!. }
  destruct (skip_ws_join w ("," +:+ w) p ps (tail +:+ String "}" rest) Hw Hp)
    as (c & r & -> & _ & ->).
  rewrite parse_members_print with (l := x :: l); try done.
  - by constructor.
  - cbn [String.length] in Hf. lia.
Qed.

Lemma reads_member_ser gap k x s :
  all_ws gap = true -> reads x s -> reads_member (k, x) (member gap k s).
Proof.
  intros Hg Hx. unfold member. destruct (String.eqb gap "").
  - by exists s, "".
  - by exists s, " ".
Qed.

(** Serialised JSON data is read back, members defined in the order printed. *)
Lemma ser_reads gap v ind :
  all_ws gap = true -> all_ws ind = true -> json_data v ->
  exists s, ser gap ind v = Some s /\ reads_head (rebuild v) s.
Proof.
  intros Hg. revert ind.
  induction v as [| |b|n|s|l IH|o IH|l] using value_nested_ind; intros ind Hi Hok;
    inversion Hok; subst; cbn [ser rebuild].
  - eexists; split; [done|]. apply reads_lit. set_solver.
  - eexists; split; [done|]. apply reads_lit. destruct b; set_solver.
  - eexists; split; [done|]. by apply reads_num.
  - eexists; split; [done|]. apply reads_quote.
  - eexists; split; [done|]. apply reads_arr; [done..|].
    assert (Hi' : all_ws (ind +:+ gap) = true) by (by rewrite all_ws_app, Hi, Hg).
    clear Hok. induction l as [|x l IHl]; simpl; [constructor|].
    apply Forall_cons in IH as [IHx IH]. apply Forall_cons in H0 as [Hx Hl].
    destruct (IHx _ Hi' Hx) as (s & -> & Hs). constructor; [done|]. by apply IHl.
  - eexists; split; [done|]. apply reads_obj; [done..|].
    assert (Hi' : all_ws (ind +:+ gap) = true) by (by rewrite all_ws_app, Hi, Hg).
    clear Hok. induction o as [|[k x] l IHl]; simpl; [constructor|].
    apply Forall_cons in IH as [IHx IH]. apply Forall_cons in H0 as [Hx Hl].
    cbn [snd] in IHx, Hx. destruct (IHx _ Hi' Hx) as (s & -> & Hs & _). simpl.
    constructor; [by apply reads_member_ser|]. by apply IHl.
Qed.

Lemma json_ok_data v : json_ok v -> json_data v.
Proof.
  induction v as [| |b|n|s|l IH|o IH|l] using value_nested_ind; inversion 1; subst;
    constructor; try done; rewrite Forall_forall in *; auto.
Qed.

Lemma rebuild_ok v : json_ok v -> rebuild v = v.
Proof.
  induction v as [| |b|n|s|l IH|o IH|l] using value_nested_ind; inversion 1 as [| | | | ? HF|? HF Hwf];
    subst; simpl; try done; f_equal.
  - clear H. induction HF as [|x l Hx HF IHl]; [done|]. simpl.
    apply Forall_cons in IH as [IHx IH]. rewrite (IHx Hx). f_equal. by apply IHl.
  - replace (map _ o) with o; [by apply props_of_wf|].
    clear H Hwf. induction HF as [|[k x] l Hx HF IHl]; [done|]. simpl.
    apply Forall_cons in IH as [IHx IH]. cbn [snd] in IHx, Hx. rewrite (IHx Hx). f_equal. by apply IHl.
Qed.

Lemma json_parse_data gap v :
  all_ws gap = true -> json_data v ->
  exists s, ser gap "" v = Some s /\ json_parse s = Normal (rebuild v).
Proof.
  intros Hg Hok. destruct (ser_reads gap v "" Hg eq_refl Hok) as (s & Hs & Hr & _).
  exists s. split; [done|]. unfold json_parse.
  specialize (Hr (2 * len s + 1)%nat "" eq_refl). rewrite string_app_nil_r in Hr.
  rewrite Hr by lia. done.
Qed.

Lemma json_parse_ser gap v :
  all_ws gap = true -> json_ok v ->
  exists s, ser gap "" v = Some s /\ json_parse s = Normal v.
Proof.
  intros Hg Hok. destruct (json_parse_data gap v Hg (json_ok_data v Hok)) as (s & Hs & Hp).
  rewrite rebuild_ok in Hp by done. eauto.
Qed.

(** [JSON.parse(JSON.stringify(v))] is [v]. *)
Lemma json_roundtrip v :
  json_ok v -> exists s, stringify v = Str s /\ json_parse s = Normal v.
Proof.
  intros Hok. destruct (json_parse_ser "" v eq_refl Hok) as (s & Hs & Hp).
  exists s. unfold stringify. by rewrite Hs.
Qed.

Lemma json_roundtrip_2 v :
  json_ok v -> exists s, stringify_2 v = Str s /\ json_parse s = Normal v.
Proof.
  intros Hok. destruct (json_parse_ser "  " v eq_refl Hok) as (s & Hs & Hp).
  exists s. unfold stringify_2. by rewrite Hs.
Qed.

(** [JSON.stringify] is injective on JSON data. *)
Lemma stringify_inj v w : json_ok v -> json_ok w -> stringify v = stringify w -> v = w.
Proof.
  intros Hv Hw Heq. destruct (json_roundtrip v Hv) as (s & Hs & Hp).
  destruct (json_roundtrip w Hw) as (t & Ht & Hq). congruence.
Qed.

#[global] Arguments stringify : simpl never.
#[global] Arguments stringify_2 : simpl never.
#[global] Arguments json_parse : simpl never.
