(* ===== verification/JsonCanon.v ===== *)
(** * JSON data up to the order of object members

    [canon] sorts the members of every object by key; two values are the same
    JSON data when they have the same canonical form ([json_equiv]).  This is
    the equivalence RFC 8785 (JSON Canonicalization Scheme) serialises modulo,
    and the one under which a receiver may rebuild a request body. *)

From S2P Require Import Prelude JsValue Json JsonFacts.

Abbreviation props := (list (string * value)).

Fixpoint ins (kv : string * value) (o : props) : props :=
  match o with
  | [] => [kv]
  | kv' :: o' => if String.leb kv.1 kv'.1 then kv :: o else kv' :: ins kv o'
  end.

Definition sort_props (o : props) : props := foldr ins [] o.

Fixpoint canon (v : value) : value :=
  match v with
  | Arr l => Arr (map canon l)
  | Obj o => Obj (sort_props (map (fun '(k, x) => (k, canon x)) o))
  | _ => v
  end.

Definition json_equiv (v w : value) : Prop := canon v = canon w.

#[export] Instance json_equiv_equivalence : Equivalence json_equiv.
Proof. split; unfold json_equiv; repeat intro; congruence. Qed.

Infix "≡ⱼ" := json_equiv (at level 70).

(** ** Sorting *)

Lemma leb_total a b : String.leb a b = false -> String.leb b a = true.
Proof. pose proof (String.leb_total a b). destruct (String.leb a b); intros ?; [done|]. by destruct (String.leb b a), H. Qed.

Lemma leb_trans a b c : String.leb a b = true -> String.leb b c = true -> String.leb a c = true.
Proof.
  intros H1 H2. apply Is_true_true. apply (transitivity (R := String.le) (y := b)); by apply Is_true_true.
Qed.

Lemma leb_antisym a b : String.leb a b = true -> String.leb b a = true -> a = b.
Proof. apply String.leb_antisym. Qed.

Lemma ins_comm a b o : a.1 <> b.1 -> ins a (ins b o) = ins b (ins a o).
Proof.
  intros Hne. induction o as [|c o IH]; simpl.
  - destruct (String.leb a.1 b.1) eqn:E1, (String.leb b.1 a.1) eqn:E2; try done.
    + destruct Hne. by apply leb_antisym.
    + apply leb_total in E1. congruence.
  - destruct (String.leb a.1 c.1) eqn:Ea, (String.leb b.1 c.1) eqn:Eb; simpl.
    + destruct (String.leb a.1 b.1) eqn:E1, (String.leb b.1 a.1) eqn:E2; simpl;
        rewrite ?Ea, ?Eb; try done.
      * destruct Hne. by apply leb_antisym.
      * apply leb_total in E1. congruence.
    + rewrite Ea. destruct (String.leb b.1 a.1) eqn:E2; [|by rewrite Eb].
      rewrite (leb_trans b.1 a.1 c.1) in Eb by done. done.
    + rewrite Eb. destruct (String.leb a.1 b.1) eqn:E1; [|by rewrite Ea].
      rewrite (leb_trans a.1 b.1 c.1) in Ea by done. done.
    + by rewrite Ea, Eb, IH.
Qed.

Lemma ins_perm a o : ins a o ≡ₚ a :: o.
Proof.
  induction o as [|c o IH]; simpl; [done|]. destruct (String.leb _ _); [done|].
  rewrite IH. apply Permutation_swap.
Qed.

Lemma sort_props_perm o : sort_props o ≡ₚ o.
Proof. induction o as [|a o IH]; simpl; [done|]. by rewrite ins_perm, IH. Qed.

(** Sorting members with distinct keys depends only on the set of members. *)
Lemma sort_props_Permutation o o' : NoDup o.*1 -> o ≡ₚ o' -> sort_props o = sort_props o'.
Proof.
  intros Hnd Hp. unfold sort_props. apply (foldr_permutation (=) ins []); [|done].
  intros i a j b acc Hij Hi Hj. apply ins_comm. intros Heq. apply Hij.
  apply (NoDup_lookup o.*1 i j a.1); [done|..]; rewrite list_lookup_fmap.
  - by rewrite Hi.
  - by rewrite Hj, Heq.
Qed.

Lemma ins_map (f : string * value -> string * value) a o :
  (forall kv, (f kv).1 = kv.1) -> ins (f a) (map f o) = map f (ins a o).
Proof.
  intros Hf. induction o as [|c o IH]; simpl; [done|]. rewrite !Hf.
  destruct (String.leb _ _); simpl; [done|]. by rewrite IH.
Qed.

Lemma sort_props_map (f : string * value -> string * value) o :
  (forall kv, (f kv).1 = kv.1) -> sort_props (map f o) = map f (sort_props o).
Proof.
  intros Hf. induction o as [|a o IH]; simpl; [done|]. by rewrite IH, ins_map.
Qed.

(** ** Rebuilding an object permutes its members *)

Lemma props_insert_perm k v o : props_insert k v o ≡ₚ (k, v) :: o.
Proof.
  induction o as [|[k' w] o IH]; simpl; [done|]. destruct (key_before k' k); [|done].
  rewrite IH. apply Permutation_swap.
Qed.

Lemma props_of_perm o : NoDup o.*1 -> props_of o ≡ₚ o.
Proof.
  unfold props_of. induction o as [|[k v] o IH] using rev_ind; [done|].
  rewrite fmap_app, NoDup_app. intros (Hnd & Hk & _). rewrite fold_left_app. simpl.
  specialize (IH Hnd). unfold props_define.
  rewrite props_get_None.
  - rewrite props_insert_perm, IH. by rewrite Permutation_app_comm.
  - rewrite IH. rewrite Forall_forall. intros a Ha ->. by eapply Hk; [|apply list_elem_of_singleton].
Qed.

Lemma props_wf_NoDup o : props_wf o -> NoDup o.*1.
Proof.
  unfold props_wf. induction (o.*1) as [|k l IH]; [constructor|].
  intros [Hs Hf]%StronglySorted_inv. constructor; [|by apply IH].
  intros Hin. rewrite Forall_forall in Hf. apply Hf in Hin. by rewrite key_before_irrefl in Hin.
Qed.

(** ** Canonical forms *)

(** Distinct keys at every level, as [json_ok] guarantees. *)
Inductive keys_distinct : value -> Prop :=
  | kd_arr l : Forall keys_distinct l -> keys_distinct (Arr l)
  | kd_obj o : NoDup o.*1 -> Forall (fun kv => keys_distinct kv.2) o -> keys_distinct (Obj o)
  | kd_other v : match v with Arr _ | Obj _ => False | _ => True end -> keys_distinct v.

Lemma json_ok_distinct v : json_ok v -> keys_distinct v.
Proof.
  induction v as [| |b|n|s|l IH|o IH|l] using value_nested_ind; inversion 1; subst;
    try (by apply kd_other).
  - constructor. rewrite Forall_forall in *. auto.
  - constructor; [by apply props_wf_NoDup|]. rewrite Forall_forall in *. auto.
Qed.

Lemma keys_map (f : value -> value) (o : props) : (map (fun '(k, x) => (k, f x)) o).*1 = o.*1.
Proof. induction o as [|[k x] o IH]; csimpl; [done|]. by rewrite IH. Qed.

Lemma canon_rebuild v : keys_distinct v -> canon (rebuild v) = canon v.
Proof.
  induction v as [| |b|n|s|l IH|o IH|l] using value_nested_ind; inversion 1 as [? HF|? Hnd HF|? Hv];
    subst; try done; simpl; f_equal.
  - rewrite map_map. clear H. induction HF as [|x l Hx HF IHl]; [done|]. simpl.
    apply Forall_cons in IH as [IHx IH]. rewrite IHx by done. f_equal. by apply IHl.
  - transitivity (sort_props (map (fun '(k, x) => (k, canon x)) (map (fun '(k, x) => (k, rebuild x)) o))).
    + apply sort_props_Permutation.
      * rewrite keys_map. apply props_wf_NoDup, props_of_is_wf.
      * apply Permutation_map, props_of_perm. by rewrite keys_map.
    + f_equal. rewrite map_map. clear H Hnd. induction HF as [|[k x] l Hx HF IHl]; [done|]. simpl.
      apply Forall_cons in IH as [IHx IH]. cbn [snd] in IHx, Hx. rewrite IHx by done.
      f_equal. by apply IHl.
Qed.

Lemma canon_idem v : keys_distinct v -> canon (canon v) = canon v.
Proof.
  induction v as [| |b|n|s|l IH|o IH|l] using value_nested_ind; inversion 1 as [? HF|? Hnd HF|? Hv];
    subst; try done; simpl; f_equal.
  - rewrite map_map. clear H. induction HF as [|x l Hx HF IHl]; [done|]. simpl.
    apply Forall_cons in IH as [IHx IH]. rewrite IHx by done. f_equal. by apply IHl.
  - rewrite <- sort_props_map by (by intros []).
    set (o' := map (fun '(k, x) => (k, canon x)) o).
    transitivity (sort_props (map (fun '(k, x) => (k, canon x)) o')).
    + apply sort_props_Permutation.
      * by rewrite sort_props_perm, keys_map; unfold o'; rewrite keys_map.
      * apply sort_props_perm.
    + f_equal. unfold o'. rewrite map_map. clear H Hnd. induction HF as [|[k x] l Hx HF IHl]; [done|]. simpl.
      apply Forall_cons in IH as [IHx IH]. cbn [snd] in IHx, Hx. rewrite IHx by done.
      f_equal. by apply IHl.
Qed.

Lemma Forall_sort (P : string * value -> Prop) o : Forall P o -> Forall P (sort_props o).
Proof. by rewrite sort_props_perm. Qed.

Lemma canon_distinct v : keys_distinct v -> keys_distinct (canon v).
Proof.
  induction v as [| |b|n|s|l IH|o IH|l] using value_nested_ind; inversion 1 as [? HF|? Hnd HF|? Hv];
    subst; try done; simpl; try (by apply kd_other).
  - constructor. clear H. induction HF as [|x l Hx HF IHl]; [constructor|].
    apply Forall_cons in IH as [IHx IH]. constructor; auto.
  - constructor; [by rewrite sort_props_perm, keys_map|]. apply Forall_sort.
    clear H Hnd. induction HF as [|[k x] l Hx HF IHl]; [constructor|].
    apply Forall_cons in IH as [IHx IH]. constructor; simpl; auto.
Qed.

Lemma canon_data v : json_data v -> json_data (canon v).
Proof.
  induction v as [| |b|n|s|l IH|o IH|l] using value_nested_ind; inversion 1 as [| | | |? HF|? HF];
    subst; simpl; constructor; try done.
  - clear H. induction HF as [|x l Hx HF IHl]; [constructor|].
    apply Forall_cons in IH as [IHx IH]. constructor; auto.
  - apply Forall_sort. clear H. induction HF as [|[k x] l Hx HF IHl]; [constructor|].
    apply Forall_cons in IH as [IHx IH]. constructor; simpl; auto.
Qed.

(** Reading back the serialised canonical form gives the same JSON data. *)
Lemma canon_roundtrip v :
  json_ok v -> exists s w, ser "" "" (canon v) = Some s /\ json_parse s = Normal w /\ w ≡ⱼ v.
Proof.
  intros Hok. pose proof (json_ok_distinct v Hok) as Hd.
  destruct (json_parse_data "" (canon v) eq_refl) as (s & Hs & Hp).
  { by apply canon_data, json_ok_data. }
  exists s, (rebuild (canon v)). split_and!; [done..|]. unfold json_equiv.
  rewrite canon_rebuild by (by apply canon_distinct). by apply canon_idem.
Qed.

(** ** Reading members modulo the equivalence *)

Lemma props_get_perm k o o' : NoDup o.*1 -> o ≡ₚ o' -> props_get k o = props_get k o'.
Proof.
  intros Hnd Hp. induction Hp as [|[k1 v1] o o' Hp IH|[k1 v1] [k2 v2] o|o1 o2 o3 Hp1 IH1 Hp2 IH2];
    [done|..]; csimpl.
  - apply NoDup_cons in Hnd as [_ Hnd]. by rewrite IH.
  - apply NoDup_cons in Hnd as [Hne _].
    destruct (String.eqb_spec k k2), (String.eqb_spec k k1); subst; set_solver.
  - rewrite IH1 by done. apply IH2. by rewrite <- Hp1.
Qed.

Lemma props_get_canon k o :
  NoDup o.*1 -> props_get k (sort_props (map (fun '(k, x) => (k, canon x)) o))
                = canon <$> props_get k o.
Proof.
  intros Hnd. rewrite (props_get_perm _ _ (map (fun '(k, x) => (k, canon x)) o)).
  - clear Hnd. induction o as [|[k' x] o IH]; simpl; [done|]. by destruct (String.eqb k k').
  - by rewrite sort_props_perm, keys_map.
  - apply sort_props_perm.
Qed.

(** Equivalent objects have equivalent members. *)
Lemma prop_equiv o w k :
  json_ok (Obj o) -> json_ok w -> w ≡ⱼ Obj o -> prop w k ≡ⱼ prop (Obj o) k.
Proof.
  intros Ho Hw Heq. unfold json_equiv in *. destruct w as [| | | | | |o2|]; simpl in Heq; try discriminate Heq.
  apply json_ok_distinct in Ho, Hw. inversion Ho as [|? Hn1 _|? Hf1]; [|by destruct Hf1].
  inversion Hw as [|? Hn2 _|? Hf2]; [|by destruct Hf2]. subst.
  injection Heq as Heq. apply (f_equal (props_get k)) in Heq.
  rewrite !props_get_canon in Heq by done. simpl.
  destruct (props_get k o2), (props_get k o); simpl in *; naive_solver.
Qed.

(** ** The equivalence and the operators of the language *)

Lemma equiv_str v s : v ≡ⱼ Str s -> v = Str s.
Proof. unfold json_equiv. destruct v; simpl; congruence. Qed.

#[export] Instance truthy_proper : Proper (json_equiv ==> (=)) truthy.
Proof.
  intros v w Heq. unfold json_equiv in Heq.
  destruct v, w; simpl in Heq; try discriminate Heq; try done; by injection Heq as ->.
Qed.

#[export] Instance js_or_proper : Proper (json_equiv ==> json_equiv ==> json_equiv) js_or.
Proof.
  intros v w Hvw a b Hab. unfold js_or. rewrite (truthy_proper v w Hvw). by destruct (truthy w).
Qed.

(** A member of JSON data is JSON data, or absent. *)
Lemma props_get_ok k o v : Forall (fun kv => json_ok kv.2) o -> props_get k o = Some v -> json_ok v.
Proof.
  induction 1 as [|[k' x] o Hx Ho IH]; simpl; [done|].
  destruct (String.eqb k k'); [by intros [= <-]|done].
Qed.

Lemma prop_ok v k : json_ok v -> prop v k = Undefined \/ json_ok (prop v k).
Proof.
  intros Hv. inversion Hv as [| | | |l Hl|o Ho Hwf]; subst; simpl; auto.
  - destruct (String.eqb k "length"); [right; by constructor|auto].
  - destruct (String.eqb k "length"); [right; by constructor|].
    destruct (key_index k) as [i|]; [|auto].
    destruct (l !! Z.to_nat i) as [x|] eqn:E; simpl; [|auto]. right.
    rewrite Forall_forall in Hl. apply Hl. by eapply list_elem_of_lookup_2.
  - destruct (props_get k o) as [x|] eqn:E; simpl; [|auto]. right. by eapply props_get_ok.
Qed.

Lemma prop_truthy_ok v k : json_ok v -> truthy (prop v k) = true -> json_ok (prop v k).
Proof. intros Hv Ht. destruct (prop_ok v k Hv) as [Hu|]; [|done]. by rewrite Hu in Ht. Qed.

Lemma js_or_ok v k d : json_ok v -> json_ok d -> json_ok (js_or (prop v k) d).
Proof.
  intros Hv Hd. unfold js_or. destruct (truthy (prop v k)) eqn:E; [|done].
  by apply prop_truthy_ok.
Qed.

Lemma equiv_ok_prop v w k : json_ok w -> json_ok v -> prop w k ≡ⱼ v -> json_ok (prop w k).
Proof.
  intros Hw Hv Heq. destruct (prop_ok w k Hw) as [Hu|]; [|done].
  rewrite Hu in Heq. unfold json_equiv in Heq. inversion Hv; subst; discriminate Heq.
Qed.

(** Objects with the same keys and equivalent members are equivalent. *)
Lemma obj_equiv l l' :
  Forall2 (fun a b => a.1 = b.1 /\ a.2 ≡ⱼ b.2) l l' -> NoDup l.*1 -> obj l ≡ⱼ obj l'.
Proof.
  intros HF Hnd. unfold json_equiv, obj. simpl. f_equal.
  assert (Hkeys : l.*1 = l'.*1).
  { clear Hnd. induction HF as [|[a x] [b y] l l' [Hab _] HF IH]; csimpl; [done|].
    simpl in Hab. by rewrite Hab, IH. }
  set (f := fun '(k, x) => (k, canon x)).
  assert (Hmap : map f l = map f l').
  { clear Hnd Hkeys. induction HF as [|[a x] [b y] l l' [Hab Hxy] HF IH]; [done|].
    simpl in *. unfold json_equiv in Hxy. by rewrite Hab, Hxy, IH. }
  transitivity (sort_props (map f l)).
  - apply sort_props_Permutation.
    + unfold f. rewrite keys_map. apply props_wf_NoDup, props_of_is_wf.
    + apply Permutation_map. by apply props_of_perm.
  - rewrite Hmap. symmetry. apply sort_props_Permutation.
    + unfold f. rewrite keys_map. apply props_wf_NoDup, props_of_is_wf.
    + apply Permutation_map, props_of_perm. by rewrite <- Hkeys.
Qed.
