(* ===== verification/Sha256.v ===== *)
(** * SHA-256

    The digest both clients and the backend use: [crypto.subtle.digest('SHA-256', _)]
    of the Web Crypto API in [frontend/src/utils/hash.js], as FIPS 180-4
    specifies it.  Words are integers kept below [2^32] with the wrap-around
    written out; the published test vectors are checked by evaluation. *)

From S2P Require Import Prelude.
Local Open Scope Z_scope.

(** A byte of a [Uint8Array]. *)
Definition is_byte (z : Z) : bool := (0 <=? z) && (z <? 256).

(** The low 32 bits: [x mod 2^32] ([w32_mod]). *)
Definition mask32 : Z := 0xffffffff.
Definition w32 (x : Z) : Z := Z.land x mask32.
Definition add32 (x y : Z) : Z := w32 (x + y).
Definition rotr (n x : Z) : Z := Z.lor (Z.shiftr x n) (w32 (Z.shiftl x (32 - n))).
Definition not32 (x : Z) : Z := mask32 - x.

Definition Ch x y z := Z.lxor (Z.land x y) (Z.land (not32 x) z).
Definition Maj x y z := Z.lxor (Z.lxor (Z.land x y) (Z.land x z)) (Z.land y z).
Definition Sigma0 x := Z.lxor (Z.lxor (rotr 2 x) (rotr 13 x)) (rotr 22 x).
Definition Sigma1 x := Z.lxor (Z.lxor (rotr 6 x) (rotr 11 x)) (rotr 25 x).
Definition sigma0 x := Z.lxor (Z.lxor (rotr 7 x) (rotr 18 x)) (Z.shiftr x 3).
Definition sigma1 x := Z.lxor (Z.lxor (rotr 17 x) (rotr 19 x)) (Z.shiftr x 10).

(** The constants: the first 32 bits of the fractional parts of the cube roots
    (rounds) and square roots (initial state) of the first primes. *)
Definition is_prime (n : Z) : bool :=
  forallb (fun d => negb (n mod d =? 0)) (map Z.of_nat (seq 2 (Z.to_nat (Z.sqrt n) - 1))).

Definition primes : list Z := List.filter is_prime (map Z.of_nat (seq 2 310)).

(** The integer cube root, one binary digit at a time from the given one down. *)
Fixpoint cbrt (bits : nat) (acc n : Z) : Z :=
  match bits with
  | O => acc
  | S k => let c := acc + 2 ^ Z.of_nat k in
           cbrt k (if c * c * c <=? n then c else acc) n
  end.

Definition K : list Z :=
  Eval vm_compute in map (fun q => w32 (cbrt 36 0 (q * 2 ^ 96))) primes.

Record hstate := HState { ha : Z; hb : Z; hc : Z; hd : Z; he : Z; hf : Z; hg : Z; hh : Z }.

Definition H0 : hstate :=
  Eval vm_compute in
    let root i := w32 (Z.sqrt (nth i primes 0 * 2 ^ 64)) in
    HState (root 0%nat) (root 1%nat) (root 2%nat) (root 3%nat)
           (root 4%nat) (root 5%nat) (root 6%nat) (root 7%nat).

(** Big-endian words and bytes. *)
Definition word_bytes (w : Z) : list Z :=
  map (fun n => Z.land (Z.shiftr w n) 255) [24; 16; 8; 0].

Fixpoint words (l : list Z) : list Z :=
  match l with
  | a :: b :: c :: d :: l' => (Z.shiftl a 24 + Z.shiftl b 16 + Z.shiftl c 8 + d) :: words l'
  | _ => []
  end.

Definition pad (m : list Z) : list Z :=
  let n := length m in
  let zeros := ((119 - n mod 64) mod 64)%nat in
  let bits := 8 * Z.of_nat n in
  m ++ [128] ++ repeat 0 zeros ++ word_bytes (bits / 2 ^ 32) ++ word_bytes (w32 bits).

(** The message schedule, most recent word first. *)
Fixpoint extend (n : nat) (ws : list Z) : list Z :=
  match n with
  | O => ws
  | S n' =>
      let at_ i := nth i ws 0 in
      extend n' (w32 (sigma1 (at_ 1%nat) + at_ 6%nat + sigma0 (at_ 14%nat) + at_ 15%nat) :: ws)
  end.

Definition schedule (block : list Z) : list Z := rev (extend 48 (rev block)).

Definition round (s : hstate) (kw : Z * Z) : hstate :=
  let t1 := w32 (hh s + Sigma1 (he s) + Ch (he s) (hf s) (hg s) + fst kw + snd kw) in
  let t2 := w32 (Sigma0 (ha s) + Maj (ha s) (hb s) (hc s)) in
  HState (add32 t1 t2) (ha s) (hb s) (hc s) (add32 (hd s) t1) (he s) (hf s) (hg s).

Definition compress (s : hstate) (block : list Z) : hstate :=
  let r := fold_left round (combine K (schedule block)) s in
  HState (add32 (ha s) (ha r)) (add32 (hb s) (hb r)) (add32 (hc s) (hc r)) (add32 (hd s) (hd r))
         (add32 (he s) (he r)) (add32 (hf s) (hf r)) (add32 (hg s) (hg r)) (add32 (hh s) (hh r)).

(** Blocks of sixteen words; [fuel] bounds the number of blocks. *)
Fixpoint blocks (fuel : nat) (l : list Z) : list (list Z) :=
  match fuel with
  | O => []
  | S f => match l with [] => [] | _ => firstn 16 l :: blocks f (skipn 16 l) end
  end.

Definition sha256_digest (m : list Z) : list Z :=
  let ws := words (pad m) in
  let s := fold_left compress (blocks (length ws) ws) H0 in
  concat (map word_bytes [ha s; hb s; hc s; hd s; he s; hf s; hg s; hh s]).

#[global] Arguments sha256_digest : simpl never.

(** ** Bounds *)

Lemma word_bytes_bytes w : Forall (fun b => is_byte b = true) (word_bytes w).
Proof.
  unfold word_bytes, is_byte. apply List.Forall_map, Forall_true. intros n. rewrite (Z.land_ones _ 8) by lia.
  pose proof (Z.mod_pos_bound (Z.shiftr w n) (2 ^ 8)). lia.
Qed.

Lemma w32_mod x : w32 x = x mod 2 ^ 32.
Proof. apply (Z.land_ones x 32). lia. Qed.

Lemma sha256_length m : length (sha256_digest m) = 32%nat.
Proof. reflexivity. Qed.

Lemma sha256_bytes m : Forall (fun b => is_byte b = true) (sha256_digest m).
Proof.
  unfold sha256_digest. generalize (fold_left compress (blocks (length (words (pad m))) (words (pad m))) H0).
  intros s. cbn [map concat]. repeat apply Forall_app_2; (apply word_bytes_bytes || constructor).
Qed.

(** ** Test vectors *)

Example sha256_empty : firstn 8 (sha256_digest []) = [0xe3; 0xb0; 0xc4; 0x42; 0x98; 0xfc; 0x1c; 0x14].
Proof. vm_compute. reflexivity. Qed.

Example sha256_abc :
  sha256_digest [97; 98; 99] =
  [0xba; 0x78; 0x16; 0xbf; 0x8f; 0x01; 0xcf; 0xea; 0x41; 0x41; 0x40; 0xde; 0x5d; 0xae; 0x22; 0x23;
   0xb0; 0x03; 0x61; 0xa3; 0x96; 0x17; 0x7a; 0x9c; 0xb4; 0x10; 0xff; 0x61; 0xf2; 0x00; 0x15; 0xad].
Proof. vm_compute. reflexivity. Qed.

(** A message of two blocks: [abcdbcdecdef...nopq]. *)
Example sha256_two_blocks :
  firstn 8 (sha256_digest (concat (map (fun i => [97 + i; 98 + i; 99 + i; 100 + i])
    [0; 1; 2; 3; 4; 5; 6; 7; 8; 9; 10; 11; 12; 13]))) =
  [0x24; 0x8d; 0x6a; 0x61; 0xd2; 0x06; 0x38; 0xb8].
Proof. vm_compute. reflexivity. Qed.
