(* ===== verification/Async.v ===== *)
(** * Asynchronous functions

    An [async] function is a [task]: a computation that reads and writes the
    state shared by the page's scripts, throws, sends HTTP requests, and yields
    to the event loop at each [await].  The state and the HTTP log change only
    between two yields, which is the atomicity the event loop provides.

    [run] executes a task to completion without interference; [resume] executes
    one slice of it, up to the next yield, so that handlers can be
    interleaved ([interleave]).  [run_resume] relates the two.  The server is an
    arbitrary function of the requests sent so far: theorems about [run] hold for
    every backend. *)

From S2P Require Import Prelude JsValue Json.

(** ** HTTP *)

Record request := Request {
  method : string;
  url : string;
  content_type : option string;   (* the Content-Type header *)
  body : value                    (* undefined, a string or bytes *)
}.

Record response := Response {
  status : Z;
  statusText : string;
  text : outcome string           (* reading the body may fail *)
}.

(** [fetch] rejects when there is no response at all. *)
Inductive fetch_result :=
  | NoResponse (e : exn)
  | Resp (r : response).

(** [response.ok] *)
Definition ok (r : response) : bool := (200 <=? status r)%Z && (status r <=? 299)%Z.

(** [fetch(url)] *)
Definition GET (u : string) : request := Request "GET" u None Undefined.

(** ** Tasks *)

Section task.
Context {S : Type}.

Inductive task (A : Type) : Type :=
  | Ret (a : A)
  | Raise (e : exn)
  | Get (k : S -> task A)
  | Put (s : S) (k : task A)
  | Await (k : task A)
  | Fetch (r : request) (k : fetch_result -> task A).
Arguments Ret {A}.
Arguments Raise {A}.
Arguments Get {A}.
Arguments Put {A}.
Arguments Await {A}.
Arguments Fetch {A}.

Fixpoint bind {A B} (f : A -> task B) (t : task A) : task B :=
  match t with
  | Ret a => f a
  | Raise e => Raise e
  | Get k => Get (fun s => bind f (k s))
  | Put s k => Put s (bind f k)
  | Await k => Await (bind f k)
  | Fetch r k => Fetch r (fun x => bind f (k x))
  end.

(** [try { t } catch (e) { h e }] *)
Fixpoint try_catch {A} (t : task A) (h : exn -> task A) : task A :=
  match t with
  | Ret a => Ret a
  | Raise e => h e
  | Get k => Get (fun s => try_catch (k s) h)
  | Put s k => Put s (try_catch k h)
  | Await k => Await (try_catch k h)
  | Fetch r k => Fetch r (fun x => try_catch (k x) h)
  end.

(** [try { t } finally { f }], for an [f] that does not return a value. *)
Fixpoint finally {A} (t : task A) (f : task unit) : task A :=
  match t with
  | Ret a => bind (fun _ => Ret a) f
  | Raise e => bind (fun _ => Raise e) f
  | Get k => Get (fun s => finally (k s) f)
  | Put s k => Put s (finally k f)
  | Await k => Await (finally k f)
  | Fetch r k => Fetch r (fun x => finally (k x) f)
  end.

(** [await t]: the continuation runs after a yield, however [t] completes. *)
Fixpoint await {A} (t : task A) : task A :=
  match t with
  | Ret a => Await (Ret a)
  | Raise e => Await (Raise e)
  | Get k => Get (fun s => await (k s))
  | Put s k => Put s (await k)
  | Await k => Await (await k)
  | Fetch r k => Fetch r (fun x => await (k x))
  end.

(** ** Execution *)

Context (server : list request -> request -> fetch_result).

Fixpoint run {A} (t : task A) (s : S) (l : list request) : outcome A * S * list request :=
  match t with
  | Ret a => (Normal a, s, l)
  | Raise e => (Throw e, s, l)
  | Get k => run (k s) s l
  | Put s' k => run k s' l
  | Await k => run k s l
  | Fetch r k => run (k (server l r)) s (l ++ [r])
  end.

(** One slice of a task: up to the next yield.  A request is sent at once; its
    response is delivered in a later slice. *)
Fixpoint resume {A} (t : task A) (s : S) (l : list request) : task A * S * list request :=
  match t with
  | Ret a => (Ret a, s, l)
  | Raise e => (Raise e, s, l)
  | Get k => resume (k s) s l
  | Put s' k => resume k s' l
  | Await k => (k, s, l)
  | Fetch r k => (k (server l r), s, l ++ [r])
  end.

(** Several tasks on the same state: the schedule names the task to resume next. *)
Fixpoint interleave {A} (sched : list nat) (ts : list (task A)) (s : S) (l : list request)
    : list (task A) * S * list request :=
  match sched with
  | [] => (ts, s, l)
  | i :: sched' =>
      match ts !! i with
      | None => interleave sched' ts s l
      | Some t => let '(t', s', l') := resume t s l in interleave sched' (<[i := t']> ts) s' l'
      end
  end.
End task.

Arguments task : clear implicits.
Arguments Ret {S A}.
Arguments Raise {S A}.
Arguments Get {S A}.
Arguments Put {S A}.
Arguments Await {S A}.
Arguments Fetch {S A}.

#[export] Instance task_ret S : MRet (task S) := fun A => Ret.
#[export] Instance task_bind S : MBind (task S) := fun A B => bind.

(** ** Primitive tasks *)

Definition gets {S A} (f : S -> A) : task S A := Get (fun s => Ret (f s)).
Definition modify {S} (f : S -> S) : task S unit := Get (fun s => Put (f s) (Ret tt)).

(** A synchronous computation that may throw. *)
Definition lift {S A} (m : outcome A) : task S A :=
  match m with Normal a => Ret a | Throw e => Raise e end.

(** [await fetch(url, opts)] *)
Definition fetch {S} (r : request) : task S response :=
  Fetch r (fun x => match x with Resp resp => Ret resp | NoResponse e => Raise e end).

(** [await response.text()] and [await response.json()] *)
Definition resp_text {S} (r : response) : task S string := Await (lift (text r)).
Definition resp_json {S} (r : response) : task S value :=
  Await (lift (text r ≫= json_parse)).

(** ** Laws of execution *)

Section run.
Context {S : Type} (server : list request -> request -> fetch_result).

Lemma run_bind {A B} (f : A -> task S B) t s l :
  run server (t ≫= f) s l =
  match run server t s l with
  | (Normal a, s', l') => run server (f a) s' l'
  | (Throw e, s', l') => (Throw e, s', l')
  end.
Proof.
  unfold mbind, task_bind. revert s l. induction t; intros; simpl; auto.
Qed.

Lemma run_try {A} (t : task S A) h s l :
  run server (try_catch t h) s l =
  match run server t s l with
  | (Normal a, s', l') => (Normal a, s', l')
  | (Throw e, s', l') => run server (h e) s' l'
  end.
Proof. revert s l. induction t; intros; simpl; auto. Qed.

Lemma run_finally {A} (t : task S A) f s l :
  run server (finally t f) s l =
  match run server t s l with
  | (o, s', l') =>
      match run server f s' l' with
      | (Normal _, s'', l'') => (o, s'', l'')
      | (Throw e, s'', l'') => (Throw e, s'', l'')
      end
  end.
Proof.
  revert s l. induction t; intros; simpl; auto.
  - apply (run_bind (fun _ => Ret a) f).
  - apply (run_bind (fun _ => Raise e) f).
Qed.

Lemma run_await {A} (t : task S A) s l : run server (await t) s l = run server t s l.
Proof. revert s l. induction t; intros; simpl; auto. Qed.

Lemma run_lift {A} (m : outcome A) (s : S) l : run server (lift m) s l = (m, s, l).
Proof. by destruct m. Qed.

Lemma run_gets {A} (f : S -> A) s l : run server (gets f) s l = (Normal (f s), s, l).
Proof. done. Qed.

Lemma run_modify (f : S -> S) s l : run server (modify f) s l = (Normal tt, f s, l).
Proof. done. Qed.

Lemma run_ret {A} (a : A) (s : S) l : run server (mret a : task S A) s l = (Normal a, s, l).
Proof. done. Qed.

Lemma run_fetch r (s : S) l :
  run server (fetch r) s l =
  (match server l r with Resp x => Normal x | NoResponse e => Throw e end, s, l ++ [r]).
Proof. simpl. by destruct (server l r). Qed.

Lemma run_resp_text r (s : S) l : run server (resp_text r) s l = (text r, s, l).
Proof. unfold resp_text. simpl. apply run_lift. Qed.

Lemma run_resp_json r (s : S) l : run server (resp_json r) s l = (text r ≫= json_parse, s, l).
Proof. unfold resp_json. simpl. apply run_lift. Qed.

(** Running slice by slice, without interference, is running. *)
Lemma run_resume {A} (t : task S A) s l :
  run server t s l = let '(t', s', l') := resume server t s l in run server t' s' l'.
Proof. revert s l. induction t; intros; simpl; auto. Qed.
End run.

#[global] Hint Rewrite @run_bind @run_try @run_finally @run_await @run_lift @run_gets @run_modify
  @run_ret @run_fetch @run_resp_text @run_resp_json : run.

(** Evaluate a task as far as its known parts allow. *)
Ltac run_step := autorewrite with run; cbn [mret task_ret mbind outcome_bind outcome_ret].
Ltac run_simpl := repeat (progress (run_step; simpl)).

(** ** Framing: tasks that leave the state alone *)

Section frame.
Context {S : Type} (server : list request -> request -> fetch_result).

Definition keeps {A} (t : task S A) : Prop := forall s l, (run server t s l).1.2 = s.

Lemma keeps_bind {A B} (t : task S A) (f : A -> task S B) :
  keeps t -> (forall a, keeps (f a)) -> keeps (t ≫= f).
Proof.
  intros Ht Hf s l. rewrite run_bind. specialize (Ht s l).
  destruct (run server t s l) as [[[a|e] s'] l']; simpl in *; subst; [apply Hf|done].
Qed.

Lemma keeps_try {A} (t : task S A) h :
  keeps t -> (forall e, keeps (h e)) -> keeps (try_catch t h).
Proof.
  intros Ht Hh s l. rewrite run_try. specialize (Ht s l).
  destruct (run server t s l) as [[[a|e] s'] l']; simpl in *; subst; [done|apply Hh].
Qed.

Lemma keeps_await {A} (t : task S A) : keeps t -> keeps (await t).
Proof. intros Ht s l. rewrite run_await. apply Ht. Qed.

Lemma keeps_lift {A} (m : outcome A) : keeps (lift m).
Proof. intros s l. by rewrite run_lift. Qed.

Lemma keeps_gets {A} (f : S -> A) : keeps (gets f).
Proof. by intros s l. Qed.

Lemma keeps_ret {A} (a : A) : keeps (mret a).
Proof. by intros s l. Qed.

Lemma keeps_raise {A} e : keeps (Raise e : task S A).
Proof. by intros s l. Qed.

Lemma keeps_fetch r : keeps (fetch r).
Proof. intros s l. by rewrite run_fetch. Qed.

Lemma keeps_resp_json r : keeps (resp_json r).
Proof. intros s l. by rewrite run_resp_json. Qed.

Lemma keeps_resp_text r : keeps (resp_text r).
Proof. intros s l. by rewrite run_resp_text. Qed.

Lemma keeps_if {A} (b : bool) (t u : task S A) : keeps t -> keeps u -> keeps (if b then t else u).
Proof. by destruct b. Qed.

(** The result of a framed task. *)
Lemma run_keeps {A} (t : task S A) s l :
  keeps t -> run server t s l = ((run server t s l).1.1, s, (run server t s l).2).
Proof. intros Ht. specialize (Ht s l). destruct (run server t s l) as [[o s'] l']. by simpl in *; subst. Qed.
End frame.

Create HintDb keeps.
#[global] Hint Resolve keeps_try keeps_await keeps_lift keeps_gets keeps_ret
  keeps_raise keeps_fetch keeps_resp_json keeps_resp_text keeps_if : keeps.
#[global] Hint Extern 1 (keeps _ (_ ≫= _)) => apply keeps_bind; [|intros ?] : keeps.
#[global] Hint Extern 1 (keeps _ (bind _ _)) => apply keeps_bind; [|intros ?] : keeps.

(** ** Interleaving: invariants of shared state *)

Section safe.
Context {S : Type} (P : S -> Prop).

(** Every state the task writes satisfies [P], if the states it reads do. *)
Fixpoint safe {A} (t : task S A) : Prop :=
  match t with
  | Ret _ | Raise _ => True
  | Get k => forall s, P s -> safe (k s)
  | Put s k => P s /\ safe k
  | Await k => safe k
  | Fetch _ k => forall x, safe (k x)
  end.

Lemma safe_bind {A B} (t : task S A) (f : A -> task S B) :
  safe t -> (forall a, safe (f a)) -> safe (t ≫= f).
Proof.
  intros Ht Hf. unfold mbind, task_bind. induction t; simpl in *; auto. naive_solver.
Qed.

Lemma safe_try {A} (t : task S A) h : safe t -> (forall e, safe (h e)) -> safe (try_catch t h).
Proof. intros Ht Hh. induction t; simpl in *; auto. naive_solver. Qed.

Lemma safe_finally {A} (t : task S A) f : safe t -> safe f -> safe (finally t f).
Proof.
  intros Ht Hf. induction t; simpl in *; auto.
  - by apply (safe_bind f (fun _ => Ret a)).
  - by apply (safe_bind f (fun _ => Raise e)).
  - naive_solver.
Qed.

Lemma safe_await {A} (t : task S A) : safe t -> safe (await t).
Proof. intros Ht. induction t; simpl in *; auto. naive_solver. Qed.

Lemma safe_lift {A} (m : outcome A) : safe (lift m : task S A).
Proof. by destruct m. Qed.

Lemma safe_modify (f : S -> S) : (forall s, P s -> P (f s)) -> safe (modify f).
Proof. intros Hf s Hs. simpl. auto. Qed.

Lemma safe_gets {A} (f : S -> A) : safe (gets f).
Proof. by intros s _. Qed.

Lemma safe_fetch r : safe (fetch r).
Proof. intros x. simpl. by destruct x. Qed.

Lemma safe_resp_json r : safe (resp_json r).
Proof. apply safe_lift. Qed.

Lemma safe_resp_text r : safe (resp_text r).
Proof. apply safe_lift. Qed.

Lemma safe_if {A} (b : bool) (t u : task S A) : safe t -> safe u -> safe (if b then t else u).
Proof. by destruct b. Qed.

(** One slice preserves the invariant. *)
Lemma safe_resume {A} server (t : task S A) s l :
  P s -> safe t ->
  let '(t', s', l') := resume server t s l in P s' /\ safe t'.
Proof.
  revert s l. induction t as [a|e|k IH|s' k IH|k IH|r k IH]; intros s l Hs Ht; simpl in *; auto.
  - apply IH; auto.
  - apply IH; tauto.
Qed.

(** So does every interleaving of safe tasks. *)
Lemma safe_interleave {A} server sched (ts : list (task S A)) s l :
  P s -> Forall safe ts -> P (interleave server sched ts s l).1.2.
Proof.
  revert ts s l. induction sched as [|i sched IH]; intros ts s l Hs Hts; [done|]. simpl.
  destruct (ts !! i) as [t|] eqn:Hi; [|by apply IH].
  pose proof (safe_resume server t s l Hs (Forall_lookup_1 _ _ _ _ Hts Hi)) as Hr.
  destruct (resume server t s l) as [[t' s'] l'], Hr. apply IH; [done|]. by apply Forall_insert.
Qed.

(** Every value the task returns satisfies [Q]. *)
Fixpoint yields {A} (Q : A -> Prop) (t : task S A) : Prop :=
  match t with
  | Ret a => Q a
  | Raise _ => True
  | Get k => forall s, P s -> yields Q (k s)
  | Put _ k => yields Q k
  | Await k => yields Q k
  | Fetch _ k => forall x, yields Q (k x)
  end.

Lemma yields_await {A} Q (t : task S A) : yields Q t -> yields Q (await t).
Proof. intros Ht. induction t; simpl in *; auto. Qed.

Lemma yields_bind {A B} V Q (t : task S A) (f : A -> task S B) :
  yields V t -> (forall a, V a -> yields Q (f a)) -> yields Q (t ≫= f).
Proof. intros Ht Hf. unfold mbind, task_bind. induction t; simpl in *; auto. Qed.

Lemma yields_any {A} (t : task S A) : yields (fun _ => True) t.
Proof. induction t; simpl; auto. Qed.

Lemma yields_then {A B} Q (t : task S A) (f : A -> task S B) :
  (forall a, yields Q (f a)) -> yields Q (t ≫= f).
Proof. intros Hf. apply (yields_bind (fun _ => True)); [apply yields_any|auto]. Qed.

Lemma safe_bind_yields {A B} Q (t : task S A) (f : A -> task S B) :
  safe t -> yields Q t -> (forall a, Q a -> safe (f a)) -> safe (t ≫= f).
Proof.
  intros Ht Hy Hf. unfold mbind, task_bind. induction t; simpl in *; auto. naive_solver.
Qed.

(** What is known of a value that was just read or computed. *)
Lemma safe_gets_bind {A B} (f : S -> A) (k : A -> task S B) :
  (forall s, P s -> safe (k (f s))) -> safe (gets f ≫= k).
Proof. intros Hk s Hs. by apply Hk. Qed.

Lemma safe_lift_bind {A B} (m : outcome A) (k : A -> task S B) :
  (forall a, m = Normal a -> safe (k a)) -> safe (lift m ≫= k).
Proof. intros Hk. destruct m as [a|e]; [by apply Hk|done]. Qed.
End safe.

Lemma safe_any {S A} (t : task S A) : safe (fun _ => True) t.
Proof. induction t; simpl; auto. Qed.

Create HintDb safe.
#[global] Hint Resolve safe_try safe_finally safe_await safe_lift safe_modify safe_gets safe_fetch
  safe_resp_json safe_resp_text safe_if : safe.
#[global] Hint Extern 1 (safe _ (_ ≫= _)) => apply safe_bind; [|intros ?] : safe.
#[global] Hint Extern 1 (safe _ (mret _)) => exact I : safe.
#[global] Hint Extern 1 (safe _ (Raise _)) => exact I : safe.

(** ** Silent tasks: they neither read nor write the state *)

Section silent.
Context {S : Type}.

Fixpoint silent {A} (t : task S A) : Prop :=
  match t with
  | Ret _ | Raise _ => True
  | Get _ | Put _ _ => False
  | Await k => silent k
  | Fetch _ k => forall x, silent (k x)
  end.

Lemma silent_bind {A B} (t : task S A) (f : A -> task S B) :
  silent t -> (forall a, silent (f a)) -> silent (t ≫= f).
Proof. intros Ht Hf. unfold mbind, task_bind. induction t; simpl in *; try done; auto. Qed.

Lemma silent_try {A} (t : task S A) h : silent t -> (forall e, silent (h e)) -> silent (try_catch t h).
Proof. intros Ht Hh. induction t; simpl in *; try done; auto. Qed.

Lemma silent_await {A} (t : task S A) : silent t -> silent (await t).
Proof. intros Ht. induction t; simpl in *; auto. Qed.

Lemma silent_lift {A} (m : outcome A) : silent (lift m : task S A).
Proof. by destruct m. Qed.

Lemma silent_fetch r : silent (fetch r : task S _).
Proof. intros x. simpl. by destruct x. Qed.

Lemma silent_resp_json r : silent (resp_json r : task S _).
Proof. apply silent_lift. Qed.

Lemma silent_if {A} (b : bool) (t u : task S A) : silent t -> silent u -> silent (if b then t else u).
Proof. by destruct b. Qed.

Lemma silent_safe P {A} (t : task S A) : silent t -> safe P t.
Proof. intros Ht. induction t; simpl in *; try done; auto. Qed.
End silent.

Create HintDb silent.
#[global] Hint Resolve silent_try silent_await silent_lift silent_fetch silent_resp_json silent_if : silent.
#[global] Hint Extern 1 (silent (_ ≫= _)) => apply silent_bind; [|intros ?] : silent.
#[global] Hint Extern 1 (silent (mret _)) => exact I : silent.
#[global] Hint Extern 1 (silent (Raise _)) => exact I : silent.

(** ** Guarantees: what a task does to the state under arbitrary interference

    [R s s'] relates the state a task replaces to the one it writes; between two
    slices the state may change in any way. *)

Section guarantee.
Context {S : Type} (R : S -> S -> Prop).

Fixpoint guarantee {A} (s : S) (t : task S A) : Prop :=
  match t with
  | Ret _ | Raise _ => True
  | Get k => guarantee s (k s)
  | Put s' k => R s s' /\ guarantee s' k
  | Await k => forall s', guarantee s' k
  | Fetch _ k => forall x s', guarantee s' (k x)
  end.

Definition steady {A} (t : task S A) : Prop := forall s, guarantee s t.

Lemma guarantee_bind {A B} (t : task S A) (f : A -> task S B) s :
  guarantee s t -> (forall a, steady (f a)) -> guarantee s (t ≫= f).
Proof.
  unfold mbind, task_bind. intros Ht Hf. revert s Ht. induction t as [a|e|k IH|s1 k IH|k IH|r k IH]; intros s Ht; simpl in *; auto.
  - by apply Hf.
  - destruct Ht. auto.
Qed.

Lemma steady_bind {A B} (t : task S A) (f : A -> task S B) :
  steady t -> (forall a, steady (f a)) -> steady (t ≫= f).
Proof. intros Ht Hf s. by apply guarantee_bind. Qed.

Lemma steady_try {A} (t : task S A) h : steady t -> (forall e, steady (h e)) -> steady (try_catch t h).
Proof.
  intros Ht Hh s. specialize (Ht s). revert s Ht. induction t as [a|e|k IH|s1 k IH|k IH|r k IH]; intros s Ht; simpl in *; auto.
  - by apply Hh.
  - destruct Ht. auto.
Qed.

Lemma steady_finally {A} (t : task S A) f : steady t -> steady f -> steady (finally t f).
Proof.
  intros Ht Hf s. specialize (Ht s). revert s Ht. induction t as [a|e|k IH|s1 k IH|k IH|r k IH]; intros s Ht; simpl in *; auto.
  - by apply (guarantee_bind f (fun _ => Ret a)).
  - by apply (guarantee_bind f (fun _ => Raise e)).
  - destruct Ht. auto.
Qed.

Lemma steady_await {A} (t : task S A) : steady t -> steady (await t).
Proof.
  intros Ht s. specialize (Ht s). revert s Ht. induction t as [a|e|k IH|s1 k IH|k IH|r k IH]; intros s Ht; simpl in *; auto.
  destruct Ht. auto.
Qed.

Lemma steady_modify (f : S -> S) : (forall s, R s (f s)) -> steady (modify f).
Proof. intros Hf s. simpl. auto. Qed.

Lemma steady_gets {A} (f : S -> A) : steady (gets f).
Proof. done. Qed.

Lemma steady_if {A} (b : bool) (t u : task S A) : steady t -> steady u -> steady (if b then t else u).
Proof. by destruct b. Qed.

Lemma steady_lift {A} (m : outcome A) : steady (lift m).
Proof. by destruct m. Qed.

Lemma silent_steady {A} (t : task S A) : silent t -> steady t.
Proof. intros Ht. induction t; intros ?; simpl in *; try done; intros; naive_solver. Qed.

(** One slice, and every interleaving. *)
Context `{!PreOrder R}.

Lemma guarantee_resume {A} server (t : task S A) s l :
  guarantee s t -> let '(t', s', l') := resume server t s l in R s s' /\ steady t'.
Proof.
  revert s l. induction t as [a|e|k IH|s' k IH|k IH|r k IH]; intros s l Ht; simpl in *; auto; try (split; [done|]; try done).
  - by apply IH.
  - destruct Ht as [Hs Ht]. specialize (IH s' l Ht). destruct (resume server k s' l) as [[t' s''] l'].
    destruct IH. split; [by etrans|done].
  - by intros s'.
Qed.

Lemma steady_interleave {A} server sched (ts : list (task S A)) s l :
  Forall steady ts -> R s (interleave server sched ts s l).1.2.
Proof.
  revert ts s l. induction sched as [|i sched IH]; intros ts s l Hts; [done|]. simpl.
  destruct (ts !! i) as [t|] eqn:Hi; [|by apply IH].
  pose proof (guarantee_resume server t s l (Forall_lookup_1 _ _ _ _ Hts Hi s)) as Hr.
  destruct (resume server t s l) as [[t' s'] l'], Hr as [Hs Ht].
  etrans; [exact Hs|]. apply IH. by apply Forall_insert.
Qed.

Lemma steady_run {A} server (t : task S A) s l : steady t -> R s (run server t s l).1.2.
Proof.
  intros Ht. specialize (Ht s). revert s l Ht.
  induction t as [a|e|k IH|s' k IH|k IH|r k IH]; intros s l Ht; simpl in *; auto.
  - done.
  - done.
  - destruct Ht. etrans; [done|auto].
Qed.
End guarantee.

Create HintDb steady.
#[global] Hint Resolve steady_try steady_finally steady_await steady_modify steady_gets steady_if steady_lift : steady.
#[global] Hint Extern 1 (steady _ (_ ≫= _)) => apply steady_bind; [|intros ?] : steady.
#[global] Hint Extern 1 (steady _ (mret _)) => (intros ?; exact I) : steady.
#[global] Hint Extern 1 (steady _ (Raise _)) => (intros ?; exact I) : steady.

(** ** Synchronous tasks: they complete in one slice *)

Section sync.
Context {S : Type}.

Fixpoint sync {A} (t : task S A) : Prop :=
  match t with
  | Ret _ | Raise _ => True
  | Get k => forall s, sync (k s)
  | Put _ k => sync k
  | Await _ | Fetch _ _ => False
  end.

Lemma sync_bind {A B} (t : task S A) (f : A -> task S B) :
  sync t -> (forall a, sync (f a)) -> sync (t ≫= f).
Proof. intros Ht Hf. unfold mbind, task_bind. induction t; simpl in *; try done; auto. Qed.

Lemma sync_if {A} (b : bool) (t u : task S A) : sync t -> sync u -> sync (if b then t else u).
Proof. by destruct b. Qed.

Lemma sync_lift {A} (m : outcome A) : sync (lift m : task S A).
Proof. by destruct m. Qed.

Lemma sync_gets {A} (f : S -> A) : sync (gets f).
Proof. done. Qed.

Lemma sync_modify (f : S -> S) : sync (modify f).
Proof. done. Qed.
End sync.

Create HintDb sync.
#[global] Hint Resolve sync_if sync_lift sync_gets sync_modify : sync.
#[global] Hint Extern 1 (sync (_ ≫= _)) => apply sync_bind; [|intros ?] : sync.
#[global] Hint Extern 1 (sync (mret _)) => exact I : sync.
#[global] Hint Extern 1 (sync (Raise _)) => exact I : sync.
