(* ===== verification/Platform.v ===== *)
(** * The platform and the packages the clients rely on

    Code that is not in the repository appears here as type classes: the browser
    ([Browser]), the npm package [canonicalize] ([Canonicalizer]) and the npm
    package [tweetnacl] ([NaCl]).  Their [...Laws] classes state the documented
    behaviour the theorems use.  The module [Reference] instantiates every class
    with concrete functions that satisfy the laws, for the witnesses. *)

From S2P Require Import Prelude JsValue Json JsonFacts JsonCanon Sha256 Async.

Definition bytes_ok (l : list Z) : Prop := Forall (fun b => is_byte b = true) l.

(** ** The browser *)

Class Browser := {
  (** Whether [localStorage.setItem(k, v)] stays within the quota. *)
  accepts : gmap string string -> string -> string -> bool;
  (** [Date.now()] at the n-th observation of the environment. *)
  now : nat -> Z;
  (** The bytes [crypto.getRandomValues] writes: observation, length. *)
  random : nat -> nat -> list Z;
  (** Whether the global object has a [length] property (a window does). *)
  has_global_length : bool
}.

Class BrowserLaws `{Browser} : Prop := {
  random_length n k : length (random n k) = k;
  random_bytes n k : bytes_ok (random n k)
}.

(** ** The package [canonicalize] (RFC 8785) *)

Class Canonicalizer := { canonicalize : value -> outcome value }.

Class CanonicalizerLaws `{Canonicalizer} : Prop := {
  (** JSON data is serialised to a text that denotes the same data. *)
  canonicalize_text v : json_ok v ->
    exists s w, canonicalize v = Normal (Str s) /\ json_parse s = Normal w /\ w ≡ⱼ v;
  (** The text does not depend on the order of object members. *)
  canonicalize_equiv v w : json_ok v -> json_ok w -> v ≡ⱼ w -> canonicalize v = canonicalize w
}.

(** ** The package [tweetnacl]: Ed25519 signatures *)

Class NaCl := {
  (** [nacl.sign.keyPair()]: public and secret key of the n-th call. *)
  keyPair : nat -> list Z * list Z;
  (** [nacl.sign.detached(message, secretKey)] *)
  sign_detached : list Z -> list Z -> outcome (list Z);
  (** [nacl.sign.detached.verify(message, signature, publicKey)] *)
  verify_detached : list Z -> list Z -> list Z -> outcome bool
}.

Class NaClLaws `{NaCl} : Prop := {
  keyPair_sizes n : length (keyPair n).1 = 32 /\ length (keyPair n).2 = 64;
  keyPair_bytes n : bytes_ok (keyPair n).1 /\ bytes_ok (keyPair n).2;
  (** Signing with a generated key succeeds, and the signature verifies. *)
  sign_verifies n m : bytes_ok m ->
    exists sig, sign_detached m (keyPair n).2 = Normal sig /\ length sig = 64 /\
      bytes_ok sig /\ verify_detached m sig (keyPair n).1 = Normal true;
  (** A secret key of the wrong size is refused. *)
  sign_bad_key m sk : length sk <> 64 ->
    sign_detached m sk = Throw (Error "Error" "bad secret key size")
}.

(** ** Concrete instances *)

Module Reference.

(** A backend that cannot be reached. *)
Definition offline (l : list request) (r : request) : fetch_result :=
  NoResponse (TypeError "Failed to fetch").

#[export] Instance browser : Browser := {
  accepts _ _ _ := true;
  now n := (1700000000000 + Z.of_nat n)%Z;
  random n k := map (fun i => ((37 * Z.of_nat n + 11 * Z.of_nat i) mod 256)%Z) (seq 0 k);
  has_global_length := true
}.

#[export] Instance browser_laws : BrowserLaws.
Proof.
  split; intros n k; simpl.
  - by rewrite length_map, length_seq.
  - apply Forall_forall. intros b Hb. apply list_elem_of_In, in_map_iff in Hb as (i & <- & _).
    unfold is_byte. pose proof (Z.mod_pos_bound (37 * Z.of_nat n + 11 * Z.of_nat i) 256). lia.
Qed.

(** Numbers that RFC 8785 refuses. *)
Fixpoint finite (v : value) : bool :=
  match v with
  | Num (Fin _ _) => true
  | Num _ => false
  | Arr l => forallb finite l
  | Obj o => forallb (fun '(_, x) => finite x) o
  | _ => true
  end.

#[export] Instance canonicalizer : Canonicalizer := {
  canonicalize v :=
    if finite v then Normal (stringify (canon v))
    else Throw (Error "Error" "NaN is not allowed")
}.

Lemma json_ok_finite v : json_ok v -> finite v = true.
Proof.
  induction v as [| |b|n|s|l IH|o IH|l] using value_nested_ind; inversion 1; subst; simpl; try done.
  - apply forallb_Forall. rewrite Forall_forall in *. auto.
  - apply forallb_Forall. rewrite Forall_forall in *. intros [k x] Hx.
    apply (IH _ Hx). by apply H1.
Qed.

#[export] Instance canonicalizer_laws : CanonicalizerLaws.
Proof.
  split; simpl.
  - intros v Hv. rewrite json_ok_finite by done.
    destruct (canon_roundtrip v Hv) as (s & w & Hs & Hp & Hw).
    exists s, w. unfold stringify. by rewrite Hs.
  - intros v w Hv Hw Heq. rewrite !json_ok_finite by done. unfold json_equiv in Heq. congruence.
Qed.

(** A stand-in for Ed25519 with the same interface: the secret key ends with
    the public key, as in NaCl, and a signature is a digest of both. *)
Definition seed (n : nat) : list Z := sha256_digest [Z.of_nat n mod 256; 1]%Z.
Definition public (n : nat) : list Z := sha256_digest (seed n).
Definition tag (pk m : list Z) : list Z := sha256_digest (pk ++ m) ++ sha256_digest (m ++ pk).

#[export] Instance nacl : NaCl := {
  keyPair n := (public n, seed n ++ public n);
  sign_detached m sk :=
    if decide (length sk = 64) then Normal (tag (drop 32 sk) m)
    else Throw (Error "Error" "bad secret key size");
  verify_detached m sig pk :=
    if decide (length sig <> 64) then Throw (Error "Error" "bad signature size")
    else if decide (length pk <> 32) then Throw (Error "Error" "bad public key size")
    else Normal (bool_decide (sig = tag pk m))
}.

Lemma tag_length pk m : length (tag pk m) = 64.
Proof. unfold tag. by rewrite length_app, !sha256_length. Qed.

Lemma seed_length n : length (seed n) = 32.
Proof. apply sha256_length. Qed.

Lemma public_length n : length (public n) = 32.
Proof. apply sha256_length. Qed.

#[export] Instance nacl_laws : NaClLaws.
Proof.
  assert (Hsk : forall n, length (seed n ++ public n) = 64).
  { intros n. by rewrite length_app, seed_length, public_length. }
  split; cbn [keyPair sign_detached verify_detached nacl fst snd].
  - intros n. split; [apply public_length|apply Hsk].
  - intros n. split; [|apply Forall_app_2]; apply sha256_bytes.
  - intros n m Hm. exists (tag (public n) m). rewrite decide_True by apply Hsk.
    rewrite drop_app_length' by (symmetry; apply seed_length).
    split_and!; [done|apply tag_length|apply Forall_app_2; apply sha256_bytes|].
    rewrite decide_False by (rewrite tag_length; lia).
    rewrite decide_False by (rewrite public_length; lia).
    by rewrite bool_decide_eq_true_2.
  - intros m sk Hl. by rewrite decide_False.
Qed.
End Reference.
