(* ===== verification/World.v ===== *)
(** * The state the frontend's scripts share

    One record per owner of state: the browser's [localStorage] and environment,
    the module-level refs of [composables/useWallet.js] and
    [composables/useTransaction.js], and the refs of [views/Wallet.vue].  The
    scripts run on one event loop, so a [task] over this record is a script. *)

From S2P Require Import Prelude JsValue Json Async Platform.

(** [useTransaction.js], lines 7-11. *)
Record tx_refs := TxRefs {
  currentTransaction : value;
  isProcessing : bool;
  tx_status : string;
  tx_error : value;
  txHistory : list value
}.

(** [Wallet.vue], lines 184-196.  The entries of [myDomains] are objects that the
    handlers receive and mutate, so they live in a heap and the list holds
    references. *)
Record view_refs := ViewRefs {
  isConnected : bool;
  connectionStatus : string;
  domainName : string;
  ttl : value;
  view_isProcessing : bool;
  view_status : string;
  lastTxId : value;
  domains : value;
  domainsLoaded : bool;
  myDomains : list nat;
  backendMinerID : value;
  heap : gmap nat value
}.

Record world := World {
  storage : gmap string string;   (* window.localStorage *)
  tick : nat;                     (* observations of clock and entropy so far *)
  wallet : value;                 (* useWallet.js: wallet.value *)
  tx : tx_refs;
  view : view_refs
}.

Definition init_tx : tx_refs := TxRefs Null false "idle" Null [].
Definition init_view : view_refs :=
  ViewRefs false "Connecting..." "" (Num (int 0)) false "" (Str "") (Arr []) false [] (Str "") ∅.

Definition no_wallet : value := obj [("publicKey", Null); ("privateKey", Null); ("id", Null)].

(** The state when the page is loaded over a given [localStorage]. *)
Definition page_load (st : gmap string string) (n : nat) : world :=
  World st n no_wallet init_tx init_view.

(** ** Field updates *)

Definition set_storage (st : gmap string string) (w : world) : world :=
  World st (tick w) (wallet w) (tx w) (view w).
Definition next_tick (w : world) : world :=
  World (storage w) (S (tick w)) (wallet w) (tx w) (view w).
Definition set_wallet (v : value) (w : world) : world :=
  World (storage w) (tick w) v (tx w) (view w).
Definition set_tx (f : tx_refs -> tx_refs) (w : world) : world :=
  World (storage w) (tick w) (wallet w) (f (tx w)) (view w).
Definition set_view (f : view_refs -> view_refs) (w : world) : world :=
  World (storage w) (tick w) (wallet w) (tx w) (f (view w)).

Definition set_currentTransaction (v : value) (r : tx_refs) : tx_refs :=
  TxRefs v (isProcessing r) (tx_status r) (tx_error r) (txHistory r).
Definition set_isProcessing (b : bool) (r : tx_refs) : tx_refs :=
  TxRefs (currentTransaction r) b (tx_status r) (tx_error r) (txHistory r).
Definition set_status (s : string) (r : tx_refs) : tx_refs :=
  TxRefs (currentTransaction r) (isProcessing r) s (tx_error r) (txHistory r).
Definition set_error (v : value) (r : tx_refs) : tx_refs :=
  TxRefs (currentTransaction r) (isProcessing r) (tx_status r) v (txHistory r).
Definition push_history (v : value) (r : tx_refs) : tx_refs :=
  TxRefs (currentTransaction r) (isProcessing r) (tx_status r) (tx_error r) (txHistory r ++ [v]).

Abbreviation script := (task world).

(** ** Browser primitives *)

Section browser.
Context `{Browser}.

(** [localStorage.getItem(k)]: [null] when absent. *)
Definition ls_getItem (k : string) : script value :=
  gets (fun w => match storage w !! k with Some s => Str s | None => Null end).

(** [localStorage.setItem(k, v)]: the value is converted to a string; the
    browser throws when the quota is exceeded. *)
Definition ls_setItem (k : string) (v : value) : script unit :=
  Get (fun w =>
    if accepts (storage w) k (to_string v)
    then Put (set_storage (<[k := to_string v]> (storage w)) w) (Ret tt)
    else Raise (Error "QuotaExceededError" "The quota has been exceeded.")).

(** [localStorage.removeItem(k)] *)
Definition ls_removeItem (k : string) : script unit :=
  modify (fun w => set_storage (delete k (storage w)) w).

(** [Date.now()] *)
Definition Date_now : script Z :=
  Get (fun w => Put (next_tick w) (Ret (now (tick w)))).

(** [crypto.getRandomValues(new Uint8Array(k))] *)
Definition getRandomValues (k : nat) : script (list Z) :=
  Get (fun w => Put (next_tick w) (Ret (random (tick w) k))).
End browser.

(** [new Date().toISOString()] of a time in milliseconds since 1970: the civil
    date of the proleptic Gregorian calendar. *)
Definition toISOString (t : Z) : string :=
  let p2 n := pad_start 2 "0" (nat_to_string 10 n) in
  let days := (t / 86400000)%Z in
  let ms := (t mod 86400000)%Z in
  let z := (days + 719468)%Z in
  let era := (z / 146097)%Z in
  let doe := (z mod 146097)%Z in
  let yoe := ((doe - doe / 1460 + doe / 36524 - doe / 146096) / 365)%Z in
  let doy := (doe - (365 * yoe + yoe / 4 - yoe / 100))%Z in
  let mp := ((5 * doy + 2) / 153)%Z in
  let d := (doy - (153 * mp + 2) / 5 + 1)%Z in
  let m := (if mp <? 10 then mp + 3 else mp - 9)%Z in
  let y := (yoe + era * 400 + (if m <=? 2 then 1 else 0))%Z in
  pad_start 4 "0" (nat_to_string 10 y) +:+ "-" +:+ p2 m +:+ "-" +:+ p2 d +:+ "T" +:+
  p2 (ms / 3600000)%Z +:+ ":" +:+ p2 (ms / 60000 mod 60)%Z +:+ ":" +:+ p2 (ms / 1000 mod 60)%Z +:+
  "." +:+ pad_start 3 "0" (nat_to_string 10 (ms mod 1000)) +:+ "Z".

Example toISOString_ex : toISOString 1700000000000 = "2023-11-14T22:13:20.000Z".
Proof. reflexivity. Qed.

(** ** Execution of the primitives *)

Section run_browser.
Context `{Browser} (server : list request -> request -> fetch_result).

Lemma run_ls_getItem k w l :
  run server (ls_getItem k) w l =
  (Normal (match storage w !! k with Some s => Str s | None => Null end), w, l).
Proof. done. Qed.

Lemma run_ls_setItem k v w l :
  run server (ls_setItem k v) w l =
  if accepts (storage w) k (to_string v)
  then (Normal tt, set_storage (<[k := to_string v]> (storage w)) w, l)
  else (Throw (Error "QuotaExceededError" "The quota has been exceeded."), w, l).
Proof. unfold ls_setItem. simpl. by destruct (accepts _ _ _). Qed.

Lemma run_ls_removeItem k w l :
  run server (ls_removeItem k) w l = (Normal tt, set_storage (delete k (storage w)) w, l).
Proof. done. Qed.

Lemma run_Date_now w l : run server Date_now w l = (Normal (now (tick w)), next_tick w, l).
Proof. done. Qed.

Lemma run_getRandomValues k w l :
  run server (getRandomValues k) w l = (Normal (random (tick w) k), next_tick w, l).
Proof. done. Qed.
End run_browser.

#[global] Hint Rewrite @run_ls_getItem @run_ls_setItem @run_ls_removeItem @run_Date_now
  @run_getRandomValues : run.

#[global] Arguments ls_getItem : simpl never.
#[global] Arguments ls_setItem : simpl never.
#[global] Arguments ls_removeItem : simpl never.
#[global] Arguments Date_now : simpl never.
#[global] Arguments getRandomValues : simpl never.
