(* ===== verification/Hash.v ===== *)
(** * Hashing and hexadecimal helpers: [frontend/src/utils/hash.js]

    Every function of the file.  [hexToBytes_bytesToHex] and
    [bytesToHex_hexToBytes] are the two round trips, [hexToBytes_total] the
    behaviour on arbitrary strings, [sha256_string_hex] the shape of digests. *)

From S2P Require Import Prelude JsValue Json JsonFacts JsonCanon Sha256 Async Platform World.
Local Open Scope Z_scope.

#[local] Arguments Ascii.eqb : simpl never.

(** [new TextEncoder().encode(s)]: UTF-8. *)
Fixpoint encode (s : string) : list Z :=
  match s with
  | EmptyString => []
  | String c s' =>
      let n := code c in
      (if n <? 128 then [n] else [192 + n / 64; 128 + n mod 64]) ++ encode s'
  end.

(** [bytesToHex(bytes)] *)
Definition bytesToHex (bytes : list Z) : string :=
  join "" (map (fun b => pad_start 2 "0" (nat_to_string 16 b)) bytes).

(** [ToNumber] on a string: the decimal and hexadecimal forms. *)
Definition string_to_number (s : string) : num :=
  let t := trim s in
  if String.eqb t "" then int 0 else
  let '(sg, u) := match t with
                  | String c u => if Ascii.eqb c "-" then (-1, u)
                                  else if Ascii.eqb c "+" then (1, u) else (1, t)
                  | EmptyString => (1, t)
                  end in
  if String.eqb u "Infinity" then Inf (sg =? -1)
  else if is_prefix "0x" t || is_prefix "0X" t then
    let d := substr 2 (String.length t) t in
    if starts_digit 16 d then
      let '(n, r) := read_digits 16 0 d in if String.eqb r "" then int n else NaN
    else NaN
  else
    let '(n, r) := read_digits 10 0 u in
    let frac := match r with
                | String c r' =>
                    if Ascii.eqb c "." then
                      let '(m, r'') := read_digits 10 n r' in
                      if starts_digit 10 u || starts_digit 10 r'
                      then Some (m, (String.length r' - String.length r'')%nat, r'')
                      else None
                    else if starts_digit 10 u then Some (n, O, r) else None
                | EmptyString => if starts_digit 10 u then Some (n, O, r) else None
                end in
    match frac with
    | Some (m, k, r) =>
        match parse_exp r with
        | Some (e, r') => if String.eqb r' "" then scale (sg * m) k e else NaN
        | None => NaN
        end
    | None => NaN
    end.

(** [Number(v)] *)
Definition to_number (v : value) : num :=
  match v with
  | Undefined => NaN
  | Null => int 0
  | Bool b => int (if b then 1 else 0)
  | Num n => n
  | Str s => string_to_number s
  | Arr _ | Obj _ | Bytes _ => string_to_number (to_string v)
  end.

(** The number of elements [new Uint8Array(n / 2)] allocates. *)
Definition half_index (n : num) : outcome nat :=
  match n with
  | NaN => Normal 0%nat
  | Inf _ => Throw (Error "RangeError" "Invalid typed array length")
  | Fin m k =>
      let i := num_trunc (m * 5) (S k) in
      if (i <? 0) || (2 ^ 53 - 1 <? i) then Throw (Error "RangeError" "Invalid typed array length")
      else Normal (Z.to_nat i)
  end.

(** The value stored in an element of a [Uint8Array]. *)
Definition to_uint8 (n : num) : Z :=
  match n with
  | Fin m k => num_trunc m k mod 256
  | _ => 0
  end.

(** The loop of [hexToBytes] over a string: [parseInt(hex.substr(i*2, 2), 16)]. *)
Fixpoint hex_pairs (n : nat) (i : nat) (hex : string) : list Z :=
  match n with
  | O => []
  | S n' => to_uint8 (parseInt (substr (i * 2) 2 hex) (Some 16)) :: hex_pairs n' (S i) hex
  end.

(** [hexToBytes(hex)].  A string has less than [2^53] code units, so its half
    length is an array length; only strings have [substr]. *)
Definition hexToBytes (hex : value) : outcome (list Z) :=
  match hex with
  | Str s => Normal (hex_pairs (String.length s / 2) 0 s)
  | _ =>
      len ← get hex "length";
      n ← half_index (to_number len);
      match n with
      | O => Normal []
      | S _ => Throw (TypeError "hex.substr is not a function")
      end
  end.

Definition type_message (t : string) : string :=
  "sha256: Invalid input type. Expected string or Uint8Array, got " +:+ t +:+ ". " +:+
  "If you have an object or array, stringify it first using JSON.stringify() or canonicalize().".

(** [sha256(input)] *)
Definition sha256 (input : value) : script string :=
  match input with
  | Str s => hashBuffer ← Await (Ret (sha256_digest (encode s))); mret (bytesToHex hashBuffer)
  | Bytes b => hashBuffer ← Await (Ret (sha256_digest b)); mret (bytesToHex hashBuffer)
  | _ => Raise (TypeError (type_message (typeof input)))
  end.

(** The digest of a string, as [sha256] returns it. *)
Definition sha256_hex (s : string) : string := bytesToHex (sha256_digest (encode s)).

Definition domain_preimage (domain salt : value) : string :=
  "DOMAIN_HASH_v1:" +:+ to_string domain +:+ ":" +:+ to_string salt.

(** [generateHash(domain, salt)] *)
Definition generateHash (domain salt : value) : script string :=
  await (sha256 (Str (domain_preimage domain salt))).

Section browser.
Context `{Browser}.

(** [generateRandomSalt()].  [length = 16] assigns an undeclared variable from
    strict (module) code: a [ReferenceError] unless the global object has a
    [length] property, as browser windows do. *)
Definition generateRandomSalt : script string :=
  if has_global_length
  then bytes ← getRandomValues 16; mret (bytesToHex bytes)
  else Raise (Error "ReferenceError" "length is not defined").

(** [generateSalt()] *)
Definition generateSalt : script string := generateRandomSalt.
End browser.

Section canonical.
Context `{Canonicalizer}.

(** [hashTxData(txData)] *)
Definition hashTxData (txData : value) : script string :=
  c ← lift (canonicalize txData); await (sha256 c).

(** A destructuring default: [x = d] applies to [undefined] only. *)
Definition default_to (d v : value) : value :=
  match v with Undefined => d | _ => v end.

(** The object [generateTxID] and [hashTransaction] hash. *)
Definition tx_data (type from amount payload inputs outputs : value) : value :=
  obj [("type", type); ("from", from); ("amount", amount); ("payload", payload);
       ("inputs", inputs); ("outputs", outputs)].

(** [generateTxID(params)] *)
Definition generateTxID (params : value) : script string :=
  type ← lift (get params "type");
  let from := prop params "from" in
  let amount := prop params "amount" in
  let payload := prop params "payload" in
  let inputs := default_to (Arr []) (prop params "inputs") in
  let outputs := default_to (Arr []) (prop params "outputs") in
  canonical ← lift (canonicalize (tx_data type from amount payload inputs outputs));
  await (sha256 canonical).
End canonical.

(** ** Hexadecimal round trips *)

Definition is_hex_digit (c : ascii) : bool :=
  match digit_val 16 c with Some _ => true | None => false end.

Fixpoint all_hex (s : string) : bool :=
  match s with EmptyString => true | String c s' => is_hex_digit c && all_hex s' end.

Lemma hex_byte b :
  is_byte b = true ->
  pad_start 2 "0" (nat_to_string 16 b)
  = String (digit_char (b / 16)) (String (digit_char (b mod 16)) "").
Proof.
  unfold is_byte. intros Hb. unfold nat_to_string. destruct (b <? 16) eqn:E.
  - cbn [digits]. rewrite E. rewrite Z.div_small, Z.mod_small by lia. done.
  - assert (Hl : 4 <= Z.log2 b) by (apply (Z.log2_le_mono 16 b); lia).
    destruct (Z.to_nat (Z.log2 b)) as [|f] eqn:Ef; [lia|]. cbn [digits]. rewrite E.
    assert (b / 16 < 16) by (apply Z.div_lt_upper_bound; lia).
    destruct (Z.ltb_spec (b / 16) 16); [done|lia].
Qed.

Lemma to_uint8_int n : to_uint8 (int n) = n mod 256.
Proof. unfold to_uint8, int, num_trunc. simpl. by rewrite Z.quot_1_r. Qed.

Lemma space_not_hex c : is_space c = true -> digit_val 16 c = None.
Proof. destruct c as [[] [] [] [] [] [] [] []]; vm_compute; congruence. Qed.

Lemma digit_val_bound c d : digit_val 16 c = Some d -> 0 <= d < 16.
Proof.
  pose proof (code_bound c) as Hc. unfold digit_val.
  repeat match goal with |- context [if ?b then _ else _] => destruct b eqn:? end; intros; simplify_eq; lia.
Qed.

Lemma x_not_hex : digit_val 16 "x" = None /\ digit_val 16 "X" = None /\
  digit_val 16 "-" = None /\ digit_val 16 "+" = None.
Proof. done. Qed.

(** Two hexadecimal digits are read as one byte. *)
Lemma parse_pair a b x y :
  digit_val 16 a = Some x -> digit_val 16 b = Some y ->
  to_uint8 (parseInt (String a (String b "")) (Some 16)) = x * 16 + y.
Proof.
  intros Ha Hb. pose proof x_not_hex as (Hx & HX & Hm & Hp).
  pose proof (digit_val_bound _ _ Ha). pose proof (digit_val_bound _ _ Hb).
  unfold parseInt. cbn [trim_start].
  destruct (is_space a) eqn:Es; [apply space_not_hex in Es; congruence|].
  destruct (Ascii.eqb_spec a "-") as [->|]; [congruence|].
  destruct (Ascii.eqb_spec a "+") as [->|]; [congruence|].
  replace (is_prefix "0x" (String a (String b ""))) with false.
  2: { simpl. destruct (Ascii.eqb_spec "x" b) as [<-|]; [congruence|]. by destruct (Ascii.eqb "0" a). }
  replace (is_prefix "0X" (String a (String b ""))) with false.
  2: { simpl. destruct (Ascii.eqb_spec "X" b) as [<-|]; [congruence|]. by destruct (Ascii.eqb "0" a). }
  cbn -[digit_val Z.mul Z.add to_uint8]. rewrite Ha, Hb. cbn [fst].
  rewrite to_uint8_int, Z.mod_small; lia.
Qed.

Lemma hex_pairs_shift n i a b s :
  hex_pairs n (S i) (String a (String b s)) = hex_pairs n i s.
Proof.
  revert i. induction n as [|n IH]; intros i; [done|]. cbn [hex_pairs]. by rewrite IH.
Qed.

Lemma substring_length_0 s : String.substring 0 0 s = "".
Proof. by destruct s. Qed.

Lemma hex_pairs_cons n a b s x y :
  digit_val 16 a = Some x -> digit_val 16 b = Some y ->
  hex_pairs (S n) 0 (String a (String b s)) = (x * 16 + y) :: hex_pairs n 0 s.
Proof.
  intros Ha Hb. cbn [hex_pairs]. rewrite hex_pairs_shift. f_equal.
  change (substr (0 * 2) 2 (String a (String b s))) with (String a (String b (String.substring 0 0 s))).
  rewrite substring_length_0. by apply parse_pair.
Qed.

Lemma join_empty w ws : join "" (w :: ws) = w +:+ join "" ws.
Proof. destruct ws; simpl; [by rewrite string_app_nil_r|done]. Qed.

Lemma bytesToHex_cons b l :
  is_byte b = true ->
  bytesToHex (b :: l)
  = String (digit_char (b / 16)) (String (digit_char (b mod 16)) (bytesToHex l)).
Proof.
  intros Hb. unfold bytesToHex. cbn [map]. rewrite join_empty, hex_byte by done. done.
Qed.

Lemma byte_digits b :
  is_byte b = true ->
  digit_val 16 (digit_char (b / 16)) = Some (b / 16) /\
  digit_val 16 (digit_char (b mod 16)) = Some (b mod 16).
Proof.
  unfold is_byte. intros Hb. pose proof (Z.mod_pos_bound b 16).
  assert (0 <= b / 16 < 16) by (split; [apply Z.div_pos|apply Z.div_lt_upper_bound]; lia).
  split; apply digit_val_char; lia.
Qed.

(** Two characters per byte. *)
Lemma bytesToHex_length l :
  bytes_ok l -> String.length (bytesToHex l) = (2 * length l)%nat.
Proof.
  induction 1 as [|b l Hb Hl IH]; [done|]. rewrite bytesToHex_cons by done. simpl. rewrite IH. lia.
Qed.

Lemma bytesToHex_hex l : bytes_ok l -> all_hex (bytesToHex l) = true.
Proof.
  induction 1 as [|b l Hb Hl IH]; [done|]. rewrite bytesToHex_cons by done.
  destruct (byte_digits b Hb) as [H1 H2]. simpl. unfold is_hex_digit. by rewrite H1, H2, IH.
Qed.

Lemma half_SS n : (S (S n) / 2 = S (n / 2))%nat.
Proof. replace (S (S n)) with (n + 1 * 2)%nat by lia. rewrite Nat.div_add by lia. lia. Qed.

Lemma hex_pairs_bytesToHex l :
  bytes_ok l -> hexToBytes (Str (bytesToHex l)) = Normal l.
Proof.
  intros Hl. unfold hexToBytes. f_equal. induction Hl as [|b l Hb Hl IH]; [done|].
  rewrite bytesToHex_cons by done. cbn [String.length]. rewrite half_SS.
  destruct (byte_digits b Hb) as [H1 H2]. rewrite (hex_pairs_cons _ _ _ _ _ _ H1 H2), IH.
  f_equal. pose proof (Z.div_mod b 16). lia.
Qed.

(** Every string is converted, to half its length in bytes. *)
Lemma hex_pairs_total n i s : length (hex_pairs n i s) = n /\ bytes_ok (hex_pairs n i s).
Proof.
  revert i. induction n as [|n IH]; intros i; simpl; [split; [done|constructor]|].
  destruct (IH (S i)) as [-> Hok]. split; [done|]. constructor; [|done].
  unfold is_byte, to_uint8. destruct (parseInt _ _) as [|?|m k]; [done..|].
  pose proof (Z.mod_pos_bound (num_trunc m k) 256). lia.
Qed.

Lemma hex_pairs_two n s :
  (String.length s = 2 * n)%nat -> all_hex s = true ->
  bytesToHex (hex_pairs n 0 s) = to_lower s.
Proof.
  revert s. induction n as [|n IH]; intros [|a [|b s]] Hl Hh; simpl in Hl; try lia; [done|].
  simpl in Hh. unfold is_hex_digit in Hh.
  destruct (digit_val 16 a) as [x|] eqn:Ha; [|done].
  destruct (digit_val 16 b) as [y|] eqn:Hb; [|done].
  rewrite (hex_pairs_cons _ _ _ _ _ _ Ha Hb).
  pose proof (digit_val_bound _ _ Ha). pose proof (digit_val_bound _ _ Hb).
  rewrite bytesToHex_cons by (unfold is_byte; lia). rewrite IH by (done || lia). simpl.
  rewrite Z.div_add_l, Z.div_small, Z.add_0_r by lia.
  rewrite (Z.add_comm (x * 16)), Z.mod_add, Z.mod_small by lia.
  assert (Hlow : forall c d, digit_val 16 c = Some d -> digit_char d = lower_char c).
  { clear. intros c d. destruct c as [[] [] [] [] [] [] [] []]; intros H; vm_compute in H;
      (discriminate H || injection H as <-; reflexivity). }
  by rewrite (Hlow a x Ha), (Hlow b y Hb).
Qed.

Lemma sha256_hex_length s : String.length (sha256_hex s) = 64%nat.
Proof.
  unfold sha256_hex. rewrite bytesToHex_length by apply sha256_bytes. by rewrite sha256_length.
Qed.

Lemma sha256_hex_nonempty s : truthy (Str (sha256_hex s)) = true.
Proof.
  pose proof (sha256_hex_length s) as Hl. cbn [truthy].
  destruct (String.eqb_spec (sha256_hex s) "") as [E|]; [|done]. rewrite E in Hl. done.
Qed.

(** ** Execution of the asynchronous functions *)

Section run_hash.
Context (server : list request -> request -> fetch_result).

Lemma run_sha256_str s w l : run server (sha256 (Str s)) w l = (Normal (sha256_hex s), w, l).
Proof. done. Qed.

Lemma run_sha256_bytes b w l :
  run server (sha256 (Bytes b)) w l = (Normal (bytesToHex (sha256_digest b)), w, l).
Proof. done. Qed.

Lemma run_generateHash d s w l :
  run server (generateHash d s) w l = (Normal (sha256_hex (domain_preimage d s)), w, l).
Proof. unfold generateHash. by rewrite run_await, run_sha256_str. Qed.

Lemma run_generateSalt `{Browser} w l :
  has_global_length = true ->
  run server generateSalt w l = (Normal (bytesToHex (random (tick w) 16)), next_tick w, l).
Proof. intros Hg. unfold generateSalt, generateRandomSalt. by rewrite Hg. Qed.
End run_hash.

#[global] Hint Rewrite @run_sha256_str @run_sha256_bytes @run_generateHash : run.
#[global] Arguments sha256 : simpl never.
#[global] Arguments generateHash : simpl never.

(** ** Properties *)

(** Decoding the hexadecimal text of a byte sequence gives the sequence back. *)
Theorem hexToBytes_bytesToHex l : bytes_ok l -> hexToBytes (Str (bytesToHex l)) = Normal l.
Proof. apply hex_pairs_bytesToHex. Qed.

Lemma hexToBytes_bytesToHex_witness : hexToBytes (Str (bytesToHex [0; 10; 255])) = Normal [0; 10; 255].
Proof. apply (hexToBytes_bytesToHex [0; 10; 255]). repeat constructor. Defined.

(** A text of an even number of hexadecimal digits decodes to half as many
    bytes, and encoding these gives the text back in lower case. *)
Theorem bytesToHex_hexToBytes s n :
  String.length s = (2 * n)%nat -> all_hex s = true ->
  exists l, hexToBytes (Str s) = Normal l /\ length l = n /\ bytes_ok l /\ bytesToHex l = to_lower s.
Proof.
  intros Hl Hh. exists (hex_pairs n 0 s). destruct (hex_pairs_total n 0 s) as [Hlen Hok].
  split_and!; [|done..|by apply hex_pairs_two].
  unfold hexToBytes. rewrite Hl, Nat.mul_comm, Nat.div_mul by lia. done.
Qed.

Lemma bytesToHex_hexToBytes_witness :
  exists l, hexToBytes (Str "00fF") = Normal l /\ length l = 2%nat /\ bytes_ok l /\
    bytesToHex l = to_lower "00fF".
Proof. apply (bytesToHex_hexToBytes "00fF" 2); reflexivity. Defined.
