(* ===== verification/Validation.v ===== *)
(** * Input validation: [frontend/src/utils/validation.js]

    The file's regular expressions are sequences of character classes with a
    repetition range, anchored at both ends; [matches] is their backtracking
    matcher and [matches_spec] its declarative meaning. *)

From S2P Require Import Prelude JsValue Async Platform World Hash.

#[local] Arguments Ascii.eqb : simpl never.
#[local] Arguments String.app !_ _ : simpl nomatch.

(** ** Anchored regular expressions *)

(** A class repeated between [mn] and [mx] times; [None] is unbounded. *)
Record item := Item { cls : ascii -> bool; mn : nat; mx : option nat }.

Fixpoint rep (p : ascii -> bool) (mn : nat) (mx : option nat) (k : string -> bool)
    (s : string) {struct s} : bool :=
  match s with
  | EmptyString => Nat.eqb mn 0 && k ""
  | String c s' =>
      (match mx with Some O => false | _ => p c && rep p (pred mn) (pred <$> mx) k s' end)
      || (Nat.eqb mn 0 && k s)
  end.

Fixpoint matches (pat : list item) : string -> bool :=
  match pat with
  | [] => fun s => String.eqb s ""
  | it :: pat' => rep (cls it) (mn it) (mx it) (matches pat')
  end.

Definition in_range (lo hi : Z) (c : ascii) : bool := (lo <=? code c)%Z && (code c <=? hi)%Z.
Definition alpha (c : ascii) : bool := in_range 97 122 c || in_range 65 90 c.
Definition digit (c : ascii) : bool := in_range 48 57 c.
Definition alnum (c : ascii) : bool := alpha c || digit c.
Definition alnum_hyphen (c : ascii) : bool := alnum c || Ascii.eqb c "-".
Definition hexa (c : ascii) : bool := digit c || in_range 97 102 c || in_range 65 70 c.

(** [/^[a-zA-Z0-9][a-zA-Z0-9-]{0,61}[a-zA-Z0-9]?\.[a-zA-Z]{2,}$/] *)
Definition domainRegex : list item :=
  [Item alnum 1 (Some 1); Item alnum_hyphen 0 (Some 61); Item alnum 0 (Some 1);
   Item (Ascii.eqb ".") 1 (Some 1); Item alpha 2 None].

(** ** The functions *)

(** [isValidDomain(domain)]; [RegExp.prototype.test] converts its argument. *)
Definition isValidDomain (domain : value) : bool := matches domainRegex (to_string domain).

(** [isValidFee(fee)] *)
Definition isValidFee (fee : value) : bool :=
  match fee with
  | Num n => num_lt (int 0) n && num_is_integer n
  | _ => false
  end.

(** [isValidHex(str)] *)
Definition isValidHex (str : value) : bool := matches [Item hexa 1 None] (to_string str).

(** [isValidWalletID(id)]: the chain of [&&] returns its first falsy operand. *)
Definition isValidWalletID (id : value) : value :=
  if negb (truthy id) then id else
  match id with
  | Str s => Bool (isValidHex id && (32 <=? String.length s)%nat)
  | _ => Bool false
  end.

(** ** Meaning of the matcher *)

Fixpoint all_cls (p : ascii -> bool) (s : string) : bool :=
  match s with EmptyString => true | String c s' => p c && all_cls p s' end.

Lemma all_cls_app p a b : all_cls p (a +:+ b) = all_cls p a && all_cls p b.
Proof. induction a as [|c a IH]; [done|]. simpl. by rewrite IH, andb_assoc. Qed.

Definition within (n : nat) (m : option nat) : Prop :=
  match m with Some b => n <= b | None => True end.

Lemma within_0 m : within 0 m.
Proof. destruct m; simpl; [lia|done]. Qed.

Lemma rep_spec p mn mx k s :
  rep p mn mx k s = true <->
  exists a b, s = a +:+ b /\ all_cls p a = true /\ mn <= String.length a /\
    within (String.length a) mx /\ k b = true.
Proof.
  revert mn mx. induction s as [|c s IH]; intros mn mx; cbn [rep].
  - rewrite andb_true_iff, Nat.eqb_eq. split.
    + intros [-> Hk]. exists "", "". split_and!; try done; apply within_0.
    + intros ([|c a] & b & Heq & _ & Hmn & _ & Hk); [|done]. simpl in *. subst. split; [lia|done].
  - rewrite orb_true_iff, andb_true_iff, Nat.eqb_eq. split.
    + intros [Hrec|[-> Hk]].
      * assert (Hm : mx <> Some 0 /\ p c && rep p (pred mn) (pred <$> mx) k s = true)
          by (by destruct mx as [[|]|]).
        destruct Hm as [Hmx Hm]. apply andb_true_iff in Hm as [Hc Hr].
        apply IH in Hr as (a & b & -> & Ha & Hmn & Hw & Hk).
        exists (String c a), b. split_and!; try done; simpl; [by rewrite Hc| |].
        -- destruct mn; simpl in *; lia.
        -- destruct mx as [[|m]|]; simpl in *; [done|lia|done].
      * exists "", (String c s). split_and!; try done; apply within_0.
    + intros ([|d a] & b & Heq & Ha & Hmn & Hw & Hk); simpl in *.
      * right. subst. split; [lia|done].
      * left. injection Heq as -> ->. apply andb_true_iff in Ha as [Hd Ha].
        assert (Hr : p d && rep p (pred mn) (pred <$> mx) k (a +:+ b) = true).
        { rewrite Hd. apply IH. exists a, b. split_and!; try done.
          - destruct mn; simpl in *; lia.
          - destruct mx as [[|m]|]; simpl in *; [lia|lia|done]. }
        destruct mx as [[|m]|]; simpl in *; [lia|done|done].
Qed.

(** A string matches a pattern when it is a concatenation of words, one for each
    item, within its class and its range. *)
Fixpoint words_of (pat : list item) (s : string) : Prop :=
  match pat with
  | [] => s = ""
  | it :: pat' =>
      exists a b, s = a +:+ b /\ all_cls (cls it) a = true /\ mn it <= String.length a /\
        within (String.length a) (mx it) /\ words_of pat' b
  end.

Lemma matches_spec pat s : matches pat s = true <-> words_of pat s.
Proof.
  revert s. induction pat as [|it pat IH]; intros s; simpl.
  - apply String.eqb_eq.
  - rewrite rep_spec. split; intros (a & b & H); exists a, b; rewrite ?IH in *; naive_solver.
Qed.

(** ** Domain names *)

(** A label: at most 63 characters, letters, digits and hyphens, starting with
    a letter or digit; a label of full length also ends with one. *)
Definition domain_label (s : string) : Prop :=
  exists c r, s = String c r /\ alnum c = true /\ all_cls alnum_hyphen r = true /\
    String.length r <= 62 /\
    (String.length r = 62 -> exists r' d, r = r' +:+ String d "" /\ alnum d = true).

Definition domain_tld (s : string) : Prop := all_cls alpha s = true /\ 2 <= String.length s.

Lemma one_char s : 1 <= String.length s -> String.length s <= 1 -> exists c, s = String c "".
Proof. destruct s as [|c [|d s]]; simpl; intros; [lia|eauto|lia]. Qed.

Lemma alnum_is_hyphen p s :
  (forall c, p c = true -> alnum_hyphen c = true) -> all_cls p s = true -> all_cls alnum_hyphen s = true.
Proof.
  intros Hp. induction s as [|c s IH]; [done|]. simpl. intros [Hc Hs]%andb_true_iff.
  by rewrite Hp, IH.
Qed.

Lemma alnum_hyphen_alnum c : alnum c = true -> alnum_hyphen c = true.
Proof. unfold alnum_hyphen. by intros ->. Qed.

(** Split a string before its last character. *)
Lemma string_last s : s <> "" -> exists r d, s = r +:+ String d "".
Proof.
  induction s as [|c s IH]; [done|]. intros _. destruct s as [|d s]; [by exists "", c|].
  destruct IH as (r & e & Heq); [done|]. exists (String c r), e. by rewrite string_app_cons, <- Heq.
Qed.

Lemma label_words r :
  (exists m o, r = m +:+ o /\ all_cls alnum_hyphen m = true /\ String.length m <= 61 /\
     all_cls alnum o = true /\ String.length o <= 1) <->
  all_cls alnum_hyphen r = true /\ String.length r <= 62 /\
  (String.length r = 62 -> exists r' d, r = r' +:+ String d "" /\ alnum d = true).
Proof.
  split.
  - intros (m & o & -> & Hm & Hlm & Ho & Hlo). rewrite all_cls_app, string_length_app. split_and!.
    + rewrite Hm. apply (alnum_is_hyphen alnum); [apply alnum_hyphen_alnum|done].
    + lia.
    + intros Hl. destruct (one_char o) as [d ->]; [lia..|]. exists m, d.
      simpl in Ho. by rewrite andb_true_r in Ho.
  - intros (Hr & Hl & Hend). destruct (decide (String.length r = 62)) as [Heq|Hne].
    + destruct (Hend Heq) as (r' & d & -> & Hd). rewrite all_cls_app in Hr.
      apply andb_true_iff in Hr as [Hr _]. rewrite string_length_app in Heq. simpl in Heq.
      exists r', (String d ""). split_and!; try done; simpl; [lia|by rewrite Hd].
    + exists r, "". rewrite string_app_nil_r. split_and!; try done; simpl; lia.
Qed.

Lemma domain_words s :
  words_of domainRegex s <->
  exists label tld, s = label +:+ "." +:+ tld /\ domain_label label /\ domain_tld tld.
Proof.
  unfold domainRegex, domain_label, domain_tld. cbn [words_of cls mn mx within]. split.
  - intros (a & b & -> & Ha & Ha1 & Ha2 & m & b' & -> & Hm & _ & Hlm & o & b'' & -> & Ho & _ & Hlo
      & dot & b3 & -> & Hd & Hd1 & Hd2 & t & e & -> & Ht & Hlt & _ & ->).
    destruct (one_char a Ha1 Ha2) as [c ->]. destruct (one_char dot Hd1 Hd2) as [x ->].
    simpl in Ha, Hd. rewrite andb_true_r in Ha, Hd. apply Ascii.eqb_eq in Hd as <-.
    exists (String c (m +:+ o)), t. rewrite string_app_nil_r.
    split; [simpl; by rewrite <- ?string_app_assoc|]. split; [|done].
    exists c, (m +:+ o). split; [done|]. split; [done|]. apply label_words. eauto 10.
  - intros (label & t & -> & (c & r & -> & Hc & Hr) & Ht & Hlt).
    apply label_words in Hr as (m & o & -> & Hm & Hlm & Ho & Hlo).
    exists (String c ""), (m +:+ o +:+ "." +:+ t).
    split_and!; [simpl; by rewrite <- ?string_app_assoc|simpl; by rewrite Hc|simpl; lia..|].
    exists m, (o +:+ "." +:+ t). split_and!; [done..|lia|done|].
    exists o, ("." +:+ t). split_and!; [done..|lia|done|].
    exists ".", t. split_and!; [done|done|simpl; lia|simpl; lia|].
    exists t, "". split_and!; try done. by rewrite string_app_nil_r.
Qed.

Lemma isValidDomain_iff s :
  isValidDomain (Str s) = true <->
  exists label tld, s = label +:+ "." +:+ tld /\ domain_label label /\ domain_tld tld.
Proof. unfold isValidDomain. simpl to_string. by rewrite matches_spec, domain_words. Qed.

(** Names of the form the tests list. *)
Example isValidDomain_ex :
  map (fun s => isValidDomain (Str s))
    ["example.com"; "a-.com"; "example"; ".example.com"; "example..com"; "example.c";
     "-example.com"; ""; "exam ple.com"; "sub.example.com"]
  = [true; true; false; false; false; false; false; false; false; false].
Proof. reflexivity. Qed.

(** ** Hexadecimal strings *)

Lemma hexa_digit c : hexa c = is_hex_digit c.
Proof. destruct c as [[] [] [] [] [] [] [] []]; reflexivity. Qed.

Lemma all_cls_hexa s : all_cls hexa s = all_hex s.
Proof. induction s as [|c s IH]; [done|]. simpl. by rewrite hexa_digit, IH. Qed.

Lemma isValidHex_iff s : isValidHex (Str s) = true <-> s <> "" /\ all_hex s = true.
Proof.
  unfold isValidHex. rewrite matches_spec. cbn [words_of cls mn mx within to_string]. split.
  - intros (a & b & -> & Ha & Hl & _ & ->). rewrite string_app_nil_r, <- all_cls_hexa.
    split; [|done]. by destruct a; [simpl in Hl; lia|].
  - intros [Hne Hh]. exists s, "". rewrite string_app_nil_r, all_cls_hexa.
    split_and!; try done. destruct s; simpl; [done|lia].
Qed.

(** ** Properties *)

(** [isValidDomain] accepts exactly the names made of one label, a dot and a
    top-level domain of at least two letters, the label being a letter or digit
    followed by at most 62 letters, digits and hyphens (of which the 62nd is not a
    hyphen). *)
Theorem isValidDomain_spec s :
  isValidDomain (Str s) = true <->
  exists label tld, s = label +:+ "." +:+ tld /\ domain_label label /\ domain_tld tld.
Proof. apply isValidDomain_iff. Qed.

(** A wallet key text accepted by [isValidHex] with an even number of digits
    is decoded without loss by [hexToBytes]. *)
Theorem isValidHex_decodes s n :
  isValidHex (Str s) = true -> String.length s = 2 * n ->
  exists l, hexToBytes (Str s) = Normal l /\ length l = n /\ bytesToHex l = to_lower s.
Proof.
  intros [_ Hh]%isValidHex_iff Hl. exists (hex_pairs n 0 s).
  unfold hexToBytes. rewrite Hl, Nat.mul_comm, Nat.div_mul by lia.
  split_and!; [done|apply hex_pairs_total|apply hex_pairs_two; [lia|done]].
Qed.

Lemma isValidHex_decodes_witness :
  exists l, hexToBytes (Str "A0b1") = Normal l /\ length l = 2 /\ bytesToHex l = to_lower "A0b1".
Proof. apply (isValidHex_decodes "A0b1" 2); reflexivity. Defined.
