(* ===== verification/Storage.v ===== *)
(** * Persistent storage: [frontend/src/utils/storage.js]

    The typed wrapper over [localStorage]: what [setItem] stored, [getItem]
    returns; failures of the store or of the parser are reported as [false] and
    as the default value. *)

From S2P Require Import Prelude JsValue Json JsonFacts JsonCanon Async Platform World.

Definition STORAGE_PREFIX : string := "peerster_".

Module StorageKeys.
Definition WALLET : string := STORAGE_PREFIX +:+ "wallet".
Definition DOMAINS : string := STORAGE_PREFIX +:+ "domains".
Definition TRANSACTIONS : string := STORAGE_PREFIX +:+ "transactions".
(** [Object.values(StorageKeys)] *)
Definition values : list string := [WALLET; DOMAINS; TRANSACTIONS].
End StorageKeys.

(** [v.push(x)]: only arrays have [push]. *)
Definition push (name : string) (v x : value) : outcome value :=
  match v with
  | Arr l => Normal (Arr (l ++ [x]))
  | Undefined | Null => m ← get v "push"; Normal m
  | _ => Throw (TypeError (name +:+ ".push is not a function"))
  end.

Section storage.
Context `{Browser}.

(** [setItem(key, value)] *)
Definition setItem (key : string) (v : value) : script bool :=
  try_catch
    (let serialized := stringify v in
     _ ← ls_setItem key serialized; mret true)
    (fun _ => mret false).

(** [getItem(key, defaultValue)] *)
Definition getItem (key : string) (defaultValue : value) : script value :=
  try_catch
    (item ← ls_getItem key;
     if truthy item then lift (json_parse (to_string item)) else mret defaultValue)
    (fun _ => mret defaultValue).

(** [removeItem(key)] *)
Definition removeItem (key : string) : script unit := ls_removeItem key.

Fixpoint removeItems (keys : list string) : script unit :=
  match keys with
  | [] => mret tt
  | k :: keys' => _ ← ls_removeItem k; removeItems keys'
  end.

(** [clear()] *)
Definition clear : script unit := removeItems StorageKeys.values.

(** [saveWalletData(wallet)], [getWalletData()] *)
Definition saveWalletData (wallet : value) : script bool := setItem StorageKeys.WALLET wallet.
Definition getWalletData : script value := getItem StorageKeys.WALLET Null.

(** [saveDomain(domainData)] *)
Definition saveDomain (domainData : value) : script bool :=
  domains ← getItem StorageKeys.DOMAINS (Arr []);
  domains' ← lift (push "domains" domains domainData);
  setItem StorageKeys.DOMAINS domains'.

(** [getDomains()] *)
Definition getDomains : script value := getItem StorageKeys.DOMAINS (Arr []).
End storage.

(** ** What a key holds *)

(** [getItem] as a function of the store. *)
Definition stored (st : gmap string string) (key : string) (d : value) : value :=
  match st !! key with
  | Some s => if String.eqb s "" then d else
              match json_parse s with Normal v => v | Throw _ => d end
  | None => d
  end.

Section run_storage.
Context `{Browser} (server : list request -> request -> fetch_result).

Lemma run_getItem key d w l :
  run server (getItem key d) w l = (Normal (stored (storage w) key d), w, l).
Proof.
  unfold getItem, stored. rewrite run_try, run_bind, run_ls_getItem.
  destruct (storage w !! key) as [s|]; [|done]. simpl.
  destruct (String.eqb s ""); simpl; [done|]. rewrite run_lift. by destruct (json_parse s).
Qed.

Lemma run_setItem key v w l :
  run server (setItem key v) w l =
  if accepts (storage w) key (to_string (stringify v))
  then (Normal true, set_storage (<[key := to_string (stringify v)]> (storage w)) w, l)
  else (Normal false, w, l).
Proof.
  unfold setItem. rewrite run_try, run_bind, run_ls_setItem. by destruct (accepts _ _ _).
Qed.

Lemma run_removeItems keys w l :
  run server (removeItems keys) w l =
  (Normal tt, set_storage (foldl (fun st k => delete k st) (storage w) keys) w, l).
Proof.
  revert w. induction keys as [|k keys IH]; intros w.
  - by destruct w.
  - cbn [removeItems foldl]. rewrite run_bind, run_ls_removeItem, IH. done.
Qed.

Lemma run_clear w l :
  run server clear w l =
  (Normal tt, set_storage (foldl (fun st k => delete k st) (storage w) StorageKeys.values) w, l).
Proof. apply run_removeItems. Qed.
End run_storage.

#[global] Hint Rewrite @run_getItem @run_setItem @run_clear : run.
#[global] Arguments setItem : simpl never.
#[global] Arguments getItem : simpl never.
#[global] Arguments clear : simpl never.
#[global] Arguments stored : simpl never.

(** ** Reading back what was written *)

Lemma ser_nonempty gap ind v s : ser gap ind v = Some s -> s <> "".
Proof.
  destruct v as [| |[]|[| |m k]|t|l|o|l]; simpl; intros H; simplify_eq; try done.
  - intros Heq. apply (f_equal String.length) in Heq. simpl in Heq.
    pose proof (num_head m k) as (c & r & Hn & _). cbn [num_to_string] in Hn. rewrite Hn in Heq. done.
  - unfold bracket. destruct (map _ l); [done|]. by destruct (String.eqb gap "").
  - unfold bracket. destruct (omap _ _); [done|]. by destruct (String.eqb gap "").
  - unfold bracket. destruct (imap _ l); [done|]. by destruct (String.eqb gap "").
Qed.

(** JSON data written under a key is what the key then holds. *)
Lemma stored_insert st key v d :
  json_ok v -> stored (<[key := to_string (stringify v)]> st) key d = v.
Proof.
  intros Hok. unfold stored. rewrite lookup_insert_eq.
  destruct (json_roundtrip v Hok) as (s & Hs & Hp). rewrite Hs. simpl.
  destruct (String.eqb_spec s "") as [->|]; [|by rewrite Hp].
  unfold stringify in Hs. destruct (ser "" "" v) eqn:E; [|done].
  apply ser_nonempty in E. congruence.
Qed.

Lemma stored_insert_ne st key key' s d :
  key <> key' -> stored (<[key := s]> st) key' d = stored st key' d.
Proof. intros Hne. unfold stored. by rewrite lookup_insert_ne. Qed.

Lemma stored_delete st key d : stored (delete key st) key d = d.
Proof. unfold stored. by rewrite lookup_delete_eq. Qed.

Lemma stored_delete_ne st key key' d :
  key <> key' -> stored (delete key st) key' d = stored st key' d.
Proof. intros Hne. unfold stored. by rewrite lookup_delete_ne. Qed.

(** A stored value is JSON data, or the default. *)
Lemma stored_ok st key d : json_ok d -> json_ok (stored st key d).
Proof.
  intros Hd. unfold stored. destruct (st !! key) as [s|]; [|done].
  destruct (String.eqb s ""); [done|]. destruct (json_parse s) eqn:E; [|done].
  by eapply json_parse_ok.
Qed.

(** ** Properties *)

(** JSON data written with [setItem] under an accepted key is returned by
    [getItem], whatever the default, and the other keys keep their values; when the
    browser refuses the write, [setItem] reports [false] and nothing changes. *)
Theorem setItem_getItem `{Browser} server key v w l :
  json_ok v ->
  exists b w', run server (setItem key v) w l = (Normal b, w', l) /\
    (b = false -> w' = w) /\
    (b = true -> forall d l', run server (getItem key d) w' l' = (Normal v, w', l')) /\
    (forall key' d l', key' <> key ->
       (run server (getItem key' d) w' l').1.1 = (run server (getItem key' d) w l').1.1).
Proof.
  intros Hok. rewrite run_setItem. destruct (accepts _ _ _); eexists _, _; split_and!; try done.
  - intros _ d l'. rewrite run_getItem. simpl. by rewrite stored_insert.
  - intros key' d l' Hne. rewrite !run_getItem. simpl. by rewrite stored_insert_ne.
Qed.

Import Reference.

Lemma setItem_getItem_witness :
  exists b w', run offline
      (setItem "user_preferences" (Arr [Bool true])) (page_load ∅ 0) [] = (Normal b, w', []) /\
    (b = true -> forall d l', run offline
       (getItem "user_preferences" d) w' l' = (Normal (Arr [Bool true]), w', l')).
Proof.
  destruct (setItem_getItem offline
    "user_preferences" (Arr [Bool true]) (page_load ∅ 0) []) as (b & w' & H1 & _ & H3 & _).
  - repeat constructor.
  - by exists b, w'.
Defined.
