(* ===== verification/DomainStorage.v ===== *)
(** * Pending domains: [frontend/src/utils/domainStorage.js]

    Each miner (wallet) has a list of domain entries under its own key of
    [localStorage].  The contract is a map from miners to lists of entries
    ([spec]); [ops_refine] shows that every sequence of operations implements it
    and leaves the other miners and the other keys alone. *)

From S2P Require Import Prelude JsValue Json JsonFacts JsonCanon Async Platform World Storage.

(** [`pending_domains_${minerID}`] *)
Definition pending_key (minerID : value) : string := "pending_domains_" +:+ to_string minerID.

Fixpoint map_out (f : value -> outcome value) (l : list value) : outcome (list value) :=
  match l with
  | [] => Normal []
  | x :: l' => y ← f x; ys ← map_out f l'; Normal (y :: ys)
  end.

Fixpoint filter_out (p : value -> outcome bool) (l : list value) : outcome (list value) :=
  match l with
  | [] => Normal []
  | x :: l' => b ← p x; ys ← filter_out p l'; Normal (if (b : bool) then x :: ys else ys)
  end.

(** [v.map(f)] on a parsed array; [f] may throw. *)
Definition map_method (name : string) (f : value -> outcome value) (v : value) : outcome value :=
  match v with
  | Arr l => Arr <$> map_out f l
  | Undefined | Null => get v "map"
  | _ => Throw (TypeError (name +:+ ".map is not a function"))
  end.

(** [v.filter(p)] *)
Definition filter_method (name : string) (p : value -> outcome bool) (v : value) : outcome value :=
  match v with
  | Arr l => Arr <$> filter_out p l
  | Undefined | Null => get v "filter"
  | _ => Throw (TypeError (name +:+ ".filter is not a function"))
  end.

Section domain_storage.
Context `{Browser}.

(** [JSON.parse(localStorage.getItem(key) || '[]')] *)
Definition read_list (key : string) : script value :=
  item ← ls_getItem key;
  lift (json_parse (to_string (js_or item (Str "[]")))).

(** [savePendingDomain(minerID, domain, salt, commitment, txid)] *)
Definition savePendingDomain (minerID domain salt commitment txid : value) : script unit :=
  let key := pending_key minerID in
  existing ← read_list key;
  timestamp ← Date_now;
  existing' ← lift (push "existing" existing
    (obj [("domain", domain); ("salt", salt); ("commitment", commitment); ("txid", txid);
          ("timestamp", Num (int timestamp)); ("status", Str "pending")]));
  ls_setItem key (stringify existing').

(** [getPendingDomains(minerID)] *)
Definition getPendingDomains (minerID : value) : script value := read_list (pending_key minerID).

(** [updateDomainStatus(minerID, domain, status)] *)
Definition updateDomainStatus (minerID domain status : value) : script unit :=
  let key := pending_key minerID in
  existing ← read_list key;
  updated ← lift (map_method "existing" (fun d =>
    dd ← get d "domain";
    Normal (if strict_eq dd domain then spread d [("status", status)] else d)) existing);
  ls_setItem key (stringify updated).

(** [removePendingDomain(minerID, domain)] *)
Definition removePendingDomain (minerID domain : value) : script unit :=
  let key := pending_key minerID in
  existing ← read_list key;
  filtered ← lift (filter_method "existing" (fun d =>
    dd ← get d "domain"; Normal (negb (strict_eq dd domain))) existing);
  ls_setItem key (stringify filtered).

(** [clearAllPendingDomains(minerID)] *)
Definition clearAllPendingDomains (minerID : value) : script unit :=
  ls_removeItem (pending_key minerID).
End domain_storage.

(** ** Contract *)

(** What a key holds: a list of entries, when its text is a JSON array whose
    elements are neither [null] nor [undefined]. *)
Definition entries (st : gmap string string) (key : string) : option (list value) :=
  match st !! key with
  | None => Some []
  | Some s =>
      if String.eqb s "" then Some [] else
      match json_parse s with
      | Normal (Arr l) => if forallb (fun d => negb (is_nullish d)) l then Some l else None
      | _ => None
      end
  end.

(** The operations, with the arguments the views pass. *)
Inductive domain_op :=
  | Save (domain salt commitment txid : value)
  | Update (domain status : value)
  | Remove (domain : value)
  | ClearAll.

Definition op_args_ok (op : domain_op) : Prop :=
  match op with
  | Save d s c t => json_ok d /\ json_ok s /\ json_ok c /\ json_ok t
  | Update d st => json_ok d /\ json_ok st
  | Remove d => json_ok d
  | ClearAll => True
  end.

Definition entry (domain salt commitment txid : value) (timestamp : Z) : value :=
  obj [("domain", domain); ("salt", salt); ("commitment", commitment); ("txid", txid);
       ("timestamp", Num (int timestamp)); ("status", Str "pending")].

(** The effect of an operation on the list of its miner, at a given time. *)
Definition spec (op : domain_op) (time : Z) (l : list value) : list value :=
  match op with
  | Save d s c t => l ++ [entry d s c t time]
  | Update d st =>
      map (fun e => if strict_eq (prop e "domain") d then spread e [("status", st)] else e) l
  | Remove d => List.filter (fun e => negb (strict_eq (prop e "domain") d)) l
  | ClearAll => []
  end.

Definition run_op `{Browser} (minerID : value) (op : domain_op) : script unit :=
  match op with
  | Save d s c t => savePendingDomain minerID d s c t
  | Update d st => updateDomainStatus minerID d st
  | Remove d => removePendingDomain minerID d
  | ClearAll => clearAllPendingDomains minerID
  end.

(** ** Each operation implements its contract *)

Lemma map_out_total f g l :
  Forall (fun d => f d = Normal (g d)) l -> map_out f l = Normal (map g l).
Proof. induction 1 as [|d l Hd Hl IH]; [done|]. simpl. by rewrite Hd, IH. Qed.

Lemma filter_out_total p q l :
  Forall (fun d => p d = Normal (q d)) l -> filter_out p l = Normal (List.filter q l).
Proof. induction 1 as [|d l Hd Hl IH]; [done|]. simpl. rewrite Hd, IH. done. Qed.

Lemma strict_eq_obj e d :
  json_ok d -> strict_eq (prop e "domain") d = true -> exists o, e = Obj o.
Proof. intros Hd. destruct e; simpl; inversion Hd; subst; try done; eauto. Qed.

(** The text written for a list of entries denotes that list. *)
Lemma entries_insert st key l :
  Forall json_ok l -> Forall (fun d => is_nullish d = false) l ->
  entries (<[key := to_string (stringify (Arr l))]> st) key = Some l.
Proof.
  intros Hok Hn. unfold entries. rewrite lookup_insert_eq.
  destruct (json_roundtrip (Arr l)) as (s & Hs & Hp); [by constructor|]. rewrite Hs. simpl.
  destruct (String.eqb_spec s "") as [->|]; [discriminate Hp|]. rewrite Hp.
  replace (forallb _ l) with true; [done|]. symmetry. apply forallb_Forall.
  eapply Forall_impl; [exact Hn|]. simpl. by intros ? ->.
Qed.

Lemma entries_insert_ne st key key' s :
  key <> key' -> entries (<[key := s]> st) key' = entries st key'.
Proof. intros Hne. unfold entries. by rewrite lookup_insert_ne. Qed.

Lemma entries_ok st key l :
  entries st key = Some l -> Forall json_ok l /\ Forall (fun d => is_nullish d = false) l.
Proof.
  unfold entries. destruct (st !! key) as [s|]; [|intros; simplify_eq; split; constructor].
  destruct (String.eqb s ""); [intros; simplify_eq; split; constructor|].
  destruct (json_parse s) as [v|] eqn:E; [|done]. destruct v as [| | | | |l'| |]; try done.
  destruct (forallb _ l') eqn:F; [|done]. intros; simplify_eq.
  apply json_parse_ok in E. inversion E; subst. split; [done|].
  apply forallb_Forall in F. eapply Forall_impl; [exact F|]. simpl. intros x.
  by destruct (is_nullish x).
Qed.

Section refinement.
Context `{Browser} (server : list request -> request -> fetch_result).

Lemma run_read_list key w log l :
  entries (storage w) key = Some l ->
  run server (read_list key) w log = (Normal (Arr l), w, log).
Proof.
  unfold entries, read_list. rewrite run_bind, run_ls_getItem.
  destruct (storage w !! key) as [s|]; simpl; [|by intros [= <-]].
  unfold js_or. simpl. destruct (String.eqb s ""); simpl; [by intros [= <-]|].
  destruct (json_parse s) as [v|] eqn:E; [|done]. destruct v as [| | | | |l'| |]; try done.
  destruct (forallb _ l'); [|done]. intros [= <-]. by rewrite run_lift.
Qed.

Lemma entry_ok d s c t time :
  op_args_ok (Save d s c t) -> json_ok (entry d s c t time).
Proof. intros (? & ? & ? & ?). apply obj_ok. by repeat constructor. Qed.

Lemma spec_ok op time l :
  op_args_ok op -> Forall json_ok l -> Forall (fun d => is_nullish d = false) l ->
  Forall json_ok (spec op time l) /\ Forall (fun d => is_nullish d = false) (spec op time l).
Proof.
  intros Ha Hok Hn. destruct op as [d s c t|d st|d|]; simpl in *.
  - split; (apply Forall_app_2; [done|]); apply Forall_singleton; [by apply entry_ok|done].
  - destruct Ha as [Hd Hst]. split.
    + induction Hok as [|e l He Hl IH]; [constructor|]. apply Forall_cons in Hn as [_ Hn].
      constructor; [|by apply IH].
      destruct (strict_eq _ _) eqn:E; [|done].
      apply strict_eq_obj in E as [o ->]; [|done]. inversion He; subst. simpl.
      constructor; [|by apply props_define_wf]. by apply props_define_ok.
    + clear Hok. induction Hn as [|e l He Hl IH]; constructor; [|done].
      by destruct (strict_eq _ _).
  - split; apply Forall_forall; intros e [He _]%list_elem_of_In%filter_In;
      apply list_elem_of_In in He; rewrite Forall_forall in Hok, Hn; auto.
  - split; constructor.
Qed.

Definition final_key (minerID : value) (op : domain_op) (w w' : world) (l' : list value) : Prop :=
  entries (storage w') (pending_key minerID) = Some l' /\
  (forall k, k <> pending_key minerID -> storage w' !! k = storage w !! k).

Lemma run_write key v w log :
  (forall st k x, accepts st k x = true) ->
  run server (ls_setItem key v) w log =
  (Normal tt, set_storage (<[key := to_string v]> (storage w)) w, log).
Proof. intros Hq. by rewrite run_ls_setItem, Hq. Qed.

Lemma run_removePendingDomain minerID d w log l :
  (forall st k x, accepts st k x = true) -> entries (storage w) (pending_key minerID) = Some l ->
  run server (removePendingDomain minerID d) w log
  = (Normal tt, set_storage (<[pending_key minerID := to_string (stringify (Arr
       (List.filter (fun e => negb (strict_eq (prop e "domain") d)) l)))]> (storage w)) w, log).
Proof.
  intros Hq Hl. destruct (entries_ok _ _ _ Hl) as [_ Hn].
  unfold removePendingDomain. rewrite run_bind, (run_read_list _ _ _ _ Hl), run_bind, run_lift.
  cbn [filter_method].
  rewrite (filter_out_total _ (fun e => negb (strict_eq (prop e "domain") d))); [by apply run_write|].
  eapply Forall_impl; [exact Hn|]. intros e He. unfold get. by rewrite He.
Qed.

(** One operation: its miner's list changes as specified, nothing else does. *)
Lemma op_refines minerID op w log l :
  (forall st k x, accepts st k x = true) ->
  op_args_ok op -> entries (storage w) (pending_key minerID) = Some l ->
  exists w', run server (run_op minerID op) w log = (Normal tt, w', log) /\
    final_key minerID op w w' (spec op (now (tick w)) l).
Proof.
  intros Hq Ha Hl. destruct (entries_ok _ _ _ Hl) as [Hok Hn].
  destruct (spec_ok op (now (tick w)) l Ha Hok Hn) as [Hok' Hn'].
  assert (Hfin : forall w', storage w' = storage w ->
    final_key minerID op w
      (set_storage (<[pending_key minerID :=
         to_string (stringify (Arr (spec op (now (tick w)) l)))]> (storage w')) w')
      (spec op (now (tick w)) l)).
  { intros w' Hw'. split; simpl; [by apply entries_insert|]. intros k Hk.
    by rewrite lookup_insert_ne, Hw'. }
  destruct op as [d s c t|d st|d|]; cbn [run_op].
  - eexists. split; [|by apply (Hfin (next_tick w))].
    unfold savePendingDomain. rewrite run_bind, (run_read_list _ _ _ _ Hl), run_bind, run_Date_now.
    rewrite run_bind, run_lift. cbn [push]. by rewrite run_write.
  - eexists. split; [|by apply (Hfin w)].
    unfold updateDomainStatus. rewrite run_bind, (run_read_list _ _ _ _ Hl), run_bind, run_lift.
    cbn [map_method]. rewrite (map_out_total _ (fun e =>
      if strict_eq (prop e "domain") d then spread e [("status", st)] else e)).
    + by apply run_write.
    + eapply Forall_impl; [exact Hn|]. intros e He. unfold get. by rewrite He.
  - eexists. split; [|by apply (Hfin w)]. by apply run_removePendingDomain.
  - eexists. split; [apply run_ls_removeItem|]. split; simpl.
    + unfold entries. by rewrite lookup_delete_eq.
    + intros k Hk. by rewrite lookup_delete_ne.
Qed.
End refinement.

(** ** Sequences of operations *)

(** The contract's state: the number of clock reads so far, and what every key
    holds. *)
Record pending_state := PendingState { p_tick : nat; p_lists : string -> option (list value) }.

Definition op_ticks (op : domain_op) : nat := match op with Save _ _ _ _ => 1 | _ => 0 end.

Definition spec_step `{Browser} (s : pending_state) (c : value * domain_op) : pending_state :=
  PendingState (op_ticks c.2 + p_tick s)
    (fun key => if String.eqb key (pending_key c.1)
                then spec c.2 (now (p_tick s)) <$> p_lists s key else p_lists s key).

Definition pending_of (w : world) : pending_state :=
  PendingState (tick w) (entries (storage w)).

Fixpoint run_ops `{Browser} (ops : list (value * domain_op)) : script unit :=
  match ops with
  | [] => mret tt
  | c :: ops' => _ ← run_op c.1 c.2; run_ops ops'
  end.

Section sequences.
Context `{Browser} (server : list request -> request -> fetch_result).
Hypothesis (quota : forall st k x, accepts st k x = true).

Lemma run_op_tick minerID op w w' log o log' :
  run server (run_op minerID op) w log = (Normal o, w', log') -> tick w' = (op_ticks op + tick w)%nat.
Proof.
  assert (Hread : forall key w l x w' l', run server (read_list key) w l = (x, w', l') -> w' = w).
  { intros key w0 l x w1 l'. unfold read_list. rewrite run_bind, run_ls_getItem, run_lift.
    by intros [= _ <- _]. }
  assert (Hwrite : forall k v w l x w' l',
    run server (ls_setItem k v) w l = (x, w', l') -> tick w' = tick w).
  { intros k v w0 l x w1 l'. rewrite run_ls_setItem, quota. by intros [= _ <- _]. }
  destruct op as [d s c t|d st|d|]; cbn [run_op op_ticks]; intros Hrun.
  - unfold savePendingDomain in Hrun. rewrite run_bind in Hrun.
    destruct (run server (read_list _) w log) as [[[v|] w1] l1] eqn:E; [|done].
    apply Hread in E as ->. rewrite run_bind, run_Date_now, run_bind, run_lift in Hrun.
    destruct (push _ _ _); [|done]. apply Hwrite in Hrun. done.
  - unfold updateDomainStatus in Hrun. rewrite run_bind in Hrun.
    destruct (run server (read_list _) w log) as [[[v|] w1] l1] eqn:E; [|done].
    apply Hread in E as ->. rewrite run_bind, run_lift in Hrun.
    destruct (map_method _ _ _); [|done]. by apply Hwrite in Hrun.
  - unfold removePendingDomain in Hrun. rewrite run_bind in Hrun.
    destruct (run server (read_list _) w log) as [[[v|] w1] l1] eqn:E; [|done].
    apply Hread in E as ->. rewrite run_bind, run_lift in Hrun.
    destruct (filter_method _ _ _); [|done]. by apply Hwrite in Hrun.
  - unfold clearAllPendingDomains in Hrun. rewrite run_ls_removeItem in Hrun. by simplify_eq.
Qed.

(** Operations on any miners, in any order, implement the contract: nothing
    throws, each miner's list is the one specified, and no other key changes. *)
Lemma run_ops_refines ops w log :
  Forall (fun c => op_args_ok c.2) ops ->
  Forall (fun c => is_Some (entries (storage w) (pending_key c.1))) ops ->
  exists w', run server (run_ops ops) w log = (Normal tt, w', log) /\
    p_tick (pending_of w') = p_tick (foldl spec_step (pending_of w) ops) /\
    (forall key, p_lists (pending_of w') key = p_lists (foldl spec_step (pending_of w) ops) key) /\
    (forall key, Forall (fun c => key <> pending_key c.1) ops -> storage w' !! key = storage w !! key).
Proof.
  revert w. induction ops as [|[id op] ops IH]; intros w Ha Hs.
  { by exists w. }
  apply Forall_cons in Ha as [Ha1 Ha]. apply Forall_cons in Hs as [[l Hl] Hs]. cbn [fst snd] in *.
  destruct (op_refines server id op w log l quota Ha1 Hl) as (w1 & Hrun & Hkey & Hother).
  cbn [run_ops foldl]. rewrite run_bind. cbn [fst snd]. rewrite Hrun.
  assert (Hent : forall key, entries (storage w1) key = p_lists (spec_step (pending_of w) (id, op)) key).
  { intros key. simpl. destruct (String.eqb_spec key (pending_key id)) as [->|Hne].
    - by rewrite Hkey, Hl.
    - unfold entries. by rewrite Hother. }
  destruct (IH w1 Ha) as (w' & Hrun' & Ht & Hk & Ho).
  { eapply Forall_impl; [exact Hs|]. intros [id' op'] [l' Hl']. rewrite Hent. simpl in *.
    destruct (String.eqb _ _); rewrite Hl'; simpl; eauto. }
  exists w'. split; [done|].
  assert (Heq : forall ops s s', p_tick s = p_tick s' -> (forall key, p_lists s key = p_lists s' key) ->
    p_tick (foldl spec_step s ops) = p_tick (foldl spec_step s' ops) /\
    (forall key, p_lists (foldl spec_step s ops) key = p_lists (foldl spec_step s' ops) key)).
  { clear. intros ops. induction ops as [|c ops IH]; intros s s' Ht Hl; [done|].
    apply IH; simpl; [by rewrite Ht|]. intros key. by rewrite Hl, Ht. }
  destruct (Heq ops (pending_of w1) (spec_step (pending_of w) (id, op))) as [H1 H2].
  - simpl. apply (run_op_tick _ _ _ _ _ _ _ Hrun).
  - exact Hent.
  - rewrite Ht, H1. split_and!; [done|intros key; by rewrite Hk, H2|].
    intros key [Hne Hf]%Forall_cons. by rewrite (Ho key Hf), Hother.
Qed.
End sequences.

(** ** Properties *)

(** C8: any sequence of saves, status updates, removals and clears, for any
    miners whose stored lists can be read, implements the contract of a list of
    entries per miner, as long as the quota of the storage is not reached: no
    operation throws, every miner's list is the one the contract computes, and the
    text under every key that is not the key of one of these miners is what it was. *)
Theorem pending_domains_refine `{Browser} server ops w log :
  (forall st k x, accepts st k x = true) ->
  Forall (fun c => op_args_ok c.2) ops ->
  Forall (fun c => is_Some (entries (storage w) (pending_key c.1))) ops ->
  exists w', run server (run_ops ops) w log = (Normal tt, w', log) /\
    (forall key, entries (storage w') key = p_lists (foldl spec_step (pending_of w) ops) key) /\
    (forall key, Forall (fun c => key <> pending_key c.1) ops -> storage w' !! key = storage w !! key).
Proof.
  intros Hq Ha Hs. destruct (run_ops_refines server Hq ops w log Ha Hs) as (w' & Hr & _ & Hk & Ho).
  by exists w'.
Qed.

Import Reference.

Lemma pending_domains_refine_witness :
  exists w', run offline
      (run_ops [(Str "m", Save (Str "a.com") (Str "00") (Str "11") (Str "22"));
                (Str "m", Update (Str "a.com") (Str "revealed")); (Str "n", ClearAll)])
      (page_load ∅ 0) [] = (Normal tt, w', []) /\
    (entries (storage w') (pending_key (Str "m")) =
     Some [obj [("domain", Str "a.com"); ("salt", Str "00"); ("commitment", Str "11");
                ("txid", Str "22"); ("timestamp", Num (int 1700000000000)); ("status", Str "revealed")]]).
Proof.
  destruct (pending_domains_refine offline
      [(Str "m", Save (Str "a.com") (Str "00") (Str "11") (Str "22"));
       (Str "m", Update (Str "a.com") (Str "revealed")); (Str "n", ClearAll)]
      (page_load ∅ 0) []) as (w' & Hr & Hk & _).
  - done.
  - repeat constructor.
  - repeat constructor; vm_compute; eauto.
  - exists w'. split; [exact Hr|]. rewrite Hk. vm_compute. reflexivity.
Defined.
