(* ===== verification/TransactionService.v ===== *)
(** * Building transactions: [frontend/src/services/transaction.service.js] *)

From S2P Require Import Prelude JsValue Json JsonFacts JsonCanon Sha256 Async Platform World Hash.

(** [encodePayload(data)] *)
Definition encodePayload (data : value) : value :=
  if negb (truthy data) then Obj [] else data.

(** [buildTransaction(params)]; destructuring [undefined] or [null] throws. *)
Definition buildTransaction (params : value) : script value :=
  type ← lift (get params "type");
  let walletID := prop params "walletID" in
  let fee := prop params "fee" in
  let payload := prop params "payload" in
  let pk := prop params "pk" in
  let inputs := default_to (Arr []) (prop params "inputs") in
  let outputs := default_to (Arr []) (prop params "outputs") in
  mret (obj [("type", type); ("from", walletID); ("amount", fee);
             ("payload", encodePayload payload); ("pk", pk);
             ("inputs", inputs); ("outputs", outputs); ("transactionID", Null)]).

Section canonical.
Context `{Canonicalizer}.

(** [computeTransactionID(tx)] *)
Definition computeTransactionID (tx : value) : script value :=
  type ← lift (get tx "type");
  txID ← await (generateTxID (obj
    [("type", type); ("from", prop tx "from"); ("amount", prop tx "amount");
     ("payload", prop tx "payload");
     ("inputs", js_or (prop tx "inputs") (Arr []));
     ("outputs", js_or (prop tx "outputs") (Arr []))]));
  mret (spread tx [("transactionID", Str txID)]).
End canonical.

Record validation := Validation { valid : bool; errors : list string }.

(** [validateTransaction(tx)] *)
Definition validateTransaction (tx : value) : outcome validation :=
  type ← get tx "type";
  let amount := prop tx "amount" in
  let errors :=
    (if negb (truthy type) then ["Transaction type is required"] else []) ++
    (if negb (truthy (prop tx "from")) then ["Source wallet is required"] else []) ++
    (if negb (truthy amount) || num_lt (to_number amount) (int 1)
     then ["Fee must be at least 1"] else []) ++
    (if negb (truthy (prop tx "payload")) then ["Payload is required"] else []) ++
    (if negb (truthy (prop tx "pk")) then ["Public key is required"] else []) ++
    (if negb (is_array (prop tx "inputs")) then ["Inputs must be provided"] else []) ++
    (if negb (is_array (prop tx "outputs")) then ["Outputs must be provided"] else []) in
  Normal (Validation (Nat.eqb (length errors) 0) errors).

(** ** The hashed data *)

(** What the transaction identifier commits to. *)
Definition tx_core (tx : value) : value :=
  tx_data (prop tx "type") (prop tx "from") (prop tx "amount") (prop tx "payload")
    (js_or (prop tx "inputs") (Arr [])) (js_or (prop tx "outputs") (Arr [])).

Lemma js_or_default v : default_to (Arr []) (js_or v (Arr [])) = js_or v (Arr []).
Proof. unfold js_or. destruct (truthy v) eqn:E; [|done]. by destruct v. Qed.

Lemma prop_obj_spread o l k :
  prop (spread (Obj o) l) k =
  match props_get k (props_spread o l) with Some v => v | None => Undefined end.
Proof. done. Qed.

(** Setting one property leaves the others. *)
Lemma prop_spread_one o f v k :
  prop (spread (Obj o) [(f, v)]) k = if String.eqb k f then v else prop (Obj o) k.
Proof.
  rewrite prop_obj_spread. unfold props_spread. simpl. rewrite props_get_define.
  by destruct (String.eqb k f).
Qed.

Lemma tx_core_spread o f v :
  f ∉ ["type"; "from"; "amount"; "payload"; "inputs"; "outputs"] ->
  tx_core (spread (Obj o) [(f, v)]) = tx_core (Obj o).
Proof.
  intros Hf. unfold tx_core. rewrite !prop_spread_one.
  repeat match goal with |- context [String.eqb ?k f] =>
    destruct (String.eqb_spec k f) as [<-|_]; [set_solver|] end.
  done.
Qed.

Section run_tx.
Context `{Canonicalizer} (server : list request -> request -> fetch_result).

(** The identifier of a transaction, when its data has a canonical text. *)
Lemma run_generateTxID_core tx s w l :
  is_nullish tx = false -> canonicalize (tx_core tx) = Normal (Str s) ->
  run server (generateTxID (obj
    [("type", prop tx "type"); ("from", prop tx "from"); ("amount", prop tx "amount");
     ("payload", prop tx "payload");
     ("inputs", js_or (prop tx "inputs") (Arr []));
     ("outputs", js_or (prop tx "outputs") (Arr []))])) w l
  = (Normal (sha256_hex s), w, l).
Proof.
  intros Hn Hc. unfold generateTxID. rewrite run_bind, run_lift. simpl.
  rewrite !js_or_default. rewrite run_bind, run_lift. unfold tx_core in Hc. rewrite Hc.
  by rewrite run_await, run_sha256_str.
Qed.

Lemma run_computeTransactionID tx s w l :
  is_nullish tx = false -> canonicalize (tx_core tx) = Normal (Str s) ->
  run server (computeTransactionID tx) w l
  = (Normal (spread tx [("transactionID", Str (sha256_hex s))]), w, l).
Proof.
  intros Hn Hc. unfold computeTransactionID. rewrite run_bind, run_lift. unfold get.
  rewrite Hn. rewrite run_bind, run_await, (run_generateTxID_core tx s) by done. done.
Qed.

Lemma run_buildTransaction params w l :
  run server (buildTransaction params) w l =
  (match get params "type" with
   | Normal type => Normal (obj
       [("type", type); ("from", prop params "walletID"); ("amount", prop params "fee");
        ("payload", encodePayload (prop params "payload")); ("pk", prop params "pk");
        ("inputs", default_to (Arr []) (prop params "inputs"));
        ("outputs", default_to (Arr []) (prop params "outputs")); ("transactionID", Null)])
   | Throw e => Throw e
   end, w, l).
Proof.
  unfold buildTransaction. rewrite run_bind, run_lift. by destruct (get params "type").
Qed.
End run_tx.

#[global] Arguments buildTransaction : simpl never.
#[global] Arguments computeTransactionID : simpl never.
#[global] Arguments generateTxID : simpl never.

(** ** Validation *)

Definition well_formed_tx (tx : value) : Prop :=
  truthy (prop tx "type") = true /\ truthy (prop tx "from") = true /\
  truthy (prop tx "amount") = true /\ num_lt (to_number (prop tx "amount")) (int 1) = false /\
  truthy (prop tx "payload") = true /\ truthy (prop tx "pk") = true /\
  is_array (prop tx "inputs") = true /\ is_array (prop tx "outputs") = true.

Lemma validateTransaction_valid tx r :
  validateTransaction tx = Normal r -> valid r = true <-> well_formed_tx tx.
Proof.
  unfold validateTransaction, get, well_formed_tx. destruct (is_nullish tx); [done|].
  simpl. intros [= <-]. simpl.
  destruct (truthy (prop tx "type")), (truthy (prop tx "from")), (truthy (prop tx "amount")),
    (num_lt (to_number (prop tx "amount")) (int 1)), (truthy (prop tx "payload")),
    (truthy (prop tx "pk")), (is_array (prop tx "inputs")), (is_array (prop tx "outputs"));
    simpl; split; try done; intros; naive_solver.
Qed.

Lemma validateTransaction_total tx :
  is_nullish tx = false -> exists r, validateTransaction tx = Normal r.
Proof. intros Hn. unfold validateTransaction, get. rewrite Hn. simpl. eauto. Qed.

(** ** Properties *)

(** Validation never throws on a transaction object, and it reports no error
    exactly when type, sender, payload and public key are present, the fee is at
    least 1 (or not a number), and inputs and outputs are arrays. *)
Theorem validateTransaction_spec tx :
  is_nullish tx = false ->
  exists r, validateTransaction tx = Normal r /\
    (valid r = true <-> errors r = []) /\ (valid r = true <-> well_formed_tx tx).
Proof.
  intros Hn. destruct (validateTransaction_total tx Hn) as [r Hr]. exists r.
  split_and!; [done| |by apply validateTransaction_valid].
  unfold validateTransaction, get in Hr. rewrite Hn in Hr. injection Hr as <-. cbn [valid errors].
  rewrite Nat.eqb_eq. apply length_zero_iff_nil.
Qed.

Lemma validateTransaction_spec_witness :
  exists r, validateTransaction (Obj []) = Normal r /\ (valid r = true <-> errors r = []) /\
    (valid r = true <-> well_formed_tx (Obj [])).
Proof. apply (validateTransaction_spec (Obj [])). reflexivity. Defined.

(** The identifier depends on the six committed fields only: computing it
    again on the completed transaction, or after setting any field outside them,
    gives the same identifier, and no other field is changed. *)
Theorem computeTransactionID_stable `{Canonicalizer} server o s f v w l :
  canonicalize (tx_core (Obj o)) = Normal (Str s) ->
  f ∉ ["type"; "from"; "amount"; "payload"; "inputs"; "outputs"] ->
  let id := Str (sha256_hex s) in
  let tx1 := spread (Obj o) [("transactionID", id)] in
  run server (computeTransactionID (Obj o)) w l = (Normal tx1, w, l) /\
  (forall k, k <> "transactionID" -> prop tx1 k = prop (Obj o) k) /\
  exists tx2, run server (computeTransactionID (spread tx1 [(f, v)])) w l = (Normal tx2, w, l) /\
    prop tx2 "transactionID" = id.
Proof.
  intros Hc Hf id tx1. split_and!.
  - by apply run_computeTransactionID.
  - intros k Hk. unfold tx1. rewrite prop_spread_one. by destruct (String.eqb_spec k "transactionID").
  - eexists. split.
    + apply (run_computeTransactionID server _ s); [done|]. unfold tx1, spread at 2.
      rewrite tx_core_spread by done. change (Obj _) with (spread (Obj o) [("transactionID", id)]).
      rewrite tx_core_spread; [done|]. set_solver.
    + unfold spread at 2. by rewrite prop_spread_one.
Qed.

Import Reference.

Lemma computeTransactionID_stable_witness :
  exists tx2, run offline (computeTransactionID
      (spread (spread (Obj [("type", Str "t")]) [("transactionID",
        Str (sha256_hex (to_string (stringify (canon (tx_core (Obj [("type", Str "t")])))))))])
        [("txHash", Str "x")])) (page_load ∅ 0) [] = (Normal tx2, page_load ∅ 0, []) /\
    prop tx2 "transactionID"
    = Str (sha256_hex (to_string (stringify (canon (tx_core (Obj [("type", Str "t")])))))).
Proof.
  apply (computeTransactionID_stable offline [("type", Str "t")] 
    (to_string (stringify (canon (tx_core (Obj [("type", Str "t")]))))) "txHash" (Str "x")).
  - vm_compute. reflexivity.
  - apply (bool_decide_unpack _). vm_compute. exact I.
Defined.
