(* ===== verification/CryptoService.v ===== *)
(** * Commitments and signatures: [frontend/src/services/crypto.service.js] *)

From S2P Require Import Prelude JsValue Json JsonFacts JsonCanon Sha256 Async Platform World Hash.
From S2P Require Import Validation TransactionService.
Local Open Scope Z_scope.

(** [ToInt32] *)
Definition to_int32 (n : num) : Z :=
  match n with
  | Fin m k => let x := num_trunc m k mod 2 ^ 32 in if x <? 2 ^ 31 then x else x - 2 ^ 32
  | _ => 0
  end.

(** [buf[i]] as an operand of [^]. *)
Definition buf_elem (v : value) (i : nat) : Z :=
  to_int32 (to_number (prop v (nat_to_string 10 (Z.of_nat i)))).

(** The loop [for (i = 0; i < n; i++) diff |= bufA[i] ^ bufB[i]]. *)
Fixpoint diff_loop (n i : nat) (diff : Z) (bufA bufB : value) : Z :=
  match n with
  | O => diff
  | S n' => diff_loop n' (S i) (Z.lor diff (Z.lxor (buf_elem bufA i) (buf_elem bufB i))) bufA bufB
  end.

Definition to_buf (v : value) : value :=
  match v with Str s => Bytes (encode s) | _ => v end.

Definition loop_count (len : value) : nat :=
  match to_number len with
  | Fin m k => Z.to_nat (Z.max 0 (- ((- m) / 10 ^ Z.of_nat k)))
  | _ => O
  end.

(** [timingSafeEqual(a, b)].  The dummy comparison of buffers of different
    lengths has no effect on the result. *)
Definition timingSafeEqual (a b : value) : outcome bool :=
  let bufA := to_buf a in
  let bufB := to_buf b in
  lenA ← get bufA "length";
  lenB ← get bufB "length";
  if negb (strict_eq lenA lenB) then Normal false
  else Normal (diff_loop (loop_count lenA) 0 0 bufA bufB =? 0).

Section browser.
Context `{Browser}.

(** [generateSaltedHash(domain)] *)
Definition generateSaltedHash (domain : value) : script value :=
  salt ← generateSalt;
  hashedDomain ← await (generateHash domain (Str salt));
  mret (obj [("hashedDomain", Str hashedDomain); ("salt", Str salt)]).
End browser.

(** [hashDomainWithSalt(domain, salt)] *)
Definition hashDomainWithSalt (domain salt : value) : script string :=
  await (generateHash domain salt).

(** [verifyDomainHash(domain, salt, hashedDomain)] *)
Definition verifyDomainHash (domain salt hashedDomain : value) : script bool :=
  computedHash ← await (generateHash domain salt);
  lift (timingSafeEqual (Str computedHash) hashedDomain).

Section nacl.
Context `{NaCl}.

(** [generateTransactionSignature(txHash, privateKey)] *)
Definition generateTransactionSignature (txHash privateKey : value) : script string :=
  privateKeyBytes ← lift (hexToBytes privateKey);
  messageBytes ← lift (hexToBytes txHash);
  signature ← lift (sign_detached messageBytes privateKeyBytes);
  mret (bytesToHex signature).

(** [verifyTransactionSignature(txHash, signature, publicKey)] *)
Definition verifyTransactionSignature (txHash signature publicKey : value) : script bool :=
  try_catch
    (publicKeyBytes ← lift (hexToBytes publicKey);
     messageBytes ← lift (hexToBytes txHash);
     signatureBytes ← lift (hexToBytes signature);
     lift (verify_detached messageBytes signatureBytes publicKeyBytes))
    (fun _ => mret false).
End nacl.

Section canonical.
Context `{Canonicalizer}.

(** [hashTransactionData(txData)] *)
Definition hashTransactionData (txData : value) : script string :=
  c ← lift (canonicalize txData); await (sha256 c).

(** [hashTransaction(tx)] *)
Definition hashTransaction (tx : value) : script string :=
  type ← lift (get tx "type");
  txString ← lift (canonicalize (obj
    [("type", type); ("from", prop tx "from"); ("amount", prop tx "amount");
     ("payload", prop tx "payload");
     ("inputs", js_or (prop tx "inputs") (Arr []));
     ("outputs", js_or (prop tx "outputs") (Arr []))]));
  await (sha256 txString).
End canonical.

(** ** Comparison *)

Lemma encode_bytes s : bytes_ok (encode s).
Proof.
  induction s as [|c s IH]; [constructor|]. cbn [encode]. apply Forall_app_2; [|done].
  pose proof (code_bound c) as Hc. unfold is_byte.
  destruct (code c <? 128) eqn:E; repeat constructor; [lia| |].
  - assert (code c / 64 < 4) by (apply Z.div_lt_upper_bound; lia).
    assert (0 <= code c / 64) by (apply Z.div_pos; lia). lia.
  - pose proof (Z.mod_pos_bound (code c) 64). lia.
Qed.

Lemma cons_eq_inv {A} (x y : A) l k : x :: l = y :: k -> x = y /\ l = k.
Proof. naive_solver. Qed.

(** UTF-8 is injective. *)
Lemma encode_inj a b : encode a = encode b -> a = b.
Proof.
  revert b. induction a as [|c a IH]; intros [|d b] Heq; cbn [encode] in Heq.
  - done.
  - destruct (code d <? 128); discriminate Heq.
  - destruct (code c <? 128); discriminate Heq.
  - assert (Hdiv : forall x, 192 <= 192 + code x / 64).
    { intros x. pose proof (code_bound x). pose proof (Z.div_pos (code x) 64). lia. }
    pose proof (Hdiv c). pose proof (Hdiv d).
    destruct (code c <? 128) eqn:Ec, (code d <? 128) eqn:Ed;
      cbn [app] in Heq; apply cons_eq_inv in Heq as [Heq1 Heq]; try lia.
    + apply (f_equal chr) in Heq1. rewrite !chr_code in Heq1. by rewrite Heq1, (IH b).
    + apply cons_eq_inv in Heq as [Heq2 Heq].
      assert (Hcd : code c = code d).
      { rewrite (Z.div_mod (code c) 64), (Z.div_mod (code d) 64) by lia. lia. }
      apply (f_equal chr) in Hcd. rewrite !chr_code in Hcd. by rewrite Hcd, (IH b).
Qed.

Lemma key_index_nat i : (Z.of_nat i < 2 ^ 32 - 1) -> key_index (nat_to_string 10 (Z.of_nat i)) = Some (Z.of_nat i).
Proof.
  intros Hi. unfold key_index.
  pose proof (read_nat_to_string 10 ltac:(lia) (Z.of_nat i) 0 "" ltac:(lia)) as Hr.
  rewrite string_app_nil_r in Hr. rewrite Hr. simpl read_digits. rewrite Z.mul_0_l, Z.add_0_l.
  rewrite String.eqb_refl. destruct (Z.ltb_spec (Z.of_nat i) (2 ^ 32 - 1)); [done|lia].
Qed.

Lemma length_not_index i : String.eqb (nat_to_string 10 (Z.of_nat i)) "length" = false.
Proof.
  destruct (nat_to_string_first 10 ltac:(lia) (Z.of_nat i) ltac:(lia)) as (c & s & -> & [d Hd]).
  destruct (String.eqb_spec (String c s) "length") as [[= -> ->]|]; done.
Qed.

Lemma buf_elem_bytes l i b :
  bytes_ok l -> (Z.of_nat i < 2 ^ 32 - 1) -> l !! i = Some b -> buf_elem (Bytes l) i = b.
Proof.
  intros Hl Hi Hb. unfold buf_elem. cbn [prop]. rewrite length_not_index, key_index_nat by done.
  rewrite Nat2Z.id, Hb. cbn [to_number int to_int32]. unfold num_trunc.
  assert (Hbyte : is_byte b = true).
  { unfold bytes_ok in Hl. rewrite Forall_forall in Hl. apply Hl. by eapply list_elem_of_lookup_2. }
  unfold is_byte in Hbyte. change (10 ^ Z.of_nat 0) with 1. rewrite Z.quot_1_r, Z.mod_small by lia.
  destruct (Z.ltb_spec b (2 ^ 31)); [done|lia].
Qed.

Lemma lor_0_iff a b : Z.lor a b = 0 <-> a = 0 /\ b = 0.
Proof. apply Z.lor_eq_0_iff. Qed.

(** The loop finds a difference exactly when some byte differs. *)
Lemma diff_loop_zero n i diff la lb :
  bytes_ok la -> bytes_ok lb -> length la = length lb -> (i + n = length la)%nat ->
  Z.of_nat (length la) <= 2 ^ 32 - 1 ->
  diff_loop n i diff (Bytes la) (Bytes lb) = 0 <-> diff = 0 /\ drop i la = drop i lb.
Proof.
  intros Ha Hb Hlen. revert i diff. induction n as [|n IH]; intros i diff Hi Hbound; cbn [diff_loop].
  - rewrite !drop_ge by lia. naive_solver.
  - destruct (lookup_lt_is_Some_2 la i ltac:(lia)) as [x Hx].
    destruct (lookup_lt_is_Some_2 lb i ltac:(lia)) as [y Hy].
    rewrite IH by lia. rewrite (buf_elem_bytes la i x), (buf_elem_bytes lb i y) by (done || lia).
    rewrite lor_0_iff, Z.lxor_eq_0_iff.
    rewrite (drop_S la x i), (drop_S lb y i) by done. split.
    + by intros [[-> ->] ->].
    + by intros [-> [-> ->]%cons_eq_inv].
Qed.

Lemma get_length_bytes l :
  get (Bytes l) "length" = Normal (Num (int (Z.of_nat (length l)))).
Proof. reflexivity. Qed.

Lemma strict_eq_int a b : strict_eq (Num (int a)) (Num (int b)) = (a =? b).
Proof. simpl. by rewrite !Z.mul_1_r. Qed.

Lemma loop_count_int n : loop_count (Num (int (Z.of_nat n))) = n.
Proof. unfold loop_count. simpl to_number. cbn [int]. change (10 ^ Z.of_nat 0) with 1. rewrite Z.div_1_r. lia. Qed.

(** Both operands strings of modest length: equality. *)
Lemma timingSafeEqual_strings a b :
  Z.of_nat (length (encode a)) <= 2 ^ 32 - 1 ->
  exists r, timingSafeEqual (Str a) (Str b) = Normal r /\ (r = true <-> a = b).
Proof.
  intros Hbound. unfold timingSafeEqual, to_buf. rewrite !get_length_bytes.
  cbn [mbind outcome_bind].
  rewrite strict_eq_int.
  destruct (Z.eqb_spec (Z.of_nat (length (encode a))) (Z.of_nat (length (encode b)))) as [Heq|Hne].
  - eexists. split; [done|]. rewrite Z.eqb_eq.
    rewrite loop_count_int. rewrite diff_loop_zero; try lia; try apply encode_bytes.
    rewrite !drop_0. split; [intros [_ H]; by apply encode_inj|by intros ->].
  - eexists. split; [done|]. split; [done|]. intros ->. by destruct Hne.
Qed.

Lemma encode_length s : (length (encode s) <= 2 * String.length s)%nat.
Proof.
  induction s as [|c s IH]; [done|]. cbn [encode String.length]. rewrite length_app.
  destruct (code c <? 128); simpl; lia.
Qed.

(** ** Execution *)

Section run_crypto.
Context (server : list request -> request -> fetch_result).

(** Verification compares the given hash with the one recomputed. *)
Lemma run_verifyDomainHash domain salt h w l :
  exists r, run server (verifyDomainHash domain salt (Str h)) w l = (Normal r, w, l) /\
    (r = true <-> h = sha256_hex (domain_preimage domain salt)).
Proof.
  unfold verifyDomainHash. rewrite run_bind, run_await, run_generateHash, run_lift.
  destruct (timingSafeEqual_strings (sha256_hex (domain_preimage domain salt)) h) as (r & Hr & Heq).
  { pose proof (encode_length (sha256_hex (domain_preimage domain salt))) as Hl.
    rewrite sha256_hex_length in Hl. lia. }
  exists r. rewrite Hr. split; [done|]. rewrite Heq. split; congruence.
Qed.

Lemma run_hashDomainWithSalt d s w l :
  run server (hashDomainWithSalt d s) w l = (Normal (sha256_hex (domain_preimage d s)), w, l).
Proof. unfold hashDomainWithSalt. by rewrite run_await, run_generateHash. Qed.

Lemma run_generateSaltedHash `{Browser} domain w l :
  has_global_length = true ->
  let salt := bytesToHex (random (tick w) 16) in
  run server (generateSaltedHash domain) w l =
  (Normal (obj [("hashedDomain", Str (sha256_hex (domain_preimage domain (Str salt))));
                ("salt", Str salt)]), next_tick w, l).
Proof.
  intros Hg salt. unfold generateSaltedHash. rewrite run_bind, run_generateSalt by done.
  by rewrite run_bind, run_await, run_generateHash.
Qed.

(** The signed hash is the transaction identifier's digest. *)
Lemma run_hashTransaction `{Canonicalizer} tx s w l :
  is_nullish tx = false -> canonicalize (tx_core tx) = Normal (Str s) ->
  run server (hashTransaction tx) w l = (Normal (sha256_hex s), w, l).
Proof.
  intros Hn Hc. unfold hashTransaction. rewrite run_bind, run_lift. unfold get. rewrite Hn.
  rewrite run_bind, run_lift. unfold tx_core, tx_data in Hc. rewrite Hc.
  by rewrite run_await, run_sha256_str.
Qed.

(** The message a hexadecimal hash denotes. *)
Definition message (h : string) : list Z := hex_pairs (String.length h / 2) 0 h.

Lemma run_generateTransactionSignature `{NaClLaws} n h sig w l :
  sign_detached (message h) (keyPair n).2 = Normal sig ->
  run server (generateTransactionSignature (Str h) (Str (bytesToHex (keyPair n).2))) w l
  = (Normal (bytesToHex sig), w, l).
Proof.
  intros Hs. destruct (keyPair_bytes n) as [Hpk Hsk]. unfold generateTransactionSignature.
  rewrite run_bind, run_lift, (hex_pairs_bytesToHex _ Hsk).
  rewrite run_bind, run_lift. cbn [hexToBytes]. fold (message h). by rewrite run_bind, run_lift, Hs.
Qed.

(** A generated key signs every hash. *)
Lemma signature_exists `{NaClLaws} n h :
  exists sig, sign_detached (message h) (keyPair n).2 = Normal sig /\ length sig = 64%nat /\
    bytes_ok sig /\ verify_detached (message h) sig (keyPair n).1 = Normal true.
Proof. apply sign_verifies. apply hex_pairs_total. Qed.

Lemma run_verifyTransactionSignature `{NaClLaws} n h sig w l :
  bytes_ok sig ->
  verify_detached (message h) sig (keyPair n).1 = Normal true ->
  run server (verifyTransactionSignature (Str h) (Str (bytesToHex sig))
    (Str (bytesToHex (keyPair n).1))) w l = (Normal true, w, l).
Proof.
  intros Hsig Hv. destruct (keyPair_bytes n) as [Hpk _]. unfold verifyTransactionSignature.
  rewrite run_try, run_bind, run_lift, (hex_pairs_bytesToHex _ Hpk).
  rewrite run_bind, run_lift. cbn [hexToBytes]. fold (message h).
  change (Normal (hex_pairs (String.length (bytesToHex sig) / 2) 0 (bytesToHex sig)))
    with (hexToBytes (Str (bytesToHex sig))).
  rewrite run_bind, run_lift, (hex_pairs_bytesToHex _ Hsig), run_lift. by rewrite Hv.
Qed.
End run_crypto.

#[global] Arguments hashTransaction : simpl never.
#[global] Arguments generateTransactionSignature : simpl never.
#[global] Arguments verifyTransactionSignature : simpl never.
#[global] Arguments hashDomainWithSalt : simpl never.

(** ** Properties *)

(** A signature made with a generated private key verifies under the public
    key of the pair, for every transaction hash. *)
Theorem signature_verifies `{NaClLaws} server n h w l :
  exists sig, run server (generateTransactionSignature (Str h) (Str (bytesToHex (keyPair n).2))) w l
      = (Normal sig, w, l) /\ String.length sig = 128%nat /\
    run server (verifyTransactionSignature (Str h) (Str sig) (Str (bytesToHex (keyPair n).1))) w l
      = (Normal true, w, l).
Proof.
  destruct (signature_exists n h) as (sig & Hs & Hlen & Hok & Hv). exists (bytesToHex sig).
  split_and!; [by apply run_generateTransactionSignature|by rewrite bytesToHex_length, Hlen|].
  by apply run_verifyTransactionSignature.
Qed.

(** Verification never throws: whatever the arguments, it returns a boolean
    and leaves the page and the network alone. *)
Theorem verifyTransactionSignature_total `{NaCl} server h s pk w l :
  exists b, run server (verifyTransactionSignature h s pk) w l = (Normal b, w, l).
Proof.
  unfold verifyTransactionSignature. rewrite run_try, run_bind, run_lift.
  destruct (hexToBytes pk); [|by eexists]. rewrite run_bind, run_lift.
  destruct (hexToBytes h); [|by eexists]. rewrite run_bind, run_lift.
  destruct (hexToBytes s); [|by eexists]. rewrite run_lift.
  destruct (verify_detached _ _ _); by eexists.
Qed.

(** *** What a commitment binds *)

Lemma message_sha256 s : message (sha256_hex s) = sha256_digest (encode s).
Proof.
  pose proof (hex_pairs_bytesToHex _ (sha256_bytes (encode s))) as Hx.
  exact (f_equal (fun o => match o with Normal b => b | Throw _ => [] end) Hx).
Qed.

(** The two parts of a text before and after its first [c]. *)
Lemma first_separator (c : ascii) a b x y :
  all_cls (fun d => negb (Ascii.eqb d c)) a = true ->
  all_cls (fun d => negb (Ascii.eqb d c)) b = true ->
  a +:+ String c x = b +:+ String c y -> a = b /\ x = y.
Proof.
  revert b. induction a as [|d a IH]; intros [|e b]; cbn [all_cls]; intros Ha Hb Heq.
  - by injection Heq as ->.
  - injection Heq as <- _. by rewrite Ascii.eqb_refl in Hb.
  - injection Heq as -> _. by rewrite Ascii.eqb_refl in Ha.
  - apply andb_true_iff in Ha as [_ Ha], Hb as [_ Hb]. injection Heq as -> Heq.
    by destruct (IH b Ha Hb Heq) as [-> ->].
Qed.

Lemma all_cls_impl p q s :
  (forall c, p c = true -> q c = true) -> all_cls p s = true -> all_cls q s = true.
Proof.
  intros Hpq. induction s as [|c s IH]; cbn [all_cls]; [done|].
  rewrite !andb_true_iff. intros [Hc Hs]. by split; [apply Hpq|apply IH].
Qed.

Lemma name_char_no_colon c : alnum_hyphen c = true -> negb (Ascii.eqb c ":") = true.
Proof. destruct (Ascii.eqb_spec c ":") as [->|]; [by vm_compute|done]. Qed.

(** A valid name has no colon. *)
Lemma valid_no_colon d :
  isValidDomain (Str d) = true -> all_cls (fun c => negb (Ascii.eqb c ":")) d = true.
Proof.
  intros (label & tld & -> & (c & r & -> & Hc & Hr & _) & Ht & _)%isValidDomain_iff.
  assert (Ha : forall x, alnum x = true -> alnum_hyphen x = true)
    by (intros x Hx; unfold alnum_hyphen; by rewrite Hx).
  rewrite all_cls_app. change ("." +:+ tld) with (String "." tld).
  cbn [all_cls]. rewrite (name_char_no_colon c (Ha c Hc)).
  rewrite (all_cls_impl _ _ r name_char_no_colon Hr).
  apply (all_cls_impl alpha); [|done]. intros x Hx. apply name_char_no_colon, Ha.
  unfold alnum. by rewrite Hx.
Qed.

(** The text that is hashed determines a valid name and the salt; for other
    names it does not, the colon of the name being taken for the separator. *)
Lemma preimage_binds d s d' s' :
  isValidDomain (Str d) = true -> isValidDomain (Str d') = true ->
  domain_preimage (Str d) (Str s) = domain_preimage (Str d') (Str s') -> d = d' /\ s = s'.
Proof.
  intros Hd%valid_no_colon Hd'%valid_no_colon Heq. unfold domain_preimage in Heq.
  apply (inj (String.app "DOMAIN_HASH_v1:")) in Heq. exact (first_separator ":" d d' s s' Hd Hd' Heq).
Qed.

Lemma preimage_ambiguous a b c :
  domain_preimage (Str (a +:+ ":" +:+ b)) (Str c) = domain_preimage (Str a) (Str (b +:+ ":" +:+ c)).
Proof. unfold domain_preimage. cbn [to_string]. by rewrite <- !string_app_assoc. Qed.

(** C39: a commitment made by [generateSaltedHash] for a valid name opens with
    this name and its salt, and no other valid name and salt open it, unless they
    make two different byte strings with the same digest. *)
Theorem commitment_opens `{Browser} server domain w l :
  has_global_length = true -> isValidDomain (Str domain) = true ->
  exists c salt w', run server (generateSaltedHash (Str domain)) w l = (Normal c, w', l) /\
    prop c "salt" = Str salt /\
    run server (verifyDomainHash (Str domain) (Str salt) (prop c "hashedDomain")) w' l
      = (Normal true, w', l) /\
    forall domain' salt', isValidDomain (Str domain') = true ->
      run server (verifyDomainHash (Str domain') (Str salt') (prop c "hashedDomain")) w' l
        = (Normal true, w', l) ->
      domain' = domain /\ salt' = salt \/
      exists x y, x = encode (domain_preimage (Str domain') (Str salt')) /\
        y = encode (domain_preimage (Str domain) (Str salt)) /\
        x <> y /\ sha256_digest x = sha256_digest y.
Proof.
  intros Hg Hv. set (salt := bytesToHex (random (tick w) 16)). eexists _, salt, _.
  split; [by apply run_generateSaltedHash|]. split; [reflexivity|].
  change (prop _ "hashedDomain") with (Str (sha256_hex (domain_preimage (Str domain) (Str salt)))).
  split.
  - match goal with |- run server (verifyDomainHash ?d ?s (Str ?h)) ?w' l = _ =>
      destruct (run_verifyDomainHash server d s h w' l) as (r & -> & Hr) end.
    do 2 f_equal. f_equal. by apply Hr.
  - intros domain' salt' Hv'.
    match goal with |- run server (verifyDomainHash ?d ?s (Str ?h)) ?w' l = _ -> _ =>
      destruct (run_verifyDomainHash server d s h w' l) as (r & -> & Hr) end.
    intros [= ->]. destruct Hr as [Hr _]. specialize (Hr eq_refl).
    destruct (decide (encode (domain_preimage (Str domain') (Str salt'))
                      = encode (domain_preimage (Str domain) (Str salt)))) as [He|He].
    + left. exact (preimage_binds _ _ _ _ Hv' Hv (encode_inj _ _ He)).
    + right. eexists _, _. split_and!; [reflexivity|reflexivity|exact He|].
      apply (f_equal message) in Hr. rewrite !message_sha256 in Hr. exact (eq_sym Hr).
Qed.

(** [timingSafeEqual] on two strings is equality. *)
Theorem timingSafeEqual_spec a b :
  Z.of_nat (length (encode a)) <= 2 ^ 32 - 1 ->
  timingSafeEqual (Str a) (Str b) = Normal (String.eqb a b).
Proof.
  intros Hl. destruct (timingSafeEqual_strings a b Hl) as (r & -> & Hr). f_equal.
  destruct (String.eqb_spec a b) as [Heq|Hne]; [by apply Hr|].
  destruct r; [|done]. by destruct Hne; apply Hr.
Qed.

Lemma timingSafeEqual_spec_witness : timingSafeEqual (Str "abc") (Str "abd") = Normal false.
Proof. rewrite (timingSafeEqual_spec "abc" "abd"); [reflexivity|vm_compute; discriminate]. Defined.

Import Reference.

Lemma signature_verifies_witness :
  exists sig, run offline (generateTransactionSignature (Str "00ff") (Str (bytesToHex (keyPair 3).2)))
      (page_load ∅ 0) [] = (Normal sig, page_load ∅ 0, []) /\ String.length sig = 128%nat /\
    run offline (verifyTransactionSignature (Str "00ff") (Str sig) (Str (bytesToHex (keyPair 3).1)))
      (page_load ∅ 0) [] = (Normal true, page_load ∅ 0, []).
Proof. apply (signature_verifies offline 3 "00ff"). Defined.

Lemma commitment_opens_witness :
  exists c salt w', run offline (generateSaltedHash (Str "a.com")) (page_load ∅ 0) [] = (Normal c, w', []) /\
    prop c "salt" = Str salt /\
    run offline (verifyDomainHash (Str "a.com") (Str salt) (prop c "hashedDomain")) w' []
      = (Normal true, w', []).
Proof.
  destruct (commitment_opens offline "a.com" (page_load ∅ 0) []) as (c & salt & w' & H1 & H2 & H3 & _);
    [reflexivity|reflexivity|]. exists c, salt, w'. exact (conj H1 (conj H2 H3)).
Defined.
