(* ===== verification/WalletService.v ===== *)
(** * Wallet keys and files: [frontend/src/services/wallet.service.js] *)

From S2P Require Import Prelude JsValue Json JsonFacts JsonCanon Sha256 Async Platform World Hash.
From S2P Require Import Storage.

(** What [FileReader.readAsText] delivers: the text ([onload]) or an error
    ([onerror]). *)
Inductive file_read :=
  | Loaded (result : string)
  | LoadError (e : exn).

(** A download the page triggers by clicking a generated link. *)
Record download := Download { file_name : string; file_text : string }.

Section wallet_service.
Context `{Browser} `{NaCl}.

(** [generateKeyPair()]: the entropy of the current observation. *)
Definition generateKeyPair : script value :=
  kp ← Get (fun w => Put (next_tick w) (Ret (keyPair (tick w))));
  mret (obj [("privateKey", Str (bytesToHex kp.2)); ("publicKey", Str (bytesToHex kp.1))]).

(** [deriveWalletID(publicKey)] *)
Definition deriveWalletID (publicKey : value) : script value :=
  if negb (truthy publicKey) then mret Null
  else
    publicKeyBytes ← lift (hexToBytes publicKey);
    id ← await (sha256 (Bytes publicKeyBytes));
    mret (Str id).

(** [saveWallet(publicKey, privateKey)] *)
Definition saveWallet (publicKey privateKey : value) : script bool :=
  t ← Date_now;
  saveWalletData (obj [("publicKey", publicKey); ("privateKey", privateKey);
                       ("createdAt", Str (toISOString t))]).

(** [loadWallet()] *)
Definition loadWallet_service : script value := getWalletData.

(** [exportWalletToFile(wallet)]: the file the browser downloads. *)
Definition exportWalletToFile (wallet : value) : script download :=
  let dataStr := to_string (stringify_2 wallet) in
  t ← Date_now;
  mret (Download ("peerster-wallet-" +:+ num_to_string (int t) +:+ ".json") dataStr).

(** [importWalletFromFile(file)].  After [reject] the handler goes on to
    [resolve], which has no effect on a settled promise. *)
Definition importWalletFromFile (file : file_read) : script value :=
  Await (lift
    match file with
    | LoadError e => Throw e
    | Loaded text =>
        wallet ← json_parse text;
        pk ← get wallet "publicKey";
        if negb (truthy pk) || negb (truthy (prop wallet "privateKey"))
        then Throw (Error "Error" "Invalid wallet file")
        else Normal wallet
    end).
End wallet_service.

(** ** Execution *)

(** The wallet identifier of a public key given in hexadecimal. *)
Definition wallet_id (pk : list Z) : string := bytesToHex (sha256_digest pk).

Section run_wallet_service.
Context `{Browser} (server : list request -> request -> fetch_result).

Lemma run_generateKeyPair `{NaCl} w l :
  run server generateKeyPair w l =
  (Normal (obj [("privateKey", Str (bytesToHex (keyPair (tick w)).2));
                ("publicKey", Str (bytesToHex (keyPair (tick w)).1))]), next_tick w, l).
Proof. done. Qed.

Lemma bytesToHex_nonempty b bs : String.eqb (bytesToHex (b :: bs)) "" = false.
Proof.
  unfold bytesToHex. cbn [map]. rewrite join_empty.
  destruct (String.eqb_spec (pad_start 2 "0" (nat_to_string 16 b) +:+ join "" (map (fun b => pad_start 2 "0" (nat_to_string 16 b)) bs)) "") as [Heq|]; [|done].
  apply (f_equal String.length) in Heq. rewrite string_length_app in Heq.
  unfold pad_start in Heq. rewrite string_length_app, length_repeat_char in Heq. simpl in Heq. lia.
Qed.

Lemma run_deriveWalletID pk w l :
  bytes_ok pk -> pk <> [] ->
  run server (deriveWalletID (Str (bytesToHex pk))) w l = (Normal (Str (wallet_id pk)), w, l).
Proof.
  intros Hpk Hne. unfold deriveWalletID. destruct pk as [|b bs]; [done|].
  cbn [truthy]. rewrite bytesToHex_nonempty. cbn [negb].
  rewrite run_bind, run_lift, (hex_pairs_bytesToHex _ Hpk), run_bind, run_await. done.
Qed.

Definition saved_wallet (pk sk : value) (t : Z) : value :=
  obj [("publicKey", pk); ("privateKey", sk); ("createdAt", Str (toISOString t))].

Lemma run_saveWallet pk sk w l :
  run server (saveWallet pk sk) w l =
  run server (saveWalletData (saved_wallet pk sk (now (tick w)))) (next_tick w) l.
Proof. unfold saveWallet. by rewrite run_bind, run_Date_now. Qed.

Lemma saved_wallet_ok pk sk t : json_ok pk -> json_ok sk -> json_ok (saved_wallet pk sk t).
Proof. intros. apply obj_ok. by repeat constructor. Qed.

(** A wallet file read back. *)
Lemma run_import_export wallet w l :
  json_ok wallet -> truthy (prop wallet "publicKey") = true ->
  truthy (prop wallet "privateKey") = true ->
  exists d, run server (exportWalletToFile wallet) w l = (Normal d, next_tick w, l) /\
    forall w' l', run server (importWalletFromFile (Loaded (file_text d))) w' l'
      = (Normal wallet, w', l').
Proof.
  intros Hok Hpk Hsk. destruct (json_roundtrip_2 wallet Hok) as (s & Hs & Hp).
  eexists. split; [unfold exportWalletToFile; by rewrite run_bind, run_Date_now|].
  intros w' l'. unfold importWalletFromFile. cbn [run file_text]. rewrite run_lift, Hs.
  cbn [to_string]. rewrite Hp. cbn [mbind outcome_bind].
  assert (Hn : is_nullish wallet = false) by (by destruct wallet).
  unfold get. rewrite Hn. cbn [mbind outcome_bind]. by rewrite Hpk, Hsk.
Qed.
End run_wallet_service.

#[global] Arguments deriveWalletID : simpl never.
#[global] Arguments saveWallet : simpl never.
#[global] Arguments generateKeyPair : simpl never.
#[global] Arguments importWalletFromFile : simpl never.
#[global] Arguments saveWalletData : simpl never.
#[global] Arguments getWalletData : simpl never.

(** ** Properties *)

(** A wallet exported to a file and imported again is the same wallet. *)
Theorem import_export `{Browser} server wallet w l :
  json_ok wallet -> truthy (prop wallet "publicKey") = true ->
  truthy (prop wallet "privateKey") = true ->
  exists d w', run server (exportWalletToFile wallet) w l = (Normal d, w', l) /\
    run server (importWalletFromFile (Loaded (file_text d))) w' l = (Normal wallet, w', l).
Proof.
  intros Hok Hpk Hsk. destruct (run_import_export server wallet w l Hok Hpk Hsk) as (d & He & Hi).
  by exists d, (next_tick w).
Qed.

Import Reference.

Definition demo_wallet : value :=
  obj [("publicKey", Str "aa"); ("privateKey", Str "bb"); ("id", Str "cc")].

Lemma import_export_witness :
  exists d w', run offline (exportWalletToFile demo_wallet) (page_load ∅ 0) [] = (Normal d, w', []) /\
    run offline (importWalletFromFile (Loaded (file_text d))) w' [] = (Normal demo_wallet, w', []).
Proof.
  apply (import_export offline demo_wallet (page_load ∅ 0) []); [|reflexivity..].
  apply json_okb_spec. reflexivity.
Defined.
