(* ===== verification/ApiService.v ===== *)
(** * The backend's HTTP interface: [frontend/src/services/api.service.js]

    Every function of the file, for an arbitrary server.  A call sends exactly
    one request and either returns the parsed body of a successful response or
    throws; it never changes the page's state. *)

From S2P Require Import Prelude JsValue Json JsonFacts JsonCanon Sha256 Async Platform World Hash.

(** The build-time environment, [import.meta.env]. *)
Class Config := { VITE_BACKEND_URL : value }.

Section api.
Context `{Config}.

(** [getBaseURL()] *)
Definition getBaseURL : string :=
  to_string (js_or VITE_BACKEND_URL (Str "http://localhost:8080")).

(** [POST] with a JSON body. *)
Definition POST (u : string) (b : value) : request :=
  Request "POST" u (Some "application/json") b.

Definition http_error (r : response) : string :=
  "HTTP error! status: " +:+ num_to_string (int (status r)).

(** The error branch shared by the functions that read the error details:
    [response.json().catch(() => null)], then
    [errorData?.message || `HTTP error! status: ...`]. *)
Definition api_error {A} (r : response) : script A :=
  errorData ← try_catch (resp_json r) (fun _ => mret Null);
  let errorMessage := js_or (get_opt errorData "message") (Str (http_error r)) in
  Raise (Error "Error" (to_string errorMessage)).

(** [catch (error) { console.error(...); throw error; }] *)
Definition rethrow {A} (t : script A) : script A := try_catch t (fun e => Raise e).

(** [sendTransaction(tx, signature)] *)
Definition sendTransaction `{Canonicalizer} (tx signature : value) : script value :=
  rethrow (
    type ← lift (get tx "type");
    body ← lift (canonicalize (obj
      [("type", type); ("from", prop tx "from"); ("amount", prop tx "amount");
       ("payload", js_or (prop tx "payload") (Obj []));
       ("inputs", js_or (prop tx "inputs") (Arr []));
       ("outputs", js_or (prop tx "outputs") (Arr []));
       ("pk", prop tx "pk");
       ("txId", js_or (prop tx "transactionID") (Str ""));
       ("signature", signature)]));
    response ← fetch (POST (getBaseURL +:+ "/namecoin/handle") body);
    if negb (ok response) then api_error response else resp_json response).

(** [getTransactionStatus(txID)] *)
Definition getTransactionStatus (txID : value) : script value :=
  rethrow (
    response ← fetch (GET (getBaseURL +:+ "/namecoin/transaction/" +:+ to_string txID));
    if negb (ok response) then Raise (Error "Error" (http_error response))
    else resp_json response).

(** [getMinerID()] *)
Definition getMinerID : script value :=
  rethrow (
    response ← fetch (GET (getBaseURL +:+ "/namecoin/minerid"));
    if negb (ok response) then Raise (Error "Error" (http_error response))
    else data ← resp_json response; lift (get data "minerID")).

(** [setMinerID(minerID)] *)
Definition setMinerID (minerID : value) : script value :=
  rethrow (
    response ← fetch (POST (getBaseURL +:+ "/namecoin/minerid")
                           (stringify (obj [("minerID", minerID)])));
    if negb (ok response) then api_error response else resp_json response).

(** [getSpendPlan(from, amount)] *)
Definition getSpendPlan (from amount : value) : script value :=
  rethrow (
    response ← fetch (POST (getBaseURL +:+ "/namecoin/spendplan")
                           (stringify (obj [("from", from); ("amount", amount)])));
    if negb (ok response) then api_error response else resp_json response).

(** [getDNSRecord()] *)
Definition getDNSRecord : script value :=
  rethrow (
    response ← fetch (GET (getBaseURL +:+ "/namecoin/dns"));
    if negb (ok response) then Raise (Error "Error" (http_error response))
    else resp_json response).

(** [fetchRegisteredDomains()] *)
Definition fetchRegisteredDomains : script value :=
  rethrow (
    response ← fetch (GET (getBaseURL +:+ "/namecoin/dns"));
    if negb (ok response) then Raise (Error "Error" (http_error response))
    else resp_json response).
End api.

(** ** What a call yields, as a function of the server's answer *)

Definition error_details (r : response) : exn :=
  let errorData := match text r ≫= json_parse with Normal v => v | Throw _ => Null end in
  Error "Error" (to_string (js_or (get_opt errorData "message") (Str (http_error r)))).

(** The outcome of a call that reads the error details of a failed response. *)
Definition answer (x : fetch_result) : outcome value :=
  match x with
  | NoResponse e => Throw e
  | Resp r => if ok r then text r ≫= json_parse else Throw (error_details r)
  end.

(** The outcome of a call that reports the status only. *)
Definition plain_answer (x : fetch_result) : outcome value :=
  match x with
  | NoResponse e => Throw e
  | Resp r => if ok r then text r ≫= json_parse else Throw (Error "Error" (http_error r))
  end.

(** The object serialised into the body of [/namecoin/handle]. *)
Definition send_body (tx signature : value) : value :=
  obj [("type", prop tx "type"); ("from", prop tx "from"); ("amount", prop tx "amount");
       ("payload", js_or (prop tx "payload") (Obj []));
       ("inputs", js_or (prop tx "inputs") (Arr []));
       ("outputs", js_or (prop tx "outputs") (Arr []));
       ("pk", prop tx "pk");
       ("txId", js_or (prop tx "transactionID") (Str ""));
       ("signature", signature)].

Section run_api.
Context `{Config} (server : list request -> request -> fetch_result).

Lemma run_rethrow {A} (t : script A) w l : run server (rethrow t) w l = run server t w l.
Proof. unfold rethrow. rewrite run_try. by destruct (run server t w l) as [[[] ?] ?]. Qed.

Lemma run_api_error {A} r w l :
  run server (api_error r : script A) w l = (Throw (error_details r), w, l).
Proof.
  unfold api_error, error_details. rewrite run_bind, run_try, run_resp_json.
  by destruct (text r ≫= json_parse).
Qed.

Lemma run_post_json (r : request) (w : world) l :
  run server (response ← fetch r;
    if negb (ok response) then api_error response else resp_json response) w l
  = (answer (server l r), w, l ++ [r]).
Proof.
  rewrite run_bind, run_fetch. destruct (server l r) as [e|resp]; [done|]. cbn [answer].
  destruct (ok resp); cbn [negb]; [apply run_resp_json|apply run_api_error].
Qed.

Lemma run_get_json (r : request) (w : world) l :
  run server (response ← fetch r;
    if negb (ok response) then Raise (Error "Error" (http_error response))
    else resp_json response) w l
  = (plain_answer (server l r), w, l ++ [r]).
Proof.
  rewrite run_bind, run_fetch. destruct (server l r) as [e|resp]; [done|]. cbn [plain_answer].
  destruct (ok resp); cbn [negb]; [apply run_resp_json|done].
Qed.

Lemma run_getSpendPlan from amount w l :
  let r := POST (getBaseURL +:+ "/namecoin/spendplan")
                (stringify (obj [("from", from); ("amount", amount)])) in
  run server (getSpendPlan from amount) w l = (answer (server l r), w, l ++ [r]).
Proof. intros r. unfold getSpendPlan. by rewrite run_rethrow, run_post_json. Qed.

Lemma run_setMinerID minerID w l :
  let r := POST (getBaseURL +:+ "/namecoin/minerid") (stringify (obj [("minerID", minerID)])) in
  run server (setMinerID minerID) w l = (answer (server l r), w, l ++ [r]).
Proof. intros r. unfold setMinerID. by rewrite run_rethrow, run_post_json. Qed.

Lemma run_sendTransaction `{Canonicalizer} tx signature body w l :
  is_nullish tx = false -> canonicalize (send_body tx signature) = Normal body ->
  let r := POST (getBaseURL +:+ "/namecoin/handle") body in
  run server (sendTransaction tx signature) w l = (answer (server l r), w, l ++ [r]).
Proof.
  intros Hn Hc r. unfold sendTransaction. rewrite run_rethrow, run_bind, run_lift. unfold get.
  rewrite Hn, run_bind, run_lift. unfold send_body in Hc. rewrite Hc. apply run_post_json.
Qed.

Lemma run_fetchRegisteredDomains w l :
  let r := GET (getBaseURL +:+ "/namecoin/dns") in
  run server fetchRegisteredDomains w l = (plain_answer (server l r), w, l ++ [r]).
Proof. intros r. unfold fetchRegisteredDomains. by rewrite run_rethrow, run_get_json. Qed.

Lemma run_getDNSRecord w l :
  let r := GET (getBaseURL +:+ "/namecoin/dns") in
  run server getDNSRecord w l = (plain_answer (server l r), w, l ++ [r]).
Proof. intros r. unfold getDNSRecord. by rewrite run_rethrow, run_get_json. Qed.

Lemma run_getTransactionStatus txID w l :
  let r := GET (getBaseURL +:+ "/namecoin/transaction/" +:+ to_string txID) in
  run server (getTransactionStatus txID) w l = (plain_answer (server l r), w, l ++ [r]).
Proof. intros r. unfold getTransactionStatus. by rewrite run_rethrow, run_get_json. Qed.

Lemma run_getMinerID w l :
  let r := GET (getBaseURL +:+ "/namecoin/minerid") in
  run server getMinerID w l
  = (data ← plain_answer (server l r); get data "minerID", w, l ++ [r]).
Proof.
  intros r. unfold getMinerID. rewrite run_rethrow, run_bind, run_fetch. fold r.
  destruct (server l r) as [e|resp]; [done|]. cbn [plain_answer].
  destruct (ok resp); cbn [negb]; [|done].
  rewrite run_bind, run_resp_json. destruct (text resp ≫= json_parse); [|done].
  by rewrite run_lift.
Qed.
End run_api.

#[global] Arguments sendTransaction : simpl never.
#[global] Arguments getSpendPlan : simpl never.
#[global] Arguments setMinerID : simpl never.
#[global] Arguments getMinerID : simpl never.
#[global] Arguments fetchRegisteredDomains : simpl never.

(** A concrete configuration. *)
Module DefaultConfig.
#[export] Instance config : Config := { VITE_BACKEND_URL := Undefined }.
End DefaultConfig.

(** ** Properties *)

(** The calls of the file. *)
Inductive api_call :=
  | SendTransaction (tx signature : value)
  | GetTransactionStatus (txID : value)
  | GetMinerID
  | SetMinerID (minerID : value)
  | GetSpendPlan (from amount : value)
  | GetDNSRecord
  | FetchRegisteredDomains.

Section calls.
Context `{Config} `{Canonicalizer}.

Definition call_task (c : api_call) : script value :=
  match c with
  | SendTransaction tx signature => sendTransaction tx signature
  | GetTransactionStatus txID => getTransactionStatus txID
  | GetMinerID => getMinerID
  | SetMinerID minerID => setMinerID minerID
  | GetSpendPlan from amount => getSpendPlan from amount
  | GetDNSRecord => getDNSRecord
  | FetchRegisteredDomains => fetchRegisteredDomains
  end.

(** The request of a call; only the transaction's body can fail to be built. *)
Definition call_request (c : api_call) : outcome request :=
  match c with
  | SendTransaction tx signature =>
      _ ← get tx "type";
      body ← canonicalize (send_body tx signature);
      Normal (POST (getBaseURL +:+ "/namecoin/handle") body)
  | GetTransactionStatus txID =>
      Normal (GET (getBaseURL +:+ "/namecoin/transaction/" +:+ to_string txID))
  | GetMinerID => Normal (GET (getBaseURL +:+ "/namecoin/minerid"))
  | SetMinerID minerID =>
      Normal (POST (getBaseURL +:+ "/namecoin/minerid") (stringify (obj [("minerID", minerID)])))
  | GetSpendPlan from amount =>
      Normal (POST (getBaseURL +:+ "/namecoin/spendplan")
                   (stringify (obj [("from", from); ("amount", amount)])))
  | GetDNSRecord | FetchRegisteredDomains => Normal (GET (getBaseURL +:+ "/namecoin/dns"))
  end.

(** What a call makes of the server's answer. *)
Definition call_outcome (c : api_call) (x : fetch_result) : outcome value :=
  match c with
  | SendTransaction _ _ | SetMinerID _ | GetSpendPlan _ _ => answer x
  | GetMinerID => data ← plain_answer x; get data "minerID"
  | _ => plain_answer x
  end.
End calls.

(** every call sends exactly one request (none if the transaction's body
    cannot be built), never changes the page's state, returns the parsed body of a
    successful response and throws otherwise, with the server's message where the
    call reads it. *)
Theorem api_call_spec `{Config} `{Canonicalizer} server c w l :
  run server (call_task c) w l =
  match call_request c with
  | Normal r => (call_outcome c (server l r), w, l ++ [r])
  | Throw e => (Throw e, w, l)
  end.
Proof.
  destruct c as [tx sg|id| |id|f a| |]; cbn [call_task call_request call_outcome].
  - unfold sendTransaction, get. rewrite run_rethrow, run_bind, run_lift.
    destruct (is_nullish tx); [done|]. rewrite run_bind, run_lift.
    cbn [mbind outcome_bind]. unfold send_body.
    destruct (canonicalize _); [|done]. apply run_post_json.
  - apply run_getTransactionStatus.
  - apply run_getMinerID.
  - apply run_setMinerID.
  - apply run_getSpendPlan.
  - apply run_getDNSRecord.
  - apply run_fetchRegisteredDomains.
Qed.
