(* ===== verification/UseWallet.v ===== *)
(** * The wallet composable: [frontend/src/composables/useWallet.js]

    The module-level [wallet] ref and the operations on it.  [coherent] is the
    invariant: the displayed identifier is the one derived from the public key. *)

From S2P Require Import Prelude JsValue Json JsonFacts JsonCanon Sha256 Async Platform World Hash.
From S2P Require Import Storage WalletService ApiService.

(** [walletID] and [isWalletLoaded], computed from the ref. *)
Definition walletID (w : world) : value := js_or (prop (wallet w) "id") Null.
Definition isWalletLoaded (w : world) : bool :=
  negb (strict_eq (prop (wallet w) "publicKey") Null).

Definition wallet_value (pk sk id : value) : value :=
  obj [("publicKey", pk); ("privateKey", sk); ("id", id)].

Section use_wallet.
Context `{Browser} `{NaCl}.

(** [createWallet()] *)
Definition createWallet : script value :=
  rethrow (
    keypair ← await generateKeyPair;
    pk ← lift (get keypair "publicKey");
    id ← await (deriveWalletID pk);
    _ ← modify (set_wallet (wallet_value pk (prop keypair "privateKey") id));
    _ ← saveWallet pk (prop keypair "privateKey");
    gets wallet).

(** [loadWallet()] *)
Definition loadWallet : script bool :=
  try_catch
    (savedWallet ← loadWallet_service;
     if truthy savedWallet then
       id ← await (deriveWalletID (prop savedWallet "publicKey"));
       _ ← modify (set_wallet
             (wallet_value (prop savedWallet "publicKey") (prop savedWallet "privateKey") id));
       mret true
     else mret false)
    (fun _ => mret false).

(** [exportWallet()] *)
Definition exportWallet : script download :=
  v ← gets wallet; exportWalletToFile v.

(** [importWallet(file)] *)
Definition importWallet (file : file_read) : script value :=
  rethrow (
    importedWallet ← await (importWalletFromFile file);
    pk ← lift (get importedWallet "publicKey");
    id ← await (deriveWalletID pk);
    _ ← modify (set_wallet (wallet_value pk (prop importedWallet "privateKey") id));
    _ ← saveWallet pk (prop importedWallet "privateKey");
    gets wallet).

(** [clearWallet()] *)
Definition clearWallet : script unit :=
  _ ← modify (set_wallet no_wallet); clear.
End use_wallet.

(** ** The invariant *)

(** [deriveWalletID] as a function: it reads no state. *)
Definition derive_id (publicKey : value) : outcome value :=
  if negb (truthy publicKey) then Normal Null
  else b ← hexToBytes publicKey; Normal (Str (wallet_id b)).

Definition coherent (w : world) : Prop :=
  derive_id (prop (wallet w) "publicKey") = Normal (prop (wallet w) "id").

Lemma coherent_no_wallet w : coherent (set_wallet no_wallet w).
Proof. reflexivity. Qed.

Section run_use_wallet.
Context `{Browser} `{NaCl} (server : list request -> request -> fetch_result).

Lemma run_derive pk w l : run server (deriveWalletID pk) w l = (derive_id pk, w, l).
Proof.
  unfold deriveWalletID, derive_id. destruct (negb (truthy pk)); [done|].
  rewrite run_bind, run_lift. by destruct (hexToBytes pk).
Qed.

Lemma coherent_set pk sk id w :
  derive_id pk = Normal id -> coherent (set_wallet (wallet_value pk sk id) w).
Proof. done. Qed.

Lemma wallet_saveWallet pk sk w l :
  wallet (run server (saveWallet pk sk) w l).1.2 = wallet w.
Proof.
  rewrite run_saveWallet. unfold saveWalletData. rewrite run_setItem. by destruct (accepts _ _ _).
Qed.

Lemma saveWallet_normal pk sk w l :
  exists b w', run server (saveWallet pk sk) w l = (Normal b, w', l) /\ wallet w' = wallet w.
Proof.
  pose proof (wallet_saveWallet pk sk w l) as Hw. revert Hw.
  rewrite run_saveWallet. unfold saveWalletData. rewrite run_setItem.
  destruct (accepts _ _ _); eauto.
Qed.

(** Setting the ref and persisting it. *)
Lemma run_set_and_save pk sk id w l :
  derive_id pk = Normal id ->
  exists w', run server (_ ← modify (set_wallet (wallet_value pk sk id));
                         _ ← saveWallet pk sk; gets wallet) w l
    = (Normal (wallet_value pk sk id), w', l) /\ wallet w' = wallet_value pk sk id.
Proof.
  intros Hid. rewrite run_bind, run_modify, run_bind.
  destruct (saveWallet_normal pk sk (set_wallet (wallet_value pk sk id) w) l) as (b & w' & -> & Hw).
  exists w'. rewrite run_gets. by rewrite Hw.
Qed.

Lemma coherent_ext w w' : wallet w' = wallet w -> coherent w -> coherent w'.
Proof. unfold coherent. by intros ->. Qed.

Lemma coherent_of w' pk sk id :
  derive_id pk = Normal id -> wallet w' = wallet_value pk sk id -> coherent w'.
Proof. intros Hid Hw. unfold coherent. by rewrite Hw. Qed.

Lemma createWallet_coherent w l :
  coherent w -> coherent (run server createWallet w l).1.2.
Proof.
  intros Hc. unfold createWallet. rewrite run_rethrow, run_bind, run_await, run_generateKeyPair.
  rewrite run_bind, run_lift.
  change (get (obj _) "publicKey") with (Normal (Str (bytesToHex (keyPair (tick w)).1))).
  cbn [mbind]. rewrite run_bind, run_await, run_derive.
  match goal with |- context [derive_id ?p] => destruct (derive_id p) as [id|e] eqn:Hid end;
    [|done].
  match goal with |- context [set_wallet (wallet_value ?p ?s id)] =>
    destruct (run_set_and_save p s id (next_tick w) l Hid) as (w' & -> & Hw') end.
  by eapply coherent_of.
Qed.

Lemma loadWallet_coherent w l : coherent w -> coherent (run server loadWallet w l).1.2.
Proof.
  intros Hc. unfold loadWallet, loadWallet_service, getWalletData.
  rewrite run_try, run_bind, run_getItem. destruct (truthy _); [|done].
  rewrite run_bind, run_await, run_derive. destruct (derive_id _) as [id|e] eqn:Hid; [|done].
  rewrite run_bind, run_modify. done.
Qed.

Lemma importWallet_coherent file w l :
  coherent w -> coherent (run server (importWallet file) w l).1.2.
Proof.
  intros Hc. unfold importWallet. rewrite run_rethrow, run_bind, run_await.
  assert (Hw : forall v w' l', run server (importWalletFromFile file) w l = (v, w', l') -> w' = w).
  { intros v w' l'. unfold importWalletFromFile. cbn [run]. rewrite run_lift. by intros [= _ <- _]. }
  destruct (run server (importWalletFromFile file) w l) as [[[v|e] w1] l1];
    rewrite (Hw _ _ _ eq_refl) in *; [|done].
  rewrite run_bind, run_lift. destruct (get v "publicKey") as [pk|e]; [|done].
  rewrite run_bind, run_await, run_derive. destruct (derive_id pk) as [id|e] eqn:Hid; [|done].
  destruct (run_set_and_save pk (prop v "privateKey") id w l1 Hid) as (w' & -> & Hw').
  by eapply coherent_of.
Qed.

Lemma clearWallet_coherent w l : coherent (run server clearWallet w l).1.2.
Proof.
  unfold clearWallet. rewrite run_bind, run_modify, run_clear. apply (coherent_ext (set_wallet no_wallet w)).
  - done.
  - apply coherent_no_wallet.
Qed.
End run_use_wallet.

(** ** Persistence across page loads *)

Lemma derive_keyPair `{NaClLaws} n :
  derive_id (Str (bytesToHex (keyPair n).1)) = Normal (Str (wallet_id (keyPair n).1)).
Proof.
  destruct (keyPair_sizes n) as [Hl _]. destruct (keyPair_bytes n) as [Hb _].
  unfold derive_id. destruct (keyPair n).1 as [|b bs] eqn:E; [done|].
  cbn [truthy]. rewrite bytesToHex_nonempty. cbn [negb]. by rewrite (hex_pairs_bytesToHex _ Hb).
Qed.

(** The wallet of the key pair drawn at observation [n]. *)
Definition key_wallet `{NaCl} (n : nat) : value :=
  wallet_value (Str (bytesToHex (keyPair n).1)) (Str (bytesToHex (keyPair n).2))
    (Str (wallet_id (keyPair n).1)).

Section persistence.
Context `{Browser} `{NaClLaws} (server : list request -> request -> fetch_result).

Lemma run_createWallet w l :
  (forall st k x, accepts st k x = true) ->
  exists w', run server createWallet w l = (Normal (key_wallet (tick w)), w', l) /\
    wallet w' = key_wallet (tick w) /\
    stored (storage w') StorageKeys.WALLET Null =
      saved_wallet (Str (bytesToHex (keyPair (tick w)).1)) (Str (bytesToHex (keyPair (tick w)).2))
        (now (S (tick w))) /\
    (forall k, k <> StorageKeys.WALLET -> storage w' !! k = storage w !! k).
Proof.
  intros Hq. unfold createWallet. rewrite run_rethrow, run_bind, run_await, run_generateKeyPair.
  rewrite run_bind, run_lift.
  change (get (obj _) "publicKey") with (Normal (Str (bytesToHex (keyPair (tick w)).1))).
  cbn [mbind]. rewrite run_bind, run_await, run_derive, derive_keyPair.
  rewrite run_bind, run_modify, run_bind, run_saveWallet. unfold saveWalletData.
  rewrite run_setItem, Hq, run_gets.
  eexists. split_and!; [done..| |].
  - apply stored_insert. apply saved_wallet_ok; constructor.
  - intros k Hk. simpl. by rewrite lookup_insert_ne.
Qed.

Lemma run_loadWallet_saved n t w l :
  stored (storage w) StorageKeys.WALLET Null =
    saved_wallet (Str (bytesToHex (keyPair n).1)) (Str (bytesToHex (keyPair n).2)) t ->
  run server loadWallet w l = (Normal true, set_wallet (key_wallet n) w, l).
Proof.
  intros Hst. unfold loadWallet, loadWallet_service, getWalletData.
  rewrite run_try, run_bind, run_getItem, Hst.
  cbn [truthy saved_wallet obj].
  rewrite run_bind, run_await, run_derive.
  change (prop (saved_wallet _ _ _) "publicKey") with (Str (bytesToHex (keyPair n).1)).
  by rewrite derive_keyPair, run_bind, run_modify.
Qed.
End persistence.

#[global] Arguments createWallet : simpl never.
#[global] Arguments loadWallet : simpl never.
#[global] Arguments importWallet : simpl never.

(** ** Interleaved operations *)

Inductive wallet_op :=
  | CreateWallet
  | LoadWallet
  | ExportWallet
  | ImportWallet (file : file_read)
  | ClearWallet.

Section interleaved.
Context `{Browser} `{NaCl}.

Definition wallet_task (o : wallet_op) : script unit :=
  match o with
  | CreateWallet => _ ← createWallet; mret tt
  | LoadWallet => _ ← loadWallet; mret tt
  | ExportWallet => _ ← exportWallet; mret tt
  | ImportWallet file => _ ← importWallet file; mret tt
  | ClearWallet => clearWallet
  end.

Lemma coherent_storage st w : coherent w -> coherent (set_storage st w).
Proof. done. Qed.

Lemma coherent_tick w : coherent w -> coherent (next_tick w).
Proof. done. Qed.

Lemma safe_derive pk : safe coherent (deriveWalletID pk).
Proof.
  unfold deriveWalletID. apply safe_if; [done|].
  apply safe_bind; [apply safe_lift|intros b]. done.
Qed.

Lemma yields_derive pk : yields coherent (fun id => derive_id pk = Normal id) (deriveWalletID pk).
Proof.
  unfold deriveWalletID, derive_id. destruct (negb (truthy pk)); [done|]. by destruct (hexToBytes pk).
Qed.

Lemma safe_saveWallet pk sk : safe coherent (saveWallet pk sk).
Proof.
  unfold saveWallet, saveWalletData, setItem. apply safe_bind; [by intros w|intros t].
  apply safe_try; [|done]. apply safe_bind; [|done].
  intros w Hw. by destruct (accepts _ _ _).
Qed.

(** Deriving the identifier, setting the ref. *)
Lemma safe_set {A} pk sk (k : value -> script A) :
  (forall id, safe coherent (k id)) ->
  safe coherent (id ← await (deriveWalletID pk);
                 _ ← modify (set_wallet (wallet_value pk sk id)); k id).
Proof.
  intros Hk. eapply safe_bind_yields.
  - apply safe_await, safe_derive.
  - apply yields_await, yields_derive.
  - intros id Hid. apply safe_bind; [|intros _; apply Hk].
    apply safe_modify. intros w _. by apply coherent_set.
Qed.

Lemma safe_removeItems keys : safe coherent (removeItems keys).
Proof. induction keys as [|k keys IH]; [done|]. cbn [removeItems]. apply safe_bind; [by intros w|done]. Qed.

Lemma safe_wallet_op o : safe coherent (wallet_task o).
Proof.
  destruct o as [| | |file|]; cbn [wallet_task].
  - apply safe_bind; [|done]. apply safe_try; [|done].
    apply safe_bind; [by intros w|intros kp]. apply safe_bind; [apply safe_lift|intros pk].
    apply safe_set. intros id. apply safe_bind; [apply safe_saveWallet|intros _; apply safe_gets].
  - apply safe_bind; [|done]. apply safe_try; [|done].
    unfold loadWallet_service, getWalletData, getItem.
    apply safe_bind; [apply safe_try; [|done]; apply safe_bind; [by intros w|intros v]|intros v].
    { by repeat first [apply safe_if|apply safe_lift]. }
    apply safe_if; [|done]. by apply safe_set.
  - apply safe_bind; [|done]. unfold exportWallet, exportWalletToFile. by intros w.
  - apply safe_bind; [|done]. apply safe_try; [|done].
    apply safe_bind; [apply safe_await; unfold importWalletFromFile; apply safe_lift|intros v].
    apply safe_bind; [apply safe_lift|intros pk].
    apply safe_set. intros id. apply safe_bind; [apply safe_saveWallet|intros _; apply safe_gets].
  - unfold clearWallet. apply safe_bind; [|intros _; apply safe_removeItems].
    apply safe_modify. intros w _. apply coherent_no_wallet.
Qed.
End interleaved.

(** ** Properties *)

(** however creations, loads, exports, imports and resets of the wallet are
    interleaved, against any stored data: the identifier the wallet shows is the
    one derived from its public key. *)
Theorem wallet_identifier_coherent `{Browser} `{NaCl} server ops sched st n l :
  coherent (interleave server sched (wallet_task <$> ops) (page_load st n) l).1.2.
Proof.
  apply safe_interleave; [reflexivity|].
  apply Forall_fmap, Forall_forall. intros o _. apply safe_wallet_op.
Qed.

(** C36: a wallet created on the page is found again after a reload: [loadWallet]
    on the stored data returns [true] and restores the keys and the identifier,
    until the storage is cleared. *)
Theorem wallet_survives_reload `{Browser} `{NaClLaws} server w l m :
  (forall st k x, accepts st k x = true) ->
  exists v w1, run server createWallet w l = (Normal v, w1, l) /\ wallet w1 = v /\
    (exists w2, run server loadWallet (page_load (storage w1) m) l = (Normal true, w2, l) /\
       wallet w2 = v) /\
    (exists w3, run server clearWallet w1 l = (Normal tt, w3, l) /\
       run server loadWallet (page_load (storage w3) m) l = (Normal false, page_load (storage w3) m, l)).
Proof.
  intros Hq. destruct (run_createWallet server w l Hq) as (w1 & Hc & Hw & Hst & _).
  exists (key_wallet (tick w)), w1. split_and!; [done..| |].
  - eexists. split; [by eapply run_loadWallet_saved|done].
  - unfold clearWallet. rewrite run_bind, run_modify, run_clear. eexists. split; [done|].
    unfold loadWallet, loadWallet_service, getWalletData.
    rewrite run_try, run_bind, run_getItem. cbn [storage page_load set_storage].
    match goal with |- context [stored ?s StorageKeys.WALLET Null] =>
      assert (stored s StorageKeys.WALLET Null = Null) as -> end; [|done].
    unfold StorageKeys.values. cbn [foldl]. rewrite !stored_delete_ne by done. apply stored_delete.
Qed.

Import Reference.

Lemma wallet_survives_reload_witness :
  exists v w1, run offline createWallet (page_load ∅ 0) [] = (Normal v, w1, []) /\
    exists w2, run offline loadWallet (page_load (storage w1) 7) [] = (Normal true, w2, []) /\
      wallet w2 = v.
Proof.
  destruct (wallet_survives_reload offline (page_load ∅ 0) [] 7) as (v & w1 & H1 & _ & H2 & _);
    [reflexivity|]. exists v, w1. exact (conj H1 H2).
Defined.
