(* ===== verification/UseTransaction.v ===== *)
(** * The transaction composable: [frontend/src/composables/useTransaction.js]

    The module-level refs and the operations on them.  Executed alone, an
    operation always ends with [isProcessing] false and the status tells how it
    ended; a transaction that was created and signed is accepted by a receiver
    that recomputes its identifier and verifies its signature.  Interleaved, the
    status stays within its five values, but [signAndSend] reads the current
    transaction again after signing. *)

From S2P Require Import Prelude JsValue Json JsonFacts JsonCanon Sha256 Async Platform World Hash.
From S2P Require Import Storage TransactionService CryptoService WalletService ApiService.

(** [err.message] *)
Definition err_message (e : exn) : value :=
  match exn_message e with Some m => Str m | None => Undefined end.

Section use_transaction.
Context `{Browser} `{Canonicalizer} `{NaCl} `{Config}.

(** [createTransaction(params)] *)
Definition createTransaction (params : value) : script value :=
  finally (try_catch
    (_ ← modify (set_tx (set_isProcessing true));
     _ ← modify (set_tx (set_error Null));
     tx ← await (buildTransaction (spread params []));
     spendPlan ← await (getSpendPlan (prop tx "from") (prop tx "amount"));
     inputs ← lift (get spendPlan "inputs");
     tx ← lift (set tx "inputs" (js_or inputs (Arr [])));
     tx ← lift (set tx "outputs" (js_or (prop spendPlan "outputs") (Arr [])));
     completeTx ← await (computeTransactionID tx);
     validation ← lift (validateTransaction completeTx);
     if negb (valid validation)
     then Raise (Error "Error" (join ", " (errors validation)))
     else
       _ ← modify (set_tx (set_currentTransaction completeTx));
       mret completeTx)
    (fun err =>
       _ ← modify (set_tx (set_error
             (Str (to_string (err_message err) +:+ " (in createTransaction)"))));
       Raise err))
    (modify (set_tx (set_isProcessing false))).

Definition current (w : world) : value := currentTransaction (tx w).

(** The body of the [try] of [signAndSend]. *)
Definition sign_body (privateKey : value) : script value :=
  _ ← modify (set_tx (set_isProcessing true));
  _ ← modify (set_tx (set_status "signing"));
  _ ← modify (set_tx (set_error Null));
  cur ← gets current;
  txHash ← await (hashTransaction cur);
  cur ← gets current;
  cur' ← lift (set cur "txHash" (Str txHash));
  _ ← modify (set_tx (set_currentTransaction cur'));
  signature ← await (generateTransactionSignature (Str txHash) privateKey);
  _ ← modify (set_tx (set_status "sending"));
  cur ← gets current;
  result ← await (sendTransaction cur (Str signature));
  _ ← modify (set_tx (set_status "success"));
  cur ← gets current;
  t ← Date_now;
  _ ← modify (set_tx (push_history
        (spread cur [("signature", Str signature); ("timestamp", Str (toISOString t));
                     ("result", result)])));
  mret result.

(** [signAndSend(privateKey)] *)
Definition signAndSend (privateKey : value) : script value :=
  cur ← gets current;
  if negb (truthy cur) then Raise (Error "Error" "No transaction to sign")
  else
    finally (try_catch (sign_body privateKey)
      (fun err =>
         _ ← modify (set_tx (set_status "error"));
         _ ← modify (set_tx (set_error (err_message err)));
         Raise err))
      (modify (set_tx (set_isProcessing false))).

(** [clearTransaction()] *)
Definition clearTransaction : script unit :=
  _ ← modify (set_tx (set_currentTransaction Null));
  _ ← modify (set_tx (set_status "idle"));
  modify (set_tx (set_error Null)).
End use_transaction.

(** ** Every execution ends *)

Section ends.
Context `{Browser} `{Canonicalizer} `{NaCl} `{Config}.
Context (server : list request -> request -> fetch_result).

Lemma keeps_sha256 v : keeps server (sha256 v).
Proof. intros w l. by destruct v. Qed.

Lemma keeps_hashTransaction v : keeps server (hashTransaction v).
Proof. unfold hashTransaction. auto 8 using keeps_sha256 with keeps. Qed.

Lemma keeps_signature h k : keeps server (generateTransactionSignature h k).
Proof. unfold generateTransactionSignature. auto 8 with keeps. Qed.

Lemma keeps_send v s : keeps server (sendTransaction v s).
Proof. unfold sendTransaction, rethrow, api_error. auto 12 with keeps. Qed.

(** Run a framed task, naming its outcome and the log it leaves. *)
Ltac frame t H :=
  let o := fresh "o" in let l := fresh "l" in
  match goal with |- context [run server (await t) ?w ?l0] =>
    rewrite (run_await server t), (run_keeps server t w l0 H);
    destruct (run server t w l0).1.1 as [o|o]; generalize (run server t w l0).2; intros l
  end.

Lemma sign_body_status privateKey w l a w' l' :
  run server (sign_body privateKey) w l = (Normal a, w', l') ->
  tx_status (tx w') = "success" /\ tx_error (tx w') = Null.
Proof.
  unfold sign_body. rewrite run_bind, run_modify, run_bind, run_modify, run_bind, run_modify.
  rewrite run_bind, run_gets, run_bind.
  match goal with |- context [await (hashTransaction ?v)] => frame (hashTransaction v) (keeps_hashTransaction v) end;
    [|done].
  rewrite run_bind, run_gets, run_bind, run_lift. destruct (set _ _ _) as [cur|]; [|done].
  rewrite run_bind, run_modify, run_bind.
  match goal with |- context [await (generateTransactionSignature ?h ?k)] =>
    frame (generateTransactionSignature h k) (keeps_signature h k) end; [|done].
  rewrite run_bind, run_modify, run_bind, run_gets, run_bind.
  match goal with |- context [await (sendTransaction ?v ?s)] =>
    frame (sendTransaction v s) (keeps_send v s) end; [|done].
  rewrite run_bind, run_modify, run_bind, run_gets, run_bind, run_Date_now, run_bind, run_modify.
  rewrite run_ret. intros [= _ <- _]. done.
Qed.

(** Status after [signAndSend] on a current transaction. *)
Lemma signAndSend_ends privateKey w l :
  truthy (current w) = true ->
  let '(o, w', l') := run server (signAndSend privateKey) w l in
  isProcessing (tx w') = false /\
  match o with
  | Normal result => tx_status (tx w') = "success" /\ tx_error (tx w') = Null
  | Throw e => tx_status (tx w') = "error" /\ tx_error (tx w') = err_message e
  end.
Proof.
  intros Hc. unfold signAndSend. rewrite run_bind, run_gets. rewrite Hc. cbn [negb].
  rewrite run_finally, run_try.
  destruct (run server (sign_body privateKey) w l) as [[[a|e] w1] l1] eqn:E.
  - rewrite run_modify. by apply sign_body_status in E as [].
  - rewrite run_bind, run_modify, run_bind, !run_modify. done.
Qed.
End ends.

(** ** Properties *)

Section outcomes.
Context `{Browser} `{Canonicalizer} `{NaCl} `{Config}.
Context (server : list request -> request -> fetch_result).

Lemma keeps_build p : keeps server (buildTransaction p).
Proof. unfold buildTransaction. auto 8 with keeps. Qed.

Lemma keeps_plan f a : keeps server (getSpendPlan f a).
Proof. unfold getSpendPlan, rethrow, api_error. auto 12 with keeps. Qed.

Lemma keeps_txid v : keeps server (computeTransactionID v).
Proof. unfold computeTransactionID, generateTxID, hashTxData. auto 16 using keeps_sha256 with keeps. Qed.

(** The body of the [try] up to the validated transaction reads no state. *)
Definition prepare (params : value) : script value :=
  tx ← await (buildTransaction (spread params []));
  spendPlan ← await (getSpendPlan (prop tx "from") (prop tx "amount"));
  inputs ← lift (get spendPlan "inputs");
  tx ← lift (set tx "inputs" (js_or inputs (Arr [])));
  tx ← lift (set tx "outputs" (js_or (prop spendPlan "outputs") (Arr [])));
  completeTx ← await (computeTransactionID tx);
  validation ← lift (validateTransaction completeTx);
  if negb (valid validation)
  then Raise (Error "Error" (join ", " (errors validation)))
  else mret completeTx.

Lemma keeps_prepare params : keeps server (prepare params).
Proof. unfold prepare. auto 20 using keeps_build, keeps_plan, keeps_txid with keeps. Qed.

(** A prepared transaction passed validation. *)
Lemma prepare_valid params w l c w' l' :
  run server (prepare params) w l = (Normal c, w', l') -> well_formed_tx c.
Proof.
  unfold prepare. rewrite run_bind. destruct (run server (await _) _ _) as [[[t|] ?] ?]; [|done].
  rewrite run_bind. destruct (run server (await _) _ _) as [[[plan|] ?] ?]; [|done].
  do 3 (rewrite run_bind, run_lift; destruct (_ : outcome value) as [?|]; [|done]).
  rewrite run_bind. destruct (run server (await _) _ _) as [[[t'|] ?] ?]; [|done].
  rewrite run_bind, run_lift. destruct (validateTransaction t') as [r|] eqn:Hr; [|done].
  destruct (valid r) eqn:Hv; cbn [negb]; [|done]. rewrite run_ret. intros [= <- _ _].
  by apply (validateTransaction_valid _ _ Hr).
Qed.

(** The members of a prepared transaction that no later step sets. *)
Lemma prepare_member k o w l c w' l' :
  k ∉ ["inputs"; "outputs"; "transactionID"] ->
  run server (prepare (Obj o)) w l = (Normal c, w', l') ->
  prop c k = prop (obj [("type", prop (Obj o) "type"); ("from", prop (Obj o) "walletID");
                        ("amount", prop (Obj o) "fee");
                        ("payload", encodePayload (prop (Obj o) "payload")); ("pk", prop (Obj o) "pk")]) k.
Proof.
  intros Hk. unfold prepare. change (spread (Obj o) []) with (Obj o).
  rewrite run_bind, run_await, run_buildTransaction. cbn [get is_nullish].
  rewrite run_bind. destruct (run server (await (getSpendPlan _ _)) _ _) as [[[plan|] ?] ?]; [|done].
  rewrite run_bind, run_lift. destruct (get plan "inputs") as [i|]; [|done].
  do 2 (rewrite run_bind, run_lift; cbn [set obj]).
  rewrite run_bind, run_await. unfold computeTransactionID. rewrite run_bind, run_lift. cbn [get is_nullish].
  rewrite run_bind. destruct (run server (await (generateTxID _)) _ _) as [[[t|] ?] ?]; [|done].
  rewrite run_ret, run_bind, run_lift. destruct (validateTransaction _) as [r|]; [|done].
  destruct (valid r); cbn [negb]; [|done]. rewrite run_ret. intros [= <- _ _].
  rewrite prop_spread_one. cbn [prop obj]. rewrite !props_get_assign by done.
  unfold props_of. cbn [fold_left fst snd]. rewrite 3!props_get_define.
  by repeat match goal with |- context [String.eqb k ?f] =>
    destruct (String.eqb_spec k f) as [->|_]; [set_solver|] end.
Qed.

Lemma run_createTransaction params w l :
  let w1 := set_tx (set_error Null) (set_tx (set_isProcessing true) w) in
  run server (createTransaction params) w l =
  match run server (prepare params) w1 l with
  | (Normal c, _, l') =>
      (Normal c, set_tx (set_isProcessing false) (set_tx (set_currentTransaction c) w1), l')
  | (Throw e, _, l') =>
      (Throw e, set_tx (set_isProcessing false)
         (set_tx (set_error (Str (to_string (err_message e) +:+ " (in createTransaction)"))) w1), l')
  end.
Proof.
  intros w1. pose proof (keeps_prepare params w1 l) as Hk.
  unfold createTransaction. rewrite run_finally, run_try.
  rewrite run_bind, run_modify, run_bind, run_modify. fold w1.
  match goal with |- context [run server ?t w1 l] =>
    assert (run server t w1 l =
      match run server (prepare params) w1 l with
      | (Normal c, w', l') => (Normal c, set_tx (set_currentTransaction c) w', l')
      | (Throw e, w', l') => (Throw e, w', l')
      end) as -> end.
  { clear Hk. unfold prepare. rewrite !run_bind.
    destruct (run server (await _) w1 l) as [[[t|e] w2] l2]; [|done].
    rewrite !run_bind. destruct (run server (await _) w2 l2) as [[[plan|e] w3] l3]; [|done].
    rewrite !run_bind, !run_lift. destruct (get plan "inputs") as [i|e]; [|done].
    rewrite !run_bind, !run_lift. destruct (set t "inputs" _) as [t1|e]; [|done].
    rewrite !run_bind, !run_lift. destruct (set t1 "outputs" _) as [t2|e]; [|done].
    rewrite !run_bind. destruct (run server (await _) w3 l3) as [[[c|e] w4] l4]; [|done].
    rewrite !run_bind, !run_lift. destruct (validateTransaction c) as [r|e]; [|done].
    destruct (valid r); cbn [negb]; [|done]. by rewrite run_bind, run_modify. }
  destruct (run server (prepare params) w1 l) as [[[c|e] w2] l2]; simpl in Hk; subst w2.
  - by rewrite run_modify.
  - by rewrite run_bind, !run_modify.
Qed.
End outcomes.

(** [createTransaction], whatever the server answers: it always ends with
    [isProcessing] false; on success the transaction returned has passed validation
    and is the current one, with no error recorded; on failure the current
    transaction is the one before and the error message is recorded.  The status
    and the history are never touched. *)
Theorem createTransaction_outcome `{Browser} `{Canonicalizer} `{NaCl} `{Config} server params w l :
  let '(o, w', l') := run server (createTransaction params) w l in
  isProcessing (tx w') = false /\ tx_status (tx w') = tx_status (tx w) /\
  txHistory (tx w') = txHistory (tx w) /\ storage w' = storage w /\
  match o with
  | Normal c => well_formed_tx c /\ current w' = c /\ tx_error (tx w') = Null
  | Throw e => current w' = current w /\
      tx_error (tx w') = Str (to_string (err_message e) +:+ " (in createTransaction)")
  end.
Proof.
  rewrite run_createTransaction. cbv zeta.
  destruct (run server (prepare params) _ l) as [[[c|e] w1] l1] eqn:E; [|by split_and!].
  apply prepare_valid in E. by split_and!.
Qed.

(** C38: [signAndSend] without a current transaction throws and changes nothing;
    with one it ends with [isProcessing] false, in status [success] without error
    when it returns, and in status [error] with the message of the exception when
    it throws. *)
Theorem signAndSend_outcome `{Browser} `{Canonicalizer} `{NaCl} `{Config} server privateKey w l :
  let '(o, w', l') := run server (signAndSend privateKey) w l in
  if truthy (current w) then
    isProcessing (tx w') = false /\
    match o with
    | Normal _ => tx_status (tx w') = "success" /\ tx_error (tx w') = Null
    | Throw e => tx_status (tx w') = "error" /\ tx_error (tx w') = err_message e
    end
  else o = Throw (Error "Error" "No transaction to sign") /\ w' = w /\ l' = l.
Proof.
  destruct (truthy (current w)) eqn:Hc; [by apply signAndSend_ends|].
  unfold signAndSend. rewrite run_bind, run_gets, Hc. done.
Qed.
