(* ===== verification/ServiceSafety.v ===== *)
(** * What the services write

    Most services of the wallet neither read nor write the shared state
    ([silent]); the others write [localStorage], the clock and the wallet's ref,
    never the refs of the views: they guarantee every relation between states
    that allows these writes ([steady]).  These lemmas carry the invariants of
    [TransactionConcurrency], [WalletPage] and [WalletSystem]. *)

From S2P Require Import Prelude JsValue Json Async Platform World Hash.
From S2P Require Import Storage DomainStorage TransactionService CryptoService WalletService.
From S2P Require Import ApiService UseWallet.

(** ** Services that leave the state alone *)

Lemma silent_sha256 v : silent (sha256 v).
Proof. by destruct v. Qed.

Lemma silent_api_error {A} r : silent (api_error r : script A).
Proof. unfold api_error. auto 8 with silent. Qed.

Lemma silent_rethrow {A} (t : script A) : silent t -> silent (rethrow t).
Proof. unfold rethrow. auto with silent. Qed.

#[export] Hint Resolve silent_sha256 silent_api_error silent_rethrow : silent.

Lemma silent_buildTransaction p : silent (buildTransaction p).
Proof. unfold buildTransaction. auto 8 with silent. Qed.

Lemma silent_hashDomainWithSalt d s : silent (hashDomainWithSalt d s).
Proof. unfold hashDomainWithSalt, generateHash. auto with silent. Qed.

Lemma silent_deriveWalletID pk : silent (deriveWalletID pk).
Proof. unfold deriveWalletID. auto 8 with silent. Qed.

Lemma silent_signature `{NaCl} h k : silent (generateTransactionSignature h k).
Proof. unfold generateTransactionSignature. auto 8 with silent. Qed.

Section canonical.
Context `{Canonicalizer}.

Lemma silent_computeTransactionID v : silent (computeTransactionID v).
Proof. unfold computeTransactionID, generateTxID, hashTxData. auto 16 with silent. Qed.

Lemma silent_hashTransaction v : silent (hashTransaction v).
Proof. unfold hashTransaction. auto 8 with silent. Qed.
End canonical.

Section api.
Context `{Config}.

Lemma silent_getSpendPlan f a : silent (getSpendPlan f a).
Proof. unfold getSpendPlan. auto 12 with silent. Qed.

Lemma silent_setMinerID v : silent (setMinerID v).
Proof. unfold setMinerID. auto 12 with silent. Qed.

Lemma silent_getMinerID : silent getMinerID.
Proof. unfold getMinerID. auto 12 with silent. Qed.

Lemma silent_fetchRegisteredDomains : silent fetchRegisteredDomains.
Proof. unfold fetchRegisteredDomains. auto 12 with silent. Qed.

Lemma silent_sendTransaction `{Canonicalizer} t s : silent (sendTransaction t s).
Proof. unfold sendTransaction. auto 16 with silent. Qed.
End api.

#[export] Hint Resolve silent_buildTransaction silent_hashDomainWithSalt silent_deriveWalletID silent_signature
  silent_computeTransactionID silent_hashTransaction silent_getSpendPlan silent_setMinerID silent_getMinerID
  silent_fetchRegisteredDomains silent_sendTransaction : silent.

(** A silent task is safe and steady. *)
#[export] Hint Extern 2 (safe _ _) => (apply silent_safe; auto with silent; fail) : safe.
#[export] Hint Extern 2 (steady _ _) => (apply silent_steady; auto with silent; fail) : steady.

(** ** Services that write [localStorage], the clock or the wallet *)

(** A relation that allows these writes. *)
Class ServiceFrame (R : world -> world -> Prop) : Prop := {
  sf_storage st w : R w (set_storage st w);
  sf_tick w : R w (next_tick w);
  sf_wallet v w : R w (set_wallet v w)
}.

Section writing.
Context (R : world -> world -> Prop) `{!PreOrder R} `{!ServiceFrame R} `{Browser}.

Lemma steady_Date_now : steady R Date_now.
Proof. intros w. simpl. split; [apply sf_tick|done]. Qed.

Lemma steady_ls_getItem k : steady R (ls_getItem k).
Proof. by intros w. Qed.

Lemma steady_ls_setItem k v : steady R (ls_setItem k v).
Proof. intros w. simpl. destruct (accepts _ _ _); simpl; [|done]. split; [apply sf_storage|done]. Qed.

Lemma steady_ls_removeItem k : steady R (ls_removeItem k).
Proof. apply steady_modify. intros w. apply sf_storage. Qed.

Lemma steady_generateSalt : steady R generateSalt.
Proof.
  unfold generateSalt, generateRandomSalt. apply steady_if; [|done].
  apply steady_bind; [|done]. intros w. simpl. split; [apply sf_tick|done].
Qed.

Hint Resolve steady_Date_now steady_ls_getItem steady_ls_setItem steady_ls_removeItem : steady.

Lemma steady_read_list k : steady R (read_list k).
Proof. unfold read_list. auto with steady. Qed.

Hint Resolve steady_read_list : steady.

Lemma steady_savePendingDomain id d s c t : steady R (savePendingDomain id d s c t).
Proof. unfold savePendingDomain. auto 12 with steady. Qed.

Lemma steady_getPendingDomains id : steady R (getPendingDomains id).
Proof. unfold getPendingDomains. auto with steady. Qed.

Lemma steady_removePendingDomain id d : steady R (removePendingDomain id d).
Proof. unfold removePendingDomain. auto 12 with steady. Qed.

Lemma steady_clearAllPendingDomains id : steady R (clearAllPendingDomains id).
Proof. unfold clearAllPendingDomains. auto with steady. Qed.

Lemma steady_saveWallet pk sk : steady R (saveWallet pk sk).
Proof. unfold saveWallet, saveWalletData, setItem. auto 12 with steady. Qed.

Lemma steady_set_wallet v : steady R (modify (set_wallet v)).
Proof. apply steady_modify. intros w. apply sf_wallet. Qed.

Hint Resolve steady_saveWallet steady_set_wallet : steady.

Lemma steady_createWallet `{NaCl} : steady R createWallet.
Proof.
  unfold createWallet, rethrow. apply steady_try; [|auto with steady].
  apply steady_bind; [apply steady_await; intros w; simpl; split; [apply sf_tick|done]|intros kp].
  auto 20 with steady.
Qed.

Lemma steady_loadWallet : steady R loadWallet.
Proof. unfold loadWallet, loadWallet_service, getWalletData, getItem. auto 30 with steady. Qed.
End writing.

#[export] Hint Resolve steady_Date_now steady_ls_setItem steady_read_list steady_generateSalt
  steady_savePendingDomain steady_getPendingDomains steady_removePendingDomain
  steady_clearAllPendingDomains steady_createWallet steady_loadWallet : steady.
#[export] Hint Extern 1 (ServiceFrame _) => apply _ : steady.
