(* ===== verification/TransactionFlow.v ===== *)
(** * From parameters to an accepted request

    [createTransaction] followed by [signAndSend], against an arbitrary server:
    which requests are sent, and that the receiver of the final request, parsing
    its body, recomputes the same identifier and verifies the signature (the
    checks of [ValidateTransaction] in [peer/impl/transaction_service.go]). *)

From S2P Require Import Prelude JsValue Json JsonFacts JsonCanon Sha256 Async Platform World Hash.
From S2P Require Import Storage TransactionService CryptoService WalletService ApiService UseTransaction.

(** The transaction built from the parameters, with given inputs and outputs. *)
Definition built (params inputs outputs id : value) : value :=
  obj [("type", prop params "type"); ("from", prop params "walletID"); ("amount", prop params "fee");
       ("payload", encodePayload (prop params "payload")); ("pk", prop params "pk");
       ("inputs", inputs); ("outputs", outputs); ("transactionID", id)].

(** The same with the inputs and outputs of a spend plan. *)
Definition planned (params plan id : value) : value :=
  built params (js_or (prop plan "inputs") (Arr [])) (js_or (prop plan "outputs") (Arr [])) id.

Lemma set_inputs params i i' o id : set (built params i o id) "inputs" i' = Normal (built params i' o id).
Proof. reflexivity. Qed.

Lemma set_outputs params i o o' id : set (built params i o id) "outputs" o' = Normal (built params i o' id).
Proof. reflexivity. Qed.

(** Parameters that pass validation, given as JSON data. *)
Record good_params (params : value) : Prop := {
  gp_obj : exists o, params = Obj o;
  gp_json : json_ok params;
  gp_type : truthy (prop params "type") = true;
  gp_from : truthy (prop params "walletID") = true;
  gp_fee : truthy (prop params "fee") = true;
  gp_fee1 : num_lt (to_number (prop params "fee")) (int 1) = false;
  gp_payload : truthy (prop params "payload") = true;
  gp_pk : truthy (prop params "pk") = true
}.

(** A spend plan whose inputs and outputs are arrays or missing. *)
Record good_plan (plan : value) : Prop := {
  pl_some : is_nullish plan = false;
  pl_json : json_ok plan;
  pl_inputs : is_array (js_or (prop plan "inputs") (Arr [])) = true;
  pl_outputs : is_array (js_or (prop plan "outputs") (Arr [])) = true
}.

Lemma encodePayload_truthy v : truthy v = true -> encodePayload v = v.
Proof. unfold encodePayload. by intros ->. Qed.

Lemma planned_core params plan id :
  tx_core (planned params plan id) =
  tx_data (prop params "type") (prop params "walletID") (prop params "fee")
    (encodePayload (prop params "payload"))
    (js_or (js_or (prop plan "inputs") (Arr [])) (Arr []))
    (js_or (js_or (prop plan "outputs") (Arr [])) (Arr [])).
Proof. reflexivity. Qed.

Lemma js_or_twice v d : js_or (js_or v d) d = js_or v d.
Proof. unfold js_or. destruct (truthy v) eqn:E; [by rewrite E|by destruct (truthy d)]. Qed.

Lemma empty_arr_ok : json_ok (Arr []).
Proof. repeat constructor. Qed.

Lemma empty_obj_ok : json_ok (Obj []).
Proof. repeat constructor. Qed.

#[global] Hint Resolve empty_arr_ok empty_obj_ok : js.

Lemma core_ok params plan id :
  good_params params -> good_plan plan -> json_ok (tx_core (planned params plan id)).
Proof.
  intros [] []. rewrite planned_core, !js_or_twice, encodePayload_truthy by done.
  apply obj_ok. repeat constructor; simpl; auto using prop_truthy_ok, js_or_ok with js.
Qed.

Section flow.
Context `{Browser} `{CanonicalizerLaws} `{NaClLaws} `{Config}.
Context (server : list request -> request -> fetch_result).

Definition plan_request (params : value) : request :=
  POST (getBaseURL +:+ "/namecoin/spendplan")
       (stringify (obj [("from", prop params "walletID"); ("amount", prop params "fee")])).

(** The text hashed for the identifier. *)
Definition id_text (params plan : value) (s : string) : Prop :=
  canonicalize (tx_core (planned params plan Null)) = Normal (Str s).

Lemma id_text_exists params plan :
  good_params params -> good_plan plan -> exists s, id_text params plan s.
Proof.
  intros Hp Hpl. destruct (canonicalize_text _ (core_ok params plan Null Hp Hpl)) as (s & ? & Hs & _).
  by exists s.
Qed.

Lemma planned_valid params plan id :
  good_params params -> good_plan plan ->
  exists r, validateTransaction (planned params plan id) = Normal r /\ valid r = true.
Proof.
  intros [] []. destruct (validateTransaction_total (planned params plan id)) as [r Hr]; [done|].
  exists r. split; [done|]. apply (validateTransaction_valid _ _ Hr). unfold well_formed_tx.
  change (prop (planned params plan id) "payload") with (encodePayload (prop params "payload")).
  rewrite encodePayload_truthy by done. by split_and!.
Qed.

(** Creation: one request for the spend plan, and the current transaction set. *)
Lemma run_createTransaction_ok params plan s w l :
  good_params params -> good_plan plan -> id_text params plan s ->
  answer (server l (plan_request params)) = Normal plan ->
  let ctx := planned params plan (Str (sha256_hex s)) in
  run server (createTransaction params) w l =
  (Normal ctx,
   set_tx (fun r => TxRefs ctx false (tx_status r) Null (txHistory r)) w,
   l ++ [plan_request params]).
Proof.
  intros Hp Hpl Hs Ha ctx. pose proof Hp as [[o ->] Hjson _ _ _ _ _ _].
  destruct (planned_valid (Obj o) plan (Str (sha256_hex s)) Hp Hpl) as (r & Hr & Hvalid).
  pose proof Hpl as [Hn _ _ _].
  unfold createTransaction. rewrite run_finally, run_try.
  rewrite run_bind, run_modify, run_bind, run_modify, run_bind, run_await, run_buildTransaction.
  change (spread (Obj o) []) with (Obj o).
  change (get (Obj o) "type") with (Normal (prop (Obj o) "type")). cbn [mbind].
  match goal with |- context [getSpendPlan (prop ?t "from") (prop ?t "amount")] =>
    change (getSpendPlan (prop t "from") (prop t "amount"))
      with (getSpendPlan (prop (Obj o) "walletID") (prop (Obj o) "fee")) end.
  rewrite run_bind, run_await, run_getSpendPlan. fold (plan_request (Obj o)). rewrite Ha.
  rewrite run_bind, run_lift. unfold get at 1. rewrite Hn.
  match goal with |- context [set ?t "inputs" _] =>
    change t with (built (Obj o) (default_to (Arr []) (prop (Obj o) "inputs"))
                     (default_to (Arr []) (prop (Obj o) "outputs")) Null) end.
  rewrite run_bind, run_lift, set_inputs, run_bind, run_lift, set_outputs.
  fold (planned (Obj o) plan Null).
  rewrite run_bind, run_await, (run_computeTransactionID server _ s) by done.
  change (spread (planned (Obj o) plan Null) [("transactionID", Str (sha256_hex s))]) with ctx.
  rewrite run_bind, run_lift. subst ctx. rewrite Hr, Hvalid. cbn [negb].
  rewrite run_bind, !run_modify. done.
Qed.
(** The current transaction once [signAndSend] has stored its hash. *)
Definition hashed (params plan : value) (id : string) : value :=
  match set (planned params plan (Str id)) "txHash" (Str id) with
  | Normal v => v
  | Throw _ => Undefined
  end.

Definition handle_request (body : string) : request :=
  POST (getBaseURL +:+ "/namecoin/handle") (Str body).

Definition sent (params plan : value) (id sig : string) : value :=
  send_body (hashed params plan id) (Str sig).

Lemma sent_ok params plan id sig :
  good_params params -> good_plan plan -> json_ok (sent params plan id sig).
Proof.
  intros [Ho Hj Ht Hf Ha Ha1 Hp Hk] [Hn Hpj Hi Hou]. unfold sent, send_body. apply obj_ok.
  repeat (apply Forall_cons_2); try apply Forall_nil_2; simpl;
    auto using prop_truthy_ok, ok_str with js.
  - rewrite encodePayload_truthy by done. unfold js_or. rewrite Hp. by apply prop_truthy_ok.
  - rewrite js_or_twice. by apply js_or_ok; auto with js.
  - rewrite js_or_twice. by apply js_or_ok; auto with js.
  - unfold js_or. destruct (truthy (Str id)); constructor.
Qed.

(** Signing and sending the current transaction. *)
Lemma run_signAndSend_ok params plan s n w l :
  good_params params -> good_plan plan -> id_text params plan s ->
  let id := sha256_hex s in
  current w = planned params plan (Str id) ->
  exists sig body,
    canonicalize (sent params plan id (bytesToHex sig)) = Normal (Str body) /\
    bytes_ok sig /\
    verify_detached (message id) sig (keyPair n).1 = Normal true /\
    forall result, answer (server l (handle_request body)) = Normal result ->
    exists w', run server (signAndSend (Str (bytesToHex (keyPair n).2))) w l
        = (Normal result, w', l ++ [handle_request body]) /\
      tx_status (tx w') = "success" /\ isProcessing (tx w') = false /\
      exists t, txHistory (tx w') = txHistory (tx w) ++
        [spread (hashed params plan id) [("signature", Str (bytesToHex sig));
           ("timestamp", Str (toISOString t)); ("result", result)]].
Proof.
  intros Hp Hpl Hs id Hcur.
  destruct (signature_exists n id) as (sig & Hsig & _ & Hok & Hv).
  destruct (canonicalize_text _ (sent_ok params plan id (bytesToHex sig) Hp Hpl))
    as (body & b & Hbody & _).
  exists sig, body. split_and!; [done..|]. intros result Hans.
  unfold signAndSend. rewrite run_bind, run_gets. unfold id_text in Hs.
  replace (truthy (current w)) with true by (by rewrite Hcur). cbn [negb].
  rewrite run_finally, run_try. unfold sign_body.
  rewrite run_bind, run_modify, run_bind, run_modify, run_bind, run_modify, run_bind, run_gets.
  change (current (set_tx _ (set_tx _ (set_tx _ w)))) with (current w). rewrite Hcur.
  rewrite run_bind, run_await, (run_hashTransaction server _ s) by done.
  rewrite run_bind, run_gets.
  change (current (set_tx _ (set_tx _ (set_tx _ w)))) with (current w). rewrite Hcur.
  rewrite run_bind, run_lift. fold id.
  change (set (planned params plan (Str id)) "txHash" (Str id)) with (Normal (hashed params plan id)).
  cbv beta iota. rewrite run_bind, run_modify.
  rewrite run_bind, run_await, (run_generateTransactionSignature server n id sig) by done.
  rewrite run_bind, run_modify, run_bind, run_gets.
  change (current (set_tx (set_status _) (set_tx (set_currentTransaction ?v) _))) with v.
  rewrite run_bind, run_await, (run_sendTransaction server _ _ (Str body)) by done.
  fold (handle_request body). rewrite Hans.
  rewrite run_bind, run_modify, run_bind, run_gets, run_bind, run_Date_now, run_bind, run_modify.
  rewrite run_ret, run_modify.
  eexists. split; [done|]. split_and!; [done..|]. eexists. reflexivity.
Qed.

(** ** The receiver

    The checks of [ValidateTransaction] that depend on the message alone: the
    sender's address is the hash of the public key, the identifier is the hash of
    the canonical form of the other fields, and the signature of that hash
    verifies.  (The receiver also compares the inputs and outputs with its own
    spend plan, which is the one it handed out.) *)
Definition receiver_checks (b : value) : outcome bool :=
  pk ← hexToBytes (prop b "pk");
  text ← canonicalize (tx_data (prop b "type") (prop b "from") (prop b "amount")
                         (prop b "payload") (prop b "inputs") (prop b "outputs"));
  signature ← hexToBytes (prop b "signature");
  verified ← verify_detached (sha256_digest (encode (to_string text))) signature pk;
  Normal (strict_eq (prop b "from") (Str (wallet_id pk))
          && strict_eq (prop b "txId") (Str (sha256_hex (to_string text)))
          && verified).

Lemma sha256_hex_truthy s d : js_or (Str (sha256_hex s)) d = Str (sha256_hex s).
Proof.
  unfold js_or. by rewrite sha256_hex_nonempty.
Qed.

(** The members of the body that is sent. *)
Lemma sent_fields params plan id sig :
  good_params params ->
  let b := sent params plan id sig in
  prop b "type" = prop params "type" /\ prop b "from" = prop params "walletID" /\
  prop b "amount" = prop params "fee" /\ prop b "payload" = prop params "payload" /\
  prop b "inputs" = js_or (prop plan "inputs") (Arr []) /\
  prop b "outputs" = js_or (prop plan "outputs") (Arr []) /\
  prop b "pk" = prop params "pk" /\ prop b "txId" = js_or (Str id) (Str "") /\
  prop b "signature" = Str sig.
Proof.
  intros [_ _ _ _ _ _ Hp _] b.
  assert (prop b "payload" = js_or (encodePayload (prop params "payload")) (Obj [])) as Hb by done.
  assert (prop b "inputs" = js_or (js_or (prop plan "inputs") (Arr [])) (Arr [])) as Hi by done.
  assert (prop b "outputs" = js_or (js_or (prop plan "outputs") (Arr [])) (Arr [])) as Hou by done.
  rewrite Hb, Hi, Hou, !js_or_twice, encodePayload_truthy by done. unfold js_or at 1. rewrite Hp.
  split_and!; reflexivity.
Qed.

(** The members of a received body are those that were sent. *)
Lemma received_member params plan id sig b k :
  good_params params -> good_plan plan -> json_ok b -> b ≡ⱼ sent params plan id sig ->
  prop b k ≡ⱼ prop (sent params plan id sig) k.
Proof.
  intros Hp Hpl Hb Heq. pose proof (sent_ok params plan id sig Hp Hpl) as Hok.
  unfold sent, send_body, obj in *. by apply prop_equiv.
Qed.

(** The receiver hashes the same text as the sender did. *)
Lemma received_text params plan id sig b :
  good_params params -> good_plan plan -> json_ok b -> b ≡ⱼ sent params plan id sig ->
  canonicalize (tx_data (prop b "type") (prop b "from") (prop b "amount")
                  (prop b "payload") (prop b "inputs") (prop b "outputs"))
  = canonicalize (tx_core (planned params plan Null)).
Proof.
  intros Hp Hpl Hb Heq.
  pose proof (fun k => received_member _ _ _ _ b k Hp Hpl Hb Heq) as Hm.
  destruct (sent_fields params plan id sig Hp) as (E1 & E2 & E3 & E4 & E5 & E6 & _).
  pose proof (core_ok params plan Null Hp Hpl) as Hcore.
  destruct Hp as [_ Hpj Ht Hf Ha _ Hpay _], Hpl as [_ Hplj _ _].
  assert (tx_core (planned params plan Null) ≡ⱼ
          tx_data (prop b "type") (prop b "from") (prop b "amount")
                  (prop b "payload") (prop b "inputs") (prop b "outputs")) as Hequiv.
  { rewrite planned_core, !js_or_twice, encodePayload_truthy by done.
    unfold tx_data. apply obj_equiv; [|by apply (bool_decide_unpack _)].
    repeat constructor; simpl; symmetry;
      [rewrite <- E1|rewrite <- E2|rewrite <- E3|rewrite <- E4|rewrite <- E5|rewrite <- E6];
      apply Hm. }
  symmetry. apply canonicalize_equiv; [done| |done].
  apply obj_ok. repeat apply Forall_cons_2; try apply Forall_nil_2; simpl;
    (eapply equiv_ok_prop; [done| |apply Hm]);
    rewrite ?E1, ?E2, ?E3, ?E4, ?E5, ?E6; auto using prop_truthy_ok, js_or_ok with js.
Qed.

(** A body that was built for a generated key, from its own wallet, is accepted. *)
Lemma received_accepted params plan s sig n b :
  good_params params -> good_plan plan -> id_text params plan s ->
  prop params "pk" = Str (bytesToHex (keyPair n).1) ->
  prop params "walletID" = Str (wallet_id (keyPair n).1) ->
  bytes_ok sig -> verify_detached (message (sha256_hex s)) sig (keyPair n).1 = Normal true ->
  json_ok b -> b ≡ⱼ sent params plan (sha256_hex s) (bytesToHex sig) ->
  receiver_checks b = Normal true.
Proof.
  intros Hp Hpl Hs Hpk Hid Hsig Hv Hb Heq. unfold receiver_checks.
  rewrite (received_text _ _ _ _ _ Hp Hpl Hb Heq). unfold id_text in Hs. rewrite Hs.
  pose proof (fun k => received_member _ _ _ _ b k Hp Hpl Hb Heq) as Hm.
  destruct (sent_fields params plan (sha256_hex s) (bytesToHex sig) Hp)
    as (_ & E2 & _ & _ & _ & _ & E7 & E8 & E9).
  rewrite Hpk in E7. rewrite Hid in E2. rewrite sha256_hex_truthy in E8.
  pose proof (Hm "pk") as M7. rewrite E7 in M7. apply equiv_str in M7.
  pose proof (Hm "from") as M2. rewrite E2 in M2. apply equiv_str in M2.
  pose proof (Hm "txId") as M8. rewrite E8 in M8. apply equiv_str in M8.
  pose proof (Hm "signature") as M9. rewrite E9 in M9. apply equiv_str in M9.
  rewrite M7, M2, M8, M9, !hex_pairs_bytesToHex by (assumption || apply keyPair_bytes).
  rewrite message_sha256 in Hv. cbn [mbind outcome_bind to_string]. rewrite Hv.
  cbn [mbind outcome_bind strict_eq]. by rewrite !String.eqb_refl.
Qed.
End flow.

(** C3: from the parameters of a transaction to a request the receiver accepts.
    When the backend answers the spend-plan request with a plan and accepts the
    final request, [createTransaction] followed by [signAndSend] sends exactly
    these two requests; the body of the second parses to an object that carries
    the parameters and the inputs and outputs of the plan, whose sender is the
    owner of the key, whose identifier is the hash of its canonical content and
    whose signature verifies; and the composable ends in the state [success]. *)
Theorem create_sign_send_accepted `{Browser} `{CanonicalizerLaws} `{NaClLaws} `{Config}
    server params plan n result w l :
  good_params params ->
  prop params "pk" = Str (bytesToHex (keyPair n).1) ->
  prop params "walletID" = Str (wallet_id (keyPair n).1) ->
  good_plan plan ->
  answer (server l (plan_request params)) = Normal plan ->
  (forall body, answer (server (l ++ [plan_request params]) (handle_request body)) = Normal result) ->
  exists ctx body b w1 w2,
    run server (createTransaction params) w l = (Normal ctx, w1, l ++ [plan_request params]) /\
    run server (signAndSend (Str (bytesToHex (keyPair n).2))) w1 (l ++ [plan_request params])
      = (Normal result, w2, l ++ [plan_request params; handle_request body]) /\
    json_parse body = Normal b /\
    receiver_checks b = Normal true /\
    prop b "type" ≡ⱼ prop params "type" /\ prop b "amount" ≡ⱼ prop params "fee" /\
    prop b "payload" ≡ⱼ prop params "payload" /\
    prop b "inputs" ≡ⱼ js_or (prop plan "inputs") (Arr []) /\
    prop b "outputs" ≡ⱼ js_or (prop plan "outputs") (Arr []) /\
    tx_status (tx w2) = "success" /\ isProcessing (tx w2) = false.
Proof.
  intros Hp Hpk Hid Hpl Hplan Hsend.
  destruct (id_text_exists params plan Hp Hpl) as [s Hs].
  pose proof (run_createTransaction_ok server params plan s w l Hp Hpl Hs Hplan) as Hcreate.
  cbv zeta in Hcreate. set (w1 := set_tx _ w) in Hcreate.
  destruct (run_signAndSend_ok server params plan s n w1 (l ++ [plan_request params]) Hp Hpl Hs)
    as (sig & body & Hbody & Hsig & Hv & Hrun); [done|].
  destruct (Hrun result (Hsend body)) as (w2 & Hsign & Hst & Hpr & _).
  pose proof (sent_ok params plan (sha256_hex s) (bytesToHex sig) Hp Hpl) as Hok.
  destruct (canonicalize_text _ Hok) as (body' & b & Hbody' & Hparse & Heq).
  rewrite Hbody in Hbody'. injection Hbody' as <-.
  pose proof (json_parse_ok _ _ Hparse) as Hbok.
  pose proof (fun k => received_member _ _ _ _ b k Hp Hpl Hbok Heq) as Hm.
  destruct (sent_fields params plan (sha256_hex s) (bytesToHex sig) Hp)
    as (<- & _ & <- & <- & <- & <- & _).
  eexists _, body, b, w1, w2. split_and!; [done| |done|by eapply received_accepted|apply Hm..|done|done].
  by rewrite <- (assoc_L app) in Hsign.
Qed.

(** ** A concrete backend, wallet and transaction *)

Module Demo.
Import Reference DefaultConfig.

Definition backend (l : list request) (r : request) : fetch_result :=
  Resp (Response 200 "OK" (Normal
    (if includes (url r) "spendplan"
     then "{" +:+ quote "inputs" +:+ ":[{" +:+ quote "index" +:+ ":0}]," +:+ quote "outputs" +:+ ":[]}"
     else "true"))).

Definition plan : value := obj [("inputs", Arr [obj [("index", Num (int 0))]]); ("outputs", Arr [])].

Definition params : value :=
  obj [("type", Str "name_new"); ("walletID", Str (wallet_id (keyPair 0).1)); ("fee", Num (int 5));
       ("payload", obj [("domain", Str "example.com")]); ("pk", Str (bytesToHex (keyPair 0).1))].

Lemma params_good : good_params params.
Proof.
  constructor; [by eexists|apply json_okb_spec; by vm_compute|by vm_compute..].
Defined.

Lemma plan_good : good_plan plan.
Proof.
  constructor; [done|apply json_okb_spec; by vm_compute|done..].
Defined.

Lemma create_sign_send_accepted_witness :
  exists ctx body b w1 w2,
    run backend (createTransaction params) (page_load ∅ 0) [] = (Normal ctx, w1, [plan_request params]) /\
    run backend (signAndSend (Str (bytesToHex (keyPair 0).2))) w1 [plan_request params]
      = (Normal (Bool true), w2, [plan_request params; handle_request body]) /\
    json_parse body = Normal b /\ receiver_checks b = Normal true.
Proof.
  destruct (create_sign_send_accepted backend params plan 0 (Bool true) (page_load ∅ 0) [])
    as (ctx & body & b & w1 & w2 & H1 & H2 & H3 & H4 & _);
    [apply params_good|by vm_compute|by vm_compute|apply plan_good|by vm_compute|done|].
  exists ctx, body, b, w1, w2. exact (conj H1 (conj H2 (conj H3 H4))).
Defined.
End Demo.
