(* ===== verification/TransactionConcurrency.v ===== *)
(** * Concurrent use of the transaction composable

    The refs of [composables/useTransaction.js] are module-level: all handlers of
    the page share them, and a handler that awaits can be overtaken by another.
    Under every interleaving of the composable's operations the status stays
    within its five values and the current transaction, when there is one, has
    passed validation.  The identity of the transaction across the [await]s of
    [signAndSend] is not guaranteed: it reads the current transaction again after
    signing. *)

From S2P Require Import Prelude JsValue Json JsonFacts JsonCanon Sha256 Async Platform World Hash.
From S2P Require Import Storage TransactionService CryptoService WalletService ApiService.
From S2P Require Import UseTransaction TransactionFlow ServiceSafety.

(** The operations a view can start. *)
Inductive tx_op :=
  | Create (params : value)
  | SignAndSend (privateKey : value)
  | ClearTransaction.

Section concurrency.
Context `{Browser} `{Canonicalizer} `{NaCl} `{Config}.

Definition op_task (o : tx_op) : script value :=
  match o with
  | Create params => createTransaction params
  | SignAndSend privateKey => signAndSend privateKey
  | ClearTransaction => _ ← clearTransaction; mret Undefined
  end.

(** The values [status] takes. *)
Definition statuses : list string := ["idle"; "signing"; "sending"; "success"; "error"].

Definition tx_inv (w : world) : Prop :=
  tx_status (tx w) ∈ statuses /\ (current w = Null \/ well_formed_tx (current w)).

Lemma tx_inv_status s w : s ∈ statuses -> tx_inv w -> tx_inv (set_tx (set_status s) w).
Proof. by intros ? []. Qed.

Lemma tx_inv_error e w : tx_inv w -> tx_inv (set_tx (set_error e) w).
Proof. by intros []. Qed.

Lemma tx_inv_processing b w : tx_inv w -> tx_inv (set_tx (set_isProcessing b) w).
Proof. by intros []. Qed.

Lemma tx_inv_history h w : tx_inv w -> tx_inv (set_tx (push_history h) w).
Proof. by intros []. Qed.

Lemma tx_inv_current v w :
  v = Null \/ well_formed_tx v -> tx_inv w -> tx_inv (set_tx (set_currentTransaction v) w).
Proof. by intros ? []. Qed.

Hint Resolve tx_inv_error tx_inv_processing tx_inv_history tx_inv_current : safe.
Hint Extern 1 (tx_inv (set_tx (set_status _) _)) =>
  apply tx_inv_status; [unfold statuses; set_solver|assumption] : safe.

(** A well-formed transaction is an object, and a further member leaves it so. *)
Lemma well_formed_set v x v' :
  v = Null \/ well_formed_tx v -> set v "txHash" x = Normal v' -> well_formed_tx v'.
Proof.
  intros [->|Hv] Hset; [done|]. destruct v as [| | | | |l|o|]; try done.
  - by destruct Hv as [? _].
  - injection Hset as <-. unfold well_formed_tx in *. cbn [prop].
    by rewrite !props_get_assign.
  - by destruct Hv as [? _].
Qed.

Lemma validated v r :
  validateTransaction v = Normal r -> valid r = true -> v = Null \/ well_formed_tx v.
Proof. intros Hr Hv. right. by apply (validateTransaction_valid _ _ Hr). Qed.

Lemma tx_inv_Date_now : safe tx_inv Date_now.
Proof. by intros w []. Qed.

Lemma safe_createTransaction params : safe tx_inv (createTransaction params).
Proof.
  unfold createTransaction.
  apply safe_finally; [apply safe_try|auto with safe]; [|intros e; auto 8 with safe].
  do 2 (apply safe_bind; [auto with safe|intros _]).
  apply safe_bind; [auto with safe|intros t].
  apply safe_bind; [auto with safe|intros plan].
  do 3 (apply safe_bind; [auto with safe|intros ?]).
  apply safe_bind; [auto with safe|intros c].
  apply safe_lift_bind. intros r Hr. destruct (valid r) eqn:Hvalid; cbn [negb]; [|done].
  apply safe_bind; [|done]. eauto using validated with safe.
Qed.

Lemma safe_signAndSend k : safe tx_inv (signAndSend k).
Proof.
  unfold signAndSend. apply safe_bind; [auto with safe|intros c].
  apply safe_if; [done|].
  apply safe_finally; [apply safe_try|auto with safe]; [|intros e; auto 8 with safe].
  unfold sign_body. do 3 (apply safe_bind; [auto with safe|intros _]).
  apply safe_bind; [auto with safe|intros c1].
  apply safe_bind; [auto with safe|intros h].
  apply safe_gets_bind. intros s Hs. apply safe_lift_bind. intros v' Hset.
  apply safe_bind.
  { apply safe_modify. intros w. apply tx_inv_current. right. destruct Hs as [_ Hs].
    eapply well_formed_set; eauto. }
  intros _. apply safe_bind; [auto with safe|intros sig].
  do 2 (apply safe_bind; [auto with safe|intros ?]).
  apply safe_bind; [auto with safe|intros res].
  do 4 (apply safe_bind; [auto using tx_inv_Date_now with safe|intros ?]). done.
Qed.

Lemma safe_op o : safe tx_inv (op_task o).
Proof.
  destruct o; [apply safe_createTransaction|apply safe_signAndSend|].
  cbn [op_task]. apply safe_bind; [|done]. unfold clearTransaction. auto 8 with safe.
Qed.

Lemma tx_inv_interleave server ops sched st n l :
  tx_inv (interleave server sched (op_task <$> ops) (page_load st n) l).1.2.
Proof.
  apply safe_interleave.
  - split; [unfold statuses; set_solver|by left].
  - apply Forall_fmap, Forall_forall. intros o _. apply safe_op.
Qed.
End concurrency.

(** C27: whatever operations the page's handlers start, and however the event loop
    interleaves them, against any server: the status is one of its five values,
    and the current transaction is [null] or passes every check of
    [validateTransaction]. *)
Theorem transaction_refs_invariant `{Browser} `{Canonicalizer} `{NaCl} `{Config}
    server ops sched st n l :
  tx_inv (interleave server sched (op_task <$> ops) (page_load st n) l).1.2.
Proof. apply tx_inv_interleave. Qed.

(** ** A schedule that mixes two transactions *)

Module Race.
Import Reference DefaultConfig Demo.

(** A second transaction, started while the first one is being signed. *)
Definition params2 : value := spread params [("payload", obj [("domain", Str "other.com")])].

Definition before : world := (run backend (createTransaction params) (page_load ∅ 0) []).1.2.

Definition race : list (script value) * world * list request :=
  interleave backend ([0] ++ replicate 20 1 ++ replicate 20 0)
    [signAndSend (Str (bytesToHex (keyPair 0).2)); createTransaction params2] before [].

Definition race_body : value :=
  match last race.2 with
  | Some r => match json_parse (to_string (body r)) with Normal b => b | Throw _ => Undefined end
  | None => Undefined
  end.

Definition completed {A} (t : script A) : bool :=
  match t with Ret _ => true | _ => false end.

(** when another transaction is created while [signAndSend] awaits the hash of
    the current one, both handlers complete, but the request carries the second
    transaction with the signature of the first one, and the receiver's checks
    refuse it. *)
Theorem signAndSend_mixes_transactions :
  forallb completed race.1.1 = true /\ tx_status (tx race.1.2) = "success" /\
  (url <$> last race.2) = Some "http://localhost:8080/namecoin/handle" /\
  prop race_body "payload" = obj [("domain", Str "other.com")] /\
  receiver_checks race_body = Normal false.
Proof. split_and!; vm_compute; reflexivity. Qed.
End Race.
