(* ===== verification/WalletView.v ===== *)
(** * The wallet view: the script of [frontend/src/views/Wallet.vue]

    The handlers of the page that registers names: a commitment first
    ([handleSubmit]), its opening once it is mined ([handleFirstUpdate]), then
    updates ([handleUpdate]).  The entries of [myDomains] are objects shared by
    the list and the handlers that were started on them, so they live in a heap;
    [loadMyDomains] replaces the list by fresh objects.

    A call of [fetchDomains()] that is not awaited is the last step of its
    handler: it is sequenced after the [finally] block, which runs in the same
    slice of the event loop. *)

From S2P Require Import Prelude JsValue Json JsonFacts JsonCanon Sha256 Async Platform World Hash.
From S2P Require Import Storage DomainStorage TransactionService CryptoService WalletService.
From S2P Require Import ApiService UseWallet UseTransaction.

(** ** Field updates of the view's refs *)

Definition set_connection (b : bool) (s : string) (v : view_refs) : view_refs :=
  ViewRefs b s (domainName v) (ttl v) (view_isProcessing v) (view_status v) (lastTxId v)
    (domains v) (domainsLoaded v) (myDomains v) (backendMinerID v) (heap v).
Definition set_domainName (s : string) (v : view_refs) : view_refs :=
  ViewRefs (isConnected v) (connectionStatus v) s (ttl v) (view_isProcessing v) (view_status v)
    (lastTxId v) (domains v) (domainsLoaded v) (myDomains v) (backendMinerID v) (heap v).
Definition set_processing (b : bool) (v : view_refs) : view_refs :=
  ViewRefs (isConnected v) (connectionStatus v) (domainName v) (ttl v) b (view_status v)
    (lastTxId v) (domains v) (domainsLoaded v) (myDomains v) (backendMinerID v) (heap v).
Definition set_view_status (s : string) (v : view_refs) : view_refs :=
  ViewRefs (isConnected v) (connectionStatus v) (domainName v) (ttl v) (view_isProcessing v) s
    (lastTxId v) (domains v) (domainsLoaded v) (myDomains v) (backendMinerID v) (heap v).
Definition set_lastTxId (x : value) (v : view_refs) : view_refs :=
  ViewRefs (isConnected v) (connectionStatus v) (domainName v) (ttl v) (view_isProcessing v)
    (view_status v) x (domains v) (domainsLoaded v) (myDomains v) (backendMinerID v) (heap v).
Definition set_domains (x : value) (v : view_refs) : view_refs :=
  ViewRefs (isConnected v) (connectionStatus v) (domainName v) (ttl v) (view_isProcessing v)
    (view_status v) (lastTxId v) x (domainsLoaded v) (myDomains v) (backendMinerID v) (heap v).
Definition set_domainsLoaded (b : bool) (v : view_refs) : view_refs :=
  ViewRefs (isConnected v) (connectionStatus v) (domainName v) (ttl v) (view_isProcessing v)
    (view_status v) (lastTxId v) (domains v) b (myDomains v) (backendMinerID v) (heap v).
Definition set_myDomains (l : list nat) (h : gmap nat value) (v : view_refs) : view_refs :=
  ViewRefs (isConnected v) (connectionStatus v) (domainName v) (ttl v) (view_isProcessing v)
    (view_status v) (lastTxId v) (domains v) (domainsLoaded v) l (backendMinerID v) h.
Definition set_backendMinerID (x : value) (v : view_refs) : view_refs :=
  ViewRefs (isConnected v) (connectionStatus v) (domainName v) (ttl v) (view_isProcessing v)
    (view_status v) (lastTxId v) (domains v) (domainsLoaded v) (myDomains v) x (heap v).

(** ** The heap of entries *)

Definition alloc (h : gmap nat value) : nat := fresh (dom h).

(** New objects, one per value. *)
Fixpoint alloc_all (l : list value) (h : gmap nat value) : list nat * gmap nat value :=
  match l with
  | [] => ([], h)
  | v :: l' =>
      let r := alloc h in
      let '(rs, h') := alloc_all l' (<[r := v]> h) in
      (r :: rs, h')
  end.

(** The object of a reference. *)
Definition deref (r : nat) (w : world) : value := default Undefined (heap (view w) !! r).

(** [r.k = x] *)
Definition assign (r : nat) (k : string) (x : value) : script unit :=
  v ← gets (deref r);
  v' ← lift (set v k x);
  modify (set_view (fun u => set_myDomains (myDomains u) (<[r := v']> (heap u)) u)).

(** [v.trim()] *)
Definition trim_method (name : string) (v : value) : outcome string :=
  match v with
  | Str s => Normal (trim s)
  | Undefined | Null => x ← get v "trim"; Normal (to_string x)
  | _ => Throw (TypeError (name +:+ ".trim is not a function"))
  end.

Definition set_status_ref (s : string) : script unit := modify (set_view (set_view_status s)).

(** [wallet.value?.id] *)
Definition wallet_ref_id (w : world) : value := get_opt (wallet w) "id".

(** [error.message || 'Unknown error occurred'] *)
Definition message_or (e : exn) : string :=
  to_string (js_or (err_message e) (Str "Unknown error occurred")).

(** [response?.message || 'Unknown error'] *)
Definition response_message (response : value) : string :=
  to_string (js_or (get_opt response "message") (Str "Unknown error")).

(** [response && response.status === 'success'] *)
Definition succeeded (response : value) : bool :=
  truthy response && strict_eq (prop response "status") (Str "success").

(** [statusClass], computed from the status. *)
Definition statusClass (w : world) : string :=
  let s := view_status (view w) in
  if includes s "success" || includes s "Success" then "success"
  else if includes s "error" || includes s "Error" then "error" else "".

Section view.
Context `{Browser} `{Canonicalizer} `{NaCl} `{Config}.

(** [syncMinerID()] *)
Definition syncMinerID : script unit :=
  desiredID ← gets wallet_ref_id;
  backend ← gets (fun w => backendMinerID (view w));
  if negb (truthy desiredID) then mret tt
  else if strict_eq backend desiredID then mret tt
  else try_catch
    (_ ← await (setMinerID desiredID);
     modify (set_view (set_backendMinerID desiredID)))
    (fun error => set_status_ref ("Failed to sync miner ID: " +:+ to_string (err_message error))).

(** [applySpendPlan(tx)]: the object with its inputs and outputs set. *)
Definition applySpendPlan (tx : value) : script value :=
  plan ← await (getSpendPlan (prop tx "from") (prop tx "amount"));
  inputs ← lift (get plan "inputs");
  tx ← lift (set tx "inputs" (js_or inputs (Arr [])));
  lift (set tx "outputs" (js_or (prop plan "outputs") (Arr []))).

(** The entry [loadMyDomains] builds for a stored one. *)
Definition view_entry (d : value) : outcome value :=
  ip ← get d "ip";
  Normal (spread d [("revealIp", js_or ip (Str "")); ("revealTtl", Num (int 0));
                    ("newIp", js_or ip (Str "")); ("updateTtl", Num (int 0));
                    ("isRevealing", Bool false); ("isUpdating", Bool false)]).

(** [loadMyDomains()] *)
Definition loadMyDomains : script unit :=
  ownerID ← gets wallet_ref_id;
  if negb (truthy ownerID) then mret tt
  else
    stored ← getPendingDomains ownerID;
    entries ← lift (map_method "stored" view_entry stored);
    match entries with
    | Arr l => modify (set_view (fun u =>
        let '(rs, h) := alloc_all l (heap u) in set_myDomains rs h u))
    | _ => mret tt
    end.

(** [clearPendingDomains()]; [confirmed] is the answer to the question. *)
Definition clearPendingDomains (confirmed : bool) : script unit :=
  if negb confirmed then mret tt
  else
    ownerID ← gets wallet_ref_id;
    if truthy ownerID then
      _ ← clearAllPendingDomains ownerID;
      _ ← modify (set_view (fun u => set_myDomains [] (heap u) u));
      set_status_ref "All domains cleared."
    else mret tt.

(** [fetchDomains()] *)
Definition domain_row (record : value) : outcome value :=
  name ← get record "Domain";
  Normal (obj [("name", js_or name (prop record "domain"));
               ("owner", js_or (prop record "Owner") (prop record "owner"));
               ("ip", js_or (prop record "IP") (prop record "ip"))]).

Definition fetchDomains : script unit :=
  try_catch
    (allDomains ← await fetchRegisteredDomains;
     rows ← lift (map_method "allDomains" domain_row allDomains);
     _ ← modify (set_view (set_domains rows));
     modify (set_view (set_domainsLoaded true)))
    (fun error =>
       _ ← set_status_ref ("Error fetching domains: " +:+ to_string (err_message error));
       modify (set_view (set_domainsLoaded true))).

(** The watcher of the wallet's identifier. *)
Definition on_wallet_id (newID : value) : script unit :=
  if truthy newID then syncMinerID else mret tt.

(** [onMounted] *)
Definition mounted : script unit :=
  _ ← try_catch
    (minerID ← await getMinerID;
     _ ← modify (set_view (set_connection true "Connected"));
     modify (set_view (set_backendMinerID minerID)))
    (fun _ =>
       _ ← modify (set_view (set_connection false "Connection Failed"));
       set_status_ref "Failed to connect to backend. Please ensure the backend is running.");
  walletLoaded ← await loadWallet;
  _ ← (if negb walletLoaded then
         try_catch (_ ← await createWallet; mret tt)
           (fun _ => set_status_ref "Failed to create wallet. Please refresh the page.")
       else mret tt);
  _ ← await syncMinerID;
  _ ← await fetchDomains;
  loadMyDomains.

(** [handleCreateWallet()] *)
Definition handleCreateWallet : script unit :=
  try_catch
    (_ ← await createWallet; set_status_ref "Wallet created successfully")
    (fun error => set_status_ref ("Error creating wallet: " +:+ to_string (err_message error))).

(** The parameters of a transaction of the wallet. *)
Definition tx_params (type : string) (senderID payload pk : value) : value :=
  obj [("type", Str type); ("walletID", senderID); ("fee", Num (int 1));
       ("payload", payload); ("pk", pk)].

(** The steps the three handlers share: build the transaction, apply the spend
    plan, compute its identifier, sign its hash with the wallet's key, show the
    status, send it. *)
Definition sign_and_send (type : string) (senderID payload : value) (sending : string)
    : script (value * value) :=
  pk ← (v ← gets wallet; lift (get v "publicKey"));
  transaction ← await (buildTransaction (tx_params type senderID payload pk));
  transaction ← await (applySpendPlan transaction);
  completeTx ← await (computeTransactionID transaction);
  txHash ← await (hashTransaction completeTx);
  sk ← (v ← gets wallet; lift (get v "privateKey"));
  signature ← await (generateTransactionSignature (Str txHash) sk);
  _ ← set_status_ref sending;
  response ← await (sendTransaction completeTx (Str signature));
  mret (completeTx, response).

(** The body of the [try] of [handleSubmit]. *)
Definition submit_body : script unit :=
  salt ← generateSalt;
  name ← gets (fun w => domainName (view w));
  hashedDomain ← await (hashDomainWithSalt (Str name) (Str salt));
  senderID ← gets wallet_ref_id;
  if negb (truthy senderID) then
    _ ← set_status_ref "Wallet ID not found. Please reload the page.";
    modify (set_view (set_processing false))
  else
    ttl ← gets (fun w => ttl (view w));
    '(completeTx, response) ← sign_and_send "NameNew" senderID
      (obj [("commitment", Str hashedDomain); ("ttl", js_or ttl (Num (int 0)))])
      "Sending transaction to network...";
    if succeeded response then
      _ ← modify (set_view (set_lastTxId (prop completeTx "transactionID")));
      name ← gets (fun w => domainName (view w));
      _ ← savePendingDomain senderID (Str name) (Str salt) (Str hashedDomain)
            (prop completeTx "transactionID");
      _ ← set_status_ref ("Commitment created! Wait for it to be mined in a block before revealing. Check "
            +:+ dq +:+ "My Domains" +:+ dq +:+ " section below.");
      _ ← modify (set_view (set_domainName ""));
      loadMyDomains
    else set_status_ref ("Transaction failed: " +:+ response_message response).

(** [handleSubmit()] *)
Definition handleSubmit : script unit :=
  name ← gets (fun w => domainName (view w));
  loaded ← gets isWalletLoaded;
  if String.eqb name "" || negb loaded then mret tt
  else
    _ ← modify (set_view (set_processing true));
    _ ← set_status_ref "Creating commitment...";
    finally
      (try_catch submit_body
        (fun error => set_status_ref ("Error: " +:+ message_or error)))
      (modify (set_view (set_processing false))).

(** The stored entries with [f] applied to those of a domain. *)
Definition update_stored (senderID domain : value) (f : value -> outcome value) : script unit :=
  let key := pending_key senderID in
  stored ← read_list key;
  updated ← lift (map_method "stored" (fun d =>
    dd ← get d "domain"; if strict_eq dd domain then f d else Normal d) stored);
  ls_setItem key (stringify updated).

(** The error messages after which an entry is removed. *)
Definition reveal_refused : list string :=
  ["domain already exists"; "already exists"; "already claimed"; "already registered";
   "no matching"; "commitment mismatch"; "expired"].
Definition update_refused : list string :=
  ["non-existent"; "expired"; "does not exist"; "not found"; "cannot update domain you do not own"].

(** The [catch] blocks: report, and remove the entry if the message says that it
    is of no use; [true] when the registered domains are to be fetched again. *)
Definition on_refused (refused : list string) (r : nat) (error : exn) : script bool :=
  let msg := message_or error in
  let msgLower := to_lower msg in
  _ ← set_status_ref ("Error: " +:+ msg);
  if existsb (includes msgLower) refused then
    senderID ← gets wallet_ref_id;
    if truthy senderID then
      domain ← (p ← gets (deref r); lift (get p "domain"));
      _ ← removePendingDomain senderID domain;
      _ ← loadMyDomains;
      mret true
    else mret false
  else mret false.

(** The body of the [try] of [handleFirstUpdate]. *)
Definition reveal_body (pending : nat) : script bool :=
  senderID ← gets wallet_ref_id;
  if negb (truthy senderID) then
    _ ← set_status_ref "Wallet ID not found. Please reload the page.";
    _ ← assign pending "isRevealing" (Bool false);
    mret false
  else
    p ← gets (deref pending);
    domain ← lift (get p "domain");
    ip ← lift (trim_method "pending.revealIp" (prop p "revealIp"));
    '(completeTx, response) ← sign_and_send "NameFirstUpdate" senderID
      (obj [("domain", domain); ("salt", prop p "salt"); ("ip", Str ip);
            ("ttl", js_or (prop p "revealTtl") (Num (int 0))); ("txid", prop p "txid")])
      "Sending reveal transaction...";
    if succeeded response then
      _ ← modify (set_view (set_lastTxId (prop completeTx "transactionID")));
      p ← gets (deref pending);
      domain ← lift (get p "domain");
      _ ← set_status_ref ("Domain " +:+ dq +:+ to_string domain +:+ dq +:+ " revealed successfully!");
      _ ← update_stored senderID domain (fun d =>
            ip ← (if truthy (prop p "revealIp")
                  then trim_method "pending.revealIp" (prop p "revealIp") else Normal "");
            Normal (spread d [("status", Str "revealed"); ("ip", Str ip)]));
      _ ← loadMyDomains;
      mret true
    else
      _ ← set_status_ref ("Reveal failed: " +:+ response_message response);
      mret false.

(** [handleFirstUpdate(pending)] *)
Definition handleFirstUpdate (pending : nat) : script unit :=
  loaded ← gets isWalletLoaded;
  if negb loaded then mret tt
  else
    revealIp ← (p ← gets (deref pending); lift (get p "revealIp"));
    blank ← (if truthy revealIp then ip ← lift (trim_method "pending.revealIp" revealIp); mret (String.eqb ip "")
             else mret true);
    if (blank : bool) then set_status_ref "Please enter an IP address"
    else
      _ ← assign pending "isRevealing" (Bool true);
      _ ← set_status_ref "Revealing domain...";
      refresh ← finally
        (try_catch (reveal_body pending) (on_refused reveal_refused pending))
        (assign pending "isRevealing" (Bool false));
      if (refresh : bool) then fetchDomains else mret tt.

(** The body of the [try] of [handleUpdate]; [true] when the registered domains
    are to be fetched again, which only its [catch] does. *)
Definition update_body (r : nat) : script bool :=
  senderID ← gets wallet_ref_id;
  if negb (truthy senderID) then
    _ ← set_status_ref "Wallet ID not found. Please reload the page.";
    _ ← assign r "isUpdating" (Bool false);
    mret false
  else
    p ← gets (deref r);
    domain ← lift (get p "domain");
    ip ← lift (trim_method "domain.newIp" (prop p "newIp"));
    '(completeTx, response) ← sign_and_send "NameUpdate" senderID
      (obj [("domain", domain); ("ip", Str ip); ("ttl", js_or (prop p "updateTtl") (Num (int 0)))])
      "Sending update transaction...";
    if succeeded response then
      _ ← modify (set_view (set_lastTxId (prop completeTx "transactionID")));
      p ← gets (deref r);
      domain ← lift (get p "domain");
      _ ← set_status_ref ("IP updated for " +:+ dq +:+ to_string domain +:+ dq +:+
                          "! Wait for it to be mined in a block.");
      _ ← update_stored senderID domain (fun d =>
            ip ← trim_method "domain.newIp" (prop p "newIp"); Normal (spread d [("ip", Str ip)]));
      _ ← assign r "newIp" (Str "");
      _ ← loadMyDomains;
      mret false
    else
      _ ← set_status_ref ("Update failed: " +:+ response_message response);
      mret false.

(** [handleUpdate(domain)] *)
Definition handleUpdate (r : nat) : script unit :=
  loaded ← gets isWalletLoaded;
  if negb loaded then mret tt
  else
    newIp ← (p ← gets (deref r); lift (get p "newIp"));
    blank ← (if truthy newIp then ip ← lift (trim_method "domain.newIp" newIp); mret (String.eqb ip "")
             else mret true);
    if (blank : bool) then set_status_ref "Please enter an IP address"
    else
      _ ← assign r "isUpdating" (Bool true);
      domain ← (p ← gets (deref r); lift (get p "domain"));
      _ ← set_status_ref ("Updating IP for " +:+ to_string domain +:+ "...");
      refresh ← finally
        (try_catch (update_body r) (on_refused update_refused r))
        (assign r "isUpdating" (Bool false));
      if (refresh : bool) then fetchDomains else mret tt.
End view.
