(* ===== verification/WalletFlow.v ===== *)
(** * The life of a name in the wallet view

    The commitment sent by [handleSubmit] is stored with what opens it, and
    [handleFirstUpdate] sends exactly this opening: the domain and the salt whose
    hash is the commitment, and the identifier of the transaction that carried
    it; [handleUpdate] sends the new address of a revealed name.  The three messages
    pass the receiver's checks, and the list shows what was stored.  The module
    [Page] is a concrete page and backend for the witnesses. *)

From S2P Require Import Prelude JsValue Json JsonFacts JsonCanon Sha256 Async Platform World Hash.
From S2P Require Import Storage DomainStorage TransactionService CryptoService WalletService.
From S2P Require Import ApiService UseWallet UseTransaction TransactionFlow WalletView.

(** ** Messages *)

Section message.
Context `{Canonicalizer} `{NaCl}.

(** The parameters of a transaction of the wallet of the key pair drawn at
    observation [n]. *)
Definition key_params (type : string) (n : nat) (payload : value) : value :=
  tx_params type (Str (wallet_id (keyPair n).1)) payload (Str (bytesToHex (keyPair n).1)).

(** The identifier of a transaction that was built for a key. *)
Definition tx_id (type : string) (n : nat) (payload plan : value) : string :=
  match canonicalize (tx_core (planned (key_params type n payload) plan Null)) with
  | Normal (Str s) => sha256_hex s
  | _ => ""
  end.

(** A signed message of the wallet: what was sent for the transaction, with a
    signature of its identifier. *)
Definition signed_message (n : nat) (plan : value) (type : string) (payload b : value) : Prop := exists sig,
  length sig = 64 /\ bytes_ok sig /\
  verify_detached (message (tx_id type n payload plan)) sig (keyPair n).1 = Normal true /\
  b ≡ⱼ sent (key_params type n payload) plan (tx_id type n payload plan) (bytesToHex sig).

(** A message of a given type and payload that passes the receiver's checks. *)
Definition valid_message (n : nat) (plan : value) (type : string) (payload b : value) : Prop :=
  receiver_checks b = Normal true /\ prop b "type" = Str type /\ prop b "payload" ≡ⱼ payload /\
  signed_message n plan type payload b.
End message.

(** The wallet of the key pair drawn at observation [n] is loaded. *)
Definition has_wallet `{NaCl} (n : nat) (w : world) : Prop := wallet w = key_wallet n.

Lemma run_status server s w l :
  run server (set_status_ref s) w l = (Normal tt, set_view (set_view_status s) w, l).
Proof. done. Qed.

Section pipeline.
Context `{Browser} `{CanonicalizerLaws} `{NaClLaws} `{Config}.
Context (server : list request -> request -> fetch_result).

Lemma hex_truthy l : l <> [] -> truthy (Str (bytesToHex l)) = true.
Proof. destruct l as [|b l]; [done|]. intros _. cbn [truthy]. by rewrite bytesToHex_nonempty. Qed.

Lemma wallet_id_truthy pk : truthy (Str (wallet_id pk)) = true.
Proof. apply hex_truthy. pose proof (sha256_length pk) as Hl. by destruct (sha256_digest pk). Qed.

Lemma keyPair_truthy n : truthy (Str (bytesToHex (keyPair n).1)) = true.
Proof. apply hex_truthy. destruct (keyPair_sizes n) as [Hl _]. by destruct ((keyPair n).1). Qed.

Lemma key_params_good type n payload :
  type <> "" -> json_ok payload -> truthy payload = true -> good_params (key_params type n payload).
Proof.
  intros Ht Hj Hp. constructor; try done.
  - by eexists.
  - apply obj_ok. by repeat constructor.
  - unfold key_params, tx_params. simpl. by destruct (String.eqb_spec type "").
  - apply wallet_id_truthy.
  - apply keyPair_truthy.
Qed.

(** The spend plan is written into the built transaction. *)
Lemma run_applySpendPlan params plan i o w l :
  answer (server l (plan_request params)) = Normal plan -> is_nullish plan = false ->
  run server (applySpendPlan (built params i o Null)) w l
  = (Normal (planned params plan Null), w, l ++ [plan_request params]).
Proof.
  intros Ha Hn. unfold applySpendPlan.
  change (getSpendPlan (prop (built params i o Null) "from") (prop (built params i o Null) "amount"))
    with (getSpendPlan (prop params "walletID") (prop params "fee")).
  rewrite run_bind, run_await, run_getSpendPlan. fold (plan_request params). rewrite Ha.
  rewrite run_bind, run_lift. unfold get. rewrite Hn, run_bind, run_lift, set_inputs.
  by rewrite run_lift, set_outputs.
Qed.

(** The shared pipeline sends a message that passes the receiver's checks, and ends as
    the backend's answer says. *)
Lemma run_pipeline type n payload sending plan answered w l :
  has_wallet n w -> type <> "" -> json_ok payload -> truthy payload = true -> good_plan plan ->
  answer (server l (plan_request (key_params type n payload))) = Normal plan ->
  (forall body, answer (server (l ++ [plan_request (key_params type n payload)])
                               (handle_request body)) = answered) ->
  exists tx body b,
    run server (sign_and_send type (Str (wallet_id (keyPair n).1)) payload sending) w l
    = ((fun response => (tx, response)) <$> answered, set_view (set_view_status sending) w,
       l ++ [plan_request (key_params type n payload); handle_request body]) /\
    prop tx "transactionID" = Str (tx_id type n payload plan) /\
    json_parse body = Normal b /\ valid_message n plan type payload b /\
    prop b "txId" = Str (tx_id type n payload plan).
Proof.
  intros Hw Ht Hj Hpt Hpl Ha Hs. set (params := key_params type n payload).
  pose proof (key_params_good type n payload Ht Hj Hpt) as Hgood. fold params in Hgood.
  destruct (id_text_exists params plan Hgood Hpl) as [s Hid].
  set (id := sha256_hex s). set (tx := planned params plan (Str id)).
  assert (tx_id type n payload plan = id) as Htx.
  { unfold tx_id. fold params. unfold id_text in Hid. by rewrite Hid. }
  destruct (signature_exists n id) as (sig & Hsig & Hlen & Hok & Hv).
  pose proof (sent_ok params plan id (bytesToHex sig) Hgood Hpl) as Hsok.
  destruct (canonicalize_text _ Hsok) as (body & b & Hbody & Hparse & Heq).
  pose proof (json_parse_ok _ _ Hparse) as Hbok.
  pose proof (fun k => received_member _ _ _ _ b k Hgood Hpl Hbok Heq) as Hm.
  destruct (sent_fields params plan id (bytesToHex sig) Hgood)
    as (F1 & _ & _ & F4 & _ & _ & _ & F8 & _).
  exists tx, body, b. split_and!.
  - unfold sign_and_send. rewrite run_bind, run_bind, run_gets, run_lift, Hw.
    change (get (key_wallet n) "publicKey") with (Normal (Str (bytesToHex (keyPair n).1))). cbv beta iota.
    rewrite run_bind, run_await, run_buildTransaction. fold (key_params type n payload). fold params.
    change (get params "type") with (Normal (Str type)). cbv beta iota.
    match goal with |- context [applySpendPlan ?t] =>
      change t with (built params (default_to (Arr []) (prop params "inputs"))
                       (default_to (Arr []) (prop params "outputs")) Null) end.
    rewrite run_bind, run_await, (run_applySpendPlan params plan) by (done || apply Hpl).
    rewrite run_bind, run_await, (run_computeTransactionID server _ s) by done.
    change (spread (planned params plan Null) [("transactionID", Str (sha256_hex s))]) with tx.
    rewrite run_bind, run_await, (run_hashTransaction server tx s) by done. fold id.
    rewrite run_bind, run_bind, run_gets, run_lift, Hw.
    change (get (key_wallet n) "privateKey") with (Normal (Str (bytesToHex (keyPair n).2))). cbv beta iota.
    rewrite run_bind, run_await, (run_generateTransactionSignature server n id sig) by done.
    rewrite run_bind, run_status.
    rewrite run_bind, run_await, (run_sendTransaction server tx (Str (bytesToHex sig)) (Str body)) by done.
    fold (handle_request body). rewrite Hs, <- (assoc_L app). by destruct answered.
  - by rewrite Htx.
  - done.
  - split_and!.
    + by eapply received_accepted.
    + apply equiv_str. rewrite <- (eq_refl : prop params "type" = Str type), <- F1. apply Hm.
    + change payload with (prop params "payload"). rewrite <- F4. apply Hm.
    + exists sig. rewrite Htx. by split_and!.
  - rewrite Htx. apply equiv_str. unfold id in F8. rewrite sha256_hex_truthy in F8. fold id in F8.
    rewrite <- F8. apply Hm.
Qed.

Lemma run_sign_and_send type n payload sending plan response w l :
  has_wallet n w -> type <> "" -> json_ok payload -> truthy payload = true -> good_plan plan ->
  answer (server l (plan_request (key_params type n payload))) = Normal plan ->
  (forall body, answer (server (l ++ [plan_request (key_params type n payload)])
                               (handle_request body)) = Normal response) ->
  exists tx body b,
    run server (sign_and_send type (Str (wallet_id (keyPair n).1)) payload sending) w l
    = (Normal (tx, response), set_view (set_view_status sending) w,
       l ++ [plan_request (key_params type n payload); handle_request body]) /\
    prop tx "transactionID" = Str (tx_id type n payload plan) /\
    json_parse body = Normal b /\ valid_message n plan type payload b /\
    prop b "txId" = Str (tx_id type n payload plan).
Proof. apply run_pipeline. Qed.
End pipeline.

(** ** The list of domains *)

(** The object [loadMyDomains] builds for an entry. *)
Definition shown (d : value) : value :=
  spread d [("revealIp", js_or (prop d "ip") (Str "")); ("revealTtl", Num (int 0));
            ("newIp", js_or (prop d "ip") (Str "")); ("updateTtl", Num (int 0));
            ("isRevealing", Bool false); ("isUpdating", Bool false)].

Lemma alloc_fresh h : h !! alloc h = None.
Proof. unfold alloc. apply not_elem_of_dom. apply is_fresh. Qed.

(** Allocation keeps the old objects and returns references to the new ones. *)
Lemma alloc_all_spec l h :
  let '(rs, h') := alloc_all l h in
  length rs = length l /\
  Forall (fun r => h !! r = None) rs /\
  (forall r v, h !! r = Some v -> h' !! r = Some v) /\
  (forall i r v, rs !! i = Some r -> l !! i = Some v -> h' !! r = Some v).
Proof.
  revert h. induction l as [|v l IH]; intros h; [by split_and!|]. cbn [alloc_all].
  specialize (IH (<[alloc h := v]> h)). destruct (alloc_all l _) as [rs h'].
  destruct IH as (Hlen & Hfresh & Hold & Hnew). split_and!.
  - simpl. by rewrite Hlen.
  - constructor; [apply alloc_fresh|]. eapply Forall_impl; [exact Hfresh|].
    intros r Hr. by apply lookup_insert_None in Hr as [].
  - intros r x Hr. apply Hold. rewrite lookup_insert_ne; [done|].
    intros <-. by rewrite alloc_fresh in Hr.
  - intros [|i] r x Hr Hl; simpl in *; [|by eapply Hnew]. simplify_eq.
    apply Hold. apply lookup_insert_eq.
Qed.

(** The view's list shows the given entries. *)
Definition shows (w : world) (l : list value) : Prop :=
  (fun r => deref r w) <$> myDomains (view w) = shown <$> l.

Section list.
Context `{Browser} (server : list request -> request -> fetch_result).

Lemma run_loadMyDomains w log l :
  truthy (wallet_ref_id w) = true ->
  entries (storage w) (pending_key (wallet_ref_id w)) = Some l ->
  exists u, run server loadMyDomains w log = (Normal tt, set_view (fun _ => u) w, log) /\
    shows (set_view (fun _ => u) w) l /\
    view_status u = view_status (view w) /\ domainName u = domainName (view w) /\
    view_isProcessing u = view_isProcessing (view w) /\ (lastTxId u = lastTxId (view w) /\
    isConnected u = isConnected (view w) /\ domainsLoaded u = domainsLoaded (view w)) /\
    Forall (fun r => heap (view w) !! r = None) (myDomains u) /\
    (forall r v, heap (view w) !! r = Some v -> heap u !! r = Some v).
Proof.
  intros Ht Hl. unfold loadMyDomains. rewrite run_bind, run_gets, Ht. cbn [negb].
  unfold getPendingDomains. rewrite run_bind, (run_read_list server _ _ _ _ Hl), run_bind, run_lift.
  cbn [map_method]. rewrite (map_out_total view_entry shown).
  2: { destruct (entries_ok _ _ _ Hl) as [_ Hn]. eapply Forall_impl; [exact Hn|].
       intros d Hd. unfold view_entry, get. by rewrite Hd. }
  cbn [fmap outcome_fmap]. rewrite run_modify.
  pose proof (alloc_all_spec (map shown l) (heap (view w))) as Ha.
  destruct (alloc_all (map shown l) (heap (view w))) as [rs h'] eqn:E.
  destruct Ha as (Hlen & Hfresh & Hold & Hnew).
  exists (set_myDomains rs h' (view w)). split_and!; try done.
  - unfold set_view. simpl. by rewrite E.
  - unfold shows. simpl. apply list_eq_same_length with (length l);
      rewrite ?length_fmap; [done|rewrite Hlen; by rewrite length_map|].
    intros i x y _ Hx Hy. apply list_lookup_fmap_Some in Hx as (r & -> & Hr).
    apply list_lookup_fmap_Some in Hy as (d & -> & Hd). unfold deref. simpl.
    rewrite (Hnew i r (shown d) Hr); [done|]. change (map shown l) with (shown <$> l).
    by rewrite list_lookup_fmap, Hd.
Qed.

(** What the status line says after the registered names were fetched. *)
Definition fetched_status (r : fetch_result) (status : string) : string :=
  match all ← plain_answer r; map_method "allDomains" domain_row all with
  | Normal _ => status
  | Throw e => "Error fetching domains: " +:+ to_string (err_message e)
  end.

Lemma run_fetchDomains `{Config} w log :
  exists u, run server fetchDomains w log
    = (Normal tt, set_view (fun _ => u) w, log ++ [GET (getBaseURL +:+ "/namecoin/dns")]) /\
    domainsLoaded u = true /\ myDomains u = myDomains (view w) /\ heap u = heap (view w) /\
    view_isProcessing u = view_isProcessing (view w) /\ isConnected u = isConnected (view w) /\
    view_status u = fetched_status (server log (GET (getBaseURL +:+ "/namecoin/dns"))) (view_status (view w)).
Proof.
  unfold fetchDomains, fetched_status. rewrite run_try, run_bind, run_await, run_fetchRegisteredDomains.
  assert (forall f u, set_view f (set_view (fun _ => u) w) = set_view (fun _ => f u) w) as Hv by done.
  destruct (plain_answer _) as [all|e].
  - rewrite run_bind, run_lift. destruct (map_method "allDomains" domain_row all) as [rows|e] eqn:Hm.
    + rewrite run_bind, !run_modify. eexists. split; [reflexivity|]. cbn [mbind outcome_bind]. rewrite Hm. by split_and!.
    + rewrite run_bind, run_status, run_modify. eexists. split; [reflexivity|]. cbn [mbind outcome_bind]. rewrite Hm. by split_and!.
  - rewrite run_bind, run_status, run_modify. by eexists.
Qed.
End list.

(** ** Commitment *)

Section commit.
Context `{Browser} `{CanonicalizerLaws} `{NaClLaws} `{Config}.
Context (server : list request -> request -> fetch_result).
Context (quota : forall st k x, accepts st k x = true).

Lemma run_savePendingDomain id d s c t w log l :
  entries (storage w) (pending_key id) = Some l ->
  run server (savePendingDomain id d s c t) w log
  = (Normal tt, set_storage (<[pending_key id :=
       to_string (stringify (Arr (l ++ [entry d s c t (now (tick w))])))]> (storage w)) (next_tick w), log).
Proof.
  intros Hl. unfold savePendingDomain. rewrite run_bind, (run_read_list server _ _ _ _ Hl).
  rewrite run_bind, run_Date_now, run_bind, run_lift. cbn [push]. by rewrite run_ls_setItem, quota.
Qed.

Lemma key_wallet_loaded n w : has_wallet n w -> isWalletLoaded w = true.
Proof. unfold has_wallet, isWalletLoaded. by intros ->. Qed.

Lemma key_wallet_id n w : has_wallet n w -> wallet_ref_id w = Str (wallet_id (keyPair n).1).
Proof. unfold has_wallet, wallet_ref_id. by intros ->. Qed.

(** What [handleSubmit] commits to at a state. *)
Definition submit_salt (w : world) : string := bytesToHex (random (tick w) 16).
Definition submit_commitment (w : world) : string :=
  sha256_hex (domain_preimage (Str (domainName (view w))) (Str (submit_salt w))).
Definition submit_payload (w : world) : value :=
  obj [("commitment", Str (submit_commitment w)); ("ttl", js_or (ttl (view w)) (Num (int 0)))].

Lemma submit_payload_ok w : json_ok (ttl (view w)) -> json_ok (submit_payload w).
Proof.
  intros Ht. apply obj_ok. repeat constructor; simpl. unfold js_or.
  destruct (truthy (ttl (view w))); [done|by constructor].
Qed.

Lemma run_handleSubmit n plan response old w l :
  has_global_length = true -> has_wallet n w -> domainName (view w) <> "" -> json_ok (ttl (view w)) ->
  entries (storage w) (pending_key (Str (wallet_id (keyPair n).1))) = Some old ->
  good_plan plan -> succeeded response = true ->
  let params := key_params "NameNew" n (submit_payload w) in
  answer (server l (plan_request params)) = Normal plan ->
  (forall body, answer (server (l ++ [plan_request params]) (handle_request body)) = Normal response) ->
  exists b body w',
    run server handleSubmit w l
      = (Normal tt, w', l ++ [plan_request params; handle_request body]) /\
    json_parse body = Normal b /\ valid_message n plan "NameNew" (submit_payload w) b /\
    let e := entry (Str (domainName (view w))) (Str (submit_salt w)) (Str (submit_commitment w))
                   (prop b "txId") (now (S (tick w))) in
    entries (storage w') (pending_key (Str (wallet_id (keyPair n).1))) = Some (old ++ [e]) /\
    shows w' (old ++ [e]) /\ has_wallet n w' /\
    domainName (view w') = "" /\ view_isProcessing (view w') = false.
Proof.
  intros Hg Hw Hname Httl Hold Hpl Hsucc params Ha Hs.
  set (w1 := set_view (set_view_status "Creating commitment...")
               (set_view (set_processing true) w)).
  set (w2 := next_tick w1).
  destruct (run_sign_and_send server "NameNew" n (submit_payload w) "Sending transaction to network..."
    plan response w2 l Hw ltac:(done) (submit_payload_ok w Httl) ltac:(done) Hpl Ha Hs)
    as (tx & body & b & Hrun & Hid & Hparse & Hmsg & Htxid).
  set (w3 := set_view (set_view_status "Sending transaction to network...") w2) in Hrun.
  set (e := entry (Str (domainName (view w))) (Str (submit_salt w)) (Str (submit_commitment w))
                  (prop b "txId") (now (S (tick w)))).
  assert (entries (storage w) (pending_key (Str (wallet_id (keyPair n).1))) = Some old) as Hold' by done.
  destruct (entries_ok _ _ _ Hold') as [Hok Hn].
  assert (json_ok e) as Heok.
  { apply obj_ok. repeat constructor; simpl. rewrite Htxid. constructor. }
  set (key := pending_key (Str (wallet_id (keyPair n).1))) in *.
  set (w4 := set_view (set_domainName "") (set_view (set_view_status
        ("Commitment created! Wait for it to be mined in a block before revealing. Check "
            +:+ dq +:+ "My Domains" +:+ dq +:+ " section below."))
      (set_storage (<[key := to_string (stringify (Arr (old ++ [e])))]> (storage w))
        (next_tick (set_view (set_lastTxId (prop b "txId")) w3))))).
  assert (entries (storage w4) (pending_key (wallet_ref_id w4)) = Some (old ++ [e])) as Hent.
  { rewrite (key_wallet_id n w4 Hw). unfold w4. cbn [storage set_view set_storage].
    apply entries_insert; apply Forall_app_2; try done; by apply Forall_singleton. }
  destruct (run_loadMyDomains server w4 (l ++ [plan_request params; handle_request body]) (old ++ [e]))
    as (u & Hload & Hshow & _ & Hdn & _);
    [rewrite (key_wallet_id n w4 Hw); apply wallet_id_truthy|done|].
  exists b, body, (set_view (set_processing false) (set_view (fun _ => u) w4)).
  assert (run server submit_body w1 l =
    (Normal tt, set_view (fun _ => u) w4, l ++ [plan_request params; handle_request body])) as Hbody.
  { unfold submit_body. rewrite run_bind, run_generateSalt by done. fold w2.
    rewrite run_bind, run_gets, run_bind, run_await, run_hashDomainWithSalt.
    rewrite run_bind, run_gets, (key_wallet_id n w2 Hw), wallet_id_truthy. cbn [negb].
    rewrite run_bind, run_gets, run_bind.
    change (obj [("commitment", _); ("ttl", _)]) with (submit_payload w). rewrite Hrun.
    rewrite Hsucc, run_bind, run_modify, run_bind, run_gets, run_bind.
    rewrite (run_savePendingDomain _ _ _ _ _ _ _ old) by done.
    rewrite Hid, <- Htxid, run_bind, run_status, run_bind, run_modify.
    exact Hload. }
  split_and!; try done.
  - unfold handleSubmit. rewrite run_bind, run_gets, run_bind, run_gets.
    destruct (String.eqb_spec (domainName (view w)) "") as [|_]; [done|].
    rewrite (key_wallet_loaded n w Hw). cbn [negb orb]. rewrite run_bind, run_modify.
    rewrite run_bind, run_status. fold w1.
    by rewrite run_finally, run_try, Hbody, run_modify.
  - cbv zeta. rewrite (key_wallet_id n w4 Hw) in Hent.
    split_and!; [exact Hent|exact Hshow|exact Hw|exact Hdn|done].
Qed.
End commit.

(** ** Entries as objects of the heap *)

Lemma prop_assign o k v k' :
  k <> "__proto__" ->
  prop (Obj (props_assign k v o)) k' = if String.eqb k' k then v else prop (Obj o) k'.
Proof. intros Hk. cbn [prop]. rewrite props_get_assign by done. by destruct (String.eqb k' k). Qed.

Lemma assign_json_ok o k v : json_ok (Obj o) -> json_ok v -> json_ok (Obj (props_assign k v o)).
Proof.
  intros Ho Hv. unfold props_assign. destruct (String.eqb k "__proto__"); [done|].
  inversion Ho; subst. constructor; [by apply props_define_ok|by apply props_define_wf].
Qed.

Lemma spread_json_ok o l :
  json_ok (Obj o) -> Forall (fun kv => json_ok kv.2) l -> json_ok (spread (Obj o) l).
Proof.
  intros Ho Hl. inversion Ho; subst. constructor; [by apply props_spread_ok|by apply props_spread_wf].
Qed.

(** The world with one object of the heap replaced. *)
Definition set_object (r : nat) (v : value) (w : world) : world :=
  set_view (fun u => set_myDomains (myDomains u) (<[r := v]> (heap u)) u) w.

Lemma deref_set_object r v w : deref r (set_object r v w) = v.
Proof. unfold deref. simpl. by rewrite lookup_insert_eq. Qed.

(** Objects that are not on the list can change without effect on what it shows. *)
Lemma shows_set_object r v w l :
  r ∉ myDomains (view w) -> shows w l -> shows (set_object r v w) l.
Proof.
  unfold shows. intros Hr <-. simpl. apply list_fmap_ext. intros i r' Hi.
  unfold deref. simpl. rewrite lookup_insert_ne; [done|].
  intros <-. apply Hr. by eapply list_elem_of_lookup_2.
Qed.

(** The entries of a domain with members replaced. *)
Definition patch (d : value) (l : list (string * value)) (e : value) : value :=
  if strict_eq (prop e "domain") d then spread e l else e.

Lemma patch_ok d l es :
  json_ok d -> Forall (fun kv => json_ok kv.2) l ->
  Forall json_ok es -> Forall (fun e => is_nullish e = false) es ->
  Forall json_ok (patch d l <$> es) /\ Forall (fun e => is_nullish e = false) (patch d l <$> es).
Proof.
  intros Hd Hl Hok Hn. unfold patch.
  split; apply Forall_fmap; rewrite Forall_forall in *; intros e He; simpl.
  - destruct (strict_eq _ _) eqn:E; [|by apply Hok].
    destruct (strict_eq_obj e d Hd E) as [o ->]. apply spread_json_ok; [by apply Hok|done].
  - destruct (strict_eq _ _); [done|by apply Hn].
Qed.

Section objects.
Context `{Browser} (server : list request -> request -> fetch_result).

Lemma run_assign r k v o w l :
  deref r w = Obj o ->
  run server (assign r k v) w l = (Normal tt, set_object r (Obj (props_assign k v o)) w, l).
Proof. intros Ho. unfold assign. by rewrite run_bind, run_gets, Ho. Qed.

Lemma run_member r k o w l :
  deref r w = Obj o ->
  run server (p ← gets (deref r); lift (get p k)) w l = (Normal (prop (Obj o) k), w, l).
Proof. intros Ho. by rewrite run_bind, run_gets, Ho. Qed.

Lemma run_update_stored id d f l es w log :
  (forall st k x, accepts st k x = true) ->
  entries (storage w) (pending_key id) = Some es ->
  (forall e, f e = Normal (spread e l)) ->
  run server (update_stored id d f) w log
  = (Normal tt, set_storage (<[pending_key id := to_string (stringify (Arr (patch d l <$> es)))]>
       (storage w)) w, log).
Proof.
  intros Hq Hes Hf. unfold update_stored.
  rewrite run_bind, (run_read_list server _ _ _ _ Hes), run_bind, run_lift. cbn [map_method].
  rewrite (map_out_total _ (patch d l)).
  - cbn [fmap outcome_fmap]. by rewrite run_ls_setItem, Hq.
  - destruct (entries_ok _ _ _ Hes) as [_ Hn]. eapply Forall_impl; [exact Hn|].
    intros e He. unfold get, patch. rewrite He. cbn [mbind outcome_bind].
    by destruct (strict_eq _ _).
Qed.
End objects.

(** ** Revealing and updating *)

Section reveal.
Context `{Browser} `{CanonicalizerLaws} `{NaClLaws} `{Config}.
Context (server : list request -> request -> fetch_result).
Context (quota : forall st k x, accepts st k x = true).

Definition reveal_payload (p : value) (ip : string) : value :=
  obj [("domain", prop p "domain"); ("salt", prop p "salt"); ("ip", Str (trim ip));
       ("ttl", js_or (prop p "revealTtl") (Num (int 0))); ("txid", prop p "txid")].

Definition update_payload (p : value) (ip : string) : value :=
  obj [("domain", prop p "domain"); ("ip", Str (trim ip));
       ("ttl", js_or (prop p "updateTtl") (Num (int 0)))].

Lemma reveal_payload_ok p ip :
  json_ok p -> json_ok (prop p "domain") -> json_ok (prop p "salt") -> json_ok (prop p "txid") ->
  json_ok (reveal_payload p ip).
Proof.
  intros Hp Hd Hs Ht. apply obj_ok. repeat constructor; try done. simpl.
  apply js_or_ok; [done|by constructor].
Qed.

Lemma update_payload_ok p ip :
  json_ok p -> json_ok (prop p "domain") -> json_ok (update_payload p ip).
Proof.
  intros Hp Hd. apply obj_ok. repeat constructor; try done. simpl.
  apply js_or_ok; [done|by constructor].
Qed.

(** Patched entries are what the key then holds. *)
Lemma entries_patched key d l es st :
  entries st key = Some es -> json_ok d -> Forall (fun kv => json_ok kv.2) l ->
  entries (<[key := to_string (stringify (Arr (patch d l <$> es)))]> st) key = Some (patch d l <$> es).
Proof.
  intros Hes Hd Hl. destruct (entries_ok _ _ _ Hes) as [Hok Hn].
  destruct (patch_ok d l es Hd Hl Hok Hn) as [Hok' Hn']. by apply entries_insert.
Qed.

(** The list is loaded again; an object a handler works on is not on it any more. *)
Lemma run_reload n es w log r v :
  has_wallet n w -> entries (storage w) (pending_key (Str (wallet_id (keyPair n).1))) = Some es ->
  heap (view w) !! r = Some v ->
  exists u, run server loadMyDomains w log = (Normal tt, set_view (fun _ => u) w, log) /\
    shows (set_view (fun _ => u) w) es /\ (r ∉ myDomains u) /\ heap u !! r = Some v.
Proof.
  intros Hw Hes Hr.
  destruct (run_loadMyDomains server w log es) as (u & Hload & Hshow & _ & _ & _ & _ & Hfresh & Hkeep).
  - rewrite (key_wallet_id n w Hw). apply wallet_id_truthy.
  - by rewrite (key_wallet_id n w Hw).
  - exists u. split_and!; [done..| |by apply Hkeep].
    intros Hin. rewrite Forall_forall in Hfresh. apply Hfresh in Hin. simpl in Hin. congruence.
Qed.

(** What a handler's body achieves: the messages sent, the stored entries, the
    list, and the object it works on. *)
Definition achieved (type : string) (payload : value) (n : nat) (plan : value) (es' : list value) (r : nat) (o : props)
    (l : list request) (w' : world) (l' : list request) : Prop :=
  let params := key_params type n payload in
  exists b body,
    l' = l ++ [plan_request params; handle_request body] /\
    json_parse body = Normal b /\ valid_message n plan type payload b /\
    has_wallet n w' /\ entries (storage w') (pending_key (Str (wallet_id (keyPair n).1))) = Some es' /\
    shows w' es' /\ (r ∉ myDomains (view w')) /\ deref r w' = Obj o.

(** Reading a member of the object a handler works on. *)
Lemma run_read {A} r o k (f : value -> value -> script A) w l :
  deref r w = Obj o ->
  run server (p ← gets (deref r); x ← lift (get p k); f p x) w l
  = run server (f (Obj o) (prop (Obj o) k)) w l.
Proof. intros Ho. by rewrite run_bind, run_gets, Ho, run_bind, run_lift. Qed.

Lemma run_reveal_body n plan response es r o d ip w l :
  has_wallet n w -> heap (view w) !! r = Some (Obj o) -> json_ok (Obj o) ->
  prop (Obj o) "domain" = Str d -> json_ok (prop (Obj o) "salt") -> json_ok (prop (Obj o) "txid") ->
  prop (Obj o) "revealIp" = Str ip -> trim ip <> "" ->
  let id := Str (wallet_id (keyPair n).1) in
  entries (storage w) (pending_key id) = Some es ->
  good_plan plan -> succeeded response = true ->
  let payload := reveal_payload (Obj o) ip in
  let params := key_params "NameFirstUpdate" n payload in
  answer (server l (plan_request params)) = Normal plan ->
  (forall body, answer (server (l ++ [plan_request params]) (handle_request body)) = Normal response) ->
  exists w' l', run server (reveal_body r) w l = (Normal true, w', l') /\
    achieved "NameFirstUpdate" payload n plan
      (patch (Str d) [("status", Str "revealed"); ("ip", Str (trim ip))] <$> es) r o l w' l'.
Proof.
  intros Hw Ho Hok Hd Hsalt Htxid Hip Htrim id Hes Hpl Hsucc payload params Ha Hs.
  assert (deref r w = Obj o) as Hdr by (unfold deref; by rewrite Ho).
  destruct (run_sign_and_send server "NameFirstUpdate" n payload "Sending reveal transaction..."
    plan response w l Hw ltac:(done)) as (tx & body & b & Hrun & _ & Hparse & Hmsg & _); try done.
  { apply reveal_payload_ok; [done| |done|done]. rewrite Hd. constructor. }
  set (es' := patch _ _ <$> es). fold id params in Hrun.
  set (w3 := set_view (set_view_status ("Domain " +:+ dq +:+ to_string (Str d) +:+ dq +:+ " revealed successfully!"))
               (set_view (set_lastTxId (prop tx "transactionID"))
                 (set_view (set_view_status "Sending reveal transaction...") w))).
  set (w4 := set_storage (<[pending_key id := to_string (stringify (Arr es'))]> (storage w)) w3).
  assert (entries (storage w4) (pending_key id) = Some es') as Hes'.
  { apply entries_patched; [done|constructor|repeat constructor]. }
  destruct (run_reload n es' w4 (l ++ [plan_request params; handle_request body]) r (Obj o) Hw Hes')
    as (u & Hload & Hshow & Hnin & Hheap); [done|].
  exists (set_view (fun _ => u) w4), (l ++ [plan_request params; handle_request body]). split.
  - unfold reveal_body. rewrite run_bind, run_gets, (key_wallet_id n w Hw), wallet_id_truthy.
    cbn [negb]. rewrite (run_read r o) by done.
    rewrite run_bind, run_lift, Hip. cbn [trim_method]. cbv beta iota.
    rewrite run_bind. fold (reveal_payload (Obj o) ip). fold payload id. rewrite Hrun.
    rewrite Hsucc, run_bind, run_modify, (run_read r o), Hd by done.
    rewrite run_bind, run_status. fold w3. rewrite run_bind.
    rewrite (run_update_stored server id (Str d) _
      [("status", Str "revealed"); ("ip", Str (trim ip))] es); [|done|done|].
    + fold es'. change (set_storage _ w3) with w4. by rewrite run_bind, Hload.
    + intros e. rewrite Hip. cbn [truthy trim_method].
      by destruct (String.eqb_spec ip "") as [->|].
  - exists b, body. split_and!; try done. unfold deref. simpl. by rewrite Hheap.
Qed.

Lemma run_update_body n plan response es r o d ip w l :
  has_wallet n w -> heap (view w) !! r = Some (Obj o) -> json_ok (Obj o) ->
  prop (Obj o) "domain" = Str d -> prop (Obj o) "newIp" = Str ip ->
  let id := Str (wallet_id (keyPair n).1) in
  entries (storage w) (pending_key id) = Some es ->
  good_plan plan -> succeeded response = true ->
  let payload := update_payload (Obj o) ip in
  let params := key_params "NameUpdate" n payload in
  answer (server l (plan_request params)) = Normal plan ->
  (forall body, answer (server (l ++ [plan_request params]) (handle_request body)) = Normal response) ->
  exists w' l', run server (update_body r) w l = (Normal false, w', l') /\
    achieved "NameUpdate" payload n plan (patch (Str d) [("ip", Str (trim ip))] <$> es) r
      (props_assign "newIp" (Str "") o) l w' l'.
Proof.
  intros Hw Ho Hok Hd Hip id Hes Hpl Hsucc payload params Ha Hs.
  assert (deref r w = Obj o) as Hdr by (unfold deref; by rewrite Ho).
  destruct (run_sign_and_send server "NameUpdate" n payload "Sending update transaction..."
    plan response w l Hw ltac:(done)) as (tx & body & b & Hrun & _ & Hparse & Hmsg & _); try done.
  { apply update_payload_ok; [done|]. rewrite Hd. constructor. }
  set (es' := patch _ _ <$> es). fold id params in Hrun. set (o2 := props_assign "newIp" (Str "") o).
  set (w3 := set_view (set_view_status ("IP updated for " +:+ dq +:+ to_string (Str d) +:+ dq +:+
                          "! Wait for it to be mined in a block."))
               (set_view (set_lastTxId (prop tx "transactionID"))
                 (set_view (set_view_status "Sending update transaction...") w))).
  set (w4 := set_object r (Obj o2)
               (set_storage (<[pending_key id := to_string (stringify (Arr es'))]> (storage w)) w3)).
  assert (entries (storage w4) (pending_key id) = Some es') as Hes'.
  { apply entries_patched; [done|constructor|repeat constructor]. }
  destruct (run_reload n es' w4 (l ++ [plan_request params; handle_request body]) r (Obj o2) Hw Hes')
    as (u & Hload & Hshow & Hnin & Hheap); [simpl; apply lookup_insert_eq|].
  exists (set_view (fun _ => u) w4), (l ++ [plan_request params; handle_request body]). split.
  - unfold update_body. rewrite run_bind, run_gets, (key_wallet_id n w Hw), wallet_id_truthy.
    cbn [negb]. rewrite (run_read r o) by done.
    rewrite run_bind, run_lift, Hip. cbn [trim_method]. cbv beta iota.
    rewrite run_bind. fold (update_payload (Obj o) ip). fold payload id. rewrite Hrun.
    rewrite Hsucc, run_bind, run_modify, (run_read r o), Hd by done.
    rewrite run_bind, run_status. fold w3. rewrite run_bind.
    rewrite (run_update_stored server id (Str d) _ [("ip", Str (trim ip))] es); [|done|done|].
    + fold es'. rewrite run_bind, (run_assign server r _ _ o) by done. fold o2.
      change (set_object r (Obj o2) (set_storage _ w3)) with w4. by rewrite run_bind, Hload.
    + intros e. by rewrite Hip.
  - exists b, body. split_and!; try done. unfold deref. simpl. by rewrite Hheap.
Qed.

(** The [finally] block: the flag of the object is reset, on no list any more. *)
Lemma run_flagged type payload n plan es' r o flag (body : script bool) h res w l w' l' :
  flag <> "__proto__" ->
  run server body w l = (Normal res, w', l') -> achieved type payload n plan es' r o l w' l' ->
  exists w'', run server (finally (try_catch body h) (assign r flag (Bool false))) w l
      = (Normal res, w'', l') /\
    entries (storage w'') (pending_key (Str (wallet_id (keyPair n).1))) = Some es' /\
    shows w'' es' /\ has_wallet n w'' /\ prop (deref r w'') flag = Bool false.
Proof.
  intros Hflag Hrun (b & bd & _ & _ & _ & Hw & Hes & Hshow & Hnin & Hd).
  exists (set_object r (Obj (props_assign flag (Bool false) o)) w'). split_and!.
  - by rewrite run_finally, run_try, Hrun, (run_assign server r _ _ o).
  - exact Hes.
  - by apply shows_set_object.
  - exact Hw.
  - rewrite deref_set_object, prop_assign by done. by rewrite String.eqb_refl.
Qed.

(** The validation of an address at the head of both handlers. *)
Lemma run_blank name ip w (l : list request) :
  run server (if truthy (Str ip) then x ← lift (trim_method name (Str ip)); mret (String.eqb x "")
              else mret true : script bool) w l
  = (Normal (String.eqb (trim ip) ""), w, l).
Proof.
  destruct ip as [|c ip]; [done|]. change (truthy (Str (String c ip))) with true. cbv iota.
  by rewrite run_bind, run_lift.
Qed.
End reveal.

(** ** The handlers on a ready page *)

(** A loaded wallet, a domain entry on the page and a backend that accepts. *)
Record ready `{Browser} `{Canonicalizer} `{NaCl} (n : nat) (es : list value) (plan response : value)
    (w : world) : Prop := {
  rd_quota : forall st k x, accepts st k x = true;
  rd_wallet : has_wallet n w;
  rd_entries : entries (storage w) (pending_key (Str (wallet_id (keyPair n).1))) = Some es;
  rd_plan : good_plan plan;
  rd_response : succeeded response = true
}.

(** The backend answers the plan request, then accepts the message. *)
Definition accepting `{Config} (server : list request -> request -> fetch_result)
    (params plan response : value) (l : list request) : Prop :=
  answer (server l (plan_request params)) = Normal plan /\
  (forall body, answer (server (l ++ [plan_request params]) (handle_request body)) = Normal response).

(** Setting a flag of an entry leaves its other members. *)
Lemma flagged_member flag b o k :
  flag <> "__proto__" -> k <> flag -> prop (Obj (props_assign flag b o)) k = prop (Obj o) k.
Proof. intros Hf Hk. rewrite prop_assign by done. by destruct (String.eqb_spec k flag). Qed.

(** The head of [handleFirstUpdate]: the checks, the flag and the message. *)
Lemma run_reveal_start `{Browser} `{Canonicalizer} `{NaCl} `{Config} server n r o ip w l :
  has_wallet n w -> heap (view w) !! r = Some (Obj o) -> prop (Obj o) "revealIp" = Str ip -> trim ip <> "" ->
  run server (handleFirstUpdate r) w l
  = run server (refresh ← finally (try_catch (reveal_body r) (on_refused reveal_refused r))
                                  (assign r "isRevealing" (Bool false));
                if (refresh : bool) then fetchDomains else mret tt)
      (set_view (set_view_status "Revealing domain...")
        (set_object r (Obj (props_assign "isRevealing" (Bool true) o)) w)) l.
Proof.
  intros Hw Ho Hip Htrim. assert (deref r w = Obj o) as Hdr by (unfold deref; by rewrite Ho).
  unfold handleFirstUpdate. rewrite run_bind, run_gets, (key_wallet_loaded n w Hw). cbn [negb].
  rewrite run_bind, (run_member server r _ o), Hip by done.
  rewrite run_bind, run_blank. destruct (String.eqb_spec (trim ip) "") as [|_]; [done|].
  rewrite run_bind, (run_assign server r _ _ o) by done. by rewrite run_bind, run_status.
Qed.

(** A revelation of a pending entry. *)
Lemma run_handleFirstUpdate `{Browser} `{CanonicalizerLaws} `{NaClLaws} `{Config}
    server n es plan response r o d ip w l :
  ready n es plan response w ->
  heap (view w) !! r = Some (Obj o) -> json_ok (Obj o) ->
  prop (Obj o) "domain" = Str d -> json_ok (prop (Obj o) "salt") -> json_ok (prop (Obj o) "txid") ->
  prop (Obj o) "revealIp" = Str ip -> trim ip <> "" ->
  let payload := reveal_payload (Obj o) ip in
  accepting server (key_params "NameFirstUpdate" n payload) plan response l ->
  exists b body w',
    run server (handleFirstUpdate r) w l = (Normal tt, w',
      l ++ [plan_request (key_params "NameFirstUpdate" n payload); handle_request body;
            GET (getBaseURL +:+ "/namecoin/dns")]) /\
    json_parse body = Normal b /\ valid_message n plan "NameFirstUpdate" payload b /\
    let es' := patch (Str d) [("status", Str "revealed"); ("ip", Str (trim ip))] <$> es in
    entries (storage w') (pending_key (Str (wallet_id (keyPair n).1))) = Some es' /\
    shows w' es' /\ has_wallet n w' /\ prop (deref r w') "isRevealing" = Bool false.
Proof.
  intros [Hq Hw Hes Hpl Hr] Ho Hok Hd Hsalt Htx Hip Htrim payload [Ha Hs].
  set (o1 := props_assign "isRevealing" (Bool true) o).
  assert (forall k, k <> "isRevealing" -> prop (Obj o1) k = prop (Obj o) k) as Ho1 by (intros; by apply flagged_member).
  set (w1 := set_view (set_view_status "Revealing domain...") (set_object r (Obj o1) w)).
  assert (reveal_payload (Obj o1) ip = payload) as Hpay by (unfold reveal_payload; by rewrite !Ho1).
  assert (json_ok (Obj o1)) as Hok1 by (apply assign_json_ok; [done|constructor]).
  destruct (run_reveal_body server Hq n plan response es r o1 d ip w1 l) as (w2 & l2 & Hrun & Hach);
    rewrite ?Hpay, ?Ho1 by done; try done; [simpl; apply lookup_insert_eq|]. rewrite Hpay in Hach.
  pose proof Hach as (b & body & -> & Hparse & Hmsg & _).
  destruct (run_flagged server _ _ _ _ _ _ _ "isRevealing" _ (on_refused reveal_refused r) _ _ _ _ _
    ltac:(done) Hrun Hach) as (w3 & Hfin & He3 & Hs3 & Hw3 & Hf3).
  destruct (run_fetchDomains server w3 (l ++ [plan_request (key_params "NameFirstUpdate" n payload);
    handle_request body])) as (u & Hfetch & _ & Hmy & Hhp & _).
  exists b, body, (set_view (fun _ => u) w3). split_and!; [|done|done|].
  - rewrite (run_reveal_start server n r o ip) by done. fold o1 w1.
    rewrite run_bind, Hfin, Hfetch, <- (assoc_L app). done.
  - cbv zeta. split_and!; [done|..].
    + unfold shows, deref in *. simpl. by rewrite Hmy, Hhp.
    + exact Hw3.
    + unfold deref in *. simpl. by rewrite Hhp.
Qed.

(** An update of a revealed entry. *)
Lemma run_handleUpdate `{Browser} `{CanonicalizerLaws} `{NaClLaws} `{Config}
    server n es plan response r o d ip w l :
  ready n es plan response w ->
  heap (view w) !! r = Some (Obj o) -> json_ok (Obj o) ->
  prop (Obj o) "domain" = Str d -> prop (Obj o) "newIp" = Str ip -> trim ip <> "" ->
  let payload := update_payload (Obj o) ip in
  accepting server (key_params "NameUpdate" n payload) plan response l ->
  exists b body w',
    run server (handleUpdate r) w l = (Normal tt, w',
      l ++ [plan_request (key_params "NameUpdate" n payload); handle_request body]) /\
    json_parse body = Normal b /\ valid_message n plan "NameUpdate" payload b /\
    let es' := patch (Str d) [("ip", Str (trim ip))] <$> es in
    entries (storage w') (pending_key (Str (wallet_id (keyPair n).1))) = Some es' /\
    shows w' es' /\ has_wallet n w' /\ prop (deref r w') "isUpdating" = Bool false.
Proof.
  intros [Hq Hw Hes Hpl Hr] Ho Hok Hd Hip Htrim payload [Ha Hs].
  set (o1 := props_assign "isUpdating" (Bool true) o).
  assert (forall k, k <> "isUpdating" -> prop (Obj o1) k = prop (Obj o) k) as Ho1 by (intros; by apply flagged_member).
  set (w1 := set_view (set_view_status ("Updating IP for " +:+ to_string (Str d) +:+ "..."))
               (set_object r (Obj o1) w)).
  assert (update_payload (Obj o1) ip = payload) as Hpay by (unfold update_payload; by rewrite !Ho1).
  assert (json_ok (Obj o1)) as Hok1 by (apply assign_json_ok; [done|constructor]).
  destruct (run_update_body server Hq n plan response es r o1 d ip w1 l) as (w2 & l2 & Hrun & Hach);
    rewrite ?Hpay, ?Ho1 by done; try done; [simpl; apply lookup_insert_eq|]. rewrite Hpay in Hach.
  pose proof Hach as (b & body & -> & Hparse & Hmsg & _).
  destruct (run_flagged server _ _ _ _ _ _ _ "isUpdating" _ (on_refused update_refused r) _ _ _ _ _
    ltac:(done) Hrun Hach) as (w3 & Hfin & He3 & Hs3 & Hw3 & Hf3).
  exists b, body, w3. split_and!; [|done..].
  unfold handleUpdate. rewrite run_bind, run_gets, (key_wallet_loaded n w Hw). cbn [negb].
  assert (deref r w = Obj o) as Hdr by (unfold deref; by rewrite Ho).
  rewrite run_bind, (run_member server r _ o), Hip by done.
  rewrite run_bind, run_blank. destruct (String.eqb_spec (trim ip) "") as [|_]; [done|].
  rewrite run_bind, (run_assign server r _ _ o) by done. fold o1.
  rewrite run_bind, (run_member server r _ o1) by apply deref_set_object. rewrite Ho1, Hd by done.
  rewrite run_bind, run_status. fold w1. by rewrite run_bind, Hfin.
Qed.

(** ** Properties *)

(** C4: submitting a name on a ready page sends one accepted [NameNew] message whose
    payload is the commitment to the name, and stores, for the next session too,
    exactly what opens it: the name and salt whose hash is the commitment, and the
    identifier of the message. *)
Theorem handleSubmit_commits `{Browser} `{CanonicalizerLaws} `{NaClLaws} `{Config}
    server n es plan response w l :
  has_global_length = true -> ready n es plan response w ->
  domainName (view w) <> "" -> json_ok (ttl (view w)) ->
  accepting server (key_params "NameNew" n (submit_payload w)) plan response l ->
  exists b body w',
    run server handleSubmit w l = (Normal tt, w',
      l ++ [plan_request (key_params "NameNew" n (submit_payload w)); handle_request body]) /\
    json_parse body = Normal b /\ valid_message n plan "NameNew" (submit_payload w) b /\
    (exists e, entries (storage w') (pending_key (Str (wallet_id (keyPair n).1))) = Some (es ++ [e]) /\
       shows w' (es ++ [e]) /\
       prop e "domain" = Str (domainName (view w)) /\ prop e "txid" = prop b "txId" /\
       prop e "status" = Str "pending" /\
       Str (sha256_hex (domain_preimage (prop e "domain") (prop e "salt")))
         = prop (submit_payload w) "commitment") /\
    domainName (view w') = "" /\ view_isProcessing (view w') = false.
Proof.
  intros Hg [Hq Hw Hes Hpl Hr] Hn Ht [Ha Hs].
  destruct (run_handleSubmit server Hq n plan response es w l Hg Hw Hn Ht Hes Hpl Hr Ha Hs)
    as (b & body & w' & Hrun & Hp & Hm & He & Hsh & _ & Hd & Hpr).
  exists b, body, w'. split_and!; [done..| |done|done]. eexists. by split_and!.
Qed.

(** C5: revealing an entry on a ready page sends one accepted [NameFirstUpdate]
    message with the entry's name, salt and transaction identifier and the address
    entered, marks the stored entries of the name as revealed with that address,
    shows them, resets the progress flag and refreshes the registered names. *)
Theorem handleFirstUpdate_reveals `{Browser} `{CanonicalizerLaws} `{NaClLaws} `{Config}
    server n es plan response r o d ip w l :
  ready n es plan response w ->
  heap (view w) !! r = Some (Obj o) -> json_ok (Obj o) ->
  prop (Obj o) "domain" = Str d -> json_ok (prop (Obj o) "salt") -> json_ok (prop (Obj o) "txid") ->
  prop (Obj o) "revealIp" = Str ip -> trim ip <> "" ->
  let payload := reveal_payload (Obj o) ip in
  accepting server (key_params "NameFirstUpdate" n payload) plan response l ->
  exists b body w',
    run server (handleFirstUpdate r) w l = (Normal tt, w',
      l ++ [plan_request (key_params "NameFirstUpdate" n payload); handle_request body;
            GET (getBaseURL +:+ "/namecoin/dns")]) /\
    json_parse body = Normal b /\ valid_message n plan "NameFirstUpdate" payload b /\
    let es' := patch (Str d) [("status", Str "revealed"); ("ip", Str (trim ip))] <$> es in
    entries (storage w') (pending_key (Str (wallet_id (keyPair n).1))) = Some es' /\
    shows w' es' /\ has_wallet n w' /\ prop (deref r w') "isRevealing" = Bool false.
Proof. apply run_handleFirstUpdate. Qed.

(** C33: updating an entry on a ready page sends one accepted [NameUpdate] message
    with the entry's name and the address entered, stores the address in the entries
    of the name, shows them and resets the progress flag. *)
Theorem handleUpdate_updates `{Browser} `{CanonicalizerLaws} `{NaClLaws} `{Config}
    server n es plan response r o d ip w l :
  ready n es plan response w ->
  heap (view w) !! r = Some (Obj o) -> json_ok (Obj o) ->
  prop (Obj o) "domain" = Str d -> prop (Obj o) "newIp" = Str ip -> trim ip <> "" ->
  let payload := update_payload (Obj o) ip in
  accepting server (key_params "NameUpdate" n payload) plan response l ->
  exists b body w',
    run server (handleUpdate r) w l = (Normal tt, w',
      l ++ [plan_request (key_params "NameUpdate" n payload); handle_request body]) /\
    json_parse body = Normal b /\ valid_message n plan "NameUpdate" payload b /\
    let es' := patch (Str d) [("ip", Str (trim ip))] <$> es in
    entries (storage w') (pending_key (Str (wallet_id (keyPair n).1))) = Some es' /\
    shows w' es' /\ has_wallet n w' /\ prop (deref r w') "isUpdating" = Bool false.
Proof. apply run_handleUpdate. Qed.

(** ** A concrete page *)

Module Page.
Import Reference DefaultConfig.

Definition quoted (k v : string) : string := quote k +:+ ":" +:+ quote v.

(** A backend with a plan for every request, which accepts every message. *)
Definition backend (l : list request) (r : request) : fetch_result :=
  Resp (Response 200 "OK" (Normal
    (if includes (url r) "spendplan"
     then "{" +:+ quote "inputs" +:+ ":[{" +:+ quote "index" +:+ ":0}]," +:+ quote "outputs" +:+ ":[]}"
     else "{" +:+ quoted "status" "success" +:+ "}"))).

Definition accepted : value := obj [("status", Str "success")].

(** A page with a wallet and a name typed. *)
Definition typed : world :=
  set_view (set_domainName "example.com") (set_wallet (key_wallet 0) (page_load ∅ 5)).

(** A stored entry, and a page that shows it with an address typed. *)
Definition stored (status : string) : value :=
  obj [("domain", Str "example.com"); ("salt", Str "00ff"); ("txid", Str "ab"); ("status", Str status)].
Definition shown_object (status : string) : props :=
  props_of [("domain", Str "example.com"); ("salt", Str "00ff"); ("txid", Str "ab"); ("status", Str status);
            ("revealIp", Str " 10.0.0.1"); ("revealTtl", Num (int 0)); ("newIp", Str "10.0.0.2");
            ("updateTtl", Num (int 0)); ("isRevealing", Bool false); ("isUpdating", Bool false)].
Definition listed (status : string) : world :=
  set_view (set_myDomains [0] {[ 0 := Obj (shown_object status) ]})
    (set_wallet (key_wallet 0)
      (page_load {[ pending_key (Str (wallet_id (keyPair 0).1)) := to_string (stringify (Arr [stored status])) ]} 5)).

Lemma typed_ready : ready 0 [] Demo.plan accepted typed.
Proof.
  split; [done|reflexivity|vm_compute; reflexivity|apply Demo.plan_good|vm_compute; reflexivity].
Defined.

Lemma listed_ready status :
  status = "pending" \/ status = "revealed" -> ready 0 [stored status] Demo.plan accepted (listed status).
Proof.
  intros [-> | ->]; split; try exact Demo.plan_good; try reflexivity; vm_compute; reflexivity.
Defined.

Lemma backend_accepting params l : accepting backend params Demo.plan accepted l.
Proof. split; [|intros body]; unfold backend; cbn [url plan_request handle_request POST]; vm_compute; reflexivity. Defined.

Lemma handleSubmit_commits_witness :
  exists b body w',
    run backend handleSubmit typed [] = (Normal tt, w',
      [] ++ [plan_request (key_params "NameNew" 0 (submit_payload typed)); handle_request body]) /\
    json_parse body = Normal b /\ valid_message 0 Demo.plan "NameNew" (submit_payload typed) b /\
    domainName (view w') = "".
Proof.
  destruct (handleSubmit_commits backend 0 [] Demo.plan accepted typed [])
    as (b & body & w' & Hrun & Hb & Hm & _ & Hn & _);
    [reflexivity|exact typed_ready|discriminate|constructor; reflexivity|apply backend_accepting|].
  exists b, body, w'. exact (conj Hrun (conj Hb (conj Hm Hn))).
Defined.

Lemma shown_ok status : json_ok (Str status) -> json_ok (Obj (shown_object status)).
Proof. intros Hs. apply obj_ok. by repeat constructor. Defined.

Lemma handleFirstUpdate_reveals_witness :
  exists b body w',
    run backend (handleFirstUpdate 0) (listed "pending") [] = (Normal tt, w',
      [] ++ [plan_request (key_params "NameFirstUpdate" 0 (reveal_payload (Obj (shown_object "pending")) " 10.0.0.1"));
             handle_request body; GET (getBaseURL +:+ "/namecoin/dns")]) /\
    json_parse body = Normal b /\
    valid_message 0 Demo.plan "NameFirstUpdate" (reveal_payload (Obj (shown_object "pending")) " 10.0.0.1") b.
Proof.
  destruct (handleFirstUpdate_reveals backend 0 [stored "pending"] Demo.plan accepted 0
    (shown_object "pending") "example.com" " 10.0.0.1" (listed "pending") [])
    as (b & body & w' & Hrun & Hb & Hm & _);
    [apply listed_ready; left; reflexivity|apply lookup_singleton_eq|apply shown_ok; constructor|reflexivity
    |constructor|constructor|reflexivity|discriminate|apply backend_accepting|].
  exists b, body, w'. exact (conj Hrun (conj Hb Hm)).
Defined.

Lemma handleUpdate_updates_witness :
  exists b body w',
    run backend (handleUpdate 0) (listed "revealed") [] = (Normal tt, w',
      [] ++ [plan_request (key_params "NameUpdate" 0 (update_payload (Obj (shown_object "revealed")) "10.0.0.2"));
             handle_request body]) /\
    json_parse body = Normal b /\
    valid_message 0 Demo.plan "NameUpdate" (update_payload (Obj (shown_object "revealed")) "10.0.0.2") b.
Proof.
  destruct (handleUpdate_updates backend 0 [stored "revealed"] Demo.plan accepted 0
    (shown_object "revealed") "example.com" "10.0.0.2" (listed "revealed") [])
    as (b & body & w' & Hrun & Hb & Hm & _);
    [apply listed_ready; right; reflexivity|apply lookup_singleton_eq|apply shown_ok; constructor|reflexivity
    |reflexivity|discriminate|apply backend_accepting|].
  exists b, body, w'. exact (conj Hrun (conj Hb Hm)).
Defined.
End Page.
