(* ===== verification/WalletErrors.v ===== *)
(** * Refused messages in the wallet view

    The [catch] block that [handleFirstUpdate] and [handleUpdate] share, and what a
    revelation does when the backend refuses its message: the reason is reported, the
    entry is dropped, from the list and from [localStorage], when the reason contains
    one of the phrases the view looks for, and the progress flag is reset in any case. *)

From S2P Require Import Prelude JsValue Json JsonFacts JsonCanon Sha256 Async Platform World Hash.
From S2P Require Import Storage DomainStorage TransactionService CryptoService WalletService.
From S2P Require Import ApiService UseWallet UseTransaction TransactionFlow WalletView WalletFlow.

(** The entries that remain. *)
Definition without (d : string) (es : list value) : list value :=
  List.filter (fun e => negb (strict_eq (prop e "domain") (Str d))) es.

(** Whether a reason is one of those after which an entry is dropped. *)
Definition hopeless (refused : list string) (msg : string) : bool :=
  existsb (includes (to_lower msg)) refused.

Section refused.
Context `{Browser} `{CanonicalizerLaws} `{NaClLaws} `{Config}.
Context (server : list request -> request -> fetch_result).
Context (quota : forall st k x, accepts st k x = true).

Lemma message_or_error name msg : msg <> "" -> message_or (Error name msg) = msg.
Proof. intros Hm. unfold message_or, js_or. cbn. by destruct (String.eqb_spec msg ""). Qed.

(** The [catch] block. *)
Lemma run_on_refused refused n es r o d name msg w l :
  has_wallet n w -> heap (view w) !! r = Some (Obj o) -> prop (Obj o) "domain" = Str d -> msg <> "" ->
  entries (storage w) (pending_key (Str (wallet_id (keyPair n).1))) = Some es ->
  let drop := hopeless refused msg in
  exists w', run server (on_refused refused r (Error name msg)) w l = (Normal drop, w', l) /\
    has_wallet n w' /\ heap (view w') !! r = Some (Obj o) /\
    view_status (view w') = "Error: " +:+ msg /\
    entries (storage w') (pending_key (Str (wallet_id (keyPair n).1)))
      = Some (if drop then without d es else es) /\
    (drop = true -> shows w' (without d es) /\ (r ∉ myDomains (view w'))).
Proof.
  intros Hw Hr Hd Hm Hes drop. unfold on_refused. rewrite message_or_error by done. cbv zeta.
  rewrite run_bind, run_status. fold (hopeless refused msg). fold drop.
  set (w1 := set_view (set_view_status ("Error: " +:+ msg)) w).
  destruct drop; [|exists w1; by split_and!].
  rewrite run_bind, run_gets, (key_wallet_id n w1 Hw), wallet_id_truthy.
  rewrite run_bind, (run_member server r _ o), Hd by (unfold deref; cbn; by rewrite Hr).
  rewrite run_bind, (run_removePendingDomain server _ _ w1 l es quota Hes). fold (without d es).
  set (w2 := set_storage _ w1).
  assert (entries (storage w2) (pending_key (Str (wallet_id (keyPair n).1))) = Some (without d es)) as Hes2.
  { destruct (entries_ok _ _ _ Hes) as [Hok Hn]. destruct (spec_ok (Remove (Str d)) 0 es) as [Hok' Hn'];
      [constructor|done|done|]. by apply entries_insert. }
  destruct (run_loadMyDomains server w2 l (without d es)) as (u & Hload & Hshow & Hst & _ & _ & _ & Hfresh & Hkeep);
    [rewrite (key_wallet_id n w2 Hw); apply wallet_id_truthy|by rewrite (key_wallet_id n w2 Hw)|].
  exists (set_view (fun _ => u) w2). rewrite run_bind, Hload. split_and!; try done.
  - by apply Hkeep.
  - intros _. split; [done|]. intros Hin. rewrite Forall_forall in Hfresh. specialize (Hfresh r Hin). cbn in Hfresh.
    congruence.
Qed.
(** The reset of the flag after the [catch] block. *)
Lemma reset_flag flag r o n es w l :
  flag <> "__proto__" -> has_wallet n w -> heap (view w) !! r = Some (Obj o) ->
  exists w', run server (assign r flag (Bool false)) w l = (Normal tt, w', l) /\
    has_wallet n w' /\ storage w' = storage w /\ view_status (view w') = view_status (view w) /\
    prop (deref r w') flag = Bool false /\
    (r ∉ myDomains (view w) -> shows w es -> shows w' es).
Proof.
  intros Hflag Hw Hr. exists (set_object r (Obj (props_assign flag (Bool false) o)) w).
  rewrite (run_assign server r _ _ o) by (unfold deref; by rewrite Hr). split_and!; try done.
  - rewrite deref_set_object, prop_assign by done. by rewrite String.eqb_refl.
  - apply shows_set_object.
Qed.

(** The body of a revelation whose message is refused. *)
Lemma run_reveal_body_refused n plan e r o d ip w l :
  has_wallet n w -> heap (view w) !! r = Some (Obj o) -> json_ok (Obj o) ->
  prop (Obj o) "domain" = Str d -> json_ok (prop (Obj o) "salt") -> json_ok (prop (Obj o) "txid") ->
  prop (Obj o) "revealIp" = Str ip -> good_plan plan ->
  let payload := reveal_payload (Obj o) ip in
  let params := key_params "NameFirstUpdate" n payload in
  answer (server l (plan_request params)) = Normal plan ->
  (forall body, answer (server (l ++ [plan_request params]) (handle_request body)) = Throw e) ->
  exists body, run server (reveal_body r) w l
    = (Throw e, set_view (set_view_status "Sending reveal transaction...") w,
       l ++ [plan_request params; handle_request body]).
Proof.
  intros Hw Ho Hok Hd Hsalt Htxid Hip Hpl payload params Ha Hs.
  assert (deref r w = Obj o) as Hdr by (unfold deref; by rewrite Ho).
  destruct (run_pipeline server "NameFirstUpdate" n payload "Sending reveal transaction..."
    plan (Throw e) w l Hw ltac:(done)) as (tx & body & b & Hrun & _); try done.
  { apply reveal_payload_ok; [done| |done|done]. rewrite Hd. constructor. }
  exists body. fold params in Hrun.
  unfold reveal_body. rewrite run_bind, run_gets, (key_wallet_id n w Hw), wallet_id_truthy.
  cbn [negb]. rewrite (run_read server r o) by done.
  rewrite run_bind, run_lift, Hip. cbn [trim_method]. cbv beta iota.
  rewrite run_bind. fold (reveal_payload (Obj o) ip). fold payload. by rewrite Hrun.
Qed.
End refused.

(** ** Properties *)

(** C34: a revelation whose message the backend refuses shows the reason in the
    status line.  When the reason contains, in any case of letters, one of the phrases
    [reveal_refused], the entries of the name are dropped from [localStorage] and from
    the list and the registered names are fetched again, the reason staying in the
    status line unless this request fails too, whose error then replaces it; otherwise
    the entries are kept.  The progress flag is reset. *)
Theorem handleFirstUpdate_refused `{Browser} `{CanonicalizerLaws} `{NaClLaws} `{Config}
    server n es plan r o d ip name msg w l :
  (forall st k x, accepts st k x = true) -> has_wallet n w ->
  entries (storage w) (pending_key (Str (wallet_id (keyPair n).1))) = Some es ->
  heap (view w) !! r = Some (Obj o) -> json_ok (Obj o) ->
  prop (Obj o) "domain" = Str d -> json_ok (prop (Obj o) "salt") -> json_ok (prop (Obj o) "txid") ->
  prop (Obj o) "revealIp" = Str ip -> trim ip <> "" -> good_plan plan -> msg <> "" ->
  let params := key_params "NameFirstUpdate" n (reveal_payload (Obj o) ip) in
  answer (server l (plan_request params)) = Normal plan ->
  (forall body, answer (server (l ++ [plan_request params]) (handle_request body)) = Throw (Error name msg)) ->
  let drop := hopeless reveal_refused msg in
  exists w' body,
    run server (handleFirstUpdate r) w l = (Normal tt, w',
      l ++ [plan_request params; handle_request body] ++
      (if drop then [GET (getBaseURL +:+ "/namecoin/dns")] else [])) /\
    entries (storage w') (pending_key (Str (wallet_id (keyPair n).1)))
      = Some (if drop then without d es else es) /\
    (drop = true -> shows w' (without d es)) /\
    view_status (view w') =
      (if drop then fetched_status (server (l ++ [plan_request params; handle_request body])
                      (GET (getBaseURL +:+ "/namecoin/dns"))) ("Error: " +:+ msg)
       else "Error: " +:+ msg) /\
    prop (deref r w') "isRevealing" = Bool false.
Proof.
  intros Hq Hw Hes Ho Hok Hd Hsalt Htx Hip Htrim Hpl Hmsg params Ha Hs drop.
  set (o1 := props_assign "isRevealing" (Bool true) o).
  assert (forall k, k <> "isRevealing" -> prop (Obj o1) k = prop (Obj o) k) as Ho1 by (intros; by apply flagged_member).
  set (w1 := set_view (set_view_status "Revealing domain...") (set_object r (Obj o1) w)).
  assert (reveal_payload (Obj o1) ip = reveal_payload (Obj o) ip) as Hpay by (unfold reveal_payload; by rewrite !Ho1).
  assert (json_ok (Obj o1)) as Hok1 by (apply assign_json_ok; [done|constructor]).
  destruct (run_reveal_body_refused server n plan (Error name msg) r o1 d ip w1 l) as (body & Hbody);
    rewrite ?Hpay, ?Ho1 by done; try done; [simpl; apply lookup_insert_eq|]. rewrite Hpay in Hbody. fold params in Hbody.
  set (w2 := set_view _ w1) in Hbody. set (l2 := l ++ [plan_request params; handle_request body]) in *.
  destruct (run_on_refused server Hq reveal_refused n es r o1 d name msg w2 l2)
    as (w3 & Href & Hw3 & Hr3 & Hst3 & Hes3 & Hsh3); [done|simpl; apply lookup_insert_eq|by rewrite Ho1|done|done|].
  destruct (reset_flag server "isRevealing" r o1 n (without d es) w3 l2)
    as (w4 & Hflag & Hw4 & Hs4 & Hst4 & Hf4 & Hsh4); [done|done|done|].
  assert (run server (finally (try_catch (reveal_body r) (on_refused reveal_refused r))
    (assign r "isRevealing" (Bool false))) w1 l = (Normal drop, w4, l2)) as Hfin
    by (by rewrite run_finally, run_try, Hbody, Href, Hflag).
  assert (run server (handleFirstUpdate r) w l =
    run server (if drop then fetchDomains else mret tt) w4 l2) as Hrun.
  { rewrite (run_reveal_start server n r o ip) by done. fold o1 w1. by rewrite run_bind, Hfin. }
  rewrite Hrun. fold drop in Hes3, Hsh3. destruct drop.
  - destruct (run_fetchDomains server w4 l2) as (u & Hfetch & _ & Hmy & Hhp & _ & _ & Hsu).
    destruct (Hsh3 eq_refl) as [Hsh Hnin]. exists (set_view (fun _ => u) w4), body. split_and!.
    + rewrite Hfetch. unfold l2. by rewrite <- (assoc_L app).
    + cbn. by rewrite Hs4.
    + intros _. specialize (Hsh4 Hnin Hsh). unfold shows, deref in *. cbn. by rewrite Hmy, Hhp.
    + cbn. by rewrite Hsu, Hst4, Hst3.
    + unfold deref in *. cbn. by rewrite Hhp.
  - exists w4, body. split_and!; [|by rewrite Hs4|done|by rewrite Hst4|done]. rewrite run_ret. unfold l2. by rewrite app_nil_r.
Qed.

Import Reference DefaultConfig WalletFlow.Page.

(** A backend that refuses every message, and has no names. *)
Definition refusing (l : list request) (r : request) : fetch_result :=
  if includes (url r) "spendplan" then backend l r
  else if includes (url r) "dns" then Resp (Response 200 "OK" (Normal "[]"))
  else Resp (Response 400 "Bad Request" (Normal ("{" +:+ quoted "message" "Domain already exists" +:+ "}"))).

Lemma handleFirstUpdate_refused_witness :
  exists w' body, run refusing (handleFirstUpdate 0) (listed "pending") [] = (Normal tt, w',
      [] ++ [plan_request (key_params "NameFirstUpdate" 0 (reveal_payload (Obj (shown_object "pending")) " 10.0.0.1"));
             handle_request body] ++ [GET (getBaseURL +:+ "/namecoin/dns")]) /\
    entries (storage w') (pending_key (Str (wallet_id (keyPair 0).1)))
      = Some (without "example.com" [stored "pending"]) /\
    view_status (view w') = "Error: Domain already exists".
Proof.
  destruct (handleFirstUpdate_refused refusing 0 [stored "pending"] Demo.plan 0 (shown_object "pending")
    "example.com" " 10.0.0.1" "Error" "Domain already exists" (listed "pending") [])
    as (w' & body & Hrun & Hes & _ & Hst & _);
    [reflexivity|reflexivity|apply (listed_ready "pending"); left; reflexivity|apply lookup_singleton_eq
    |apply shown_ok; constructor|reflexivity|constructor|constructor|reflexivity|discriminate|exact Demo.plan_good
    |discriminate|vm_compute; reflexivity|intros body; vm_compute; reflexivity|].
  exists w', body. exact (conj Hrun (conj Hes Hst)).
Defined.
