(* ===== verification/WalletMount.v ===== *)
(** * Loading the wallet's page

    What the hook [onMounted] restores: the wallet and the entries of the last visit,
    and the identifier the backend mines for.  The watcher of the wallet's identifier,
    which the hook sets off, is not part of it. *)

From S2P Require Import Prelude JsValue Json JsonFacts JsonCanon Sha256 Async Platform World Hash.
From S2P Require Import Storage DomainStorage TransactionService CryptoService WalletService.
From S2P Require Import ApiService UseWallet UseTransaction TransactionFlow WalletView WalletFlow.

Section mount.
Context `{Browser} `{NaClLaws} `{Config} (server : list request -> request -> fetch_result).

Definition miner_get : request := GET (getBaseURL +:+ "/namecoin/minerid").
Definition miner_post (id : string) : request :=
  POST (getBaseURL +:+ "/namecoin/minerid") (stringify (obj [("minerID", Str id)])).
Definition dns_get : request := GET (getBaseURL +:+ "/namecoin/dns").

(** The identifier the backend mines for, as it reports it. *)
Definition reported (l : list request) : outcome value :=
  data ← plain_answer (server l miner_get); get data "minerID".

(** The refs of the connection after the first request. *)
Definition connected (l : list request) (v : view_refs) : view_refs :=
  match reported l with
  | Normal minerID => set_backendMinerID minerID (set_connection true "Connected" v)
  | Throw _ => set_view_status "Failed to connect to backend. Please ensure the backend is running."
                 (set_connection false "Connection Failed" v)
  end.

(** Synchronising the identifier: no request when the backend has it already. *)
Lemma run_syncMinerID n w l :
  has_wallet n w ->
  let id := wallet_id (keyPair n).1 in
  let same := strict_eq (backendMinerID (view w)) (Str id) in
  exists u, run server syncMinerID w l
    = (Normal tt, set_view (fun _ => u) w, l ++ (if same then [] else [miner_post id])) /\
    isConnected u = isConnected (view w) /\
    (is_normal (answer (server l (miner_post id))) = true -> strict_eq (backendMinerID u) (Str id) = true).
Proof.
  intros Hw id same. unfold syncMinerID. rewrite run_bind, run_gets, run_bind, run_gets.
  rewrite (key_wallet_id n w Hw), wallet_id_truthy. cbn [negb]. fold id. fold same.
  destruct same eqn:E; [exists (view w); rewrite app_nil_r; by destruct w|].
  rewrite run_try, run_bind, run_await, run_setMinerID. fold (miner_post id).
  destruct (answer _) as [x|e].
  - rewrite run_modify. eexists. split_and!; [done..|]. intros _. cbn. apply String.eqb_refl.
  - rewrite run_status. by eexists.
Qed.

(** The first request of the page. *)
Lemma run_connection st m l :
  run server (try_catch
      (minerID ← await getMinerID;
       _ ← modify (set_view (set_connection true "Connected"));
       modify (set_view (set_backendMinerID minerID)))
      (fun _ =>
         _ ← modify (set_view (set_connection false "Connection Failed"));
         set_status_ref "Failed to connect to backend. Please ensure the backend is running."))
    (page_load st m) l
  = (Normal tt, set_view (connected l) (page_load st m), l ++ [miner_get]).
Proof.
  rewrite run_try, run_bind, run_await, run_getMinerID. fold miner_get. fold (reported l). unfold connected.
  destruct (reported l); by rewrite run_bind, !run_modify.
Qed.
End mount.

(** ** Properties *)

(** C35: the mount hook of the page, run to its end without other handlers between
    its steps, restores from the data of an earlier visit the wallet and the list of
    its entries, whatever the server answers; the hook itself asks the backend for its
    identifier, tells it the wallet's one when it reports another, and asks for the
    registered names.  (The watcher of the wallet's identifier is a handler of its own,
    which may tell the backend the identifier as well.) *)
Theorem mounted_restores `{Browser} `{NaClLaws} `{Config} server n t es st m l :
  stored st StorageKeys.WALLET Null =
    saved_wallet (Str (bytesToHex (keyPair n).1)) (Str (bytesToHex (keyPair n).2)) t ->
  entries st (pending_key (Str (wallet_id (keyPair n).1))) = Some es ->
  let id := wallet_id (keyPair n).1 in
  let told := match reported server l with Normal v => strict_eq v (Str id) | Throw _ => false end in
  exists w', run server mounted (page_load st m) l
      = (Normal tt, w', l ++ [miner_get] ++ (if told then [] else [miner_post id]) ++ [dns_get]) /\
    wallet w' = key_wallet n /\ storage w' = st /\ shows w' es /\
    isConnected (view w') = is_normal (reported server l) /\ domainsLoaded (view w') = true.
Proof.
  intros Hst Hes id told. set (w1 := set_view (connected server l) (page_load st m)).
  set (w2 := set_wallet (key_wallet n) w1).
  destruct (run_syncMinerID server n w2 (l ++ [miner_get]) eq_refl) as (u & Hsync & Hconn & _).
  set (w3 := set_view (fun _ => u) w2) in Hsync.
  assert (strict_eq (backendMinerID (view w2)) (Str id) = told) as Htold.
  { unfold told, w2, w1. cbn [view set_wallet set_view]. unfold connected.
    destruct (reported server l); [done|]. cbn. pose proof (wallet_id_truthy (keyPair n).1) as Ht. fold id in Ht.
    by destruct id. }
  fold id in Hsync. rewrite Htold in Hsync.
  set (l3 := (l ++ [miner_get]) ++ (if told then [] else [miner_post id])) in *.
  destruct (run_fetchDomains server w3 l3) as (u4 & Hfetch & Hdl & _ & _ & _ & Hc4 & _).
  set (w4 := set_view (fun _ => u4) w3) in Hfetch. fold dns_get in Hfetch.
  destruct (run_loadMyDomains server w4 (l3 ++ [dns_get]) es) as (u5 & Hload & Hshow & _ & _ & _ & (_ & Hc5 & Hd5) & _);
    [apply wallet_id_truthy|exact Hes|].
  exists (set_view (fun _ => u5) w4). split_and!; [|done|done|exact Hshow| |].
  - unfold mounted. rewrite run_bind, (run_connection server st m l). fold w1.
    rewrite run_bind, run_await, (run_loadWallet_saved server n t w1 _ Hst). fold w2. cbn [negb].
    rewrite run_bind, run_ret, run_bind, run_await, Hsync, run_bind, run_await, Hfetch, Hload.
    unfold l3. by rewrite <- !(assoc_L app).
  - cbn. rewrite Hc5. unfold w4, w3 in *. cbn in *. rewrite Hc4, Hconn. unfold connected. by destruct (reported server l).
  - cbn. by rewrite Hd5.
Qed.

Import Reference DefaultConfig WalletFlow.Page.

(** The data of an earlier visit: a wallet, and a commitment that is pending. *)
Definition visited : gmap string string :=
  <[StorageKeys.WALLET := to_string (stringify
      (saved_wallet (Str (bytesToHex (keyPair 0).1)) (Str (bytesToHex (keyPair 0).2)) (now 0)))]>
    {[ pending_key (Str (wallet_id (keyPair 0).1)) := to_string (stringify (Arr [WalletFlow.Page.stored "pending"])) ]}.

Lemma mounted_restores_witness :
  exists w', run offline mounted (page_load visited 7) []
      = (Normal tt, w', [] ++ [miner_get] ++ [miner_post (wallet_id (keyPair 0).1)] ++ [dns_get]) /\
    wallet w' = key_wallet 0 /\ shows w' [WalletFlow.Page.stored "pending"].
Proof.
  destruct (mounted_restores offline 0 (now 0) [WalletFlow.Page.stored "pending"] visited 7 [])
    as (w' & Hrun & Hw & _ & Hs & _); [vm_compute; reflexivity|vm_compute; reflexivity|].
  exists w'. exact (conj Hrun (conj Hw Hs)).
Defined.
