(* ===== verification/Component.v ===== *)
(** * Vue components

    What a template renders is a tree of elements ([node]), whose bound
    attributes and interpolations hold the JavaScript values of their
    expressions and whose listeners hold the component's actions.  [offered]
    lists the actions a user can take on it: a listener of a disabled control is
    never called, and a form is submitted by an enabled submit button only.

    A component has a state of its own beside the state the scripts share:
    [embed] lets a script run on the pair. *)

From S2P Require Import Prelude JsValue Json Async Platform World.

(** ** Rendered trees *)

Inductive attr (A : Type) :=
  | Static (k v : string)               (* k="v" *)
  | Bound (k : string) (v : value)      (* :k="v" *)
  | Model (v : value) (f : value -> A)  (* v-model: the value shown, the update *)
  | On (event : string) (a : A).        (* @event="a" *)
Arguments Static {A}.
Arguments Bound {A}.
Arguments Model {A}.
Arguments On {A}.

Inductive node (A : Type) :=
  | El (tag : string) (attrs : list (attr A)) (children : list (node A))
  | Text (s : string)
  | Show (v : value).                   (* {{ v }} *)
Arguments El {A}.
Arguments Text {A}.
Arguments Show {A}.

Section trees.
Context {A : Type}.
Implicit Types n : node A.

(** The induction principle of the nested type. *)
Section node_ind.
Context (P : node A -> Prop).
Hypothesis (HE : forall tag attrs l, Forall P l -> P (El tag attrs l))
  (HT : forall s, P (Text s)) (HS : forall v, P (Show v)).

Fixpoint node_nested_ind n : P n :=
  match n with
  | El tag attrs l => HE tag attrs l ((fix go (l : list (node A)) : Forall P l :=
      match l with
      | [] => Forall_nil_2 _
      | x :: l' => Forall_cons_2 _ _ _ (node_nested_ind x) (go l')
      end) l)
  | Text s => HT s
  | Show v => HS v
  end.
End node_ind.

(** Whether the element is disabled by its bound attribute. *)
Definition is_disabled (attrs : list (attr A)) : bool :=
  existsb (fun a => match a with
                    | Bound k v => String.eqb k "disabled" && truthy v
                    | _ => false
                    end) attrs.

Definition has_static (k v : string) (attrs : list (attr A)) : bool :=
  existsb (fun a => match a with
                    | Static k' v' => String.eqb k k' && String.eqb v v'
                    | _ => false
                    end) attrs.

Definition listeners (attrs : list (attr A)) : list A :=
  omap (fun a => match a with On _ x => Some x | _ => None end) attrs.

(** An enabled submit button in the tree. *)
Fixpoint submits n : bool :=
  match n with
  | El tag attrs l =>
      (String.eqb tag "button" && has_static "type" "submit" attrs && negb (is_disabled attrs))
      || existsb submits l
  | _ => false
  end.

Fixpoint offered n : list A :=
  match n with
  | El tag attrs l =>
      (if (if String.eqb tag "form" then existsb submits l else negb (is_disabled attrs))
       then listeners attrs else []) ++ flat_map offered l
  | _ => []
  end.

(** The enabled fields of the tree: the action of an input with a given value. *)
Fixpoint editable n : list (value -> A) :=
  match n with
  | El _ attrs l =>
      (if is_disabled attrs then []
       else omap (fun a => match a with Model _ f => Some f | _ => None end) attrs) ++ flat_map editable l
  | _ => []
  end.

(** The values interpolated in the tree. *)
Fixpoint shown_values n : list value :=
  match n with
  | El _ _ l => flat_map shown_values l
  | Text _ => []
  | Show v => [v]
  end.

(** [v-if] *)
Definition v_if (b : bool) (l : list (node A)) : list (node A) := if b then l else [].
End trees.

(** ** Scripts in a component with a state of its own *)

Fixpoint embed {S L A} (t : task S A) : task (S * L) A :=
  match t with
  | Ret a => Ret a
  | Raise e => Raise e
  | Get k => Get (fun s => embed (k s.1))
  | Put s k => Get (fun s' => Put (s, s'.2) (embed k))
  | Await k => Await (embed k)
  | Fetch r k => Fetch r (fun x => embed (k x))
  end.

(** Reading and writing the state of the component. *)
Definition local {S L A} (f : L -> A) : task (S * L) A := gets (fun s => f s.2).
Definition update {S L} (f : L -> L) : task (S * L) unit := modify (fun s => (s.1, f s.2)).

Section embed.
Context {S L : Type} (server : list request -> request -> fetch_result).

(** An embedded script leaves the state of the component alone. *)
Lemma run_embed {A} (t : task S A) (s : S) (c : L) l :
  run server (embed t) (s, c) l
  = let '(o, s', l') := run server t s l in (o, (s', c), l').
Proof. revert s l. induction t; intros; simpl; auto. Qed.

Lemma run_local {A} (f : L -> A) (s : S * L) l : run server (local f) s l = (Normal (f s.2), s, l).
Proof. done. Qed.

Lemma run_update (f : L -> L) (s : S) c l : run server (update f) (s, c) l = (Normal tt, (s, f c), l).
Proof. done. Qed.
End embed.
