(* ===== verification/DomainCreator.v ===== *)
(** * The component [frontend/src/components/DomainCreator.vue]

    The form that commits to a name: the refs of the component, its watcher and
    its handlers, and the template.  The watcher keeps the commitment shown in
    step with the name typed, so the form can be submitted exactly for a valid
    name; a submission never produces a transaction, because the parameters
    carry no public key. *)

From S2P Require Import Prelude JsValue Json JsonFacts JsonCanon Sha256 Async Platform World Hash.
From S2P Require Import Validation TransactionService CryptoService ApiService UseTransaction Component.

(** The refs of the component, the events it emitted and the alerts it showed. *)
Record creator := Creator {
  name : string;          (* domainName *)
  salt : string;
  fee : value;
  hashedValue : string;
  error : string;
  emitted : list value;   (* transaction-created *)
  alerts : list string
}.

Definition init_creator : creator := Creator "" "" (Num (int 1)) "" "" [] [].

Definition set_name (s : string) (c : creator) : creator :=
  Creator s (salt c) (fee c) (hashedValue c) (error c) (emitted c) (alerts c).
Definition set_salt (s : string) (c : creator) : creator :=
  Creator (name c) s (fee c) (hashedValue c) (error c) (emitted c) (alerts c).
Definition set_fee (v : value) (c : creator) : creator :=
  Creator (name c) (salt c) v (hashedValue c) (error c) (emitted c) (alerts c).
Definition set_hash (s : string) (c : creator) : creator :=
  Creator (name c) (salt c) (fee c) s (error c) (emitted c) (alerts c).
Definition set_message (s : string) (c : creator) : creator :=
  Creator (name c) (salt c) (fee c) (hashedValue c) s (emitted c) (alerts c).
Definition emit (v : value) (c : creator) : creator :=
  Creator (name c) (salt c) (fee c) (hashedValue c) (error c) (emitted c ++ [v]) (alerts c).
Definition alert (s : string) (c : creator) : creator :=
  Creator (name c) (salt c) (fee c) (hashedValue c) (error c) (emitted c) (alerts c ++ [s]).

Abbreviation page := (task (world * creator)).

(** [canSubmit], as a condition. *)
Definition canSubmit (c : creator) : bool :=
  truthy (Str (name c)) && truthy (Str (salt c)) && truthy (Str (hashedValue c))
  && negb (truthy (Str (error c))).

(** The callback of [watch([domainName, salt], ...)]. *)
Definition watcher (newDomain newSalt : string) : page unit :=
  if truthy (Str newDomain) && truthy (Str newSalt) then
    if negb (isValidDomain (Str newDomain)) then
      _ ← update (set_message "Invalid domain format");
      update (set_hash "")
    else
      _ ← update (set_message "");
      try_catch
        (h ← await (embed (hashDomainWithSalt (Str newDomain) (Str newSalt)));
         update (set_hash h))
        (fun _ => update (set_hash ""))
  else update (set_hash "").

(** A change of the watched refs: the callback runs in the next flush, on the
    values they have then. *)
Definition changed (f : creator -> creator) : page unit :=
  _ ← update f;
  _ ← await (mret tt);
  newDomain ← local name;
  newSalt ← local salt;
  watcher newDomain newSalt.

Section creator.
Context `{Browser} `{Canonicalizer} `{NaCl} `{Config}.

(** [regenerateSalt()], also called when the component is mounted. *)
Definition regenerateSalt : page unit :=
  s ← embed generateSalt;
  changed (set_salt s).

(** The parameters [handleSubmit] passes to [createTransaction]. *)
Definition submit_params (walletId : value) (c : creator) : value :=
  obj [("type", Str "first_update"); ("walletID", walletId); ("fee", fee c);
       ("payload", obj [("hash", Str (hashedValue c)); ("domain", Str (name c)); ("salt", Str (salt c))])].

(** [handleSubmit()]; [walletId] is the component's property. *)
Definition handleSubmit (walletId : value) : page unit :=
  c ← local id;
  if negb (canSubmit c) then mret tt
  else
    try_catch
      (tx ← await (embed (createTransaction (submit_params walletId c)));
       c ← local id;
       update (emit (obj [("transaction", tx);
         ("metadata", obj [("domain", Str (name c)); ("salt", Str (salt c)); ("hash", Str (hashedValue c))])])))
      (fun err => update (alert ("Failed to create transaction: " +:+ to_string (err_message err)))).
End creator.

(** ** The template *)

Inductive action :=
  | TypeName (v : value)
  | RegenerateSalt
  | TypeFee (v : value)
  | Submit.

Definition field {A} (l : list (node A)) : node A := El "div" [Static "class" "field"] l.

(** Lines 6-16. *)
Definition name_field (c : creator) : node action :=
  field
    ([El "label" [Static "for" "domain"] [Text "Domain Name:"];
      El "input" [Static "id" "domain"; Model (Str (name c)) TypeName; Static "type" "text";
                  Static "placeholder" "example.com"; Static "required" ""] []]
     ++ v_if (truthy (Str (error c))) [El "span" [Static "class" "error"] [Show (Str (error c))]]).

(** Lines 18-32. *)
Definition salt_field (c : creator) : node action :=
  field
    [El "label" [] [Text "Salt (auto-generated):"];
     El "div" [Static "class" "value-box"]
       [Show (Str (salt c));
        El "button" [Static "type" "button"; On "click" RegenerateSalt; Static "class" "small-btn"] [Text "🔄"]];
     El "p" [Static "class" "info"] [Text "⚠️ Save this salt! You'll need it later."]].

Definition hash_field (c : creator) : node action :=
  field
    [El "label" [] [Text "Hash (domain + salt):"];
     El "div" [Static "class" "value-box hash"]
       [Show (js_or (Str (hashedValue c)) (Str "Calculating..."))]].

(** Lines 34-43. *)
Definition fee_field (c : creator) : node action :=
  field
    [El "label" [Static "for" "fee"] [Text "Fee:"];
     El "input" [Static "id" "fee"; Model (fee c) TypeFee; Static "type" "number"; Static "min" "1";
                 Static "required" ""] []].

Definition render (c : creator) : node action :=
  El "div" [Static "class" "domain-creator"]
    [El "h2" [] [Text "Create Domain"];
     El "form" [On "submit" Submit]
       [name_field c; salt_field c; hash_field c; fee_field c;
        El "button" [Static "type" "submit"; Static "class" "btn-primary";
                     Bound "disabled" (Bool (negb (canSubmit c)))] [Text "Create Transaction"]]].

(** The listeners of the template; an input writes the ref of its [v-model]. *)
Definition dispatch `{Browser} `{Canonicalizer} `{NaCl} `{Config} (walletId : value) (a : action) : page unit :=
  match a with
  | TypeName v => changed (set_name (to_string v))
  | RegenerateSalt => regenerateSalt
  | TypeFee v => update (set_fee v)
  | Submit => handleSubmit walletId
  end.

(** ** The commitment follows the name *)

Section run_creator.
Context (server : list request -> request -> fetch_result).

Definition commitment (c : creator) : string :=
  sha256_hex (domain_preimage (Str (name c)) (Str (salt c))).

(** The callback executed alone. *)
Lemma run_watcher d s w c l :
  run server (watcher d s) (w, c) l
  = (Normal tt,
     (w, if truthy (Str d) && truthy (Str s) then
           if isValidDomain (Str d)
           then set_hash (sha256_hex (domain_preimage (Str d) (Str s))) (set_message "" c)
           else set_hash "" (set_message "Invalid domain format" c)
         else set_hash "" c), l).
Proof.
  unfold watcher. destruct (truthy (Str d) && truthy (Str s)); [|done].
  destruct (isValidDomain (Str d)); cbn [negb].
  - rewrite run_bind, run_update, run_try, run_bind, run_await, run_embed, run_hashDomainWithSalt. done.
  - by rewrite run_bind, !run_update.
Qed.

Lemma run_changed f w c l :
  run server (changed f) (w, c) l = run server (watcher (name (f c)) (salt (f c))) (w, f c) l.
Proof. done. Qed.
End run_creator.

(** What the form offers. *)
Lemma offered_creator c :
  offered (render c) = (if canSubmit c then [Submit] else []) ++ [RegenerateSalt].
Proof.
  unfold render, name_field. generalize (canSubmit c).
  intros []; by destruct (truthy (Str (error c))).
Qed.

Section submission.
Context `{Browser} `{Canonicalizer} `{NaCl} `{Config}.
Context (server : list request -> request -> fetch_result).

(** Parameters without a public key are refused, at the latest by validation. *)
Lemma createTransaction_no_pk o w l :
  truthy (prop (Obj o) "pk") = false ->
  exists e w' l', run server (createTransaction (Obj o)) w l = (Throw e, w', l') /\
    current w' = current w.
Proof.
  intros Hpk. rewrite run_createTransaction. cbv zeta.
  match goal with |- context [run server (prepare (Obj o)) ?w1 l] =>
    destruct (run server (prepare (Obj o)) w1 l) as [[[c|e] w2] l2] eqn:E end.
  - pose proof (prepare_valid _ _ _ _ _ _ _ E) as (_ & _ & _ & _ & _ & Hc & _).
    rewrite (prepare_member _ "pk" _ _ _ _ _ _ ltac:(set_solver) E) in Hc.
    change (prop (obj _) "pk") with (prop (Obj o) "pk") in Hc. by rewrite Hpk in Hc.
  - by eexists _, _, _.
Qed.
End submission.

(** ** Properties *)

(** After a name was typed, the form can be submitted exactly when the name is
    valid, and then the commitment shown is the hash of this name and the salt. *)
Theorem typed_name_submits `{Browser} `{Canonicalizer} `{NaCl} `{Config} server walletId s w c l :
  salt c <> "" ->
  exists c', run server (dispatch walletId (TypeName (Str s))) (w, c) l = (Normal tt, (w, c'), l) /\
    name c' = s /\ salt c' = salt c /\
    (Submit ∈ offered (render c') <-> isValidDomain (Str s) = true) /\
    (isValidDomain (Str s) = true -> hashedValue c' = commitment c').
Proof.
  intros Hs. assert (truthy (Str (salt c)) = true) as Ht by (cbn; by destruct (String.eqb_spec (salt c) "")).
  eexists. split; [cbn [dispatch to_string]; rewrite run_changed; apply run_watcher|].
  change (name (set_name s c)) with s. change (salt (set_name s c)) with (salt c). rewrite Ht, andb_true_r.
  rewrite offered_creator. destruct (isValidDomain (Str s)) eqn:Hv.
  - destruct s as [|a s]; [done|]. change (truthy (Str (String a s))) with true. cbv iota.
    set (c' := set_hash _ _). assert (canSubmit c' = true) as ->.
    { unfold canSubmit, c'. cbn [name salt hashedValue error set_hash set_message set_name].
      by rewrite Ht, sha256_hex_nonempty. }
    split_and!; [done..| |done]. split; [done|intros _; left].
  - split_and!; try (by destruct (truthy (Str s))). split; [|done]. intros Hin. exfalso. revert Hin.
    assert (forall d, hashedValue d = "" -> canSubmit d = false) as Hd.
    { intros d Hd. unfold canSubmit. rewrite Hd. cbn. by rewrite andb_false_r. }
    rewrite Hd by (by destruct (truthy (Str s))). set_solver.
Qed.

(** a submission never creates a transaction: whatever the state, the wallet
    and the server, [handleSubmit] completes, nothing is emitted, the current
    transaction stays as it was, and a submission that was possible ends with an
    alert. *)
Theorem handleSubmit_never_emits `{Browser} `{Canonicalizer} `{NaCl} `{Config} server walletId w c l :
  exists w' c' l', run server (handleSubmit walletId) (w, c) l = (Normal tt, (w', c'), l') /\
    emitted c' = emitted c /\ current w' = current w /\
    if canSubmit c then exists m, alerts c' = alerts c ++ ["Failed to create transaction: " +:+ m]
    else c' = c /\ l' = l.
Proof.
  unfold handleSubmit. rewrite run_bind, run_local. cbn [snd id]. destruct (canSubmit c); cbn [negb].
  - rewrite run_try, run_bind, run_await, run_embed.
    destruct (createTransaction_no_pk server _ w l
      (eq_refl : truthy (prop (submit_params walletId c) "pk") = false)) as (e & w' & l' & Hr & Hc).
    unfold submit_params at 1. unfold obj at 1. rewrite Hr. exists w', (alert ("Failed to create transaction: " +:+ to_string (err_message e)) c), l'.
    split_and!; try done. by eexists.
  - by exists w, c, l.
Qed.

Import Reference.
Import DefaultConfig.

Lemma typed_name_submits_witness :
  exists c', run offline (dispatch (Str "id") (TypeName (Str "example.com")))
      (page_load ∅ 0, set_salt "00ff" init_creator) [] = (Normal tt, (page_load ∅ 0, c'), []) /\
    Submit ∈ offered (render c') /\ hashedValue c' = commitment c'.
Proof.
  destruct (typed_name_submits offline (Str "id") "example.com" (page_load ∅ 0)
    (set_salt "00ff" init_creator) []) as (c' & Hrun & _ & _ & Hs & Hh); [discriminate|].
  exists c'. exact (conj Hrun (conj (proj2 Hs eq_refl) (Hh eq_refl))).
Defined.

(** Two names typed in a row: when the digest of the first one completes last, the
    form can be submitted with the commitment of a name that is no longer shown. *)
Definition stale_run : list (page unit) * (world * creator) * list request :=
  interleave offline ([0; 0] ++ repeat 1 8 ++ repeat 0 8)
    [changed (set_name "a.com"); changed (set_name "b.com")]
    (page_load ∅ 0, set_salt "00ff" init_creator) [].

Definition finished {S A} (t : task S A) : bool := match t with Ret _ => true | _ => false end.

Example stale_commitment :
  let '(ts, (w, c), _) := stale_run in
  forallb finished ts = true /\ canSubmit c = true /\ name c = "b.com" /\
  hashedValue c = sha256_hex (domain_preimage (Str "a.com") (Str (salt c))) /\
  String.eqb (hashedValue c) (commitment c) = false.
Proof. vm_compute. by split_and!. Qed.
