(* ===== verification/WalletManager.v ===== *)
(** * The component [frontend/src/components/WalletManager.vue]

    Creation, import and export of the wallet.  Every handler completes and
    leaves the controls enabled; the keys are shown once the wallet exists, and
    what is shown is what a later visit loads. *)

From S2P Require Import Prelude JsValue Json JsonFacts JsonCanon Sha256 Async Platform World Hash.
From S2P Require Import Storage WalletService ApiService UseTransaction UseWallet Component.

Record manager := Manager {
  loading : bool;
  showKeys : bool;
  loaded_events : nat;                       (* wallet-loaded *)
  downloads : list WalletService.download;
  alerts : list string
}.

Definition init_manager : manager := Manager false false 0 [] [].

Definition set_loading (b : bool) (m : manager) : manager :=
  Manager b (showKeys m) (loaded_events m) (downloads m) (alerts m).
Definition set_showKeys (b : bool) (m : manager) : manager :=
  Manager (loading m) b (loaded_events m) (downloads m) (alerts m).
Definition emit_loaded (m : manager) : manager :=
  Manager (loading m) (showKeys m) (S (loaded_events m)) (downloads m) (alerts m).
Definition add_download (d : WalletService.download) (m : manager) : manager :=
  Manager (loading m) (showKeys m) (loaded_events m) (downloads m ++ [d]) (alerts m).
Definition add_alert (s : string) (m : manager) : manager :=
  Manager (loading m) (showKeys m) (loaded_events m) (downloads m) (alerts m ++ [s]).

Abbreviation page := (task (world * manager)).

Section manager.
Context `{Browser} `{NaCl}.

(** [createNewWallet()] *)
Definition createNewWallet : page unit :=
  _ ← update (set_loading true);
  finally
    (try_catch
      (_ ← await (embed createWallet); update (set_showKeys true))
      (fun error => update (add_alert ("Failed to create wallet: " +:+ to_string (err_message error)))))
    (update (set_loading false)).

(** [handleImport(event)]; the argument is [event.target.files[0]]. *)
Definition handleImport (file : option file_read) : page unit :=
  match file with
  | None => mret tt
  | Some file =>
      _ ← update (set_loading true);
      finally
        (try_catch
          (_ ← await (embed (importWallet file)); update emit_loaded)
          (fun error => update (add_alert ("Failed to import wallet: " +:+ to_string (err_message error)))))
        (update (set_loading false))
  end.

(** [download()] *)
Definition download : page unit := d ← embed exportWallet; update (add_download d).

(** [continueToApp()] *)
Definition continueToApp : page unit := update emit_loaded.
End manager.

(** ** The template *)

Inductive action :=
  | CreateNewWallet
  | HandleImport
  | Download
  | ContinueToApp.

(** Lines 5-22. *)
Definition options_panel (m : manager) : node action :=
  El "div" [Static "class" "options"]
    [El "button" [On "click" CreateNewWallet; Bound "disabled" (Bool (loading m)); Static "class" "btn-primary"]
       [Show (Str (if loading m then "Creating..." else "Create New Wallet"))];
     El "p" [Static "class" "separator"] [Text "or"];
     El "div" [Static "class" "import-section"]
       [El "label" [Static "for" "wallet-file"] [Text "Import Wallet:"];
        El "input" [Static "id" "wallet-file"; Static "type" "file"; On "change" HandleImport;
                    Static "accept" ".json"; Bound "disabled" (Bool (loading m))] []]].

(** Lines 24-42; reading the key of a wallet that is [null] would throw. *)
Definition keys_panel (w : world) : outcome (node action) :=
  privateKey ← get (wallet w) "privateKey";
  Normal (El "div" [Static "class" "wallet-info"]
    [El "div" [Static "class" "success"] [Text "✅ Wallet Created!"];
     El "div" [Static "class" "field"]
       [El "label" [] [Text "Wallet ID:"];
        El "div" [Static "class" "value"] [Show (walletID w)]];
     El "div" [Static "class" "field warning"]
       [El "label" [] [Text "⚠️ Private Key (SAVE THIS!):"];
        El "div" [Static "class" "value"] [Show privateKey];
        El "p" [Static "class" "warning-text"] [Text "Store this securely. You cannot recover it!"]];
     El "div" [Static "class" "actions"]
       [El "button" [On "click" Download; Static "class" "btn-secondary"] [Text "💾 Download"];
        El "button" [On "click" ContinueToApp; Static "class" "btn-primary"] [Text "Continue →"]]]).

Definition render (w : world) (m : manager) : outcome (node action) :=
  panel ← (if negb (showKeys m) then Normal (options_panel m) else keys_panel w);
  Normal (El "div" [Static "class" "wallet-manager"] [El "h2" [] [Text "Wallet Setup"]; panel]).

(** The listeners of the template; [file] is the file selected, if any. *)
Definition dispatch `{Browser} `{NaCl} (file : option file_read) (a : action) : page unit :=
  match a with
  | CreateNewWallet => createNewWallet
  | HandleImport => handleImport file
  | Download => download
  | ContinueToApp => continueToApp
  end.

(** ** Execution *)

Section run_manager.
Context `{Browser} `{NaCl} (server : list request -> request -> fetch_result).

(** The form both asynchronous handlers have. *)
Lemma run_loading {A} (t : script A) (f : manager -> manager) msg w m l :
  (forall b m', set_loading b (f m') = f (set_loading b m')) ->
  run server (_ ← update (set_loading true);
    finally
      (try_catch (_ ← await (embed t); update f)
         (fun error => update (add_alert (msg +:+ to_string (err_message error)))))
      (update (set_loading false))) (w, m) l
  = let '(o, w', l') := run server t w l in
    (Normal tt,
     (w', set_loading false
        (match o with
         | Normal _ => f m
         | Throw error => add_alert (msg +:+ to_string (err_message error)) m
         end)), l').
Proof.
  intros Hf. rewrite run_bind, run_update, run_finally, run_try, run_bind, run_await, run_embed.
  destruct (run server t w l) as [[[a|e] w'] l']; rewrite run_update; rewrite run_update; [|done].
  by rewrite <- Hf.
Qed.

Lemma run_createNewWallet w m l :
  run server createNewWallet (w, m) l
  = let '(o, w', l') := run server createWallet w l in
    (Normal tt,
     (w', set_loading false
        (match o with
         | Normal _ => set_showKeys true m
         | Throw error => add_alert ("Failed to create wallet: " +:+ to_string (err_message error)) m
         end)), l').
Proof. by apply run_loading. Qed.

Lemma run_handleImport file w m l :
  run server (handleImport (Some file)) (w, m) l
  = let '(o, w', l') := run server (importWallet file) w l in
    (Normal tt,
     (w', set_loading false
        (match o with
         | Normal _ => emit_loaded m
         | Throw error => add_alert ("Failed to import wallet: " +:+ to_string (err_message error)) m
         end)), l').
Proof. by apply run_loading. Qed.
End run_manager.

(** ** Backup *)

Section backup.
Context `{Browser} `{NaClLaws} (server : list request -> request -> fetch_result).

Lemma key_wallet_ok n : json_ok (key_wallet n).
Proof. apply obj_ok. by repeat constructor. Qed.

Lemma keys_truthy n :
  truthy (prop (key_wallet n) "publicKey") = true /\ truthy (prop (key_wallet n) "privateKey") = true.
Proof.
  destruct (keyPair_sizes n) as [Hp Hs].
  change (prop (key_wallet n) "publicKey") with (Str (bytesToHex (keyPair n).1)).
  change (prop (key_wallet n) "privateKey") with (Str (bytesToHex (keyPair n).2)).
  destruct (keyPair n) as [[|p ps] [|s ss]]; cbn [fst snd length] in *; try done.
  cbn [truthy]. by rewrite !bytesToHex_nonempty.
Qed.

(** Importing a file that holds the keys of a generated wallet. *)
Lemma run_importWallet_keys n text w l :
  (forall w l, run server (importWalletFromFile (Loaded text)) w l = (Normal (key_wallet n), w, l)) ->
  exists w', run server (importWallet (Loaded text)) w l = (Normal (key_wallet n), w', l) /\
    wallet w' = key_wallet n.
Proof.
  intros Hi. unfold importWallet. rewrite run_rethrow, run_bind, run_await, Hi, run_bind, run_lift.
  change (get (key_wallet n) "publicKey") with (Normal (Str (bytesToHex (keyPair n).1))). cbv beta iota.
  change (prop (key_wallet n) "privateKey") with (Str (bytesToHex (keyPair n).2)).
  rewrite run_bind, run_await, run_derive, derive_keyPair.
  apply (run_set_and_save server _ _ (Str (wallet_id (keyPair n).1)) w l). apply derive_keyPair.
Qed.
End backup.

(** ** Properties *)

(** C37: creating a wallet in the component shows its identifier and private key;
    the file then downloaded, imported in any other browser, restores the same
    keys and identifier and announces the wallet there. *)
Theorem backup_restores `{Browser} `{NaClLaws} server w m w0 m0 l l0 :
  (forall st k x, accepts st k x = true) ->
  exists w1 m1 w2 m2 page d w3 m3,
    run server createNewWallet (w, m) l = (Normal tt, (w1, m1), l) /\
    render w1 m1 = Normal page /\
    shown_values page = [prop (wallet w1) "id"; prop (wallet w1) "privateKey"] /\
    offered page = [Download; ContinueToApp] /\
    run server download (w1, m1) l = (Normal tt, (w2, m2), l) /\ downloads m2 = downloads m ++ [d] /\
    run server (handleImport (Some (Loaded (file_text d)))) (w0, m0) l0 = (Normal tt, (w3, m3), l0) /\
    wallet w3 = wallet w1 /\ loaded_events m3 = S (loaded_events m0) /\ loading m3 = false.
Proof.
  intros Hq. destruct (run_createWallet server w l Hq) as (w1 & Hc & Hw & _ & _).
  set (n := tick w) in *. destruct (keys_truthy n) as [Hpk Hsk].
  destruct (run_import_export server (key_wallet n) w1 l (key_wallet_ok n) Hpk Hsk) as (d & He & Hi).
  destruct (run_importWallet_keys server n (file_text d) w0 l0 Hi) as (w3 & Hi3 & Hw3).
  set (m1 := set_loading false (set_showKeys true m)).
  eexists w1, m1, (next_tick w1), (add_download d m1), _, d, w3, (set_loading false (emit_loaded m0)).
  split_and!.
  - by rewrite run_createNewWallet, Hc.
  - unfold render, keys_panel. rewrite Hw. reflexivity.
  - unfold walletID. rewrite Hw. cbn. unfold js_or.
    assert (truthy (Str (wallet_id (keyPair n).1)) = true) as Ht.
    { pose proof (sha256_length (keyPair n).1) as Hl. unfold wallet_id.
      destruct (sha256_digest (keyPair n).1); [done|]. cbn [truthy]. by rewrite bytesToHex_nonempty. }
    change (default Undefined (props_get "id" _)) with (Str (wallet_id (keyPair n).1)). by rewrite Ht.
  - reflexivity.
  - unfold download. rewrite run_bind, run_embed. unfold exportWallet.
    rewrite run_bind, run_gets, Hw, He. done.
  - done.
  - by rewrite run_handleImport, Hi3.
  - by rewrite Hw3, Hw.
  - done.
  - done.
Qed.

(** Both asynchronous handlers of the component always complete, with the
    controls enabled again; a failed creation shows no keys, a failed import
    announces no wallet, and the message of the failure is shown. *)
Theorem manager_outcome `{Browser} `{NaCl} server file w m l :
  let failed m' := exists msg, alerts m' = alerts m ++ [msg] in
  (exists w' m' l', run server createNewWallet (w, m) l = (Normal tt, (w', m'), l') /\
     loading m' = false /\ loaded_events m' = loaded_events m /\
     if is_normal (run server createWallet w l).1.1
     then showKeys m' = true /\ alerts m' = alerts m else showKeys m' = showKeys m /\ failed m') /\
  (exists w' m' l', run server (handleImport (Some file)) (w, m) l = (Normal tt, (w', m'), l') /\
     loading m' = false /\ showKeys m' = showKeys m /\
     if is_normal (run server (importWallet file) w l).1.1
     then loaded_events m' = S (loaded_events m) /\ alerts m' = alerts m
     else loaded_events m' = loaded_events m /\ failed m') /\
  run server (handleImport None) (w, m) l = (Normal tt, (w, m), l).
Proof.
  intros failed. split_and!; [| |done].
  - rewrite run_createNewWallet. destruct (run server createWallet w l) as [[[v|e] w'] l'];
      eexists _, _, _; (split; [reflexivity|]); cbn; split_and!; try done; by eexists.
  - rewrite run_handleImport. destruct (run server (importWallet file) w l) as [[[v|e] w'] l'];
      eexists _, _, _; (split; [reflexivity|]); cbn; split_and!; try done; by eexists.
Qed.

Import Reference.

Lemma backup_restores_witness :
  exists w1 m1 w2 m2 d w3 m3,
    run offline createNewWallet (page_load ∅ 0, init_manager) [] = (Normal tt, (w1, m1), []) /\
    run offline download (w1, m1) [] = (Normal tt, (w2, m2), []) /\ downloads m2 = [] ++ [d] /\
    run offline (handleImport (Some (Loaded (file_text d)))) (page_load ∅ 9, init_manager) []
      = (Normal tt, (w3, m3), []) /\ wallet w3 = wallet w1.
Proof.
  destruct (backup_restores offline (page_load ∅ 0) init_manager (page_load ∅ 9) init_manager [] [])
    as (w1 & m1 & w2 & m2 & pg & d & w3 & m3 & H1 & _ & _ & _ & H2 & H3 & H4 & H5 & _); [reflexivity|].
  exists w1, m1, w2, m2, d, w3, m3. exact (conj H1 (conj H2 (conj H3 (conj H4 H5)))).
Defined.
