(* ===== verification/TransactionSigner.v ===== *)
(** * The component [frontend/src/components/TransactionSigner.vue]

    The preview of a transaction and its signature.  The template shows one panel
    per status of the transaction composable, and signing always completes.  The
    composable keeps its status when the next transaction is created, so after a
    first transaction the component offers no action on the following ones; and
    three of the fields it shows are not fields of a transaction. *)

From S2P Require Import Prelude JsValue Json JsonFacts JsonCanon Sha256 Async Platform World Hash.
From S2P Require Import TransactionService CryptoService ApiService UseTransaction TransactionFlow.
From S2P Require Import TransactionConcurrency Component.

Record signer := Signer {
  isSigning : bool;
  sent_events : list value;   (* transaction-sent *)
  cancels : nat               (* cancel *)
}.

Definition init_signer : signer := Signer false [] 0.

Definition set_isSigning (b : bool) (s : signer) : signer := Signer b (sent_events s) (cancels s).
Definition emit_sent (v : value) (s : signer) : signer :=
  Signer (isSigning s) (sent_events s ++ [v]) (cancels s).
Definition emit_cancel (s : signer) : signer := Signer (isSigning s) (sent_events s) (S (cancels s)).

Abbreviation page := (task (world * signer)).

Section signer.
Context `{Browser} `{Canonicalizer} `{NaCl} `{Config}.

(** [handleSign()]; [privateKey] is a property of the component. *)
Definition handleSign (privateKey : value) : page unit :=
  _ ← update (set_isSigning true);
  finally
    (try_catch
      (result ← await (embed (signAndSend privateKey)); update (emit_sent result))
      (fun _ => mret tt))
    (update (set_isSigning false)).

(** [handleCancel()] *)
Definition handleCancel : page unit := update emit_cancel.
End signer.

(** ** The template *)

Inductive action := HandleSign | HandleCancel.

(** A row of the details. *)
Definition detail (label : string) (cls : string) (v : value) : node action :=
  El "div" [Static "class" "detail"]
    [El "span" [Static "class" "label"] [Text label]; El "span" [Static "class" cls] [Show v]].

(** Lines 5-26. *)
Definition details (transaction : value) : outcome (node action) :=
  type ← get transaction "type";
  Normal (El "div" [Static "class" "tx-details"]
    [detail "Type:" "value" type;
     detail "Source:" "value mono" (prop transaction "source");
     detail "Fee:" "value" (prop transaction "fee");
     detail "Nonce:" "value" (prop transaction "nonce");
     detail "Transaction ID:" "value mono" (prop transaction "transactionID")]).

(** Lines 28-49: each panel with its own condition on the status. *)
Definition panels (w : world) (s : signer) : list (node action) :=
  let at_ x := String.eqb (tx_status (tx w)) x in
  v_if (at_ "idle")
    [El "div" [Static "class" "actions"]
       [El "button" [On "click" HandleSign; Static "class" "btn-primary";
                     Bound "disabled" (Bool (isSigning s))]
          [Show (Str (if isSigning s then "Signing..." else "Sign & Send"))];
        El "button" [On "click" HandleCancel; Static "class" "btn-cancel"] [Text "Cancel"]]] ++
  v_if (at_ "signing")
    [El "div" [Static "class" "status signing"] [Text "🔐 Signing transaction..."]] ++
  v_if (at_ "sending")
    [El "div" [Static "class" "status sending"] [Text "📤 Sending to network..."]] ++
  v_if (at_ "success")
    [El "div" [Static "class" "status success"] [Text "✅ Transaction sent successfully!"]] ++
  v_if (at_ "error")
    [El "div" [Static "class" "status error"] [Text "❌ Error: "; Show (tx_error (tx w))]].

Definition render (transaction : value) (w : world) (s : signer) : outcome (node action) :=
  d ← details transaction;
  Normal (El "div" [Static "class" "transaction-signer"]
    ([El "h3" [] [Text "Transaction Preview"]; d] ++ panels w s)).

Definition dispatch `{Browser} `{Canonicalizer} `{NaCl} `{Config} (privateKey : value) (a : action) : page unit :=
  match a with
  | HandleSign => handleSign privateKey
  | HandleCancel => handleCancel
  end.

(** ** Execution *)

Lemma run_handleSign `{Browser} `{Canonicalizer} `{NaCl} `{Config} server privateKey w s l :
  run server (handleSign privateKey) (w, s) l
  = let '(o, w', l') := run server (signAndSend privateKey) w l in
    (Normal tt,
     (w', set_isSigning false (match o with Normal result => emit_sent result s | Throw _ => s end)), l').
Proof.
  unfold handleSign. rewrite run_bind, run_update, run_finally, run_try, run_bind, run_await, run_embed.
  by destruct (run server (signAndSend privateKey) w l) as [[[a|e] w'] l'].
Qed.

(** The preview lists the five fields in order, then the panels. *)
Lemma preview_total transaction w s :
  is_nullish transaction = false ->
  exists d, render transaction w s = Normal (El "div" [Static "class" "transaction-signer"]
      ([El "h3" [] [Text "Transaction Preview"]; d] ++ panels w s)) /\
    shown_values d = (prop transaction) <$> ["type"; "source"; "fee"; "nonce"; "transactionID"] /\
    offered d = [].
Proof.
  intros Hn. unfold render, details, get. rewrite Hn. eexists. split; [reflexivity|]. done.
Qed.

Lemma offered_panels w s :
  flat_map offered (panels w s) =
  if String.eqb (tx_status (tx w)) "idle"
  then (if isSigning s then [] else [HandleSign]) ++ [HandleCancel] else [].
Proof.
  unfold panels. rewrite !flat_map_app.
  destruct (String.eqb (tx_status (tx w)) "idle"), (String.eqb (tx_status (tx w)) "signing"),
    (String.eqb (tx_status (tx w)) "sending"), (String.eqb (tx_status (tx w)) "success"),
    (String.eqb (tx_status (tx w)) "error"), (isSigning s); reflexivity.
Qed.

Lemma one_panel w s : tx_status (tx w) ∈ statuses -> length (panels w s) = 1.
Proof.
  unfold statuses, panels. rewrite !elem_of_cons, elem_of_nil.
  by intros [->|[->|[->|[->|[->|[]]]]]].
Qed.

(** ** Properties *)

(** in every state the transaction composable reaches under any interleaving of
    its operations, the preview of an object is shown with exactly one panel below
    it, and signing or cancelling is offered exactly in the idle status. *)
Theorem preview_panels `{Browser} `{Canonicalizer} `{NaCl} `{Config} server ops sched st n l transaction s :
  is_nullish transaction = false ->
  let w := (interleave server sched (op_task <$> ops) (page_load st n) l).1.2 in
  exists page, render transaction w s = Normal page /\
    length (panels w s) = 1 /\
    (HandleCancel ∈ offered page <-> tx_status (tx w) = "idle") /\
    (HandleSign ∈ offered page <-> tx_status (tx w) = "idle" /\ isSigning s = false).
Proof.
  intros Hn w. assert (tx_inv w) as [Hs _] by apply tx_inv_interleave.
  destruct (preview_total transaction w s Hn) as (d & Hr & _ & Hd). eexists. split_and!; [exact Hr|by apply one_panel|..];
    cbn [offered flat_map app]; rewrite Hd, offered_panels; cbn;
    destruct (String.eqb_spec (tx_status (tx w)) "idle"), (isSigning s); set_solver.
Qed.

(** Signing always completes with the button enabled again; with a current
    transaction it either emits the result once, in status [success], or emits
    nothing, in status [error]; without one nothing happens at all. *)
Theorem handleSign_outcome `{Browser} `{Canonicalizer} `{NaCl} `{Config} server privateKey w s l :
  exists w' s' l', run server (handleSign privateKey) (w, s) l = (Normal tt, (w', s'), l') /\
    isSigning s' = false /\
    if truthy (current w) then
      isProcessing (tx w') = false /\
      ((tx_status (tx w') = "success" /\ exists result, sent_events s' = sent_events s ++ [result]) \/
       (tx_status (tx w') = "error" /\ sent_events s' = sent_events s))
    else w' = w /\ sent_events s' = sent_events s /\ l' = l.
Proof.
  rewrite run_handleSign. destruct (truthy (current w)) eqn:Hc.
  - pose proof (signAndSend_ends server privateKey w l Hc) as He.
    destruct (run server (signAndSend privateKey) w l) as [[[a|e] w'] l'], He as [Hp [Hs _]];
      eexists _, _, _; (split; [reflexivity|]); split_and!; try done; [left|right]; split; try done.
    by eexists.
  - unfold signAndSend. rewrite run_bind, run_gets, Hc. by eexists _, _, _.
Qed.

(** Once a transaction was signed, whether it was accepted or not, no action is
    offered on the next one: creating it leaves the status of the first. *)
Theorem next_transaction_not_offered `{Browser} `{Canonicalizer} `{NaCl} `{Config}
    server privateKey params w s l :
  truthy (current w) = true ->
  let '(_, (w1, s1), l1) := run server (handleSign privateKey) (w, s) l in
  let '(o, w2, l2) := run server (createTransaction params) w1 l1 in
  forall transaction page, render transaction w2 s1 = Normal page -> offered page = [].
Proof.
  intros Hc. rewrite run_handleSign. pose proof (signAndSend_ends server privateKey w l Hc) as He.
  destruct (run server (signAndSend privateKey) w l) as [[o w1] l1].
  assert (tx_status (tx w1) <> "idle") as Hs by (by destruct o, He as [_ [-> _]]).
  rewrite run_createTransaction. cbv zeta.
  match goal with |- context [run server (prepare params) ?wx l1] =>
    destruct (run server (prepare params) wx l1) as [[[c|e] w2] l2] end; intros transaction page Hr.
  all: assert (is_nullish transaction = false) as Hn
    by (unfold render, details, get in Hr; by destruct (is_nullish transaction)).
  all: edestruct (preview_total transaction) as (d & Hd & _ & Ho); [exact Hn|];
    rewrite Hd in Hr; injection Hr as <-; cbn [offered flat_map app];
    rewrite Ho, offered_panels; cbn; by destruct (String.eqb_spec (tx_status (tx w1)) "idle").
Qed.

(** The preview of a transaction the composable created shows no source, no fee and
    no nonce: a transaction has none of these fields. *)
Theorem preview_missing_fields `{Browser} `{Canonicalizer} `{NaCl} `{Config} server o w l c w' l' s :
  run server (createTransaction (Obj o)) w l = (Normal c, w', l') ->
  exists page rest, render c w' s = Normal page /\
    shown_values page = [prop (Obj o) "type"; Undefined; Undefined; Undefined; prop c "transactionID"] ++ rest.
Proof.
  rewrite run_createTransaction. cbv zeta. set (w1 := set_tx _ _).
  destruct (run server (prepare (Obj o)) w1 l) as [[[c'|e] w2] l2] eqn:E; [|done]. intros [= <- <- <-].
  pose proof (fun k Hk => prepare_member server k o w1 l c' w2 l2 Hk E) as Hm.
  assert (is_nullish c' = false) as Hn.
  { pose proof (prepare_valid _ _ _ _ _ _ _ E) as (Ht & _). by destruct c'. }
  set (wf := set_tx _ (set_tx _ w1)). destruct (preview_total c' wf s Hn) as (d & Hr & Hd & _).
  eexists _, _. split; [exact Hr|]. cbn [shown_values flat_map app]. rewrite Hd. cbn [fmap list_fmap].
  rewrite (Hm "type"), (Hm "source"), (Hm "fee"), (Hm "nonce") by set_solver. reflexivity.
Qed.

Import Reference DefaultConfig.

Lemma preview_panels_witness :
  exists page, render (Obj []) (page_load ∅ 0) init_signer = Normal page /\
    (HandleSign ∈ offered page <-> tx_status (tx (page_load ∅ 0)) = "idle" /\ isSigning init_signer = false).
Proof.
  destruct (preview_panels offline [] [] ∅ 0 [] (Obj []) init_signer) as (page & Hr & _ & _ & Ho);
    [reflexivity|]. exists page. exact (conj Hr Ho).
Defined.

Definition one_current : world := set_tx (set_currentTransaction (obj [("type", Str "t")])) (page_load ∅ 0).

Lemma next_transaction_not_offered_witness :
  let '(_, (w1, s1), l1) := run offline (handleSign (Str "00")) (one_current, init_signer) [] in
  let '(o, w2, l2) := run offline (createTransaction (Obj [])) w1 l1 in
  forall transaction page, render transaction w2 s1 = Normal page -> offered page = [].
Proof.
  exact (next_transaction_not_offered offline (Str "00") (Obj []) one_current init_signer [] eq_refl).
Defined.
