(* ===== verification/Home.v ===== *)
(** * The connection page and the router: [frontend/src/views/Home.vue] and
    [frontend/src/router/index.js]

    [connect] validates the address typed, stores it and asks the backend for the
    miner's identifier.  The request goes to the configured backend, whatever the
    address; a successful connection navigates to a path that has no route. *)

From S2P Require Import Prelude JsValue Json JsonFacts JsonCanon Sha256 Async Platform World Hash.
From S2P Require Import Validation Storage ApiService UseTransaction Component.

#[local] Arguments Ascii.eqb : simpl never.

(** ** The router *)

Record route := Route {
  path : string;
  route_name : string;
  component : string;   (* the name of the component's file *)
  meta : value
}.

(** The table of routes. *)
Definition routes : list route :=
  [Route "/" "Wallet" "Wallet.vue" (obj [("title", Str "Peerster Wallet")])].

(** The title set after each navigation; a location without a route has no meta fields. *)
Definition afterEach (to_meta : value) : outcome value :=
  title ← get to_meta "title";
  Normal (js_or title (Str "Peerster Wallet")).

(** The location without its trailing slash, in lower case. *)
Fixpoint drop_slash (s : string) : string :=
  match s with
  | EmptyString => ""
  | String c EmptyString => if Ascii.eqb c "/" then "" else s
  | String c s' => String c (drop_slash s')
  end.
Definition location (s : string) : string := to_lower (drop_slash s).

(** The package vue-router: which route of a table a path selects. *)
Class Router := { resolve : list route -> string -> option route }.

(** A route whose path has no parameter is selected by its own path only, up to
    case and to a trailing slash. *)
Class RouterLaws `{Router} : Prop := {
  resolve_static rs p r : resolve rs p = Some r -> r ∈ rs /\ location (path r) = location p
}.

(** ** The page *)

Record home := HomeRefs {
  proxyAddr : string;
  error : string;
  pushes : list string   (* router.push *)
}.

Definition init_home : home := HomeRefs "127.0.0.1:8080" "" [].

Definition set_proxyAddr (s : string) (h : home) : home := HomeRefs s (error h) (pushes h).
Definition set_message (s : string) (h : home) : home := HomeRefs (proxyAddr h) s (pushes h).
Definition push (p : string) (h : home) : home := HomeRefs (proxyAddr h) (error h) (pushes h ++ [p]).

Abbreviation page := (task (world * home)).

(** [/^[\w\.-]+:\d+$/] *)
Definition word_char (c : ascii) : bool := alnum c || Ascii.eqb c "_".
Definition host_char (c : ascii) : bool := word_char c || Ascii.eqb c "." || Ascii.eqb c "-".
Definition addrPattern : list item :=
  [Item host_char 1 None; Item (Ascii.eqb ":") 1 (Some 1); Item digit 1 None].

Section home.
Context `{Browser} `{Config}.

(** [connect()] *)
Definition connect : page unit :=
  _ ← update (set_message "");
  addr ← local proxyAddr;
  if negb (truthy (Str addr)) then update (set_message "Please enter a proxy address")
  else if negb (matches addrPattern addr) then
    update (set_message "Invalid address format. Expected format: host:port (e.g., 127.0.0.1:8080)")
  else
    _ ← embed (ls_setItem "proxyAddr" (Str addr));
    try_catch
      (minerID ← await (embed getMinerID);
       _ ← embed (ls_setItem "minerID" minerID);
       update (push "/wallet"))
      (fun err =>
         _ ← update (set_message ("Failed to connect: " +:+ to_string (err_message err)));
         embed (ls_removeItem "proxyAddr")).
End home.

Inductive action := TypeAddress (v : value) | Connect.

Definition render (h : home) : node action :=
  El "div" [Static "class" "home-container"]
    [El "div" [Static "class" "connect-box"]
      ([El "h1" [] [Text "CS438 - Peerster Wallet"];
        El "p" [Static "class" "subtitle"] [Text "Enter the peer's proxy address"];
        El "form" [On "submit" Connect; Static "class" "connect-form"]
          [El "input" [Model (Str (proxyAddr h)) TypeAddress; Static "type" "text"; Static "id" "addr";
                       Static "placeholder" "127.0.0.1:8080"; Static "class" "proxy-input";
                       Static "required" ""] [];
           El "button" [Static "type" "submit"; Static "class" "connect-btn"] [Text "Connect"]]] ++
       v_if (truthy (Str (error h)))
         [El "div" [Static "class" "error-message"] [Show (Str (error h))]] ++
       [El "div" [Static "class" "instructions"]
          [El "h3" [] [Text "Quick Start:"];
           El "ol" []
             [El "li" [] [Text "Start a peer: "; El "code" [] [Text "cd gui && go run gui.go start"]];
              El "li" [] [Text "Copy the proxy address from the log output"];
              El "li" [] [Text ("Enter it above and click " +:+ dq +:+ "Connect" +:+ dq)]]]])].

Definition dispatch `{Browser} `{Config} (a : action) : page unit :=
  match a with
  | TypeAddress v => update (set_proxyAddr (to_string v))
  | Connect => connect
  end.

(** ** Execution *)

Definition miner_request `{Config} : request := GET (getBaseURL +:+ "/namecoin/minerid").

(** What the server answers to [getMinerID]. *)
Definition miner_answer `{Config} server (l : list request) : outcome value :=
  data ← plain_answer (server l miner_request); get data "minerID".

Section run_home.
Context `{Browser} `{Config} (server : list request -> request -> fetch_result).
Context (quota : forall st k x, accepts st k x = true).

Lemma run_connect_valid w h l :
  matches addrPattern (proxyAddr h) = true ->
  let st := <["proxyAddr" := proxyAddr h]> (storage w) in
  run server connect (w, h) l =
  (Normal tt,
   match miner_answer server l with
   | Normal minerID =>
       (set_storage (<["minerID" := to_string minerID]> st) w, push "/wallet" (set_message "" h))
   | Throw err =>
       (set_storage (delete "proxyAddr" st) w,
        set_message ("Failed to connect: " +:+ to_string (err_message err)) h)
   end, l ++ [miner_request]).
Proof.
  intros Hm st. unfold connect. rewrite run_bind, run_update, run_bind, run_local. cbn [snd proxyAddr set_message].
  destruct (proxyAddr h) as [|a s] eqn:E; [done|]. change (truthy (Str (String a s))) with true. rewrite Hm. cbn [negb].
  rewrite run_bind, run_embed, run_ls_setItem, quota, run_try, run_bind, run_await, run_embed, run_getMinerID.
  unfold miner_answer, miner_request. destruct (_ ≫= _) as [m|e].
  - rewrite run_bind, run_embed, run_ls_setItem, quota. done.
  - rewrite run_bind, run_update, run_embed. done.
Qed.

Lemma run_connect_invalid w h l :
  matches addrPattern (proxyAddr h) = false ->
  exists m, m <> "" /\ run server connect (w, h) l = (Normal tt, (w, set_message m h), l).
Proof.
  intros Hm. unfold connect. rewrite run_bind, run_update, run_bind, run_local. cbn [snd proxyAddr set_message].
  rewrite Hm. destruct (truthy _); cbn [negb]; eexists; (split; [|reflexivity]); done.
Qed.
End run_home.

Lemma host_words s :
  matches addrPattern s = true <->
  exists host port, s = host +:+ ":" +:+ port /\ host <> "" /\ all_cls host_char host = true /\
    port <> "" /\ all_cls digit port = true.
Proof.
  unfold addrPattern. rewrite matches_spec. cbn [words_of cls mn mx within]. split.
  - intros (h & b & -> & Hh & Hh1 & _ & c & b' & -> & Hc & Hc1 & Hc2 & p & e & -> & Hp & Hp1 & _ & ->).
    destruct (one_char c Hc1 Hc2) as [x ->]. simpl in Hc. rewrite andb_true_r in Hc.
    apply Ascii.eqb_eq in Hc as <-. exists h, p. rewrite string_app_nil_r.
    split_and!; try done; [by destruct h; [simpl in Hh1; lia|]|by destruct p; [simpl in Hp1; lia|]].
  - intros (h & p & -> & Hh & Hh1 & Hp & Hp1). exists h, (":" +:+ p).
    split_and!; [done|done|destruct h; [done|simpl; lia]|done|].
    exists ":", p. split_and!; [done|done|simpl; lia|simpl; lia|].
    exists p, "". rewrite string_app_nil_r. split_and!; try done. destruct p; [done|simpl; lia].
Qed.

(** ** Properties *)

(** Connecting with an address of the form host:port sends exactly one request
    and ends connected (the address and the miner's identifier stored, no message)
    or with the reason shown and no address stored; with any other text nothing is
    sent or stored and a message is shown. *)
Theorem connect_outcome `{Browser} `{Config} server w h l :
  (forall st k x, accepts st k x = true) ->
  exists w' h' l', run server connect (w, h) l = (Normal tt, (w', h'), l') /\ proxyAddr h' = proxyAddr h /\
    ((exists host port, proxyAddr h = host +:+ ":" +:+ port /\ host <> "" /\
        all_cls host_char host = true /\ port <> "" /\ all_cls digit port = true) /\
     l' = l ++ [miner_request] /\
     ((exists m, miner_answer server l = Normal m /\ storage w' !! "proxyAddr" = Some (proxyAddr h) /\
         storage w' !! "minerID" = Some (to_string m) /\ error h' = "" /\ pushes h' = pushes h ++ ["/wallet"]) \/
      (exists e, miner_answer server l = Throw e /\ storage w' !! "proxyAddr" = None /\
         error h' = "Failed to connect: " +:+ to_string (err_message e) /\ pushes h' = pushes h)) \/
     matches addrPattern (proxyAddr h) = false /\ l' = l /\ w' = w /\ error h' <> "" /\ pushes h' = pushes h).
Proof.
  intros Hq. destruct (matches addrPattern (proxyAddr h)) eqn:Hm.
  - rewrite (run_connect_valid server Hq w h l Hm).
    apply host_words in Hm.
    destruct (miner_answer server l) as [m|e]; eexists _, _, _;
      (split; [reflexivity|]); (split; [done|left]); (split; [done|split; [done|]]); [left|right];
      eexists; split_and!; try done; simpl.
    + by rewrite lookup_insert_ne, lookup_insert_eq.
    + apply lookup_insert_eq.
    + apply lookup_delete_eq.
  - destruct (run_connect_invalid server w h l Hm) as (m & Hne & Hr).
    exists w, (set_message m h), l. split_and!; try done. right. by split_and!.
Qed.

(** The request does not depend on the address that was typed. *)
Theorem connect_ignores_address `{Browser} `{Config} server w h a l :
  (forall st k x, accepts st k x = true) ->
  matches addrPattern (proxyAddr h) = true -> matches addrPattern a = true ->
  (run server connect (w, h) l).2 = (run server connect (w, set_proxyAddr a h) l).2.
Proof. intros Hq Hm Ha. by rewrite !run_connect_valid. Qed.

(** The path a successful connection navigates to has no route, and the only
    view that is routed is the wallet's. *)
Theorem wallet_path_unrouted `{RouterLaws} :
  resolve routes "/wallet" = None /\
  (forall p r, resolve routes p = Some r -> component r = "Wallet.vue" /\ afterEach (meta r) = Normal (Str "Peerster Wallet")).
Proof.
  split.
  - destruct (resolve routes "/wallet") as [r|] eqn:E; [|done].
    apply resolve_static in E as [Hr Hp]. unfold routes in Hr. apply list_elem_of_singleton in Hr as ->. done.
  - intros p r E. apply resolve_static in E as [Hr _]. unfold routes in Hr.
    apply list_elem_of_singleton in Hr as ->. done.
Qed.

Import Reference DefaultConfig.

#[export] Instance exact_router : Router := {
  resolve rs p := List.find (fun r => String.eqb (location (path r)) (location p)) rs
}.

#[export] Instance exact_router_laws : RouterLaws.
Proof.
  split. intros rs p r [Hin Heq]%find_some. split; [by apply list_elem_of_In|by apply String.eqb_eq].
Qed.

Lemma wallet_path_unrouted_witness :
  resolve routes "/wallet" = None /\ resolve routes "/" <> None /\
  (forall p r, resolve routes p = Some r -> component r = "Wallet.vue").
Proof.
  destruct wallet_path_unrouted as [H1 H2]. split_and!; [exact H1|discriminate|].
  intros p r Hr. exact (proj1 (H2 p r Hr)).
Defined.

Lemma connect_outcome_witness :
  exists w' h' l', run offline connect (page_load ∅ 0, init_home) [] = (Normal tt, (w', h'), l').
Proof.
  destruct (connect_outcome offline (page_load ∅ 0) init_home []) as (w' & h' & l' & Hr & _);
    [reflexivity|]. exists w', h', l'. exact Hr.
Defined.
