(* ===== verification/WalletTemplate.v ===== *)
(** * The template of [frontend/src/views/Wallet.vue]

    What the wallet's page shows in a state and the actions it offers, with the
    handlers of [WalletView] behind them. *)

From S2P Require Import Prelude JsValue Json JsonFacts JsonCanon Sha256 Async Platform World Hash.
From S2P Require Import Storage DomainStorage TransactionService CryptoService WalletService.
From S2P Require Import ApiService UseWallet UseTransaction WalletView Component.

(** ** Numbers of the TTL fields *)

(** [Math.floor] and [Math.max(0, x)] *)
Definition num_floor (n : num) : num :=
  match n with Fin m k => int (m / 10 ^ Z.of_nat k) | _ => n end.
Definition num_max0 (n : num) : num :=
  match n with NaN => NaN | _ => if num_lt (int 0) n then n else int 0 end.

(** [Math.max(0, Math.floor(Number(v) || 0))] *)
Definition clamp_ttl (v : value) : value :=
  Num (num_max0 (num_floor (to_number (js_or (Num (to_number v)) (Num (int 0)))))).

Definition set_ttl (x : value) (v : view_refs) : view_refs :=
  ViewRefs (isConnected v) (connectionStatus v) (domainName v) x (view_isProcessing v) (view_status v)
    (lastTxId v) (domains v) (domainsLoaded v) (myDomains v) (backendMinerID v) (heap v).

(** ** The actions *)

Inductive action :=
  | TypeDomain (v : value)
  | TypeTtl (v : value)
  | Submit
  | ClearAll
  | TypeRevealIp (r : nat) (v : value)
  | TypeRevealTtl (r : nat) (v : value)
  | Reveal (r : nat)
  | TypeNewIp (r : nat) (v : value)
  | TypeUpdateTtl (r : nat) (v : value)
  | Update (r : nat)
  | Refresh.


Definition cls {A} (c : string) : attr A := Static "class" c.

(** Lines 3-11. *)
Definition header (w : world) : node action :=
  El "header" [cls "wallet-header"]
    [El "div" [cls "header-content"]
       [El "h1" [] [Text "Peerster Wallet"];
        El "div" [cls "connection-info"]
          [El "span" [cls "status-indicator"; Bound "class" (obj [("connected", Bool (isConnected (view w)))])] [];
           El "span" [cls "connection-status"] [Show (Str (connectionStatus (view w)))]]]].

(** Lines 18-53: the form of a commitment. *)
Definition commit_form (w : world) : node action :=
  let v := view w in
  let busy := Bool (view_isProcessing v) in
  El "form" [On "submit" Submit; cls "transaction-form"]
    [El "div" [cls "form-group"]
       [El "label" [Static "for" "domain"] [Text "Domain Name:"];
        El "input" [Static "id" "domain"; Model (Str (domainName v)) TypeDomain; Static "type" "text";
                    Static "placeholder" "example.com"; Bound "disabled" busy; Static "required" ""] []];
     El "div" [cls "form-group"]
       [El "label" [Static "for" "ttl"] [Text "TTL (blocks):"];
        El "input" [Static "id" "ttl"; Model (ttl v) TypeTtl; Static "type" "number"; Static "min" "0";
                    Static "step" "1"; Static "placeholder" "0 for default"; Bound "disabled" busy] [];
        El "small" [cls "form-hint"]
          [Text "Number of blocks the reservation will live. 0 uses default TTL (36,000 blocks)."]];
     El "button" [Static "type" "submit"; cls "submit-btn";
                  Bound "disabled" (Bool (view_isProcessing v || String.eqb (domainName v) ""))]
       [Show (Str (if view_isProcessing v then "Processing..." else "Create Commitment"))]].

(** Lines 14-62. *)
Definition commit_section (w : world) : node action :=
  let v := view w in
  El "div" [cls "transaction-section"]
    ([El "h2" [] [Text "Register New Domain (Step 1: Commitment)"];
      El "p" [cls "section-description"]
        [Text "Create a commitment for a new domain. This hides your domain choice from others."];
      commit_form w] ++
     v_if (truthy (Str (view_status v)))
       [El "div" [cls "status"; Bound "class" (Str (statusClass w))] [Show (Str (view_status v))]] ++
     v_if (truthy (lastTxId v))
       [El "div" [cls "tx-info"] [El "strong" [] [Text "Transaction ID:"]; Text " "; Show (lastTxId v)]]).

(** Lines 88-113: the controls of a pending entry. *)
Definition pending_controls (r : nat) (p : value) : node action :=
  let busy := prop p "isRevealing" in
  El "div" [cls "domain-update"]
    [El "input" [Model (prop p "revealIp") (TypeRevealIp r); Static "type" "text";
                 Static "placeholder" "Enter IP address"; cls "ip-input"; Bound "disabled" busy] [];
     El "input" [Model (prop p "revealTtl") (TypeRevealTtl r); Static "type" "number"; Static "min" "0";
                 Static "step" "1"; Static "placeholder" "TTL (0=default)"; cls "ttl-input";
                 Bound "disabled" busy] [];
     El "button" [On "click" (Reveal r); cls "action-btn primary";
                  Bound "disabled" (js_or busy (Bool (negb (truthy (prop p "revealIp")))))]
       [Text "Reveal Domain"]].

(** Lines 116-141: the controls of a revealed entry. *)
Definition revealed_controls (r : nat) (p : value) : node action :=
  let busy := prop p "isUpdating" in
  El "div" [cls "domain-update"]
    [El "input" [Model (prop p "newIp") (TypeNewIp r); Static "type" "text";
                 Static "placeholder" "Enter new IP address"; cls "ip-input"; Bound "disabled" busy] [];
     El "input" [Model (prop p "updateTtl") (TypeUpdateTtl r); Static "type" "number"; Static "min" "0";
                 Static "step" "1"; Static "placeholder" "TTL (0=default)"; cls "ttl-input";
                 Bound "disabled" busy] [];
     El "button" [On "click" (Update r); cls "action-btn primary";
                  Bound "disabled" (js_or busy (Bool (negb (truthy (prop p "newIp")))))]
       [Text "Update IP"]].

(** Lines 76-142: one entry. *)
Definition entry_item (r : nat) (p : value) : outcome (node action) :=
  domain ← get p "domain";
  let status := prop p "status" in
  let pending := strict_eq status (Str "pending") in
  let revealed := strict_eq status (Str "revealed") in
  Normal (El "div" [Bound "key" domain; cls "domain-item"; Bound "class" status]
    ([El "div" [cls "domain-header"]
        [El "div" [cls "domain-name"] [Show domain];
         El "span" [cls "domain-badge"; Bound "class" status]
           [Show (Str (if pending then "Pending" else "Active"))]]] ++
     v_if (revealed && truthy (prop p "ip"))
       [El "div" [cls "domain-info"]
          [El "span" [cls "domain-ip"] [Text "Current IP: "; Show (prop p "ip")]]] ++
     v_if pending [pending_controls r p] ++
     v_if revealed [revealed_controls r p])).

(** [f] on every element, the first exception winning. *)
Fixpoint render_all {X A} (f : X -> outcome (node A)) (l : list X) : outcome (list (node A)) :=
  match l with
  | [] => Normal []
  | x :: l' => n ← f x; ns ← render_all f l'; Normal (n :: ns)
  end.

(** Lines 64-149. *)
Definition my_domains_section (w : world) : outcome (node action) :=
  let refs := myDomains (view w) in
  items ← render_all (fun r => entry_item r (deref r w)) refs;
  Normal (El "div" [cls "my-domains-section"]
    ([El "h2" [] [Text "My Domains"]] ++
     v_if (0 <? length refs)%nat
       [El "div" [cls "subsection"]
          [El "div" [cls "subsection-header"]
             [El "h3" [] [Text "Your Domains"];
              El "button" [On "click" ClearAll; cls "clear-btn"; Static "title" "Clear all pending domains"]
                [Text "Clear All"]];
           El "p" [cls "section-description"]
             [Text "⚠️ Wait for commitment to be mined before revealing. After reveal, you can update the IP address."];
           El "div" [cls "domains-list"] items]] ++
     v_if (length refs =? 0)%nat
       [El "div" [cls "no-domains"] [Text "You don't have any domains yet. Register one above!"]])).

(** Lines 157-162: one registered domain. *)
Definition registered_item (d : value) : outcome (node action) :=
  name ← get d "name";
  Normal (El "div" [Bound "key" name; cls "domain-item"]
    [El "div" [cls "domain-name"] [Show name];
     El "div" [cls "domain-info"]
       [El "span" [cls "domain-owner"] [Text "Owner: "; Show (prop d "owner")]]]).

(** Lines 151-167; [domains] holds an array in every state of the page. *)
Definition registered_section (w : world) : outcome (node action) :=
  let rows := match domains (view w) with Arr l => l | _ => [] end in
  items ← render_all registered_item rows;
  Normal (El "div" [cls "dns-section"]
    ([El "h2" [] [Text "Registered Domains"];
      El "button" [On "click" Refresh; cls "action-btn"] [Text "Refresh Domains"]] ++
     (if (0 <? length rows)%nat then [El "div" [cls "domains-list"] items]
      else v_if (domainsLoaded (view w))
             [El "div" [cls "no-domains"] [Text "No domains registered yet."]]))).

(** Lines 2-169. *)
Definition render (w : world) : outcome (node action) :=
  mine ← (if isWalletLoaded w then n ← my_domains_section w; Normal [n] else Normal []);
  registered ← registered_section w;
  Normal (El "div" [cls "wallet-view"]
    [header w;
     El "div" [cls "wallet-container"] (v_if (isWalletLoaded w) [commit_section w] ++ mine ++ [registered])]).

(** ** The listeners

    An input writes the ref or the member of its [v-model]; the listener of a TTL
    field runs after this write.  [confirmed] is the answer to the question of
    [clearPendingDomains]. *)
Definition dispatch `{Browser} `{Canonicalizer} `{NaCl} `{Config} (confirmed : bool) (a : action) : script unit :=
  match a with
  | TypeDomain v => modify (set_view (set_domainName (to_string v)))
  | TypeTtl v =>
      _ ← modify (set_view (set_ttl v));
      x ← gets (fun w => ttl (view w));
      modify (set_view (set_ttl (clamp_ttl x)))
  | Submit => handleSubmit
  | ClearAll => clearPendingDomains confirmed
  | TypeRevealIp r v => assign r "revealIp" v
  | TypeRevealTtl r v =>
      _ ← assign r "revealTtl" v;
      x ← (p ← gets (deref r); lift (get p "revealTtl"));
      assign r "revealTtl" (clamp_ttl x)
  | Reveal r => handleFirstUpdate r
  | TypeNewIp r v => assign r "newIp" v
  | TypeUpdateTtl r v =>
      _ ← assign r "updateTtl" v;
      x ← (p ← gets (deref r); lift (get p "updateTtl"));
      assign r "updateTtl" (clamp_ttl x)
  | Update r => handleUpdate r
  | Refresh => fetchDomains
  end.

(** ** The TTL fields *)

Lemma clamp_cases v :
  clamp_ttl v = match to_number v with
                | NaN => Num (int 0)
                | Inf neg => Num (if neg then int 0 else Inf false)
                | Fin m k => Num (int (Z.max 0 (m / 10 ^ Z.of_nat k)))
                end.
Proof.
  unfold clamp_ttl, js_or. destruct (to_number v) as [|[]|m k]; try done. cbn [truthy].
  destruct (Z.eqb_spec m 0) as [->|Hm]; cbn [negb to_number num_floor num_max0 int].
  - rewrite !Z.div_0_l by lia. done.
  - unfold num_lt. cbn [int Z.of_nat]. rewrite Z.pow_0_r, !Z.mul_1_r. unfold int.
    destruct (Z.ltb_spec 0 (m / 10 ^ Z.of_nat k)); f_equal; f_equal; lia.
Qed.

(** ** Properties *)

(** whatever is typed in the TTL field, the TTL of the page is a non-negative
    integer: the integer part of a non-negative number, 0 for anything else (an
    infinite input apart). *)
Theorem typed_ttl_bounds `{Browser} `{Canonicalizer} `{NaCl} `{Config} server confirmed v w l :
  exists x, run server (dispatch confirmed (TypeTtl v)) w l = (Normal tt, set_view (set_ttl x) w, l) /\
    match to_number v with
    | Inf false => x = Num (Inf false)
    | Fin m k => exists z, x = Num (int z) /\ (0 <= z)%Z /\
        (if (0 <=? m)%Z then (z * 10 ^ Z.of_nat k <= m < (z + 1) * 10 ^ Z.of_nat k)%Z else z = 0%Z)
    | _ => x = Num (int 0)
    end.
Proof.
  exists (clamp_ttl v). split; [done|]. rewrite clamp_cases.
  destruct (to_number v) as [|[]|m k]; try done. eexists. split; [done|].
  assert (0 < 10 ^ Z.of_nat k)%Z as Hp by lia. split; [lia|].
  destruct (Z.leb_spec 0 m) as [Hm|Hm].
  - pose proof (Z.div_pos m _ Hm Hp). rewrite Z.max_r by done.
    pose proof (Z.mul_div_le m _ Hp). pose proof (Z.mul_succ_div_gt m _ Hp). lia.
  - apply Z.max_l. apply Z.lt_le_incl, Z.div_lt_upper_bound; lia.
Qed.
