(* ===== verification/WalletPage.v ===== *)
(** * The wallet's page

    The page is well typed in every state its handlers reach, however they are
    interleaved, and it offers exactly the actions that make sense in a state. *)

From S2P Require Import Prelude JsValue Json JsonFacts JsonCanon Sha256 Async Platform World Hash.
From S2P Require Import Storage DomainStorage TransactionService CryptoService WalletService.
From S2P Require Import ApiService UseWallet UseTransaction TransactionFlow WalletView WalletFlow Component WalletTemplate.
From S2P Require Import ServiceSafety.

(** ** The actions of a state *)

(** The actions on one entry. *)
Definition entry_actions (r : nat) (p : value) : list action :=
  (if strict_eq (prop p "status") (Str "pending")
      && negb (truthy (prop p "isRevealing")) && truthy (prop p "revealIp") then [Reveal r] else []) ++
  (if strict_eq (prop p "status") (Str "revealed")
      && negb (truthy (prop p "isUpdating")) && truthy (prop p "newIp") then [Update r] else []).

Definition actions (w : world) : list action :=
  let v := view w in
  (if isWalletLoaded w then
     (if negb (view_isProcessing v) && negb (String.eqb (domainName v) "") then [Submit] else []) ++
     match myDomains v with
     | [] => []
     | refs => [ClearAll] ++ flat_map (fun r => entry_actions r (deref r w)) refs
     end
   else []) ++ [Refresh].

Lemma truthy_or_bool a b : truthy (js_or a (Bool b)) = truthy a || b.
Proof. unfold js_or. by destruct (truthy a) eqn:E. Qed.

Lemma offered_pending r p :
  offered (pending_controls r p)
  = if negb (truthy (prop p "isRevealing")) && truthy (prop p "revealIp") then [Reveal r] else [].
Proof.
  cbn -[truthy prop js_or]. rewrite truthy_or_bool.
  by destruct (truthy (prop p "isRevealing")), (truthy (prop p "revealIp")).
Qed.

Lemma offered_revealed r p :
  offered (revealed_controls r p)
  = if negb (truthy (prop p "isUpdating")) && truthy (prop p "newIp") then [Update r] else [].
Proof.
  cbn -[truthy prop js_or]. rewrite truthy_or_bool.
  by destruct (truthy (prop p "isUpdating")), (truthy (prop p "newIp")).
Qed.

Lemma offered_entry r p n : entry_item r p = Normal n -> offered n = entry_actions r p.
Proof.
  unfold entry_item, get. destruct (is_nullish p); [done|]. cbn [mbind outcome_bind]. intros [= <-].
  unfold entry_actions, v_if.
  destruct (strict_eq (prop p "status") (Str "pending")), (strict_eq (prop p "status") (Str "revealed")),
    (truthy (prop p "ip")); cbn -[pending_controls revealed_controls prop truthy];
    rewrite ?offered_pending, ?offered_revealed, ?app_nil_r; done.
Qed.

(** What a list of rendered elements contains, for either collection. *)
Lemma rendered_all {X B} (h : node action -> list B) (f : X -> outcome (node action)) (g : X -> list B) l ns :
  (forall x n, f x = Normal n -> h n = g x) ->
  render_all f l = Normal ns -> flat_map h ns = flat_map g l.
Proof.
  intros Hf. revert ns. induction l as [|x l IH]; intros ns; cbn [render_all]; [by intros [= <-]|].
  intros (n & Hn & (ns' & Hns & [= <-])%outcome_bind_Normal)%outcome_bind_Normal.
  cbn [flat_map]. by rewrite (Hf _ _ Hn), (IH _ Hns).
Qed.

Lemma offered_commit w :
  offered (commit_section w)
  = if negb (view_isProcessing (view w)) && negb (String.eqb (domainName (view w)) "") then [Submit] else [].
Proof.
  unfold commit_section, v_if.
  destruct (truthy (Str (view_status (view w)))), (truthy (lastTxId (view w))),
    (view_isProcessing (view w)) eqn:Hp, (String.eqb (domainName (view w)) "") eqn:Hn;
    cbn -[truthy]; rewrite ?Hp, ?Hn; reflexivity.
Qed.

Lemma offered_mine w n :
  my_domains_section w = Normal n ->
  offered n = match myDomains (view w) with
              | [] => []
              | refs => [ClearAll] ++ flat_map (fun r => entry_actions r (deref r w)) refs
              end.
Proof.
  unfold my_domains_section. intros (items & Hi & [= <-])%outcome_bind_Normal.
  apply (rendered_all offered _ (fun r => entry_actions r (deref r w))) in Hi; [|intros; by apply offered_entry].
  destruct (myDomains (view w)) as [|r refs]; [done|]. cbn -[entry_actions]. cbn in Hi.
  by rewrite !app_nil_r, Hi.
Qed.

Lemma offered_registered w n : registered_section w = Normal n -> offered n = [Refresh].
Proof.
  unfold registered_section. intros (items & Hi & [= <-])%outcome_bind_Normal.
  apply (rendered_all offered _ (fun _ => [])) in Hi.
  - assert (forall l : list value, flat_map (fun _ => @nil action) l = []) as Hnil by (by induction l).
    rewrite Hnil in Hi. destruct (0 <? _)%nat; cbn; [by rewrite Hi|]. by destruct (domainsLoaded (view w)).
  - intros d n. unfold registered_item. intros (x & _ & [= <-])%outcome_bind_Normal. done.
Qed.

Lemma offered_render w page : render w = Normal page -> offered page = actions w.
Proof.
  unfold render, actions. intros (mine & Hm & (reg & Hr & [= <-])%outcome_bind_Normal)%outcome_bind_Normal.
  apply offered_registered in Hr. cbn [offered flat_map header app].
  destruct (isWalletLoaded w); cbn [v_if].
  - apply outcome_bind_Normal in Hm as (n & Hn & [= <-]). apply offered_mine in Hn.
    cbn -[commit_section]. rewrite offered_commit, Hn, Hr. cbn. by rewrite !app_nil_r, <- app_assoc.
  - injection Hm as <-. cbn. by rewrite Hr.
Qed.

(** ** The inputs of a state *)

Definition entry_inputs (r : nat) (p : value) : list (value -> action) :=
  (if strict_eq (prop p "status") (Str "pending") && negb (truthy (prop p "isRevealing"))
   then [TypeRevealIp r; TypeRevealTtl r] else []) ++
  (if strict_eq (prop p "status") (Str "revealed") && negb (truthy (prop p "isUpdating"))
   then [TypeNewIp r; TypeUpdateTtl r] else []).

Definition inputs (w : world) : list (value -> action) :=
  if isWalletLoaded w then
    (if view_isProcessing (view w) then [] else [TypeDomain; TypeTtl]) ++
    flat_map (fun r => entry_inputs r (deref r w)) (myDomains (view w))
  else [].

Lemma editable_pending r p :
  editable (pending_controls r p)
  = if negb (truthy (prop p "isRevealing")) then [TypeRevealIp r; TypeRevealTtl r] else [].
Proof. cbn -[truthy prop js_or]. destruct (truthy (prop p "isRevealing")); cbn -[truthy prop js_or]; by case_match. Qed.

Lemma editable_revealed r p :
  editable (revealed_controls r p)
  = if negb (truthy (prop p "isUpdating")) then [TypeNewIp r; TypeUpdateTtl r] else [].
Proof. cbn -[truthy prop js_or]. destruct (truthy (prop p "isUpdating")); cbn -[truthy prop js_or]; by case_match. Qed.

Lemma editable_entry r p n : entry_item r p = Normal n -> editable n = entry_inputs r p.
Proof.
  unfold entry_item, get. destruct (is_nullish p); [done|]. cbn [mbind outcome_bind]. intros [= <-].
  unfold entry_inputs, v_if.
  destruct (strict_eq (prop p "status") (Str "pending")), (strict_eq (prop p "status") (Str "revealed")),
    (truthy (prop p "ip")); cbn -[pending_controls revealed_controls prop truthy];
    rewrite ?editable_pending, ?editable_revealed, ?app_nil_r; done.
Qed.

Lemma editable_commit w :
  editable (commit_section w) = if view_isProcessing (view w) then [] else [TypeDomain; TypeTtl].
Proof.
  unfold commit_section, v_if.
  destruct (truthy (Str (view_status (view w)))), (truthy (lastTxId (view w))),
    (view_isProcessing (view w)) eqn:Hp, (String.eqb (domainName (view w)) "") eqn:Hn;
    cbn -[truthy]; rewrite ?Hp, ?Hn; reflexivity.
Qed.

Lemma editable_mine w n :
  my_domains_section w = Normal n ->
  editable n = flat_map (fun r => entry_inputs r (deref r w)) (myDomains (view w)).
Proof.
  unfold my_domains_section. intros (items & Hi & [= <-])%outcome_bind_Normal.
  apply (rendered_all editable _ (fun r => entry_inputs r (deref r w))) in Hi; [|intros; by apply editable_entry].
  destruct (myDomains (view w)) as [|r refs]; [done|]. cbn -[entry_inputs]. cbn in Hi.
  by rewrite !app_nil_r, Hi.
Qed.

Lemma editable_registered w n : registered_section w = Normal n -> editable n = [].
Proof.
  unfold registered_section. intros (items & Hi & [= <-])%outcome_bind_Normal.
  apply (rendered_all editable _ (fun _ => [])) in Hi.
  - assert (forall l : list value, flat_map (fun _ => @nil (value -> action)) l = []) as Hnil by (by induction l).
    rewrite Hnil in Hi. destruct (0 <? _)%nat; cbn; [by rewrite Hi|]. by destruct (domainsLoaded (view w)).
  - intros d n. unfold registered_item. intros (x & _ & [= <-])%outcome_bind_Normal. done.
Qed.

Lemma editable_render w page : render w = Normal page -> editable page = inputs w.
Proof.
  unfold render, inputs. intros (mine & Hm & (reg & Hr & [= <-])%outcome_bind_Normal)%outcome_bind_Normal.
  apply editable_registered in Hr. cbn [editable flat_map header app].
  destruct (isWalletLoaded w); cbn [v_if].
  - apply outcome_bind_Normal in Hm as (n & Hn & [= <-]). apply editable_mine in Hn.
    cbn -[commit_section]. rewrite editable_commit, Hn, Hr. cbn. by rewrite !app_nil_r.
  - injection Hm as <-. cbn. by rewrite Hr.
Qed.

(** ** Types *)

(** Entries are objects, the list refers to entries, and the registered domains are
    an array of objects. *)
Record view_ok (w : world) : Prop := {
  vo_heap : map_Forall (fun _ v => exists o, v = Obj o) (heap (view w));
  vo_list : Forall (fun r => is_Some (heap (view w) !! r)) (myDomains (view w));
  vo_rows : exists rows, domains (view w) = Arr rows /\ Forall (fun d => is_nullish d = false) rows
}.

Lemma render_all_total {X} (f : X -> outcome (node action)) l :
  Forall (fun x => exists n, f x = Normal n) l -> exists ns, render_all f l = Normal ns.
Proof.
  induction 1 as [|x l [n Hn] _ [ns Hns]]; cbn [render_all]; [by eexists|].
  rewrite Hn. cbn [mbind outcome_bind]. rewrite Hns. by eexists.
Qed.

Lemma render_total w : view_ok w -> exists page, render w = Normal page.
Proof.
  intros [Hh Hl (rows & Hr & Hrows)].
  assert (exists items, render_all (fun r => entry_item r (deref r w)) (myDomains (view w)) = Normal items) as [items Hi].
  { apply render_all_total. eapply Forall_impl; [exact Hl|]. intros r [v Hv]. simpl.
    destruct (Hh r v Hv) as [o ->]. unfold deref. rewrite Hv. by eexists. }
  assert (exists ns, render_all registered_item rows = Normal ns) as [ns Hn].
  { apply render_all_total. eapply Forall_impl; [exact Hrows|]. intros d Hd. simpl.
    unfold registered_item, get. rewrite Hd. by eexists. }
  unfold render, my_domains_section, registered_section. rewrite Hi, Hr, Hn. cbn [mbind outcome_bind].
  destruct (isWalletLoaded w); by eexists.
Qed.

(** What leaves the view's data alone. *)
Lemma view_ok_ext w w' :
  heap (view w') = heap (view w) -> myDomains (view w') = myDomains (view w) ->
  domains (view w') = domains (view w) -> view_ok w -> view_ok w'.
Proof. intros Hh Hm Hd [H1 H2 H3]. split; by rewrite ?Hh, ?Hm, ?Hd. Qed.

Lemma view_ok_domains rows w :
  Forall (fun d => is_nullish d = false) rows -> view_ok w -> view_ok (set_view (set_domains (Arr rows)) w).
Proof. intros Hr [H1 H2 _]. split; [done..|]. by exists rows. Qed.

Lemma view_ok_object r o w :
  view_ok w -> view_ok (set_view (fun u => set_myDomains (myDomains u) (<[r := Obj o]> (heap u)) u) w).
Proof.
  intros [H1 H2 H3]. split; cbn [view set_view heap myDomains set_myDomains domains]; [| |done].
  - apply map_Forall_insert_2; [by eexists|done].
  - eapply Forall_impl; [exact H2|]. intros r' [v Hv]. destruct (decide (r = r')) as [->|Hne].
    + rewrite lookup_insert_eq. by eexists.
    + rewrite lookup_insert_ne by done. by eexists.
Qed.

Lemma alloc_all_ok l h :
  map_Forall (fun _ v => exists o, v = Obj o) h -> Forall (fun v => exists o, v = Obj o) l ->
  let '(rs, h') := alloc_all l h in
  map_Forall (fun _ v => exists o, v = Obj o) h' /\ Forall (fun r => is_Some (h' !! r)) rs.
Proof.
  revert h. induction l as [|v l IH]; intros h Hh Hl; [done|]. cbn [alloc_all].
  inversion Hl as [|? ? Hv Hl']; subst. specialize (IH (<[alloc h := v]> h)).
  pose proof (alloc_all_spec l (<[alloc h := v]> h)) as Hs.
  destruct (alloc_all l _) as [rs h']. destruct Hs as (_ & _ & Hold & _).
  destruct IH as [H1 H2]; [by apply map_Forall_insert_2|done|]. split; [done|]. constructor; [|done].
  exists v. apply Hold. apply lookup_insert_eq.
Qed.

(** ** The handlers preserve the types *)

(** What happens on the page: it is mounted, the watched identifier changes, the
    wallet is created again, or a user acts on it. *)
Inductive event :=
  | Mounted
  | WalletIdChanged (newID : value)
  | CreateAgain
  | UserAction (confirmed : bool) (a : action).

Definition event_task `{Browser} `{Canonicalizer} `{NaCl} `{Config} (e : event) : script unit :=
  match e with
  | Mounted => mounted
  | WalletIdChanged newID => on_wallet_id newID
  | CreateAgain => handleCreateWallet
  | UserAction confirmed a => dispatch confirmed a
  end.

(** The results of [map] satisfy what the function's results do. *)
Lemma map_method_forall (Q : value -> Prop) name f v x :
  (forall a b, f a = Normal b -> Q b) -> map_method name f v = Normal x ->
  exists l, x = Arr l /\ Forall Q l.
Proof.
  intros Hf. destruct v as [| | | | |l| |]; try done. cbn [map_method].
  assert (forall ys, map_out f l = Normal ys -> Forall Q ys) as Hl.
  { induction l as [|a l IH]; intros ys; cbn [map_out]; [by intros [= <-]|].
    intros (b & Hb & (ys' & Hys & [= <-])%outcome_bind_Normal)%outcome_bind_Normal.
    constructor; [by eapply Hf|by apply IH]. }
  destruct (map_out f l) as [ys|e]; [|done]. intros [= <-]. exists ys. auto.
Qed.

(** Updates of the refs other than the entries, the list, the registered domains, the
    name typed and the flag of a submission. *)
Definition other_refs (f : view_refs -> view_refs) : Prop :=
  forall v, heap (f v) = heap v /\ myDomains (f v) = myDomains v /\ domains (f v) = domains v /\
    domainName (f v) = domainName v /\ view_isProcessing (f v) = view_isProcessing v.

Definition is_obj (v : value) : Prop := exists o, v = Obj o.

(** A relation between states that allows what the handlers other than
    [handleSubmit] and the field of the name write. *)
Class PageFrame (R : world -> world -> Prop) : Prop := {
  pf_order :: PreOrder R;
  pf_service :: ServiceFrame R;
  pf_refs f w : other_refs f -> R w (set_view f w);
  pf_object r k x v w : set (deref r w) k x = Normal v ->
    R w (set_view (fun u => set_myDomains (myDomains u) (<[r := v]> (heap u)) u) w);
  pf_load l w : Forall is_obj l ->
    R w (set_view (fun u => let '(rs, h) := alloc_all l (heap u) in set_myDomains rs h u) w);
  pf_clear w : R w (set_view (fun u => set_myDomains [] (heap u) u) w);
  pf_rows rows w : Forall (fun d => is_nullish d = false) rows -> R w (set_view (set_domains (Arr rows)) w)
}.

Section frame.
Context `{Browser} `{Canonicalizer} `{NaCl} `{Config}.
Context (R : world -> world -> Prop) `{!PageFrame R}.

Lemma steady_refs f : other_refs f -> steady R (modify (set_view f)).
Proof. intros Hf. apply steady_modify. intros w. by apply pf_refs. Qed.

Hint Extern 1 (steady _ (modify (set_view _))) => (apply steady_refs; done) : steady.

Lemma steady_status s : steady R (set_status_ref s).
Proof. unfold set_status_ref. auto with steady. Qed.

Lemma steady_assign r k x : steady R (assign r k x).
Proof.
  intros w. unfold assign. cbn. destruct (set (deref r w) k x) as [v|e] eqn:E; cbn; [|done].
  split; [by eapply pf_object|done].
Qed.

Hint Resolve steady_status steady_assign : steady.

Lemma steady_lift_bind {A B} (m : outcome A) (k : A -> script B) :
  (forall a, m = Normal a -> steady R (k a)) -> steady R (lift m ≫= k).
Proof. intros Hk. destruct m as [a|e]; [by apply Hk|done]. Qed.

Lemma steady_loadMyDomains : steady R loadMyDomains.
Proof.
  unfold loadMyDomains. apply steady_bind; [auto with steady|intros id]. apply steady_if; [done|].
  apply steady_bind; [auto with steady|intros stored]. apply steady_lift_bind. intros x Hx.
  apply (map_method_forall is_obj) in Hx as (l & -> & Hl).
  - apply steady_modify. intros w. by apply pf_load.
  - intros a b. unfold view_entry. intros (ip & _ & [= <-])%outcome_bind_Normal. by eexists.
Qed.

Lemma steady_fetchDomains : steady R fetchDomains.
Proof.
  unfold fetchDomains. apply steady_try; [|intros e; auto 8 with steady].
  apply steady_bind; [auto with steady|intros all]. apply steady_lift_bind. intros x Hx.
  apply (map_method_forall (fun v => is_nullish v = false)) in Hx as (l & -> & Hl).
  - apply steady_bind; [|intros _; auto with steady]. apply steady_modify. intros w. by apply pf_rows.
  - intros a b. unfold domain_row. intros (n & _ & [= <-])%outcome_bind_Normal. done.
Qed.

Hint Resolve steady_loadMyDomains steady_fetchDomains : steady.

Lemma steady_sign_and_send type id payload s : steady R (sign_and_send type id payload s).
Proof. unfold sign_and_send, applySpendPlan. auto 40 with steady. Qed.

Lemma steady_update_stored id d f : steady R (update_stored id d f).
Proof. unfold update_stored. cbv zeta. auto 12 with steady. Qed.

Hint Resolve steady_sign_and_send steady_update_stored : steady.
Hint Extern 1 (steady _ (let '(_, _) := ?x in _)) => destruct x : steady.

Lemma steady_on_refused l r e : steady R (on_refused l r e).
Proof. unfold on_refused. cbv zeta. auto 40 with steady. Qed.

Hint Resolve steady_on_refused : steady.

Lemma steady_handleFirstUpdate r : steady R (handleFirstUpdate r).
Proof. unfold handleFirstUpdate, reveal_body. auto 60 with steady. Qed.

Lemma steady_handleUpdate r : steady R (handleUpdate r).
Proof. unfold handleUpdate, update_body. auto 60 with steady. Qed.

Lemma steady_clearPending b : steady R (clearPendingDomains b).
Proof.
  unfold clearPendingDomains. apply steady_if; [done|]. apply steady_bind; [auto with steady|intros id].
  apply steady_if; [|done]. apply steady_bind; [auto with steady|intros _].
  apply steady_bind; [|intros _; auto with steady]. apply steady_modify. intros w. apply pf_clear.
Qed.

(** Submissions, and inputs of the name. *)
Definition is_submit (e : event) : bool :=
  match e with UserAction _ Submit => true | _ => false end.
Definition is_name (e : event) : bool :=
  match e with UserAction _ (TypeDomain _) => true | _ => false end.

Lemma steady_event e : is_submit e = false -> is_name e = false -> steady R (event_task e).
Proof.
  intros He Hn. destruct e as [|id| |b a]; cbn [event_task].
  - unfold mounted, syncMinerID. auto 40 with steady.
  - unfold on_wallet_id, syncMinerID. auto 16 with steady.
  - unfold handleCreateWallet. auto 16 with steady.
  - destruct a; try done; cbn [dispatch]; auto 16 using steady_clearPending, steady_handleFirstUpdate,
      steady_handleUpdate with steady.
Qed.

(** The body of a submission, the branch without a wallet apart. *)
Lemma steady_handleSubmit :
  (forall b w, R w (set_view (set_processing b) w)) -> (forall s w, R w (set_view (set_domainName s) w)) ->
  steady R handleSubmit.
Proof.
  intros Hp Hn. assert (forall b, steady R (modify (set_view (set_processing b)))) as Hb
    by (intros b; by apply steady_modify).
  assert (forall s, steady R (modify (set_view (set_domainName s)))) as Hs by (intros s; by apply steady_modify).
  unfold handleSubmit, submit_body. auto 40 with steady.
Qed.
End frame.

#[export] Hint Resolve steady_status steady_assign steady_loadMyDomains steady_fetchDomains
  steady_sign_and_send : steady.
#[export] Hint Extern 1 (steady _ (modify (set_view _))) => (apply steady_refs; [apply _|done]) : steady.
#[export] Hint Extern 1 (steady _ (let '(_, _) := ?x in _)) => destruct x : steady.
#[export] Hint Extern 1 (PageFrame _) => apply _ : steady.

(** *** Types are preserved *)

(** Updates that concern neither the entries, the list nor the registered domains. *)
Definition other_data (f : view_refs -> view_refs) : Prop :=
  forall v, heap (f v) = heap v /\ myDomains (f v) = myDomains v /\ domains (f v) = domains v.

Definition keeps_types (w w' : world) : Prop := view_ok w -> view_ok w'.

#[export] Instance keeps_types_frame : PageFrame keeps_types.
Proof.
  split.
  - split; [intros w Hw; exact Hw|]. intros w1 w2 w3 H1 H2 Hw. by apply H2, H1.
  - split; intros; intros Hw; (eapply view_ok_ext; [..|exact Hw]; done).
  - intros f w Hf Hw. destruct (Hf (view w)) as (H1 & H2 & H3 & _). by apply (view_ok_ext w).
  - intros r k x v w Hv Hw. unfold deref in Hv. destruct (heap (view w) !! r) as [v0|] eqn:E; [|done].
    destruct (vo_heap w Hw r v0 E) as [o ->]. injection Hv as <-. by apply view_ok_object.
  - intros l w Hl [Hh ? ?]. pose proof (alloc_all_ok l (heap (view w)) Hh Hl) as Ha.
    unfold set_view. destruct (alloc_all l (heap (view w))) as [rs h'] eqn:E. destruct Ha.
    split; cbn; rewrite ?E; done.
  - intros w [? _ ?]. by split.
  - intros rows w Hr Hw. by apply view_ok_domains.
Qed.

Lemma event_types `{Browser} `{Canonicalizer} `{NaCl} `{Config} e : steady keeps_types (event_task e).
Proof.
  assert (forall f w, other_data f -> keeps_types w (set_view f w)) as Hf.
  { intros f w Hf Hw. destruct (Hf (view w)) as (? & ? & ?). by apply (view_ok_ext w). }
  destruct (is_submit e) eqn:He; [|destruct (is_name e) eqn:Hn; [|by apply steady_event; [apply _|..]]].
  - destruct e as [| | |b []]; try done. cbn [event_task dispatch].
    apply steady_handleSubmit; [apply _|intros; by apply Hf..].
  - destruct e as [| | |b []]; try done. cbn [event_task dispatch]. apply steady_modify. intros w. by apply Hf.
Qed.

Lemma view_ok_init st n : view_ok (page_load st n).
Proof. split; [apply map_Forall_empty|constructor|by exists []]. Qed.

Lemma view_ok_reachable `{Browser} `{Canonicalizer} `{NaCl} `{Config} server events sched st n l :
  view_ok (interleave server sched (event_task <$> events) (page_load st n) l).1.2.
Proof.
  apply (steady_interleave keeps_types); [|apply view_ok_init].
  apply Forall_fmap, Forall_forall. intros e _. apply event_types.
Qed.

(** ** Properties *)

(** C9: however the page's handlers are started and interleaved, against any server
    and any stored data, the page can be rendered (no expression of its template
    reads a member of [undefined]), and it offers exactly: a submission when none is
    being processed and a name is typed, a revelation of each pending entry and an
    update of each revealed one that is not busy and has an address, the removal of
    all entries when there are some, and a refresh; the fields of the form accept
    input when no submission is processed, those of an entry when it is not busy. *)
Theorem page_well_typed `{Browser} `{Canonicalizer} `{NaCl} `{Config} server events sched st n l :
  let w := (interleave server sched (event_task <$> events) (page_load st n) l).1.2 in
  exists page, render w = Normal page /\ offered page = actions w /\ editable page = inputs w.
Proof.
  intros w. destruct (render_total w) as [page Hp]; [apply view_ok_reachable|].
  exists page. split_and!; [done|by apply offered_render|by apply editable_render].
Qed.

(** ** From a revelation to an update *)

Lemma prop_define k v o k' :
  prop (Obj (props_define k v o)) k' = if String.eqb k' k then v else prop (Obj o) k'.
Proof. cbn [prop]. rewrite props_get_define. by destruct (String.eqb k' k). Qed.

(** The members of a revealed entry as it is shown. *)
Lemma shown_revealed d ip o :
  prop (Obj o) "domain" = Str d -> ip <> "" ->
  let p := shown (patch (Str d) [("status", Str "revealed"); ("ip", Str ip)] (Obj o)) in
  prop p "domain" = Str d /\ prop p "status" = Str "revealed" /\ prop p "newIp" = Str ip /\
  prop p "isUpdating" = Bool false.
Proof.
  intros Hd Hip. unfold patch. rewrite Hd. cbn [strict_eq]. rewrite String.eqb_refl. cbv zeta.
  unfold shown, spread, props_spread. cbn [own_props fold_left fst snd].
  assert (forall x, x = Str ip -> js_or x (Str "") = Str ip) as Hor.
  { intros x ->. unfold js_or. cbn [truthy]. by destruct (String.eqb_spec ip ""). }
  rewrite !prop_define. cbn -[prop js_or]. by rewrite Hd, ?Hor by done.
Qed.

Lemma shown_domain o : prop (shown (Obj o)) "domain" = prop (Obj o) "domain".
Proof. unfold shown, spread, props_spread. cbn [own_props fold_left fst snd]. by rewrite !prop_define. Qed.

Lemma entry_actions_ref a r p : a ∈ entry_actions r p -> a = Reveal r \/ a = Update r.
Proof. unfold entry_actions. case_match; case_match; set_solver. Qed.

(** The actions on entries are those of the entries on the list. *)
Lemma entry_action_offered a r w :
  a = Reveal r \/ a = Update r ->
  a ∈ actions w <-> isWalletLoaded w = true /\ r ∈ myDomains (view w) /\ a ∈ entry_actions r (deref r w).
Proof.
  intros Ha. unfold actions. rewrite elem_of_app, list_elem_of_singleton. split.
  - intros [Hin| ->]; [|by destruct Ha]. destruct (isWalletLoaded w); [|set_solver]. split; [done|].
    apply elem_of_app in Hin as [Hin|Hin]; [destruct (_ && _), Ha; set_solver|].
    destruct (myDomains (view w)) as [|r0 rs]; [set_solver|].
    apply elem_of_app in Hin as [Hin|Hin]; [destruct Ha; set_solver|].
    apply list_elem_of_In, in_flat_map in Hin as (r' & Hr' & Hin). apply list_elem_of_In in Hr', Hin.
    assert (r' = r) as -> by (apply entry_actions_ref in Hin as Hc; destruct Ha, Hc; congruence). done.
  - intros (Hl & Hr & Hin). rewrite Hl. left. apply elem_of_app. right.
    destruct (myDomains (view w)) as [|r0 rs]; [set_solver|]. apply elem_of_app. right.
    apply list_elem_of_In, in_flat_map. exists r. by rewrite <- !list_elem_of_In.
Qed.

(** The page on a list that shows entries of which those of a name are revealed. *)
Lemma revealed_offers d ip es w page :
  isWalletLoaded w = true -> render w = Normal page -> ip <> "" ->
  Forall (fun e => exists o, e = Obj o) es ->
  shows w (patch (Str d) [("status", Str "revealed"); ("ip", Str ip)] <$> es) ->
  (forall e, e ∈ es -> prop e "domain" = Str d ->
     exists r, prop (deref r w) "domain" = Str d /\ prop (deref r w) "newIp" = Str ip /\ Update r ∈ offered page) /\
  (forall r, prop (deref r w) "domain" = Str d -> Reveal r ∉ offered page).
Proof.
  intros Hloaded Hpage Hip Hobj Hshows. rewrite (offered_render _ _ Hpage). split.
  - intros e He Hd. rewrite Forall_forall in Hobj. destruct (Hobj e He) as [o ->].
    apply list_elem_of_lookup in He as [i Hi]. unfold shows in Hshows.
    assert ((shown <$> (patch (Str d) [("status", Str "revealed"); ("ip", Str ip)] <$> es)) !! i
      = Some (shown (patch (Str d) [("status", Str "revealed"); ("ip", Str ip)] (Obj o)))) as Hx
      by (by rewrite !list_lookup_fmap, Hi).
    rewrite <- Hshows in Hx. apply list_lookup_fmap_Some in Hx as (r & Hr & Hri).
    destruct (shown_revealed d ip o Hd Hip) as (D1 & D2 & D3 & D4). rewrite Hr in D1, D2, D3, D4.
    exists r. split_and!; [done..|]. apply list_elem_of_lookup_2 in Hri.
    apply (entry_action_offered _ r); [by right|]. split_and!; [done..|].
    unfold entry_actions. rewrite D2, D3, D4. cbn.
    destruct (String.eqb_spec ip ""); [done|]. set_solver.
  - intros r Hd Hin.
    apply (entry_action_offered _ r) in Hin as (_ & Hr & Hin); [|by left].
    assert (strict_eq (prop (deref r w) "status") (Str "pending") = true) as Hst.
    { revert Hin. unfold entry_actions. destruct (strict_eq _ (Str "pending")); [done|].
      cbn [andb app]. destruct (_ && _); [by intros ?%list_elem_of_singleton|by intros ?%elem_of_nil]. }
    apply list_elem_of_lookup in Hr as [i Hi].
    assert (((fun r => deref r w) <$> myDomains (view w)) !! i = Some (deref r w)) as Hx
      by (by rewrite list_lookup_fmap, Hi).
    unfold shows in Hshows. rewrite Hshows in Hx. apply list_lookup_fmap_Some in Hx as (e' & Heq & Hx).
    apply list_lookup_fmap_Some in Hx as (e & -> & He). apply list_elem_of_lookup_2 in He.
    rewrite Forall_forall in Hobj. destruct (Hobj e He) as [o ->]. rewrite Heq in Hd, Hst.
    assert (prop (Obj o) "domain" = Str d) as Ho.
    { revert Hd. unfold patch. destruct (strict_eq (prop (Obj o) "domain") (Str d)) eqn:E; [|by rewrite shown_domain].
      intros _. destruct (prop (Obj o) "domain") as [| | |[]| | | |]; try done. apply String.eqb_eq in E. by subst. }
    destruct (shown_revealed d ip o Ho Hip) as (_ & H2 & _). rewrite H2 in Hst. done.
Qed.

(** C26: revealing a stored entry from a well-typed ready page leads to a page that
    offers an update of this name, preset to the address revealed, and no further
    revelation of it. *)
Theorem revealed_then_updatable `{Browser} `{CanonicalizerLaws} `{NaClLaws} `{Config}
    server confirmed n es plan response r o d ip w l :
  ready n es plan response w -> view_ok w -> Forall (fun e => exists o, e = Obj o) es ->
  (exists e, e ∈ es /\ prop e "domain" = Str d) ->
  heap (view w) !! r = Some (Obj o) -> json_ok (Obj o) ->
  prop (Obj o) "domain" = Str d -> json_ok (prop (Obj o) "salt") -> json_ok (prop (Obj o) "txid") ->
  prop (Obj o) "revealIp" = Str ip -> trim ip <> "" ->
  accepting server (key_params "NameFirstUpdate" n (reveal_payload (Obj o) ip)) plan response l ->
  exists w' l' page, run server (dispatch confirmed (Reveal r)) w l = (Normal tt, w', l') /\
    render w' = Normal page /\
    (exists r', prop (deref r' w') "domain" = Str d /\ prop (deref r' w') "newIp" = Str (trim ip) /\
       Update r' ∈ offered page) /\
    (forall r', prop (deref r' w') "domain" = Str d -> Reveal r' ∉ offered page).
Proof.
  intros Hready Hok Hobj (e & He & Hed) Ho Hjo Hd Hsalt Htx Hip Htrim Hacc.
  destruct (run_handleFirstUpdate server n es plan response r o d ip w l) as (b & body & w' & Hrun & _ & _ & _ & Hsh & Hw & _);
    [done..|].
  assert (view_ok w') as Hok'.
  { pose proof (steady_run keeps_types server (handleFirstUpdate r) w l (steady_handleFirstUpdate _ r)) as Hs.
    rewrite Hrun in Hs. by apply Hs. }
  destruct (render_total w' Hok') as [page Hpage].
  destruct (revealed_offers d (trim ip) es w' page (key_wallet_loaded n w' Hw) Hpage Htrim Hobj Hsh) as [Hu Hr].
  eexists w', _, page. split_and!; [exact Hrun|done|by apply (Hu e)|exact Hr].
Qed.

Import Reference DefaultConfig WalletFlow.Page.

Lemma listed_ok status : view_ok (listed status).
Proof.
  split; [|repeat constructor; by eexists|by exists []].
  apply map_Forall_singleton. by eexists.
Qed.

Lemma revealed_then_updatable_witness :
  exists w' l' page, run backend (dispatch true (Reveal 0)) (listed "pending") [] = (Normal tt, w', l') /\
    render w' = Normal page /\
    (exists r', prop (deref r' w') "domain" = Str "example.com" /\
       prop (deref r' w') "newIp" = Str (trim " 10.0.0.1") /\ Update r' ∈ offered page).
Proof.
  destruct (revealed_then_updatable backend true 0 [stored "pending"] Demo.plan accepted 0
    (shown_object "pending") "example.com" " 10.0.0.1" (listed "pending") [])
    as (w' & l' & page & Hrun & Hpage & Hu & _);
    [apply listed_ready; left; reflexivity|apply listed_ok|apply Forall_singleton; eexists; reflexivity
    |exists (stored "pending"); split; [left|reflexivity]
    |apply lookup_singleton_eq|apply shown_ok; constructor|reflexivity
    |constructor|constructor|reflexivity|discriminate|apply backend_accepting|].
  exists w', l', page. exact (conj Hrun (conj Hpage Hu)).
Defined.
