(* ===== verification/WalletSystem.v ===== *)
(** * The wallet's page as a system of handlers

    A user starts handlers by acting on the page as it is rendered, and the event
    loop resumes the handlers that are running, in any order.  The states of this
    system are the running handlers, the shared state and the requests sent; its
    steps are those of the user and of the event loop.

    A submission disables the form until it ends: at most one is ever in flight,
    [isProcessing] tells whether there is one, and each one ends.  A revelation
    does not have this protection: the list it works on may be replaced while it
    is in flight, and the entry is then offered again. *)

From S2P Require Import Prelude JsValue Json JsonFacts JsonCanon Sha256 Async Platform World Hash.
From S2P Require Import Storage DomainStorage TransactionService CryptoService WalletService.
From S2P Require Import ApiService UseWallet UseTransaction TransactionFlow WalletView WalletFlow.
From S2P Require Import Component WalletTemplate ServiceSafety WalletPage.

(** ** The system *)

Record system := System {
  running : list (event * script unit);
  state : world;
  requests : list request
}.

(** The user presses a button or types in a field where the page has one, enabled. *)
Definition allowed (w : world) (e : event) : Prop :=
  match e with
  | UserAction _ a => exists page, render w = Normal page /\
      (a ∈ offered page \/ exists f v, f ∈ editable page /\ a = f v)
  | _ => True
  end.

(** What happens next: a handler is started, or the event loop resumes one. *)
Inductive label := Start (e : event) | Resume (i : nat).

Section system.
Context `{Browser} `{Canonicalizer} `{NaCl} `{Config}.
Context (server : list request -> request -> fetch_result).

Inductive step : label -> system -> system -> Prop :=
  | step_start e ts w l t' w' l' :
      allowed w e -> resume server (event_task e) w l = (t', w', l') ->
      step (Start e) (System ts w l) (System (ts ++ [(e, t')]) w' l')
  | step_resume i e t ts w l t' w' l' :
      ts !! i = Some (e, t) -> resume server t w l = (t', w', l') ->
      step (Resume i) (System ts w l) (System (<[i := (e, t')]> ts) w' l').

(** The states reachable from a page load. *)
Inductive reachable (st : gmap string string) (n : nat) (l : list request) : system -> Prop :=
  | reachable_init : reachable st n l (System [] (page_load st n) l)
  | reachable_step a s s' : reachable st n l s -> step a s s' -> reachable st n l s'.
End system.

Definition finished (t : script unit) : Prop :=
  match t with Ret _ | Raise _ => True | _ => False end.

#[export] Instance finished_dec t : Decision (finished t).
Proof. destruct t; simpl; apply _. Defined.

(** ** The flag of a submission *)

Definition busy (w : world) : bool := view_isProcessing (view w).
Definition typed (w : world) : string := domainName (view w).

(** What the handlers other than a submission do to the flag and the name. *)
Definition frozen (w w' : world) : Prop := busy w' = busy w /\ typed w' = typed w.

#[export] Instance frozen_frame : PageFrame frozen.
Proof.
  split; try done.
  - split; [by intros w|]. intros w1 w2 w3 [E1 F1] [E2 F2]. split; congruence.
  - intros f w Hf. by destruct (Hf (view w)) as (_ & _ & _ & ? & ?).
  - intros l w _. unfold frozen, busy, typed. cbn. by destruct (alloc_all l (heap (view w))).
Qed.

(** A submission of the name [d] is being processed. *)
Definition submitting (d : string) (w : world) : Prop := busy w = true /\ typed w = d.

Lemma submitting_frozen d w w' : frozen w w' -> submitting d w -> submitting d w'.
Proof. intros [E F] [Hb Ht]. split; congruence. Qed.

(** A handler that yields in states of [I] only, and ends in a state of [Q], provided
    that it is resumed in states of [I]. *)
Fixpoint flagged {A} (I Q : world -> Prop) (s : world) (t : script A) : Prop :=
  match t with
  | Ret _ | Raise _ => Q s
  | Get k => flagged I Q s (k s)
  | Put s' k => flagged I Q s' k
  | Await k => I s /\ forall s', I s' -> flagged I Q s' k
  | Fetch _ k => I s /\ forall x s', I s' -> flagged I Q s' (k x)
  end.

Definition anywhere (w : world) : Prop := True.
Definition idle (w : world) : Prop := busy w = false.

(** What leaves flag and name alone, keeps [P] and returns values of [V] can be
    followed by a flagged handler. *)
Lemma flagged_bind {A B} d (P : world -> Prop) (V : A -> Prop) Q (t : script A) (f : A -> script B) s :
  submitting d s -> P s -> guarantee frozen s t -> safe P t -> yields P V t ->
  (forall s, P s -> Q s) ->
  (forall a s', V a -> submitting d s' -> P s' -> flagged (fun w => submitting d w /\ P w) Q s' (f a)) ->
  flagged (fun w => submitting d w /\ P w) Q s (t ≫= f).
Proof.
  unfold mbind, task_bind. intros Hs HP Ht Hsafe Hy HQ Hf. revert s Hs HP Ht.
  induction t as [a|e|k IH|s1 k IH|k IH|r k IH]; intros s Hs HP Ht; simpl in *; auto.
  - destruct Ht as [E Ht], Hsafe as [HP1 Hsafe]. apply IH; auto. by eapply submitting_frozen.
  - split; [done|]. intros s' [? ?]. auto.
  - split; [done|]. intros x s' [? ?]. auto.
Qed.

(** What completes in the current slice and keeps [P] is flagged. *)
Lemma flagged_sync {A} I (P : world -> Prop) (t : script A) s :
  sync t -> safe P t -> P s -> flagged I P s t.
Proof.
  intros Ht Hsafe. revert s. induction t; intros w Hw; simpl in *; try done; auto.
  destruct Hsafe. auto.
Qed.

Lemma flagged_try {A} I Q (t : script A) h s :
  flagged I Q s t -> (forall e s', Q s' -> flagged I Q s' (h e)) -> flagged I Q s (try_catch t h).
Proof.
  intros Ht Hh. revert s Ht.
  induction t as [a|e|k IH|s1 k IH|k IH|r k IH]; intros s Ht; simpl in *; auto; destruct Ht; auto.
Qed.

Lemma flagged_finally {A} I P Q (t : script A) g s :
  flagged I P s t -> (forall s', P s' -> Q (g s')) -> flagged I Q s (finally t (modify g)).
Proof.
  intros Ht Hg. revert s Ht.
  induction t as [a|e|k IH|s1 k IH|k IH|r k IH]; intros s Ht; simpl in *; auto; destruct Ht; auto.
Qed.

Lemma flagged_gets {A B} I Q (g : world -> A) (f : A -> script B) s :
  flagged I Q s (f (g s)) -> flagged I Q s (gets g ≫= f).
Proof. done. Qed.

(** One slice of a flagged handler. *)
Lemma flagged_resume {A} server I Q (t : script A) s l :
  flagged I Q s t ->
  let '(t', s', _) := resume server t s l in
  (match t' with Ret _ | Raise _ => Q s' | _ => False end) \/
  (I s' /\ forall s'', I s'' -> flagged I Q s'' t').
Proof.
  revert s l. induction t as [a|e|k IH|s1 k IH|k IH|r k IH]; intros s l Ht; simpl in *.
  - by left.
  - by left.
  - by apply IH.
  - by apply IH.
  - by right.
  - right. destruct Ht. auto.
Qed.

Section submission.
Context `{Browser} `{Canonicalizer} `{NaCl} `{Config}.

Lemma sync_read_list k : sync (read_list k).
Proof. unfold read_list, ls_getItem. auto with sync. Qed.

Lemma sync_ls_setItem k v : sync (ls_setItem k v).
Proof. intros w. simpl. by destruct (accepts _ _ _). Qed.

Hint Resolve sync_read_list sync_ls_setItem : sync.

Lemma sync_savePendingDomain id d s c t : sync (savePendingDomain id d s c t).
Proof. unfold savePendingDomain. cbv zeta. apply sync_bind; [auto with sync|intros ?]. apply sync_bind; [done|auto with sync]. Qed.

Lemma sync_loadMyDomains : sync loadMyDomains.
Proof.
  unfold loadMyDomains, getPendingDomains. repeat first [apply sync_bind; [auto with sync|intros ?]|apply sync_if; [done|]].
  by case_match.
Qed.

Hint Resolve sync_savePendingDomain sync_loadMyDomains : sync.

(** The values the steps of a submission return. *)
Lemma yields_hash P d salt :
  yields P (eq (sha256_hex (domain_preimage (Str d) (Str salt)))) (await (hashDomainWithSalt (Str d) (Str salt))).
Proof. done. Qed.

Lemma yields_txid P tx :
  yields P (fun v => exists id, prop v "transactionID" = Str id) (await (computeTransactionID tx)).
Proof.
  apply yields_await. unfold computeTransactionID. apply yields_then. intros type. apply yields_then.
  intros id. exists id. unfold spread, props_spread. cbn [fold_left fst snd]. rewrite prop_define.
  by rewrite String.eqb_refl.
Qed.

Lemma yields_sign_and_send P type id payload s :
  yields P (fun r => exists id, prop r.1 "transactionID" = Str id) (sign_and_send type id payload s).
Proof.
  unfold sign_and_send. do 3 (apply yields_then; intros ?).
  eapply yields_bind; [apply yields_txid|]. intros tx Htx. do 5 (apply yields_then; intros ?). exact Htx.
Qed.

(** A submission of [d] stores, in states of [P], what opens its commitment. *)
Record keeps_submission (d : string) (P : world -> Prop) : Prop := {
  ks_view f : safe P (modify (set_view f));
  ks_salt : safe P generateSalt;
  ks_send type id payload s : safe P (sign_and_send type id payload s);
  ks_save id salt txid : safe P (savePendingDomain id (Str d) (Str salt)
    (Str (sha256_hex (domain_preimage (Str d) (Str salt)))) (Str txid));
  ks_load : safe P loadMyDomains
}.

Lemma keeps_submission_any d : keeps_submission d anywhere.
Proof. split; intros; apply safe_any. Qed.

Lemma flagged_submit_body d P s :
  keeps_submission d P -> submitting d s -> P s ->
  flagged (fun w => submitting d w /\ P w) P s submit_body.
Proof.
  intros [Hv Hsalt Hsend Hsave Hload] Hs HP. unfold submit_body, set_status_ref.
  eapply flagged_bind; [done..|apply steady_generateSalt; apply _|done|apply yields_any|done|].
  intros salt s1 _ [Hb1 Hd1] HP1. apply flagged_gets. fold (typed s1). rewrite Hd1.
  eapply flagged_bind; [done..|apply silent_steady; auto with silent|auto with safe|apply yields_hash|done|].
  intros h s3 <- Hs3 HP3. apply flagged_gets.
  destruct (negb (truthy (wallet_ref_id s3))); [by apply flagged_sync; auto with sync safe|].
  apply flagged_gets.
  eapply flagged_bind; [done..|apply steady_sign_and_send; apply _|done|apply yields_sign_and_send|done|].
  intros [tx response] s6 [txid Htx] [Hb6 Hd6] HP6. cbn [fst] in Htx. rewrite Htx.
  destruct (succeeded response); [|by apply flagged_sync; auto with sync safe].
  match goal with |- flagged _ _ _ (modify ?g ≫= ?f) =>
    change (flagged (fun w => submitting d w /\ P w) P (g s6) (f tt)) end.
  apply flagged_gets. change (domainName _) with (typed s6). rewrite Hd6.
  apply flagged_sync; [auto 20 with sync|auto 20 with safe|]. exact (proj1 (Hv _ s6 HP6)).
Qed.

(** A submission that is started while none is in flight. *)
Lemma flagged_submit P s :
  keeps_submission (typed s) P -> busy s = false -> P s ->
  flagged (fun w => submitting (typed s) w /\ P w) (fun w => idle w /\ P w) s handleSubmit.
Proof.
  intros Hk Hs HP. pose proof (fun f w Hw => proj1 (ks_view _ _ Hk f w Hw)) as Hv.
  unfold handleSubmit. cbn -[submit_body finally try_catch].
  destruct (_ || _); [done|]. cbn -[submit_body finally try_catch].
  apply flagged_finally with P; [|intros s' Hs'; split; [done|by apply Hv]].
  apply flagged_try; [|intros e s' Hs'; apply (Hv _ s' Hs')].
  apply flagged_submit_body; [done..|]. apply (Hv _ _). by apply (Hv _ s).
Qed.
End submission.

(** ** The invariant *)

(** The submission at position [i] is in flight. *)
Definition in_flight (s : system) (i : nat) : Prop :=
  exists e t, running s !! i = Some (e, t) /\ is_submit e = true /\ ~ finished t.

(** A submission of [d] that is waiting to be resumed. *)
Definition waiting (P : world -> Prop) (d : string) (t : script unit) : Prop :=
  forall w, submitting d w -> P w -> flagged (fun w => submitting d w /\ P w) (fun w => idle w /\ P w) w t.

Record flag_inv (P : world -> Prop) (s : system) : Prop := {
  fi_state : P (state s);
  fi_others i e t : running s !! i = Some (e, t) -> is_submit e = false -> steady frozen t /\ safe P t;
  fi_submits i e t : running s !! i = Some (e, t) -> is_submit e = true -> ~ finished t ->
    exists d, submitting d (state s) /\ waiting P d t;
  fi_unique i j : in_flight s i -> in_flight s j -> i = j;
  fi_busy : busy (state s) = true -> exists i, in_flight s i
}.

(** Lists of handlers that differ at one position. *)
Definition differ_at (i : nat) (ts ts' : list (event * script unit)) : Prop :=
  forall j, j <> i -> ts' !! j = ts !! j.

Lemma in_flight_other i j ts ts' w l w' l' :
  differ_at i ts ts' -> j <> i -> in_flight (System ts' w' l') j <-> in_flight (System ts w l) j.
Proof. intros Hd Hj. unfold in_flight. cbn. by rewrite Hd. Qed.

(** A step of a handler that is no submission. *)
Lemma flag_inv_other P i e t' ts ts' w w' l l' :
  differ_at i ts ts' -> ts' !! i = Some (e, t') -> is_submit e = false ->
  ~ in_flight (System ts w l) i -> steady frozen t' /\ safe P t' -> P w' ->
  busy w' = busy w -> (busy w = true -> typed w' = typed w) ->
  flag_inv P (System ts w l) -> flag_inv P (System ts' w' l').
Proof.
  intros Hd Hi He Hn Ht HP Hw Hname [_ H1 H2 H3 H4].
  assert (forall j, in_flight (System ts' w' l') j <-> in_flight (System ts w l) j) as Hf.
  { intros j. destruct (decide (j = i)) as [->|Hj]; [|by apply in_flight_other with i].
    split; [|done]. intros (e' & t0 & Hr & Hs & _). cbn in Hr. simplify_eq. congruence. }
  split; cbn; [done|..].
  - intros j e0 t0 Hj Hs. destruct (decide (j = i)) as [->|Hne]; [by simplify_eq|].
    rewrite Hd in Hj by done. by eapply H1.
  - intros j e0 t0 Hj Hs Hf0. destruct (decide (j = i)) as [->|Hne]; [simplify_eq; congruence|].
    rewrite Hd in Hj by done. destruct (H2 j e0 t0 Hj Hs Hf0) as (d & [Hb Hd'] & Hfl). cbn in Hb, Hd'.
    exists d. split; [|done]. split; cbn; [congruence|]. by rewrite Hname.
  - intros j k. rewrite !Hf. apply H3.
  - rewrite Hw. intros Hb. destruct (H4 Hb) as [j Hj]. exists j. by apply Hf.
Qed.

(** A step of the only submission in flight. *)
Lemma flag_inv_submit P i e t' ts ts' w w' l l' :
  differ_at i ts ts' -> ts' !! i = Some (e, t') -> is_submit e = true ->
  (forall j, in_flight (System ts w l) j -> j = i) ->
  P w' ->
  (finished t' /\ busy w' = false) \/ (~ finished t' /\ exists d, submitting d w' /\ waiting P d t') ->
  flag_inv P (System ts w l) -> flag_inv P (System ts' w' l').
Proof.
  intros Hd Hi He Honly HP Ht [_ H1 H2 H3 H4].
  assert (forall j, in_flight (System ts' w' l') j -> j = i) as Honly'.
  { intros j Hj. destruct (decide (j = i)) as [|Hne]; [done|]. apply Honly.
    by apply (in_flight_other i j ts ts' w l w' l'). }
  split; cbn; [done|..].
  - intros j e0 t0 Hj Hs. destruct (decide (j = i)) as [->|Hne]; [simplify_eq; congruence|].
    rewrite Hd in Hj by done. by eapply H1.
  - intros j e0 t0 Hj Hs Hf0. assert (j = i) as -> by (apply Honly'; by exists e0, t0). simplify_eq.
    by destruct Ht as [[? _]|[_ ?]].
  - intros j k Hj Hk. by rewrite (Honly' j Hj), (Honly' k Hk).
  - intros Hb. exists i. exists e, t'. split_and!; [done..|]. destruct Ht as [[_ ?]|[? _]]; [congruence|done].
Qed.

Section invariant.
Context `{Browser} `{Canonicalizer} `{NaCl} `{Config}.
Context (server : list request -> request -> fetch_result).

(** A property of the shared state that the handlers keep. *)
Context (P : world -> Prop) (P_submit : forall d, keeps_submission d P).
Context (P_event : forall e, is_submit e = false -> safe P (event_task e)).

(** The outcome of one slice of a flagged submission. *)
Lemma submit_slice d (t : script unit) w l t' w' l' :
  flagged (fun w => submitting d w /\ P w) (fun w => idle w /\ P w) w t -> resume server t w l = (t', w', l') ->
  P w' /\ ((finished t' /\ busy w' = false) \/ (~ finished t' /\ submitting d w' /\ waiting P d t')).
Proof.
  intros Hf Hr. pose proof (flagged_resume server _ _ t w l Hf) as Hx. rewrite Hr in Hx.
  destruct Hx as [Hx|[[Hb HP] Hx]].
  - destruct t'; try done; destruct Hx; split; [done|by left|done|by left].
  - split; [done|]. right. split_and!; [|done|by intros w0 ? ?; apply Hx].
    intros Hfin. specialize (Hx w' (conj Hb HP)). destruct Hb as [Hb _].
    destruct t'; try done; destruct Hx as [Hx _]; unfold idle in Hx; congruence.
Qed.

(** A submission and an input of the name are possible when none is in flight. *)
Lemma submit_offered w : Submit ∈ actions w -> busy w = false.
Proof.
  unfold actions, busy. destruct (view_isProcessing (view w)); [|done].
  cbn [negb andb app]. intros Hin. exfalso. revert Hin.
  destruct (isWalletLoaded w); cbn [app].
  - destruct (myDomains (view w)) as [|r rs]; [by intros ?%list_elem_of_singleton|].
    rewrite elem_of_app, list_elem_of_singleton. intros [Hin|]; [|done].
    apply elem_of_cons in Hin as [Hin|Hin]; [done|].
    apply list_elem_of_In, in_flat_map in Hin as (r' & _ & Hin). apply list_elem_of_In in Hin.
    apply entry_actions_ref in Hin as [|]; done.
  - by intros ?%list_elem_of_singleton.
Qed.

Lemma entry_input_field f r p v :
  f ∈ entry_inputs r p -> is_submit (UserAction true (f v)) = false /\ is_name (UserAction true (f v)) = false.
Proof.
  unfold entry_inputs. rewrite elem_of_app. intros [Hf|Hf]; case_match; try (by apply elem_of_nil in Hf);
    apply elem_of_cons in Hf as [->|Hf]; try done; by apply list_elem_of_singleton in Hf as ->.
Qed.

Lemma input_enabled w f v :
  f ∈ inputs w -> is_submit (UserAction true (f v)) = false /\ (is_name (UserAction true (f v)) = true -> busy w = false).
Proof.
  unfold inputs, busy. destruct (isWalletLoaded w); [|by intros ?%elem_of_nil].
  rewrite elem_of_app. intros [Hf|Hf].
  - destruct (view_isProcessing (view w)); [by apply elem_of_nil in Hf|].
    apply elem_of_cons in Hf as [->|Hf]; [done|]. by apply list_elem_of_singleton in Hf as ->.
  - apply list_elem_of_In, in_flat_map in Hf as (r & _ & Hf). apply list_elem_of_In in Hf.
    destruct (entry_input_field f r _ v Hf) as [-> ->]. done.
Qed.

Lemma allowed_idle w e : allowed w e -> is_submit e = true \/ is_name e = true -> busy w = false.
Proof.
  destruct e as [| | |b a]; [by intros _ []..|]. cbn [allowed]. intros (page & Hp & Ha) Hor.
  rewrite (offered_render _ _ Hp), (editable_render _ _ Hp) in Ha. destruct Ha as [Ha|(f & v & Hf & ->)].
  - destruct Hor as [Hs|Hn]; destruct a; try done; [by apply submit_offered|].
    exfalso. revert Ha. unfold actions. rewrite elem_of_app, list_elem_of_singleton. intros [Ha|]; [|done].
    destruct (isWalletLoaded w); [|by apply elem_of_nil in Ha]. apply elem_of_app in Ha as [Ha|Ha].
    + destruct (_ && _); [by apply list_elem_of_singleton in Ha|by apply elem_of_nil in Ha].
    + destruct (myDomains (view w)) as [|r rs]; [by apply elem_of_nil in Ha|].
      apply elem_of_cons in Ha as [Ha|Ha]; [done|].
      apply list_elem_of_In, in_flat_map in Ha as (r' & _ & Ha). apply list_elem_of_In in Ha.
      by apply entry_actions_ref in Ha as [|].
  - destruct (input_enabled w f v Hf) as [Hns Hni]. destruct Hor as [Hs|Hn]; [|by apply Hni].
    change (is_submit (UserAction true (f v)) = true) in Hs. congruence.
Qed.

(** The first slice of an event that is no submission. *)
Lemma start_other e w l t' w' l' :
  is_submit e = false -> allowed w e -> P w -> resume server (event_task e) w l = (t', w', l') ->
  (steady frozen t' /\ safe P t') /\ P w' /\ busy w' = busy w /\ (busy w = true -> typed w' = typed w).
Proof.
  intros He Ha HP Hr. pose proof (safe_resume P server _ w l HP (P_event e He)) as Hs. rewrite Hr in Hs.
  destruct Hs as [HP' Hs]. destruct (is_name e) eqn:Hn.
  - pose proof (allowed_idle w e Ha (or_intror Hn)) as Hb. destruct e as [| | |b []]; try done.
    cbn in Hr. injection Hr as <- <- <-. split_and!; [done..|]. congruence.
  - pose proof (guarantee_resume frozen server (event_task e) w l (steady_event frozen e He Hn w)) as Hg.
    rewrite Hr in Hg. by destruct Hg as [[? ?] ?].
Qed.

Lemma start_flag_inv e ts w l t' w' l' :
  allowed w e -> resume server (event_task e) w l = (t', w', l') ->
  flag_inv P (System ts w l) -> flag_inv P (System (ts ++ [(e, t')]) w' l').
Proof.
  intros Ha Hr Hinv. assert (differ_at (length ts) ts (ts ++ [(e, t')])) as Hd.
  { intros j Hj. destruct (decide (j < length ts)) as [|]; [by apply lookup_app_l|].
    rewrite !lookup_ge_None_2; [done|lia|rewrite length_app; simpl; lia]. }
  assert ((ts ++ [(e, t')]) !! length ts = Some (e, t')) as Hl by (by apply list_lookup_middle).
  destruct (is_submit e) eqn:He.
  - pose proof (allowed_idle w e Ha (or_introl He)) as Hb.
    destruct e as [| | |b []]; try done. pose proof (fi_state _ _ Hinv) as HP. cbn in HP.
    destruct (submit_slice (typed w) _ w l t' w' l' (flagged_submit P w (P_submit _) Hb HP) Hr) as [HP' Hor].
    eapply (flag_inv_submit P (length ts)); [exact Hd|exact Hl|done| |done| |exact Hinv].
    + intros j (e0 & t0 & Hj & Hs & Hf). destruct (fi_submits _ _ Hinv j e0 t0 Hj Hs Hf) as (d & [Hb' _] & _).
      cbn in Hb'. congruence.
    + destruct Hor as [|[? ?]]; [by left|right]. split; [done|by eexists].
  - destruct (start_other e w l t' w' l' He Ha (fi_state _ _ Hinv) Hr) as (Ht & HP' & Hb & Hn).
    eapply (flag_inv_other P (length ts)); [exact Hd|exact Hl|done| |exact Ht|exact HP'|exact Hb|exact Hn|exact Hinv].
    intros (e0 & t0 & Hj & _). cbn in Hj. rewrite lookup_ge_None_2 in Hj by lia. done.
Qed.

Lemma resume_flag_inv i e t ts w l t' w' l' :
  ts !! i = Some (e, t) -> resume server t w l = (t', w', l') ->
  flag_inv P (System ts w l) -> flag_inv P (System (<[i := (e, t')]> ts) w' l').
Proof.
  intros Hi Hr Hinv.
  assert (differ_at i ts (<[i := (e, t')]> ts)) as Hd by (intros j Hj; by apply list_lookup_insert_ne).
  assert (<[i := (e, t')]> ts !! i = Some (e, t')) as Hl
    by (apply list_lookup_insert_eq; by eapply lookup_lt_Some).
  destruct (is_submit e) eqn:He.
  - destruct (decide (finished t)) as [Hf|Hf].
    + assert (t' = t /\ w' = w /\ l' = l) as (-> & -> & ->) by (destruct t; try done; by injection Hr).
      rewrite list_insert_id by done. by destruct Hinv.
    + destruct (fi_submits _ _ Hinv i e t Hi He Hf) as (d & Hsub & Hfl).
      destruct (submit_slice d t w l t' w' l' (Hfl w Hsub (fi_state _ _ Hinv)) Hr) as [HP' Hor].
      eapply (flag_inv_submit P i); [exact Hd|exact Hl|done| |done| |exact Hinv].
      * intros j Hj. apply (fi_unique _ _ Hinv); [done|]. by exists e, t.
      * destruct Hor as [|[? ?]]; [by left|right]. split; [done|by eexists].
  - destruct (fi_others _ _ Hinv i e t Hi He) as [Hst Hsafe].
    pose proof (guarantee_resume frozen server t w l (Hst w)) as Hg. rewrite Hr in Hg. destruct Hg as [[Hb Hn] Ht].
    pose proof (safe_resume P server t w l (fi_state _ _ Hinv) Hsafe) as Hs. rewrite Hr in Hs. destruct Hs as [HP' Hs].
    eapply (flag_inv_other P i); [exact Hd|exact Hl|done| |done|exact HP'|exact Hb|done|exact Hinv].
    intros (e0 & t0 & Hj & Hs0 & _). cbn in Hj. simplify_eq. congruence.
Qed.

Lemma step_flag_inv a s s' : step server a s s' -> flag_inv P s -> flag_inv P s'.
Proof. intros [e ts w l t' w' l'|i e t ts w l t' w' l']; [by apply start_flag_inv|by eapply resume_flag_inv]. Qed.

(** While a submission is processed, no step changes the name. *)
Lemma step_name a s s' :
  step server a s s' -> flag_inv P s -> busy (state s) = true -> busy (state s') = true ->
  typed (state s') = typed (state s).
Proof.
  intros [e ts w l t' w' l' Ha Hr|i e t ts w l t' w' l' Hi Hr] Hinv; cbn [state]; intros Hb Hb'.
  - destruct (is_submit e) eqn:He; [rewrite (allowed_idle w e Ha (or_introl He)) in Hb; done|].
    destruct (start_other e w l t' w' l' He Ha (fi_state _ _ Hinv) Hr) as (_ & _ & _ & Hn). by apply Hn.
  - destruct (is_submit e) eqn:He.
    + destruct (decide (finished t)) as [Hf|Hf]; [destruct t; try done; by injection Hr as <- <- <-|].
      destruct (fi_submits _ _ Hinv i e t Hi He Hf) as (d & Hsub & Hfl). cbn in Hsub.
      destruct (submit_slice d t w l t' w' l' (Hfl w Hsub (fi_state _ _ Hinv)) Hr)
        as [_ [[_ ?]|(_ & [_ Hd] & _)]]; [congruence|].
      rewrite Hd. by destruct Hsub as [_ ->].
    + destruct (fi_others _ _ Hinv i e t Hi He) as [Hst _].
      pose proof (guarantee_resume frozen server t w l (Hst w)) as Hg.
      rewrite Hr in Hg. by destruct Hg as [[_ ?] _].
Qed.

Lemma reachable_flag_inv st n l s : P (page_load st n) -> reachable server st n l s -> flag_inv P s.
Proof.
  intros HP. induction 1 as [|a s s' _ IH Hstep]; [|by eapply step_flag_inv].
  split; cbn; try done. intros i j (e & t & Hi & _). done.
Qed.
End invariant.

Lemma reachable_inv `{Browser} `{Canonicalizer} `{NaCl} `{Config} server st n l s :
  reachable server st n l s -> flag_inv anywhere s.
Proof.
  apply reachable_flag_inv; [apply keeps_submission_any| |done]. intros e _. apply safe_any.
Qed.

(** ** Every handler ends *)

(** Whatever the state, the requests and the answers at each resumption. *)
Inductive ends (server : list request -> request -> fetch_result) (t : script unit) : Prop :=
  | ends_now : finished t -> ends server t
  | ends_later : (forall w l, ends server (resume server t w l).1.1) -> ends server t.

Lemma ends_resume server t w l : ends server t -> ends server (resume server t w l).1.1.
Proof. intros [Hf|Hl]; [|by apply Hl]. destruct t; try done; by apply ends_now. Qed.

Lemma script_ends server t : ends server t.
Proof.
  induction t as [a|e|k IH|s1 k IH|k IH|r k IH]; [by apply ends_now..| | | |]; apply ends_later; intros w l; cbn.
  - by apply ends_resume.
  - by apply ends_resume.
  - done.
  - done.
Qed.

Section executions.
Context `{Browser} `{Canonicalizer} `{NaCl} `{Config}.
Context (server : list request -> request -> fetch_result).

(** An infinite execution from a page load. *)
Record execution (st : gmap string string) (n : nat) (l : list request)
    (exec : nat -> system) (labels : nat -> label) : Prop := {
  ex_init : exec 0 = System [] (page_load st n) l;
  ex_step k : step server (labels k) (exec k) (exec (S k))
}.

(** The event loop resumes the handler at position [i] again and again. *)
Definition resumed_forever (i : nat) (labels : nat -> label) : Prop :=
  forall k, exists d, labels (k + d) = Resume i.

Lemma execution_reachable st n l exec labels k :
  execution st n l exec labels -> reachable server st n l (exec k).
Proof.
  intros Hex. induction k as [|k IH]; [rewrite (ex_init _ _ _ _ _ Hex); constructor|].
  eapply reachable_step; [exact IH|apply Hex].
Qed.

(** Steps of other handlers leave a handler alone. *)
Lemma step_other a s s' i x :
  step server a s s' -> a <> Resume i -> running s !! i = Some x -> running s' !! i = Some x.
Proof.
  intros [e ts w l t' w' l' _ _|j e t ts w l t' w' l' _ _] Ha Hi; cbn in *.
  - by apply lookup_app_l_Some.
  - rewrite list_lookup_insert_ne by congruence. done.
Qed.

Lemma next_resumption st n l exec labels i x d k :
  execution st n l exec labels -> labels (k + d) = Resume i -> running (exec k) !! i = Some x ->
  exists m, k <= m /\ labels m = Resume i /\ running (exec m) !! i = Some x.
Proof.
  intros Hex. revert k. induction d as [|d IH]; intros k Hl Hi.
  - exists k. rewrite Nat.add_0_r in Hl. by split_and!.
  - assert (labels k = Resume i \/ labels k <> Resume i) as [Hk|Hk].
    { destruct (labels k) as [e|j]; [by right|]. destruct (decide (j = i)) as [->|]; [by left|right; congruence]. }
    + by exists k.
    + destruct (IH (S k)) as (m & Hm & ?); [by rewrite Nat.add_succ_comm|by eapply step_other; [apply Hex|..]|].
      exists m. split; [lia|done].
Qed.

(** A resumption of a submission in flight. *)
Lemma resumed_submission i e t s s' :
  step server (Resume i) s s' -> flag_inv anywhere s -> running s !! i = Some (e, t) -> is_submit e = true -> ~ finished t ->
  exists t', t' = (resume server t (state s) (requests s)).1.1 /\ running s' !! i = Some (e, t') /\
    (finished t' -> busy (state s') = false).
Proof.
  intros Hstep Hinv Hi He Hf. inversion Hstep as [|j e0 t0 ts w l t' w' l' Hj Hr]; subst. cbn in *.
  rewrite Hj in Hi. injection Hi as -> ->. exists t'. rewrite Hr. split_and!; [done| |].
  - apply list_lookup_insert_eq. by eapply lookup_lt_Some.
  - destruct (fi_submits _ _ Hinv i e t Hj He Hf) as (d & Hsub & Hfl).
    destruct (submit_slice server anywhere d t w l t' w' l' (Hfl w Hsub I) Hr) as [_ [[_ ?]|[? _]]]; [done|done].
Qed.

Lemma submission_finishes st n l exec labels i e t k :
  execution st n l exec labels -> resumed_forever i labels ->
  running (exec k) !! i = Some (e, t) -> is_submit e = true -> ~ finished t ->
  exists m t', k < m /\ running (exec m) !! i = Some (e, t') /\ finished t' /\ busy (state (exec m)) = false.
Proof.
  intros Hex Hfair. pose proof (script_ends server t) as Hends. revert k.
  induction Hends as [t Hf|t _ IH]; intros k Hi He Hn; [done|].
  destruct (Hfair k) as [d Hd]. destruct (next_resumption _ _ _ _ _ i (e, t) d k Hex Hd Hi) as (m & Hkm & Hm & Him).
  pose proof (ex_step _ _ _ _ _ Hex m) as Hstep. rewrite Hm in Hstep.
  destruct (resumed_submission i e t _ _ Hstep) as (t' & Ht' & Hi' & Hb); [|done..|].
  { eapply reachable_inv, execution_reachable, Hex. }
  destruct (decide (finished t')) as [Hf'|Hf'].
  - exists (S m), t'. split_and!; [lia|done|done|by apply Hb].
  - destruct (IH (state (exec m)) (requests (exec m)) (S m)) as (m' & t'' & Hm' & ?); [by rewrite <- Ht'|done|by rewrite <- Ht'|].
    exists m', t''. split; [lia|done].
Qed.
End executions.

(** ** Properties *)

(** C6: in every reachable state of the page, whatever the user does and however the
    handlers are interleaved, at most one submission is in flight,
    [isProcessing] is set exactly when there is one, and until it ends no step
    changes the name that was committed to. *)
Theorem one_submission `{Browser} `{Canonicalizer} `{NaCl} `{Config} server st n l s :
  reachable server st n l s ->
  (forall i j, in_flight s i -> in_flight s j -> i = j) /\
  (busy (state s) = true <-> exists i, in_flight s i) /\
  (forall a s', step server a s s' -> busy (state s) = true -> busy (state s') = true ->
     typed (state s') = typed (state s)).
Proof.
  intros Hr%reachable_inv. split_and!; [apply (fi_unique _ _ Hr)| |].
  - split; [apply (fi_busy _ _ Hr)|].
    intros (i & e & t & Hi & He & Hf). by destruct (fi_submits _ _ Hr i e t Hi He Hf) as (d & [? _] & _).
  - intros a s' Hs. eapply (step_name server anywhere); [|exact Hs|exact Hr]. intros e _. apply safe_any.
Qed.

(** C12: in every execution of the page that resumes a submission in flight again and
    again, the submission ends, whatever the server answers and the other handlers
    do, and the form is enabled again at that point. *)
Theorem submission_ends `{Browser} `{Canonicalizer} `{NaCl} `{Config} server st n l exec labels i k :
  execution server st n l exec labels -> resumed_forever i labels -> in_flight (exec k) i ->
  exists m, k < m /\ ~ in_flight (exec m) i /\ busy (state (exec m)) = false.
Proof.
  intros Hex Hfair (e & t & Hi & He & Hf).
  destruct (submission_finishes server st n l exec labels i e t k Hex Hfair Hi He Hf) as (m & t' & Hm & Hi' & Hf' & Hb).
  exists m. split_and!; [done| |done]. intros (e0 & t0 & Hi0 & _ & Hn0). rewrite Hi' in Hi0. by simplify_eq.
Qed.

(** ** Executing the system *)

Definition same_button (a b : action) : bool :=
  match a, b with
  | Submit, Submit | ClearAll, ClearAll | Refresh, Refresh => true
  | Reveal r, Reveal r' | Update r, Update r' => Nat.eqb r r'
  | _, _ => false
  end.

(** An input whose field is enabled. *)
Definition same_field (v : value) (a : action) (f : value -> action) : bool :=
  match a, f v with
  | TypeDomain _, TypeDomain _ | TypeTtl _, TypeTtl _ => true
  | TypeRevealIp r _, TypeRevealIp r' _ | TypeRevealTtl r _, TypeRevealTtl r' _
  | TypeNewIp r _, TypeNewIp r' _ | TypeUpdateTtl r _, TypeUpdateTtl r' _ => Nat.eqb r r'
  | _, _ => false
  end.

Definition input_value (a : action) : value :=
  match a with
  | TypeDomain v | TypeTtl v | TypeRevealIp _ v | TypeRevealTtl _ v | TypeNewIp _ v | TypeUpdateTtl _ v => v
  | _ => Undefined
  end.

(** Whether a step is possible. *)
Definition enabled (a : label) (s : system) : bool :=
  match a with
  | Start (UserAction _ b) =>
      is_normal (render (state s)) &&
      (existsb (same_button b) (actions (state s)) ||
       existsb (same_field (input_value b) b) (inputs (state s)))
  | Start _ => true
  | Resume i => (i <? length (running s))%nat
  end.

Section execute.
Context `{Browser} `{Canonicalizer} `{NaCl} `{Config}.
Context (server : list request -> request -> fetch_result).

(** The step, when it is possible. *)
Definition perform (a : label) (s : system) : system :=
  if enabled a s then
    match a with
    | Start e => let '(t, w, l) := resume server (event_task e) (state s) (requests s) in
                 System (running s ++ [(e, t)]) w l
    | Resume i =>
        match running s !! i with
        | Some (e, t) => let '(t', w, l) := resume server t (state s) (requests s) in
                         System (<[i := (e, t')]> (running s)) w l
        | None => s
        end
    end
  else s.

Lemma same_button_eq a b : same_button a b = true -> a = b.
Proof. destruct a, b; try done; cbn; intros ->%Nat.eqb_eq; done. Qed.

Lemma entry_input_shape f r p : f ∈ entry_inputs r p ->
  f = TypeRevealIp r \/ f = TypeRevealTtl r \/ f = TypeNewIp r \/ f = TypeUpdateTtl r.
Proof.
  unfold entry_inputs. rewrite elem_of_app. intros [Hf|Hf]; case_match; try (by apply elem_of_nil in Hf);
    apply elem_of_cons in Hf as [->|Hf]; auto; apply list_elem_of_singleton in Hf as ->; auto.
Qed.

Lemma same_field_eq w a f : f ∈ inputs w -> same_field (input_value a) a f = true -> a = f (input_value a).
Proof.
  unfold inputs. destruct (isWalletLoaded w); [|by intros ?%elem_of_nil]. rewrite elem_of_app. intros [Hf|Hf] Hs.
  - destruct (view_isProcessing (view w)); [by apply elem_of_nil in Hf|].
    apply elem_of_cons in Hf as [->|Hf]; [by destruct a|]. apply list_elem_of_singleton in Hf as ->. by destruct a.
  - apply list_elem_of_In, in_flat_map in Hf as (r & _ & Hf). apply list_elem_of_In, entry_input_shape in Hf.
    by destruct Hf as [->|[->|[->| ->]]], a; try done; apply Nat.eqb_eq in Hs as ->.
Qed.

Lemma enabled_allowed e s : enabled (Start e) s = true -> allowed (state s) e.
Proof.
  destruct e as [| | |c b]; try done. cbn [enabled allowed]. intros [Hr Hex]%andb_true_iff.
  destruct (render (state s)) as [page|] eqn:E; [|done]. exists page. split; [done|].
  rewrite (offered_render _ _ E), (editable_render _ _ E). apply orb_true_iff in Hex as [Hex|Hex]; [left|right].
  - apply existsb_exists in Hex as (b' & Hin & Heq). apply same_button_eq in Heq as ->. by apply list_elem_of_In.
  - apply existsb_exists in Hex as (f & Hin & Heq). apply list_elem_of_In in Hin. exists f, (input_value b).
    split; [done|]. by eapply same_field_eq.
Qed.

Lemma perform_step a s : enabled a s = true -> step server a s (perform a s).
Proof.
  intros He. unfold perform. rewrite He. destruct s as [ts w l], a as [e|i]; cbn [running state requests].
  - destruct (resume server (event_task e) w l) as [[t w'] l'] eqn:E. econstructor; [|exact E].
    by apply enabled_allowed in He.
  - cbn in He. apply Nat.ltb_lt in He. apply lookup_lt_is_Some_2 in He as [[e t] Hi]. rewrite Hi.
    destruct (resume server t w l) as [[t' w'] l'] eqn:E. by econstructor.
Qed.

Fixpoint perform_all (labels : list label) (s : system) : system :=
  match labels with
  | [] => s
  | a :: labels' => perform_all labels' (perform a s)
  end.

Lemma perform_reachable st n l a s :
  reachable server st n l s -> reachable server st n l (perform a s).
Proof.
  intros Hs. destruct (enabled a s) eqn:E; [|unfold perform; by rewrite E].
  eapply reachable_step; [exact Hs|by apply perform_step].
Qed.

Lemma perform_all_reachable st n l labels s :
  reachable server st n l s -> reachable server st n l (perform_all labels s).
Proof. revert s. induction labels as [|a labels IH]; intros s Hs; [done|]. by apply IH, perform_reachable. Qed.

Lemma perform_grows a s : length (running s) <= length (running (perform a s)).
Proof.
  unfold perform. destruct (enabled a s); [|done]. destruct a as [e|i].
  - destruct (resume _ _ _ _) as [[t w] l]. cbn. rewrite length_app. lia.
  - destruct (running s !! i) as [[e t]|]; [|done]. destruct (resume _ _ _ _) as [[t' w] l]. cbn.
    by rewrite length_insert.
Qed.
End execute.

(** ** Concrete executions *)

Module Concrete.
Import Reference DefaultConfig WalletFlow.Page.

Definition user (a : action) : label := Start (UserAction true a).
Definition loaded : system := System [] (page_load ∅ 0) [].

(** The page is mounted, a name is typed and submitted. *)
Definition opening : list label :=
  [Start Mounted] ++ repeat (Resume 0) 40 ++ [user (TypeDomain (Str "a.com")); user Submit].

Definition in_flightb (s : system) (i : nat) : bool :=
  match running s !! i with
  | Some (e, t) => is_submit e && negb (bool_decide (finished t))
  | None => false
  end.

Lemma in_flightb_spec s i : in_flightb s i = true -> in_flight s i.
Proof.
  unfold in_flightb, in_flight. destruct (running s !! i) as [[e t]|]; [|done].
  intros [He Hf]%andb_true_iff. exists e, t. split_and!; [done..|].
  by apply negb_true_iff, bool_decide_eq_false in Hf.
Defined.

(** The page after this prefix, the submission being resumed forever. *)
Definition labels (k : nat) : label := default (Resume 2) (opening !! k).
Fixpoint exec (k : nat) : system :=
  match k with O => loaded | S k' => perform backend (labels k') (exec k') end.

Lemma submitting_enabled :
  forallb (fun k => enabled (labels k) (exec k)) (seq 0 (length opening)) = true /\
  length (running (exec (length opening))) = 3 /\ in_flightb (exec (length opening)) 2 = true.
Proof. vm_compute. by split_and!. Qed.

Lemma exec_grows k d : length (running (exec k)) <= length (running (exec (k + d))).
Proof.
  induction d as [|d IH]; [by rewrite Nat.add_0_r|]. rewrite Nat.add_succ_r. cbn [exec].
  etrans; [exact IH|]. apply perform_grows.
Qed.

Lemma exec_execution : execution backend ∅ 0 [] exec labels.
Proof.
  split; [reflexivity|]. intros k. cbn [exec]. apply perform_step.
  destruct submitting_enabled as (Hp & Hl & _). destruct (decide (k < length opening)) as [Hk|Hk].
  - rewrite forallb_Forall, Forall_forall in Hp. apply (Hp k). apply elem_of_seq. lia.
  - unfold labels. rewrite lookup_ge_None_2 by lia. cbn [default enabled]. apply Nat.ltb_lt.
    pose proof (exec_grows (length opening) (k - length opening)) as Hg.
    replace (length opening + (k - length opening)) with k in Hg by lia. lia.
Qed.

Lemma exec_fair : resumed_forever 2 labels.
Proof.
  intros k. exists (length opening). unfold labels. by rewrite lookup_ge_None_2 by lia.
Qed.

Lemma submission_ends_witness :
  exists m, length opening < m /\ ~ in_flight (exec m) 2 /\ busy (state (exec m)) = false.
Proof.
  apply (submission_ends backend ∅ 0 [] exec labels 2 (length opening)).
  - exact exec_execution.
  - exact exec_fair.
  - apply in_flightb_spec. apply submitting_enabled.
Defined.

Lemma one_submission_witness :
  in_flight (exec (length opening)) 2 /\
  (forall i, in_flight (exec (length opening)) i -> i = 2).
Proof.
  assert (in_flight (exec (length opening)) 2) as Hf by (apply in_flightb_spec; apply submitting_enabled).
  split; [exact Hf|]. intros i Hi.
  destruct (one_submission backend ∅ 0 [] (exec (length opening))) as [Hu _].
  - eapply execution_reachable, exec_execution.
  - exact (Hu i 2 Hi Hf).
Defined.

(** Two names are committed; the revelation of the first is in flight while the one
    of the second is started and ends.  The list was loaded again: the first name is
    a new object on it, not marked as being revealed. *)
Definition commit (name : string) (i : nat) : list label :=
  [user (TypeDomain (Str name)); user Submit] ++ repeat (Resume i) 40.

Definition reveal (r : nat) (ip : string) : list label :=
  [user (TypeRevealIp r (Str ip)); user (Reveal r)].

Definition overtaken : list label :=
  [Start Mounted] ++ repeat (Resume 0) 40 ++ commit "a.com" 2 ++ commit "b.com" 4 ++
  reveal 1 "10.0.0.1" ++ reveal 2 "10.0.0.2" ++ repeat (Resume 8) 40 ++
  [user (TypeRevealIp 3 (Str "10.0.0.1"))].

Definition overtaken_page : system := perform_all backend overtaken loaded.

(** The handler at a position is a revelation in flight of the name of an entry
    whose revelation is offered. *)
Definition revealed_twice (s : system) (i r' : nat) : bool :=
  match running s !! i with
  | Some (UserAction _ (Reveal r), t) =>
      negb (bool_decide (finished t)) && enabled (user (Reveal r')) s &&
      strict_eq (prop (deref r (state s)) "domain") (prop (deref r' (state s)) "domain")
  | _ => false
  end.

(** while a revelation is in flight, a reachable page can offer a revelation of
    the same name again: the handler of another entry replaces the list by objects
    that are not marked. *)
Theorem reveal_offered_twice :
  reachable backend ∅ 0 [] overtaken_page /\ revealed_twice overtaken_page 6 3 = true.
Proof.
  split; [apply perform_all_reachable; constructor|]. vm_compute. reflexivity.
Qed.
End Concrete.
