(* ===== verification/WalletCommitments.v ===== *)
(** * The commitments that are stored open

    Every entry of the pending domains holds what opens its commitment: in every state
    the page reaches, however its handlers are interleaved, the commitment of an
    entry is the hash of its domain and salt.  A submission commits to the name at
    its start and stores the name it finds at its end; what makes them equal is
    that no step changes the name while a submission is in flight. *)

From S2P Require Import Prelude JsValue Json JsonFacts JsonCanon Sha256 Async Platform World Hash.
From S2P Require Import Storage DomainStorage TransactionService CryptoService WalletService.
From S2P Require Import ApiService UseWallet UseTransaction TransactionFlow WalletView WalletFlow.
From S2P Require Import Component WalletTemplate ServiceSafety WalletPage WalletSystem.

(** The entry holds what opens its commitment. *)
Definition opens (e : value) : Prop := exists d s,
  prop e "domain" = Str d /\ prop e "salt" = Str s /\
  prop e "commitment" = Str (sha256_hex (domain_preimage (Str d) (Str s))).

(** All entries of all wallets do. *)
Definition all_open (st : gmap string string) : Prop :=
  forall id l, entries st (pending_key id) = Some l -> Forall opens l.

Definition stores_open (w : world) : Prop := all_open (storage w).

Lemma opens_obj e : opens e -> exists o, e = Obj o.
Proof. intros (d & s & Hd & _). destruct e; try done; eauto. Qed.

Lemma opens_members e e' :
  prop e' "domain" = prop e "domain" -> prop e' "salt" = prop e "salt" ->
  prop e' "commitment" = prop e "commitment" -> opens e -> opens e'.
Proof. intros E1 E2 E3 (d & s & ? & ? & ?). exists d, s. by rewrite E1, E2, E3. Qed.

(** ** Writes *)

Lemma all_open_empty : all_open ∅.
Proof. intros id l. unfold entries. rewrite lookup_empty. by intros [= <-]. Qed.

Lemma all_open_other k s st :
  (forall id, k <> pending_key id) -> all_open st -> all_open (<[k := s]> st).
Proof. intros Hk Hst id l. rewrite entries_insert_ne by done. apply Hst. Qed.

Lemma all_open_delete k st : all_open st -> all_open (delete k st).
Proof.
  intros Hst id l. unfold entries. destruct (decide (k = pending_key id)) as [->|Hne].
  - rewrite lookup_delete_eq. by intros [= <-].
  - rewrite lookup_delete_ne by done. apply Hst.
Qed.

(** A list is written; it is read back as a list of entries when none is [null]. *)
Lemma all_open_insert k l st :
  Forall json_ok l -> (Forall (fun d => is_nullish d = false) l -> Forall opens l) -> all_open st ->
  all_open (<[k := to_string (stringify (Arr l))]> st).
Proof.
  intros Hok Hl Hst id l'. destruct (decide (k = pending_key id)) as [->|Hne].
  - intros He. destruct (entries_ok _ _ _ He) as [_ Hn]. revert He. unfold entries. rewrite lookup_insert_eq.
    destruct (json_roundtrip (Arr l)) as (s & Hs & Hp); [by constructor|]. rewrite Hs. cbn.
    destruct (String.eqb s ""); [by intros [= <-]|]. rewrite Hp. destruct (forallb _ l); [|done].
    intros [= <-]. by apply Hl.
  - rewrite entries_insert_ne by done. apply Hst.
Qed.

Lemma wallet_key_other id : StorageKeys.WALLET <> pending_key id.
Proof. done. Qed.

(** ** What the handlers read and write *)

(** A list of entries as it was read. *)
Definition listed (v : value) : Prop :=
  json_ok v /\ forall l, v = Arr l -> Forall (fun d => is_nullish d = false) l -> Forall opens l.

Section handlers.
Context `{Browser} `{Canonicalizer} `{NaCl} `{Config}.

Lemma yields_read_list id : yields stores_open listed (read_list (pending_key id)).
Proof.
  intros w Hw. specialize (Hw id). unfold entries in Hw.
  assert (listed (Arr [])) as Hnil by (split; [by constructor|by intros l [= <-]]).
  destruct (storage w !! pending_key id) as [s|]; [|exact Hnil]. unfold js_or. cbn.
  destruct (String.eqb s ""); [exact Hnil|]. cbn.
  destruct (json_parse s) as [v|] eqn:E; [|done]. cbn. split; [by apply json_parse_ok in E|].
  intros l -> Hl. apply Hw. replace (forallb _ l) with true; [done|]. symmetry.
  apply forallb_Forall. eapply Forall_impl; [exact Hl|]. by intros d ->.
Qed.

Lemma safe_read_list k : safe stores_open (read_list k).
Proof. unfold read_list, ls_getItem. auto with safe. Qed.

Lemma safe_write_list k l :
  Forall json_ok l -> (Forall (fun d => is_nullish d = false) l -> Forall opens l) ->
  safe stores_open (ls_setItem k (stringify (Arr l))).
Proof. intros Hok Hl w Hw. cbn. destruct (accepts _ _ _); [|done]. split; [by apply all_open_insert|done]. Qed.

(** [map] on a list that was read. *)
Lemma map_out_listed f l l' :
  map_out f l = Normal l' -> Forall json_ok l ->
  (forall d d', f d = Normal d' -> is_nullish d = false) ->
  (forall d d', json_ok d -> opens d -> f d = Normal d' -> json_ok d' /\ opens d') ->
  (Forall (fun d => is_nullish d = false) l -> Forall opens l) ->
  Forall json_ok l' /\ Forall opens l'.
Proof.
  intros Hm Hok Hf Hg Hl. assert (Forall (fun d => is_nullish d = false) l) as Hn.
  { clear Hok Hl. revert l' Hm. induction l as [|d l IH]; [by constructor|]. cbn. intros l'.
    intros (d' & Hd & (ds & Hds & _)%outcome_bind_Normal)%outcome_bind_Normal. constructor; eauto. }
  specialize (Hl Hn). clear Hn. revert l' Hm. induction l as [|d l IH]; cbn; [by intros l' [= <-]|].
  intros l' (d' & Hd & (ds & Hds & [= <-])%outcome_bind_Normal)%outcome_bind_Normal.
  apply Forall_cons in Hok as [? ?], Hl as [? ?]. destruct (Hg d d') as [? ?]; [done..|].
  destruct (IH ltac:(done) ltac:(done) ds) as [? ?]; [done|]. split; by constructor.
Qed.

Lemma map_listed name f v x :
  listed v -> map_method name f v = Normal x ->
  (forall d d', f d = Normal d' -> is_nullish d = false) ->
  (forall d d', json_ok d -> opens d -> f d = Normal d' -> json_ok d' /\ opens d') ->
  exists l, x = Arr l /\ Forall json_ok l /\ Forall opens l.
Proof.
  intros [Hok Hl] Hm Hf Hg. destruct v as [| | | | |l| |]; try done. cbn in Hm.
  destruct (map_out f l) as [l'|] eqn:E; [|done]. injection Hm as <-. exists l'.
  split; [done|]. inversion Hok; subst. eapply map_out_listed; eauto.
Qed.

Lemma sublist_Forall (Q : value -> Prop) l l' : sublist l' l -> Forall Q l -> Forall Q l'.
Proof. rewrite !Forall_forall. intros Hs Hl d Hd. apply Hl. by eapply elem_of_sublist. Qed.

(** [filter] keeps entries that were read. *)
Lemma filter_out_sublist p l l' :
  filter_out p l = Normal l' -> (forall d b, p d = Normal b -> is_nullish d = false) ->
  Forall (fun d => is_nullish d = false) l /\ sublist l' l.
Proof.
  intros Hm Hp. revert l' Hm. induction l as [|d l IH]; cbn; [intros l' [= <-]; by repeat constructor|].
  intros l' (b & Hb & (ds & Hds & [= <-])%outcome_bind_Normal)%outcome_bind_Normal.
  destruct (IH ds Hds) as [? ?]. split; [constructor; eauto|]. destruct b; by constructor.
Qed.

Lemma filter_listed name p v x :
  listed v -> filter_method name p v = Normal x ->
  (forall d b, p d = Normal b -> is_nullish d = false) ->
  exists l, x = Arr l /\ Forall json_ok l /\ Forall opens l.
Proof.
  intros [Hok Hl] Hm Hp. destruct v as [| | | | |l| |]; try done. cbn in Hm.
  destruct (filter_out p l) as [l'|] eqn:E; [|done]. injection Hm as <-. exists l'.
  destruct (filter_out_sublist _ _ _ E Hp) as [Hn Hs]. inversion Hok; subst.
  split_and!; [done|by eapply sublist_Forall|by eapply sublist_Forall; [|by apply Hl]].
Qed.

Lemma get_domain_total {A} d (k : value -> outcome A) a :
  (dd ← get d "domain"; k dd) = Normal a -> is_nullish d = false.
Proof. unfold get. by destruct (is_nullish d). Qed.

Lemma safe_update_stored id domain f :
  (forall d d', json_ok d -> opens d -> f d = Normal d' -> json_ok d' /\ opens d') ->
  safe stores_open (update_stored id domain f).
Proof.
  intros Hf. unfold update_stored. cbv zeta.
  eapply safe_bind_yields; [apply safe_read_list|apply yields_read_list|]. intros v Hv.
  apply safe_lift_bind. intros x Hx. eapply map_listed in Hx as (l & -> & Hok & Hl); [|exact Hv|..].
  - by apply safe_write_list.
  - intros d d'. apply get_domain_total.
  - intros d d' Hd Ho. unfold get. destruct (is_nullish d); [done|]. cbn.
    destruct (strict_eq _ _); [by apply Hf|]. by intros [= <-].
Qed.

Lemma safe_removePendingDomain id domain : safe stores_open (removePendingDomain id domain).
Proof.
  unfold removePendingDomain. cbv zeta.
  eapply safe_bind_yields; [apply safe_read_list|apply yields_read_list|]. intros v Hv.
  apply safe_lift_bind. intros x Hx. eapply filter_listed in Hx as (l & -> & Hok & Hl); [|exact Hv|].
  - by apply safe_write_list.
  - intros d b. apply get_domain_total.
Qed.

(** New members of an entry, other than those of the commitment. *)
Lemma spread_opens d l :
  json_ok d -> opens d -> Forall (fun kv => json_ok kv.2) l ->
  Forall (fun kv => kv.1 <> "domain" /\ kv.1 <> "salt" /\ kv.1 <> "commitment") l ->
  json_ok (spread d l) /\ opens (spread d l).
Proof.
  intros Hd Ho. destruct (opens_obj d Ho) as [o ->]. inversion Hd as [| | | | |? Ho1 Ho2]; subst. unfold spread, props_spread. cbn [own_props].
  revert o Hd Ho Ho1 Ho2. induction l as [|[k x] l IH]; intros o Hd Ho Ho1 Ho2 Hl Hk; cbn; [done|].
  apply Forall_cons in Hl as [Hx Hl], Hk as [(K1 & K2 & K3) Hk]. cbn in *.
  assert (json_ok (Obj (props_define k x o))) as Hok
    by (constructor; [by apply props_define_ok|by apply props_define_wf]).
  inversion Hok; subst. apply IH; try done.
  eapply opens_members; [..|exact Ho]; rewrite prop_define;
    (destruct (String.eqb _ k) eqn:E; [|done]); apply String.eqb_eq in E; congruence.
Qed.

(** Writes that leave [localStorage] alone. *)
Lemma safe_view f : safe stores_open (modify (set_view f)).
Proof. by apply safe_modify. Qed.

Lemma safe_set_wallet v : safe stores_open (modify (set_wallet v)).
Proof. by apply safe_modify. Qed.

Lemma safe_status s : safe stores_open (set_status_ref s).
Proof. apply safe_view. Qed.

Lemma safe_assign r k x : safe stores_open (assign r k x).
Proof. unfold assign. auto using safe_view with safe. Qed.

Lemma safe_clock : safe stores_open Date_now.
Proof. intros w Hw. by split. Qed.

Lemma open_saveWallet pk sk : safe stores_open (saveWallet pk sk).
Proof.
  unfold saveWallet, saveWalletData, setItem. apply safe_bind; [apply safe_clock|intros t].
  apply safe_try; [|done]. cbv zeta. apply safe_bind; [|done]. intros w Hw. cbn.
  destruct (accepts _ _ _); [|done]. split; [|done]. by apply all_open_other.
Qed.

Hint Resolve safe_view safe_set_wallet safe_status safe_assign safe_clock open_saveWallet safe_read_list
  safe_removePendingDomain : safe.

Lemma safe_createWallet : safe stores_open createWallet.
Proof.
  unfold createWallet, rethrow. apply safe_try; [|auto with safe].
  apply safe_bind; [apply safe_await; intros w Hw; by split|intros kp]. auto 20 with safe.
Qed.

Lemma safe_loadWallet : safe stores_open loadWallet.
Proof. unfold loadWallet, loadWallet_service, getWalletData, getItem, ls_getItem. auto 30 with safe. Qed.

Lemma safe_loadMyDomains : safe stores_open loadMyDomains.
Proof.
  unfold loadMyDomains, getPendingDomains. apply safe_bind; [auto with safe|intros id].
  apply safe_if; [done|]. apply safe_bind; [auto with safe|intros v].
  apply safe_bind; [auto with safe|]. intros []; auto with safe.
Qed.

Lemma safe_fetchDomains : safe stores_open fetchDomains.
Proof. unfold fetchDomains. auto 30 with safe. Qed.

Lemma safe_sign_and_send type id payload s : safe stores_open (sign_and_send type id payload s).
Proof. unfold sign_and_send, applySpendPlan. auto 40 with safe. Qed.

Hint Resolve safe_createWallet safe_loadWallet safe_loadMyDomains safe_fetchDomains safe_sign_and_send : safe.

Lemma safe_on_refused l r e : safe stores_open (on_refused l r e).
Proof. unfold on_refused. cbv zeta. auto 40 with safe. Qed.

Hint Resolve safe_on_refused : safe.
Hint Extern 1 (safe _ (let '(_, _) := ?x in _)) => destruct x : safe.

Lemma safe_reveal_body r : safe stores_open (reveal_body r).
Proof.
  assert (forall id d p, safe stores_open (update_stored id d (fun d =>
    ip ← (if truthy (prop p "revealIp") then trim_method "pending.revealIp" (prop p "revealIp") else Normal "");
    Normal (spread d [("status", Str "revealed"); ("ip", Str ip)])))) as Hu.
  { intros id d p. apply safe_update_stored. intros e e' He Ho (ip & _ & [= <-])%outcome_bind_Normal.
    by apply spread_opens; repeat constructor. }
  unfold reveal_body. auto 60 with safe.
Qed.

Lemma safe_update_body r : safe stores_open (update_body r).
Proof.
  assert (forall id d p, safe stores_open (update_stored id d (fun d =>
    ip ← trim_method "domain.newIp" (prop p "newIp"); Normal (spread d [("ip", Str ip)])))) as Hu.
  { intros id d p. apply safe_update_stored. intros e e' He Ho (ip & _ & [= <-])%outcome_bind_Normal.
    by apply spread_opens; repeat constructor. }
  unfold update_body. auto 60 with safe.
Qed.

Hint Resolve safe_reveal_body safe_update_body : safe.

Lemma safe_handleFirstUpdate r : safe stores_open (handleFirstUpdate r).
Proof. unfold handleFirstUpdate. auto 40 with safe. Qed.

Lemma safe_handleUpdate r : safe stores_open (handleUpdate r).
Proof. unfold handleUpdate. auto 40 with safe. Qed.

Lemma safe_clearPending b : safe stores_open (clearPendingDomains b).
Proof.
  assert (forall k, safe stores_open (ls_removeItem k)) as Hd.
  { intros k. apply safe_modify. intros w Hw. by apply all_open_delete. }
  unfold clearPendingDomains, clearAllPendingDomains. auto 16 with safe.
Qed.

Hint Resolve safe_handleFirstUpdate safe_handleUpdate safe_clearPending : safe.

(** Every handler but a submission keeps the entries open. *)
Lemma safe_event e : is_submit e = false -> safe stores_open (event_task e).
Proof.
  intros He. destruct e as [|id| |b a]; cbn [event_task].
  - unfold mounted, syncMinerID. auto 40 with safe.
  - unfold on_wallet_id, syncMinerID. auto 16 with safe.
  - unfold handleCreateWallet. auto 16 with safe.
  - destruct a; try done; cbn [dispatch]; auto 16 with safe.
Qed.

Lemma entry_opens d salt txid time :
  opens (entry (Str d) (Str salt) (Str (sha256_hex (domain_preimage (Str d) (Str salt)))) (Str txid) time).
Proof. by exists d, salt. Qed.

(** A submission stores an entry that opens. *)
Lemma submission_open d : keeps_submission d stores_open.
Proof.
  split; auto with safe.
  - unfold generateSalt, generateRandomSalt. apply safe_if; [|done]. apply safe_bind; [|done]. intros w Hw. by split.
  - intros id salt txid. unfold savePendingDomain. cbv zeta.
    eapply safe_bind_yields; [apply safe_read_list|apply yields_read_list|]. intros v [Hok Hl].
    apply safe_bind; [auto with safe|intros time]. apply safe_lift_bind. intros x Hx.
    destruct v as [| | | | |l| |]; try done. injection Hx as <-. inversion Hok; subst.
    fold (entry (Str d) (Str salt) (Str (sha256_hex (domain_preimage (Str d) (Str salt)))) (Str txid) time).
    apply safe_write_list.
    + apply Forall_app_2; [done|]. apply Forall_singleton, entry_ok. by repeat constructor.
    + intros [Hn _]%Forall_app. apply Forall_app_2; [by apply Hl|]. apply Forall_singleton, entry_opens.
Qed.
End handlers.

(** ** Properties *)

(** C7: when every entry that earlier visits left in [localStorage] holds the domain
    and the salt that open its commitment, so does every entry stored in every
    reachable state of the page, whatever the user does, whatever the server answers
    and however the handlers are interleaved. *)
Theorem stored_commitments_open `{Browser} `{Canonicalizer} `{NaCl} `{Config} server st n l s :
  all_open st -> reachable server st n l s -> all_open (storage (state s)).
Proof.
  intros Hst Hr. apply (fi_state stores_open).
  apply (reachable_flag_inv server stores_open submission_open safe_event st n l); done.
Qed.

Import Reference DefaultConfig WalletFlow.Page WalletSystem.Concrete.

(** A page on which a name was committed. *)
Definition committed_page : system := perform_all backend (opening ++ repeat (Resume 2) 40) loaded.

Lemma stored_commitments_open_witness :
  all_open (storage (state committed_page)) /\
  length <$> entries (storage (state committed_page)) (pending_key (wallet_ref_id (state committed_page))) = Some 1.
Proof.
  split; [|vm_compute; reflexivity].
  apply (stored_commitments_open backend ∅ 0 []); [exact all_open_empty|].
  apply perform_all_reachable. constructor.
Defined.
