(* ===== verification/Gui.v ===== *)
(** * The peer's web page: shared parts of [gui/web/assets/scripts/main.js]

    The page state the controllers share, and the controllers the others are
    built on: [BaseElement] (form validation and checked requests), [Flash] (the
    messages shown for four seconds), [PeerInfo] (the address of the peer behind
    the page) and the collapsible sections.  A controller method is a [task] over
    the page, so that the framework of asynchronous functions applies.

    The DOM is represented by what scripts put in it: a target is a named
    element, its content a list of nodes.  The framework Stimulus connects
    targets and controllers; it is started by [main] and is not modelled. *)

From S2P Require Import Prelude JsValue Json JsonFacts Async.

(** ** The document *)

(** A node as a script creates it: [innerText = s], [innerHTML = s], or an
    element with its classes and children. *)
Inductive node :=
  | Text (s : string)
  | Markup (s : string)
  | Element (tag : string) (classes : list string) (children : list node).

(** A form control: its [name] and [value]; [None] is an undefined [value]. *)
Record control := Control { cname : string; cvalue : option string }.

(** The page.  Targets are named [controller.target]. *)
Record page := Page {
  location_search : string;               (* location.search *)
  endpoint : option string;               (* PeerInfo: this.endpoint *)
  socketAddr : option string;             (* PeerInfo: this.socketAddr *)
  controls : string -> control;           (* the form controls *)
  follow : bool;                          (* Packets: followTarget.checked *)
  files : list (option (list Z));         (* DataSharing: fileUploadTarget.files;
                                             None is a file that cannot be read *)
  html : gmap string (list node);         (* content of the output targets *)
  flashes : list (nat * node);            (* Flash: children of wrapperTarget *)
  timers : list nat;                      (* Flash: pending timeouts, oldest first *)
  counter : nat;                          (* elements, URLs and clock readings so far *)
  scroll : gmap string Z;                 (* scroll positions and widths assigned *)
  pktnotify : option string;              (* Packets: the EventSource *)
  links : list node;                      (* anchors appended to document.body *)
  urls : list nat;                        (* live object URLs *)
  saved : list (string * string)          (* files downloaded: name and content *)
}.

Abbreviation handler := (task page).

(** What the page takes from the browser, and from the library Viz. *)
Class PageEnv := {
  (** [new Date()] at the n-th observation, in milliseconds *)
  clock_ms : nat -> num;
  (** [getHours()], [getMinutes()], [getSeconds()] of a date given in
      milliseconds, in the local time zone; [NaN]s for an invalid date *)
  local_time : num -> num * num * num;
  (** layout measures of a target *)
  scrollHeight : page -> string -> Z;
  scrollWidth : page -> string -> Z;
  (** [decodeURIComponent] on a text with escapes of characters beyond U+00FF,
      which the strings of this development do not represent *)
  decode_wide : string -> outcome string;
  (** [new Viz().renderSVGElement(dot)] *)
  renderSVGElement : string -> outcome node
}.

(** ** Field updates *)

Definition set_endpoint (a : option string) (p : page) : page :=
  Page (location_search p) a (socketAddr p) (controls p) (follow p) (files p) (html p)
    (flashes p) (timers p) (counter p) (scroll p) (pktnotify p) (links p) (urls p) (saved p).
Definition set_socketAddr (a : option string) (p : page) : page :=
  Page (location_search p) (endpoint p) a (controls p) (follow p) (files p) (html p)
    (flashes p) (timers p) (counter p) (scroll p) (pktnotify p) (links p) (urls p) (saved p).
Definition set_html (h : gmap string (list node)) (p : page) : page :=
  Page (location_search p) (endpoint p) (socketAddr p) (controls p) (follow p) (files p) h
    (flashes p) (timers p) (counter p) (scroll p) (pktnotify p) (links p) (urls p) (saved p).
Definition set_flashes (f : list (nat * node)) (t : list nat) (p : page) : page :=
  Page (location_search p) (endpoint p) (socketAddr p) (controls p) (follow p) (files p) (html p)
    f t (counter p) (scroll p) (pktnotify p) (links p) (urls p) (saved p).
Definition next_count (p : page) : page :=
  Page (location_search p) (endpoint p) (socketAddr p) (controls p) (follow p) (files p) (html p)
    (flashes p) (timers p) (S (counter p)) (scroll p) (pktnotify p) (links p) (urls p) (saved p).
Definition set_scroll (k : string) (z : Z) (p : page) : page :=
  Page (location_search p) (endpoint p) (socketAddr p) (controls p) (follow p) (files p) (html p)
    (flashes p) (timers p) (counter p) (<[k := z]> (scroll p)) (pktnotify p) (links p) (urls p) (saved p).
Definition set_pktnotify (a : option string) (p : page) : page :=
  Page (location_search p) (endpoint p) (socketAddr p) (controls p) (follow p) (files p) (html p)
    (flashes p) (timers p) (counter p) (scroll p) a (links p) (urls p) (saved p).
Definition set_urls (u : list nat) (p : page) : page :=
  Page (location_search p) (endpoint p) (socketAddr p) (controls p) (follow p) (files p) (html p)
    (flashes p) (timers p) (counter p) (scroll p) (pktnotify p) (links p) u (saved p).
Definition add_link (n : node) (p : page) : page :=
  Page (location_search p) (endpoint p) (socketAddr p) (controls p) (follow p) (files p) (html p)
    (flashes p) (timers p) (counter p) (scroll p) (pktnotify p) (links p ++ [n]) (urls p) (saved p).
Definition add_saved (f : string * string) (p : page) : page :=
  Page (location_search p) (endpoint p) (socketAddr p) (controls p) (follow p) (files p) (html p)
    (flashes p) (timers p) (counter p) (scroll p) (pktnotify p) (links p) (urls p) (saved p ++ [f]).

(** [target.innerHTML = s] (the empty string leaves no node) and
    [target.append(el)]. *)
Definition innerHTML (k s : string) (p : page) : page :=
  set_html (<[k := if String.eqb s "" then [] else [Markup s]]> (html p)) p.
Definition innerText (k s : string) (p : page) : page :=
  set_html (<[k := if String.eqb s "" then [] else [Text s]]> (html p)) p.
Definition content (p : page) (k : string) : list node := default [] (html p !! k).
Definition append (k : string) (n : node) (p : page) : page :=
  set_html (<[k := content p k ++ [n]]> (html p)) p.

(** ** Flash *)

Module Flash.
(** [s.replace(/\s+/g, ' ')]; [sp] tells that the previous character was a space. *)
Fixpoint squash (sp : bool) (s : string) : string :=
  match s with
  | EmptyString => ""
  | String c s' =>
      if is_space c
      then if sp then squash true s' else String " " (squash true s')
      else String c (squash false s')
  end.

(** [content.replace(/\s+/g, ' ').trim()] *)
Definition normalise (s : string) : string := trim (squash false s).

(** The element [createFlash] returns. *)
Definition flash_node (className content : string) : node :=
  Element "div" ["flash-msg"; className]
    [Text (normalise content); Element "span" ["closebtn"] [Markup "&times;"];
     Element "span" ["progress"] []].

(** [createFlash], appended to the wrapper, with its timeout started. *)
Definition print (className content : string) (p : page) : page :=
  next_count (set_flashes (flashes p ++ [(counter p, flash_node className content)])
                          (timers p ++ [counter p]) p).

(** [printError(e)] and [printSuccess(e)] *)
Definition printError (e : string) : handler unit := modify (print "error" e).
Definition printSuccess (e : string) : handler unit := modify (print "success" e).

Definition without (i : nat) (l : list (nat * node)) : list (nat * node) :=
  filter (fun f => f.1 <> i) l.

(** The click on the close button of a message. *)
Definition close (i : nat) (p : page) : page :=
  set_flashes (without i (flashes p)) (timers p) p.

(** The next timeout: all have the same delay, so the oldest one is due. *)
Definition expire (p : page) : page :=
  match timers p with
  | [] => p
  | i :: t => set_flashes (without i (flashes p)) t p
  end.
End Flash.
Import Flash.

(** ** BaseElement *)

(** [val == "" || val == undefined] *)
Definition missing (v : option string) : bool :=
  match v with Some s => String.eqb s "" | None => true end.

Definition field_error (name : string) : string :=
  "form validation failed: " +:+ dq +:+ name +:+ dq +:+ " is empty or invalid".

(** [checkInputs(...els)] *)
Fixpoint checkInputs (els : list string) : handler bool :=
  match els with
  | [] => mret true
  | el :: els' =>
      c ← gets (fun p => controls p el);
      if missing (cvalue c) then _ ← printError (field_error (cname c)); mret false
      else checkInputs els'
  end.

(** [fetch(addr, opts)]: only the status 200 is accepted. *)
Definition base_fetch (r : request) : handler response :=
  resp ← fetch r;
  if (status resp =? 200)%Z then mret resp
  else
    text ← resp_text resp;
    Raise (Thrown ("wrong status: " +:+ num_to_string (int (status resp)) +:+ " " +:+
                   statusText resp +:+ " - " +:+ text)).

(** The value of a form control. *)
Definition val (el : string) (p : page) : value :=
  match cvalue (controls p el) with Some s => Str s | None => Undefined end.

(** A [POST] with the given content type. *)
Definition post (u ctype : string) (b : value) : request := Request "POST" u (Some ctype) b.
Definition json_type : string := "application/json".
Definition form_type : string := "multipart/form-data".

(** ** PeerInfo *)

Module PeerInfo.
(** [getQueryArgs()] *)
Definition getQueryArgs (p : page) : value :=
  Obj (fold_left (fun o item =>
         props_assign (default "" (split "=" item !! 0))
                      (match split "=" item !! 1 with Some s => Str s | None => Undefined end) o)
       (split "&" (substr 1 (String.length (location_search p)) (location_search p))) []).

(** The byte of an escape [%XY], and the text after it. *)
Definition escape_byte (s : string) : option (Z * string) :=
  match s with
  | String p (String a (String b s')) =>
      if Ascii.eqb p "%" then
        match digit_val 16 a, digit_val 16 b with
        | Some x, Some y => Some (x * 16 + y, s')%Z
        | _, _ => None
        end
      else None
  | _ => None
  end.

Inductive decoded :=
  | Decoded (s : string)      (* a text of characters up to U+00FF *)
  | Malformed                 (* URIError *)
  | Wide.                     (* an escape beyond U+00FF *)

Definition decoded_cons (c : ascii) (d : decoded) : decoded :=
  match d with Decoded s => Decoded (String c s) | _ => d end.

(** One escape is at least one character, so the length bounds the steps. *)
Fixpoint decode (fuel : nat) (s : string) : decoded :=
  match fuel, s with
  | _, EmptyString => Decoded ""
  | O, _ => Malformed
  | S f, String c s' =>
      if negb (Ascii.eqb c "%") then decoded_cons c (decode f s')
      else
        match escape_byte s with
        | None => Malformed
        | Some (b, r) =>
            if (b <? 128)%Z then decoded_cons (chr b) (decode f r)
            else if (194 <=? b)%Z && (b <=? 195)%Z then
              match escape_byte r with
              | Some (b', r') =>
                  if (128 <=? b')%Z && (b' <=? 191)%Z
                  then decoded_cons (chr ((b - 192) * 64 + (b' - 128))) (decode f r')
                  else Malformed
              | None => Malformed
              end
            else if (196 <=? b)%Z && (b <=? 244)%Z then Wide
            else Malformed
        end
  end.

(** [decodeURIComponent(s)] *)
Definition decodeURIComponent `{PageEnv} (s : string) : outcome string :=
  match decode (String.length s) s with
  | Decoded t => Normal t
  | Malformed => Throw (Error "URIError" "URI malformed")
  | Wide => decode_wide s
  end.

(** [getAPIURL(suffix)] *)
Definition getAPIURL (suffix : string) (p : page) : string :=
  match endpoint p with Some a => a | None => "undefined" end +:+ suffix.

(** [initialize()] *)
Definition initialize `{PageEnv} : handler unit :=
  queryDict ← gets getQueryArgs;
  host ← lift (decodeURIComponent (to_string (prop queryDict "addr")));
  _ ← modify (set_endpoint (Some ("http://" +:+ host)));
  _ ← gets endpoint ≫= fun e => modify (innerText "peerInfo.peerAddr" (default "undefined" e));
  addr ← gets (getAPIURL "/socket/address");
  try_catch
    (resp ← fetch (GET addr);
     text ← resp_text resp;
     _ ← modify (innerText "peerInfo.socketAddr" ("tcp://" +:+ text));
     modify (set_socketAddr (Some text)))
    (fun e => printError ("failed to fetch socket address: " +:+ exn_to_string e)).
End PeerInfo.
Import PeerInfo.

(** ** Collapsible sections *)

(** An element of class [collapsible]: whether it is [active], and the display
    style of its next sibling ([None]: it has none). *)
Record collapsible := Collapsible { active : bool; sibling : option string }.

Definition display (c : collapsible) (d : string) : outcome collapsible :=
  match sibling c with
  | Some _ => Normal (Collapsible (active c) (Some d))
  | None => Throw (TypeError "Cannot read properties of null (reading 'style')")
  end.

(** The loop of [initCollapsible()]: it stops at the first element without a
    sibling. *)
Fixpoint initCollapsible (coll : list collapsible) : outcome (list collapsible) :=
  match coll with
  | [] => Normal []
  | c :: coll' =>
      c' ← display c (if active c then "block" else "none");
      coll'' ← initCollapsible coll';
      Normal (c' :: coll'')
  end.

(** The listener installed on each element. *)
Definition collapsible_click (c : collapsible) : outcome collapsible :=
  if active c
  then c' ← display c "none"; Normal (Collapsible false (sibling c'))
  else c' ← display c "block"; Normal (Collapsible true (sibling c')).

#[global] Arguments checkInputs : simpl never.
#[global] Arguments base_fetch : simpl never.
#[global] Arguments field_error : simpl never.
#[global] Arguments flash_node : simpl never.

(** ** A concrete page *)

Module DemoPage.
#[export] Instance env : PageEnv := {
  clock_ms n := int (1700000000000 + Z.of_nat n);
  local_time t := match t with Fin m O => (int (m / 3600000 mod 24), int (m / 60000 mod 60), int (m / 1000 mod 60))
                             | _ => (NaN, NaN, NaN) end%Z;
  scrollHeight p k := Z.of_nat (length (content p k));
  scrollWidth p k := Z.of_nat (length (content p k));
  decode_wide s := Throw (Error "URIError" "URI malformed");
  renderSVGElement s := Normal (Element "svg" [] [Text s])
}.

(** Every control holds the given value. *)
Definition filled (v : string) : page :=
  Page "?addr=127.0.0.1%3A8080" (Some "http://127.0.0.1:8080") (Some "127.0.0.1:9000")
    (fun k => Control k (Some v)) true [] ∅ [] [] 0 ∅ None [] [] [].

(** A peer that answers every request with the given text. *)
Definition peer (t : string) (l : list request) (r : request) : fetch_result :=
  Resp (Response 200 "OK" (Normal t)).
End DemoPage.
