(* ===== verification/GuiMessaging.v ===== *)
(** * Messaging controllers of [gui/web/assets/scripts/main.js]

    [Messaging], [Unicast], [Routing], [Packets] and [Broadcast]: the forms that
    send packets through the peer's HTTP interface, the routing table, and the
    stream of packets the peer reports. *)

From S2P Require Import Prelude JsValue Json JsonFacts Async Hash Gui.
Import Flash PeerInfo.

(** [v == s] for a string [s]. *)
Definition loose_eq_str (v : value) (s : string) : bool :=
  match v with
  | Undefined | Null => false
  | Bool _ | Num _ => strict_eq (Num (to_number v)) (Num (string_to_number s))
  | Str _ | Arr _ | Obj _ | Bytes _ => String.eqb (to_string v) s
  end.

(** [v == w] for a [w] that is a string or undefined. *)
Definition loose_eq (v : value) (w : option string) : bool :=
  match w with Some s => loose_eq_str v s | None => is_nullish v end.

(** [Object.entries(v)] *)
Definition entries (v : value) : outcome (list (string * value)) :=
  if is_nullish v then Throw (TypeError "Cannot convert undefined or null to object")
  else Normal (own_props v).

(** [x / 1000000] *)
Definition div_million (x : num) : num :=
  match x with Fin m k => fin m (k + 6) | _ => x end.

Module Messaging.
(** [addMsg(el)] *)
Definition addMsg `{PageEnv} (el : node) : handler unit :=
  _ ← modify (append "messaging.messages" el);
  modify (fun p => set_scroll "messaging.holder" (scrollHeight p "messaging.holder") p).
End Messaging.

Definition clock_time (t : num * num * num) : string :=
  num_to_string t.1.1 +:+ ":" +:+ num_to_string t.1.2 +:+ ":" +:+ num_to_string t.2.

(** [new Date()] *)
Definition new_Date `{PageEnv} : handler num :=
  n ← gets counter; _ ← modify next_count; mret (clock_ms n).

Module Unicast.
Definition pkt (destination message : value) : value :=
  obj [("Dest", destination);
       ("Msg", obj [("Type", Str "chat"); ("payload", obj [("Message", message)])])].

(** The text assigned to [el.innerHTML]. *)
Definition sent_html (message destination : value) (time : string) : string :=
  "
                <div>
                    <p class=" +:+ dq +:+ "msg" +:+ dq +:+ ">" +:+ to_string message +:+ "</p>
                    <p class=" +:+ dq +:+ "details" +:+ dq +:+ ">
                        to " +:+ to_string destination +:+ " 
                        at " +:+ time +:+ "
                    </p>
                </div>".

(** [send()] *)
Definition send `{PageEnv} : handler unit :=
  addr ← gets (getAPIURL "/messaging/unicast");
  ok ← checkInputs ["unicast.message"; "unicast.destination"];
  if negb ok then mret tt
  else
    message ← gets (val "unicast.message");
    destination ← gets (val "unicast.destination");
    let body := stringify (pkt destination message) in
    try_catch
      (_ ← await (base_fetch (post addr json_type body));
       date ← new_Date;
       Messaging.addMsg (Element "div" ["sent"]
         [Markup (sent_html message destination (clock_time (local_time date)))]))
      (fun e => printError ("failed to send message: " +:+ exn_to_string e)).
End Unicast.

Module Routing.
Definition row (e : string * value) : node :=
  Element "tr" [] [Markup ("<td>" +:+ e.1 +:+ "</td><td>" +:+ to_string e.2 +:+ "</td>")].

(** The loop over [Object.entries(data)]. *)
Fixpoint add_rows (l : list (string * value)) : handler unit :=
  match l with
  | [] => mret tt
  | e :: l' => _ ← modify (append "routing.table" (row e)); add_rows l'
  end.

(** [update()] *)
Definition update `{PageEnv} : handler unit :=
  addr ← gets (getAPIURL "/messaging/routing");
  _ ← try_catch
    (resp ← await (base_fetch (GET addr));
     data ← resp_json resp;
     _ ← modify (innerHTML "routing.table" "");
     l ← lift (entries data);
     _ ← add_rows l;
     printSuccess "Routing table updated")
    (fun e => printError ("Failed to fetch routing: " +:+ exn_to_string e));
  let graphAddr := addr +:+ "?graphviz=on" in
  try_catch
    (resp ← await (base_fetch (GET graphAddr));
     data ← resp_text resp;
     element ← await (lift (renderSVGElement data));
     _ ← modify (innerHTML "routing.graphviz" "");
     modify (append "routing.graphviz" element))
    (fun e => printError ("Failed to display routing: " +:+ exn_to_string e)).

(** [initialize()] *)
Definition initialize `{PageEnv} : handler unit := update.

(** [addPeer()]; the call of [update()] is its last step, and [update] never throws. *)
Definition addPeer `{PageEnv} : handler unit :=
  ok ← checkInputs ["routing.peer"];
  if negb ok then mret tt
  else
    addr ← gets (getAPIURL "/messaging/peers");
    peer ← gets (val "routing.peer");
    let body := stringify (Arr [peer]) in
    try_catch
      (_ ← await (base_fetch (post addr json_type body));
       _ ← printSuccess "peer added";
       update)
      (fun e => printError ("failed to add peer: " +:+ exn_to_string e)).

(** [setEntry()] *)
Definition setEntry `{PageEnv} : handler unit :=
  addr ← gets (getAPIURL "/messaging/routing");
  ok ← checkInputs ["routing.origin"];
  if negb ok then mret tt
  else
    origin ← gets (val "routing.origin");
    relay ← gets (val "routing.relay");
    let body := stringify (obj [("Origin", origin); ("RelayAddr", relay)]) in
    try_catch
      (_ ← await (base_fetch (post addr json_type body));
       _ ← (if loose_eq_str relay "" then printSuccess "Entry deleted"
            else printSuccess "Entry set");
       update)
      (fun e => printError ("failed to set entry: " +:+ exn_to_string e)).
End Routing.

Module Packets.
(** [initialize()]: the subscription to the peer's packets. *)
Definition initialize : handler unit :=
  addr ← gets (getAPIURL "/registry/pktnotify");
  modify (set_pktnotify (Some addr)).

Definition chat_html (message source : value) (time : string) : string :=
  "<div><p class=" +:+ dq +:+ "msg" +:+ dq +:+ ">" +:+ to_string message +:+
  "</p><p class=" +:+ dq +:+ "details" +:+ dq +:+ ">from " +:+ to_string source +:+
  " at " +:+ time +:+ "</p></div>".

(** The chat message of a packet, shown among the messages. *)
Definition show_chat `{PageEnv} (pkt : value) : handler unit :=
  header ← lift (get pkt "Header");
  timestamp ← lift (get header "Timestamp");
  let date := div_million (to_number timestamp) in
  own ← gets socketAddr;
  let className := if loose_eq (prop header "Source") own then "sent" else "received" in
  msg ← lift (get pkt "Msg");
  payload ← lift (get msg "Payload");
  message ← lift (get payload "Message");
  Messaging.addMsg (Element "div" [className]
    [Markup (chat_html message (prop header "Source") (clock_time (local_time date)))]).

(** [packetMessage(e)], for the data of the event. *)
Definition packetMessage `{PageEnv} (data : string) : handler unit :=
  pkt ← lift (json_parse data);
  msg ← lift (get pkt "Msg");
  type ← lift (get msg "Type");
  _ ← (if loose_eq_str type "chat" then show_chat pkt else mret tt);
  _ ← modify (append "packets.packets"
        (Element "div" [] [Markup ("<pre>" +:+ to_string (stringify_2 pkt) +:+ "</pre>")]));
  _ ← modify (fun p => set_scroll "packets.scroll.width" (scrollWidth p "packets.packets") p);
  checked ← gets follow;
  if (checked : bool) then
    _ ← modify (fun p => set_scroll "packets.packets.left" (scrollWidth p "packets.packets") p);
    modify (fun p => set_scroll "packets.holder.left" (scrollWidth p "packets.holder") p)
  else mret tt.

(** [packetError()] *)
Definition packetError : handler unit :=
  printError "failed to listen pkt: stopped listening".

(** [packetsScroll()] *)
Definition packetsScroll : handler unit :=
  modify (fun p => set_scroll "packets.packets.left"
                     (default 0%Z (scroll p !! "packets.holder.left")) p).
End Packets.

Module Broadcast.
Definition chat (message : value) : value :=
  obj [("Type", Str "chat"); ("payload", obj [("Message", message)])].

(** [destination.split(",").forEach(e => recipients[e.trim()] = {})] *)
Definition recipients (destination : string) : list (string * value) :=
  fold_left (fun o e => props_assign (trim e) (Obj []) o) (split "," destination) [].

(** [sendChat()] *)
Definition sendChat : handler unit :=
  addr ← gets (getAPIURL "/messaging/broadcast");
  ok ← checkInputs ["broadcast.chatMessage"];
  if negb ok then mret tt
  else
    message ← gets (val "broadcast.chatMessage");
    let body := stringify (chat message) in
    try_catch
      (_ ← await (base_fetch (post addr json_type body));
       printSuccess "chat message broadcasted")
      (fun e => printError ("failed to send message: " +:+ exn_to_string e)).

Definition private (destination : string) (message : value) : value :=
  obj [("Type", Str "private");
       ("payload", obj [("Recipients", Obj (recipients destination)); ("Msg", chat message)])].

(** [sendPrivate()] *)
Definition sendPrivate : handler unit :=
  addr ← gets (getAPIURL "/messaging/broadcast");
  ok ← checkInputs ["broadcast.privateMessage"; "broadcast.privateRecipients"];
  if negb ok then mret tt
  else
    destination ← gets (val "broadcast.privateRecipients");
    message ← gets (val "broadcast.privateMessage");
    let body := stringify (private (to_string destination) message) in
    try_catch
      (_ ← await (base_fetch (post addr json_type body));
       printSuccess "private message sent")
      (fun e => printError ("failed to send message: " +:+ exn_to_string e)).
End Broadcast.

(** ** The recipients of a private message *)

(** The recipients of a private message are exactly the trimmed,
    comma-separated names of the control (an entry [__proto__] apart, which
    creates no property). *)
Theorem private_recipients d k :
  is_Some (props_get k (Broadcast.recipients d)) <->
  k <> "__proto__" /\ exists e, e ∈ split "," d /\ trim e = k.
Proof.
  unfold Broadcast.recipients. 
  assert (forall l o, is_Some (props_get k (fold_left (fun o e => props_assign (trim e) (Obj []) o) l o)) <->
    is_Some (props_get k o) \/ (k <> "__proto__" /\ exists e, e ∈ l /\ trim e = k)) as Hgen.
  { induction l as [|e l IH]; intros o; simpl; [set_solver|]. rewrite IH.
    destruct (decide (trim e = "__proto__")) as [Hp|Hp].
    - unfold props_assign. rewrite Hp. simpl. set_solver.
    - rewrite props_get_assign by done. destruct (String.eqb_spec k (trim e)); set_solver. }
  rewrite Hgen. simpl. split; [intros [[? ?]|?]; done|auto].
Qed.
