(* ===== verification/GuiData.v ===== *)
(** * Data-sharing controllers of [gui/web/assets/scripts/main.js]

    [Catalog], [DataSharing], [Search] and [Naming]: the forms over the peer's
    file-sharing interface and the views of its catalog and of search results. *)

From S2P Require Import Prelude JsValue Json JsonFacts Async Hash Gui GuiMessaging.
Import Flash PeerInfo.

Module Catalog.
(** The element of a chunk: its name, then the peers that have it
    ([for (var peer in peersBag)]). *)
Definition entry (e : string * value) : node :=
  Element "div" []
    (Element "p" [] [Markup e.1] ::
     map (fun peer => Element "p" [] [Markup peer]) (own_props e.2).*1).

Fixpoint add_entries (l : list (string * value)) : handler unit :=
  match l with
  | [] => mret tt
  | e :: l' => _ ← modify (append "catalog.content" (entry e)); add_entries l'
  end.

(** [update()] *)
Definition update : handler unit :=
  addr ← gets (getAPIURL "/datasharing/catalog");
  try_catch
    (resp ← await (base_fetch (GET addr));
     data ← resp_json resp;
     _ ← modify (innerHTML "catalog.content" "");
     l ← lift (entries data);
     match l with
     | [] =>
         _ ← modify (innerHTML "catalog.content" "<i>no elements</i>");
         printSuccess "Catalog updated, nothing found"
     | _ =>
         _ ← add_entries l;
         printSuccess "Catalog updated"
     end)
    (fun e => printError ("Failed to fetch catalog: " +:+ exn_to_string e)).

(** [initialize()] *)
Definition initialize : handler unit := update.

(** [add()] *)
Definition add : handler unit :=
  addr ← gets (getAPIURL "/datasharing/catalog");
  ok ← checkInputs ["catalog.key"; "catalog.value"];
  if negb ok then mret tt
  else
    key ← gets (val "catalog.key");
    value ← gets (val "catalog.value");
    let body := stringify (Arr [key; value]) in
    try_catch
      (_ ← await (base_fetch (post addr json_type body));
       update)
      (fun e => printError ("failed to add catalog entry: " +:+ exn_to_string e)).
End Catalog.

Module DataSharing.
(** The [load] listener of the file reader. *)
Definition on_load (addr : string) (result : list Z) : handler unit :=
  try_catch
    (resp ← await (base_fetch (post addr form_type (Bytes result)));
     text ← resp_text resp;
     _ ← printSuccess ("data uploaded, metahash: " +:+ text);
     modify (innerHTML "dataSharing.uploadResult" ("Metahash: " +:+ text)))
    (fun e => printError ("failed to upload data: " +:+ exn_to_string e)).

(** [upload()]; the listener runs when the reader has read the file. *)
Definition upload : handler unit :=
  addr ← gets (getAPIURL "/datasharing/upload");
  fileList ← gets files;
  match fileList with
  | [] => printError "No file found"
  | file :: _ =>
      match file with
      | Some result => Await (on_load addr result)
      | None => mret tt
      end
  end.

(** [triggerDownload(metahash, blob)] *)
Definition triggerDownload (metahash : string) (blob : string) : handler unit :=
  url ← gets counter;
  _ ← modify (fun p => next_count (set_urls (urls p ++ [url]) p));
  _ ← modify (add_link (Element "a" [] []));
  _ ← modify (add_saved (metahash, blob));
  modify (fun p => set_urls (filter (fun u => u <> url) (urls p)) p).

(** [download()] *)
Definition download : handler unit :=
  ok ← checkInputs ["dataSharing.downloadMetahash"];
  if negb ok then mret tt
  else
    metahash ← gets (val "dataSharing.downloadMetahash");
    addr ← gets (getAPIURL ("/datasharing/download?key=" +:+ to_string metahash));
    try_catch
      (resp ← await (base_fetch (GET addr));
       blob ← resp_text resp;
       _ ← triggerDownload (to_string metahash) blob;
       printSuccess "Data downloaded!")
      (fun e => printError ("Failed to download data: " +:+ exn_to_string e)).
End DataSharing.

Module Search.
(** [parseInt(v)] *)
Definition budget (v : value) : value := Num (parseInt (to_string v) None).

Definition all_pkt (pattern budget' timeout : value) : value :=
  obj [("Pattern", pattern); ("Budget", budget budget'); ("Timeout", timeout)].

(** [searchAll()] *)
Definition searchAll : handler unit :=
  addr ← gets (getAPIURL "/datasharing/searchAll");
  ok ← checkInputs ["search.searchAllPattern"; "search.searchAllBudget"; "search.searchAllTimeout"];
  if negb ok then mret tt
  else
    pattern ← gets (val "search.searchAllPattern");
    budget ← gets (val "search.searchAllBudget");
    timeout ← gets (val "search.searchAllTimeout");
    let body := stringify (all_pkt pattern budget timeout) in
    try_catch
      (_ ← modify (innerHTML "search.searchAllResult" "<i>searching all...</i>");
       resp ← await (base_fetch (post addr form_type body));
       text ← resp_text resp;
       _ ← printSuccess ("SearchAll done, result: " +:+ text);
       modify (innerHTML "search.searchAllResult" ("Names: " +:+ text)))
      (fun e => printError ("failed to searchAll: " +:+ exn_to_string e)).

Definition first_pkt (pattern initial factor retry timeout : value) : value :=
  obj [("Pattern", pattern); ("Initial", budget initial); ("Factor", budget factor);
       ("Retry", budget retry); ("Timeout", timeout)].

(** [searchFirst()] *)
Definition searchFirst : handler unit :=
  addr ← gets (getAPIURL "/datasharing/searchFirst");
  ok ← checkInputs ["search.searchFirstPattern"; "search.searchFirstInitialBudget";
                    "search.searchFirstFactor"; "search.searchFirstRetry"; "search.searchFirstTimeout"];
  if negb ok then mret tt
  else
    pattern ← gets (val "search.searchFirstPattern");
    initial ← gets (val "search.searchFirstInitialBudget");
    factor ← gets (val "search.searchFirstFactor");
    retry ← gets (val "search.searchFirstRetry");
    timeout ← gets (val "search.searchFirstTimeout");
    let body := stringify (first_pkt pattern initial factor retry timeout) in
    try_catch
      (_ ← modify (innerHTML "search.searchFirstResult" "<i>searching first...</i>");
       resp ← await (base_fetch (post addr form_type body));
       text ← resp_text resp;
       _ ← printSuccess ("Search done, result: " +:+ text);
       _ ← (if String.eqb text ""
            then modify (innerHTML "search.searchFirstResult" "<i>Nothing found</i>")
            else modify (innerHTML "search.searchFirstResult" ("Names: " +:+ text)));
       printSuccess ("search first done, result: " +:+ text))
      (fun e => printError ("failed to Search first: " +:+ exn_to_string e)).
End Search.

Module Naming.
(** [resolve()]: the result of [checkInputs] is not used. *)
Definition resolve : handler unit :=
  _ ← checkInputs ["naming.resolveFilename"];
  filename ← gets (val "naming.resolveFilename");
  addr ← gets (getAPIURL ("/datasharing/naming?name=" +:+ to_string filename));
  try_catch
    (resp ← await (base_fetch (GET addr));
     text ← resp_text resp;
     _ ← (if String.eqb text ""
          then modify (innerHTML "naming.resolveResult" "<i>nothing found</i>")
          else modify (innerHTML "naming.resolveResult" text));
     printSuccess "filename resolved")
    (fun e => printError ("Failed to resolve filename: " +:+ exn_to_string e)).

(** [tag()] *)
Definition tag : handler unit :=
  addr ← gets (getAPIURL "/datasharing/naming");
  ok ← checkInputs ["naming.tagFilename"; "naming.tagMetahash"];
  if negb ok then mret tt
  else
    filename ← gets (val "naming.tagFilename");
    metahash ← gets (val "naming.tagMetahash");
    let body := stringify (Arr [filename; metahash]) in
    try_catch
      (_ ← await (base_fetch (post addr json_type body));
       printSuccess "tagging done")
      (fun e => printError ("failed to tag filename: " +:+ exn_to_string e)).
End Naming.
