(* ===== verification/GuiForms.v ===== *)
(** * The forms of the peer's page

    The methods behind the page's forms share one protocol: validate the
    controls, send one request, report.  [form_refused], [form_submitted] and
    [form_body] state it for all of them: an empty control sends nothing and is
    named in an error message; filled controls lead to exactly the form's request;
    the receiver reads back the message; no error escapes.  [Naming.resolve] is
    the one method that does not follow it ([Naming_resolve_ignores_check]). *)

From S2P Require Import Prelude JsValue Json JsonFacts Async Hash Gui GuiMessaging GuiData.
Import Flash PeerInfo.

Inductive form :=
  | FUnicast | FAddPeer | FSetEntry | FChat | FPrivate
  | FCatalogAdd | FDownload | FSearchAll | FSearchFirst | FTag.

Definition form_task `{PageEnv} (f : form) : handler unit :=
  match f with
  | FUnicast => Unicast.send
  | FAddPeer => Routing.addPeer
  | FSetEntry => Routing.setEntry
  | FChat => Broadcast.sendChat
  | FPrivate => Broadcast.sendPrivate
  | FCatalogAdd => Catalog.add
  | FDownload => DataSharing.download
  | FSearchAll => Search.searchAll
  | FSearchFirst => Search.searchFirst
  | FTag => Naming.tag
  end.

(** The controls a form validates, in order. *)
Definition form_controls (f : form) : list string :=
  match f with
  | FUnicast => ["unicast.message"; "unicast.destination"]
  | FAddPeer => ["routing.peer"]
  | FSetEntry => ["routing.origin"]
  | FChat => ["broadcast.chatMessage"]
  | FPrivate => ["broadcast.privateMessage"; "broadcast.privateRecipients"]
  | FCatalogAdd => ["catalog.key"; "catalog.value"]
  | FDownload => ["dataSharing.downloadMetahash"]
  | FSearchAll => ["search.searchAllPattern"; "search.searchAllBudget"; "search.searchAllTimeout"]
  | FSearchFirst => ["search.searchFirstPattern"; "search.searchFirstInitialBudget";
                     "search.searchFirstFactor"; "search.searchFirstRetry"; "search.searchFirstTimeout"]
  | FTag => ["naming.tagFilename"; "naming.tagMetahash"]
  end.

(** The data a form submits; the download form puts its key in the URL. *)
Definition form_message (f : form) (p : page) : value :=
  let v k := val k p in
  match f with
  | FUnicast => Unicast.pkt (v "unicast.destination") (v "unicast.message")
  | FAddPeer => Arr [v "routing.peer"]
  | FSetEntry => obj [("Origin", v "routing.origin"); ("RelayAddr", v "routing.relay")]
  | FChat => Broadcast.chat (v "broadcast.chatMessage")
  | FPrivate => Broadcast.private (to_string (v "broadcast.privateRecipients"))
                                  (v "broadcast.privateMessage")
  | FCatalogAdd => Arr [v "catalog.key"; v "catalog.value"]
  | FDownload => Undefined
  | FSearchAll => Search.all_pkt (v "search.searchAllPattern") (v "search.searchAllBudget")
                                 (v "search.searchAllTimeout")
  | FSearchFirst => Search.first_pkt (v "search.searchFirstPattern")
                      (v "search.searchFirstInitialBudget") (v "search.searchFirstFactor")
                      (v "search.searchFirstRetry") (v "search.searchFirstTimeout")
  | FTag => Arr [v "naming.tagFilename"; v "naming.tagMetahash"]
  end.

Definition form_path (f : form) : string :=
  match f with
  | FUnicast => "/messaging/unicast"
  | FAddPeer => "/messaging/peers"
  | FSetEntry => "/messaging/routing"
  | FChat | FPrivate => "/messaging/broadcast"
  | FCatalogAdd => "/datasharing/catalog"
  | FDownload => "/datasharing/download?key="
  | FSearchAll => "/datasharing/searchAll"
  | FSearchFirst => "/datasharing/searchFirst"
  | FTag => "/datasharing/naming"
  end.

Definition form_request (f : form) (p : page) : request :=
  match f with
  | FDownload => GET (getAPIURL (form_path f +:+ to_string (val "dataSharing.downloadMetahash" p)) p)
  | FSearchAll | FSearchFirst =>
      post (getAPIURL (form_path f) p) form_type (stringify (form_message f p))
  | _ => post (getAPIURL (form_path f) p) json_type (stringify (form_message f p))
  end.

(** The first control of a list without a value. *)
Fixpoint first_missing (p : page) (cs : list string) : option control :=
  match cs with
  | [] => None
  | c :: cs' => if missing (cvalue (controls p c)) then Some (controls p c) else first_missing p cs'
  end.

(** ** Execution *)

Section run_gui.
Context (server : list request -> request -> fetch_result).

Lemma checkInputs_cons el els :
  checkInputs (el :: els) =
  (c ← gets (fun p => controls p el);
   if missing (cvalue c) then _ ← printError (field_error (cname c)); mret false
   else checkInputs els).
Proof. reflexivity. Qed.

Lemma run_checkInputs cs p l :
  run server (checkInputs cs) p l =
  match first_missing p cs with
  | Some c => (Normal false, print "error" (field_error (cname c)) p, l)
  | None => (Normal true, p, l)
  end.
Proof.
  revert p l. induction cs as [|c cs IH]; intros p l; [done|]. rewrite checkInputs_cons.
  rewrite run_bind, run_gets. cbn [first_missing].
  destruct (missing _); [|apply IH]. unfold printError. by rewrite run_bind, run_modify.
Qed.

(** What [base_fetch] makes of an answer. *)
Definition checked (x : fetch_result) : outcome response :=
  match x with
  | NoResponse e => Throw e
  | Resp r =>
      if (status r =? 200)%Z then Normal r
      else match text r with
           | Normal t => Throw (Thrown ("wrong status: " +:+ num_to_string (int (status r)) +:+ " " +:+
                                        statusText r +:+ " - " +:+ t))
           | Throw e => Throw e
           end
  end.

Lemma run_base_fetch r p l :
  run server (base_fetch r) p l = (checked (server l r), p, l ++ [r]).
Proof.
  unfold base_fetch, checked. rewrite run_bind, run_fetch.
  destruct (server l r) as [e|resp]; [done|]. destruct (status resp =? 200)%Z; [done|].
  rewrite run_bind, run_resp_text. by destruct (text resp).
Qed.

(** Requests are only added to the log. *)
Lemma run_log {S A} (t : task S A) s l : exists r, (run server t s l).2 = l ++ r.
Proof.
  revert s l. induction t as [a|e|k IH|s' k IH|k IH|r k IH]; intros s l; simpl;
    [exists []; by rewrite app_nil_r..|apply IH|apply IH|apply IH|].
  destruct (IH (server l r) s (l ++ [r])) as [q Hq]. exists (r :: q). by rewrite Hq, <- app_assoc.
Qed.

(** Handlers that catch all their errors. *)
Definition quiet {S} (t : task S unit) : Prop := forall s l, (run server t s l).1.1 = Normal tt.

Lemma quiet_modify {S} (f : S -> S) : quiet (modify f).
Proof. by intros s l. Qed.

Lemma quiet_try {S} (t : task S unit) h : (forall e, quiet (h e)) -> quiet (try_catch t h).
Proof.
  intros Hh s l. rewrite run_try. destruct (run server t s l) as [[[[]|e] s'] l']; [done|]. apply Hh.
Qed.

Lemma quiet_error (t : handler unit) (m : exn -> string) :
  quiet (try_catch t (fun e => printError (m e))).
Proof. apply quiet_try. intros e. apply quiet_modify. Qed.

(** A guarded request: the validated form's continuation. *)
Lemma run_guarded r (k : response -> handler unit) (m : exn -> string) p l :
  exists p' rest,
    run server (try_catch (await (base_fetch r) ≫= k) (fun e => printError (m e))) p l
    = (Normal tt, p', l ++ r :: rest).
Proof.
  set (t := try_catch _ _). pose proof (quiet_error (await (base_fetch r) ≫= k) m p l) as Hq.
  fold t in Hq. assert (exists rest, (run server t p l).2 = l ++ r :: rest) as [rest Hr].
  { unfold t. rewrite run_try, run_bind, run_await, run_base_fetch.
    destruct (checked (server l r)) as [resp|e].
    - destruct (run_log (k resp) p (l ++ [r])) as [q Hq'].
      destruct (run server (k resp) p (l ++ [r])) as [[[a|e] p'] l']; simpl in *; subst.
      + exists q. by rewrite <- app_assoc.
      + exists q. by rewrite <- app_assoc.
    - by exists []. }
  destruct (run server t p l) as [[o p'] l']. simpl in *. subst. by exists p', rest.
Qed.

(** The same after an update of the page. *)
Lemma run_guarded_after f r (k : response -> handler unit) (m : exn -> string) p l :
  exists p' rest,
    run server (try_catch (modify f ≫= fun _ => await (base_fetch r) ≫= k)
                          (fun e => printError (m e))) p l
    = (Normal tt, p', l ++ r :: rest).
Proof.
  destruct (run_guarded r k m (f p) l) as (p' & rest & Hr). exists p', rest.
  rewrite <- Hr. rewrite !run_try. by rewrite run_bind, run_modify.
Qed.
End run_gui.

(** Run the reads and the validation at the head of a form's method. *)
Ltac run_validation Hc :=
  repeat first
    [ rewrite run_bind, run_gets
    | rewrite run_bind, run_checkInputs; cbn [form_controls] in Hc; rewrite Hc; cbn [negb] ].

Ltac unfold_form :=
  cbn [form_task];
  unfold Unicast.send, Routing.addPeer, Routing.setEntry, Broadcast.sendChat, Broadcast.sendPrivate,
    Catalog.add, DataSharing.download, Search.searchAll, Search.searchFirst, Naming.tag.

(** a form with an empty or missing control sends no request and changes
    nothing but the flash messages, where an error names the first such control. *)
Theorem form_refused `{PageEnv} server f c p l :
  first_missing p (form_controls f) = Some c ->
  run server (form_task f) p l = (Normal tt, print "error" (field_error (cname c)) p, l).
Proof. intros Hc. destruct f; unfold_form; run_validation Hc; reflexivity. Qed.

(** a form whose controls are filled sends exactly its request first, to the
    peer's endpoint, and completes without an exception whatever the peer
    answers. *)
Theorem form_submitted `{PageEnv} server f p l :
  first_missing p (form_controls f) = None ->
  exists p' rest, run server (form_task f) p l = (Normal tt, p', l ++ form_request f p :: rest).
Proof.
  intros Hc. destruct f; unfold_form; run_validation Hc; cbv zeta;
    first [apply run_guarded|apply run_guarded_after].
Qed.

(** ** What the receiver reads *)

(** The controls a form reads without validating them. *)
Definition form_optional (f : form) : list string :=
  match f with FSetEntry => ["routing.relay"] | _ => [] end.

(** The controls whose text is read with [parseInt]. *)
Definition form_numeric (f : form) : list string :=
  match f with
  | FSearchAll => ["search.searchAllBudget"]
  | FSearchFirst => ["search.searchFirstInitialBudget"; "search.searchFirstFactor";
                     "search.searchFirstRetry"]
  | _ => []
  end.

Definition has_value (p : page) (k : string) : bool :=
  match cvalue (controls p k) with Some _ => true | None => false end.

Definition is_number (p : page) (k : string) : bool :=
  match parseInt (to_string (val k p)) None with NaN => false | _ => true end.

Lemma val_ok p k : has_value p k = true -> json_ok (val k p).
Proof. unfold has_value, val. destruct (cvalue (controls p k)); [intros _; apply ok_str|done]. Qed.

Lemma first_missing_value p cs :
  first_missing p cs = None -> Forall (fun k => has_value p k = true) cs.
Proof.
  induction cs as [|c cs IH]; cbn [first_missing]; [constructor|].
  destruct (missing _) eqn:E; [done|]. intros Hm. constructor; [|by apply IH].
  unfold has_value. by destruct (cvalue (controls p c)).
Qed.

Lemma budget_ok p k : is_number p k = true -> json_ok (Search.budget (val k p)).
Proof.
  unfold is_number, Search.budget, parseInt. intros Hn.
  repeat match goal with |- context [let '(_, _) := ?x in _] => destruct x end.
  destruct (starts_digit _ _); [constructor; done|done].
Qed.

Lemma assign_ok k v o : json_ok (Obj o) -> json_ok v -> json_ok (Obj (props_assign k v o)).
Proof.
  intros Ho Hv. unfold props_assign. destruct (String.eqb k "__proto__"); [done|].
  inversion Ho; subst. apply ok_obj; [by apply props_define_ok|by apply props_define_wf].
Qed.

Lemma recipients_ok d : json_ok (Obj (Broadcast.recipients d)).
Proof.
  assert (json_ok (Obj [])) as Hnil by (apply ok_obj; constructor).
  enough (forall l o, json_ok (Obj o) ->
    json_ok (Obj (fold_left (fun o e => props_assign (trim e) (Obj []) o) l o))) as Hg
    by (by apply Hg).
  induction l as [|e l IH]; intros o Ho; [done|]. by apply IH, assign_ok.
Qed.

Lemma form_message_ok p f :
  f <> FDownload -> first_missing p (form_controls f) = None ->
  forallb (has_value p) (form_optional f) = true -> forallb (is_number p) (form_numeric f) = true ->
  json_ok (form_message f p).
Proof.
  intros Hf Hm Ho Hn. apply first_missing_value in Hm.
  destruct f; try done; cbn [form_controls form_optional form_numeric forallb] in *;
    rewrite ?andb_true_iff in *; destruct_and?;
    repeat match goal with H : Forall _ (_ :: _) |- _ => apply Forall_cons in H as [? ?] end;
    cbn [form_message]; unfold Unicast.pkt, Broadcast.chat, Broadcast.private, Search.all_pkt,
      Search.first_pkt;
    repeat first [apply obj_ok | apply ok_arr | apply Forall_cons_2 | apply Forall_nil_2 |
                  apply val_ok; assumption | apply budget_ok; assumption | apply ok_str |
                  apply recipients_ok | progress cbn [snd]].
Qed.

(** The body of a form's request is a text from which the receiver parses back
    exactly the message of the form, for every form that has a body. *)
Theorem form_body p f :
  f <> FDownload -> first_missing p (form_controls f) = None ->
  forallb (has_value p) (form_optional f) = true -> forallb (is_number p) (form_numeric f) = true ->
  exists s, body (form_request f p) = Str s /\ json_parse s = Normal (form_message f p).
Proof.
  intros Hf Hm Ho Hn. destruct (json_roundtrip _ (form_message_ok p f Hf Hm Ho Hn)) as (s & Hs & Hp).
  exists s. split; [|done]. by destruct f.
Qed.

(** ** Concrete instances *)

Import DemoPage.

Lemma form_refused_witness :
  run (peer "") (form_task FTag) (filled "") [] =
  (Normal tt, print "error" (field_error "naming.tagFilename") (filled ""), []).
Proof.
  exact (form_refused (peer "") FTag (Control "naming.tagFilename" (Some "")) (filled "") [] eq_refl).
Defined.

Lemma form_submitted_witness :
  exists p' rest, run (peer "") (form_task FSearchAll) (filled "1") [] =
    (Normal tt, p', [] ++ form_request FSearchAll (filled "1") :: rest).
Proof. exact (form_submitted (peer "") FSearchAll (filled "1") [] eq_refl). Defined.

Lemma form_body_witness :
  exists s, body (form_request FPrivate (filled "a, b")) = Str s /\
    json_parse s = Normal (form_message FPrivate (filled "a, b")).
Proof. apply (form_body (filled "a, b") FPrivate); [discriminate|reflexivity..]. Defined.
