(* ===== verification/GuiFacts.v ===== *)
(** * Facts on the shared parts of the peer's page

    The text of flash messages and their lifetime, the address taken from the
    page's URL, and the collapsible sections. *)

From S2P Require Import Prelude JsValue Json JsonFacts Async Hash Gui.
Import Flash PeerInfo.

(** ** The text of a message *)

(** The words of a text: its maximal runs of characters that are not white space. *)
Fixpoint words (s : string) : list string :=
  match s with
  | EmptyString => []
  | String c s' =>
      if is_space c then words s'
      else match s' with
           | EmptyString => [String c ""]
           | String d _ =>
               if is_space d then String c "" :: words s'
               else match words s' with
                    | w :: ws => String c w :: ws
                    | [] => [String c ""]
                    end
           end
  end.

Lemma words_nonempty s : Forall (fun w => w <> "") (words s).
Proof.
  induction s as [|c s IH]; cbn [words]; [constructor|]. destruct (is_space c); [done|].
  destruct s as [|d s]; [by repeat constructor|]. destruct (is_space d); [by constructor|].
  destruct (words (String d s)) as [|w ws]; [by repeat constructor|].
  inversion IH; subst. by constructor.
Qed.

Lemma join_nonempty ws : Forall (fun w => w <> "") ws -> ws <> [] -> join " " ws <> "".
Proof.
  intros Hf Hne. destruct Hf as [|w ws Hw Hf]; [done|]. destruct w as [|c w]; [done|].
  by destruct ws.
Qed.

Lemma trim_start_squash s : trim_start (squash true s) = squash true s.
Proof.
  induction s as [|c s IH]; [done|]. cbn [squash]. destruct (is_space c) eqn:E; [done|].
  cbn [trim_start]. by rewrite E.
Qed.

Lemma trim_start_squash_false s : trim_start (squash false s) = squash true s.
Proof.
  destruct s as [|c s]; [done|]. cbn [squash]. destruct (is_space c) eqn:E.
  - apply trim_start_squash.
  - cbn [trim_start]. by rewrite E.
Qed.

Lemma trim_end_cons c s : is_space c = false -> trim_end (String c s) = String c (trim_end s).
Proof. intros Hc. cbn [trim_end]. rewrite Hc. by destruct (trim_end s). Qed.

Lemma trim_end_space s : trim_end s <> "" -> trim_end (String " " s) = String " " (trim_end s).
Proof. intros Hs. cbn [trim_end]. by destruct (trim_end s). Qed.

Lemma trim_end_squash s : trim_end (squash true s) = join " " (words s).
Proof.
  induction s as [|c s IH]; [done|]. cbn [squash words]. destruct (is_space c) eqn:E; [done|].
  rewrite trim_end_cons by done. destruct s as [|d s]; [done|].
  destruct (is_space d) eqn:Ed.
  - pose proof (words_nonempty (String d s)) as Hf.
    cbn [squash] in IH |- *. rewrite Ed in IH |- *.
    destruct (words (String d s)) as [|w ws].
    + cbn [trim_end]. by rewrite IH.
    + rewrite trim_end_space; [by rewrite IH|]. rewrite IH. by apply join_nonempty.
  - cbn [squash] in IH |- *. rewrite Ed in IH |- *. rewrite IH.
    assert (words (String d s) <> []) as Hne.
    { cbn [words]. rewrite Ed. destruct s as [|e s]; [done|]. destruct (is_space e); [done|].
      by destruct (words (String e s)). }
    by destruct (words (String d s)) as [|w [|w' ws]].
Qed.

(** The text of a flash message consists of the words of the message, with one
    space between two of them and none at the ends. *)
Theorem flash_text s : normalise s = join " " (words s).
Proof. unfold normalise, trim. by rewrite trim_start_squash_false, trim_end_squash. Qed.

(** ** The lifetime of a message *)

Inductive flash_event :=
  | Show (className content : string)
  | Close (i : nat)
  | Expire.

Definition flash_step (p : page) (e : flash_event) : page :=
  match e with
  | Show c s => print c s p
  | Close i => close i p
  | Expire => expire p
  end.

(** Every message shown has its own timeout pending. *)
Record flash_inv (p : page) : Prop := {
  fi_timers : forall f, f ∈ flashes p -> f.1 ∈ timers p;
  fi_fresh : Forall (fun i => i < counter p) (timers p);
  fi_nodup : NoDup (flashes p).*1
}.

Lemma without_sub i l f : f ∈ without i l <-> f ∈ l /\ f.1 <> i.
Proof. unfold without. rewrite list_elem_of_filter. tauto. Qed.

Lemma without_nodup i l : NoDup l.*1 -> NoDup (without i l).*1.
Proof.
  unfold without. induction l as [|f l IH]; [done|]. csimpl. intros [Hf Hl]%NoDup_cons.
  rewrite filter_cons. destruct (decide (f.1 <> i)); [|by apply IH].
  csimpl. apply NoDup_cons. split; [|by apply IH].
  intros (g & Hg & Hin)%list_elem_of_fmap. apply Hf. apply list_elem_of_fmap.
  exists g. split; [done|]. by apply list_elem_of_filter in Hin as [_ ?].
Qed.

Lemma flash_step_inv p e : flash_inv p -> flash_inv (flash_step p e).
Proof.
  intros [Ht Hf Hn]. destruct e as [c s|i|]; simpl.
  - split; simpl.
    + intros f. rewrite !elem_of_app, !list_elem_of_singleton. intros [Hin| ->]; auto.
    + apply Forall_app. split; [|repeat constructor].
      eapply Forall_impl; [done|]. simpl. lia.
    + rewrite fmap_app. apply NoDup_app. split_and!; [done| |apply NoDup_singleton].
      intros i (f & -> & Hin)%list_elem_of_fmap. csimpl. rewrite list_elem_of_singleton. intros Hi.
      apply Ht in Hin. rewrite Forall_forall in Hf. apply Hf in Hin. lia.
  - split; simpl; [|done|by apply without_nodup].
    intros f [Hin _]%without_sub. by apply Ht.
  - unfold expire. destruct (timers p) as [|i t] eqn:E; [by split; rewrite ?E|].
    split; simpl; [| |by apply without_nodup].
    + intros f [Hin Hne]%without_sub. pose proof (Ht f Hin) as [|]%elem_of_cons; congruence.
    + by inversion Hf.
Qed.

Lemma expire_timers p : timers (expire p) = tail (timers p).
Proof. unfold expire. by destruct (timers p) eqn:E; simpl; rewrite ?E. Qed.

Lemma expire_all p : flash_inv p -> flashes (Nat.iter (length (timers p)) expire p) = [].
Proof.
  remember (length (timers p)) as n eqn:Hn. revert p Hn.
  induction n as [|n IH]; intros p Hn Hinv.
  - simpl. destruct (timers p) as [|] eqn:E; [|done]. destruct Hinv as [Ht _ _].
    destruct (flashes p) as [|f l]; [done|]. exfalso.
    specialize (Ht f (list_elem_of_here _ _)). rewrite E in Ht. by apply not_elem_of_nil in Ht.
  - rewrite Nat.iter_succ_r. apply IH.
    + rewrite expire_timers. destruct (timers p); simpl in *; lia.
    + by apply (flash_step_inv p Expire).
Qed.

(** whatever messages are shown, closed by the user or expired, from a page
    without messages: no two messages shown share an identity, and once the
    pending timeouts have fired no message is left. *)
Theorem flash_messages_expire p events :
  flashes p = [] -> timers p = [] ->
  let p' := fold_left flash_step events p in
  NoDup (flashes p').*1 /\
  flashes (Nat.iter (length (timers p')) expire p') = [].
Proof.
  intros Hf Ht p'.
  assert (flash_inv p') as Hinv.
  { assert (flash_inv p) as H0 by (split; rewrite ?Hf, ?Ht; [set_solver|constructor|constructor]).
    subst p'. clear Hf Ht. revert p H0. induction events as [|e events IH]; intros p H0; [done|].
    simpl. by apply IH, flash_step_inv. }
  split; [apply Hinv|by apply expire_all].
Qed.

(** ** Collapsible sections *)

Definition consistent (c : collapsible) : Prop :=
  sibling c = Some (if active c then "block" else "none").

(** Clicks on the elements with the given indices, one after the other. *)
Fixpoint clicks (ks : list nat) (coll : list collapsible) : outcome (list collapsible) :=
  match ks with
  | [] => Normal coll
  | i :: ks' =>
      match coll !! i with
      | None => clicks ks' coll
      | Some c => c' ← collapsible_click c; clicks ks' (<[i := c']> coll)
      end
  end.

Lemma init_consistent coll :
  Forall (fun c => is_Some (sibling c)) coll ->
  exists coll', initCollapsible coll = Normal coll' /\ Forall consistent coll' /\
    active <$> coll' = active <$> coll.
Proof.
  induction 1 as [|c coll [d Hd] Hc (coll' & Hi & Hf & Ha)]; [by exists []|].
  exists (Collapsible (active c) (Some (if active c then "block" else "none")) :: coll').
  cbn [initCollapsible]. unfold display. rewrite Hd. cbn [mbind outcome_bind]. rewrite Hi.
  cbn [mbind outcome_bind]. split_and!; [done|by constructor|]. csimpl. by rewrite Ha.
Qed.

Lemma click_consistent c : consistent c ->
  exists c', collapsible_click c = Normal c' /\ consistent c' /\ active c' = negb (active c).
Proof.
  unfold consistent, collapsible_click, display. intros ->.
  destruct (active c); eexists; split_and!; reflexivity.
Qed.

(** When every collapsible element has a sibling, initialisation succeeds, and
    after any sequence of clicks the siblings shown are those of the active
    elements; an element is active when it was at the start and was clicked an even
    number of times, or conversely. *)
Theorem collapsible_displays coll ks :
  Forall (fun c => is_Some (sibling c)) coll ->
  exists coll' coll'', initCollapsible coll = Normal coll' /\ clicks ks coll' = Normal coll'' /\
    Forall consistent coll'' /\
    forall i c, coll !! i = Some c ->
      active <$> coll'' !! i = Some (xorb (active c) (Nat.odd (count_occ Nat.eq_dec ks i))).
Proof.
  intros Hs. destruct (init_consistent coll Hs) as (coll' & Hi & Hf & Ha). exists coll'.
  enough (exists coll'', clicks ks coll' = Normal coll'' /\ Forall consistent coll'' /\
    forall i, active <$> coll'' !! i
              = (fun a => xorb a (Nat.odd (count_occ Nat.eq_dec ks i))) <$> (active <$> coll' !! i))
    as (coll'' & Hc & Hf' & Hact).
  { exists coll''. split_and!; [done..|]. intros i c Hc'. rewrite Hact.
    rewrite <- list_lookup_fmap, Ha, list_lookup_fmap, Hc'. done. }
  clear Hi Ha Hs coll. revert coll' Hf. induction ks as [|i ks IH]; intros coll' Hf.
  { exists coll'. split_and!; [done..|]. intros i. destruct (coll' !! i) as [c|]; simpl; [|done].
    by destruct (active c). }
  cbn [clicks]. destruct (coll' !! i) as [c|] eqn:Hl.
  - destruct (click_consistent c (Forall_lookup_1 _ _ _ _ Hf Hl)) as (c' & -> & Hc' & Hact).
    cbn [mbind outcome_bind]. destruct (IH (<[i := c']> coll')) as (coll'' & Hr & Hf'' & Ha'').
    { by apply Forall_insert. }
    exists coll''. split_and!; [done..|]. intros j. rewrite Ha''. cbn [count_occ].
    destruct (Nat.eq_dec i j) as [->|Hne].
    + rewrite list_lookup_insert_eq by (by eapply lookup_lt_Some). rewrite Hl. cbn.
      rewrite Hact, Nat.odd_succ, <- Nat.negb_odd. by destruct (active c), (Nat.odd _).
    + by rewrite list_lookup_insert_ne.
  - destruct (IH coll' Hf) as (coll'' & Hr & Hf'' & Ha''). exists coll''. split_and!; [done..|].
    intros j. rewrite Ha''. cbn [count_occ]. destruct (Nat.eq_dec i j) as [->|Hne]; [|done].
    by rewrite Hl.
Qed.

(** ** The peer's address *)

(** A hexadecimal digit in upper case. *)
Definition hex_upper (d : Z) : ascii := chr (if (d <? 10)%Z then 48 + d else 55 + d).

(** The escape of a byte. *)
Definition escape (b : Z) : string :=
  String "%" (String (hex_upper (b / 16)) (String (hex_upper (b mod 16)) "")).

Lemma hex_upper_val d c : (0 <= d < 16)%Z -> c = "&"%char \/ c = "="%char ->
  digit_val 16 (hex_upper d) = Some d /\ Ascii.eqb (hex_upper d) c = false.
Proof.
  intros Hd Hc. assert (exists k, d = Z.of_nat k /\ (k < 16)%nat) as (k & -> & Hk).
  { exists (Z.to_nat d). lia. }
  do 16 (destruct k as [|k]; [split; [reflexivity|by destruct Hc; subst]|]). lia.
Qed.

Lemma hex_upper_digit d : (0 <= d < 16)%Z -> digit_val 16 (hex_upper d) = Some d.
Proof. intros Hd. apply (hex_upper_val d "&"); auto. Qed.

(** The characters [encodeURIComponent] keeps. *)
Definition unreserved (c : ascii) : bool :=
  let n := code c in
  ((48 <=? n) && (n <=? 57) || (65 <=? n) && (n <=? 90) || (97 <=? n) && (n <=? 122)
   || (n =? 33) || (39 <=? n) && (n <=? 42) || (n =? 45) || (n =? 46) || (n =? 95) || (n =? 126))%Z.

(** [encodeURIComponent(s)], as the link to the page is built. *)
Fixpoint encodeURIComponent (s : string) : string :=
  match s with
  | EmptyString => ""
  | String c s' =>
      (if unreserved c then String c ""
       else if (code c <? 128)%Z then escape (code c)
       else escape (192 + code c / 64) +:+ escape (128 + code c mod 64))
      +:+ encodeURIComponent s'
  end.

Lemma escape_byte_escape b s : (0 <= b < 256)%Z -> escape_byte (escape b +:+ s) = Some (b, s).
Proof.
  intros Hb. unfold escape. rewrite !string_app_cons, string_app_nil_l. cbn [escape_byte].
  rewrite Ascii.eqb_refl, !hex_upper_digit by (pose proof (Z.mod_pos_bound b 16); pose proof (Z.div_mod b 16); lia).
  do 2 f_equal. pose proof (Z.div_mod b 16). lia.
Qed.

Lemma escape_head b s : exists a c, escape b +:+ s = String "%" (String a (String c s)).
Proof. unfold escape. rewrite !string_app_cons, string_app_nil_l. eauto. Qed.

Lemma unreserved_spec c : unreserved c = true ->
  Ascii.eqb c "%" = false /\ Ascii.eqb c "&" = false /\ Ascii.eqb c "=" = false.
Proof. destruct c as [[] [] [] [] [] [] [] []]; by vm_compute. Qed.

Lemma decode_encode s n :
  (String.length (encodeURIComponent s) <= n)%nat -> decode n (encodeURIComponent s) = Decoded s.
Proof.
  revert n. induction s as [|c s IH]; intros n Hn; [by destruct n|].
  cbn [encodeURIComponent] in *. pose proof (code_bound c) as Hc.
  destruct (unreserved c) eqn:Hu; [|destruct (code c <? 128)%Z eqn:Hlow].
  - rewrite string_app_cons, string_app_nil_l in *. cbn [String.length] in Hn.
    destruct n as [|n]; [lia|]. cbn [decode]. destruct (unreserved_spec c Hu) as [-> _].
    simpl. rewrite IH by lia. done.
  - pose proof (escape_byte_escape (code c) (encodeURIComponent s) Hc) as He.
    destruct (escape_head (code c) (encodeURIComponent s)) as (x & y & Hx). rewrite Hx in *.
    cbn [String.length] in Hn. destruct n as [|n]; [lia|]. cbn [decode]. rewrite He, Hlow. cbn.
    rewrite IH by lia. cbn. by rewrite chr_code.
  - rewrite <- string_app_assoc in *.
    pose proof (escape_byte_escape (192 + code c / 64)
      (escape (128 + code c mod 64) +:+ encodeURIComponent s)) as He1.
    pose proof (escape_byte_escape (128 + code c mod 64) (encodeURIComponent s)) as He2.
    pose proof (Z.mod_pos_bound (code c) 64) as Hm. pose proof (Z.div_mod (code c) 64) as Hdm.
    assert (2 <= code c / 64 <= 3)%Z as Hd.
    { split; [apply Z.div_le_lower_bound; lia|apply Z.lt_succ_r, Z.div_lt_upper_bound; lia]. }
    destruct (escape_head (192 + code c / 64)
      (escape (128 + code c mod 64) +:+ encodeURIComponent s)) as (x & y & Hx). rewrite Hx in *.
    destruct (escape_head (128 + code c mod 64) (encodeURIComponent s)) as (x' & y' & Hx').
    cbn [String.length] in Hn. rewrite Hx' in Hn. cbn [String.length] in Hn.
    destruct n as [|n]; [lia|]. cbn [decode]. rewrite He1 by lia. cbn.
    replace (192 + code c / 64 <? 128)%Z with false by lia.
    replace ((194 <=? 192 + code c / 64) && (192 + code c / 64 <=? 195))%Z with true by lia.
    rewrite He2 by lia.
    replace ((128 <=? 128 + code c mod 64) && (128 + code c mod 64 <=? 191))%Z with true by lia.
    rewrite IH by lia. cbn. do 2 f_equal.
    replace ((192 + code c / 64 - 192) * 64 + (128 + code c mod 64 - 128))%Z with (code c) by lia.
    apply chr_code.
Qed.

(** A text without a given character is one field. *)
Fixpoint absent (c : ascii) (s : string) : bool :=
  match s with
  | EmptyString => true
  | String d s' => negb (Ascii.eqb d c) && absent c s'
  end.

Lemma absent_app c a b : absent c (a +:+ b) = absent c a && absent c b.
Proof.
  induction a as [|d a IH]; [by rewrite string_app_nil_l|].
  rewrite string_app_cons. cbn [absent]. by rewrite IH, andb_assoc.
Qed.

Lemma split_absent c s : absent c s = true -> split c s = [s].
Proof.
  induction s as [|d s IH]; [done|]. cbn [absent split]. rewrite andb_true_iff.
  intros [Hd Hs]. destruct (Ascii.eqb d c); [done|]. by rewrite (IH Hs).
Qed.

Lemma absent_escape c b : (0 <= b < 256)%Z -> c = "&"%char \/ c = "="%char ->
  absent c (escape b) = true.
Proof.
  intros Hb Hc. unfold escape. cbn [absent].
  pose proof (Z.mod_pos_bound b 16). pose proof (Z.div_mod b 16).
  destruct (hex_upper_val (b / 16) c) as [_ ->]; [lia|done|].
  destruct (hex_upper_val (b mod 16) c) as [_ ->]; [lia|done|]. by destruct Hc; subst.
Qed.

Lemma absent_encode c s : c = "&"%char \/ c = "="%char -> absent c (encodeURIComponent s) = true.
Proof.
  intros Hc. induction s as [|d s IH]; [done|]. cbn [encodeURIComponent].
  rewrite absent_app, IH, andb_true_r. pose proof (code_bound d) as Hd.
  destruct (unreserved d) eqn:Hu.
  - destruct (unreserved_spec d Hu) as (_ & H1 & H2). cbn [absent].
    by destruct Hc; subst; rewrite ?H1, ?H2.
  - destruct (code d <? 128)%Z eqn:Hl; [by apply absent_escape|].
    rewrite absent_app. pose proof (Z.mod_pos_bound (code d) 64). pose proof (Z.div_mod (code d) 64).
    by rewrite !absent_escape by (done || lia).
Qed.

(** The query of the page's URL names the peer. *)
Lemma query_addr p host :
  location_search p = "?addr=" +:+ encodeURIComponent host ->
  getQueryArgs p = Obj [("addr", Str (encodeURIComponent host))].
Proof.
  intros Hs. unfold getQueryArgs, substr. rewrite Hs. set (e := encodeURIComponent host).
  change ("?addr=" +:+ e) with (String "?" ("addr=" +:+ e)). cbn [String.substring].
  rewrite substring_all by (cbn [String.length]; lia).
  rewrite (split_absent "&") by (rewrite absent_app; unfold e; by rewrite absent_encode by auto).
  assert (split "=" ("addr=" +:+ e) = ["addr"; e]) as Hsp.
  { change ("addr=" +:+ e) with (String "a" (String "d" (String "d" (String "r" (String "=" e))))).
    cbn. by rewrite split_absent by (apply absent_encode; auto). }
  cbn [fold_left]. rewrite Hsp. done.
Qed.

(** A page opened with the encoded address of a peer in its URL talks to that
    peer: it asks the peer for its socket address, and every later request of a
    controller goes to an URL under [http://] and that address. *)
Theorem peer_address `{PageEnv} server host p l r t :
  location_search p = "?addr=" +:+ encodeURIComponent host ->
  server l (GET ("http://" +:+ host +:+ "/socket/address")) = Resp r -> text r = Normal t ->
  exists p', run server PeerInfo.initialize p l
      = (Normal tt, p', l ++ [GET ("http://" +:+ host +:+ "/socket/address")]) /\
    socketAddr p' = Some t /\
    forall suffix, getAPIURL suffix p' = "http://" +:+ host +:+ suffix.
Proof.
  intros Hs Hr Ht. unfold PeerInfo.initialize. rewrite run_bind, run_gets, (query_addr p host Hs).
  change (to_string (prop _ "addr")) with (encodeURIComponent host).
  assert (decodeURIComponent (encodeURIComponent host) = Normal host) as Hd
    by (unfold decodeURIComponent; by rewrite decode_encode).
  rewrite run_bind, run_lift, Hd. cbv beta iota. rewrite run_bind, run_modify, run_bind.
  rewrite run_bind, run_gets, run_modify, run_bind, run_gets.
  assert (forall e q x, getAPIURL x (innerText "peerInfo.peerAddr" q (set_endpoint (Some e) p))
                        = e +:+ x) as Hurl by done.
  rewrite Hurl, <- string_app_assoc, run_try, run_bind, run_fetch, Hr.
  rewrite run_bind, run_resp_text, Ht, run_bind, !run_modify.
  eexists. split_and!; [done|done|]. intros suffix. apply symmetry, string_app_assoc.
Qed.

(** ** Concrete instances *)

Import DemoPage.

Lemma flash_messages_expire_witness :
  let p' := fold_left flash_step [Show "error" "a"; Show "success" "b"; Close 0; Expire] (filled "") in
  NoDup (flashes p').*1 /\ flashes (Nat.iter (length (timers p')) expire p') = [].
Proof.
  exact (flash_messages_expire (filled "") [Show "error" "a"; Show "success" "b"; Close 0; Expire]
           eq_refl eq_refl).
Defined.

Lemma collapsible_displays_witness :
  exists coll' coll'', initCollapsible [Collapsible true (Some ""); Collapsible false (Some "")]
      = Normal coll' /\ clicks [0; 1; 0] coll' = Normal coll'' /\ Forall consistent coll''.
Proof.
  destruct (collapsible_displays [Collapsible true (Some ""); Collapsible false (Some "")] [0; 1; 0])
    as (c1 & c2 & H1 & H2 & H3 & _).
  - repeat constructor; eexists; reflexivity.
  - exists c1, c2. exact (conj H1 (conj H2 H3)).
Defined.

Lemma peer_address_witness :
  exists p', run (peer "127.0.0.1:9000") PeerInfo.initialize (filled "") []
      = (Normal tt, p', [GET "http://127.0.0.1:8080/socket/address"]) /\
    socketAddr p' = Some "127.0.0.1:9000".
Proof.
  destruct (peer_address (peer "127.0.0.1:9000") "127.0.0.1:8080" (filled "") []
    (Response 200 "OK" (Normal "127.0.0.1:9000")) "127.0.0.1:9000") as (p' & H1 & H2 & _);
    [vm_compute; reflexivity|reflexivity|reflexivity|]. exists p'. exact (conj H1 H2).
Defined.
