(* ===== verification/GuiViews.v ===== *)
(** * The views of the peer's page

    What the routing table, the catalog, the list of packets and the search for a
    name show, as a function of what the peer answers. *)

From S2P Require Import Prelude JsValue Json JsonFacts Async Hash Gui GuiMessaging GuiData GuiForms.
Import Flash PeerInfo.

Section views.
Context `{PageEnv} (server : list request -> request -> fetch_result).

(** An answer with status 200 and a readable text. *)
Definition answers (x : fetch_result) (t : string) : Prop :=
  exists r, x = Resp r /\ status r = 200%Z /\ text r = Normal t.

Lemma answers_checked x t : answers x t -> exists r, checked x = Normal r /\ text r = Normal t.
Proof. intros (r & -> & Hs & Ht). exists r. unfold checked. by rewrite Hs. Qed.

(** A request answered with a text, and what follows. *)
Lemma run_answered {A} r (k : response -> handler A) t p l :
  answers (server l r) t ->
  exists resp, text resp = Normal t /\
    run server (await (base_fetch r) ≫= k) p l = run server (k resp) p (l ++ [r]).
Proof.
  intros (resp & Hr & Ht)%answers_checked. exists resp. split; [done|].
  by rewrite run_bind, run_await, run_base_fetch, Hr.
Qed.

Lemma run_text {A} r (k : string -> handler A) t p l :
  answers (server l r) t ->
  run server (await (base_fetch r) ≫= fun resp => resp_text resp ≫= k) p l
  = run server (k t) p (l ++ [r]).
Proof.
  intros Ha. destruct (run_answered r (fun resp => resp_text resp ≫= k) t p l Ha) as (resp & Ht & ->).
  by rewrite run_bind, run_resp_text, Ht.
Qed.

Lemma run_json {A} r (k : value -> handler A) t v p l :
  answers (server l r) t -> json_parse t = Normal v ->
  run server (await (base_fetch r) ≫= fun resp => resp_json resp ≫= k) p l
  = run server (k v) p (l ++ [r]).
Proof.
  intros Ha Hv. destruct (run_answered r (fun resp => resp_json resp ≫= k) t p l Ha) as (resp & Ht & ->).
  rewrite run_bind, run_resp_json, Ht. cbn [mbind outcome_bind]. by rewrite Hv.
Qed.

(** Appending a list of elements to a target. *)
Definition append_all (k : string) (ns : list node) (p : page) : page :=
  fold_left (fun p n => append k n p) ns p.

Lemma content_append k n p : content (append k n p) k = content p k ++ [n].
Proof. unfold content, append. cbn. by rewrite lookup_insert_eq. Qed.

Lemma content_append_ne k k' n p : k <> k' -> content (append k n p) k' = content p k'.
Proof. intros. unfold content, append. cbn. by rewrite lookup_insert_ne. Qed.

Lemma content_append_all k ns p : content (append_all k ns p) k = content p k ++ ns.
Proof.
  revert p. induction ns as [|n ns IH]; intros p; cbn; [by rewrite app_nil_r|].
  fold (append_all k ns (append k n p)). by rewrite IH, content_append, <- app_assoc.
Qed.

Lemma run_add_rows es p l :
  run server (Routing.add_rows es) p l = (Normal tt, append_all "routing.table" (map Routing.row es) p, l).
Proof.
  revert p. induction es as [|e es IH]; intros p; [done|]. cbn [Routing.add_rows].
  rewrite run_bind, run_modify. apply IH.
Qed.

Lemma run_add_entries es p l :
  run server (Catalog.add_entries es) p l
  = (Normal tt, append_all "catalog.content" (map Catalog.entry es) p, l).
Proof.
  revert p. induction es as [|e es IH]; intros p; [done|]. cbn [Catalog.add_entries].
  rewrite run_bind, run_modify. apply IH.
Qed.

(** The routing graph is drawn without touching the other targets. *)
Definition same_but (k : string) (p p' : page) : Prop :=
  forall k', k' <> k -> content p' k' = content p k'.

Lemma run_graph r m p l :
  exists p' l',
    run server (try_catch
      (resp ← await (base_fetch r);
       data ← resp_text resp;
       element ← await (lift (renderSVGElement data));
       _ ← modify (innerHTML "routing.graphviz" "");
       modify (append "routing.graphviz" element))
      (fun e => printError (m e))) p l = (Normal tt, p', l') /\ same_but "routing.graphviz" p p'.
Proof.
  rewrite run_try, run_bind, run_await, run_base_fetch.
  destruct (checked _) as [resp|e]; [|by eexists _, _].
  rewrite run_bind, run_resp_text. destruct (text resp) as [t|e]; [|by eexists _, _].
  rewrite run_bind, run_await, run_lift. destruct (renderSVGElement t) as [n|e]; [|by eexists _, _].
  rewrite run_bind, !run_modify. eexists _, _. split; [done|].
  intros k Hk. rewrite content_append_ne by done. unfold content, innerHTML. cbn.
  by rewrite lookup_insert_ne.
Qed.

Lemma Routing_update_quiet : quiet server Routing.update.
Proof.
  intros p l. unfold Routing.update. rewrite run_bind, run_gets, run_bind.
  match goal with |- context [run server (try_catch ?t ?h) p l] =>
    pose proof (quiet_error server t (fun e => "Failed to fetch routing: " +:+ exn_to_string e) p l) as Hq;
    destruct (run server (try_catch t h) p l) as [[[[]|e] p1] l1] end; [|done].
  apply quiet_error.
Qed.
End views.

(** When the peer answers the routing request with a JSON object, the routing
    table shows one row per entry, in the order of the object's keys, in place of
    what it showed before; whatever happens to the graph, no exception escapes. *)
Theorem routing_table_shown `{PageEnv} server p l t data :
  answers (server l (GET (getAPIURL "/messaging/routing" p))) t ->
  json_parse t = Normal data -> is_nullish data = false ->
  exists p' l', run server Routing.update p l = (Normal tt, p', l') /\
    content p' "routing.table" = map Routing.row (own_props data).
Proof.
  intros Ha Hp Hn. unfold Routing.update. rewrite run_bind, run_gets, run_bind, run_try.
  rewrite (run_json server _ _ t data p l Ha Hp). rewrite run_bind, run_modify, run_bind, run_lift.
  unfold entries. rewrite Hn, run_bind, run_add_rows. unfold printSuccess. rewrite run_modify.
  match goal with |- context [run server (try_catch (await (base_fetch ?r) ≫= _) _) ?q ?l'] =>
    destruct (run_graph server r (fun e => "Failed to display routing: " +:+ exn_to_string e) q l')
      as (p' & l'' & -> & Hsame) end.
  exists p', l''. split; [done|]. rewrite Hsame by done.
  match goal with |- content (print ?c ?s ?q) ?k = _ =>
    change (content (print c s q) k) with (content q k) end.
  rewrite content_append_all. unfold content, innerHTML. cbn. by rewrite lookup_insert_eq.
Qed.

(** When the peer answers the catalog request with a JSON object that is not
    empty, the catalog shows one element per chunk with the peers that hold it; for
    an empty object it says so. *)
Theorem catalog_shown server p l t o :
  answers (server l (GET (getAPIURL "/datasharing/catalog" p))) t ->
  json_parse t = Normal (Obj o) ->
  exists p' l', run server Catalog.update p l = (Normal tt, p', l') /\
    content p' "catalog.content" =
    match o with [] => [Markup "<i>no elements</i>"] | _ => map Catalog.entry o end.
Proof.
  intros Ha Hp. unfold Catalog.update. rewrite run_bind, run_gets, run_try.
  rewrite (run_json server _ _ t (Obj o) p l Ha Hp). rewrite run_bind, run_modify, run_bind, run_lift.
  unfold entries. cbn [is_nullish own_props]. destruct o as [|e o].
  - rewrite run_bind, run_modify. unfold printSuccess. rewrite run_modify.
    eexists _, _. split; [done|]. unfold content, innerHTML. cbn. by rewrite lookup_insert_eq.
  - rewrite run_bind, run_add_entries. unfold printSuccess. rewrite run_modify.
    eexists _, _. split; [done|].
    match goal with |- content (print ?c ?s ?q) ?k = _ =>
      change (content (print c s q) k) with (content q k) end.
    rewrite content_append_all. unfold content, innerHTML. cbn. by rewrite lookup_insert_eq.
Qed.

(** The request for a file name. *)
Definition name_request (filename : string) (p : page) : request :=
  GET (getAPIURL ("/datasharing/naming?name=" +:+ filename) p).

(** [Naming.resolve] does not stop when its validation fails: with an empty
    file name it reports the empty control and still asks the peer for a name. *)
Theorem Naming_resolve_ignores_check server p l :
  cvalue (controls p "naming.resolveFilename") = Some "" ->
  exists p' rest, run server Naming.resolve p l
    = (Normal tt, p', l ++ name_request "" p :: rest).
Proof.
  intros Hc. unfold Naming.resolve. rewrite run_bind, run_checkInputs. cbn [first_missing].
  unfold missing. rewrite Hc. cbn [String.eqb]. rewrite run_bind, run_gets, run_bind, run_gets.
  assert (forall c e, val "naming.resolveFilename" (print c e p) = Str "") as Hv.
  { intros c e. unfold val. cbn. by rewrite Hc. }
  rewrite Hv. apply run_guarded.
Qed.

(** ** Packets *)

(** The element that lists a packet. *)
Definition packet_node (s : string) : node :=
  Element "div" [] [Markup ("<pre>" +:+ s +:+ "</pre>")].

Section packets.
Context `{PageEnv} (server : list request -> request -> fetch_result).

Lemma content_scroll k z p k' : content (set_scroll k z p) k' = content p k'.
Proof. done. Qed.

Lemma run_get {A} v k (f : value -> handler A) p l :
  is_nullish v = false ->
  run server (lift (get v k) ≫= f) p l = run server (f (prop v k)) p l.
Proof. intros Hv. rewrite run_bind, run_lift. unfold get. by rewrite Hv. Qed.

(** The tail of [packetMessage], once the chat message is shown. *)
Lemma run_list_packet pkt s p l :
  stringify_2 pkt = Str s ->
  exists p', run server
    (_ ← modify (append "packets.packets"
           (Element "div" [] [Markup ("<pre>" +:+ to_string (stringify_2 pkt) +:+ "</pre>")]));
     _ ← modify (fun p => set_scroll "packets.scroll.width" (scrollWidth p "packets.packets") p);
     checked ← gets follow;
     if (checked : bool) then
       _ ← modify (fun p => set_scroll "packets.packets.left" (scrollWidth p "packets.packets") p);
       modify (fun p => set_scroll "packets.holder.left" (scrollWidth p "packets.holder") p)
     else mret tt) p l = (Normal tt, p', l) /\
    content p' "packets.packets" = content p "packets.packets" ++ [packet_node s] /\
    content p' "messaging.messages" = content p "messaging.messages".
Proof.
  intros ->. rewrite run_bind, run_modify, run_bind, run_modify, run_bind, run_gets.
  destruct (follow _); [rewrite run_bind, !run_modify|rewrite run_ret];
    eexists; (split; [reflexivity|]);
    rewrite ?content_scroll, content_append, content_append_ne by done; done.
Qed.
End packets.

(** a chat packet reported by the peer is listed with its full content (the
    text shown parses back to the packet) and its message is added to the
    conversation, marked as sent exactly when its source is the peer's own socket
    address. *)
Theorem chat_packet_shown `{PageEnv} server data pkt p l :
  json_parse data = Normal pkt ->
  let header := prop pkt "Header" in
  let payload := prop (prop pkt "Msg") "Payload" in
  prop (prop pkt "Msg") "Type" = Str "chat" ->
  is_nullish header = false -> is_nullish payload = false ->
  exists p' s, run server (Packets.packetMessage data) p l = (Normal tt, p', l) /\
    json_parse s = Normal pkt /\
    content p' "packets.packets" = content p "packets.packets" ++ [packet_node s] /\
    content p' "messaging.messages" = content p "messaging.messages" ++
      [Element "div" [if loose_eq (prop header "Source") (socketAddr p) then "sent" else "received"]
        [Markup (Packets.chat_html (prop payload "Message") (prop header "Source")
           (clock_time (local_time (div_million (to_number (prop header "Timestamp"))))))]].
Proof.
  intros Hp header payload Ht Hh Hpay.
  destruct (json_roundtrip_2 pkt (json_parse_ok _ _ Hp)) as (s & Hs & Hps).
  assert (is_nullish (prop pkt "Msg") = false) as Hmsg by (by destruct (prop pkt "Msg")).
  assert (is_nullish pkt = false) as Hpkt by (by destruct pkt).
  unfold Packets.packetMessage. rewrite run_bind, run_lift, Hp. cbv beta iota.
  rewrite (run_get server _ _ _ _ _ Hpkt), (run_get server _ _ _ _ _ Hmsg), Ht.
  change (loose_eq_str (Str "chat") "chat") with true. cbv beta iota.
  rewrite run_bind. unfold Packets.show_chat.
  rewrite (run_get server _ _ _ _ _ Hpkt), (run_get server _ _ _ _ _ Hh), run_bind, run_gets.
  rewrite (run_get server _ _ _ _ _ Hpkt), (run_get server _ _ _ _ _ Hmsg), (run_get server _ _ _ _ _ Hpay).
  fold header payload. cbv zeta.
  unfold Messaging.addMsg. rewrite run_bind, !run_modify.
  match goal with |- context [set_scroll "messaging.holder" ?z ?q] =>
    destruct (run_list_packet server pkt s (set_scroll "messaging.holder" z q) l Hs)
      as (p' & -> & Hl & Hm) end.
  exists p', s. split_and!; [done|done|by rewrite Hl, content_scroll, content_append_ne|].
  by rewrite Hm, content_scroll, content_append.
Qed.

(** ** Concrete instances *)

Import DemoPage.

Definition table_text : string := "{" +:+ quote "b" +:+ ":" +:+ quote "x" +:+ "}".

Lemma routing_table_shown_witness :
  exists p' l', run (peer table_text) Routing.update (filled "") [] = (Normal tt, p', l') /\
    content p' "routing.table" = [Element "tr" [] [Markup "<td>b</td><td>x</td>"]].
Proof.
  destruct (routing_table_shown (peer table_text) (filled "") [] table_text (obj [("b", Str "x")]))
    as (p' & l' & H1 & H2); [eexists; repeat split|vm_compute; reflexivity|reflexivity|].
  exists p', l'. split; [exact H1|]. rewrite H2. reflexivity.
Defined.

Lemma catalog_shown_witness :
  exists p' l', run (peer "{}") Catalog.update (filled "") [] = (Normal tt, p', l') /\
    content p' "catalog.content" = [Markup "<i>no elements</i>"].
Proof.
  exact (catalog_shown (peer "{}") (filled "") [] "{}" []
    (ex_intro _ _ (conj eq_refl (conj eq_refl eq_refl))) eq_refl).
Defined.

Lemma Naming_resolve_ignores_check_witness :
  exists p' rest, run (peer "") Naming.resolve (filled "") [] =
    (Normal tt, p', name_request "" (filled "") :: rest).
Proof. exact (Naming_resolve_ignores_check (peer "") (filled "") [] eq_refl). Defined.

Definition chat_text : string :=
  to_string (stringify (obj
    [("Header", obj [("Source", Str "127.0.0.1:9000"); ("Timestamp", Num (int 0))]);
     ("Msg", obj [("Type", Str "chat"); ("Payload", obj [("Message", Str "hi")])])])).

Lemma chat_packet_shown_witness :
  exists p' s pkt, run (peer "") (Packets.packetMessage chat_text) (filled "") [] = (Normal tt, p', []) /\
    json_parse s = Normal pkt /\
    content p' "packets.packets" = [packet_node s].
Proof.
  destruct (json_parse chat_text) as [pkt|e] eqn:E; [|vm_compute in E; discriminate E].
  destruct (chat_packet_shown (peer "") chat_text pkt (filled "") [] E) as (p' & s & H1 & H2 & H3 & _);
    [vm_compute in E; injection E as <-; reflexivity..|].
  exists p', s, pkt. split; [exact H1|]. split; [exact H2|exact H3].
Defined.
