(* ===== verification/Go.v ===== *)
(** * What the node uses of Go

    Unsigned integers of 64 bits, methods that change the receiver and return an
    error, slices that may be [nil], [encoding/hex], and [encoding/json] into the
    fields of a struct.  Text is represented as in the clients: a string is the
    sequence of its characters (up to U+00FF) and [[]byte(s)] is [encode s].  JSON
    data is represented by its value; a number literal with a fraction or an
    exponent that denotes an integer is identified with this integer, and objects
    have no duplicate members. *)

From S2P Require Import Prelude JsValue Json Sha256 Platform World Hash.
Local Open Scope Z_scope.

(** ** Integers *)

Definition u64 (z : Z) : Z := z mod 2 ^ 64.
Definition is_u64 (z : Z) : Prop := 0 <= z < 2 ^ 64.

Lemma u64_id z : is_u64 z -> u64 z = z.
Proof. intros ?. by apply Z.mod_small. Qed.

Lemma u64_bound z : is_u64 (u64 z).
Proof. apply Z.mod_pos_bound. lia. Qed.

(** ** Errors and receivers *)

(** [fmt.Errorf(...)], [xerrors.New(...)] *)
Definition err {A} (msg : string) : outcome A := Throw (Error "error" msg).

(** A method with a receiver of type [S]: it may have changed the receiver when it
    returns an error. *)
Definition method (S A : Type) : Type := S -> outcome A * S.

#[export] Instance method_ret {S} : MRet (method S) := fun A a s => (Normal a, s).
#[export] Instance method_bind {S} : MBind (method S) := fun A B f m s =>
  match m s with
  | (Normal a, s') => f a s'
  | (Throw e, s') => (Throw e, s')
  end.

(** A pure method, an assignment to fields, an error. *)
Definition asks {S A} (f : S -> A) : method S A := fun s => (Normal (f s), s).
Definition assigns {S} (f : S -> S) : method S unit := fun s => (Normal tt, f s).
Definition try {S A} (f : S -> outcome A) : method S A := fun s => (f s, s).

Fixpoint for_each {S A} (f : A -> method S unit) (l : list A) : method S unit :=
  match l with
  | [] => mret tt
  | x :: l' => _ ← f x; for_each f l'
  end.

(** [for i := range l], with the index. *)
Fixpoint for_range {S A} (f : nat -> A -> method S unit) (i : nat) (l : list A) : method S unit :=
  match l with
  | [] => mret tt
  | x :: l' => _ ← f i x; for_range f (Datatypes.S i) l'
  end.

(** [fmt.Errorf("...: %w", err)]; a panic is not an error. *)
Definition wrap {S A} (prefix : string) (m : method S A) : method S A := fun s =>
  match m s with
  | (Throw (Error "error" msg), s') => (err (prefix +:+ msg), s')
  | r => r
  end.

Definition wrapped {A} (prefix : string) (o : outcome A) : outcome A :=
  match o with
  | Throw (Error "error" msg) => err (prefix +:+ msg)
  | _ => o
  end.

(** [%d] *)
Definition dec (z : Z) : string := nat_to_string 10 z.

Lemma wrap_Normal {S A} prefix (m : method S A) s a s' : wrap prefix m s = (Normal a, s') <-> m s = (Normal a, s').
Proof. unfold wrap. destruct (m s) as [[b|[n msg|t]] s1]; try done. by repeat case_match. Qed.

Lemma wrapped_Normal {A} prefix (o : outcome A) a : wrapped prefix o = Normal a <-> o = Normal a.
Proof. unfold wrapped. destruct o as [b|[n msg|t]]; try done. by repeat case_match. Qed.

Lemma method_bind_Normal {S A B} (m : method S A) (f : A -> method S B) s b s' :
  (m ≫= f) s = (Normal b, s') <-> exists a s1, m s = (Normal a, s1) /\ f a s1 = (Normal b, s').
Proof. unfold mbind, method_bind. destruct (m s) as [[a|e] s1]; naive_solver. Qed.

Lemma bind_asks {S A B} (f : S -> A) (k : A -> method S B) s : (asks f ≫= k) s = k (f s) s.
Proof. done. Qed.

Lemma bind_assigns {S B} (f : S -> S) (k : unit -> method S B) s : (assigns f ≫= k) s = k tt (f s).
Proof. done. Qed.

Lemma bind_try {S A B} (f : S -> outcome A) (k : A -> method S B) s :
  (try f ≫= k) s = match f s with Normal a => k a s | Throw e => (Throw e, s) end.
Proof. unfold mbind, method_bind, try. by destruct (f s). Qed.

(** An invariant of a loop that succeeds, in terms of the elements visited. *)
Lemma for_range_inv {S A} (I : list A -> S -> Prop) (f : nat -> A -> method S unit) i l s s' :
  I [] s ->
  (forall done i x rest s s', l = done ++ x :: rest -> I done s -> f i x s = (Normal tt, s') -> I (done ++ [x]) s') ->
  for_range f i l s = (Normal tt, s') -> I l s'.
Proof.
  intros H0 Hf. enough (forall rest done i s, l = done ++ rest -> I done s ->
    for_range f i rest s = (Normal tt, s') -> I l s') as Hx by (by apply (Hx l [])).
  clear i s H0. induction rest as [|x rest IH]; intros done i s El Hd; cbn [for_range].
  - intros [= <-]. by rewrite El, app_nil_r.
  - intros ([] & s1 & Hx & Hl)%method_bind_Normal.
    apply (IH (done ++ [x]) (Datatypes.S i) s1); [by rewrite <- app_assoc|by eapply Hf|done].
Qed.

(** What a method keeps of the receiver when it succeeds. *)
Definition maintains {S A} (P : S -> Prop) (m : method S A) : Prop :=
  forall s a s', P s -> m s = (Normal a, s') -> P s'.

Lemma maintains_bind {S A B} (P : S -> Prop) (m : method S A) (f : A -> method S B) :
  maintains P m -> (forall a, maintains P (f a)) -> maintains P (m ≫= f).
Proof. intros Hm Hf s b s' Hs (a & s1 & H1 & H2)%method_bind_Normal. eapply Hf; [|done]. by eapply Hm. Qed.

Lemma maintains_try {S A} (P : S -> Prop) (f : S -> outcome A) : maintains P (try f).
Proof. intros s a s' Hs [= _ <-]. done. Qed.

Lemma maintains_asks {S A} (P : S -> Prop) (f : S -> A) : maintains P (asks f).
Proof. intros s a s' Hs [= _ <-]. done. Qed.

Lemma maintains_ret {S A} (P : S -> Prop) (a : A) : maintains P (mret a).
Proof. intros s b s' Hs [= _ <-]. done. Qed.

Lemma maintains_assigns {S} (P : S -> Prop) (f : S -> S) : (forall s, P s -> P (f s)) -> maintains P (assigns f).
Proof. intros Hf s a s' Hs [= _ <-]. auto. Qed.

Lemma maintains_for_each {S A} (P : S -> Prop) (f : A -> method S unit) l :
  (forall x, maintains P (f x)) -> maintains P (for_each f l).
Proof. intros Hf. induction l; [apply maintains_ret|]. by apply maintains_bind. Qed.

Lemma maintains_for_range {S A} (P : S -> Prop) (f : nat -> A -> method S unit) i l :
  (forall i x, maintains P (f i x)) -> maintains P (for_range f i l).
Proof. intros Hf. revert i. induction l; intros i; [apply maintains_ret|]. by apply maintains_bind. Qed.

Lemma maintains_wrap {S A} (P : S -> Prop) prefix (m : method S A) : maintains P m -> maintains P (wrap prefix m).
Proof. intros Hm s a s' Hs Hr%wrap_Normal. by eapply Hm. Qed.

Lemma maintains_if {S A} (P : S -> Prop) (b : bool) (m m' : method S A) :
  maintains P m -> maintains P m' -> maintains P (if b then m else m').
Proof. by destruct b. Qed.

Create HintDb go.
#[global] Hint Resolve maintains_try maintains_asks maintains_ret maintains_assigns maintains_for_each
  maintains_for_range maintains_wrap maintains_if : go.
#[global] Hint Extern 1 (maintains _ (_ ≫= _)) => apply maintains_bind; [|intros ?] : go.

(** ** Slices *)

(** [None] is the [nil] slice. *)
Definition slice (A : Type) : Type := option (list A).
Definition elems {A} (s : slice A) : list A := default [] s.

(** ** [encoding/hex] *)

Fixpoint decodeHex (s : string) : outcome (list Z) :=
  match s with
  | EmptyString => Normal []
  | String a (String b s') =>
      match digit_val 16 a, digit_val 16 b with
      | Some x, Some y => l ← decodeHex s'; Normal (16 * x + y :: l)
      | _, _ => err "encoding/hex: invalid byte"
      end
  | String _ EmptyString => err "encoding/hex: odd length hex string"
  end.

(** [strings.TrimSpace] leaves nothing. *)
Fixpoint blank (s : string) : bool :=
  match s with
  | EmptyString => true
  | String c s' => (is_space c || (code c =? 133)) && blank s'
  end.

(** ** [encoding/json] *)

(** Members of an object that match a field, case-insensitively; [null] leaves the
    field alone. *)
Definition json_step {A} (conv : value -> outcome A) (name : string) (acc : outcome A) (kv : string * value) : outcome A :=
  cur ← acc;
  if String.eqb (to_lower kv.1) (to_lower name) then
    match kv.2 with Null => Normal cur | v => conv v end
  else Normal cur.

Definition json_field {A} (conv : value -> outcome A) (zero : A) (name : string)
    (o : list (string * value)) : outcome A :=
  fold_left (json_step conv name) o (Normal zero).

Lemma json_field_inv {A} (P : A -> Prop) conv zero name o a :
  (forall v x, conv v = Normal x -> P x) -> P zero -> json_field conv zero name o = Normal a -> P a.
Proof.
  intros Hc Hz. unfold json_field.
  enough (forall acc, (forall x, acc = Normal x -> P x) -> fold_left (json_step conv name) o acc = Normal a -> P a) as Hx
    by (apply Hx; by intros x [= <-]).
  induction o as [|[k v] o IH]; intros acc Hacc; cbn [fold_left]; [apply Hacc|]. apply IH.
  intros x (cur & Hcur & Hx)%outcome_bind_Normal. cbn in Hx. destruct (String.eqb _ _); [|simplify_eq; by apply Hacc].
  destruct v; try (by eapply Hc). injection Hx as <-. by apply Hacc.
Qed.

Definition as_string (v : value) : outcome string :=
  match v with Str s => Normal s | _ => err "json: cannot unmarshal into Go value of type string" end.

Definition as_uint (bits : Z) (v : value) : outcome Z :=
  match v with
  | Num (Fin m 0) =>
      if (0 <=? m) && (m <? 2 ^ bits) then Normal m
      else err "json: cannot unmarshal number into Go value of type uint"
  | _ => err "json: cannot unmarshal into Go value of type uint"
  end.

Lemma as_uint_bound bits v z : as_uint bits v = Normal z -> 0 <= z < 2 ^ bits.
Proof.
  destruct v as [| | |[| |m k]| | | |]; try done. destruct k; [|done]. cbn.
  destruct (Z.leb_spec 0 m), (Z.ltb_spec m (2 ^ bits)); cbn; try done. by intros [= <-].
Qed.

(** The members of the struct a document is decoded into. *)
Definition as_struct (v : value) : outcome (list (string * value)) :=
  match v with
  | Obj o => Normal o
  | Null => Normal []
  | _ => err "json: cannot unmarshal into Go value of a struct type"
  end.

Fixpoint all_out {A B} (f : A -> outcome B) (l : list A) : outcome (list B) :=
  match l with
  | [] => Normal []
  | x :: l' => y ← f x; ys ← all_out f l'; Normal (y :: ys)
  end.

Definition as_slice {A} (conv : value -> outcome A) (v : value) : outcome (slice A) :=
  match v with
  | Arr l => Some <$> all_out conv l
  | _ => err "json: cannot unmarshal into Go value of a slice type"
  end.
