(* ===== verification/GoText.v ===== *)
(** * Text encodings of the node: [encoding/base64], UTF-8 and [encoding/json] strings

    What [types.Block] and [types.BlockHeader] use to turn a header into bytes and
    back: a [[]byte] field is a base64 string in JSON, a string is quoted with the
    three characters of HTML markup escaped, and bytes are read as UTF-8. *)

From S2P Require Import Prelude JsValue Json JsonFacts JsonCanon Sha256 Platform World Hash Go.
Local Open Scope Z_scope.

(** ** [encoding/base64], standard alphabet with padding *)

Definition sextet_char (n : Z) : ascii :=
  if n <? 26 then chr (65 + n) else if n <? 52 then chr (71 + n) else if n <? 62 then chr (n - 4)
  else if n =? 62 then "+"%char else "/"%char.

Definition char_sextet (c : ascii) : option Z :=
  let n := code c in
  if (65 <=? n) && (n <=? 90) then Some (n - 65)
  else if (97 <=? n) && (n <=? 122) then Some (n - 71)
  else if (48 <=? n) && (n <=? 57) then Some (n + 4)
  else if n =? 43 then Some 62 else if n =? 47 then Some 63 else None.

Definition chars (l : list ascii) : string := foldr String "" l.

Fixpoint base64 (l : list Z) : string :=
  match l with
  | [] => ""
  | [a] => chars [sextet_char (a / 4); sextet_char (a mod 4 * 16); "="; "="]%char
  | [a; b] => chars [sextet_char (a / 4); sextet_char (a mod 4 * 16 + b / 16); sextet_char (b mod 16 * 4); "="]%char
  | a :: b :: c :: l' =>
      chars [sextet_char (a / 4); sextet_char (a mod 4 * 16 + b / 16);
             sextet_char (b mod 16 * 4 + c / 64); sextet_char (c mod 64)] +:+ base64 l'
  end.

(** [base64.StdEncoding.Decode]: groups of four, padding only in the last one. *)
Fixpoint base64_decode (s : string) : option (list Z) :=
  match s with
  | EmptyString => Some []
  | String c1 (String c2 (String c3 (String c4 s'))) =>
      x ← char_sextet c1; y ← char_sextet c2;
      let a := x * 4 + y / 16 in
      if Ascii.eqb c3 "=" then
        if Ascii.eqb c4 "=" && String.eqb s' "" then Some [a] else None
      else
        z ← char_sextet c3;
        let b := y mod 16 * 16 + z / 4 in
        if Ascii.eqb c4 "=" then if String.eqb s' "" then Some [a; b] else None
        else
          t ← char_sextet c4;
          l ← base64_decode s'; Some (a :: b :: z mod 4 * 64 + t :: l)
  | _ => None
  end.

Lemma sextet_roundtrip n : 0 <= n < 64 ->
  char_sextet (sextet_char n) = Some n /\ Ascii.eqb (sextet_char n) "=" = false.
Proof.
  intros Hn. assert (forall k, (k < 64)%nat -> char_sextet (sextet_char (Z.of_nat k)) = Some (Z.of_nat k) /\
    Ascii.eqb (sextet_char (Z.of_nat k)) "=" = false) as Hk.
  { do 64 (intros [|k]; [done|revert k]). intros k Hk. lia. }
  rewrite <- (Z2Nat.id n) by lia. apply Hk. lia.
Qed.

Ltac sextets :=
  repeat match goal with
  | |- context [char_sextet (sextet_char ?n)] => rewrite (proj1 (sextet_roundtrip n ltac:(Z.div_mod_to_equations; lia)))
  | |- context [Ascii.eqb (sextet_char ?n) "="] => rewrite (proj2 (sextet_roundtrip n ltac:(Z.div_mod_to_equations; lia)))
  end.

Lemma list_ind3 {A} (P : list A -> Prop) :
  P [] -> (forall a, P [a]) -> (forall a b, P [a; b]) -> (forall a b c l, P l -> P (a :: b :: c :: l)) -> forall l, P l.
Proof.
  intros H0 H1 H2 H3. enough (forall l, P l /\ (forall a, P (a :: l)) /\ (forall a b, P (a :: b :: l))) as H by apply H.
  induction l as [|x l (IH0 & IH1 & IH2)]; split_and!; auto.
Qed.

(** Decoding inverts encoding. *)
Lemma base64_roundtrip l : bytes_ok l -> base64_decode (base64 l) = Some l.
Proof.
  unfold bytes_ok, is_byte. induction l as [|a|a b|a b c l IH] using list_ind3; intros Hl;
    repeat (apply Forall_cons in Hl as [?%andb_true_iff Hl]); rewrite ?Z.leb_le, ?Z.ltb_lt in *; [done|..];
    cbn [base64 chars foldr base64_decode String.append]; rewrite ?string_app_cons, ?string_app_nil_l; cbn [base64_decode]; sextets; cbn [mbind option_bind].
  - cbn. do 2 f_equal. Z.div_mod_to_equations; lia.
  - cbn. f_equal. repeat f_equal; Z.div_mod_to_equations; lia.
  - rewrite IH by done. cbn. f_equal. repeat f_equal; Z.div_mod_to_equations; lia.
Qed.

(** ** UTF-8 *)

(** The text of bytes: [None] for bytes that [encode] does not produce. *)
Fixpoint decode (l : list Z) : option string :=
  match l with
  | [] => Some ""
  | b :: l' =>
      if b <? 128 then s ← decode l'; Some (String (chr b) s)
      else match l' with
           | b' :: l'' =>
               if ((b =? 194) || (b =? 195)) && (128 <=? b') && (b' <? 192)
               then s ← decode l''; Some (String (chr ((b - 192) * 64 + (b' - 128))) s) else None
           | [] => None
           end
  end.

Lemma utf8_roundtrip s : decode (encode s) = Some s.
Proof.
  induction s as [|c s IH]; [done|]. cbn [encode].
  assert (forall l, decode ((if code c <? 128 then [code c] else [192 + code c / 64; 128 + code c mod 64]) ++ l) =
    s ← decode l; Some (String c s)) as ->; [|by rewrite IH].
  intros l. destruct c as [[] [] [] [] [] [] [] []]; reflexivity.
Qed.

(** ** Strings of [encoding/json] *)

(** As [QuoteJSONString], and the characters of HTML markup are escaped. *)
Definition go_quote_char (c : ascii) : string :=
  if Ascii.eqb c "<" then "\u003c" else if Ascii.eqb c ">" then "\u003e"
  else if Ascii.eqb c "&" then "\u0026" else quote_char c.

Fixpoint go_quote_chars (s : string) : string :=
  match s with
  | EmptyString => ""
  | String c s' => go_quote_char c +:+ go_quote_chars s'
  end.

Definition go_quote (s : string) : string := String dquote (go_quote_chars s +:+ String dquote "").

Lemma parse_go_quote_char c X :
  parse_chars (go_quote_char c +:+ X) = '(t, r) ← parse_chars X; Some (String c t, r).
Proof. destruct c as [[] [] [] [] [] [] [] []]; reflexivity. Qed.

Lemma parse_chars_go_quote s rest : parse_chars (go_quote_chars s +:+ String dquote rest) = Some (s, rest).
Proof.
  induction s as [|c s IH]; [done|]. cbn [go_quote_chars]. by rewrite <- string_app_assoc, parse_go_quote_char, IH.
Qed.

Lemma reads_go_quote s : reads_head (Str s) (go_quote s).
Proof.
  split; [|eexists _, _; by split_and!].
  intros [|f] rest Hd Hf; [lia|]. unfold go_quote. rewrite string_app_cons, <- string_app_assoc.
  cbn [parse_value]. change (skip_ws (String dquote ?x)) with (String dquote x). cbn match.
  change (Ascii.eqb dquote dquote) with true. cbn match.
  rewrite string_app_cons, string_app_nil_l. by rewrite parse_chars_go_quote.
Qed.

Lemma reads_parse v s : reads v s -> json_parse s = Normal v.
Proof.
  intros Hr. unfold json_parse. specialize (Hr (2 * String.length s + 1)%nat "" eq_refl). rewrite string_app_nil_r in Hr.
  by rewrite Hr by lia.
Qed.

(** ** [encoding/hex] *)

Lemma decodeHex_bytesToHex l : bytes_ok l -> decodeHex (bytesToHex l) = Normal l.
Proof.
  induction 1 as [|b l Hb _ IH]; [done|]. rewrite bytesToHex_cons by done. destruct (byte_digits b Hb) as [E1 E2].
  cbn [decodeHex]. rewrite E1, E2, IH. cbn. do 2 f_equal. pose proof (Z.div_mod b 16 ltac:(lia)). lia.
Qed.

(** ** Fields of structs *)

Definition as_int (bits : Z) (v : value) : outcome Z :=
  match v with
  | Num (Fin m 0) =>
      if (- 2 ^ (bits - 1) <=? m) && (m <? 2 ^ (bits - 1)) then Normal m
      else err "json: cannot unmarshal number into Go value of type int"
  | _ => err "json: cannot unmarshal into Go value of type int"
  end.

(** A [[]byte]. *)
Definition as_bytes (v : value) : outcome (slice Z) :=
  match v with
  | Str s => match base64_decode s with
             | Some l => Normal (Some l)
             | None => err "illegal base64 data"
             end
  | _ => err "json: cannot unmarshal into Go value of type []uint8"
  end.

Definition bytes_text (s : slice Z) : string :=
  match s with None => "null" | Some l => go_quote (base64 l) end.

Definition bytes_json (s : slice Z) : value :=
  match s with None => Null | Some l => Str (base64 l) end.

Definition slice_bytes_ok (s : slice Z) : Prop := bytes_ok (elems s).

Lemma reads_bytes s : reads (bytes_json s) (bytes_text s).
Proof. destruct s; [apply reads_go_quote|]. apply reads_lit. set_solver. Qed.

(** Reading a field that is not [null], and one that may be. *)
Lemma as_uint_ok bits z : 0 <= z < 2 ^ bits -> as_uint bits (Num (int z)) = Normal z.
Proof. intros [H1 H2]. cbn. apply Z.leb_le in H1 as ->. by apply Z.ltb_lt in H2 as ->. Qed.

Lemma as_int_ok bits z : - 2 ^ (bits - 1) <= z < 2 ^ (bits - 1) -> as_int bits (Num (int z)) = Normal z.
Proof. intros [H1 H2]. cbn. apply Z.leb_le in H1 as ->. by apply Z.ltb_lt in H2 as ->. Qed.

Lemma as_bytes_ok l : bytes_ok l -> as_bytes (Str (base64 l)) = Normal (Some l).
Proof. intros Hl. cbn. by rewrite base64_roundtrip. Qed.
