(* ===== verification/NodeState.v ===== *)
(** * The state of the chain: [peer/impl/namecoin_state.go], [namecoin_state_UTXO.go]

    The state each node rebuilds from the blocks: registered domains with an index
    of their expiry heights, commitments, unspent outputs.  [expiry_index] is the
    invariant of the index; under it, pruning by the index removes exactly the
    expired domains.  [DeterministicSpendPlan] covers an amount with outputs of the
    sender in the order of their creation. *)

From stdpp Require Import sorting.
From S2P Require Import Prelude JsValue Json Sha256 Platform World Hash Go.
Local Open Scope Z_scope.

(** ** Data: [types/namecoin_def.go] *)

Record NameRecord := MkNameRecord {
  Owner : string; IP : string; Domain : string; Salt : string; ExpiresAt : Z
}.

Record CommitmentRecord := MkCommitment { Commit : string; CTTL : Z; CHeight : Z }.

Record UTXO := MkUTXO { u_TxID : string; u_To : string; u_Amount : Z; u_Order : Z }.
Record TxInput := MkTxInput { in_TxID : string; in_Index : Z }.
Record TxOutput := MkTxOutput { out_To : string; out_Amount : Z }.

#[export] Instance NameRecord_eq_dec : EqDecision NameRecord.
Proof. solve_decision. Defined.
#[export] Instance TxInput_eq_dec : EqDecision TxInput.
Proof. solve_decision. Defined.
#[export] Instance TxOutput_eq_dec : EqDecision TxOutput.
Proof. solve_decision. Defined.

Record NamecoinState := MkState {
  Domains : gmap string NameRecord;
  ClaimedDomains : gset string;
  expires : gmap Z (list string);
  Commitments : gmap string CommitmentRecord;
  UTXOMap : gmap string (gmap string UTXO);
  txMap : gset string;
  currentHeight : Z;
  domainTTL : Z;
  nextUTXOSeq : Z
}.

Definition set_Domains f st := MkState (f (Domains st)) (ClaimedDomains st) (expires st) (Commitments st)
  (UTXOMap st) (txMap st) (currentHeight st) (domainTTL st) (nextUTXOSeq st).
Definition set_Claimed f st := MkState (Domains st) (f (ClaimedDomains st)) (expires st) (Commitments st)
  (UTXOMap st) (txMap st) (currentHeight st) (domainTTL st) (nextUTXOSeq st).
Definition set_expires f st := MkState (Domains st) (ClaimedDomains st) (f (expires st)) (Commitments st)
  (UTXOMap st) (txMap st) (currentHeight st) (domainTTL st) (nextUTXOSeq st).
Definition set_Commitments f st := MkState (Domains st) (ClaimedDomains st) (expires st) (f (Commitments st))
  (UTXOMap st) (txMap st) (currentHeight st) (domainTTL st) (nextUTXOSeq st).
Definition set_UTXOMap f st := MkState (Domains st) (ClaimedDomains st) (expires st) (Commitments st)
  (f (UTXOMap st)) (txMap st) (currentHeight st) (domainTTL st) (nextUTXOSeq st).
Definition set_txMap f st := MkState (Domains st) (ClaimedDomains st) (expires st) (Commitments st)
  (UTXOMap st) (f (txMap st)) (currentHeight st) (domainTTL st) (nextUTXOSeq st).
Definition set_seq n st := MkState (Domains st) (ClaimedDomains st) (expires st) (Commitments st)
  (UTXOMap st) (txMap st) (currentHeight st) (domainTTL st) n.

(** ** Domains and commitments *)

Definition DefaultDomainTTLBlocks : Z := 36000.
Definition MaxDomainTTLBlocks : Z := 5256000.

Definition clampTTL (ttl : Z) : Z :=
  if ttl =? 0 then 0 else if MaxDomainTTLBlocks <? ttl then MaxDomainTTLBlocks else ttl.

Definition NewState : NamecoinState :=
  MkState ∅ ∅ ∅ ∅ ∅ ∅ 0 (clampTTL DefaultDomainTTLBlocks) 0.

Definition IsDomainExists (domain : string) (st : NamecoinState) : bool := bool_decide (is_Some (Domains st !! domain)).
Definition EnsureAccount (addr : string) : NamecoinState -> NamecoinState :=
  set_UTXOMap (fun m => match m !! addr with Some _ => m | None => <[addr := ∅]> m end).
Definition NameLookup (domain : string) (st : NamecoinState) : option NameRecord := Domains st !! domain.
Definition GetDomainOwner (domain : string) (st : NamecoinState) : string :=
  match NameLookup domain st with Some rec => Owner rec | None => "" end.
Definition GetCommitment (key : string) (st : NamecoinState) : option CommitmentRecord := Commitments st !! key.
Definition IsDomainClaimed (domain : string) (st : NamecoinState) : bool := bool_decide (domain ∈ ClaimedDomains st).
Definition IsTxApplied (txID : string) (st : NamecoinState) : bool := bool_decide (txID ∈ txMap st).
Definition MarkAsApplied (txID : string) : NamecoinState -> NamecoinState := set_txMap (fun m => {[ txID ]} ∪ m).

Definition setHeight (h : Z) (st : NamecoinState) : NamecoinState :=
  MkState (Domains st) (ClaimedDomains st) (expires st) (Commitments st)
    (UTXOMap st) (txMap st) h (domainTTL st) (nextUTXOSeq st).

Definition isExpired (rec : NameRecord) (height : Z) : bool :=
  negb (ExpiresAt rec =? 0) && (ExpiresAt rec <=? height).

Definition effectiveTTL (ttl : Z) (st : NamecoinState) : Z :=
  if ttl =? 0 then clampTTL (domainTTL st) else clampTTL ttl.

Definition addExpiryLocked (domain : string) (height : Z) : NamecoinState -> NamecoinState :=
  set_expires (fun m => <[height := default [] (m !! height) ++ [domain]]> m).

(** [names[i] = names[len(names)-1]; names = names[:len(names)-1]] at the first [i]
    with [names[i] == domain]. *)
Fixpoint index_of (domain : string) (names : list string) : option nat :=
  match names with
  | [] => None
  | name :: names' => if String.eqb name domain then Some O else S <$> index_of domain names'
  end.

Definition swap_remove (domain : string) (names : list string) : list string :=
  match index_of domain names with
  | Some i => take (pred (length names)) (<[i := default "" (last names)]> names)
  | None => names
  end.

Definition removeFromExpiryLocked (domain : string) (height : Z) : NamecoinState -> NamecoinState :=
  set_expires (fun m =>
    if height =? 0 then m else
    match m !! height with
    | None => m
    | Some names =>
        match swap_remove domain names with
        | [] => delete height m
        | names' => <[height := names']> m
        end
    end).

Definition SetDomain (record : NameRecord) (st : NamecoinState) : NamecoinState :=
  let st1 := match Domains st !! Domain record with
             | Some existing =>
                 if negb (ExpiresAt existing =? 0)
                 then removeFromExpiryLocked (Domain record) (ExpiresAt existing) st else st
             | None => st
             end in
  let st2 := set_Claimed (fun c => {[ Domain record ]} ∪ c) (set_Domains (<[Domain record := record]>) st1) in
  if negb (ExpiresAt record =? 0) then addExpiryLocked (Domain record) (ExpiresAt record) st2 else st2.

Definition SetCommitment (key commitment : string) (ttl height : Z) : NamecoinState -> NamecoinState :=
  set_Commitments (<[key := MkCommitment commitment ttl height]>).
Definition DeleteCommitment (key : string) : NamecoinState -> NamecoinState := set_Commitments (delete key).

(** The body of the loop of [pruneExpired]. *)
Definition prune_name (expHeight : Z) (st : NamecoinState) (name : string) : NamecoinState :=
  match Domains st !! name with
  | Some rec =>
      if ExpiresAt rec =? expHeight
      then set_Claimed (fun c => c ∖ {[ name ]}) (set_Domains (delete name) st) else st
  | None => st
  end.

Definition prune_bucket (height : Z) (st : NamecoinState) (b : Z * list string) : NamecoinState :=
  if height <? b.1 then st
  else set_expires (delete b.1) (fold_left (prune_name b.1) b.2 st).

(** The buckets are visited in an order the language leaves open: see
    [prune_order_irrelevant]. *)
Definition pruneExpired (height : Z) (st : NamecoinState) : NamecoinState :=
  fold_left (prune_bucket height) (map_to_list (expires st)) st.

(** [Clone] copies every map; on persistent data it is the identity.
    [replaceWith]: [ClaimedDomains] is not among the fields it assigns. *)
Definition replaceWith (snapshot st : NamecoinState) : NamecoinState :=
  MkState (Domains snapshot) (ClaimedDomains st) (expires snapshot) (Commitments snapshot)
    (UTXOMap snapshot) (txMap snapshot) (currentHeight snapshot) (domainTTL snapshot) (nextUTXOSeq snapshot).

(** ** Unspent outputs *)

(** The loop of [BurnUTXO] that checks the inputs. *)
Fixpoint burn_check (userUTXOs : gmap string UTXO) (seen : gset string) (txIDs : list string) : outcome unit :=
  match txIDs with
  | [] => Normal tt
  | txID :: txIDs' =>
      if bool_decide (txID ∈ seen) then err ("duplicate utxo input " +:+ txID)
      else if bool_decide (is_Some (userUTXOs !! txID)) then burn_check userUTXOs ({[ txID ]} ∪ seen) txIDs'
      else err ("burn txID " +:+ txID +:+ " not found")
  end.

Definition BurnUTXO (from : string) (txIDs : list string) : method NamecoinState unit :=
  userUTXOs ← try (fun st => match UTXOMap st !! from with
                             | Some userUTXOs => Normal userUTXOs
                             | None => err ("burn txID " +:+ from +:+ " not found")
                             end);
  _ ← try (fun _ => burn_check userUTXOs ∅ txIDs);
  assigns (set_UTXOMap (<[from := foldr delete userUTXOs txIDs]>)).

Definition AppendUTXO (utxo : UTXO) : method NamecoinState unit :=
  st ← asks id;
  let user := default ∅ (UTXOMap st !! u_To utxo) in
  if bool_decide (is_Some (user !! u_TxID utxo)) then try (fun _ => err "tx already exists")
  else
    let utxo' := MkUTXO (u_TxID utxo) (u_To utxo) (u_Amount utxo) (nextUTXOSeq st) in
    _ ← assigns (set_seq (u64 (nextUTXOSeq st + 1)));
    assigns (set_UTXOMap (<[u_To utxo := <[u_TxID utxo := utxo']> user]>)).

Record utxoEntry := MkEntry { e_txid : string; e_amount : Z; e_order : Z }.

#[export] Instance utxoEntry_eq_dec : EqDecision utxoEntry.
Proof. solve_decision. Defined.

(** The order of creation, ties broken by identifier. *)
Definition entry_le (a b : utxoEntry) : Prop :=
  e_order a < e_order b \/ e_order a = e_order b /\ String.le (e_txid a) (e_txid b).

#[export] Instance entry_le_dec : RelDecision entry_le.
Proof. intros a b. unfold entry_le. apply _. Defined.

Definition snapshot (m : gmap string UTXO) : list utxoEntry :=
  (fun kv => MkEntry kv.1 (u_Amount kv.2) (u_Order kv.2)) <$> map_to_list m.

(** The loop that selects outputs until the amount is covered. *)
Fixpoint select (amount total : Z) (l : list utxoEntry) : list TxInput * Z :=
  match l with
  | [] => ([], total)
  | e :: l' =>
      let total := u64 (total + e_amount e) in
      let input := MkTxInput (e_txid e) 0 in
      if amount <=? total then ([input], total)
      else let '(inputs, total) := select amount total l' in (input :: inputs, total)
  end.

(** The plan on the sorted entries of a sender. *)
Definition plan_of (from : string) (amount : Z) (l : list utxoEntry) : outcome (slice TxInput * slice TxOutput) :=
  let '(inputs, total) := select amount 0 l in
  if total <? amount then err "insufficient funds"
  else
    let leftover := total - amount in
    Normal (match inputs with [] => None | _ => Some inputs end,
            Some (if 0 <? leftover then [MkTxOutput from leftover] else [])).

Definition DeterministicSpendPlan (from : string) (amount : Z) (st : NamecoinState)
    : outcome (slice TxInput * slice TxOutput) :=
  if amount =? 0 then Normal (Some [], Some [])
  else match UTXOMap st !! from with
       | None => err "no utxos for sender"
       | Some userUTXOs => plan_of from amount (merge_sort entry_le (snapshot userUTXOs))
       end.

(** [GetUTXOsToBurn]: what a plan burns, and the change. *)
Definition GetUTXOsToBurn (txID from : string) (amount : Z) (st : NamecoinState)
    : outcome (list string * list UTXO) :=
  '(inputs, outputs) ← DeterministicSpendPlan from amount st;
  let burn := in_TxID <$> elems inputs in
  match elems outputs with
  | [] => Normal (burn, [])
  | o :: _ => Normal (burn, [MkUTXO txID (out_To o) (out_Amount o) 0])
  end.

(** ** The expiry index *)

Definition bucket (st : NamecoinState) (h : Z) : list string := default [] (expires st !! h).

Record expiry_index (st : NamecoinState) : Prop := {
  ei_key d rec : Domains st !! d = Some rec -> Domain rec = d;
  ei_bucket h names : expires st !! h = Some names -> names <> [] /\ NoDup names;
  ei_domains d h : d ∈ bucket st h <-> h <> 0 /\ exists rec, Domains st !! d = Some rec /\ ExpiresAt rec = h
}.

Lemma index_of_Some d names i : index_of d names = Some i -> exists l1 l2, names = l1 ++ d :: l2 /\ length l1 = i.
Proof.
  revert i. induction names as [|name names IH]; intros i; cbn; [done|].
  destruct (String.eqb_spec name d) as [->|Hne]; [intros [= <-]; by exists [], names|].
  destruct (index_of d names) as [j|]; [|done]. intros [= <-]. destruct (IH j eq_refl) as (l1 & l2 & -> & <-).
  by exists (name :: l1), l2.
Qed.

Lemma index_of_None d names : index_of d names = None <-> d ∉ names.
Proof.
  induction names as [|name names IH]; cbn; [split; [intros _; apply not_elem_of_nil|done]|].
  rewrite not_elem_of_cons. destruct (String.eqb_spec name d) as [->|Hne]; [by split; [|intros []]|].
  rewrite <- IH. destruct (index_of d names); cbn; [by split; [|intros []]|]. split; [|done]. by split; [congruence|].
Qed.

(** What remains after a removal, up to the order. *)
Lemma swap_remove_perm d names : d ∈ names -> names ≡ₚ d :: swap_remove d names.
Proof.
  intros Hd. unfold swap_remove. destruct (index_of d names) as [i|] eqn:E; [|by apply index_of_None in E].
  apply index_of_Some in E as (l1 & l2 & -> & <-).
  destruct l2 as [|z l3 _] using rev_ind.
  - rewrite length_app, Nat.add_comm. cbn. rewrite last_snoc. cbn.
    rewrite list_insert_id by (by apply list_lookup_middle). by rewrite take_app_length, Permutation_app_comm.
  - rewrite app_comm_cons, app_assoc, last_snoc. cbn [default from_option id].
    rewrite <- app_assoc, <- app_comm_cons, insert_app_r_alt, Nat.sub_diag by lia. cbn [insert list_insert].
    rewrite app_comm_cons, app_assoc, !length_app. cbn [length].
    replace (pred _) with (length (l1 ++ z :: l3)) by (rewrite length_app; cbn; lia).
    rewrite app_comm_cons, (app_assoc l1 (z :: l3)), take_app_length. solve_Permutation.
Qed.

Lemma swap_remove_spec d names :
  NoDup names -> NoDup (swap_remove d names) /\ forall x, x ∈ swap_remove d names <-> x ∈ names /\ x <> d.
Proof.
  intros Hn. destruct (decide (d ∈ names)) as [Hd|Hd].
  - pose proof (swap_remove_perm d names Hd) as Hp. rewrite Hp in Hn. apply NoDup_cons in Hn as [Hnd Hn].
    split; [done|]. intros x. rewrite Hp at 2. rewrite elem_of_cons. split; [|by intros [[->|] ?]].
    intros Hx. split; [by right|]. by intros ->.
  - unfold swap_remove. rewrite (proj2 (index_of_None d names)) by done. split; [done|].
    intros x. split; [|by intros []]. intros Hx. split; [done|]. by intros ->.
Qed.

(** The effect of the two updates of the index on its buckets. *)
Lemma bucket_remove d h st h' :
  bucket (removeFromExpiryLocked d h st) h'
  = if decide (h' = h /\ h <> 0) then swap_remove d (bucket st h') else bucket st h'.
Proof.
  unfold bucket, removeFromExpiryLocked. cbn. destruct (Z.eqb_spec h 0) as [->|Hh]; [by rewrite decide_False by tauto|].
  destruct (expires st !! h) as [names|] eqn:E.
  - destruct (decide (h' = h)) as [->|Hne].
    + rewrite decide_True, E by done. cbn [default from_option id].
      destruct (swap_remove d names) eqn:F; [by rewrite lookup_delete_eq|by rewrite lookup_insert_eq].
    + rewrite decide_False by tauto. destruct (swap_remove d names);
        [by rewrite lookup_delete_ne|by rewrite lookup_insert_ne].
  - case_decide as Hd; [|done]. destruct Hd as [-> _]. by rewrite E.
Qed.

Lemma bucket_add d h st h' :
  bucket (addExpiryLocked d h st) h' = if decide (h' = h) then bucket st h' ++ [d] else bucket st h'.
Proof.
  unfold bucket, addExpiryLocked. cbn. case_decide as Hd; [subst; by rewrite lookup_insert_eq|].
  by rewrite lookup_insert_ne.
Qed.

(** The buckets that are present are not empty and hold no name twice. *)
Definition buckets_ok (st : NamecoinState) : Prop :=
  forall h names, expires st !! h = Some names -> names <> [] /\ NoDup names.

Lemma buckets_ok_bucket st h : buckets_ok st -> NoDup (bucket st h).
Proof.
  intros Hok. unfold bucket. destruct (expires st !! h) as [names|] eqn:E; [by apply (Hok h)|constructor].
Qed.

Lemma buckets_ok_remove d h st : buckets_ok st -> buckets_ok (removeFromExpiryLocked d h st).
Proof.
  intros Hok h' names'. unfold removeFromExpiryLocked. cbn. destruct (h =? 0); [apply Hok|].
  destruct (expires st !! h) as [names|] eqn:E; [|apply Hok].
  destruct (swap_remove_spec d names) as [Hn _]; [by apply (Hok h)|].
  destruct (swap_remove d names) as [|x l]; [rewrite lookup_delete_Some; intros [_ ?]; by eapply Hok|].
  rewrite lookup_insert_Some. intros [[_ <-]|[_ ?]]; [done|by eapply Hok].
Qed.

Lemma buckets_ok_add d h st : d ∉ bucket st h -> buckets_ok st -> buckets_ok (addExpiryLocked d h st).
Proof.
  intros Hd Hok h' names'. unfold addExpiryLocked. cbn. rewrite lookup_insert_Some.
  intros [[_ <-]|[_ ?]]; [|by eapply Hok]. split; [intros E; by destruct (app_cons_not_nil _ _ _ (eq_sym E))|].
  apply NoDup_app. split_and!; [by apply buckets_ok_bucket| |apply NoDup_singleton].
  intros x Hx Hin%list_elem_of_singleton. by subst.
Qed.

(** A domain that is removed from its bucket, before its record is replaced. *)
Lemma expiry_forget d rec st :
  expiry_index st -> Domains st !! d = Some rec ->
  let st' := removeFromExpiryLocked d (ExpiresAt rec) st in
  buckets_ok st' /\ forall x h, x ∈ bucket st' h <-> x <> d /\ x ∈ bucket st h.
Proof.
  intros [Hk Hb Hd] Hrec st'. split; [by apply buckets_ok_remove|]. intros x h. unfold st'. rewrite bucket_remove.
  case_decide as Hh.
  - destruct (swap_remove_spec d (bucket st h)) as [_ Hs]; [by apply buckets_ok_bucket|]. rewrite Hs. tauto.
  - split; [|by intros []]. intros Hx. split; [|done]. intros ->. apply Hd in Hx as (H0 & rec' & Hrec' & <-).
    rewrite Hrec' in Hrec. simplify_eq. by destruct Hh.
Qed.

Lemma not_indexed d st h : expiry_index st -> Domains st !! d = None -> d ∉ bucket st h.
Proof. intros [_ _ Hd] Hn (_ & rec & Hr & _)%Hd. congruence. Qed.

Lemma expiry_delete d rec st :
  expiry_index st -> Domains st !! d = Some rec ->
  expiry_index (removeFromExpiryLocked d (ExpiresAt rec) (set_Domains (delete d) st)).
Proof.
  intros Hi Hrec. destruct (expiry_forget d rec st Hi Hrec) as [Hb Hin]. destruct Hi as [Hk _ Hd]. split.
  - intros x r. cbn. rewrite lookup_delete_Some. intros [_ ?]. by eapply Hk.
  - exact Hb.
  - intros x h. etrans; [exact (Hin x h)|]. rewrite Hd. cbn. destruct (decide (x = d)) as [->|Hne].
    + rewrite lookup_delete_eq. split; [by intros []|]. by intros (_ & ? & ? & _).
    + rewrite lookup_delete_ne by done. tauto.
Qed.

Lemma SetDomain_index record st : expiry_index st -> expiry_index (SetDomain record st).
Proof.
  intros Hi. set (d := Domain record).
  set (st1 := match Domains st !! d with
              | Some existing => if negb (ExpiresAt existing =? 0)
                                 then removeFromExpiryLocked d (ExpiresAt existing) st else st
              | None => st end).
  assert (buckets_ok st1 /\ Domains st1 = Domains st /\
    forall x h, x ∈ bucket st1 h <-> x <> d /\ x ∈ bucket st h) as (Hb & HD & Hin).
  { unfold st1. destruct (Domains st !! d) as [rec|] eqn:E.
    - destruct (expiry_forget d rec st Hi E) as [Hb Hin].
      destruct (Z.eqb_spec (ExpiresAt rec) 0) as [E0|E0]; cbn [negb]; [|done].
      assert (removeFromExpiryLocked d (ExpiresAt rec) st = st) as Heq
        by (unfold removeFromExpiryLocked; rewrite E0; by destruct st).
      by rewrite Heq in Hb, Hin.
    - split_and!; [exact (ei_bucket st Hi)|done|]. intros x h. split; [|by intros []]. intros Hx. split; [|done].
      intros ->. by apply (not_indexed d st h Hi E). }
  assert (forall r x, <[d := record]> (Domains st) !! x = Some r -> Domain r = x) as Hk.
  { intros r x. rewrite lookup_insert_Some. intros [[<- <-]|[_ ?]]; [done|by apply (ei_key st Hi)]. }
  pose proof (ei_domains st Hi) as Hd. unfold SetDomain. fold d. fold st1. rewrite <- HD in Hk, Hd.
  destruct (Z.eqb_spec (ExpiresAt record) 0) as [E0|E0]; cbn [negb].
  - split; [intros x r; apply Hk|exact Hb|]. intros x h. etrans; [exact (Hin x h)|]. rewrite Hd. cbn.
    destruct (decide (x = d)) as [->|Hne].
    + rewrite lookup_insert_eq. split; [by intros []|]. intros (Hh & r & [= <-] & <-). done.
    + rewrite lookup_insert_ne by done. tauto.
  - split; [intros x r; apply Hk|apply buckets_ok_add; [|exact Hb]; by intros [? _]%Hin|].
    intros x h. rewrite bucket_add. cbn. destruct (decide (x = d)) as [->|Hne].
    + rewrite lookup_insert_eq. case_decide as Hh.
      * subst h. rewrite elem_of_app, list_elem_of_singleton. split; [|by right]. intros _. split; [done|by eexists].
      * split; [by intros [? _]%Hin|]. intros (_ & r & [= <-] & <-). done.
    + rewrite lookup_insert_ne by done. rewrite <- Hd. case_decide as Hh.
      * rewrite elem_of_app, list_elem_of_singleton. rewrite (Hin x h : x ∈ bucket _ h <-> _). tauto.
      * etrans; [exact (Hin x h)|]. tauto.
Qed.

(** ** Pruning *)

(** The domain is in a bucket that is visited, under the height of its record. *)
Definition doomed (height : Z) (l : list (Z * list string)) (x : string) (rec : NameRecord) : Prop :=
  Exists (fun b => b.1 <= height /\ x ∈ b.2 /\ ExpiresAt rec = b.1) l.

#[export] Instance doomed_dec height l x rec : Decision (doomed height l x rec).
Proof. unfold doomed. apply _. Defined.

(** A state without some of its domains. *)
Definition without_domains (P : string -> NameRecord -> Prop) (st st' : NamecoinState) : Prop :=
  (forall x rec, Domains st' !! x = Some rec <-> Domains st !! x = Some rec /\ ~ P x rec) /\
  (forall x, x ∈ ClaimedDomains st' <->
     x ∈ ClaimedDomains st /\ ~ exists rec, Domains st !! x = Some rec /\ P x rec) /\
  (Commitments st', UTXOMap st', txMap st', currentHeight st', domainTTL st', nextUTXOSeq st')
    = (Commitments st, UTXOMap st, txMap st, currentHeight st, domainTTL st, nextUTXOSeq st).

Lemma prune_name_without h st x0 :
  without_domains (fun x rec => x = x0 /\ ExpiresAt rec = h) st (prune_name h st x0) /\
  expires (prune_name h st x0) = expires st.
Proof.
  unfold prune_name. split; [|by repeat case_match].
  destruct (Domains st !! x0) as [rec0|] eqn:E; [destruct (Z.eqb_spec (ExpiresAt rec0) h) as [Hh|Hh]|].
  - split_and!; [|intros x|done]; cbn.
    + intros x rec. rewrite lookup_delete_Some. naive_solver.
    + rewrite elem_of_difference, elem_of_singleton. naive_solver.
  - split_and!; [|intros x|done]; naive_solver.
  - split_and!; [|intros x|done]; naive_solver.
Qed.

Lemma without_none P st : (forall x rec, ~ P x rec) -> without_domains P st st.
Proof. intros HP. split_and!; [|intros x|done]; naive_solver. Qed.

Lemma without_trans P Q R st st1 st2 :
  (forall x rec, R x rec <-> P x rec \/ Q x rec) ->
  without_domains P st st1 -> without_domains Q st1 st2 -> without_domains R st st2.
Proof.
  intros HR (D1 & C1 & E1) (D2 & C2 & E2). split_and!; [| |congruence].
  - intros x rec. rewrite D2, D1, HR. tauto.
  - intros x. rewrite C2, C1. split.
    + intros [[Hx HP] HQ]. split; [done|]. intros (rec & Hr & [?|?]%HR); [by apply HP; exists rec|].
      apply HQ. exists rec. split; [|done]. apply D1. split; [done|]. intros ?. by apply HP; exists rec.
    + intros [Hx HP]. split; [split; [done|]|].
      * intros (rec & Hr & ?). apply HP. exists rec. split; [done|]. apply HR. by left.
      * intros (rec & [Hr _]%D1 & ?). apply HP. exists rec. split; [done|]. apply HR. by right.
Qed.

Lemma prune_names_without h names st :
  without_domains (fun x rec => x ∈ names /\ ExpiresAt rec = h) st (fold_left (prune_name h) names st) /\
  expires (fold_left (prune_name h) names st) = expires st.
Proof.
  revert st. induction names as [|x0 names IH]; intros st; cbn.
  - split; [|done]. apply without_none. by intros x rec [?%elem_of_nil _].
  - destruct (prune_name_without h st x0) as [H1 E1], (IH (prune_name h st x0)) as [H2 E2].
    split; [|congruence]. eapply without_trans; [|exact H1|exact H2]. intros x rec. rewrite elem_of_cons. tauto.
Qed.

Lemma prune_buckets_without height l st :
  without_domains (doomed height l) st (fold_left (prune_bucket height) l st) /\
  forall h, expires (fold_left (prune_bucket height) l st) !! h
    = if decide (h ∈ l.*1 /\ h <= height) then None else expires st !! h.
Proof.
  revert st. induction l as [|[h0 names] l IH]; intros st; cbn.
  - split; [by apply without_none; intros x rec ?%Exists_nil|]. intros h. rewrite decide_False; [done|].
    by intros [?%elem_of_nil _].
  - destruct (IH (prune_bucket height st (h0, names))) as [H2 E2].
    assert (without_domains (fun x rec => h0 <= height /\ x ∈ names /\ ExpiresAt rec = h0) st
              (prune_bucket height st (h0, names)) /\
            forall h, expires (prune_bucket height st (h0, names)) !! h
              = if decide (h = h0 /\ h0 <= height) then None else expires st !! h) as [H1 E1].
    { unfold prune_bucket. cbn. destruct (Z.ltb_spec height h0) as [Hh|Hh].
      - split; [apply without_none; intros x rec [? _]; lia|]. intros h. rewrite decide_False by lia. done.
      - destruct (prune_names_without h0 names st) as [(D & C & O) E]. split.
        + split_and!; [|intros x|exact O]; cbn; [intros x rec; rewrite D|rewrite C]; naive_solver.
        + intros h. cbn. rewrite E. case_decide as Hd; [destruct Hd as [-> _]; apply lookup_delete_eq|].
          apply lookup_delete_ne. intros ->. by destruct Hd. }
    split.
    + eapply without_trans; [|exact H1|exact H2]. intros x rec. unfold doomed. by rewrite Exists_cons.
    + intros h. rewrite E2, E1. repeat case_decide; try done; exfalso; set_solver.
Qed.

(** The order in which the buckets are visited does not matter. *)
Lemma without_domains_unique P st st1 st2 :
  without_domains P st st1 -> without_domains P st st2 -> expires st1 = expires st2 -> st1 = st2.
Proof.
  intros (D1 & C1 & O1) (D2 & C2 & O2) E.
  assert (Domains st1 = Domains st2) by (apply map_eq; intros x; apply option_eq; intros rec; by rewrite D1, D2).
  assert (ClaimedDomains st1 = ClaimedDomains st2) by (apply set_eq; intros x; by rewrite C1, C2).
  destruct st1, st2; cbn in *. congruence.
Qed.

Lemma prune_order_irrelevant height st l :
  l ≡ₚ map_to_list (expires st) -> fold_left (prune_bucket height) l st = pruneExpired height st.
Proof.
  intros Hl. unfold pruneExpired.
  destruct (prune_buckets_without height l st) as [H1 E1].
  destruct (prune_buckets_without height (map_to_list (expires st)) st) as [H2 E2].
  eapply without_domains_unique; [exact H1| |].
  - destruct H2 as (D & C & O). assert (forall x rec, doomed height l x rec <-> doomed height (map_to_list (expires st)) x rec) as Hd
      by (intros x rec; unfold doomed; by rewrite Hl).
    split_and!; [|intros x|exact O]; [intros x rec; by rewrite D, Hd|]. rewrite C. by setoid_rewrite Hd.
  - apply map_eq. intros h. rewrite E1, E2.
    assert (h ∈ l.*1 <-> h ∈ (map_to_list (expires st)).*1) as Hh by (by rewrite Hl).
    repeat case_decide; tauto.
Qed.

(** Under the index, the domains in the buckets visited are the expired ones. *)
Lemma doomed_expired height st x rec :
  expiry_index st -> Domains st !! x = Some rec ->
  doomed height (map_to_list (expires st)) x rec <-> isExpired rec height = true.
Proof.
  intros [_ Hb Hd] Hr. unfold doomed, isExpired. rewrite Exists_exists, andb_true_iff, negb_true_iff, Z.eqb_neq, Z.leb_le.
  split.
  - intros ([h names] & Hin%elem_of_map_to_list & Hh & Hx & He). cbn in *. subst h.
    assert (x ∈ bucket st (ExpiresAt rec)) as [? _]%Hd by (unfold bucket; by rewrite Hin). done.
  - intros [H0 Hh]. assert (x ∈ bucket st (ExpiresAt rec)) as Hx by (apply Hd; split; [done|by exists rec]).
    unfold bucket in Hx. destruct (expires st !! ExpiresAt rec) as [names|] eqn:E; [|by apply elem_of_nil in Hx].
    exists (ExpiresAt rec, names). by rewrite elem_of_map_to_list.
Qed.

(** Pruning by the index removes the expired domains and no others, and keeps the index. *)
Lemma pruneExpired_domains height st :
  expiry_index st -> without_domains (fun _ rec => isExpired rec height = true) st (pruneExpired height st).
Proof.
  intros Hi. destruct (prune_buckets_without height (map_to_list (expires st)) st) as [(D & C & O) _].
  split_and!; [|intros x|exact O].
  - intros x rec. unfold pruneExpired. rewrite D. split; intros [Hr Hn]; (split; [done|]); by rewrite doomed_expired in *.
  - unfold pruneExpired. rewrite C. split; intros [Hx Hn]; (split; [done|]); intros (rec & Hr & He); apply Hn;
      exists rec; by rewrite doomed_expired in *.
Qed.

Lemma pruneExpired_index height st : expiry_index st -> expiry_index (pruneExpired height st).
Proof.
  intros Hi. destruct (pruneExpired_domains height st Hi) as (D & _ & _). destruct Hi as [Hk Hb Hd].
  destruct (prune_buckets_without height (map_to_list (expires st)) st) as [_ E].
  fold (pruneExpired height st) in E.
  assert (forall h, bucket (pruneExpired height st) h = if decide (h <= height) then [] else bucket st h) as Hbk.
  { intros h. unfold bucket. rewrite E. destruct (expires st !! h) as [names|] eqn:F.
    - assert (h ∈ (map_to_list (expires st)).*1) by (apply list_elem_of_fmap; exists (h, names); by rewrite elem_of_map_to_list).
      repeat case_decide; try done; tauto.
    - by repeat case_decide. }
  split.
  - intros x rec [Hr _]%D. by apply Hk.
  - intros h names. rewrite E. case_decide; [done|]. apply Hb.
  - intros x h. rewrite Hbk. unfold isExpired in D. split.
    + case_decide; [by intros ?%elem_of_nil|]. intros (H0 & rec & Hr & <-)%Hd. split; [done|]. exists rec.
      split; [|done]. apply D. split; [done|]. rewrite andb_true_iff, Z.leb_le. lia.
    + intros (H0 & rec & [Hr Hn]%D & <-). rewrite andb_true_iff, negb_true_iff, Z.eqb_neq, Z.leb_le in Hn.
      rewrite decide_False by tauto. apply Hd. split; [done|by exists rec].
Qed.
