(* ===== verification/NodeUTXO.v ===== *)
(** * Unspent outputs: what a spend plan covers, burns and returns

    The functional behaviour of [DeterministicSpendPlan], [BurnUTXO] and
    [AppendUTXO], in terms of the balance of an address and of the total supply. *)

From stdpp Require Import sorting.
From S2P Require Import Prelude JsValue Json Sha256 Platform World Hash Go NodeState.
Local Open Scope Z_scope.

(** ** Sums over maps *)

Definition zsum (l : list Z) : Z := foldr Z.add 0 l.

Lemma zsum_app l l' : zsum (l ++ l') = zsum l + zsum l'.
Proof. unfold zsum. induction l as [|x l IH]; [done|]. cbn in *. lia. Qed.

#[export] Instance zsum_proper : Proper ((≡ₚ) ==> (=)) zsum.
Proof. unfold zsum. induction 1; cbn in *; lia. Qed.

Lemma zsum_nonneg l : Forall (Z.le 0) l -> 0 <= zsum l.
Proof. unfold zsum. induction 1; cbn in *; lia. Qed.

Definition msum {A} (f : A -> Z) (m : gmap string A) : Z := zsum ((fun kv => f kv.2) <$> map_to_list m).

Section msum.
Context {A : Type} (f : A -> Z).

Lemma msum_insert_new k v (m : gmap string A) : m !! k = None -> msum f (<[k := v]> m) = f v + msum f m.
Proof. intros Hk. unfold msum. by rewrite map_to_list_insert. Qed.

Lemma msum_delete k v (m : gmap string A) : m !! k = Some v -> msum f m = f v + msum f (delete k m).
Proof. intros Hk. unfold msum. by rewrite <- (map_to_list_delete m k v). Qed.

Lemma msum_insert k v (m : gmap string A) :
  msum f (<[k := v]> m) = f v + msum f m - match m !! k with Some v0 => f v0 | None => 0 end.
Proof.
  destruct (m !! k) as [v0|] eqn:E; [|rewrite msum_insert_new by done; lia].
  rewrite (msum_delete k v) by apply lookup_insert_eq. rewrite delete_insert_eq, (msum_delete k v0 m) by done. lia.
Qed.

Lemma msum_nonneg (m : gmap string A) : map_Forall (fun _ v => 0 <= f v) m -> 0 <= msum f m.
Proof.
  intros Hm. apply zsum_nonneg. apply Forall_fmap, Forall_forall. intros [k v] Hk%elem_of_map_to_list. by apply (Hm k).
Qed.
End msum.

(** The balance of an address and the total supply. *)
Definition balance (m : gmap string UTXO) : Z := msum u_Amount m.
Definition funds (st : NamecoinState) (addr : string) : Z := balance (default ∅ (UTXOMap st !! addr)).
Definition supply (st : NamecoinState) : Z := msum balance (UTXOMap st).

(** ** The order of the outputs *)

#[export] Instance entry_le_trans : Transitive entry_le.
Proof.
  intros a b c [?|[? ?]] [?|[? ?]]; unfold entry_le; [left; lia..|right]. split; [lia|]. by etrans.
Qed.

#[export] Instance entry_le_total : Total entry_le.
Proof.
  intros a b. unfold entry_le. destruct (Z.lt_trichotomy (e_order a) (e_order b)) as [?|[?|?]]; [tauto| |tauto].
  destruct (total String.le (e_txid a) (e_txid b)); [left; tauto|right; right; split; [lia|done]].
Qed.

(** Entries of a map that compare equal are equal. *)
Lemma snapshot_antisym (m : gmap string UTXO) a b :
  a ∈ snapshot m -> b ∈ snapshot m -> entry_le a b -> entry_le b a -> a = b.
Proof.
  unfold snapshot. intros ([k u] & -> & Hu%elem_of_map_to_list)%list_elem_of_fmap
    ([k' u'] & -> & Hu'%elem_of_map_to_list)%list_elem_of_fmap [?|[? Hab]] [?|[? Hba]]; cbn in *; try lia.
  pose proof (anti_symm String.le _ _ Hab Hba). simplify_eq. done.
Qed.

(** The plan does not depend on the order in which the map is visited, nor on how the
    entries are sorted. *)
Lemma sorted_snapshot_unique (m : gmap string UTXO) l :
  l ≡ₚ snapshot m -> Sorted entry_le l -> l = merge_sort entry_le (snapshot m).
Proof.
  intros Hl Hs. apply (Sorted_unique_strong entry_le).
  - intros a b Ha Hb. rewrite Hl in Ha. rewrite merge_sort_Permutation in Hb. by eapply snapshot_antisym.
  - done.
  - apply Sorted_merge_sort. apply _.
  - by rewrite merge_sort_Permutation.
Qed.

(** ** The plan *)

Definition total_of (l : list utxoEntry) : Z := zsum (e_amount <$> l).
Definition input_of (e : utxoEntry) : TxInput := MkTxInput (e_txid e) 0.

Lemma total_nil : total_of [] = 0.
Proof. done. Qed.
Lemma total_cons e l : total_of (e :: l) = e_amount e + total_of l.
Proof. done. Qed.
Lemma total_nonneg l : Forall (fun e => 0 <= e_amount e) l -> 0 <= total_of l.
Proof. intros Hl. apply zsum_nonneg, Forall_fmap. exact Hl. Qed.

#[local] Opaque total_of.

Lemma snapshot_total m : total_of (snapshot m) = balance m.
Proof. unfold snapshot, balance, msum. with_strategy transparent [total_of] unfold total_of. by rewrite <- list_fmap_compose. Qed.

(** The entries selected are the shortest prefix that covers the amount, or all. *)
Lemma select_spec amount acc l :
  Forall (fun e => 0 <= e_amount e) l -> 0 <= acc < amount -> acc + total_of l < 2 ^ 64 ->
  exists l1 l2, l = l1 ++ l2 /\ select amount acc l = (input_of <$> l1, acc + total_of l1) /\
    ((acc + total_of l1 < amount /\ l2 = []) \/
     (amount <= acc + total_of l1 /\ exists l0 e, l1 = l0 ++ [e] /\ acc + total_of l0 < amount)).
Proof.
  intros Hl. revert acc. induction Hl as [|e l He Hl IH]; intros acc Hacc Hb; cbn [select].
  - exists [], []. rewrite total_nil. split_and!; [done|cbn; f_equal; lia|left; split; [lia|done]].
  - pose proof (total_nonneg l Hl). rewrite total_cons in Hb.
    rewrite u64_id by (unfold is_u64; lia). destruct (Z.leb_spec amount (acc + e_amount e)) as [Hle|Hlt].
    + exists [e], l. rewrite total_cons, total_nil. split_and!; [done|cbn; f_equal; lia|right].
      split; [lia|]. exists [], e. rewrite total_nil. split; [done|lia].
    + destruct (IH (acc + e_amount e)) as (l1 & l2 & -> & Hs & Hor); [lia|lia|]. rewrite Hs.
      exists (e :: l1), l2. rewrite total_cons. split_and!; [done|cbn; f_equal; lia|].
      destruct Hor as [[? ->]|(? & l0 & e' & -> & ?)]; [left; split; [lia|done]|right].
      split; [lia|]. exists (e :: l0), e'. rewrite total_cons. split; [done|lia].
Qed.

(** Amounts are not negative (they are unsigned), and outputs are kept under their
    identifiers. *)
Definition outputs_ok (st : NamecoinState) : Prop := forall addr m k u,
  UTXOMap st !! addr = Some m -> m !! k = Some u -> 0 <= u_Amount u /\ u_TxID u = k /\ u_To u = addr.

(** What the outputs with given identifiers hold. *)
Definition held (m : gmap string UTXO) (ids : list string) : Z :=
  zsum ((fun k => match m !! k with Some u => u_Amount u | None => 0 end) <$> ids).

Lemma held_nil m : held m [] = 0.
Proof. done. Qed.
Lemma held_cons m k u ids : m !! k = Some u -> held m (k :: ids) = u_Amount u + held m ids.
Proof. intros Hu. unfold held. cbn. by rewrite Hu. Qed.

Lemma snapshot_held (m : gmap string UTXO) l : l ⊆ snapshot m -> total_of l = held m (e_txid <$> l).
Proof.
  induction l as [|e l IH]; intros Hl; [done|]. rewrite total_cons, IH by set_solver.
  unfold held. cbn. f_equal. assert (e ∈ snapshot m) as He by set_solver.
  apply list_elem_of_fmap in He as ([k u] & -> & Hu%elem_of_map_to_list). cbn in *. by rewrite Hu.
Qed.

Lemma snapshot_NoDup (m : gmap string UTXO) : NoDup (e_txid <$> snapshot m).
Proof. unfold snapshot. rewrite <- list_fmap_compose. apply (NoDup_fst_map_to_list m). Qed.

(** Every outcome of the plan for a positive amount. *)
Record plan_covers (m : gmap string UTXO) (from : string) (amount : Z)
    (inputs : list TxInput) (outputs : list TxOutput) : Prop := {
  pc_inputs : inputs <> [] /\ NoDup (in_TxID <$> inputs) /\ Forall (fun i => in_Index i = 0) inputs;
  pc_owned : Forall (fun i => is_Some (m !! in_TxID i)) inputs;
  pc_sum : held m (in_TxID <$> inputs) = amount + zsum (out_Amount <$> outputs);
  pc_change : outputs = [] \/ exists c, outputs = [MkTxOutput from c] /\ 0 < c;
  (** No input is superfluous. *)
  pc_minimal : exists l i, inputs = l ++ [i] /\ held m (in_TxID <$> l) < amount
}.

Lemma plan_spec st from amount m :
  outputs_ok st -> UTXOMap st !! from = Some m -> balance m < 2 ^ 64 -> 0 < amount ->
  if balance m <? amount then DeterministicSpendPlan from amount st = err "insufficient funds"
  else exists inputs outputs, DeterministicSpendPlan from amount st = Normal (Some inputs, Some outputs) /\
    plan_covers m from amount inputs outputs.
Proof.
  intros Hok Hm Hb Ha. unfold DeterministicSpendPlan. rewrite Hm.
  destruct (Z.eqb_spec amount 0) as [|_]; [lia|].
  set (l := merge_sort entry_le (snapshot m)).
  assert (l ≡ₚ snapshot m) as Hl by apply merge_sort_Permutation.
  assert (Forall (fun e => 0 <= e_amount e) l) as Hpos.
  { rewrite Hl. apply Forall_fmap, Forall_forall. intros [k u] Hu%elem_of_map_to_list. by apply (Hok from m k u). }
  assert (total_of l = balance m) as Htot by (rewrite <- snapshot_total; with_strategy transparent [total_of] unfold total_of; by rewrite Hl).
  unfold plan_of. destruct (select_spec amount 0 l) as (l1 & l2 & El & -> & Hor); [done|lia|lia|].
  assert (total_of l1 + total_of l2 = balance m) as Hsum
    by (rewrite <- Htot, El; with_strategy transparent [total_of] unfold total_of; by rewrite fmap_app, zsum_app).
  rewrite El in Hpos. apply Forall_app in Hpos as [Hp1 Hp2]. pose proof (total_nonneg l2 Hp2).
  rewrite Z.add_0_l. destruct Hor as [[Hlt ->]|(Hge & l0 & e & El1 & Hlt)].
  - rewrite total_nil in Hsum. destruct (Z.ltb_spec (balance m) amount) as [|]; [|lia].
    by destruct (Z.ltb_spec (total_of l1) amount); [|lia].
  - destruct (Z.ltb_spec (balance m) amount) as [|_]; [lia|].
    destruct (Z.ltb_spec (total_of l1) amount) as [|_]; [lia|].
    assert (l1 ⊆ snapshot m) as Hsub by (intros x Hx; rewrite <- Hl, El; set_solver).
    assert (in_TxID <$> (input_of <$> l1) = e_txid <$> l1) as Hids by (by rewrite <- list_fmap_compose).
    exists (input_of <$> l1), (if 0 <? total_of l1 - amount then [MkTxOutput from (total_of l1 - amount)] else []). split; [by subst l1; destruct l0|]. split.
    + split_and!; [by subst l1; destruct l0| |by apply Forall_fmap, Forall_true].
      rewrite Hids. pose proof (snapshot_NoDup m) as Hn. rewrite <- Hl, El, fmap_app in Hn. by apply NoDup_app in Hn as [? _].
    + apply Forall_fmap, Forall_forall. intros x Hx. apply Hsub in Hx.
      apply list_elem_of_fmap in Hx as ([k u] & -> & Hu%elem_of_map_to_list). by eexists.
    + rewrite Hids, <- snapshot_held by done. destruct (Z.ltb_spec 0 (total_of l1 - amount)); unfold zsum; cbn; lia.
    + destruct (Z.ltb_spec 0 (total_of l1 - amount)); [right; by eexists|by left].
    + exists (input_of <$> l0), (input_of e). split; [by subst l1; rewrite fmap_app|].
      rewrite <- list_fmap_compose. change (in_TxID ∘ input_of) with e_txid. rewrite <- (snapshot_held m l0) by set_solver. lia.
Qed.

(** ** Burning and appending *)

Lemma held_delete m k ids : k ∉ ids -> held (delete k m) ids = held m ids.
Proof.
  intros Hk. unfold held. f_equal. apply list_fmap_ext. intros i x Hi.
  rewrite lookup_delete_ne; [done|]. intros ->. apply Hk. by eapply list_elem_of_lookup_2.
Qed.

Lemma balance_burn m ids :
  NoDup ids -> Forall (fun k => is_Some (m !! k)) ids -> balance (foldr delete m ids) = balance m - held m ids.
Proof.
  intros Hn. induction Hn as [|k ids Hk Hn IH]; intros Hp; [rewrite held_nil; cbn; lia|].
  apply Forall_cons in Hp as [[u Hu] Hp]. cbn [foldr].
  assert (foldr delete m ids !! k = Some u) as Hu'.
  { clear IH Hn Hp. induction ids as [|k' ids IH]; [done|]. apply not_elem_of_cons in Hk as [? ?].
    cbn. rewrite lookup_delete_ne by done. auto. }
  unfold balance in *. pose proof (msum_delete u_Amount k u (foldr delete m ids) Hu') as He.
  rewrite (held_cons m k u) by done. specialize (IH Hp). lia.
Qed.

Lemma burn_check_Normal m ids seen a :
  burn_check m seen ids = Normal a <->
  NoDup ids /\ (forall k, k ∈ ids -> k ∉ seen) /\ Forall (fun k => is_Some (m !! k)) ids.
Proof.
  revert seen. induction ids as [|k ids IH]; intros seen; cbn.
  - destruct a. split; [|done]. intros _. split_and!; [constructor| |constructor]. by intros k ?%elem_of_nil.
  - rewrite NoDup_cons, Forall_cons. case_bool_decide as Hs; [split; [done|]; intros (_ & Hk & _); exfalso|].
    { apply (Hk k); [by apply elem_of_cons; left|done]. }
    case_bool_decide as Hp; [rewrite IH|by split; [|intros (_ & _ & ? & _)]]. split.
    + intros (H1 & H2 & H3). split_and!; [|done| |done..]; [intros Hk; apply (H2 k Hk); set_solver|].
      intros k' [->|Hk']%elem_of_cons; [done|]. specialize (H2 k' Hk'). set_solver.
    + intros ([H1 H1'] & H2 & _ & H3). split_and!; [done| |done]. intros k' Hk'.
      assert (k' <> k) by congruence. specialize (H2 k' (proj2 (elem_of_cons _ _ _) (or_intror Hk'))). set_solver.
Qed.

(** The successful branch of [BurnUTXO]. *)
Lemma BurnUTXO_Normal from ids st a st' :
  BurnUTXO from ids st = (Normal a, st') <->
  exists m, UTXOMap st !! from = Some m /\ NoDup ids /\ Forall (fun k => is_Some (m !! k)) ids /\
    st' = set_UTXOMap (<[from := foldr delete m ids]>) st.
Proof.
  destruct a. unfold BurnUTXO. rewrite bind_try. destruct (UTXOMap st !! from) as [m|]; [|by split; [|intros (m & ? & _)]].
  rewrite bind_try. destruct (burn_check m ∅ ids) as [[]|e] eqn:E.
  - apply burn_check_Normal in E as (H1 & _ & H3). split; [intros [= <-]; by exists m|].
    by intros (m' & [= <-] & _ & _ & ->).
  - split; [done|]. intros (m' & [= <-] & H1 & H3 & _). enough (burn_check m ∅ ids = Normal tt) by congruence.
    apply burn_check_Normal. split_and!; [done|set_solver|done].
Qed.

(** [AppendUTXO] *)
Definition appended (u : UTXO) (st : NamecoinState) : NamecoinState :=
  set_UTXOMap (<[u_To u := <[u_TxID u := MkUTXO (u_TxID u) (u_To u) (u_Amount u) (nextUTXOSeq st)]>
                             (default ∅ (UTXOMap st !! u_To u))]>)
    (set_seq (u64 (nextUTXOSeq st + 1)) st).

Lemma AppendUTXO_Normal u st a st' :
  AppendUTXO u st = (Normal a, st') <->
  default ∅ (UTXOMap st !! u_To u) !! u_TxID u = None /\ st' = appended u st.
Proof.
  destruct a. unfold AppendUTXO. rewrite bind_asks. unfold id. case_bool_decide as Hp.
  - split; [done|]. intros [Hn _]. rewrite Hn in Hp. by destruct Hp.
  - rewrite bind_assigns. apply eq_None_not_Some in Hp. split; [by intros [= <-]|]. by intros [_ ->].
Qed.

Lemma supply_append u st :
  default ∅ (UTXOMap st !! u_To u) !! u_TxID u = None -> supply (appended u st) = supply st + u_Amount u.
Proof.
  intros Hn. unfold supply, appended. cbn [UTXOMap set_UTXOMap set_seq]. rewrite msum_insert.
  assert (forall v m k, m !! k = None -> balance (<[k := v]> m) = u_Amount v + balance m) as ->
    by (intros; by apply msum_insert_new); [|done]. cbn [u_Amount].
  destruct (UTXOMap st !! u_To u) as [m|]; cbn [default from_option id]; [lia|].
  change (balance ∅) with 0. lia.
Qed.

Lemma supply_burn from ids m st :
  UTXOMap st !! from = Some m -> NoDup ids -> Forall (fun k => is_Some (m !! k)) ids ->
  supply (set_UTXOMap (<[from := foldr delete m ids]>) st) = supply st - held m ids.
Proof.
  intros Hm Hn Hp. unfold supply. cbn. rewrite msum_insert, Hm, balance_burn by done. lia.
Qed.

(** ** The invariant of the outputs *)

Lemma outputs_ok_burn from ids m st :
  UTXOMap st !! from = Some m -> outputs_ok st -> outputs_ok (set_UTXOMap (<[from := foldr delete m ids]>) st).
Proof.
  intros Hm Hok addr m' k u. cbn. rewrite lookup_insert_Some. intros [[<- <-]|[_ ?]]; [|by eapply Hok].
  intros Hu. apply (Hok from m k u Hm). clear - Hu. induction ids as [|k' ids IH]; [done|].
  cbn in Hu. apply lookup_delete_Some in Hu as [_ ?]. auto.
Qed.

Lemma outputs_ok_append u st : 0 <= u_Amount u -> outputs_ok st -> outputs_ok (appended u st).
Proof.
  intros Ha Hok addr m' k v. unfold appended. cbn. rewrite lookup_insert_Some.
  intros [[<- <-]|[_ ?]]; [|by eapply Hok]. rewrite lookup_insert_Some. intros [[<- <-]|[_ Hv]]; [done|].
  destruct (UTXOMap st !! u_To u) as [m|] eqn:E; [by eapply Hok|done].
Qed.
