(* ===== verification/NodeCommands.v ===== *)
(** * The commands of a transaction: [peer/impl/name_new.go], [name_first_update.go],
    [name_update.go], [reward.go], [namecoin_mediatr.go] and the helpers of
    [namecoin_state_helper.go] and [transaction_service_helper.go].

    Code that is not in the repository appears as type classes: the package
    [canonicaljson-go] ([CanonicalJson]) and Ed25519 ([Ed25519]). *)

From S2P Require Import Prelude JsValue Json Sha256 Platform World Hash Go NodeState.
Local Open Scope Z_scope.

(** ** Transactions *)

(** [types.Tx]; [SignedTransaction] and [NamecoinTransactionMessage] have the same
    fields.  The payload is the JSON data of the raw message, [None] when empty. *)
Record Tx := MkTx {
  From : string; Type_ : string; Inputs : slice TxInput; Outputs : slice TxOutput;
  Amount : Z; Payload : option value; Pk : string; TxID : string; Signature : string
}.

(** ** Serialisation and hashes *)

(** [canonicaljson.Marshal]. *)
Class CanonicalJson := { marshal : value -> outcome string }.

Definition input_json (i : TxInput) : value := obj [("TxID", Str (in_TxID i)); ("Index", Num (int (in_Index i)))].
Definition output_json (o : TxOutput) : value := obj [("To", Str (out_To o)); ("Amount", Num (int (out_Amount o)))].
Definition slice_json {A} (f : A -> value) (s : slice A) : value :=
  match s with None => Null | Some l => Arr (f <$> l) end.

(** The map the three serialisers build. *)
Definition tx_json (tx : Tx) : value :=
  tx_data (Str (Type_ tx)) (Str (From tx)) (Num (int (Amount tx))) (default Null (Payload tx))
    (slice_json input_json (Inputs tx)) (slice_json output_json (Outputs tx)).

Definition HashHex (b : list Z) : string := bytesToHex (sha256_digest b).
Definition HashString (s : string) : string := HashHex (encode s).

Section serialize.
Context `{CanonicalJson}.

(** [SerializeTransaction], [SerializeTransaction] of a signed transaction and
    [SerializeTransactionSignature]: the same data. *)
Definition SerializeTransaction (tx : Tx) : outcome (list Z) := encode <$> marshal (tx_json tx).

Definition BuildTransactionID (tx : Tx) : outcome string := HashHex <$> SerializeTransaction tx.
End serialize.

(** [ed25519.Verify] panics on a key of the wrong length, and refuses a signature of
    the wrong length. *)
Class Ed25519 := { ed25519_valid : list Z -> list Z -> list Z -> bool }.

Definition ed25519_Verify `{Ed25519} (publicKey message sig : list Z) : outcome bool :=
  if decide (length publicKey = 32%nat) then Normal (bool_decide (length sig = 64%nat) && ed25519_valid publicKey message sig)
  else Throw (Error "panic" "ed25519: bad public key length").

Definition VerifySignature `{Ed25519} (publicKey unsignedBytes : list Z) (signature : string) : outcome unit :=
  let txHash := sha256_digest unsignedBytes in
  match decodeHex signature with
  | Throw _ => err "invalid signature format"
  | Normal sigBytes =>
      valid ← ed25519_Verify publicKey txHash sigBytes;
      if (valid : bool) then Normal tt else err "signature verification failed"
  end.

(** [OutpointKey(txid, index)] *)
Definition OutpointKey (txid : string) (index : Z) : string :=
  (match decodeHex txid with
   | Normal b => bytesToHex b
   | Throw _ => bytesToHex (encode txid)
   end) +:+ ":" +:+ nat_to_string 10 index.

Definition equalTxInputs (a b : list TxInput) : bool := bool_decide (a = b).
Definition equalTxOutputs (a b : list TxOutput) : bool := bool_decide (a = b).

(** ** Commands *)

Inductive NamecoinCommand :=
  | NameNew (Commitment : string) (TTL : Z)
  | NameFirstUpdate (domain salt ip : string) (TTL : Z) (txid : string)
  | NameUpdate (domain ip : string) (TTL : Z)
  | Reward.

(** [json.Unmarshal(payload, &cmd)] *)
Definition payload_members (payload : option value) : outcome (list (string * value)) :=
  match payload with
  | None => err "unexpected end of JSON input"
  | Some v => as_struct v
  end.

Definition ResolveCommand (command : string) (payload : option value) : outcome NamecoinCommand :=
  if String.eqb command "NameNew" then
    o ← payload_members payload;
    c ← json_field as_string "" "commitment" o;
    ttl ← json_field (as_uint 64) 0 "ttl" o;
    Normal (NameNew c ttl)
  else if String.eqb command "NameFirstUpdate" then
    o ← payload_members payload;
    d ← json_field as_string "" "domain" o;
    s ← json_field as_string "" "salt" o;
    ip ← json_field as_string "" "ip" o;
    ttl ← json_field (as_uint 64) 0 "ttl" o;
    txid ← json_field as_string "" "txid" o;
    Normal (NameFirstUpdate d s ip ttl txid)
  else if String.eqb command "NameUpdate" then
    o ← payload_members payload;
    d ← json_field as_string "" "domain" o;
    ip ← json_field as_string "" "ip" o;
    ttl ← json_field (as_uint 64) 0 "ttl" o;
    Normal (NameUpdate d ip ttl)
  else if String.eqb command "Reward" then Normal Reward
  else err ("unknown command " +:+ command).

(** The record of a domain that is registered and has not expired. *)
Definition live (domain : string) (st : NamecoinState) : option NameRecord :=
  rec ← NameLookup domain st;
  if isExpired rec (currentHeight st) then None else Some rec.

(** [Validate] of each command; [cmd.Validate(st, tx)]. *)
Definition NameNew_Validate (c : string) : outcome unit :=
  if String.eqb c "" then err "name_new commitment empty" else Normal tt.

Definition NameFirstUpdate_Validate (d s ip : string) (st : NamecoinState) : outcome unit :=
  if String.eqb d "" || String.eqb s "" || String.eqb ip "" then err "invalid name_firstupdate payload"
  else match live d st with
       | Some _ => err "domain already exists"
       | None => Normal tt
       end.

Definition NameUpdate_Validate (d : string) (tx : Tx) (st : NamecoinState) : outcome unit :=
  match live d st with
  | None => err "cannot update non-existent or expired domain"
  | Some rec => if String.eqb (Owner rec) (From tx) then Normal tt else err "cannot update domain you do not own"
  end.

Definition Validate (cmd : NamecoinCommand) (tx : Tx) (st : NamecoinState) : outcome unit :=
  match cmd with
  | NameNew c _ => NameNew_Validate c
  | NameFirstUpdate d s ip _ _ => NameFirstUpdate_Validate d s ip st
  | NameUpdate d _ _ => NameUpdate_Validate d tx st
  | Reward => Normal tt
  end.

Definition MaxFirstUpdateDepth : Z := 25.

(** The commitment of a domain and a salt. *)
Definition commitment_of (domain salt : string) : string :=
  HashString ("DOMAIN_HASH_v1:" +:+ domain +:+ ":" +:+ salt).

(** [resolveCommitment] of [NameFirstUpdate]. *)
Definition resolveCommitment (domain salt txid : string) (tx : Tx) (st : NamecoinState)
    : outcome (CommitmentRecord * string) :=
  let commitment := commitment_of domain salt in
  '(commitTxID, commitVout) ←
    (if String.eqb txid "" then
       match elems (Inputs tx) with
       | [] => err "missing name_new reference: no payload txid and no inputs"
       | i :: _ => Normal (in_TxID i, in_Index i)
       end
     else Normal (txid, 0));
  let key := OutpointKey commitTxID commitVout in
  match GetCommitment key st with
  | None => err ("no matching name_new commitment with key " +:+ key)
  | Some rec =>
      if String.eqb commitment (Commit rec) then Normal (rec, key)
      else err ("commitment mismatch for domain " +:+ domain)
  end.

(** [ValidateWithInputs], where the command has it. *)
Definition NameNew_ValidateWithInputs (tx : Tx) : outcome unit :=
  match elems (Inputs tx) with
  | [] => err "name_new requires at least one input UTXO"
  | _ => Normal tt
  end.

Definition NameFirstUpdate_ValidateWithInputs (d s txid : string) (tx : Tx) (st : NamecoinState) : outcome unit :=
  '(rec, _) ← resolveCommitment d s txid tx st;
  if (0 <? CHeight rec) && (CHeight rec <? currentHeight st) &&
     (MaxFirstUpdateDepth <? currentHeight st - CHeight rec)
  then err "commitment too old for firstupdate"
  else match live d st with
       | Some _ => err "domain already exists"
       | None => Normal tt
       end.

Definition ValidateWithInputs (cmd : NamecoinCommand) (tx : Tx) (st : NamecoinState) : outcome unit :=
  match cmd with
  | NameNew _ _ => NameNew_ValidateWithInputs tx
  | NameFirstUpdate d s _ _ txid => NameFirstUpdate_ValidateWithInputs d s txid tx st
  | _ => Normal tt
  end.

Definition resolveTTLPreference (txTTL storedTTL : Z) : Z := if negb (txTTL =? 0) then txTTL else storedTTL.

(** An expired record of the domain is removed, from the index too; the marker of
    [ClaimedDomains] is not. *)
Definition forget_expired (d : string) (st : NamecoinState) : NamecoinState :=
  match NameLookup d st with
  | Some rec =>
      if isExpired rec (currentHeight st)
      then removeFromExpiryLocked d (ExpiresAt rec) (set_Domains (delete d) st) else st
  | None => st
  end.

(** [ApplyState] of each command; [cmd.ApplyState(st, tx)]. *)
Definition NameFirstUpdate_ApplyState (d s ip : string) (ttl : Z) (txid : string) (tx : Tx) : method NamecoinState unit :=
  _ ← assigns (forget_expired d);
  '(rec, key) ← try (resolveCommitment d s txid tx);
  taken ← asks (fun st => IsDomainExists d st || IsDomainClaimed d st);
  if (taken : bool) then try (fun _ => err "Domain already exists")
  else
    newExpiresAt ← asks (fun st =>
      u64 (currentHeight st + effectiveTTL (resolveTTLPreference ttl (CTTL rec)) st));
    _ ← assigns (SetDomain (MkNameRecord (From tx) ip d s newExpiresAt));
    assigns (DeleteCommitment key).

Definition NameUpdate_ApplyState (d ip : string) (ttl : Z) : method NamecoinState unit :=
  found ← asks (NameLookup d);
  match found with
  | None => try (fun _ => err ("updating non-existent domain " +:+ d))
  | Some rec =>
      expired ← asks (fun st => isExpired rec (currentHeight st));
      if (expired : bool) then try (fun _ => err ("updating expired domain " +:+ d))
      else
        let domain := if blank d then Domain rec else d in
        let ip := if blank ip then IP rec else ip in
        newExpiresAt ← asks (fun st => u64 (currentHeight st + effectiveTTL ttl st));
        assigns (SetDomain (MkNameRecord (Owner rec) ip domain (Salt rec) newExpiresAt))
  end.

Definition ApplyState (cmd : NamecoinCommand) (tx : Tx) : method NamecoinState unit :=
  match cmd with
  | NameFirstUpdate d s ip ttl txid => NameFirstUpdate_ApplyState d s ip ttl txid tx
  | NameUpdate d ip ttl => NameUpdate_ApplyState d ip ttl
  | NameNew _ _ | Reward => mret tt
  end.

(** [ApplyUTXOGeneric(st, txID, tx)] *)
Definition ApplyUTXOGeneric (txID : string) (tx : Tx) : method NamecoinState unit :=
  let txIDs := in_TxID <$> elems (Inputs tx) in
  _ ← (match txIDs with [] => mret tt | _ => BurnUTXO (From tx) txIDs end);
  for_each (fun o => AppendUTXO (MkUTXO txID (out_To o) (out_Amount o) 0)) (elems (Outputs tx)).

(** [ApplyUTXO] of each command; [cmd.ApplyUTXO(st, txID, tx)]. *)
Definition NameNew_ApplyUTXO (c : string) (ttl : Z) (txID : string) (tx : Tx) : method NamecoinState unit :=
  _ ← ApplyUTXOGeneric txID tx;
  let ttlToStore := if ttl =? 0 then DefaultDomainTTLBlocks else ttl in
  h ← asks currentHeight;
  assigns (SetCommitment (OutpointKey txID 0) c ttlToStore h).

Definition Reward_ApplyUTXO (txID : string) (tx : Tx) : method NamecoinState unit :=
  let o := match elems (Outputs tx) with [] => MkTxOutput (From tx) (Amount tx) | o :: _ => o end in
  AppendUTXO (MkUTXO txID (out_To o) (out_Amount o) 0).

Definition ApplyUTXO (cmd : NamecoinCommand) (txID : string) (tx : Tx) : method NamecoinState unit :=
  match cmd with
  | NameNew c ttl => NameNew_ApplyUTXO c ttl txID tx
  | NameFirstUpdate _ _ _ _ _ | NameUpdate _ _ _ => ApplyUTXOGeneric txID tx
  | Reward => Reward_ApplyUTXO txID tx
  end.
