(* ===== verification/NodeBlocks.v ===== *)
(** * Transactions and blocks: [peer/impl/transaction_service.go], the handler of
    [impl.go] and the application of blocks of [namecoin_chain.go] and
    [namecoin_state.go].

    A node checks a transaction against its state when a client or a peer sends it,
    and again when it validates the block that contains it ([applyBlockStrict]);
    when it replays stored blocks it applies them without these checks
    ([ApplyBlock]). *)

From S2P Require Import Prelude JsValue Json Sha256 Platform World Hash Go NodeState NodeCommands.
Local Open Scope Z_scope.

(** The part of a block the state depends on. *)
Record Block := MkBlock { Height : Z; Transactions : list Tx }.

(** ** Commands of the state *)

Definition ApplyCommandUTXO (txID : string) (tx : Tx) : method NamecoinState unit :=
  cmd ← try (fun _ => ResolveCommand (Type_ tx) (Payload tx)); ApplyUTXO cmd txID tx.

Definition ApplyCommandState (tx : Tx) : method NamecoinState unit :=
  cmd ← try (fun _ => ResolveCommand (Type_ tx) (Payload tx)); ApplyState cmd tx.

Definition ValidateCommand (tx : Tx) (st : NamecoinState) : outcome unit :=
  cmd ← ResolveCommand (Type_ tx) (Payload tx); Validate cmd tx st.

Definition ValidateCommandWithInputs (tx : Tx) (st : NamecoinState) : outcome unit :=
  cmd ← ResolveCommand (Type_ tx) (Payload tx); ValidateWithInputs cmd tx st.

(** [ApplyTx(txID, tx)] *)
Definition ApplyTx (txID : string) (tx : Tx) : method NamecoinState unit :=
  applied ← asks (IsTxApplied txID);
  if (applied : bool) then mret tt
  else
    _ ← ApplyCommandUTXO txID tx;
    _ ← ApplyCommandState tx;
    assigns (MarkAsApplied txID).

(** The checks of the outputs and of the input indices of [validateTxStrict]. *)
Definition single_output (prefix : string) (tx : Tx) : outcome unit :=
  let n := Z.of_nat (length (elems (Outputs tx))) in
  if 1 <? n then err (prefix +:+ "expected 0 or 1 output, got " +:+ dec n) else Normal tt.

Fixpoint first_outputs (l : list TxInput) : outcome unit :=
  match l with
  | [] => Normal tt
  | i :: l' =>
      if negb (in_Index i =? 0)
      then err ("unsupported input index " +:+ dec (in_Index i) +:+ " (MVP only supports vout=0)")
      else first_outputs l'
  end.

(** The inputs and outputs are those of the canonical plan. *)
Definition canonical_plan (tx : Tx) (st : NamecoinState) : outcome unit :=
  '(inputs, outputs) ← DeterministicSpendPlan (From tx) (Amount tx) st;
  let sender := "(from=" +:+ From tx +:+ ", amount=" +:+ dec (Amount tx) +:+ ")" in
  if negb (equalTxInputs (elems (Inputs tx)) (elems inputs)) then err ("inputs not canonical for " +:+ sender)
  else if negb (equalTxOutputs (elems (Outputs tx)) (elems outputs)) then err ("outputs not canonical for " +:+ sender)
  else Normal tt.

Definition mismatch (what expected got : string) : string :=
  what +:+ " mismatch: expected " +:+ expected +:+ ", got " +:+ got.

Section node.
Context `{CanonicalJson} `{Ed25519}.

(** [ApplyBlock] of the state: the transactions are applied to a copy that replaces
    the state when all succeed. *)
Definition applyBlockInPlace (blk : Block) : method NamecoinState unit :=
  _ ← assigns (setHeight (Height blk));
  _ ← assigns (pruneExpired (Height blk));
  for_each (fun tx => txID ← try (fun _ => BuildTransactionID tx); ApplyTx txID tx) (Transactions blk).

Definition ApplyBlock (blk : Block) : method NamecoinState unit := fun st =>
  match applyBlockInPlace blk st with
  | (Normal _, working) => (Normal tt, replaceWith working st)
  | (Throw e, _) => (Throw e, st)
  end.

(** [verifyTxAuth(tx, txID)] *)
Definition verifyTxAuth (tx : Tx) (txID : string) : outcome unit :=
  if String.eqb (Pk tx) "" || String.eqb (Signature tx) "" || String.eqb (TxID tx) ""
  then err "missing on-chain signature metadata"
  else if negb (String.eqb (TxID tx) txID) then err (mismatch "txid" txID (TxID tx))
  else match decodeHex (Pk tx) with
       | Throw _ => err "invalid public key format"
       | Normal pubKeyBytes =>
           if negb (String.eqb (From tx) (HashHex pubKeyBytes)) then err "from does not match pk hash"
           else sigPreimage ← wrapped "failed to serialize signature preimage: " (SerializeTransaction tx); VerifySignature pubKeyBytes sigPreimage (Signature tx)
       end.

(** [validateTxStrict(st, txID, tx)] *)
Definition validateTxStrict (txID : string) (tx : Tx) (st : NamecoinState) : outcome unit :=
  _ ← ValidateCommand tx st;
  if String.eqb (Type_ tx) "Reward" then
    if negb (String.eqb (TxID tx) "") && negb (String.eqb (TxID tx) txID) then err (mismatch "reward txid" txID (TxID tx))
    else single_output "reward tx: " tx
  else
    _ ← verifyTxAuth tx txID;
    _ ← single_output "" tx;
    _ ← first_outputs (elems (Inputs tx));
    _ ← canonical_plan tx st;
    ValidateCommandWithInputs tx st.

(** The body of the loop of [applyBlockStrict]. *)
Definition applyTxStrict (i : nat) (tx : Tx) : method NamecoinState unit :=
  txID ← try (fun _ => BuildTransactionID tx);
  applied ← asks (IsTxApplied txID);
  if (applied : bool) then mret tt
  else
    let at_tx := "tx " +:+ dec (Z.of_nat i) +:+ " (" +:+ txID +:+ ") " in
    _ ← wrap (at_tx +:+ "invalid: ") (try (validateTxStrict txID tx));
    _ ← wrap ("apply " +:+ at_tx +:+ "UTXO: ") (ApplyCommandUTXO txID tx);
    _ ← wrap ("apply " +:+ at_tx +:+ "state: ") (ApplyCommandState tx);
    assigns (MarkAsApplied txID).

Definition applyBlockStrict (blk : Block) : method NamecoinState unit :=
  _ ← assigns (setHeight (Height blk));
  _ ← assigns (pruneExpired (Height blk));
  for_range applyTxStrict 0 (Transactions blk).

(** [ApplyBlock] of the chain, on the state: the block is validated on a copy,
    which then replaces the state. *)
Definition chainApplyBlock (blk : Block) : method NamecoinState unit := fun st =>
  match applyBlockStrict blk st with
  | (Normal _, clonedState) => (Normal tt, replaceWith clonedState st)
  | (Throw e, _) => (Throw e, st)
  end.

(** ** Transactions from clients *)

(** [VerifyOwnership(from, publicKey)] *)
Definition VerifyOwnership (from : string) (publicKey : list Z) : outcome unit :=
  if String.eqb (HashHex publicKey) from then Normal tt else err "public key does not match sender address".

(** [ValidateTransaction(tx)] of the transaction service. *)
Definition ValidateTransaction (tx : Tx) (st : NamecoinState) : outcome unit :=
  match decodeHex (Pk tx) with
  | Throw _ => err "invalid public key format"
  | Normal pubKeyBytes =>
      _ ← VerifyOwnership (From tx) pubKeyBytes;
      _ ← canonical_plan tx st;
      unsignedBytes ← wrapped "failed to serialize transaction: " (SerializeTransaction tx);
      if negb (String.eqb (HashHex unsignedBytes) (TxID tx)) then err (mismatch "txId" (HashHex unsignedBytes) (TxID tx))
      else
        allUnsignedBytes ← wrapped "failed to serialize signature preimage: " (SerializeTransaction tx);
        _ ← VerifySignature pubKeyBytes allUnsignedBytes (Signature tx);
        ValidateCommand tx st
  end.

(** [json.Unmarshal(buf, &transaction)] *)
Definition as_input (v : value) : outcome TxInput :=
  o ← as_struct v; t ← json_field as_string "" "TxID" o; i ← json_field (as_uint 32) 0 "Index" o; Normal (MkTxInput t i).
Definition as_output (v : value) : outcome TxOutput :=
  o ← as_struct v; t ← json_field as_string "" "To" o; a ← json_field (as_uint 64) 0 "Amount" o; Normal (MkTxOutput t a).

(** A [RawMessage] keeps any value, [null] too. *)
Definition raw_field (name : string) (o : list (string * value)) : option value :=
  fold_left (fun acc kv => if String.eqb (to_lower kv.1) (to_lower name) then Some kv.2 else acc) o None.

Definition unmarshalTransaction (v : value) : outcome Tx :=
  o ← as_struct v;
  type ← json_field as_string "" "type" o;
  from ← json_field as_string "" "from" o;
  amount ← json_field (as_uint 64) 0 "amount" o;
  inputs ← json_field (as_slice as_input) None "inputs" o;
  outputs ← json_field (as_slice as_output) None "outputs" o;
  pk ← json_field as_string "" "pk" o;
  txId ← json_field as_string "" "txId" o;
  signature ← json_field as_string "" "signature" o;
  Normal (MkTx from type inputs outputs amount (raw_field "payload" o) pk txId signature).

(** The steps [HandleNamecoinCommand] and [handleNamecoinTransactionMessage] share:
    validate, take the inputs and outputs of the canonical plan, check the command
    against them, compute the identifier. *)
Definition derive_tx (transaction : Tx) (st : NamecoinState) : outcome (Tx * string) :=
  _ ← ValidateTransaction transaction st;
  '(inputs, outputs) ← DeterministicSpendPlan (From transaction) (Amount transaction) st;
  let tx := MkTx (From transaction) (Type_ transaction) inputs outputs (Amount transaction)
              (Payload transaction) (Pk transaction) (TxID transaction) (Signature transaction) in
  _ ← ValidateCommandWithInputs tx st;
  txID ← BuildTransactionID tx;
  Normal (tx, txID).

(** How the wait for the inclusion in a block ends. *)
Inductive confirmation := Confirmed | Refused (e : exn) | TimedOut.

(** [HandleNamecoinCommand(buf)]: the message that is broadcast, if any, and the
    result.  [broadcast] and [confirmed] are what the network does. *)
Definition HandleNamecoinCommand (buf : string) (st : NamecoinState)
    (broadcast : outcome unit) (confirmed : confirmation) : option Tx * outcome unit :=
  match (v ← json_parse buf; transaction ← unmarshalTransaction v;
         r ← derive_tx transaction st; Normal (transaction, r.2)) with
  | Throw e => (None, Throw e)
  | Normal (msg, txID) =>
      (Some msg,
       _ ← broadcast;
       match confirmed with
       | Confirmed => Normal tt
       | Refused (Error _ m) | Refused (Thrown m) => err ("transaction failed to be included in block: " +:+ m)
       | TimedOut => err ("transaction " +:+ txID +:+ " confirmation timed out after 5 minutes")
       end)
  end.

End node.
