(* ===== verification/NodeSafety.v ===== *)
(** * Safety of the chain's state

    What every block that a node accepts preserves: the expiry index, the ownership
    of the names that have not expired, and the supply up to fees and rewards. *)

From S2P Require Import Prelude JsValue Json Sha256 Platform World Hash Go NodeState NodeUTXO NodeCommands NodeBlocks.
Local Open Scope Z_scope.

(** ** What spending leaves alone *)

(** The part of the state that concerns names. *)
Definition names (st : NamecoinState) :=
  (Domains st, ClaimedDomains st, expires st, currentHeight st, domainTTL st).

Section names.
Context (N : gmap string NameRecord * gset string * gmap Z (list string) * Z * Z).

Lemma AppendUTXO_names u : maintains (fun st => names st = N) (AppendUTXO u).
Proof. intros st a st' Hst [_ ->]%AppendUTXO_Normal. done. Qed.

Lemma BurnUTXO_names from ids : maintains (fun st => names st = N) (BurnUTXO from ids).
Proof. intros st a st' Hst (m & _ & _ & _ & ->)%BurnUTXO_Normal. done. Qed.

Lemma ApplyUTXOGeneric_names txID tx : maintains (fun st => names st = N) (ApplyUTXOGeneric txID tx).
Proof.
  unfold ApplyUTXOGeneric. apply maintains_bind.
  - case_match; [apply maintains_ret|apply BurnUTXO_names].
  - intros _. apply maintains_for_each. intros o. apply AppendUTXO_names.
Qed.

Lemma ApplyUTXO_names cmd txID tx : maintains (fun st => names st = N) (ApplyUTXO cmd txID tx).
Proof.
  destruct cmd; unfold ApplyUTXO, NameNew_ApplyUTXO, Reward_ApplyUTXO; cbv zeta; auto using ApplyUTXOGeneric_names, AppendUTXO_names.
  apply maintains_bind; [apply ApplyUTXOGeneric_names|intros _]. auto with go.
Qed.
End names.

Lemma ApplyCommandUTXO_names txID tx st a st' :
  ApplyCommandUTXO txID tx st = (Normal a, st') -> names st' = names st.
Proof.
  unfold ApplyCommandUTXO. intros (cmd & s1 & [= _ <-] & Hu)%method_bind_Normal.
  by eapply (ApplyUTXO_names (names st)).
Qed.

(** ** The expiry index *)

Lemma index_names st st' : names st' = names st -> expiry_index st -> expiry_index st'.
Proof.
  unfold names. intros [= E1 E2 E3 E4 E5] [Hk Hb Hd]. split; unfold bucket in *; rewrite ?E1, ?E3; done.
Qed.

Lemma index_height h st : expiry_index st -> expiry_index (setHeight h st).
Proof. intros [Hk Hb Hd]. by split. Qed.

Lemma index_forget d st : expiry_index st -> expiry_index (forget_expired d st).
Proof.
  intros Hi. unfold forget_expired, NameLookup. destruct (Domains st !! d) as [rec|] eqn:E; [|done].
  case_match; [by apply expiry_delete|done].
Qed.

Lemma ApplyState_index cmd tx : maintains expiry_index (ApplyState cmd tx).
Proof.
  destruct cmd; unfold ApplyState, NameFirstUpdate_ApplyState, NameUpdate_ApplyState; auto with go.
  - apply maintains_bind; [apply maintains_assigns, index_forget|intros _].
    apply maintains_bind; [auto with go|]. intros [rec key]. apply maintains_bind; [auto with go|intros taken].
    apply maintains_if; [auto with go|]. apply maintains_bind; [auto with go|intros e].
    apply maintains_bind; [apply maintains_assigns, SetDomain_index|intros _].
    apply maintains_assigns. intros st. by apply index_names.
  - apply maintains_bind; [auto with go|]. intros [rec|]; [|auto with go].
    apply maintains_bind; [auto with go|intros e]. apply maintains_if; [auto with go|]. cbv zeta.
    apply maintains_bind; [auto with go|intros x]. apply maintains_assigns, SetDomain_index.
Qed.

Lemma ApplyCommandUTXO_index txID tx : maintains expiry_index (ApplyCommandUTXO txID tx).
Proof. intros st a st' Hi Hu. eapply index_names; [by eapply ApplyCommandUTXO_names|done]. Qed.

Lemma ApplyCommandState_index tx : maintains expiry_index (ApplyCommandState tx).
Proof. unfold ApplyCommandState. apply maintains_bind; [auto with go|intros cmd]. apply ApplyState_index. Qed.

Lemma MarkAsApplied_index id : maintains expiry_index (assigns (MarkAsApplied id)).
Proof. apply maintains_assigns. intros st. by apply index_names. Qed.

#[local] Hint Resolve ApplyCommandUTXO_index ApplyCommandState_index MarkAsApplied_index : go.

Lemma NewState_index : expiry_index NewState.
Proof.
  split; cbn; [by intros d rec ?%lookup_empty_Some|by intros h names ?%lookup_empty_Some|].
  intros d h. unfold bucket. cbn. rewrite !lookup_empty. cbn. rewrite elem_of_nil. naive_solver.
Qed.

Section blocks.
Context `{CanonicalJson} `{Ed25519}.

Lemma ApplyTx_index id tx : maintains expiry_index (ApplyTx id tx).
Proof. unfold ApplyTx. auto 10 with go. Qed.

Lemma applyTxStrict_index i tx : maintains expiry_index (applyTxStrict i tx).
Proof. unfold applyTxStrict. cbv zeta. auto 20 with go. Qed.

Lemma block_index (body : method NamecoinState unit) h :
  maintains expiry_index body ->
  maintains expiry_index (_ ← assigns (setHeight h); _ ← assigns (pruneExpired h); body).
Proof.
  intros Hb. apply maintains_bind; [apply maintains_assigns, index_height|intros _].
  apply maintains_bind; [apply maintains_assigns, pruneExpired_index|done].
Qed.

Lemma replaceWith_index st st' : expiry_index st' -> expiry_index (replaceWith st' st).
Proof. intros [Hk Hb Hd]. by split. Qed.

Lemma ApplyBlock_index blk st : expiry_index st -> expiry_index (ApplyBlock blk st).2.
Proof.
  intros Hi. unfold ApplyBlock. destruct (applyBlockInPlace blk st) as [[u|e] working] eqn:E; [|done].
  apply replaceWith_index. eapply block_index; [|exact Hi|exact E]. apply maintains_for_each. intros tx.
  apply maintains_bind; [auto with go|intros id]. apply ApplyTx_index.
Qed.

Lemma chainApplyBlock_index blk st : expiry_index st -> expiry_index (chainApplyBlock blk st).2.
Proof.
  intros Hi. unfold chainApplyBlock. destruct (applyBlockStrict blk st) as [[u|e] working] eqn:E; [|done].
  apply replaceWith_index. eapply block_index; [|exact Hi|exact E]. apply maintains_for_range, applyTxStrict_index.
Qed.
End blocks.

(** ** What an accepted transaction passed *)

Lemma resolve_reward type payload cmd :
  ResolveCommand type payload = Normal cmd -> cmd = Reward <-> type = "Reward".
Proof.
  unfold ResolveCommand.
  destruct (String.eqb_spec type "NameNew") as [->|];
    [intros (? & _ & (? & _ & (? & _ & [= <-])%outcome_bind_Normal)%outcome_bind_Normal)%outcome_bind_Normal; done|].
  destruct (String.eqb_spec type "NameFirstUpdate") as [->|].
  { intros Hr. repeat (apply outcome_bind_Normal in Hr as (? & _ & Hr)). by injection Hr as <-. }
  destruct (String.eqb_spec type "NameUpdate") as [->|].
  { intros Hr. repeat (apply outcome_bind_Normal in Hr as (? & _ & Hr)). by injection Hr as <-. }
  destruct (String.eqb_spec type "Reward") as [->|]; [by intros [= <-]|done].
Qed.

Section accepted.
Context `{CanonicalJson} `{Ed25519}.

(** The checks of a transaction that is not a reward. *)
Record authorised (txID : string) (cmd : NamecoinCommand) (tx : Tx) (st : NamecoinState) : Prop := {
  au_signed : verifyTxAuth tx txID = Normal tt;
  au_single : (length (elems (Outputs tx)) <= 1)%nat;
  au_plan : canonical_plan tx st = Normal tt;
  au_inputs : ValidateWithInputs cmd tx st = Normal tt
}.

(** The transaction was applied: its command, and the state between the two steps. *)
Record applied_tx (txID : string) (cmd : NamecoinCommand) (tx : Tx) (st st1 st' : NamecoinState) : Prop := {
  ap_fresh : txID ∉ txMap st;
  ap_command : ResolveCommand (Type_ tx) (Payload tx) = Normal cmd;
  ap_valid : Validate cmd tx st = Normal tt;
  ap_auth : cmd <> Reward -> authorised txID cmd tx st;
  ap_utxo : ApplyUTXO cmd txID tx st = (Normal tt, st1);
  ap_state : exists st2, ApplyState cmd tx st1 = (Normal tt, st2) /\ st' = MarkAsApplied txID st2
}.

Lemma validateTxStrict_Normal txID tx st :
  validateTxStrict txID tx st = Normal tt ->
  exists cmd, ResolveCommand (Type_ tx) (Payload tx) = Normal cmd /\ Validate cmd tx st = Normal tt /\
    (cmd <> Reward -> authorised txID cmd tx st).
Proof.
  unfold validateTxStrict, ValidateCommand. intros ([] & (cmd & Hc & Hv)%outcome_bind_Normal & Hr)%outcome_bind_Normal.
  exists cmd. split_and!; [done..|]. intros Hne. pose proof (resolve_reward _ _ _ Hc) as Hrw.
  destruct (String.eqb_spec (Type_ tx) "Reward") as [|_]; [tauto|].
  destruct (verifyTxAuth tx txID) as [[]|] eqn:E1; [|done]. cbn in Hr.
  destruct (single_output "" tx) as [[]|] eqn:E2; [|done]. cbn in Hr.
  destruct (first_outputs _) as [[]|]; [|done]. cbn in Hr.
  destruct (canonical_plan tx st) as [[]|] eqn:E3; [|done]. cbn in Hr.
  unfold ValidateCommandWithInputs in Hr. rewrite Hc in Hr. cbn in Hr. split; try done.
  unfold single_output in E2. destruct (Z.ltb_spec 1 (Z.of_nat (length (elems (Outputs tx))))); [done|lia].
Qed.

Lemma applyTxStrict_Normal i tx st st' :
  applyTxStrict i tx st = (Normal tt, st') ->
  exists txID, BuildTransactionID tx = Normal txID /\
    ((txID ∈ txMap st /\ st' = st) \/ exists cmd st1, applied_tx txID cmd tx st st1 st').
Proof.
  unfold applyTxStrict. rewrite bind_try. destruct (BuildTransactionID tx) as [txID|]; [|done].
  intros Hr. exists txID. split; [done|]. rewrite bind_asks in Hr. unfold IsTxApplied in Hr.
  case_bool_decide as Hin; [left; split; [done|by injection Hr]|right]. cbv zeta in Hr.
  apply method_bind_Normal in Hr as ([] & s0 & [= Hv <-]%wrap_Normal & Hr).
  apply validateTxStrict_Normal in Hv as (cmd & Hc & Hv & Ha).
  apply method_bind_Normal in Hr as ([] & st1 & Hu%wrap_Normal & Hr). unfold ApplyCommandUTXO in Hu.
  rewrite bind_try, Hc in Hu. apply method_bind_Normal in Hr as ([] & st2 & Hs%wrap_Normal & [= <-]).
  unfold ApplyCommandState in Hs. rewrite bind_try, Hc in Hs. exists cmd, st1. by split; [..|exists st2].
Qed.
End accepted.

Lemma not_applied txID st : IsTxApplied txID st = false -> txID ∉ txMap st.
Proof. apply bool_decide_eq_false_1. Qed.

(** ** Histories *)

(** Blocks that were accepted one after the other, from the genesis block on. *)
Inductive chain `{CanonicalJson} `{Ed25519} : list Block -> NamecoinState -> Prop :=
  | chain_start : chain [] NewState
  | chain_extend blks st blk st' :
      chain blks st -> Height blk = Z.of_nat (length blks) -> chainApplyBlock blk st = (Normal tt, st') ->
      chain (blks ++ [blk]) st'.

(** ** What the commands do to names *)

Definition cmd_ttl (cmd : NamecoinCommand) : Z :=
  match cmd with NameNew _ t | NameFirstUpdate _ _ _ t _ | NameUpdate _ _ t => t | Reward => 0 end.

Lemma resolve_ttl type payload cmd : ResolveCommand type payload = Normal cmd -> 0 <= cmd_ttl cmd.
Proof.
  assert (forall o t, json_field (as_uint 64) 0 "ttl" o = Normal t -> 0 <= t) as Ht.
  { intros o t. apply (json_field_inv (Z.le 0)); [|done]. intros v z Hz%as_uint_bound. lia. }
  unfold ResolveCommand. repeat (destruct (String.eqb type _)); try done.
  all: try (intros Hr; repeat (apply outcome_bind_Normal in Hr as (? & ? & Hr)); injection Hr as <-; cbn; by eauto).
Qed.

Lemma SetDomain_Domains r st : Domains (SetDomain r st) = <[Domain r := r]> (Domains st).
Proof. unfold SetDomain. by repeat case_match. Qed.

(** The fields that the domains and the commitments are not. *)
Definition rest (st : NamecoinState) := (UTXOMap st, txMap st, currentHeight st, domainTTL st, nextUTXOSeq st).

Lemma SetDomain_rest r st : rest (SetDomain r st) = rest st /\ Commitments (SetDomain r st) = Commitments st.
Proof. unfold SetDomain. by repeat case_match. Qed.

Lemma forget_expired_spec d st :
  Domains (forget_expired d st) = (match live d st with Some rec => Domains st | None => delete d (Domains st) end) /\
  rest (forget_expired d st) = rest st /\ Commitments (forget_expired d st) = Commitments st.
Proof.
  unfold forget_expired, live, NameLookup. cbn. destruct (Domains st !! d) as [rec|] eqn:E; cbn.
  - by destruct (isExpired rec (currentHeight st)).
  - split_and!; [|done..]. by rewrite delete_id.
Qed.

(** The record a revelation registers. *)
Definition registered (tx : Tx) (d s ip : string) (ttl : Z) (c : CommitmentRecord) (st : NamecoinState) : NameRecord :=
  MkNameRecord (From tx) ip d s (u64 (currentHeight st + effectiveTTL (resolveTTLPreference ttl (CTTL c)) st)).

(** The record of an update. *)
Definition updated (rec : NameRecord) (d ip : string) (ttl : Z) (st : NamecoinState) : NameRecord :=
  MkNameRecord (Owner rec) (if blank ip then IP rec else ip) (if blank d then Domain rec else d) (Salt rec)
    (u64 (currentHeight st + effectiveTTL ttl st)).

Lemma ApplyState_Normal cmd tx st st' :
  ApplyState cmd tx st = (Normal tt, st') ->
  rest st' = rest st /\
  match cmd with
  | NameFirstUpdate d s ip ttl txid => exists c key,
      resolveCommitment d s txid tx st = Normal (c, key) /\ live d st = None /\
      Domains st' = <[d := registered tx d s ip ttl c st]> (Domains st) /\ Commitments st' = delete key (Commitments st)
  | NameUpdate d ip ttl => exists rec, live d st = Some rec /\
      Domains st' = <[Domain (updated rec d ip ttl st) := updated rec d ip ttl st]> (Domains st) /\
      Commitments st' = Commitments st
  | _ => st' = st
  end.
Proof.
  destruct cmd as [| d s ip ttl txid|d ip ttl|]; unfold ApplyState, NameFirstUpdate_ApplyState, NameUpdate_ApplyState; try (by intros [= <-]).
  - intros Hr. rewrite bind_assigns in Hr. destruct (forget_expired_spec d st) as (HD & HR & HC).
    set (st0 := forget_expired d st) in *. rewrite bind_try in Hr.
    assert (resolveCommitment d s txid tx st0 = resolveCommitment d s txid tx st) as Hres
      by (unfold resolveCommitment, GetCommitment; by rewrite HC).
    rewrite Hres in Hr. destruct (resolveCommitment d s txid tx st) as [[c key]|]; [|done].
    rewrite bind_asks in Hr. destruct (IsDomainExists d st0) eqn:Ex; [done|]. cbn [orb] in Hr.
    destruct (IsDomainClaimed d st0); [done|]. rewrite bind_asks, bind_assigns in Hr. injection Hr as <-.
    set (r := MkNameRecord _ _ _ _ _). destruct (SetDomain_rest r st0) as [HR' HC'].
    assert (live d st = None) as Hl.
    { destruct (live d st) as [rec|] eqn:E; [|done]. unfold IsDomainExists in Ex. rewrite HD in Ex.
      unfold live, NameLookup in E. destruct (Domains st !! d); [by rewrite bool_decide_true in Ex by by eexists|done]. }
    rewrite Hl in HD. unfold rest in HR, HR'. injection HR as E1 E2 E3 E4 E5. injection HR' as F1 F2 F3 F4 F5.
    split; [unfold rest; cbn; congruence|]. exists c, key. split_and!; [done|done| |cbn; congruence].
    assert (r = registered tx d s ip ttl c st) as <- by (unfold r, registered, effectiveTTL; by rewrite E3, E4).
    cbn [Domains DeleteCommitment set_Commitments]. rewrite SetDomain_Domains, HD. cbn. apply insert_delete_eq.
  - intros Hr. rewrite bind_asks in Hr. unfold live. destruct (NameLookup d st) as [rec|]; [|done].
    rewrite bind_asks in Hr. cbn. destruct (isExpired rec (currentHeight st)); [done|]. cbv zeta in Hr.
    rewrite bind_asks in Hr. injection Hr as <-. fold (updated rec d ip ttl st).
    destruct (SetDomain_rest (updated rec d ip ttl st) st) as [HR HC]. split; [done|]. exists rec.
    split_and!; [done| |done]. by rewrite SetDomain_Domains.
Qed.

(** What spending does to commitments. *)
Lemma ApplyUTXOGeneric_commitments C txID tx :
  maintains (fun st => (Commitments st, txMap st) = C) (ApplyUTXOGeneric txID tx).
Proof.
  unfold ApplyUTXOGeneric. apply maintains_bind.
  - case_match; [apply maintains_ret|]. by intros st a st' Hst (m & _ & _ & _ & ->)%BurnUTXO_Normal.
  - intros _. apply maintains_for_each. by intros o st a st' Hst [_ ->]%AppendUTXO_Normal.
Qed.

Lemma ApplyUTXO_commitments cmd txID tx st st' :
  ApplyUTXO cmd txID tx st = (Normal tt, st') ->
  names st' = names st /\ txMap st' = txMap st /\
  Commitments st' = match cmd with
    | NameNew c ttl => <[OutpointKey txID 0 := MkCommitment c (if ttl =? 0 then DefaultDomainTTLBlocks else ttl)
                                                 (currentHeight st)]> (Commitments st)
    | _ => Commitments st
    end.
Proof.
  intros Hu. split; [by eapply (ApplyUTXO_names (names st))|].
  assert (forall st', ApplyUTXOGeneric txID tx st = (Normal tt, st') -> (Commitments st', txMap st') = (Commitments st, txMap st)) as Hg
    by (intros st1; by apply (ApplyUTXOGeneric_commitments (Commitments st, txMap st))).
  destruct cmd as [c ttl|d s ip ttl txid|d ip ttl|]; unfold ApplyUTXO, NameNew_ApplyUTXO, Reward_ApplyUTXO in Hu.
  - apply method_bind_Normal in Hu as ([] & st1 & Hu & Hr). rewrite bind_asks in Hr. injection Hr as <-. cbn.
    pose proof (ApplyUTXOGeneric_names (names st) txID tx st tt st1 eq_refl Hu) as Hn. injection Hn as _ _ _ Hh _.
    specialize (Hg st1 Hu). injection Hg as -> ->. by rewrite Hh.
  - specialize (Hg st' Hu). by injection Hg as -> ->.
  - specialize (Hg st' Hu). by injection Hg as -> ->.
  - apply AppendUTXO_Normal in Hu as [_ ->]. done.
Qed.

(** ** Lifetimes *)

Record lifetimes (st : NamecoinState) : Prop := {
  lt_default : domainTTL st = DefaultDomainTTLBlocks;
  lt_commitments key c : Commitments st !! key = Some c -> 0 <= CTTL c;
  lt_domains d rec : Domains st !! d = Some rec ->
    currentHeight st < ExpiresAt rec <= currentHeight st + MaxDomainTTLBlocks
}.

(** Heights at which expiry heights do not overflow. *)
Definition low (h : Z) : Prop := 0 <= h /\ h + MaxDomainTTLBlocks < 2 ^ 64.

Lemma effectiveTTL_bounds ttl st :
  domainTTL st = DefaultDomainTTLBlocks -> 0 <= ttl -> 1 <= effectiveTTL ttl st <= MaxDomainTTLBlocks.
Proof.
  intros Hd Ht. unfold effectiveTTL, clampTTL. rewrite Hd. unfold DefaultDomainTTLBlocks, MaxDomainTTLBlocks.
  destruct (Z.eqb_spec ttl 0); [done|]. destruct (Z.ltb_spec 5256000 ttl); lia.
Qed.

Lemma new_expiry_bounds ttl st :
  low (currentHeight st) -> domainTTL st = DefaultDomainTTLBlocks -> 0 <= ttl ->
  currentHeight st < u64 (currentHeight st + effectiveTTL ttl st) <= currentHeight st + MaxDomainTTLBlocks.
Proof.
  intros [H0 Hh] Hd Ht. pose proof (effectiveTTL_bounds ttl st Hd Ht). rewrite u64_id by (unfold is_u64; lia). lia.
Qed.

(** The commitment a revelation resolves. *)
Lemma resolve_lookup d s txid tx st c key :
  resolveCommitment d s txid tx st = Normal (c, key) ->
  Commitments st !! key = Some c /\ Commit c = commitment_of d s.
Proof.
  unfold resolveCommitment, GetCommitment. intros ([t v] & _ & Hr)%outcome_bind_Normal. cbn in Hr.
  destruct (Commitments st !! OutpointKey t v) as [c'|] eqn:E; [|done].
  destruct (String.eqb_spec (commitment_of d s) (Commit c')); [|done]. by injection Hr as <- <-.
Qed.

Lemma lifetimes_same st st' :
  currentHeight st' = currentHeight st -> domainTTL st' = domainTTL st -> Domains st' = Domains st ->
  Commitments st' = Commitments st -> lifetimes st -> lifetimes st'.
Proof. intros E3 E4 ED EC [H1 H2 H3]. split; rewrite ?E3, ?E4, ?ED, ?EC; done. Qed.

Lemma ApplyState_lifetimes cmd tx st st' :
  low (currentHeight st) -> expiry_index st -> 0 <= cmd_ttl cmd -> lifetimes st ->
  ApplyState cmd tx st = (Normal tt, st') -> lifetimes st'.
Proof.
  intros Hlow Hi Ht Hl Hr. destruct (ApplyState_Normal cmd tx st st' Hr) as [HR Hc].
  pose proof Hl as [H1 H2 H3]. unfold rest in HR. injection HR as E1 E2 E3 E4 E5.
  destruct cmd as [| d s ip ttl txid|d ip ttl|]; [by subst| | |by subst].
  - destruct Hc as (c & key & Hres & _ & ED & EC). apply resolve_lookup in Hres as [Hc _].
    split; rewrite ?E3, ?E4, ?EC, ?ED; [done| |].
    + intros k c'. rewrite lookup_delete_Some. intros [_ ?]. by eapply H2.
    + intros d' rec. rewrite lookup_insert_Some. intros [[_ <-]|[_ ?]]; [|by eapply H3]. cbn.
      apply new_expiry_bounds; [done..|]. unfold resolveTTLPreference. destruct (ttl =? 0); cbn; [by eapply H2|done].
  - destruct Hc as (rec & Hlv & ED & EC). split; rewrite ?E3, ?E4, ?EC, ?ED; [done..|].
    intros d' rec'. rewrite lookup_insert_Some. intros [[_ <-]|[_ ?]]; [|by eapply H3]. by apply new_expiry_bounds.
Qed.

Section lifetimes.
Context `{CanonicalJson} `{Ed25519}.

(** A transaction keeps the height and the lifetimes. *)
Lemma applyTxStrict_lifetimes i tx st st' :
  applyTxStrict i tx st = (Normal tt, st') -> low (currentHeight st) -> expiry_index st -> lifetimes st ->
  currentHeight st' = currentHeight st /\ lifetimes st'.
Proof.
  intros (txID & _ & [[_ ->]|(cmd & st1 & [_ Hc _ _ Hu (st2 & Hs & ->)])])%applyTxStrict_Normal Hlow Hi Hl; [done|].
  destruct (ApplyUTXO_commitments cmd txID tx st st1 Hu) as (Hn & _ & HC).
  pose proof (resolve_ttl _ _ _ Hc) as Ht. pose proof (index_names st st1 Hn Hi) as Hi1.
  unfold names in Hn. injection Hn as ED _ _ Eh Et.
  assert (lifetimes st1) as Hl1.
  { destruct Hl as [L1 L2 L3]. split; rewrite ?ED, ?Eh, ?Et; [done| |done]. intros key c. rewrite HC.
    destruct cmd as [x ttl| | |]; [|by apply L2..]. rewrite lookup_insert_Some. intros [[_ <-]|[_ ?]]; [|by eapply L2].
    cbn in *. destruct (ttl =? 0); done. }
  pose proof (ApplyState_Normal cmd tx st1 st2 Hs) as [HR _]. unfold rest in HR. injection HR as _ _ E3 _ _.
  split; [cbn; congruence|]. apply (lifetimes_same st2); [done..|].
  eapply ApplyState_lifetimes; [|exact Hi1|exact Ht|exact Hl1|exact Hs]. by rewrite Eh.
Qed.

(** The state after the header of a block was processed. *)
Definition opened (h : Z) (st : NamecoinState) : NamecoinState := pruneExpired h (setHeight h st).

Lemma opened_spec h st :
  expiry_index st ->
  expiry_index (opened h st) /\ currentHeight (opened h st) = h /\
  (forall d rec, Domains (opened h st) !! d = Some rec <-> Domains st !! d = Some rec /\ isExpired rec h = false) /\
  Commitments (opened h st) = Commitments st /\ domainTTL (opened h st) = domainTTL st /\
  UTXOMap (opened h st) = UTXOMap st /\ txMap (opened h st) = txMap st.
Proof.
  intros Hi. pose proof (index_height h st Hi) as Hi'. destruct (pruneExpired_domains h _ Hi') as (HD & _ & HO).
  injection HO as E1 E2 E3 E4 E5 E6. split_and!; [exact (pruneExpired_index _ _ Hi')|done| |done..].
  intros d rec. unfold opened. rewrite HD. cbn. by rewrite not_true_iff_false.
Qed.

Lemma opened_lifetimes h st :
  expiry_index st -> lifetimes st -> 0 <= currentHeight st <= h -> lifetimes (opened h st).
Proof.
  intros Hi [L1 L2 L3] Hh. destruct (opened_spec h st Hi) as (_ & Eh & HD & HC & Et & _).
  split; rewrite ?Eh, ?Et, ?HC; [done..|]. intros d rec [Hr Hx]%HD. specialize (L3 d rec Hr).
  unfold isExpired in Hx. apply andb_false_iff in Hx as [Hx|Hx].
  - apply negb_false_iff, Z.eqb_eq in Hx. lia.
  - apply Z.leb_gt in Hx. lia.
Qed.
End lifetimes.
