(* ===== verification/NodeDemo.v ===== *)
(** * A small chain

    A key, and blocks that reward it, commit to a name, reveal the name and update
    it, with the canonical JSON and the signatures of [Reference]: concrete data for
    the theorems about chains. *)

From S2P Require Import Prelude JsValue Json Sha256 Platform World Hash Go NodeState NodeUTXO NodeCommands NodeBlocks NodeSafety.
Import Reference.
Local Open Scope Z_scope.

Module SmallChain.

#[export] Instance demo_json : CanonicalJson := {
  marshal v := match canonicalize v with
               | Normal (Str s) => Normal s
               | Normal _ => err "unsupported value"
               | Throw e => Throw e
               end
}.
#[export] Instance demo_ed25519 : Ed25519 := { ed25519_valid pk m sig := bool_decide (sig = tag pk m) }.

(** The first key pair, of which only the public key is needed to make a [tag]. *)
Definition pk : list Z := public 0.
Definition addr : string := Eval vm_compute in HashHex pk.

(** A transaction signed by the key, spending by the plan of a state. *)
Definition signed (type : string) (amount : Z) (payload : value) (st : NamecoinState) : Tx :=
  let '(ins, outs) := match DeterministicSpendPlan addr amount st with
                      | Normal p => p | Throw _ => (None, None) end in
  let tx := MkTx addr type ins outs amount (Some payload) (bytesToHex pk) "" "" in
  let bytes := match SerializeTransaction tx with Normal b => b | Throw _ => [] end in
  MkTx addr type ins outs amount (Some payload) (bytesToHex pk) (HashHex bytes)
    (bytesToHex (tag pk (sha256_digest bytes))).

(** The reward of a block ([AssembleBlock]). *)
Definition reward (h amount : Z) : Tx :=
  MkTx addr "Reward" None (Some [MkTxOutput addr amount]) amount (Some (obj [("height", Num (int h))])) "" "" "".

Definition after (blk : Block) (st : NamecoinState) : NamecoinState := (chainApplyBlock blk st).2.

Definition b0 : Block := MkBlock 0 [reward 0 10].
Definition s0 : NamecoinState := after b0 NewState.

Definition new_tx : Tx := Eval vm_compute in signed "NameNew" 1 (obj [("commitment", Str (commitment_of "example.bit" "salt"))]) s0.
Definition b1 : Block := MkBlock 1 [new_tx].
Definition s1 : NamecoinState := after b1 s0.

Definition reveal_tx : Tx := Eval vm_compute in signed "NameFirstUpdate" 1
  (obj [("domain", Str "example.bit"); ("salt", Str "salt"); ("ip", Str "10.0.0.1"); ("txid", Str (TxID new_tx))]) s1.
Definition b2 : Block := MkBlock 2 [reveal_tx].
Definition s2 : NamecoinState := after b2 s1.

Definition update_tx : Tx := Eval vm_compute in signed "NameUpdate" 1 (obj [("domain", Str "example.bit"); ("ip", Str "10.0.0.2")]) s2.
Definition b3 : Block := MkBlock 3 [update_tx].
Definition s3 : NamecoinState := after b3 s2.

Lemma accepts blk st : (chainApplyBlock blk st).1 = Normal tt -> chainApplyBlock blk st = (Normal tt, after blk st).
Proof. unfold after. by destruct (chainApplyBlock blk st) as [o st'] eqn:E; cbn; intros ->. Qed.

Lemma chain0 : chain [b0] s0.
Proof. apply (chain_extend [] NewState); [constructor|done|]. by apply accepts; vm_compute. Qed.
Lemma chain1 : chain [b0; b1] s1.
Proof. apply (chain_extend [b0] s0); [apply chain0|done|]. by apply accepts; vm_compute. Qed.
Lemma chain2 : chain [b0; b1; b2] s2.
Proof. apply (chain_extend [b0; b1] s1); [apply chain1|done|]. by apply accepts; vm_compute. Qed.
Lemma chain3 : chain [b0; b1; b2; b3] s3.
Proof. apply (chain_extend [b0; b1; b2] s2); [apply chain2|done|]. by apply accepts; vm_compute. Qed.

Definition record : NameRecord := MkNameRecord addr "10.0.0.1" "example.bit" "salt" 36002.
Definition record' : NameRecord := MkNameRecord addr "10.0.0.2" "example.bit" "salt" 36003.

Lemma registered_s2 : Domains s2 !! "example.bit" = Some record.
Proof. by vm_compute. Qed.
Lemma registered_s3 : Domains s3 !! "example.bit" = Some record'.
Proof. by vm_compute. Qed.

(** The identifier of a transaction. *)
Definition id_of (tx : Tx) : string := match BuildTransactionID tx with Normal id => id | Throw _ => "" end.

(** A reward of a million coins that nobody signed. *)
Definition forged_output : TxOutput := MkTxOutput "mallory" 1000000.
Definition forged : Tx := MkTx "mallory" "Reward" None (Some [forged_output]) 0 None "" "" "".

(** Another commitment, planned on the same state as [new_tx]; and a reward that the
    key asks for. *)
Definition other_tx : Tx := Eval vm_compute in signed "NameNew" 2 (obj [("commitment", Str "c")]) s0.
Definition greedy_tx : Tx := Eval vm_compute in signed "Reward" 1 (obj []) s0.

(** A message without a public key, for no amount. *)
Definition keyless_tx : Tx :=
  let tx := MkTx (HashHex []) "NameUpdate" (Some []) (Some []) 0 (Some (obj [])) "" "" "" in
  MkTx (HashHex []) "NameUpdate" (Some []) (Some []) 0 (Some (obj [])) "" (id_of tx) "".

(** The state block 1 starts from. *)
Definition open1 : NamecoinState := opened 1 s0.

Lemma demo_low : low 4.
Proof. unfold low, MaxDomainTTLBlocks. lia. Qed.
End SmallChain.
