(* ===== verification/NodeChain.v ===== *)
(** * Properties of the chain

    Theorems about the states that accepted blocks lead to: names expire within the
    maximal lifetime, belong to who revealed a commitment to them and change only
    with the signature of their owner, and the supply grows by rewards only. *)

From S2P Require Import Prelude JsValue Json Sha256 Platform World Hash Go NodeState NodeUTXO NodeCommands NodeBlocks NodeSafety NodeDemo.
Local Open Scope Z_scope.

Section chain.
Context `{CanonicalJson} `{Ed25519}.

(** Induction over the transactions of an accepted block. *)
Lemma block_inv (I : list Tx -> NamecoinState -> Prop) blk st st' :
  chainApplyBlock blk st = (Normal tt, st') -> I [] (opened (Height blk) st) ->
  (forall done i tx rest s s', Transactions blk = done ++ tx :: rest -> I done s ->
     applyTxStrict i tx s = (Normal tt, s') -> I (done ++ [tx]) s') ->
  exists working, I (Transactions blk) working /\ st' = replaceWith working st.
Proof.
  unfold chainApplyBlock, applyBlockStrict. rewrite !bind_assigns. fold (opened (Height blk) st). intros Hb H0 Hs.
  destruct (for_range applyTxStrict 0 (Transactions blk) (opened (Height blk) st)) as [[[]|e] working] eqn:E; [|done].
  injection Hb as <-. exists working. split; [|done]. by eapply for_range_inv.
Qed.

(** What holds throughout a block. *)
Definition sound (h : Z) (st : NamecoinState) : Prop := expiry_index st /\ lifetimes st /\ currentHeight st = h.

Lemma sound_tx h i tx st st' : low h -> sound h st -> applyTxStrict i tx st = (Normal tt, st') -> sound h st'.
Proof.
  intros Hlow (Hi & Hl & Hh) Ht. destruct (applyTxStrict_lifetimes i tx st st' Ht) as [Hh' Hl']; [by rewrite Hh|done..|].
  split_and!; [by eapply applyTxStrict_index|done|congruence].
Qed.

Lemma sound_replace h st st' : sound h st' -> sound h (replaceWith st' st).
Proof. intros (Hi & [L1 L2 L3] & Hh). split_and!; [by apply replaceWith_index|by split|done]. Qed.

Lemma sound_opened h h' st : sound h st -> 0 <= h <= h' -> sound h' (opened h' st).
Proof.
  intros (Hi & Hl & Hh) Hle. destruct (opened_spec h' st Hi) as (Hi' & Hh' & _).
  split_and!; [done| |done]. apply opened_lifetimes; [done..|lia].
Qed.

Lemma sound_block h blk st st' :
  sound h st -> 0 <= h <= Height blk -> low (Height blk) -> chainApplyBlock blk st = (Normal tt, st') -> sound (Height blk) st'.
Proof.
  intros Hs Hh Hlow Hb. destruct (block_inv (fun _ => sound (Height blk)) blk st st' Hb) as (w & Hw & ->).
  - by eapply sound_opened.
  - intros done i tx l s s' _ ? ?. by eapply sound_tx.
  - by apply sound_replace.
Qed.

(** The height of the last of [n] blocks. *)
Definition head (n : nat) : Z := Z.of_nat (pred n).

Lemma chain_sound blks st : chain blks st -> low (head (length blks)) -> sound (head (length blks)) st.
Proof.
  induction 1 as [|blks st blk st' Hc IH Hh Hb]; intros Hlow.
  - split_and!; [apply NewState_index| |done]. split; [done| |]; cbn; intros k x; by rewrite lookup_empty.
  - rewrite length_app, Nat.add_comm in *. cbn [length Nat.add pred head] in *.
    assert (head (S (length blks)) = Height blk) as -> by (rewrite Hh; done).
    unfold head in *. cbn [pred] in Hlow. unfold low in *. eapply (sound_block (Z.of_nat (pred (length blks)))); [|lia|unfold low; lia|done].
    apply IH. lia.
Qed.

(** ** Ownership *)

(** A signed update of a name by its owner. *)
Definition signed_update (tx : Tx) (d owner : string) : Prop :=
  exists ip ttl txID, ResolveCommand (Type_ tx) (Payload tx) = Normal (NameUpdate d ip ttl) /\
    From tx = owner /\ verifyTxAuth tx txID = Normal tt.

(** The record of a name, after some transactions. *)
Definition kept (d : string) (rec : NameRecord) (done : list Tx) (st : NamecoinState) : Prop :=
  exists rec', Domains st !! d = Some rec' /\ Owner rec' = Owner rec /\ Salt rec' = Salt rec /\
    (rec' = rec \/ exists tx, tx ∈ done /\ signed_update tx d (Owner rec)).

Lemma live_lookup d st rec : live d st = Some rec -> Domains st !! d = Some rec.
Proof. unfold live, NameLookup. destruct (Domains st !! d) as [r|]; [|done]. cbn. by destruct (isExpired _ _). Qed.

Lemma sound_live h d rec st : sound h st -> Domains st !! d = Some rec -> live d st = Some rec.
Proof.
  intros (_ & [_ _ L3] & Hh) Hr. unfold live, NameLookup. rewrite Hr. cbn. unfold isExpired.
  specialize (L3 d rec Hr). destruct (Z.leb_spec (ExpiresAt rec) (currentHeight st)); [lia|]. by rewrite andb_false_r.
Qed.

Lemma kept_weaken d rec done tx st : kept d rec done st -> kept d rec (done ++ [tx]) st.
Proof.
  intros (rec' & ? & ? & ? & [?|(tx' & ? & ?)]); exists rec'; split_and!; try done; [by left|right].
  exists tx'. split; [apply elem_of_app; by left|done].
Qed.

Lemma kept_tx h d rec done i tx st st' :
  sound h st -> kept d rec done st -> applyTxStrict i tx st = (Normal tt, st') -> kept d rec (done ++ [tx]) st'.
Proof.
  intros Hs Hk (txID & _ & [[_ ->]|(cmd & st1 & [_ Hc Hv Ha Hu (st2 & Hst & ->)])])%applyTxStrict_Normal; [by apply kept_weaken|].
  destruct (ApplyUTXO_commitments cmd txID tx st st1 Hu) as (Hn & _ & _). pose proof Hn as Hn'. injection Hn' as ED _ _ Eh _.
  assert (forall x, live x st1 = live x st) as Hlv by (intros x; unfold live, NameLookup; by rewrite ED, Eh).
  destruct (ApplyState_Normal cmd tx st1 st2 Hst) as [_ Heff]. destruct Hk as (rec' & Hr & Ho & Hsa & Hor).
  pose proof (sound_live h d rec' st Hs Hr) as Hlive.
  assert (Domains st2 !! d = Some rec' -> kept d rec (done ++ [tx]) (MarkAsApplied txID st2)) as Hsame.
  { intros Hd. apply kept_weaken. by exists rec'. }
  destruct cmd as [| d' s ip ttl txid|d' ip ttl|]; [subst st2; apply Hsame; by rewrite ED| | |subst st2; apply Hsame; by rewrite ED].
  - destruct Heff as (c & key & _ & Hnone & HD & _). apply Hsame. rewrite HD, lookup_insert_ne, ED; [done|].
    intros ->. rewrite Hlv in Hnone. congruence.
  - destruct Heff as (r & Hl & HD & _). rewrite Hlv in Hl. pose proof (live_lookup _ _ _ Hl) as Hl'.
    assert (Domain (updated r d' ip ttl st1) = d') as Hdom.
    { cbn. destruct (blank d'); [|done]. destruct Hs as ([Hk _ _] & _). by apply Hk. }
    rewrite Hdom in HD. destruct (decide (d' = d)) as [->|Hne].
    + rewrite Hl' in Hr. simplify_eq. exists (updated rec' d ip ttl st1). cbn. rewrite HD, lookup_insert_eq.
      split_and!; [done..|]. right. exists tx. split; [apply elem_of_app; right; by apply list_elem_of_singleton|].
      exists ip, ttl, txID. unfold Validate, NameUpdate_Validate in Hv. rewrite Hl in Hv. destruct (String.eqb_spec (Owner rec') (From tx)); [|done].
      split_and!; [done|congruence|]. by apply Ha.
    + apply Hsame. rewrite HD, lookup_insert_ne, ED by done. done.
Qed.

(** ** Provenance *)

Definition commits (tx : Tx) (c : string) : Prop :=
  exists ttl, ResolveCommand (Type_ tx) (Payload tx) = Normal (NameNew c ttl).

Definition signed_reveal (tx : Tx) (d salt owner : string) : Prop :=
  exists ip ttl txid txID, ResolveCommand (Type_ tx) (Payload tx) = Normal (NameFirstUpdate d salt ip ttl txid) /\
    From tx = owner /\ verifyTxAuth tx txID = Normal tt.

(** The name was committed to, then revealed by its owner. *)
Definition earned (done : list Tx) (d : string) (rec : NameRecord) : Prop :=
  exists l1 tx1 l2 tx2 l3, done = l1 ++ tx1 :: l2 ++ tx2 :: l3 /\
    commits tx1 (commitment_of d (Salt rec)) /\ signed_reveal tx2 d (Salt rec) (Owner rec).

Definition provenance (done : list Tx) (st : NamecoinState) : Prop :=
  (forall key c, Commitments st !! key = Some c -> exists tx, tx ∈ done /\ commits tx (Commit c)) /\
  (forall d rec, Domains st !! d = Some rec -> earned done d rec).

Lemma earned_weaken done tx d rec : earned done d rec -> earned (done ++ [tx]) d rec.
Proof.
  intros (l1 & tx1 & l2 & tx2 & l3 & -> & ? & ?). exists l1, tx1, l2, tx2, (l3 ++ [tx]). split; [|done].
  by rewrite <- !app_assoc, <- app_comm_cons, <- app_assoc.
Qed.

Lemma provenance_weaken done tx st : provenance done st -> provenance (done ++ [tx]) st.
Proof.
  intros [Hc Hd]. split.
  - intros key c Hk. destruct (Hc key c Hk) as (tx' & ? & ?). exists tx'. split; [apply elem_of_app; by left|done].
  - intros d rec Hr. apply earned_weaken, Hd, Hr.
Qed.

Lemma provenance_tx h done i tx st st' :
  sound h st -> provenance done st -> applyTxStrict i tx st = (Normal tt, st') -> provenance (done ++ [tx]) st'.
Proof.
  intros Hs Hp (txID & _ & [[_ ->]|(cmd & st1 & [_ Hc Hv Ha Hu (st2 & Hst & ->)])])%applyTxStrict_Normal;
    [by apply provenance_weaken|].
  destruct (ApplyUTXO_commitments cmd txID tx st st1 Hu) as (Hn & _ & HC). injection Hn as ED _ _ Eh _.
  assert (forall tx0, tx0 ∈ done ++ [tx] <-> tx0 ∈ done \/ tx0 = tx) as Hin
    by (intros tx0; by rewrite elem_of_app, list_elem_of_singleton).
  assert (provenance (done ++ [tx]) st1) as [PC PD].
  { destruct Hp as [PC PD]. split; [|intros d rec; rewrite ED; intros Hr; by apply earned_weaken, PD].
    intros key c. rewrite HC. intros Hk.
    assert ((exists tx', tx' ∈ done /\ commits tx' (Commit c)) \/ commits tx (Commit c)) as [(tx' & ? & ?)|Hx].
    { destruct cmd as [x ttl| | |]; [|left; by eapply PC..]. apply lookup_insert_Some in Hk as [[_ <-]|[_ Hk]]; [|left; by eapply PC].
      right. by exists ttl. }
    - exists tx'. split; [apply Hin; by left|done].
    - exists tx. split; [apply Hin; by right|done]. }
  destruct (ApplyState_Normal cmd tx st1 st2 Hst) as [_ Heff].
  destruct cmd as [| d s ip ttl txid|d ip ttl|]; [by subst st2| | |by subst st2].
  - destruct Heff as (c & key & Hres & _ & HD & HC2). apply resolve_lookup in Hres as [Hk Hco].
    split; cbn; [intros key' c'; rewrite HC2, lookup_delete_Some; intros [_ ?]; by eapply PC|].
    intros d' rec. rewrite HD, lookup_insert_Some. intros [[<- <-]|[_ ?]]; [|by apply PD]. cbn.
    assert (exists tx', tx' ∈ done /\ commits tx' (Commit c)) as (tx1 & Htx1 & Hx) by (rewrite HC in Hk; by eapply Hp).
    apply list_elem_of_split in Htx1 as (l1 & l2 & ->). exists l1, tx1, l2, tx, [].
    rewrite <- app_assoc, <- app_comm_cons. cbn. split_and!; [done|by rewrite <- Hco|].
    exists ip, ttl, txid, txID. split_and!; [done..|]. by apply Ha.
  - destruct Heff as (r & Hl & HD & HC2). pose proof (live_lookup _ _ _ Hl) as Hl'.
    split; cbn; [intros key' c'; rewrite HC2; by eapply PC|].
    intros d' rec. rewrite HD, lookup_insert_Some. intros [[<- <-]|[_ ?]]; [|by apply PD]. cbn.
    assert ((if blank d then Domain r else d) = d) as ->.
    { destruct (blank d); [|done]. destruct Hs as ([Hk _ _] & _). rewrite ED in Hl'. by apply Hk. }
    exact (PD d r Hl').
Qed.

(** ** Supply *)

(** Amounts are unsigned. *)
Definition tx_ok (tx : Tx) : Prop := 0 <= Amount tx /\ Forall (fun o => 0 <= out_Amount o) (elems (Outputs tx)).

(** What a transaction of type [Reward] creates. *)
Definition minted (tx : Tx) : Z :=
  if String.eqb (Type_ tx) "Reward"
  then match elems (Outputs tx) with [] => Amount tx | o :: _ => out_Amount o end else 0.

Lemma balance_supply st addr m : outputs_ok st -> UTXOMap st !! addr = Some m -> balance m <= supply st.
Proof.
  intros Hok Hm. unfold supply. rewrite (msum_delete balance addr m) by done.
  enough (0 <= msum balance (delete addr (UTXOMap st))) by lia. apply msum_nonneg.
  intros a m' Ha. apply lookup_delete_Some in Ha as [_ Ha]. apply msum_nonneg. intros k u Hu. by apply (Hok a m' k u).
Qed.

(** What is spent, when the inputs and outputs are those of the canonical plan. *)
Lemma canonical_plan_spec tx st :
  0 <= Amount tx -> outputs_ok st -> supply st < 2 ^ 64 -> canonical_plan tx st = Normal tt ->
  (Amount tx = 0 /\ elems (Inputs tx) = [] /\ elems (Outputs tx) = []) \/
  (0 < Amount tx /\ exists m, UTXOMap st !! From tx = Some m /\
     plan_covers m (From tx) (Amount tx) (elems (Inputs tx)) (elems (Outputs tx))).
Proof.
  intros Ha Hok Hb Hplan. unfold canonical_plan in Hplan.
  apply outcome_bind_Normal in Hplan as ([ins outs] & Hp & He). cbn in He.
  destruct (equalTxInputs _ _) eqn:Ei; [|done]. destruct (equalTxOutputs _ _) eqn:Eo; [|done].
  apply bool_decide_eq_true in Ei, Eo. rewrite Ei, Eo. destruct (decide (Amount tx = 0)) as [E0|E0]; [left|right].
  { unfold DeterministicSpendPlan in Hp. rewrite E0 in Hp. by injection Hp as <- <-. }
  split; [lia|]. destruct (UTXOMap st !! From tx) as [m|] eqn:Hm.
  2:{ unfold DeterministicSpendPlan in Hp. rewrite Hm in Hp. by destruct (Z.eqb_spec (Amount tx) 0). }
  pose proof (balance_supply st _ m Hok Hm). pose proof (plan_spec st (From tx) (Amount tx) m Hok Hm) as Hs.
  destruct (balance m <? Amount tx); [rewrite Hs in Hp by lia; done|].
  destruct Hs as (inputs & outputs & Hp' & Hc); [lia..|]. rewrite Hp' in Hp. injection Hp as <- <-. by exists m.
Qed.

(** Spending by the canonical plan destroys the fee. *)
Lemma ApplyUTXOGeneric_supply txID tx st st' :
  tx_ok tx -> outputs_ok st -> supply st < 2 ^ 64 -> canonical_plan tx st = Normal tt ->
  ApplyUTXOGeneric txID tx st = (Normal tt, st') -> supply st' = supply st - Amount tx /\ outputs_ok st'.
Proof.
  intros [Ha _] Hok Hb Hplan Hu. unfold ApplyUTXOGeneric in Hu.
  destruct (canonical_plan_spec tx st Ha Hok Hb Hplan) as [(E0 & Ei & Eo)|(Hpos & m & Hm & [(Hne & Hnd & _) Hown Hsum Hch _])].
  { rewrite Ei, Eo in Hu. injection Hu as <-. split; [lia|done]. }
  apply method_bind_Normal in Hu as ([] & st1 & Hburn & Happ). set (inputs := elems (Inputs tx)) in *.
  destruct (in_TxID <$> inputs) as [|k ids] eqn:Eids; [by destruct inputs|]. rewrite <- Eids in *.
  apply BurnUTXO_Normal in Hburn as (m' & Hm' & _ & Hpres & ->). rewrite Hm in Hm'. injection Hm' as <-.
  pose proof (supply_burn (From tx) _ m st Hm Hnd Hpres) as Hs1. rewrite Hsum in Hs1.
  pose proof (outputs_ok_burn (From tx) (in_TxID <$> inputs) m st Hm Hok) as Hok1.
  destruct Hch as [Eo|(c & Eo & Hc)]; rewrite Eo in *; cbn [for_each] in Happ.
  - injection Happ as <-. split; [|done]. rewrite Hs1. cbn. lia.
  - apply method_bind_Normal in Happ as ([] & st2 & [Hfresh ->]%AppendUTXO_Normal & [= <-]).
    split; [|by apply outputs_ok_append; [cbn; lia|]]. rewrite supply_append by done. rewrite Hs1. unfold zsum. cbn. lia.
Qed.

Lemma supply_tx i tx st st' :
  tx_ok tx -> outputs_ok st -> supply st < 2 ^ 64 -> applyTxStrict i tx st = (Normal tt, st') ->
  outputs_ok st' /\ (supply st' = supply st \/
    supply st' = if String.eqb (Type_ tx) "Reward" then supply st + minted tx else supply st - Amount tx).
Proof.
  intros Htx Hok Hb (txID & _ & [[_ ->]|(cmd & st1 & [_ Hc Hv Ha Hu (st2 & Hst & ->)])])%applyTxStrict_Normal; [by split; [|left]|].
  destruct (ApplyState_Normal cmd tx st1 st2 Hst) as [HR _]. injection HR as EU _ _ _ _.
  assert (supply (MarkAsApplied txID st2) = supply st1) as -> by (unfold supply; cbn; by rewrite EU).
  assert (outputs_ok st1 -> outputs_ok (MarkAsApplied txID st2)) as Hok2 by (unfold outputs_ok; cbn; by rewrite EU).
  pose proof (resolve_reward _ _ _ Hc) as Hrw. unfold minted.
  assert (forall st1', ApplyUTXOGeneric txID tx st = (Normal tt, st1') -> cmd <> Reward ->
    supply st1' = supply st - Amount tx /\ outputs_ok st1') as Hg.
  { intros st1' Hg Hne. destruct (Ha Hne) as [_ _ Hplan _]. by eapply ApplyUTXOGeneric_supply. }
  destruct (String.eqb_spec (Type_ tx) "Reward") as [Et|Et].
  - apply Hrw in Et as ->. unfold ApplyUTXO, NameNew_ApplyUTXO, Reward_ApplyUTXO in Hu. destruct Htx as [Ha0 Hout]. cbv zeta in Hu.
    set (o := match elems (Outputs tx) with [] => _ | o :: _ => o end) in Hu.
    assert (0 <= out_Amount o /\ out_Amount o = match elems (Outputs tx) with [] => Amount tx | o :: _ => out_Amount o end) as [Ho <-]
      by (unfold o; destruct Hout; done).
    apply AppendUTXO_Normal in Hu as [Hf ->]. split; [by apply Hok2, outputs_ok_append|right]. by rewrite supply_append.
  - assert (cmd <> Reward) as Hne by tauto.
    destruct cmd as [c ttl| | |]; unfold ApplyUTXO, NameNew_ApplyUTXO, Reward_ApplyUTXO in Hu; [|destruct (Hg st1 Hu Hne); split; [by apply Hok2|by right]..|done].
    apply method_bind_Normal in Hu as ([] & st0 & Hu & Hr). rewrite bind_asks in Hr. injection Hr as <-.
    destruct (Hg st0 Hu Hne) as [E ?]. split; [by apply Hok2|right]. exact E.
Qed.

Definition all_txs (blks : list Block) : list Tx := mjoin (Transactions <$> blks).

Lemma all_txs_snoc blks blk : all_txs (blks ++ [blk]) = all_txs blks ++ Transactions blk.
Proof. unfold all_txs. rewrite fmap_app, join_app. cbn. by rewrite app_nil_r. Qed.

Lemma low_mono h h' : low h' -> 0 <= h <= h' -> low h.
Proof. unfold low. lia. Qed.

Lemma head_snoc {A} (l : list A) x : head (length (l ++ [x])) = Z.of_nat (length l).
Proof. unfold head. rewrite length_app, Nat.add_comm. done. Qed.

Lemma head_le {A} (l : list A) : 0 <= head (length l) <= Z.of_nat (length l).
Proof. unfold head. lia. Qed.

(** The state a block starts from, in a chain. *)
Lemma chain_opened blks st blk :
  chain blks st -> Height blk = Z.of_nat (length blks) -> low (Height blk) -> sound (Height blk) (opened (Height blk) st).
Proof.
  intros Hc Hh Hlow. pose proof (head_le blks). apply sound_opened with (head (length blks)); [|lia].
  apply chain_sound; [done|]. eapply low_mono; [exact Hlow|lia].
Qed.

Lemma chain_provenance blks st : chain blks st -> low (head (length blks)) -> provenance (all_txs blks) st.
Proof.
  induction 1 as [|blks st blk st' Hc IH Hh Hb]; intros Hlow; [split; cbn; intros k x; by rewrite lookup_empty|].
  rewrite head_snoc, <- Hh in Hlow. pose proof (chain_opened _ _ _ Hc Hh Hlow) as Hs. pose proof (head_le blks).
  assert (low (head (length blks))) as Hlow' by (eapply low_mono; [exact Hlow|lia]). specialize (IH Hlow').
  destruct (block_inv (fun done w => sound (Height blk) w /\ provenance (all_txs blks ++ done) w) blk st st' Hb) as (w & [_ Hw] & ->).
  - split; [done|]. rewrite app_nil_r. destruct (chain_sound _ _ Hc Hlow') as (Hi & _).
    destruct (opened_spec (Height blk) st Hi) as (_ & _ & HD & HC & _). destruct IH as [PC PD]. split.
    + intros key c. rewrite HC. apply PC.
    + intros d rec [Hr _]%HD. by apply PD.
  - intros done i tx l s s' _ [Hs1 Hp] Ht. split; [by eapply sound_tx|]. rewrite app_assoc. by eapply provenance_tx.
  - rewrite all_txs_snoc. exact Hw.
Qed.

(** What the rewards of a list of transactions create. *)
Definition mints (l : list Tx) : Z := zsum (minted <$> l).

Lemma mints_app l l' : mints (l ++ l') = mints l + mints l'.
Proof. unfold mints. by rewrite fmap_app, zsum_app. Qed.

Lemma mints_cons tx l : mints (tx :: l) = minted tx + mints l.
Proof. done. Qed.

Lemma minted_nonneg tx : tx_ok tx -> 0 <= minted tx.
Proof. intros [Ha Ho]. unfold minted. destruct (String.eqb _ _); [|lia]. destruct Ho; done. Qed.

Lemma mints_nonneg l : Forall tx_ok l -> 0 <= mints l.
Proof.
  intros Hl. apply zsum_nonneg, Forall_fmap. eapply Forall_impl; [exact Hl|]. intros tx Htx. by apply minted_nonneg.
Qed.

Lemma opened_outputs h st : UTXOMap (opened h st) = UTXOMap st.
Proof.
  destruct (prune_buckets_without h (map_to_list (expires st)) (setHeight h st)) as [(_ & _ & HO) _]. by injection HO.
Qed.

Lemma chain_supply blks st :
  chain blks st -> Forall tx_ok (all_txs blks) -> mints (all_txs blks) < 2 ^ 64 ->
  outputs_ok st /\ supply st <= mints (all_txs blks).
Proof.
  induction 1 as [|blks st blk st' Hc IH Hh Hb]; intros Hok Hlt; [split; [intros a m k u; cbn; by rewrite lookup_empty|done]|].
  rewrite all_txs_snoc in *. rewrite mints_app in *. apply Forall_app in Hok as [Hok1 Hok2].
  pose proof (mints_nonneg _ Hok1). pose proof (mints_nonneg _ Hok2). destruct IH as [IH1 IH2]; [done|lia|].
  destruct (block_inv (fun done w => outputs_ok w /\ supply w <= mints (all_txs blks) + mints done) blk st st' Hb)
    as (w & Hw & ->); [| |exact Hw].
  - unfold outputs_ok, supply in *. rewrite opened_outputs. change (mints []) with 0. split; [done|lia].
  - intros done i tx l s s' Hl [Hok Hle] Ht. rewrite Hl in *. rewrite !mints_app, !mints_cons in *.
    change (mints []) with 0. apply Forall_app in Hok2 as [Hd [Htx Hr]%Forall_cons].
    pose proof (mints_nonneg _ Hr). pose proof (minted_nonneg _ Htx).
    destruct (supply_tx i tx s s') as [Hok' Hs']; [done..|lia|done|]. split; [done|]. destruct Htx as [Ha _].
    destruct Hs' as [->| ->]; [lia|]. destruct (String.eqb (Type_ tx) "Reward"); lia.
Qed.
End chain.

(** Pruning without the index: every record is looked at. *)
Definition prune_scan (height : Z) (m : gmap string NameRecord) : gmap string NameRecord :=
  filter (fun kv => isExpired kv.2 height = false) m.

(** ** Properties *)

Import SmallChain.

(** C28: in every state a chain of accepted blocks leads to, a registered name has not
    expired and expires within [MaxDomainTTLBlocks] blocks, and the expiry index
    lists each name under the height of its record. *)
Theorem names_expire `{CanonicalJson} `{Ed25519} blks st :
  chain blks st -> low (head (length blks)) ->
  expiry_index st /\ forall d rec, Domains st !! d = Some rec ->
    Domain rec = d /\ currentHeight st < ExpiresAt rec <= currentHeight st + MaxDomainTTLBlocks.
Proof.
  intros Hc Hlow. destruct (chain_sound _ _ Hc Hlow) as (Hi & [_ _ Hl] & _). split; [done|]. intros d rec Hr.
  split; [by apply (ei_key st Hi)|by apply (Hl d)].
Qed.

Lemma names_expire_witness :
  Domain record' = "example.bit" /\ currentHeight s3 < ExpiresAt record' <= currentHeight s3 + MaxDomainTTLBlocks.
Proof.
  apply (proj2 (names_expire [b0; b1; b2; b3] s3 chain3 ltac:(unfold low, MaxDomainTTLBlocks, head; cbn; lia)) "example.bit" record' registered_s3).
Defined.

(** C10: an accepted block keeps every name that has not expired at its height, with its
    owner and salt; its record changes only if the block contains an update of the
    name signed with the key of the owner. *)
Theorem ownership_stable `{CanonicalJson} `{Ed25519} blks st blk st' d rec :
  chain blks st -> Height blk = Z.of_nat (length blks) -> low (Height blk) ->
  chainApplyBlock blk st = (Normal tt, st') -> Domains st !! d = Some rec -> Height blk < ExpiresAt rec ->
  exists rec', Domains st' !! d = Some rec' /\ Owner rec' = Owner rec /\ Salt rec' = Salt rec /\
    (rec' = rec \/ exists tx, tx ∈ Transactions blk /\ signed_update tx d (Owner rec)).
Proof.
  intros Hc Hh Hlow Hb Hr Hlt. pose proof (chain_opened _ _ _ Hc Hh Hlow) as Hs. pose proof (head_le blks).
  destruct (block_inv (fun done w => sound (Height blk) w /\ kept d rec done w) blk st st' Hb) as (w & [_ Hw] & ->); [| |exact Hw].
  - split; [done|]. exists rec. split_and!; [|done..|by left].
    destruct (chain_sound _ _ Hc) as (Hi & _); [eapply low_mono; [exact Hlow|lia]|].
    apply (opened_spec (Height blk) st Hi). split; [done|]. unfold isExpired.
    destruct (Z.leb_spec (ExpiresAt rec) (Height blk)); [lia|]. by rewrite andb_false_r.
  - intros done i tx l s s' _ [Hs1 Hk] Ht. split; [by eapply sound_tx|by eapply kept_tx].
Qed.

Lemma ownership_stable_witness : exists rec', Domains s3 !! "example.bit" = Some rec' /\ Owner rec' = Owner record.
Proof.
  destruct (ownership_stable [b0; b1; b2] s2 b3 s3 "example.bit" record chain2 eq_refl) as (rec' & Hr & Ho & _).
  - unfold low, MaxDomainTTLBlocks. cbn. lia.
  - apply accepts. by vm_compute.
  - apply registered_s2.
  - cbn. lia.
  - exists rec'. split; [exact Hr|exact Ho].
Defined.

(** C11: every registered name was first committed to and then revealed: the chain
    contains a transaction that commits to the hash of the name and the salt of its
    record, and after it a revelation signed with the key of its owner. *)
Theorem names_earned `{CanonicalJson} `{Ed25519} blks st d rec :
  chain blks st -> low (head (length blks)) -> Domains st !! d = Some rec -> earned (all_txs blks) d rec.
Proof. intros Hc Hlow Hr. by apply (chain_provenance _ _ Hc Hlow). Qed.

Lemma names_earned_witness : earned (all_txs [b0; b1; b2]) "example.bit" record.
Proof.
  apply (names_earned [b0; b1; b2] s2 "example.bit" record chain2); [|apply registered_s2].
  unfold low, MaxDomainTTLBlocks, head. cbn. lia.
Defined.

(** C29: all coins come from rewards: the supply never exceeds what the reward
    transactions of the chain create, fees being destroyed. *)
Theorem supply_bounded `{CanonicalJson} `{Ed25519} blks st :
  chain blks st -> Forall tx_ok (all_txs blks) -> mints (all_txs blks) < 2 ^ 64 ->
  supply st <= mints (all_txs blks).
Proof. intros Hc Hok Hm. by apply (chain_supply _ _ Hc). Qed.

Lemma supply_bounded_witness : supply s3 <= 10.
Proof.
  assert (mints (all_txs [b0; b1; b2; b3]) = 10) as Hm by (by vm_compute). rewrite <- Hm.
  apply (supply_bounded [b0; b1; b2; b3] s3 chain3); [|rewrite Hm; lia].
  apply (bool_decide_unpack _). by vm_compute.
Defined.

(** A transaction of type [Reward] is not checked: whoever it is from, without a
    signature, a block that contains it is accepted and credits its output, of any
    amount. *)
Theorem reward_unchecked `{CanonicalJson} `{Ed25519} h from payload pk sig o txID st :
  let tx := MkTx from "Reward" None (Some [o]) 0 payload pk "" sig in
  BuildTransactionID tx = Normal txID -> txID ∉ txMap (opened h st) ->
  default ∅ (UTXOMap st !! out_To o) !! txID = None ->
  exists st', chainApplyBlock (MkBlock h [tx]) st = (Normal tt, st') /\ supply st' = supply st + minted tx.
Proof.
  intros tx Hid Hfresh Hnew. set (u := MkUTXO txID (out_To o) (out_Amount o) 0).
  assert (default ∅ (UTXOMap (opened h st) !! u_To u) !! u_TxID u = None) as Hnew' by (by rewrite opened_outputs).
  assert (AppendUTXO u (opened h st) = (Normal tt, appended u (opened h st))) as Happ by (by apply AppendUTXO_Normal).
  assert (applyTxStrict 0 tx (opened h st) = (Normal tt, MarkAsApplied txID (appended u (opened h st)))) as Htx.
  { unfold applyTxStrict. rewrite bind_try, Hid, bind_asks. unfold IsTxApplied. rewrite bool_decide_false by done.
    apply method_bind_Normal. exists tt, (opened h st). split; [done|].
    apply method_bind_Normal. exists tt, (appended u (opened h st)). split; [by apply wrap_Normal|done]. }
  exists (replaceWith (MarkAsApplied txID (appended u (opened h st))) st). split.
  - unfold chainApplyBlock, applyBlockStrict. rewrite !bind_assigns. cbn [Transactions for_range Height].
    fold (opened h st). unfold mbind, method_bind. by rewrite Htx.
  - change (supply (replaceWith _ st)) with (supply (appended u (opened h st))). rewrite supply_append by done.
    unfold supply. by rewrite opened_outputs.
Qed.

Lemma reward_unchecked_witness : exists st', chainApplyBlock (MkBlock 1 [forged]) s0 = (Normal tt, st') /\
  supply st' = supply s0 + 1000000.
Proof.
  apply (reward_unchecked 1 "mallory" None "" "" forged_output (id_of forged) s0).
  - by vm_compute.
  - apply not_applied. by vm_compute.
  - by vm_compute.
Defined.

(** in the states of a chain, pruning by the expiry index removes what a scan of all
    records would remove. *)
Theorem prune_by_index `{CanonicalJson} `{Ed25519} blks st height :
  chain blks st -> low (head (length blks)) -> Domains (pruneExpired height st) = prune_scan height (Domains st).
Proof.
  intros Hc Hlow. destruct (chain_sound _ _ Hc Hlow) as (Hi & _). destruct (pruneExpired_domains height st Hi) as (HD & _).
  apply map_eq. intros d. apply option_eq. intros rec. rewrite HD. unfold prune_scan. rewrite map_lookup_filter_Some. cbn.
  by rewrite not_true_iff_false.
Qed.

Lemma prune_by_index_witness : Domains (pruneExpired 36002 s2) = prune_scan 36002 (Domains s2).
Proof. apply (prune_by_index [b0; b1; b2] s2 36002 chain2). unfold low, MaxDomainTTLBlocks, head. cbn. lia. Defined.
