(* ===== verification/NodeProgress.v ===== *)
(** * What the checks of a transaction are enough for

    The states that occur while a node applies the block after a chain ([reached])
    satisfy invariants under which a transaction that passes [validateTxStrict] can
    always be applied, and under which two transactions of one sender that were
    planned on the same state exclude each other. *)

From stdpp Require Import sorting.
From S2P Require Import Prelude JsValue Json Sha256 Platform World Hash Go NodeState NodeUTXO NodeCommands NodeBlocks NodeSafety NodeDemo NodeChain.
Local Open Scope Z_scope.

(** ** Invariants *)

(** The outputs come from applied transactions. *)
Definition outputs_applied (st : NamecoinState) : Prop := forall addr m k,
  UTXOMap st !! addr = Some m -> is_Some (m !! k) -> k ∈ txMap st.

(** The names that are marked as claimed are registered. *)
Definition claims_ok (st : NamecoinState) : Prop := forall x, x ∈ ClaimedDomains st -> is_Some (Domains st !! x).

(** [outputs_applied], up to one transaction. *)
Definition outputs_from (ids : gset string) (st : NamecoinState) : Prop := forall addr m k,
  UTXOMap st !! addr = Some m -> is_Some (m !! k) -> k ∈ ids.

Lemma foldr_delete_Some (m : gmap string UTXO) ids k :
  (is_Some (foldr delete m ids !! k)) <-> (k ∉ ids /\ is_Some (m !! k)).
Proof.
  induction ids as [|k' ids IH]; cbn; [split; [|by intros []]; intros ?; split; [apply not_elem_of_nil|done]|].
  rewrite not_elem_of_cons. destruct (decide (k = k')) as [->|Hne].
  - rewrite lookup_delete_eq, is_Some_alt. tauto.
  - rewrite lookup_delete_ne, IH by done. tauto.
Qed.

Section ids.
Context (ids : gset string).

Lemma BurnUTXO_from from txs : maintains (outputs_from ids) (BurnUTXO from txs).
Proof.
  intros st a st' Hst (m & Hm & _ & _ & ->)%BurnUTXO_Normal. intros addr m' k. cbn. rewrite lookup_insert_Some.
  intros [[<- <-]|[_ ?]]; [|by eapply Hst]. intros [_ ?]%foldr_delete_Some. by eapply Hst.
Qed.

Lemma AppendUTXO_from u : u_TxID u ∈ ids -> maintains (outputs_from ids) (AppendUTXO u).
Proof.
  intros Hid st a st' Hst [_ ->]%AppendUTXO_Normal. intros addr m' k. cbn. rewrite lookup_insert_Some.
  intros [[<- <-]|[_ ?]]; [|by eapply Hst]. destruct (decide (u_TxID u = k)) as [<-|Hne]; [done|].
  rewrite lookup_insert_ne by done. destruct (UTXOMap st !! u_To u) as [m|] eqn:E; [by eapply Hst|].
  cbn. rewrite lookup_empty. by intros [].
Qed.

Lemma ApplyUTXO_from cmd txID tx : txID ∈ ids -> maintains (outputs_from ids) (ApplyUTXO cmd txID tx).
Proof.
  intros Hid. assert (maintains (outputs_from ids) (ApplyUTXOGeneric txID tx)) as Hg.
  { apply maintains_bind; [case_match; [apply maintains_ret|apply BurnUTXO_from]|intros _].
    apply maintains_for_each. intros o. by apply AppendUTXO_from. }
  destruct cmd; unfold ApplyUTXO, NameNew_ApplyUTXO, Reward_ApplyUTXO; [|done..|by apply AppendUTXO_from].
  apply maintains_bind; [done|intros _]. auto with go.
Qed.
End ids.

Lemma SetDomain_Claimed r st : ClaimedDomains (SetDomain r st) = {[ Domain r ]} ∪ ClaimedDomains st.
Proof. unfold SetDomain. by repeat case_match. Qed.

Lemma forget_expired_Claimed d st : ClaimedDomains (forget_expired d st) = ClaimedDomains st.
Proof. unfold forget_expired. by repeat case_match. Qed.

(** Commands only add names. *)
Lemma ApplyState_adds cmd tx st st' x :
  ApplyState cmd tx st = (Normal tt, st') -> is_Some (Domains st !! x) -> is_Some (Domains st' !! x).
Proof.
  intros [_ He]%ApplyState_Normal Hx. destruct cmd as [|d s ip ttl txid|d ip ttl|]; [by subst| | |by subst].
  - destruct He as (c & key & _ & _ & -> & _). rewrite lookup_insert_is_Some'. by right.
  - destruct He as (r & _ & -> & _). rewrite lookup_insert_is_Some'. by right.
Qed.

Lemma ApplyState_claims cmd tx : maintains claims_ok (ApplyState cmd tx).
Proof.
  intros st [] st' Hok Hst x Hx. pose proof (ApplyState_adds cmd tx st st' x Hst) as Hadd.
  enough (x ∈ ClaimedDomains st \/ is_Some (Domains st' !! x)) as [?|?] by auto. revert Hst Hx.
  destruct cmd as [|d s ip ttl txid|d ip ttl|]; unfold ApplyState, NameFirstUpdate_ApplyState, NameUpdate_ApplyState; [by intros [= <-]; left| | |by intros [= <-]; left].
  - rewrite bind_assigns, bind_try. destruct (resolveCommitment _ _ _ _ _) as [[c key]|]; [|done]. rewrite bind_asks.
    destruct (_ || _); [done|]. rewrite bind_asks, bind_assigns. intros [= <-]. cbn.
    rewrite SetDomain_Claimed, SetDomain_Domains, forget_expired_Claimed, elem_of_union, elem_of_singleton.
    intros [->|?]; [right; rewrite lookup_insert_eq; by eexists|by left].
  - rewrite bind_asks. destruct (NameLookup d st) as [rec|]; [|done]. rewrite bind_asks.
    destruct (isExpired rec (currentHeight st)); [done|]. cbv zeta. rewrite bind_asks. intros [= <-].
    rewrite SetDomain_Claimed, SetDomain_Domains, elem_of_union, elem_of_singleton.
    intros [->|?]; [right; rewrite lookup_insert_eq; by eexists|by left].
Qed.

Section progress.
Context `{CanonicalJson} `{Ed25519}.

Lemma applied_tx_keeps i tx st st' :
  applyTxStrict i tx st = (Normal tt, st') -> outputs_applied st /\ claims_ok st -> outputs_applied st' /\ claims_ok st'.
Proof.
  intros (txID & _ & [[_ ->]|(cmd & st1 & [_ Hc Hv Ha Hu (st2 & Hst & ->)])])%applyTxStrict_Normal; [done|].
  intros [Ho Hcl]. destruct (ApplyUTXO_commitments cmd txID tx st st1 Hu) as (Hn & Et & _).
  injection Hn as ED EC _ _ _. destruct (ApplyState_Normal cmd tx st1 st2 Hst) as [HR _]. injection HR as EU ET _ _ _.
  split.
  - intros addr m k. cbn. rewrite EU, ET, Et. intros Hm Hk.
    eapply (ApplyUTXO_from ({[ txID ]} ∪ txMap st) cmd txID tx); [set_solver| |exact Hu|exact Hm|exact Hk].
    intros a' m' k' Hm' Hk'. apply elem_of_union_r. by eapply Ho.
  - eapply (ApplyState_claims cmd tx st1 tt st2) in Hst; [exact Hst|]. intros x. rewrite EC, ED. apply Hcl.
Qed.

(** ** The states that occur in the block after a chain *)

Definition reached (blks : list Block) (done : list Tx) (st : NamecoinState) : Prop := exists st0,
  chain blks st0 /\ for_range applyTxStrict 0 done (opened (Z.of_nat (length blks)) st0) = (Normal tt, st).

Lemma chain_unclaimed blks st : chain blks st -> ClaimedDomains st = ∅.
Proof.
  induction 1 as [|blks st blk st' _ IH _ Hb]; [done|]. unfold chainApplyBlock in Hb.
  destruct (applyBlockStrict blk st) as [[[]|] w]; [|done]. by injection Hb as <-.
Qed.

Lemma reached_chain blks done st :
  reached blks done st -> exists st0, chain blks st0 /\
    chain (blks ++ [MkBlock (Z.of_nat (length blks)) done]) (replaceWith st st0).
Proof.
  intros (st0 & Hc & Hr). exists st0. split; [done|]. apply chain_extend with st0; [done..|].
  unfold chainApplyBlock, applyBlockStrict. rewrite !bind_assigns. cbn [Height Transactions]. fold (opened (Z.of_nat (length blks)) st0).
  by rewrite Hr.
Qed.

Lemma opened_applied h st : outputs_applied st -> outputs_applied (opened h st).
Proof.
  intros Ho addr m k.
  destruct (prune_buckets_without h (map_to_list (expires st)) (setHeight h st)) as [(_ & _ & HO) _].
  injection HO as _ EU ET _ _ _. change (UTXOMap (opened h st) = UTXOMap st) in EU.
  change (txMap (opened h st) = txMap st) in ET. rewrite EU, ET. apply Ho.
Qed.

Lemma opened_claims h st : ClaimedDomains st = ∅ -> claims_ok (opened h st).
Proof.
  intros Hc x Hx. destruct (prune_buckets_without h (map_to_list (expires st)) (setHeight h st)) as [(_ & HC & _) _].
  apply HC in Hx as [Hx _]. cbn in Hx. rewrite Hc in Hx. set_solver.
Qed.

Lemma chain_applied blks st : chain blks st -> outputs_applied st.
Proof.
  induction 1 as [|blks st blk st' Hc IH Hh Hb]; [intros a m k; cbn; by rewrite lookup_empty|].
  destruct (block_inv (fun _ w => outputs_applied w /\ claims_ok w) blk st st' Hb) as (w & [Hw _] & ->); [| |exact Hw].
  - split; [by apply opened_applied|]. by eapply opened_claims, chain_unclaimed.
  - intros done i tx l s s' _ Hs Ht. by eapply applied_tx_keeps.
Qed.

(** The invariants of these states. *)
Record healthy (h : Z) (st : NamecoinState) : Prop := {
  he_sound : sound h st;
  he_outputs : outputs_ok st;
  he_applied : outputs_applied st;
  he_claims : claims_ok st;
  he_supply : supply st < 2 ^ 64
}.

Lemma reached_healthy blks done st :
  reached blks done st -> low (Z.of_nat (length blks)) -> Forall tx_ok (all_txs blks ++ done) ->
  mints (all_txs blks ++ done) < 2 ^ 64 -> healthy (Z.of_nat (length blks)) st.
Proof.
  intros Hr Hlow Htx Hm. destruct (reached_chain _ _ _ Hr) as (st0 & _ & Hc'). destruct Hr as (st1 & Hc & Hr).
  pose proof (chain_sound _ _ Hc') as Hs. rewrite head_snoc in Hs. specialize (Hs Hlow).
  destruct (chain_supply _ _ Hc') as [Ho Hsu]; [by rewrite all_txs_snoc..|]. rewrite all_txs_snoc in Hsu. cbn in Hsu.
  destruct (for_range_inv (fun _ w => outputs_applied w /\ claims_ok w) applyTxStrict 0 done
    (opened (Z.of_nat (length blks)) st1) st) as [Hap Hcl].
  - split; [by eapply opened_applied, chain_applied|]. by eapply opened_claims, chain_unclaimed.
  - intros l i tx r s s' _ Hs' Ht. by eapply applied_tx_keeps.
  - done.
  - destruct Hs as ([I1 I2 I3] & [L1 L2 L3] & Hh). split; [by split_and!; [split|split|]|exact Ho|done|done|].
    change (supply st <= mints (all_txs blks ++ done)) in Hsu. lia.
Qed.

(** ** A transaction that passes the checks is applied *)

(** The state after a canonical plan was carried out. *)
Definition paid (txID : string) (tx : Tx) (m : gmap string UTXO) (st : NamecoinState) : NamecoinState :=
  let st1 := set_UTXOMap (<[From tx := foldr delete m (in_TxID <$> elems (Inputs tx))]>) st in
  match elems (Outputs tx) with
  | [] => st1
  | o :: _ => appended (MkUTXO txID (out_To o) (out_Amount o) 0) st1
  end.

Lemma ApplyUTXOGeneric_runs h txID tx st :
  healthy h st -> 0 <= Amount tx -> txID ∉ txMap st -> canonical_plan tx st = Normal tt ->
  (Amount tx = 0 /\ ApplyUTXOGeneric txID tx st = (Normal tt, st)) \/
  (0 < Amount tx /\ exists m, UTXOMap st !! From tx = Some m /\ ApplyUTXOGeneric txID tx st = (Normal tt, paid txID tx m st)).
Proof.
  intros [_ Hok Hap _ Hsu] Ha Hid Hplan. unfold ApplyUTXOGeneric, paid.
  destruct (canonical_plan_spec tx st Ha Hok Hsu Hplan) as [(E0 & -> & ->)|(Hpos & m & Hm & [(Hne & Hnd & _) Hown _ Hch _])];
    [by left|right]. split; [done|]. exists m. split; [done|].
  assert (forall k, m !! k = None \/ k ∈ txMap st) as Hk.
  { intros k. destruct (m !! k) eqn:E; [right|by left]. eapply Hap; [exact Hm|by rewrite E]. }
  set (inputs := elems (Inputs tx)) in *.
  destruct (in_TxID <$> inputs) as [|k0 ids] eqn:Eids; [by destruct inputs|]. rewrite <- Eids in *.
  set (st1 := set_UTXOMap (<[From tx := foldr delete m (in_TxID <$> inputs)]>) st).
  apply method_bind_Normal. exists tt, st1. split.
  - rewrite Eids. rewrite <- Eids. apply BurnUTXO_Normal. exists m. split_and!; [done..| |done]. by apply Forall_fmap.
  - destruct Hch as [->|(c & -> & Hc)]; cbn [for_each]; [done|]. apply method_bind_Normal.
    eexists tt, _. split; [|done]. apply AppendUTXO_Normal. split; [|done]. cbn. rewrite lookup_insert_eq. cbn.
    apply eq_None_not_Some. intros [_ Hs]%foldr_delete_Some. destruct (Hk txID) as [E|?]; [|done].
    rewrite E in Hs. by destruct Hs.
Qed.

Lemma live_same x st st' : names st' = names st -> live x st' = live x st.
Proof. unfold names. intros [= E1 E2 E3 E4 E5]. unfold live, NameLookup. by rewrite E1, E4. Qed.

Lemma resolveCommitment_same d s txid tx st st' :
  Commitments st' = Commitments st -> resolveCommitment d s txid tx st' = resolveCommitment d s txid tx st.
Proof. intros E. unfold resolveCommitment, GetCommitment. by rewrite E. Qed.

Lemma ApplyState_runs cmd tx st :
  claims_ok st -> (forall d, is_Some (Domains st !! d) -> is_Some (live d st)) ->
  Validate cmd tx st = Normal tt -> ValidateWithInputs cmd tx st = Normal tt ->
  exists st', ApplyState cmd tx st = (Normal tt, st').
Proof.
  intros Hcl Hlive Hv Hi. destruct cmd as [c ttl|d s ip ttl txid|d ip ttl|]; unfold ApplyState, NameFirstUpdate_ApplyState, NameUpdate_ApplyState; [by eexists| | |by eexists].
  - unfold ValidateWithInputs, NameFirstUpdate_ValidateWithInputs in Hi. apply outcome_bind_Normal in Hi as ([rec key] & Hres & Hi).
    destruct (_ && _); [done|]. destruct (live d st) as [|] eqn:El; [done|].
    destruct (forget_expired_spec d st) as (HD & HR & HC). rewrite El in HD.
    rewrite bind_assigns, bind_try, (resolveCommitment_same _ _ _ _ _ _ HC), Hres, bind_asks.
    assert (IsDomainExists d (forget_expired d st) = false) as ->.
    { unfold IsDomainExists. apply bool_decide_false. rewrite HD, lookup_delete_eq. by intros []. }
    assert (IsDomainClaimed d (forget_expired d st) = false) as ->.
    { unfold IsDomainClaimed. apply bool_decide_false. rewrite forget_expired_Claimed. intros Hx%Hcl%Hlive.
      rewrite El in Hx. by destruct Hx. }
    cbn [orb]. rewrite bind_asks, bind_assigns. by eexists.
  - unfold Validate, NameUpdate_Validate, live in Hv. rewrite bind_asks. destruct (NameLookup d st) as [rec|]; [|done]. cbn in Hv.
    rewrite bind_asks. destruct (isExpired rec (currentHeight st)); [done|]. cbv zeta. rewrite bind_asks. by eexists.
Qed.

Lemma Validate_same cmd tx st st' : names st' = names st -> Validate cmd tx st' = Validate cmd tx st.
Proof. intros Hn. destruct cmd; unfold Validate, NameNew_Validate, NameFirstUpdate_Validate, NameUpdate_Validate; rewrite ?(live_same _ _ _ Hn); done. Qed.

Lemma ValidateWithInputs_same cmd tx st st' :
  names st' = names st -> Commitments st' = Commitments st -> ValidateWithInputs cmd tx st' = ValidateWithInputs cmd tx st.
Proof.
  intros Hn HC. destruct cmd; unfold ValidateWithInputs, NameNew_ValidateWithInputs, NameFirstUpdate_ValidateWithInputs; [done| |done..]. rewrite (resolveCommitment_same _ _ _ _ _ _ HC).
  pose proof Hn as Hn'. injection Hn' as _ _ _ Eh _. by rewrite Eh, (live_same _ _ _ Hn).
Qed.

Lemma fresh_output h st addr txID : healthy h st -> txID ∉ txMap st -> default ∅ (UTXOMap st !! addr) !! txID = None.
Proof.
  intros [_ _ Hap _ _] Hid. destruct (UTXOMap st !! addr) as [m|] eqn:E; cbn; [|apply lookup_empty].
  apply eq_None_not_Some. intros Hs. by apply Hid, (Hap addr m).
Qed.

Lemma ApplyUTXO_runs h cmd txID tx st :
  healthy h st -> 0 <= Amount tx -> txID ∉ txMap st -> (cmd <> Reward -> canonical_plan tx st = Normal tt) ->
  exists st', ApplyUTXO cmd txID tx st = (Normal tt, st').
Proof.
  intros Hh Ha Hid Hplan.
  assert (cmd <> Reward -> exists st', ApplyUTXOGeneric txID tx st = (Normal tt, st')) as Hg.
  { intros Hne. destruct (ApplyUTXOGeneric_runs h txID tx st Hh Ha Hid (Hplan Hne)) as [[_ ?]|(_ & m & _ & ?)]; by eexists. }
  destruct cmd; unfold ApplyUTXO, NameNew_ApplyUTXO, Reward_ApplyUTXO; [|by apply Hg..|].
  - destruct Hg as [st' Hg]; [done|]. eexists. apply method_bind_Normal. by exists tt, st'.
  - eexists. apply AppendUTXO_Normal. split; [by eapply fresh_output|done].
Qed.

Lemma validated_runs h i tx txID st :
  healthy h st -> 0 <= Amount tx -> BuildTransactionID tx = Normal txID -> validateTxStrict txID tx st = Normal tt ->
  exists st', applyTxStrict i tx st = (Normal tt, st').
Proof.
  intros Hh Ha Hid Hval. unfold applyTxStrict. rewrite bind_try, Hid, bind_asks. unfold IsTxApplied.
  case_bool_decide as Happ; [by eexists|]. destruct (validateTxStrict_Normal _ _ _ Hval) as (cmd & Hc & Hv & Hau).
  destruct (ApplyUTXO_runs h cmd txID tx st Hh Ha Happ) as [st1 Hu]; [intros Hne; by destruct (Hau Hne)|].
  destruct (ApplyUTXO_commitments cmd txID tx st st1 Hu) as (Hn & _ & HC).
  assert (exists st2, ApplyState cmd tx st1 = (Normal tt, st2)) as [st2 Hst].
  { destruct Hh as [Hs _ _ Hcl _]. pose proof Hn as Hn'. injection Hn' as ED EC _ _ _.
    destruct cmd as [c ttl| | |]; [by eexists| | |by eexists]; (destruct Hau as [_ _ _ Hi]; [done|]; apply ApplyState_runs;
      [intros x; rewrite EC, ED; apply Hcl| |by rewrite (Validate_same _ _ _ _ Hn)|by rewrite (ValidateWithInputs_same _ _ _ _ Hn HC)]);
      intros x; rewrite ED, (live_same _ _ _ Hn); intros [r Hr]; rewrite (sound_live h x r st Hs Hr); by eexists. }
  eexists. apply method_bind_Normal. exists tt, st. split; [by apply wrap_Normal; unfold try; rewrite Hval|].
  apply method_bind_Normal. exists tt, st1.
  split; [apply wrap_Normal; unfold ApplyCommandUTXO; by rewrite bind_try, Hc|].
  apply method_bind_Normal. exists tt, st2.
  split; [apply wrap_Normal; unfold ApplyCommandState; by rewrite bind_try, Hc|done].
Qed.

(** ** Transactions of one sender *)

(** A plan starts with the oldest output of the sender. *)
Lemma plan_head tx st :
  canonical_plan tx st = Normal tt -> 0 < Amount tx ->
  exists m e l i, UTXOMap st !! From tx = Some m /\ merge_sort entry_le (snapshot m) = e :: l /\
    is_Some (m !! e_txid e) /\ elems (Inputs tx) = input_of e :: i.
Proof.
  unfold canonical_plan. intros ([ins outs] & Hp & He)%outcome_bind_Normal Ha. cbn in He.
  destruct (equalTxInputs _ _) eqn:Ei; [|done]. apply bool_decide_eq_true in Ei. rewrite Ei. clear He Ei.
  unfold DeterministicSpendPlan in Hp. destruct (Z.eqb_spec (Amount tx) 0); [lia|].
  destruct (UTXOMap st !! From tx) as [m|]; [|done]. unfold plan_of in Hp.
  destruct (merge_sort entry_le (snapshot m)) as [|e l] eqn:El; cbn [select] in Hp.
  { destruct (Z.ltb_spec 0 (Amount tx)); [done|lia]. }
  exists m, e, l. assert (exists i, elems ins = input_of e :: i) as [i Hi].
  { cbv zeta in Hp. destruct (Amount tx <=? u64 (0 + e_amount e)); [|destruct (select _ _ l) as [i t]];
      (destruct (_ <? Amount tx); [done|]); injection Hp as <- _; by eexists. }
  exists i. split_and!; [done..| |done].
  assert (e ∈ snapshot m) as He by (rewrite <- (merge_sort_Permutation entry_le (snapshot m)), El; by left).
  apply list_elem_of_fmap in He as ([k u] & -> & Hu%elem_of_map_to_list). cbn. by exists u.
Qed.

Lemma conflict_runs h i tx1 tx2 txID2 st st1 :
  healthy h st -> From tx2 = From tx1 -> 0 < Amount tx1 -> 0 < Amount tx2 ->
  Type_ tx1 <> "Reward" -> Type_ tx2 <> "Reward" ->
  canonical_plan tx1 st = Normal tt -> canonical_plan tx2 st = Normal tt ->
  (forall txID, BuildTransactionID tx1 = Normal txID -> txID ∉ txMap st) ->
  applyTxStrict i tx1 st = (Normal tt, st1) -> validateTxStrict txID2 tx2 st1 <> Normal tt.
Proof.
  intros Hh Hf Ha1 Ha2 Ht1 Ht2 Hp1 Hp2 Hnew Hr (cmd2 & Hc2 & _ & Hau)%validateTxStrict_Normal.
  apply applyTxStrict_Normal in Hr as (txID & Hb & [[Hin _]|(cmd & sta & [Hid Hc Hv _ Hu (stb & Hs & ->)])]);
    [by apply Hnew in Hb|].
  assert (cmd2 <> Reward) as Hne2 by (by intros ?%(resolve_reward _ _ _ Hc2)).
  assert (cmd <> Reward) as Hne by (by intros ?%(resolve_reward _ _ _ Hc)). destruct (Hau Hne2) as [_ _ Hp2' _].
  destruct (ApplyState_Normal _ _ _ _ Hs) as [HR _]. injection HR as EU _ _ _ _.
  destruct (ApplyUTXOGeneric_runs h txID tx1 st Hh ltac:(lia) Hid Hp1) as [[? _]|(_ & m & Hm & Hg)]; [lia|].
  assert (UTXOMap sta = UTXOMap (paid txID tx1 m st)) as EU'.
  { destruct cmd; unfold ApplyUTXO, NameNew_ApplyUTXO, Reward_ApplyUTXO in Hu; [|congruence..|done].
    apply method_bind_Normal in Hu as ([] & s & Hg' & Hu). rewrite Hg in Hg'. injection Hg' as <-. rewrite bind_asks in Hu.
    by injection Hu as <-. }
  destruct (plan_head _ _ Hp1 Ha1) as (m1 & e & l & i1 & Hm1 & El & Hke & Hi1).
  destruct (plan_head _ _ Hp2 Ha2) as (m2 & e2 & l2 & i2 & Hm2 & El2 & _ & Hi2). rewrite Hf in Hm2. simplify_eq.
  rewrite El in El2. injection El2 as <- <-.
  destruct (plan_head _ _ Hp2' Ha2) as (m3 & e3 & l3 & i3 & Hm3 & _ & Hk3 & Hi3). rewrite Hi2 in Hi3.
  injection Hi3 as He3 _. rewrite <- He3 in Hk3. cbn in Hm3. rewrite EU, EU', Hf in Hm3.
  assert (e_txid e <> txID) as Hold.
  { intros E. destruct Hh as [_ _ Hap _ _]. apply Hid. rewrite <- E. by eapply Hap. }
  destruct Hh as [_ Hok _ _ Hsu].
  destruct (canonical_plan_spec tx1 st ltac:(lia) Hok Hsu Hp1) as [[? _]|(_ & m0 & _ & [_ _ _ Hch _])]; [lia|].
  unfold paid in Hm3. rewrite Hi1 in Hm3. cbn [fmap list_fmap in_TxID input_of] in Hm3.
  assert (~ is_Some (foldr delete m (e_txid e :: (in_TxID <$> i1)) !! e_txid e)) as Hgone
    by (intros [Hx _]%foldr_delete_Some; apply Hx; by left).
  destruct Hch as [Eo|(c & Eo & _)]; rewrite Eo in Hm3; cbn in Hm3; rewrite lookup_insert_eq in Hm3; injection Hm3 as <-; [done|].
  rewrite lookup_insert_ne, lookup_insert_eq in Hk3 by done. done.
Qed.
End progress.

(** ** Blocks without the checks *)

(** A block that was accepted has the same effect when it is applied without the checks. *)
Section replay.
Context `{CanonicalJson} `{Ed25519}.

Lemma replay_tx i tx st st' :
  applyTxStrict i tx st = (Normal tt, st') ->
  (txID ← try (fun _ => BuildTransactionID tx); ApplyTx txID tx) st = (Normal tt, st').
Proof.
  unfold applyTxStrict. rewrite !bind_try. destruct (BuildTransactionID tx) as [txID|]; [|done].
  unfold ApplyTx. rewrite !bind_asks. destruct (IsTxApplied txID st); [done|]. cbv zeta.
  intros ([] & s0 & [= _ <-]%wrap_Normal & ([] & s1 & Hx1%wrap_Normal & ([] & s2 & Hx2%wrap_Normal & Hx3)%method_bind_Normal)%method_bind_Normal)%method_bind_Normal.
  apply method_bind_Normal. exists tt, s1. split; [done|]. apply method_bind_Normal. by exists tt, s2.
Qed.

Lemma replay_txs i l st st' :
  for_range applyTxStrict i l st = (Normal tt, st') ->
  for_each (fun tx => txID ← try (fun _ => BuildTransactionID tx); ApplyTx txID tx) l st = (Normal tt, st').
Proof.
  revert i st. induction l as [|tx l IH]; intros i st; cbn [for_range for_each]; [done|].
  intros ([] & s1 & Hx1%replay_tx & Hx2)%method_bind_Normal. apply method_bind_Normal. exists tt, s1. split; [done|].
  by eapply IH.
Qed.

Lemma replay_block blk st st' : chainApplyBlock blk st = (Normal tt, st') -> ApplyBlock blk st = (Normal tt, st').
Proof.
  unfold chainApplyBlock, ApplyBlock, applyBlockStrict, applyBlockInPlace. rewrite !bind_assigns.
  destruct (for_range _ _ _ _) as [[[]|] w] eqn:E; [|done]. by rewrite (replay_txs _ _ _ _ E).
Qed.
End replay.

(** ** Properties *)

Import SmallChain.

(** Block 1 of the small chain, before its transactions. *)
Lemma reached_demo : reached [b0] [] open1.
Proof. exists s0. split; [apply chain0|done]. Qed.

Lemma demo_ok : Forall tx_ok (all_txs [b0] ++ []) /\ mints (all_txs [b0] ++ []) < 2 ^ 64.
Proof. split; [|by vm_compute]. repeat constructor; cbn; lia. Qed.

Lemma ran i tx st : (applyTxStrict i tx st).1 = Normal tt -> applyTxStrict i tx st = (Normal tt, (applyTxStrict i tx st).2).
Proof. destruct (applyTxStrict i tx st) as [o st']. cbn. by intros ->. Qed.

Lemma demo_low1 : low (Z.of_nat (length [b0])).
Proof. unfold low, MaxDomainTTLBlocks. cbn. lia. Qed.

(** C25: in every state that occurs while a block is applied, a transaction that passes
    the checks can be applied: neither step of its application fails. *)
Theorem validated_applies `{CanonicalJson} `{Ed25519} blks done st i tx txID :
  reached blks done st -> low (Z.of_nat (length blks)) -> Forall tx_ok (all_txs blks ++ done) ->
  mints (all_txs blks ++ done) < 2 ^ 64 -> 0 <= Amount tx ->
  BuildTransactionID tx = Normal txID -> validateTxStrict txID tx st = Normal tt ->
  exists st', applyTxStrict i tx st = (Normal tt, st').
Proof. intros Hr Hlow Htx Hm Ha Hid Hv. eapply validated_runs; [by eapply reached_healthy|done..]. Qed.

Lemma validated_applies_witness : exists st', applyTxStrict 0 new_tx open1 = (Normal tt, st').
Proof.
  apply (validated_applies [b0] [] open1 0 new_tx (id_of new_tx) reached_demo demo_low1 (proj1 demo_ok) (proj2 demo_ok)).
  - by vm_compute.
  - by vm_compute.
  - by vm_compute.
Defined.

(** C32: two transactions of one sender that spend by the canonical plans of the same
    state exclude each other: when one of them has been applied, the other one no
    longer passes the checks, so that a block with both is rejected. *)
Theorem same_sender_conflict `{CanonicalJson} `{Ed25519} blks done st i tx1 tx2 txID1 txID2 st1 :
  reached blks done st -> low (Z.of_nat (length blks)) -> Forall tx_ok (all_txs blks ++ done) ->
  mints (all_txs blks ++ done) < 2 ^ 64 ->
  From tx2 = From tx1 -> 0 < Amount tx1 -> 0 < Amount tx2 -> Type_ tx1 <> "Reward" -> Type_ tx2 <> "Reward" ->
  canonical_plan tx1 st = Normal tt -> canonical_plan tx2 st = Normal tt ->
  BuildTransactionID tx1 = Normal txID1 -> txID1 ∉ txMap st -> applyTxStrict i tx1 st = (Normal tt, st1) ->
  exists e, validateTxStrict txID2 tx2 st1 = Throw e.
Proof.
  intros Hr Hlow Htx Hm Hf Ha1 Ha2 Ht1 Ht2 Hp1 Hp2 Hid Hnew Hap.
  pose proof (conflict_runs _ i tx1 tx2 txID2 st st1 (reached_healthy _ _ _ Hr Hlow Htx Hm) Hf Ha1 Ha2 Ht1 Ht2 Hp1 Hp2) as Hv.
  destruct (validateTxStrict txID2 tx2 st1) as [[]|e]; [|by exists e]. exfalso.
  apply Hv; [|done|done]. intros id Hid'. rewrite Hid in Hid'. by injection Hid' as <-.
Qed.

Lemma same_sender_conflict_witness :
  exists e, validateTxStrict (id_of other_tx) other_tx (applyTxStrict 0 new_tx open1).2 = Throw e.
Proof.
  apply (same_sender_conflict [b0] [] open1 0 new_tx other_tx (id_of new_tx) (id_of other_tx) (applyTxStrict 0 new_tx open1).2
    reached_demo demo_low1 (proj1 demo_ok) (proj2 demo_ok));
    [by vm_compute..|apply not_applied; by vm_compute|apply (ran 0 new_tx open1); by vm_compute].
Defined.
