(* ===== verification/NodeMempool.v ===== *)
(** * Transactions on their way into a block: [peer/impl/tx_buffer.go] and the handler
    of [peer/impl/message_handlers.go]

    The buffer of transactions to mine, and the message handler that fills it: what
    enters the buffer passes the checks a block is validated with, draining the
    buffer and queueing the transactions again restores it. *)

From S2P Require Import Prelude JsValue Json Sha256 Platform World Hash Go NodeState NodeUTXO NodeCommands NodeBlocks NodeSafety NodeDemo NodeChain NodeProgress.
Local Open Scope Z_scope.

(** ** The buffer of transactions to mine *)

Record TxBuffer := MkTxBuffer { order : list string; txs : gmap string Tx }.
Definition NewTxBuffer : TxBuffer := MkTxBuffer [] ∅.

Definition Add (tx : Tx) (txID : string) (b : TxBuffer) : TxBuffer :=
  match txs b !! txID with
  | Some _ => b
  | None => MkTxBuffer (order b ++ [txID]) (<[txID := tx]> (txs b))
  end.

(** [append(b.order[:i], b.order[i+1:]...)] at the first [i] with [order[i] == txID]. *)
Definition compact (txID : string) (l : list string) : list string :=
  match index_of txID l with Some i => take i l ++ drop (S i) l | None => l end.

Definition Remove (txID : string) (b : TxBuffer) : TxBuffer :=
  match txs b !! txID with
  | None => b
  | Some _ => MkTxBuffer (compact txID (order b)) (delete txID (txs b))
  end.

(** The transactions, their order, the map; and the buffer, emptied. *)
Definition Drain (b : TxBuffer) : (list Tx * list string * gmap string Tx) * TxBuffer :=
  ((omap (fun id => txs b !! id) (order b), order b,
    fold_left (fun m id => match txs b !! id with Some tx => <[id := tx]> m | None => m end) (order b) ∅),
   MkTxBuffer [] ∅).

(** The body of the loop of [Requeue]. *)
Definition requeue1 (m : gmap string Tx) (b : TxBuffer) (id : string) : TxBuffer :=
  match m !! id with
  | None => b
  | Some tx => MkTxBuffer (match txs b !! id with Some _ => order b | None => order b ++ [id] end)
                          (<[id := tx]> (txs b))
  end.

Definition Requeue (ord : list string) (m : gmap string Tx) (b : TxBuffer) : TxBuffer := fold_left (requeue1 m) ord b.

Section handle.
Context `{CanonicalJson} `{Ed25519}.

(** [handleNamecoinTransactionMessage]: a message of a peer enters the buffer. *)
Definition handleNamecoinTransactionMessage (msg : Tx) (st : NamecoinState) (b : TxBuffer)
    : outcome unit * TxBuffer :=
  match derive_tx msg st with
  | Throw e => (Throw e, b)
  | Normal (tx, txID) =>
      if negb (String.eqb txID (TxID msg)) then (err (mismatch "txId" txID (TxID msg)), b) else (Normal tt, Add tx txID b)
  end.
End handle.

(** ** The buffer *)

(** The order lists the transactions, each once. *)
Definition buffer_ok (b : TxBuffer) : Prop := NoDup (order b) /\ forall id, id ∈ order b <-> is_Some (txs b !! id).

Lemma Add_ok tx id b : buffer_ok b -> buffer_ok (Add tx id b).
Proof.
  intros [Hn Hi]. unfold Add. destruct (txs b !! id) as [tx0|] eqn:E; [done|]. split; cbn.
  - apply NoDup_app. split_and!; [done| |apply NoDup_singleton]. intros x Hx ->%list_elem_of_singleton.
    apply Hi in Hx. rewrite E in Hx. by destruct Hx.
  - intros x. rewrite elem_of_app, list_elem_of_singleton, Hi, lookup_insert_is_Some'. naive_solver.
Qed.

Lemma compact_spec id l : NoDup l -> NoDup (compact id l) /\ forall x, x ∈ compact id l <-> x <> id /\ x ∈ l.
Proof.
  intros Hn. unfold compact. destruct (index_of id l) as [i|] eqn:E.
  - apply index_of_Some in E as (l1 & l2 & -> & <-). rewrite take_app_length, drop_app.
    rewrite drop_ge by lia. replace (S (length l1) - length l1)%nat with 1%nat by lia. cbn [drop app].
    rewrite drop_0. apply NoDup_app in Hn as (H1 & H12 & [H2 H3]%NoDup_cons). split.
    + apply NoDup_app. split_and!; [done| |done]. set_solver.
    + intros x. rewrite !elem_of_app, elem_of_cons. set_solver.
  - apply index_of_None in E. split; [done|]. set_solver.
Qed.

Lemma Remove_ok id b : buffer_ok b -> buffer_ok (Remove id b).
Proof.
  intros [Hn Hi]. unfold Remove. destruct (txs b !! id) as [tx0|] eqn:E; [|done].
  destruct (compact_spec id (order b) Hn) as [Hc Hx]. split; [done|]. intros x. cbn. rewrite Hx, Hi.
  rewrite lookup_delete_is_Some. naive_solver.
Qed.

Lemma Requeue_ok ord m b : buffer_ok b -> buffer_ok (Requeue ord m b).
Proof.
  unfold Requeue. revert b.
  induction ord as [|id ord IH]; intros b Hb; [done|]. cbn [fold_left]. apply IH. unfold requeue1.
  destruct (m !! id) as [tx|]; [|done]. destruct (txs b !! id) as [tx0|] eqn:E.
  - destruct Hb as [Hn Hi]. split; [done|]. intros x. cbn. rewrite Hi, lookup_insert_is_Some'.
    split; [by right|]. intros [<-|?]; [by exists tx0|done].
  - pose proof (Add_ok tx id b Hb) as Ha. unfold Add in Ha. by rewrite E in Ha.
Qed.

(** The map of a drained buffer. *)
Lemma drained_map b : buffer_ok b -> (Drain b).1.2 = txs b.
Proof.
  intros [Hn Hi]. cbn [Drain fst snd]. apply map_eq. intros id.
  assert (forall l (m : gmap string Tx), fold_left (fun m id => match txs b !! id with Some tx => <[id := tx]> m | None => m end) l m !! id
    = if decide (id ∈ l) then (match txs b !! id with Some tx => Some tx | None => m !! id end) else m !! id) as Hf.
  { induction l as [|x l IH]; intros m; cbn [fold_left]; [done|]. rewrite IH.
    destruct (decide (x = id)) as [->|Hne].
    - rewrite (decide_True (P := id ∈ id :: l)) by (by left).
      destruct (txs b !! id) as [tx|] eqn:E; [rewrite lookup_insert_eq|]; by case_decide.
    - assert ((match txs b !! x with Some tx => <[x := tx]> m | None => m end) !! id = m !! id) as ->
        by (destruct (txs b !! x); [by rewrite lookup_insert_ne|done]).
      repeat case_decide; try done; set_solver. }
  rewrite Hf, lookup_empty. case_decide as Hin; [by destruct (txs b !! id)|].
  symmetry. apply eq_None_not_Some. by intros ?%Hi.
Qed.

Lemma requeue_all m l b :
  NoDup l -> (forall id, id ∈ l -> is_Some (m !! id) /\ txs b !! id = None) ->
  order (Requeue l m b) = order b ++ l /\
  forall id, txs (Requeue l m b) !! id = if decide (id ∈ l) then m !! id else txs b !! id.
Proof.
  unfold Requeue. intros Hn. revert b.
  induction Hn as [|x l Hx Hn IH]; intros b Hl; cbn [fold_left]; [by rewrite app_nil_r|].
  destruct (Hl x) as [[tx Htx] Hb]; [by left|].
  assert (requeue1 m b x = MkTxBuffer (order b ++ [x]) (<[x := tx]> (txs b))) as -> by (unfold requeue1; by rewrite Htx, Hb).
  destruct (IH (MkTxBuffer (order b ++ [x]) (<[x := tx]> (txs b)))) as [Ho Ht].
  - intros id Hid. cbn. destruct (Hl id) as [? ?]; [by right|]. split; [done|].
    rewrite lookup_insert_ne; [done|]. by intros ->.
  - split; [rewrite Ho; cbn; by rewrite <- app_assoc|]. intros id. rewrite Ht. cbn. destruct (decide (id = x)) as [->|Hne].
    + rewrite decide_False, decide_True, lookup_insert_eq by (done || by left). by rewrite Htx.
    + rewrite lookup_insert_ne by done. repeat case_decide; try done; set_solver.
Qed.

(** ** The handler *)

Lemma bytesToHex_inj l l' : bytes_ok l -> bytes_ok l' -> bytesToHex l = bytesToHex l' -> l = l'.
Proof.
  intros Hl Hl' E. pose proof (hex_pairs_bytesToHex l Hl) as H1. rewrite E, (hex_pairs_bytesToHex l' Hl') in H1. congruence.
Qed.

Lemma HashHex_inj b b' : HashHex b = HashHex b' -> sha256_digest b = sha256_digest b'.
Proof. intros E. apply bytesToHex_inj in E; [done|apply sha256_bytes..]. Qed.

Lemma HashHex_nonempty b : HashHex b <> "".
Proof.
  intros E. assert (String.length (HashHex b) = 64%nat) as Hl by (unfold HashHex; by rewrite bytesToHex_length, sha256_length by apply sha256_bytes).
  by rewrite E in Hl.
Qed.

(** The shape of every plan. *)
Lemma plan_shape from amount st ins outs :
  DeterministicSpendPlan from amount st = Normal (ins, outs) ->
  (length (elems outs) <= 1)%nat /\ first_outputs (elems ins) = Normal tt.
Proof.
  unfold DeterministicSpendPlan. destruct (amount =? 0); [intros [= <- <-]; by split; [cbn; lia|]|].
  destruct (UTXOMap st !! from) as [m|]; [|done]. generalize (sorting.merge_sort entry_le (snapshot m)). intros l. unfold plan_of.
  assert (forall l t, first_outputs (select amount t l).1 = Normal tt) as Hs.
  { clear. induction l as [|e l IH]; intros t; cbn [select]; [done|]. cbv zeta. destruct (_ <=? _); [done|].
    specialize (IH (u64 (t + e_amount e))). by destruct (select _ _ l). }
  specialize (Hs l 0). destruct (select amount 0 l) as [i t]. destruct (t <? amount); [done|]. intros [= <- <-]. cbn in Hs |- *.
  split; [destruct (0 <? t - amount); cbn; lia|]. by destruct i.
Qed.

Section handler.
Context `{CanonicalJson} `{Ed25519}.

(** What [ValidateTransaction] establishes. *)
Record client_checks (t : Tx) (st : NamecoinState) : Prop := {
  cc_owner : exists pk b, decodeHex (Pk t) = Normal pk /\ From t = HashHex pk /\ length pk = 32%nat /\
    SerializeTransaction t = Normal b /\ TxID t = HashHex b /\ VerifySignature pk b (Signature t) = Normal tt;
  cc_signature : Signature t <> "";
  cc_plan : canonical_plan t st = Normal tt;
  cc_command : ValidateCommand t st = Normal tt
}.

Lemma VerifySignature_Normal pk b sig :
  VerifySignature pk b sig = Normal tt -> length pk = 32%nat /\ sig <> "".
Proof.
  unfold VerifySignature, ed25519_Verify. destruct (decodeHex sig) as [s|] eqn:Es; [|done].
  case_decide as Hl; [|done]. intros Hv. split; [done|]. intros ->. injection Es as <-. done.
Qed.

Lemma ValidateTransaction_Normal t st : ValidateTransaction t st = Normal tt -> client_checks t st.
Proof.
  unfold ValidateTransaction, VerifyOwnership. destruct (decodeHex (Pk t)) as [pk|] eqn:Epk; [|done].
  destruct (String.eqb_spec (HashHex pk) (From t)) as [Ef|]; [|done]. cbn [mbind outcome_bind].
  intros ([] & Hplan & Hr)%outcome_bind_Normal. apply outcome_bind_Normal in Hr as (b & Hb%wrapped_Normal & Hr).
  destruct (String.eqb_spec (HashHex b) (TxID t)) as [Ei|]; [|done]. cbn [negb] in Hr.
  apply outcome_bind_Normal in Hr as (b' & Hb'%wrapped_Normal & Hr). rewrite Hb in Hb'. injection Hb' as <-.
  apply outcome_bind_Normal in Hr as ([] & Hsig & Hc). destruct (VerifySignature_Normal _ _ _ Hsig).
  split; try done. by exists pk, b.
Qed.

Lemma Validate_from cmd t t' st : From t = From t' -> Validate cmd t st = Validate cmd t' st.
Proof. intros E. destruct cmd; unfold Validate, NameNew_Validate, NameFirstUpdate_Validate, NameUpdate_Validate; rewrite ?E; done. Qed.

Lemma derive_tx_valid t st tx txID :
  derive_tx t st = Normal (tx, txID) -> txID = TxID t ->
  BuildTransactionID tx = Normal txID /\ validateTxStrict txID tx st = Normal tt.
Proof.
  unfold derive_tx. intros ([] & Hv%ValidateTransaction_Normal & Hr)%outcome_bind_Normal.
  apply outcome_bind_Normal in Hr as ([ins outs] & Hp & Hr). cbv zeta beta in Hr.
  set (tx' := MkTx _ _ _ _ _ _ _ _ _) in Hr. apply outcome_bind_Normal in Hr as ([] & Hwi & Hr).
  apply outcome_bind_Normal in Hr as (id & Hid & [= <- <-]). intros ->. split; [done|].
  destruct Hv as [(pk & b & Epk & Ef & Hpk & Hb & Ei & Hsig) Hsn Hplan Hcmd].
  destruct (plan_shape _ _ _ _ _ Hp) as [Ho Hf]. unfold BuildTransactionID in Hid.
  destruct (SerializeTransaction tx') as [b'|] eqn:Eb; [|done]. injection Hid as Hid. rewrite Ei in Hid.
  assert (verifyTxAuth tx' (TxID t) = Normal tt) as Hauth.
  { unfold verifyTxAuth. cbn [Pk Signature TxID From tx']. rewrite String.eqb_refl, Epk.
    destruct (String.eqb_spec (Pk t) "") as [E|]; [rewrite E in Epk; injection Epk as <-; discriminate Hpk|].
    destruct (String.eqb_spec (Signature t) ""); [done|].
    destruct (String.eqb_spec (TxID t) "") as [E|]; [rewrite Ei in E; by apply HashHex_nonempty in E|]. cbn [orb negb].
    rewrite Ef, String.eqb_refl. cbn [negb]. rewrite Eb. cbn. rewrite <- Hsig. unfold VerifySignature.
    by rewrite (HashHex_inj b' b). }
  assert (ValidateCommand tx' st = Normal tt) as Hc'.
  { unfold ValidateCommand in *. cbn [Type_ Payload tx']. destruct (ResolveCommand _ _) as [cmd|]; [|done].
    cbn in *. by rewrite (Validate_from cmd tx' t). }
  assert (forall p, single_output p tx' = Normal tt) as Hso.
  { intros p. unfold single_output. cbn [Outputs tx']. destruct (Z.ltb_spec 1 (Z.of_nat (length (elems outs)))); [lia|done]. }
  unfold validateTxStrict. rewrite Hc'. cbn [mbind outcome_bind]. destruct (String.eqb (Type_ tx') "Reward").
  - cbn [TxID tx']. rewrite String.eqb_refl, andb_false_r. apply Hso.
  - rewrite Hauth, Hso. cbn [mbind outcome_bind]. cbn [Inputs tx']. rewrite Hf. cbn [mbind outcome_bind].
    assert (canonical_plan tx' st = Normal tt) as ->; [|exact Hwi].
    unfold canonical_plan. cbn [From Amount Inputs Outputs tx']. rewrite Hp. cbn. unfold equalTxInputs, equalTxOutputs.
    by rewrite !bool_decide_true.
Qed.

Lemma derive_tx_fields t st tx txID :
  derive_tx t st = Normal (tx, txID) ->
  From tx = From t /\ Type_ tx = Type_ t /\ Amount tx = Amount t /\
  elems (Inputs tx) = elems (Inputs t) /\ elems (Outputs tx) = elems (Outputs t).
Proof.
  unfold derive_tx. intros ([] & [_ _ Hp _]%ValidateTransaction_Normal & Hd)%outcome_bind_Normal.
  apply outcome_bind_Normal in Hd as ([ins outs] & Hs & Hd). unfold canonical_plan in Hp. rewrite Hs in Hp. cbn in Hp.
  destruct (equalTxInputs _ _) eqn:Ei; [|done]. destruct (equalTxOutputs _ _) eqn:Eo; [|done].
  apply bool_decide_eq_true in Ei, Eo. cbv zeta beta in Hd. apply outcome_bind_Normal in Hd as ([] & _ & Hd).
  apply outcome_bind_Normal in Hd as (id & _ & [= <- _]). by split_and!.
Qed.

Lemma handled_valid msg st b b' :
  handleNamecoinTransactionMessage msg st b = (Normal tt, b') ->
  exists tx txID, derive_tx msg st = Normal (tx, txID) /\ b' = Add tx txID b /\
    BuildTransactionID tx = Normal txID /\ validateTxStrict txID tx st = Normal tt.
Proof.
  unfold handleNamecoinTransactionMessage. destruct (derive_tx msg st) as [[tx txID]|] eqn:E; [|done].
  destruct (String.eqb_spec txID (TxID msg)) as [Ei|]; [|done]. intros [= <-]. exists tx, txID.
  destruct (derive_tx_valid _ _ _ _ E Ei). done.
Qed.
End handler.

(** ** Properties *)

Import SmallChain.

Lemma handled msg st b : (handleNamecoinTransactionMessage msg st b).1 = Normal tt ->
  handleNamecoinTransactionMessage msg st b = (Normal tt, (handleNamecoinTransactionMessage msg st b).2).
Proof. destruct (handleNamecoinTransactionMessage msg st b) as [o b']. cbn. by intros ->. Qed.

(** C30: a message enters the buffer only as a transaction that passes the checks
    that blocks are validated with, on the same state. *)
Theorem buffered_valid `{CanonicalJson} `{Ed25519} msg st b b' :
  handleNamecoinTransactionMessage msg st b = (Normal tt, b') ->
  exists tx txID, b' = Add tx txID b /\ BuildTransactionID tx = Normal txID /\ validateTxStrict txID tx st = Normal tt.
Proof. intros (tx & txID & _ & ? & ? & ?)%handled_valid. by exists tx, txID. Qed.

Lemma buffered_valid_witness : exists tx txID,
  (handleNamecoinTransactionMessage new_tx s0 NewTxBuffer).2 = Add tx txID NewTxBuffer /\
  BuildTransactionID tx = Normal txID /\ validateTxStrict txID tx s0 = Normal tt.
Proof. apply (buffered_valid new_tx s0 NewTxBuffer), handled. by vm_compute. Defined.

(** C31: a client can have coins created: a signed message of type [Reward] enters the
    buffer, and when a block applies it, the sender gets a new output worth the change
    of the spend plan; the sender keeps all outputs, those of every other address stay
    as they are, and the supply grows by the change. *)
Theorem client_reward `{CanonicalJson} `{Ed25519} blks done st i msg b b' c :
  reached blks done st -> low (Z.of_nat (length blks)) -> Forall tx_ok (all_txs blks ++ done) ->
  mints (all_txs blks ++ done) < 2 ^ 64 -> TxID msg ∉ txMap st -> Type_ msg = "Reward" -> 0 <= Amount msg ->
  elems (Outputs msg) = [MkTxOutput (From msg) c] -> handleNamecoinTransactionMessage msg st b = (Normal tt, b') ->
  let own st := default ∅ (UTXOMap st !! From msg) in
  exists tx st', b' = Add tx (TxID msg) b /\ applyTxStrict i tx st = (Normal tt, st') /\
    own st !! TxID msg = None /\
    own st' = <[TxID msg := MkUTXO (TxID msg) (From msg) c (nextUTXOSeq st)]> (own st) /\
    balance (own st') = balance (own st) + c /\
    (forall a, a <> From msg -> UTXOMap st' !! a = UTXOMap st !! a) /\
    supply st' = supply st + c.
Proof.
  intros Hr Hlow Htx Hm Hid Ht Ha Ho Hh own. revert Hh. unfold handleNamecoinTransactionMessage.
  destruct (derive_tx msg st) as [[tx txID]|] eqn:E; [|done].
  destruct (String.eqb_spec txID (TxID msg)) as [Ei|]; [|done]. intros [= <-]. exists tx.
  destruct (derive_tx_valid _ _ _ _ E Ei) as [Hbid Hv]. rewrite Ei in Hbid, Hv.
  destruct (derive_tx_fields _ _ _ _ E) as (Ef & Et & Ea & _ & Eo). rewrite Ht in Et. rewrite Ho in Eo.
  destruct (validated_runs _ i tx (TxID msg) st (reached_healthy _ _ _ Hr Hlow Htx Hm)) as [st' Hrun]; [by rewrite Ea|done..|].
  exists st'. split; [by rewrite Ei|]. split; [done|].
  apply applyTxStrict_Normal in Hrun as (id & Hid' & [[Hin _]|(cmd & st1 & [_ Hc _ _ Hu (st2 & Hst & ->)])]);
    rewrite Hbid in Hid'; injection Hid' as <-; [done|].
  apply (resolve_reward _ _ _ Hc) in Et as ->. assert (st2 = st1) as -> by (by injection Hst). unfold ApplyUTXO, NameNew_ApplyUTXO, Reward_ApplyUTXO in Hu. rewrite Eo in Hu.
  apply AppendUTXO_Normal in Hu as [Hn ->]. cbn [u_To u_TxID out_To] in Hn.
  assert (own (appended (MkUTXO (TxID msg) (From msg) c 0) st)
    = <[TxID msg := MkUTXO (TxID msg) (From msg) c (nextUTXOSeq st)]> (own st)) as Hown
    by (unfold own, appended; cbn; by rewrite lookup_insert_eq).
  split_and!; [exact Hn|exact Hown| | |exact (supply_append (MkUTXO (TxID msg) (From msg) c 0) st Hn)].
  { etrans; [exact (f_equal balance Hown)|]. unfold balance, own. rewrite msum_insert_new by exact Hn. cbn. lia. }
  intros a Hne. cbn. by rewrite lookup_insert_ne.
Qed.

Lemma client_reward_witness :
  let own st := default ∅ (UTXOMap st !! From greedy_tx) in
  exists tx st',
  (handleNamecoinTransactionMessage greedy_tx open1 NewTxBuffer).2 = Add tx (TxID greedy_tx) NewTxBuffer /\
  applyTxStrict 0 tx open1 = (Normal tt, st') /\
  own open1 !! TxID greedy_tx = None /\
  own st' = <[TxID greedy_tx := MkUTXO (TxID greedy_tx) (From greedy_tx) 9 (nextUTXOSeq open1)]> (own open1) /\
  balance (own st') = balance (own open1) + 9 /\
  (forall a, a <> From greedy_tx -> UTXOMap st' !! a = UTXOMap open1 !! a) /\
  supply st' = supply open1 + 9.
Proof.
  apply (client_reward [b0] [] open1 0 greedy_tx NewTxBuffer _ 9 reached_demo demo_low1 (proj1 demo_ok) (proj2 demo_ok));
    [apply not_applied; by vm_compute|by vm_compute..|apply handled; by vm_compute].
Defined.

(** The transactions that a miner drains and queues again are in the buffer in
    their order, and nothing else, if none arrived in between. *)
Theorem requeue_restores b :
  buffer_ok b -> let '((_, ord, m), b') := Drain b in Requeue ord m b' = b.
Proof.
  intros Hb. pose proof (drained_map b Hb) as Hm. unfold Drain in *. cbn [fst snd] in Hm. rewrite Hm. destruct Hb as [Hn Hi].
  destruct (requeue_all (txs b) (order b) NewTxBuffer Hn) as [Ho Ht].
  { intros id Hid%Hi. split; [done|apply lookup_empty]. }
  change (MkTxBuffer [] ∅) with NewTxBuffer. destruct (Requeue (order b) (txs b) NewTxBuffer) as [ord' m'].
  cbn in Ho, Ht. subst ord'. destruct b as [o m0]. cbn in *. f_equal. apply map_eq. intros id. rewrite Ht.
  case_decide as Hd; [done|]. rewrite lookup_empty. symmetry. apply eq_None_not_Some. by intros ?%Hi.
Qed.

Lemma requeue_restores_witness :
  let b := Add update_tx "2" (Add new_tx "1" NewTxBuffer) in
  let '((_, ord, m), b') := Drain b in Requeue ord m b' = b.
Proof.
  apply (requeue_restores (Add update_tx "2" (Add new_tx "1" NewTxBuffer))). apply Add_ok, Add_ok.
  split; [constructor|]. intros id. cbn. rewrite lookup_empty, elem_of_nil. by split; [|intros []].
Defined.

(** A message of a peer whose public key has not 32 bytes makes the handler panic
    instead of returning an error, once its address and identifier match. *)
Theorem short_key_panics `{CanonicalJson} `{Ed25519} msg st b pk bytes sig :
  decodeHex (Pk msg) = Normal pk -> length pk <> 32%nat -> From msg = HashHex pk -> canonical_plan msg st = Normal tt ->
  SerializeTransaction msg = Normal bytes -> TxID msg = HashHex bytes -> decodeHex (Signature msg) = Normal sig ->
  handleNamecoinTransactionMessage msg st b = (Throw (Error "panic" "ed25519: bad public key length"), b).
Proof.
  intros Hpk Hlen Hf Hp Hb Hid Hs. unfold handleNamecoinTransactionMessage, derive_tx, ValidateTransaction, VerifyOwnership.
  rewrite Hpk, Hf, String.eqb_refl. cbn [mbind outcome_bind]. rewrite Hp, Hb. cbn [wrapped mbind outcome_bind].
  rewrite Hid, String.eqb_refl. cbn [negb]. unfold VerifySignature, ed25519_Verify. rewrite Hs, decide_False by done. reflexivity.
Qed.

Lemma short_key_panics_witness :
  handleNamecoinTransactionMessage keyless_tx s0 NewTxBuffer
  = (Throw (Error "panic" "ed25519: bad public key length"), NewTxBuffer).
Proof.
  apply (short_key_panics keyless_tx s0 NewTxBuffer []
    (match SerializeTransaction keyless_tx with Normal x => x | Throw _ => [] end) []);
    [reflexivity|discriminate|reflexivity|reflexivity|by vm_compute..].
Defined.
