(* ===== verification/NodeHeaders.v ===== *)
(** * Block headers: [types/namecoin_def.go], [ComputeTxRoot] and the checks of
    headers of [peer/impl/namecoin_chain.go]

    A header is hashed as the JSON text that [SerializeHeader] prints; a block is
    stored as a JSON document with the header and the hash in hexadecimal.
    [header_roundtrip] and [block_roundtrip] show that decoding inverts this,
    [hash_binds] that a hash determines the header unless two texts collide. *)

From S2P Require Import Prelude JsValue Json JsonFacts JsonCanon Sha256 Platform World Hash CryptoService.
From S2P Require Import Go GoText NodeState NodeCommands NodeBlocks.
Local Open Scope Z_scope.

(** ** Data *)

Record BlockHeader := MkHeader {
  h_Height : Z; h_PrevHash : slice Z; h_TxRoot : slice Z; h_Timestamp : Z; h_Nonce : Z;
  h_Miner : string; h_Difficulty : slice Z
}.

(** [types.Block] *)
Record FullBlock := MkFullBlock { Header : BlockHeader; Txs : list Tx; Hash : slice Z }.

(** What the state depends on. *)
Definition contents (b : FullBlock) : Block := MkBlock (h_Height (Header b)) (Txs b).

Definition set_Hash (hash : slice Z) (b : FullBlock) : FullBlock := MkFullBlock (Header b) (Txs b) hash.
Definition set_h_Height (h : Z) (b : FullBlock) : FullBlock :=
  let d := Header b in
  MkFullBlock (MkHeader h (h_PrevHash d) (h_TxRoot d) (h_Timestamp d) (h_Nonce d) (h_Miner d) (h_Difficulty d)) (Txs b) (Hash b).

#[export] Instance BlockHeader_eq_dec : EqDecision BlockHeader.
Proof. solve_decision. Defined.

(** [CloneBytes(src)]: an empty slice becomes [nil]. *)
Definition CloneBytes (src : slice Z) : slice Z :=
  match src with Some [] => None | _ => src end.

(** [bytes.Equal(a, b)] *)
Definition bytes_Equal (a b : slice Z) : bool := bool_decide (elems a = elems b).

(** ** Serialisation *)

(** The members of the struct that [SerializeHeader] marshals. *)
Definition header_fields (h : BlockHeader) : list (string * (value * string)) :=
  let number z := (Num (int z), num_to_string (int z)) in
  let bytes s := (bytes_json s, bytes_text s) in
  [("height", number (h_Height h)); ("prevHash", bytes (h_PrevHash h)); ("txRoot", bytes (h_TxRoot h));
   ("timestamp", number (h_Timestamp h)); ("nonce", number (h_Nonce h)); ("miner", (Str (h_Miner h), go_quote (h_Miner h)));
   ("difficulty", bytes (h_Difficulty h))].

(** The text that [json.Marshal] prints. *)
Definition header_text (h : BlockHeader) : string :=
  bracket "{" "}" "" "" (map (fun f => member "" f.1 f.2.2) (header_fields h)).

Definition SerializeHeader (h : BlockHeader) : list Z := encode (header_text h).

Definition ComputeHash (b : FullBlock) : list Z := sha256_digest (SerializeHeader (Header b)).

(** [json.Unmarshal(headerBytes, &header)] *)
Definition unmarshalHeader (b : list Z) : outcome BlockHeader :=
  match decode b with
  | None => err "invalid character"
  | Some text =>
      v ← json_parse text;
      o ← as_struct v;
      height ← json_field (as_uint 64) 0 "Height" o;
      prevHash ← json_field as_bytes None "PrevHash" o;
      txRoot ← json_field as_bytes None "TxRoot" o;
      timestamp ← json_field (as_int 64) 0 "Timestamp" o;
      nonce ← json_field (as_uint 64) 0 "Nonce" o;
      miner ← json_field as_string "" "Miner" o;
      difficulty ← json_field as_bytes None "Difficulty" o;
      Normal (MkHeader height prevHash txRoot timestamp nonce miner difficulty)
  end.

(** A transaction as a JSON object: its fields under their names. *)
Definition tx_struct (tx : Tx) : value :=
  Obj [("From", Str (From tx)); ("Type", Str (Type_ tx)); ("Inputs", slice_json input_json (Inputs tx));
       ("Outputs", slice_json output_json (Outputs tx)); ("Amount", Num (int (Amount tx)));
       ("Payload", default Null (Payload tx)); ("Pk", Str (Pk tx)); ("TxID", Str (TxID tx)); ("Signature", Str (Signature tx))].

(** [b.Marshal()]: the document, represented by its value. *)
Definition Marshal (b : FullBlock) : value :=
  Obj [("hash", Str (bytesToHex (elems (Hash b)))); ("header", Str (bytesToHex (SerializeHeader (Header b))));
       ("transactions", Arr (tx_struct <$> Txs b))].

(** [b.Unmarshal(data)] *)
Definition Unmarshal (data : value) : outcome FullBlock :=
  o ← as_struct data;
  header ← json_field as_string "" "header" o;
  transactions ← json_field (as_slice unmarshalTransaction) None "transactions" o;
  hash ← json_field as_string "" "hash" o;
  headerBytes ← decodeHex header;
  h ← unmarshalHeader headerBytes;
  hashBytes ← decodeHex hash;
  Normal (MkFullBlock h (elems transactions) (Some hashBytes)).

(** ** The root of the transactions *)

Definition root_input (i : TxInput) : value := obj [("txid", Str (in_TxID i)); ("index", Num (int (in_Index i)))].
Definition root_output (o : TxOutput) : value := obj [("to", Str (out_To o)); ("amount", Num (int (out_Amount o)))].

(** The map of [SerializeTransactionForTxRoot]; the slices made are never [nil]. *)
Definition root_json (tx : Tx) : value :=
  obj [("type", Str (Type_ tx)); ("from", Str (From tx)); ("amount", Num (int (Amount tx)));
       ("payload", default Null (Payload tx)); ("inputs", Arr (root_input <$> elems (Inputs tx)));
       ("outputs", Arr (root_output <$> elems (Outputs tx))); ("pk", Str (Pk tx)); ("txid", Str (TxID tx));
       ("signature", Str (Signature tx))].

Section root.
Context `{CanonicalJson}.

Definition SerializeTransactionForTxRoot (tx : Tx) : outcome (list Z) := encode <$> marshal (root_json tx).

(** What has been written to the hash. *)
Fixpoint root_bytes (i : nat) (txs : list Tx) : outcome (list Z) :=
  match txs with
  | [] => Normal []
  | tx :: txs' =>
      b ← wrapped ("failed to marshal tx " +:+ dec (Z.of_nat i) +:+ " for root: ") (SerializeTransactionForTxRoot tx);
      l ← root_bytes (S i) txs'; Normal (b ++ l)
  end.

Definition ComputeTxRoot (txs : list Tx) : outcome (list Z) := sha256_digest <$> root_bytes 0 txs.
End root.

(** ** Linkage *)

Definition ChainFollowError {A} (msg : string) : outcome A := Throw (Error "ChainFollowError" ("validation failed: " +:+ msg)).

(** [ensureNextBlockFollows(currentHeadHeight, currentHeadHash, blk)] *)
Definition ensureNextBlockFollows (currentHeadHeight : Z) (currentHeadHash : slice Z) (blk : FullBlock) : outcome unit :=
  let h := Header blk in
  match currentHeadHash with
  | None =>
      if negb (h_Height h =? 0) then ChainFollowError ("invalid genesis height " +:+ dec (h_Height h) +:+ "; expected 0")
      else if negb (bool_decide (elems (h_PrevHash h) = [])) then ChainFollowError "genesis block must have empty prevHash"
      else Normal tt
  | Some _ =>
      let expectedHeight := u64 (currentHeadHeight + 1) in
      if negb (h_Height h =? expectedHeight)
      then ChainFollowError ("invalid height " +:+ dec (h_Height h) +:+ "; expected " +:+ dec expectedHeight)
      else if negb (bytes_Equal (h_PrevHash h) currentHeadHash) then ChainFollowError "prevHash mismatch"
      else Normal tt
  end.

(** ** Round trips *)

(** Fields within their types. *)
Record header_ok (h : BlockHeader) : Prop := {
  ho_height : is_u64 (h_Height h); ho_nonce : is_u64 (h_Nonce h);
  ho_time : - 2 ^ 63 <= h_Timestamp h < 2 ^ 63;
  ho_bytes : slice_bytes_ok (h_PrevHash h) /\ slice_bytes_ok (h_TxRoot h) /\ slice_bytes_ok (h_Difficulty h)
}.

Definition tx_range (tx : Tx) : Prop :=
  is_u64 (Amount tx) /\ Forall (fun i => 0 <= in_Index i < 2 ^ 32) (elems (Inputs tx)) /\
  Forall (fun o => is_u64 (out_Amount o)) (elems (Outputs tx)).

Lemma header_parses h : json_parse (header_text h) = Normal (Obj (map (fun f => (f.1, f.2.1)) (header_fields h))).
Proof.
  apply reads_parse.
  change (Obj (map (fun f => (f.1, f.2.1)) (header_fields h))) with (Obj (props_of (map (fun f => (f.1, f.2.1)) (header_fields h)))).
  apply reads_obj; [done..|]. unfold header_fields.
  repeat constructor; apply reads_member_ser; cbn [fst snd]; try done; first [apply reads_bytes|apply reads_go_quote|by apply reads_num].
Qed.

(** Members of another name leave a field alone; the member of its name sets it. *)
Lemma step_skip {A} (conv : value -> outcome A) z name k v :
  String.eqb (to_lower k) (to_lower name) = false -> json_step conv name (Normal z) (k, v) = Normal z.
Proof. intros Hk. unfold json_step. cbn. by rewrite Hk. Qed.

Lemma step_set {A} (conv : value -> outcome A) z name k v x :
  String.eqb (to_lower k) (to_lower name) = true -> match v with Null => x = z | _ => conv v = Normal x end ->
  json_step conv name (Normal z) (k, v) = Normal x.
Proof. intros Hk Hx. unfold json_step. cbn. rewrite Hk. by destruct v; subst. Qed.

Lemma step_bytes name k (s : slice Z) :
  String.eqb (to_lower k) (to_lower name) = true -> slice_bytes_ok s ->
  json_step as_bytes name (Normal None) (k, bytes_json s) = Normal s.
Proof. intros Hk Hs. apply step_set; [done|]. destruct s as [l|]; [by apply as_bytes_ok|done]. Qed.

Lemma all_out_fmap {A} (enc : A -> value) (conv : value -> outcome A) (g : A -> A) l :
  Forall (fun x => conv (enc x) = Normal (g x)) l -> all_out conv (enc <$> l) = Normal (g <$> l).
Proof. induction 1 as [|x l Hx _ IH]; [done|]. rewrite !fmap_cons. cbn [all_out]. by rewrite Hx, IH. Qed.

Lemma slice_roundtrip {A} (enc : A -> value) (conv : value -> outcome A) (s : slice A) :
  Forall (fun x => conv (enc x) = Normal x) (elems s) ->
  match slice_json enc s with Null => s = None | _ => as_slice conv (slice_json enc s) = Normal s end.
Proof.
  destruct s as [l|]; [|done]. cbn [elems default from_option id slice_json as_slice]. intros Hl.
  rewrite (all_out_fmap _ _ id) by done. by rewrite list_fmap_id.
Qed.

Lemma step_slice {A} (enc : A -> value) conv name k (s : slice A) :
  String.eqb (to_lower k) (to_lower name) = true -> Forall (fun x => conv (enc x) = Normal x) (elems s) ->
  json_step (as_slice conv) name (@Normal (slice A) None) (k, slice_json enc s) = Normal s.
Proof. intros Hk Hs. apply step_set; [done|]. by apply slice_roundtrip. Qed.

Ltac read_fields t :=
  unfold json_field; cbn [fold_left];
  repeat match goal with |- context [json_step ?conv ?name (Normal ?z) (?k, ?v)] =>
    let b := eval vm_compute in (String.eqb (to_lower k) (to_lower name)) in
    match b with
    | false => rewrite (step_skip conv z name k v eq_refl)
    | true => first [rewrite (step_bytes name k) by done | rewrite (step_slice _ _ name k) by done
        | let Hs := fresh in eassert (json_step conv name (Normal z) (k, v) = Normal _) as Hs by (apply step_set; [reflexivity|t]);
          rewrite Hs; clear Hs]
    end
  end; cbn [mbind outcome_bind].

Lemma header_roundtrip h : header_ok h -> unmarshalHeader (SerializeHeader h) = Normal h.
Proof.
  intros [Hh Hn Ht (Hp & Hr & Hd)]. unfold unmarshalHeader, SerializeHeader. rewrite utf8_roundtrip, header_parses.
  cbn [mbind outcome_bind as_struct map header_fields fst snd].
  read_fields ltac:(first [by apply as_uint_ok|by apply (as_int_ok 64)|reflexivity]). by destruct h.
Qed.

(** A stored transaction without payload comes back with the payload [null]. *)
Definition stored_tx (tx : Tx) : Tx :=
  MkTx (From tx) (Type_ tx) (Inputs tx) (Outputs tx) (Amount tx) (Some (default Null (Payload tx))) (Pk tx) (TxID tx) (Signature tx).

Definition stored (b : FullBlock) : FullBlock := MkFullBlock (Header b) (stored_tx <$> Txs b) (Some (elems (Hash b))).

Lemma input_roundtrip i : 0 <= in_Index i < 2 ^ 32 -> as_input (input_json i) = Normal i.
Proof.
  intros Hi. unfold as_input, input_json.
  change (obj _) with (Obj [("TxID", Str (in_TxID i)); ("Index", Num (int (in_Index i)))]). cbn [as_struct mbind outcome_bind].
  read_fields ltac:(first [by apply (as_uint_ok 32)|reflexivity]). by destruct i.
Qed.

Lemma output_roundtrip o : is_u64 (out_Amount o) -> as_output (output_json o) = Normal o.
Proof.
  intros Ho. unfold as_output, output_json.
  change (obj _) with (Obj [("To", Str (out_To o)); ("Amount", Num (int (out_Amount o)))]). cbn [as_struct mbind outcome_bind].
  read_fields ltac:(first [by apply (as_uint_ok 64)|reflexivity]). by destruct o.
Qed.

Lemma tx_roundtrip tx : tx_range tx -> unmarshalTransaction (tx_struct tx) = Normal (stored_tx tx).
Proof.
  intros (Ha & Hi & Ho). unfold unmarshalTransaction, tx_struct. cbn [as_struct mbind outcome_bind].
  assert (Forall (fun i => as_input (input_json i) = Normal i) (elems (Inputs tx))) as Hi'
    by (by eapply Forall_impl; [exact Hi|]; intros; apply input_roundtrip).
  assert (Forall (fun o => as_output (output_json o) = Normal o) (elems (Outputs tx))) as Ho'
    by (by eapply Forall_impl; [exact Ho|]; intros; apply output_roundtrip).
  read_fields ltac:(first [by apply (as_uint_ok 64)|reflexivity]).
  done.
Qed.

Lemma block_roundtrip b :
  header_ok (Header b) -> Forall tx_range (Txs b) -> slice_bytes_ok (Hash b) -> Unmarshal (Marshal b) = Normal (stored b).
Proof.
  intros Hh Ht Hb. unfold Unmarshal, Marshal. cbn [as_struct mbind outcome_bind].
  assert (as_slice unmarshalTransaction (Arr (tx_struct <$> Txs b)) = Normal (Some (stored_tx <$> Txs b))) as Hl.
  { cbn [as_slice]. rewrite (all_out_fmap _ _ stored_tx); [done|]. eapply Forall_impl; [exact Ht|]. intros. by apply tx_roundtrip. }
  read_fields ltac:(reflexivity).
  rewrite (step_set (as_slice unmarshalTransaction) None "transactions" "transactions"
    (Arr (tx_struct <$> Txs b)) (Some (stored_tx <$> Txs b)) eq_refl Hl).
  cbn [mbind outcome_bind].
  rewrite (decodeHex_bytesToHex (SerializeHeader _)) by apply encode_bytes. cbn [mbind outcome_bind].
  rewrite header_roundtrip by done. cbn [mbind outcome_bind]. rewrite (decodeHex_bytesToHex (elems (Hash b))) by exact Hb. done.
Qed.

(** The hash of a block determines its header, unless two texts have one digest. *)
Definition header_collision (a b : BlockHeader) : Prop :=
  SerializeHeader a <> SerializeHeader b /\ sha256_digest (SerializeHeader a) = sha256_digest (SerializeHeader b).

Lemma hash_binds a b :
  header_ok (Header a) -> header_ok (Header b) -> ComputeHash a = ComputeHash b ->
  Header a = Header b \/ header_collision (Header a) (Header b).
Proof.
  intros Ha Hb Hc. destruct (decide (SerializeHeader (Header a) = SerializeHeader (Header b))) as [E|E]; [left|by right].
  pose proof (header_roundtrip _ Ha) as H1. pose proof (header_roundtrip _ Hb) as H2. rewrite E in H1. congruence.
Qed.

Lemma ComputeHash_bytes b : bytes_ok (ComputeHash b).
Proof. apply sha256_bytes. Qed.

Lemma ComputeHash_nonempty b : ComputeHash b <> [].
Proof. intros E. pose proof (sha256_length (SerializeHeader (Header b))) as Hl. unfold ComputeHash in E. by rewrite E in Hl. Qed.
#[global] Arguments ComputeHash : simpl never.

(** ** What stored transactions mean *)

Section stored.
Context `{CanonicalJson}.

Lemma stored_tx_id tx : BuildTransactionID (stored_tx tx) = BuildTransactionID tx.
Proof. done. Qed.

Lemma stored_tx_root i txs : root_bytes i (stored_tx <$> txs) = root_bytes i txs.
Proof. revert i. induction txs as [|tx txs IH]; intros i; [done|]. rewrite fmap_cons. cbn [root_bytes]. by rewrite IH. Qed.

Lemma stored_root b : ComputeTxRoot (Txs (stored b)) = ComputeTxRoot (Txs b).
Proof. unfold ComputeTxRoot. cbn [stored Txs]. by rewrite stored_tx_root. Qed.

(** A command that could be resolved is resolved alike. *)
Lemma stored_command tx cmd :
  ResolveCommand (Type_ tx) (Payload tx) = Normal cmd -> ResolveCommand (Type_ tx) (Payload (stored_tx tx)) = Normal cmd.
Proof. cbn [stored_tx Payload]. destruct (Payload tx) as [v|]; [done|]. unfold ResolveCommand. by repeat case_match. Qed.
End stored.
