(* ===== verification/NodePow.v ===== *)
(** * Proof of work: [peer/impl/namecoin_pow.go], [namecoin_consensus.go] and
    [peer/pow_config.go]

    Targets are [*big.Int], [None] when [nil]; durations are nanoseconds.  A
    [float64] that is finite is the number [mant * 2^expo]; the two divisions of the
    code round to the nearest 53-bit mantissa, ties to even, as IEEE 754 does within
    the range of normal numbers, where a quotient of durations lies. *)

From S2P Require Import Prelude JsValue Json Sha256 Platform World Hash Go GoText NodeState NodeCommands NodeBlocks NodeMempool NodeHeaders.
Local Open Scope Z_scope.

(** ** [big.Int] and bytes *)

(** [new(big.Int).SetBytes(b)] *)
Definition SetBytes (b : list Z) : Z := fold_left (fun acc x => acc * 256 + x) b 0.

(** [x.Bytes()]: big-endian, without leading zeros. *)
Fixpoint big_bytes (fuel : nat) (x : Z) : list Z :=
  match fuel with
  | O => []
  | S f => if x <=? 0 then [] else big_bytes f (x / 256) ++ [x mod 256]
  end.
Definition Bytes_of (x : Z) : list Z := big_bytes (S (Z.to_nat (Z.log2 x))) x.

(** ** [float64] and [int64] *)

Record float := Float { mant : Z; expo : Z }.

(** [a < b] on finite numbers. *)
Definition float_lt (a b : float) : bool :=
  let e := Z.min (expo a) (expo b) in mant a * 2 ^ (expo a - e) <? mant b * 2 ^ (expo b - e).

(** The nearest number to [n / d] with a mantissa of 53 bits, for positive [n] and [d]. *)
Definition scaled (n d e : Z) : Z * Z := if 0 <=? e then (n, d * 2 ^ e) else (n * 2 ^ (- e), d).
Definition round_quot (n d : Z) : float :=
  let e0 := Z.log2 n - Z.log2 d - 52 in
  let '(a, b) := scaled n d e0 in
  let e := if a / b <? 2 ^ 52 then e0 - 1 else e0 in
  let '(a, b) := scaled n d e in
  let q := a / b in
  let r := a mod b in
  Float (match 2 * r ?= b with Lt => q | Gt => q + 1 | Eq => if Z.even q then q else q + 1 end) e.

(** [float64(z)] and [x / y]. *)
Definition float_of (z : Z) : float := round_quot z 1.
Definition float_div (x y : float) : float :=
  let '(a, b) := scaled (mant x) (mant y) (expo y - expo x) in round_quot a b.

Definition i64 (z : Z) : Z := (z + 2 ^ 63) mod 2 ^ 64 - 2 ^ 63.

(** ** Configuration *)

Definition Second : Z := 10 ^ 9.

Record PoWConfig := MkPoWConfig {
  Target : option Z; DisableDifficultyAdjustment : bool; TargetBlockTime : Z;
  MaxAdjustUp : float; MaxAdjustDown : float; MaxNonce : Z; PubKey : string
}.

(** [peer.PoWConfig{}] *)
Definition zero_config : PoWConfig := MkPoWConfig None false 0 (Float 0 0) (Float 0 0) 0 "".

Definition defaultTarget : Z := 2 ^ 240.
Definition defaultTargetBlockTime : Z := 10 * Second.
Definition defaultMaxAdjustUp : float := Float 4 0.
(** [0.1] as a [float64]. *)
Definition defaultMaxAdjustDown : float := round_quot 1 10.

Record powParams := MkParams { targetBlockTime : Z; maxAdjustUp : float; maxAdjustDown : float; dynamic : bool }.

Definition powParamsFromConfig (cfg : PoWConfig) : powParams :=
  MkParams (if TargetBlockTime cfg <=? 0 then defaultTargetBlockTime else TargetBlockTime cfg)
    (if mant (MaxAdjustUp cfg) <=? 0 then defaultMaxAdjustUp else MaxAdjustUp cfg)
    (if mant (MaxAdjustDown cfg) <=? 0 then defaultMaxAdjustDown else MaxAdjustDown cfg)
    (negb (DisableDifficultyAdjustment cfg)).

(** ** Targets *)

Definition effectiveTarget (normal : option Z) : Z := default defaultTarget normal.

(** [CheckWork(header, target)] *)
Definition CheckWork (header : list Z) (target : option Z) : bool :=
  if bool_decide (header = []) then false
  else if effectiveTarget target =? 0 then false
  else SetBytes (sha256_digest header) <=? effectiveTarget target.

Definition IsBlockComplexityValid (blk : FullBlock) (target : option Z) : bool :=
  SetBytes (ComputeHash blk) <=? effectiveTarget target.

(** [EncodeDifficulty(target)]: 32 bytes. *)
Definition EncodeDifficulty (target : option Z) : list Z :=
  let b := Bytes_of (effectiveTarget target) in
  if (32 <? length b)%nat then repeat 255 32 else repeat 0 (32 - length b) ++ b.

Definition DecodeDifficulty (b : slice Z) : option Z :=
  match elems b with [] => None | l => Some (SetBytes l) end.

(** [AdjustDifficulty(prevTarget, spacing, targetBlockTime, maxAdjustUp, maxAdjustDown)] *)
Definition clamp_ratio (ratio minFactor maxFactor : float) : float :=
  if float_lt ratio minFactor then minFactor else if float_lt maxFactor ratio then maxFactor else ratio.

(** The integer part of [prev] times a [big.Rat] made from a [float64]. *)
Definition times (prev : Z) (f : float) : Z :=
  if 0 <=? expo f then prev * mant f * 2 ^ expo f else prev * mant f / 2 ^ (- expo f).

Definition AdjustDifficulty (prevTarget : option Z) (spacing targetTime : Z) (up down : float) : Z :=
  let prev := default defaultTarget prevTarget in
  let targetTime := if targetTime <=? 0 then defaultTargetBlockTime else targetTime in
  let up := if mant up <=? 0 then defaultMaxAdjustUp else up in
  let down := if mant down <=? 0 then defaultMaxAdjustDown else down in
  let spacing := if spacing <=? 0 then Second else spacing in
  let ratio := clamp_ratio (float_div (float_of spacing) (float_of targetTime)) down up in
  let out := times prev ratio in
  if out =? 0 then 1 else out.

(** [time.Duration(later-earlier) * time.Second] *)
Definition spacing_of (later earlier : Z) : Z := i64 (i64 (later - earlier) * Second).

(** The target of the block after one with the given target. *)
Definition next_target (p : powParams) (target : option Z) (later earlier : Z) : option Z :=
  Some (AdjustDifficulty target (spacing_of later earlier) (targetBlockTime p) (maxAdjustUp p) (maxAdjustDown p)).

(** ** Checks of a block against a target *)

Definition enforceDifficultyTarget (blk : FullBlock) (chainTarget : option Z) : outcome (option Z) :=
  match DecodeDifficulty (h_Difficulty (Header blk)) with
  | None => Normal chainTarget
  | Some blkTarget =>
      match chainTarget with
      | Some t => if t <? blkTarget then err "block difficulty easier than expected" else Normal (Some blkTarget)
      | None => Normal (Some blkTarget)
      end
  end.

Definition validateWorkForTarget (blk : FullBlock) (target : option Z) : outcome unit :=
  if IsBlockComplexityValid blk target then Normal tt else err "block hash above target".

(** ** Mining *)

(** What the clock and the stop channel do at an attempt. *)
Record attempt := MkAttempt { stopped : bool; now : Z }.

(** [MineNonce]: the nonce goes up from 0 until it reaches the bound, the channel is
    closed, or the hash is small enough; [world] gives the clock and the channel. *)
Fixpoint mine_loop (fuel : nat) (build : Z -> Z -> list Z) (target : Z) (world : Z -> attempt) (nonce : Z) : option (Z * Z) :=
  match fuel with
  | O => None
  | S f =>
      if stopped (world nonce) then None
      else let ts := now (world nonce) in
           if SetBytes (sha256_digest (build nonce ts)) <=? target then Some (nonce, ts)
           else mine_loop f build target world (nonce + 1)
  end.

Definition MineNonce (build : Z -> Z -> list Z) (cfg : PoWConfig) (world : Z -> attempt) : option (Z * Z) :=
  let target := effectiveTarget (Target cfg) in
  if target =? 0 then None
  else let maxNonce := if MaxNonce cfg =? 0 then 2 ^ 64 - 1 else MaxNonce cfg in
       mine_loop (Z.to_nat maxNonce) build target world 0.

(** [HeaderBuilderFactory()] *)
Definition buildHeader (base : BlockHeader) (nonce ts : Z) : list Z :=
  SerializeHeader (MkHeader (h_Height base) (h_PrevHash base) (h_TxRoot base) ts nonce (h_Miner base) (h_Difficulty base)).

Definition with_root (h : BlockHeader) (root : list Z) : BlockHeader :=
  MkHeader (h_Height h) (h_PrevHash h) (Some root) (h_Timestamp h) (h_Nonce h) (h_Miner h) (h_Difficulty h).

Section mine.
Context `{CanonicalJson}.

(** The reward of [AssembleBlock]. *)
Definition rewardTx (h : BlockHeader) (minersPubKey : string) : Tx :=
  MkTx minersPubKey "Reward" None (Some [MkTxOutput minersPubKey 1]) 1 (Some (obj [("height", Num (int (h_Height h)))])) "" "" "".

(** [AssembleBlock(h, pending, minersPubKey)]: also sets the root of [h], which is the
    header of the result; a root that cannot be computed is a panic. *)
Definition AssembleBlock (h : BlockHeader) (pending : list Tx) (minersPubKey : string) : outcome FullBlock :=
  let txs := rewardTx h minersPubKey :: pending in
  match ComputeTxRoot txs with
  | Throw (Error _ m) | Throw (Thrown m) => Throw (Error "panic" ("failed to compute TxRoot: " +:+ m))
  | Normal root =>
      let blk := MkFullBlock (with_root h root) txs None in
      Normal (set_Hash (Some (ComputeHash blk)) blk)
  end.

Definition with_difficulty (h : BlockHeader) (d : list Z) : BlockHeader :=
  MkHeader (h_Height h) (h_PrevHash h) (h_TxRoot h) (h_Timestamp h) (h_Nonce h) (h_Miner h) (Some d).
Definition with_nonce (h : BlockHeader) (nonce ts : Z) : BlockHeader :=
  MkHeader (h_Height h) (h_PrevHash h) (h_TxRoot h) ts nonce (h_Miner h) (h_Difficulty h).
Definition with_target (cfg : PoWConfig) (t : Z) : PoWConfig :=
  MkPoWConfig (Some t) (DisableDifficultyAdjustment cfg) (TargetBlockTime cfg) (MaxAdjustUp cfg) (MaxAdjustDown cfg) (MaxNonce cfg) (PubKey cfg).

(** [MineAndApply(stop, baseHeader, target)] of the consensus: on the buffer of
    transactions.  A block whose work is not valid is returned with the error. *)
Definition MineAndApply (powCfg : PoWConfig) (baseHeader : BlockHeader) (target : option Z) (world : Z -> attempt)
    : method TxBuffer FullBlock :=
  match target with
  | None => try (fun _ => err "invalid difficulty target for namecoin miner")
  | Some t => fun buffer =>
      let '((pending, order, snapshot), b) := Drain buffer in
      let hdr := with_difficulty baseHeader (Bytes_of t) in
      match AssembleBlock hdr pending (PubKey powCfg) with
      | Throw e => (Throw e, b)
      | Normal assembled =>
          let hdrBase := Header assembled in
          match MineNonce (buildHeader hdrBase) (with_target powCfg t) world with
          | None => (err "mining aborted", Requeue order snapshot b)
          | Some (nonce, ts) =>
              match AssembleBlock (with_nonce hdrBase nonce ts) pending (PubKey powCfg) with
              | Throw e => (Throw e, b)
              | Normal block =>
                  if IsBlockComplexityValid block (Some (SetBytes (elems (h_Difficulty hdrBase)))) then (Normal block, b)
                  else (err "block complexity is not valid", Requeue order snapshot b)
              end
          end
      end
  end.
End mine.
