(* ===== verification/NodePowFacts.v ===== *)
(** * Facts about the proof of work

    The encoding of targets, the bounds of [AdjustDifficulty], and what mining finds. *)

From S2P Require Import Prelude JsValue Json Sha256 Platform World Hash Go GoText NodeState NodeCommands NodeBlocks NodeMempool NodeHeaders NodePow.
Local Open Scope Z_scope.

(** ** Targets as bytes *)

Lemma SetBytes_snoc b x : SetBytes (b ++ [x]) = SetBytes b * 256 + x.
Proof. unfold SetBytes. by rewrite fold_left_app. Qed.

Lemma big_bytes_spec fuel x : 0 <= x < 256 ^ Z.of_nat fuel ->
  SetBytes (big_bytes fuel x) = x /\ bytes_ok (big_bytes fuel x).
Proof.
  revert x. induction fuel as [|f IH]; intros x Hx; cbn [big_bytes].
  { change (256 ^ Z.of_nat 0) with 1 in Hx. split; [cbn; lia|constructor]. }
  destruct (Z.leb_spec x 0) as [|Hp]; [split; [cbn; lia|constructor]|].
  rewrite Nat2Z.inj_succ, Z.pow_succ_r in Hx by lia.
  destruct (IH (x / 256)) as [Hs Hb]; [split; [apply Z.div_pos; lia|apply Z.div_lt_upper_bound; lia]|].
  rewrite SetBytes_snoc, Hs. pose proof (Z.mod_pos_bound x 256 ltac:(lia)). pose proof (Z.div_mod x 256 ltac:(lia)). split; [lia|].
  apply Forall_app_2; [done|]. constructor; [|constructor]. unfold is_byte. rewrite andb_true_iff, Z.leb_le, Z.ltb_lt. lia.
Qed.

Lemma log2_fuel x : 0 < x -> x < 256 ^ Z.of_nat (S (Z.to_nat (Z.log2 x))).
Proof.
  intros Hx. pose proof (Z.log2_spec x Hx) as [_ H]. pose proof (Z.log2_nonneg x). rewrite Nat2Z.inj_succ, Z2Nat.id by done.
  eapply Z.lt_le_trans; [exact H|]. apply Z.pow_le_mono_l. lia.
Qed.

Lemma Bytes_of_spec x : 0 <= x -> SetBytes (Bytes_of x) = x /\ bytes_ok (Bytes_of x).
Proof.
  intros Hx. apply big_bytes_spec. split; [done|]. destruct (Z.eq_dec x 0) as [->|]; [done|]. apply log2_fuel. lia.
Qed.

Lemma Bytes_of_nonempty x : 0 < x -> Bytes_of x <> [].
Proof. intros Hx E. destruct (Bytes_of_spec x) as [Hs _]; [lia|]. rewrite E in Hs. cbn in Hs. lia. Qed.

Lemma DecodeDifficulty_Bytes t : 0 < t -> DecodeDifficulty (Some (Bytes_of t)) = Some t.
Proof.
  intros Ht. pose proof (Bytes_of_nonempty t Ht). destruct (Bytes_of_spec t) as [Hs _]; [lia|].
  unfold DecodeDifficulty, elems. cbn [default from_option id]. destruct (Bytes_of t) as [|b l]; [done|]. by rewrite Hs.
Qed.

(** ** Retargeting *)

(** [times] with a smaller exponent. *)
Lemma times_at prev f e : e <= expo f ->
  times prev f = if 0 <=? e then prev * (mant f * 2 ^ (expo f - e)) * 2 ^ e else prev * (mant f * 2 ^ (expo f - e)) / 2 ^ (- e).
Proof.
  intros He. unfold times. destruct (Z.leb_spec 0 (expo f)), (Z.leb_spec 0 e); try lia.
  - replace (2 ^ expo f) with (2 ^ (expo f - e) * 2 ^ e) by (rewrite <- Z.pow_add_r by lia; f_equal; lia). ring.
  - replace (2 ^ (expo f - e)) with (2 ^ expo f * 2 ^ (- e)) by (rewrite <- Z.pow_add_r by lia; f_equal; lia).
    rewrite !Z.mul_assoc, Z.div_mul; [done|]. apply Z.pow_nonzero; lia.
  - replace (2 ^ (- e)) with (2 ^ (- expo f) * 2 ^ (expo f - e)) by (rewrite <- Z.pow_add_r by lia; f_equal; lia).
    rewrite !Z.mul_assoc, Z.div_mul_cancel_r; [done|..]; apply Z.pow_nonzero; lia.
Qed.

Lemma times_mono prev a b : 0 <= prev -> float_lt a b = false -> times prev b <= times prev a.
Proof.
  intros Hp Hl. unfold float_lt in Hl. apply Z.ltb_ge in Hl. set (e := Z.min (expo a) (expo b)) in *.
  rewrite (times_at prev a e), (times_at prev b e) by lia.
  pose proof (Z.mul_le_mono_nonneg_l _ _ prev Hp Hl). destruct (Z.leb_spec 0 e).
  - apply Z.mul_le_mono_nonneg_r; [apply Z.pow_nonneg; lia|done].
  - apply Z.div_le_mono; [apply Z.pow_pos_nonneg; lia|done].
Qed.

Lemma clamp_between prev r lo hi : 0 <= prev -> float_lt hi lo = false ->
  times prev lo <= times prev (clamp_ratio r lo hi) <= times prev hi.
Proof.
  intros Hp Hlh. unfold clamp_ratio. destruct (float_lt r lo) eqn:E1.
  - split; [done|]. by apply times_mono.
  - destruct (float_lt hi r) eqn:E2; [split; [by apply times_mono|done]|]. split; by apply times_mono.
Qed.

Lemma times_nonneg prev f : 0 <= prev -> 0 <= mant f -> 0 <= times prev f.
Proof.
  intros Hp Hm. unfold times. destruct (Z.leb_spec 0 (expo f)).
  - pose proof (Z.pow_nonneg 2 (expo f)). nia.
  - apply Z.div_pos; [nia|]. apply Z.pow_pos_nonneg; lia.
Qed.

(** ** Mining *)

(** The search returns the first nonce whose header hashes below the target, unless
    it was stopped before. *)
Lemma mine_loop_spec fuel build target world nonce n ts :
  mine_loop fuel build target world nonce = Some (n, ts) ->
  nonce <= n < nonce + Z.of_nat fuel /\ ts = now (world n) /\ SetBytes (sha256_digest (build n ts)) <= target /\
  forall k, nonce <= k < n -> target < SetBytes (sha256_digest (build k (now (world k)))).
Proof.
  revert nonce. induction fuel as [|f IH]; intros nonce; cbn [mine_loop]; [done|].
  destruct (stopped (world nonce)); [done|]. destruct (Z.leb_spec (SetBytes (sha256_digest (build nonce (now (world nonce))))) target) as [Hle|Hgt].
  - intros [= <- <-]. split_and!; [lia|lia|done|done|lia].
  - intros (Hn & Ht & Hs & Hk)%IH. split_and!; [lia|lia|done|done|]. intros k Hk'.
    destruct (Z.eq_dec k nonce) as [->|]; [done|]. apply Hk. lia.
Qed.
