(* ===== verification/NodeLedger.v ===== *)
(** * The local chain: [peer/impl/namecoin_chain.go] and the overlay of
    [namecoin_chain_service.go]

    Stores are objects that chains share: a chain refers to its store by its position
    in a heap of stores, an overlay refers to the store beneath it.  A stored block is
    the JSON document that [Marshal] makes, represented by its value. *)

From stdpp Require Import sorting.
From S2P Require Import Prelude JsValue Json Sha256 Platform World Hash Go GoText NodeState NodeCommands NodeBlocks NodeHeaders NodePow.
Local Open Scope Z_scope.

(** ** Stores *)

(** What a key holds: a document, or bytes that are none. *)
Inductive data := Raw (b : list Z) | Doc (v : value).

(** A persistent or in-memory store, or an overlay ([overlayStore]). *)
Inductive store :=
  | Base (m : gmap string data)
  | Overlay (base : nat) (written : gmap string data) (del : gset string).

Abbreviation heap := (list store).

(** [Get(key)]; an overlay is allocated after the store beneath it, so that the
    position bounds the depth. *)
Fixpoint get_at (fuel : nat) (hp : heap) (r : nat) (key : string) : option data :=
  match fuel with
  | O => None
  | S f =>
      match hp !! r with
      | Some (Base m) => m !! key
      | Some (Overlay base written del) =>
          if bool_decide (key ∈ del) then None
          else match written !! key with
               | Some v => Some v
               | None => get_at f hp base key
               end
      | None => None
      end
  end.
Definition Get (r : nat) (key : string) (hp : heap) : option data := get_at (S r) hp r key.

Definition set_in (key : string) (v : data) (s : store) : store :=
  match s with
  | Base m => Base (<[key := v]> m)
  | Overlay base written del => Overlay base (<[key := v]> written) (del ∖ {[key]})
  end.
Definition Set_ (r : nat) (key : string) (v : data) (hp : heap) : heap := alter (set_in key v) r hp.

Definition delete_in (key : string) (s : store) : store :=
  match s with
  | Base m => Base (delete key m)
  | Overlay base written del => Overlay base (delete key written) ({[key]} ∪ del)
  end.
Definition Delete (r : nat) (key : string) (hp : heap) : heap := alter (delete_in key) r hp.

(** [newOverlayStore(base)]: the position of the new store. *)
Definition newOverlayStore (base : nat) (hp : heap) : nat * heap := (length hp, hp ++ [Overlay base ∅ ∅]).

(** [Commit()] of the overlay at [r]. *)
Definition Commit (r : nat) (hp : heap) : heap :=
  match hp !! r with
  | Some (Overlay base written del) =>
      let hp := foldl (fun hp k => Delete base k hp) hp (elements del) in
      let hp := foldl (fun hp kv => Set_ base kv.1 kv.2 hp) hp (map_to_list written) in
      alter (fun _ => Overlay base ∅ ∅) r hp
  | _ => hp
  end.

(** ** Keys *)

Definition NamecoinBlockPrefix : string := "namecoin:block:".
Definition NamecoinLastBlockKey : string := "namecoin:last_block".

(** [fmt.Sprintf("%020d", height)] *)
Definition EncodeNamecoinBlockKey (height : Z) : string := NamecoinBlockPrefix +:+ pad_start 20 "0" (nat_to_string 10 height).

(** [strconv.ParseUint(s, 10, 64)] *)
Definition ParseUint (s : string) : option Z :=
  if starts_digit 10 s then
    let '(n, rest) := read_digits 10 0 s in
    if String.eqb rest "" && (n <? 2 ^ 64) then Some n else None
  else None.

Definition parseNamecoinBlockHeight (key : string) : option Z :=
  suffix ← strip NamecoinBlockPrefix key;
  if String.eqb suffix "" then None else ParseUint suffix.

(** ** Blocks of a store *)

Record loadedBlock := MkLoaded { l_Height : Z; l_Raw : data }.

Definition decodeLoadedBlock (lb : loadedBlock) : outcome FullBlock :=
  match l_Raw lb with
  | Raw _ => err "cannot unmarshal: invalid character"
  | Doc v =>
      blk ← wrapped "cannot unmarshal: " (Unmarshal v);
      if h_Height (Header blk) =? 0 then Normal (set_h_Height (l_Height lb) blk)
      else if negb (h_Height (Header blk) =? l_Height lb)
      then err ("block key height " +:+ dec (l_Height lb) +:+ " != header height " +:+ dec (h_Height (Header blk)))
      else Normal blk
  end.

(** ** The chain *)

Record NamecoinChain := MkChain {
  c_store : nat; c_state : NamecoinState; headHash : slice Z; headHeight : Z;
  powSeed : option Z; powTarget : option Z; c_powParams : powParams; headTS : Z
}.

Definition set_c_store (r : nat) (c : NamecoinChain) : NamecoinChain :=
  MkChain r (c_state c) (headHash c) (headHeight c) (powSeed c) (powTarget c) (c_powParams c) (headTS c).

(** [NewNamecoinChain(store)] *)
Definition NewNamecoinChain (r : nat) : NamecoinChain :=
  MkChain r NewState None 0 (Some defaultTarget) (Some defaultTarget) (powParamsFromConfig zero_config) 0.

(** [ConfigurePow(cfg)] *)
Definition ConfigurePow (cfg : PoWConfig) (c : NamecoinChain) : NamecoinChain :=
  let seed := Some (effectiveTarget (Target cfg)) in
  let fresh := bool_decide (headHash c = None) && (headHeight c =? 0) in
  MkChain (c_store c) (c_state c) (headHash c) (headHeight c) seed
    (if bool_decide (powTarget c = None) || fresh then seed else powTarget c) (powParamsFromConfig cfg) (headTS c).

(** [SetPowTarget(target)] *)
Definition SetPowTarget (target : option Z) (c : NamecoinChain) : NamecoinChain :=
  MkChain (c_store c) (c_state c) (headHash c) (headHeight c) target target (c_powParams c) (headTS c).

(** [blockAtHeight(height)] *)
Definition blockAtHeight (height : Z) (c : NamecoinChain) (hp : heap) : outcome FullBlock :=
  match Get (c_store c) (EncodeNamecoinBlockKey height) hp with
  | None => err ("no block at height " +:+ dec height)
  | Some raw => decodeLoadedBlock (MkLoaded height raw)
  end.

Section chain.
Context `{CanonicalJson} `{Ed25519}.

(** The steps that the two validations of a header share: the hash is the one of the
    header, which the block then carries; the block follows the head; its
    transactions have the root it claims. *)
Definition check_header (mismatch_msg root_msg root_prefix : string) (height : Z) (hash : slice Z) : method FullBlock unit :=
  blk ← asks id;
  let computed := ComputeHash blk in
  if negb (bool_decide (elems (Hash blk) = [])) && negb (bytes_Equal (Hash blk) (Some computed))
  then try (fun _ => err mismatch_msg)
  else
    _ ← assigns (set_Hash (CloneBytes (Some computed)));
    _ ← try (ensureNextBlockFollows height hash);
    root ← try (fun blk => wrapped root_prefix (ComputeTxRoot (Txs blk)));
    if negb (bytes_Equal (h_TxRoot (Header blk)) (Some root)) then try (fun _ => err root_msg) else mret tt.

(** [ValidateBlockHeader(currentHeadHeight, currentHeadHash, blk, target)] *)
Definition ValidateBlockHeader (height : Z) (hash : slice Z) (target : option Z) : method FullBlock unit :=
  _ ← check_header "block hash mismatch: payload hash != computed header hash" "txRoot mismatch"
        "failed to compute tx root: " height hash;
  validationTarget ← try (fun blk => enforceDifficultyTarget blk target);
  try (fun blk => validateWorkForTarget blk validationTarget).

(** [ValidateBlock(..., stateSnapshot)]: the snapshot after the block. *)
Definition ValidateBlock (height : Z) (hash : slice Z) (target : option Z) (st : NamecoinState) : method FullBlock NamecoinState :=
  _ ← ValidateBlockHeader height hash target;
  try (fun blk => match applyBlockStrict (contents blk) st with
                  | (Normal _, st') => Normal st'
                  | (Throw e, _) => Throw e
                  end).

(** The fields of a chain after a block. *)
Definition advance (c : NamecoinChain) (blk : FullBlock) (st : NamecoinState) : NamecoinChain :=
  let d := Header blk in
  let blockTarget := match DecodeDifficulty (h_Difficulty d) with Some t => Some t | None => powTarget c end in
  MkChain (c_store c) (replaceWith st (c_state c)) (CloneBytes (Some (ComputeHash blk))) (h_Height d) (powSeed c)
    (if dynamic (c_powParams c) && negb (headTS c =? 0)
     then next_target (c_powParams c) blockTarget (h_Timestamp d) (headTS c) else blockTarget)
    (c_powParams c) (h_Timestamp d).

(** The writes of a block to the store. *)
Definition persist (r : nat) (blk : FullBlock) (hp : heap) : heap :=
  Set_ r NamecoinLastBlockKey (Raw (ComputeHash blk))
    (Set_ r (EncodeNamecoinBlockKey (h_Height (Header blk))) (Doc (Marshal blk)) hp).

(** [ApplyBlock(blk)] of a chain: the block is validated on a copy of the state, its
    header again, and then the chain and its store change.  The receiver of the method
    is the block, whose hash is set. *)
Definition NamecoinChain_ApplyBlock (c : NamecoinChain) (hp : heap) : method FullBlock (NamecoinChain * heap) :=
  clonedState ← ValidateBlock (headHeight c) (CloneBytes (headHash c)) (powTarget c) (c_state c);
  _ ← ValidateBlockHeader (headHeight c) (headHash c) (powTarget c);
  asks (fun blk => (advance c blk clonedState, persist (c_store c) blk hp)).

(** ** Replay *)

(** [validateBlockOnReplay(currentHeadHeight, currentHeadHash, blk)]: the hash. *)
Definition validateBlockOnReplay (height : Z) (hash : slice Z) (blk : FullBlock) : outcome (list Z) :=
  match check_header "stored blk.Hash != ComputeHash()" "txRoot mismatch on replay" "compute tx root: " height hash blk with
  | (Normal _, blk') => Normal (ComputeHash blk')
  | (Throw e, _) => Throw e
  end.

(** [ReplayBlocks(state, blocks, storedHeadHash)]: blocks that cannot be decoded,
    checked or applied are skipped. *)
Fixpoint replay_loop (storedHeadHash : slice Z) (blocks : list loadedBlock) (hash : slice Z) (height : Z) (st : NamecoinState)
    : NamecoinState * slice Z * bool * Z :=
  match blocks with
  | [] => (st, hash, false, height)
  | lb :: blocks' =>
      match decodeLoadedBlock lb with
      | Throw _ => replay_loop storedHeadHash blocks' hash height st
      | Normal blk =>
          match validateBlockOnReplay height hash blk with
          | Throw _ => replay_loop storedHeadHash blocks' hash height st
          | Normal canonicalHash =>
              match ApplyBlock (contents blk) st with
              | (Throw _, st') => replay_loop storedHeadHash blocks' hash height st'
              | (Normal _, st') =>
                  let hash' := CloneBytes (Some canonicalHash) in
                  let height' := h_Height (Header blk) in
                  if negb (bool_decide (storedHeadHash = None)) && bytes_Equal (Some canonicalHash) storedHeadHash
                  then (st', hash', true, height')
                  else replay_loop storedHeadHash blocks' hash' height' st'
              end
          end
      end
  end.

Definition ReplayBlocks (st : NamecoinState) (blocks : list loadedBlock) (storedHeadHash : slice Z) :=
  replay_loop storedHeadHash blocks None 0 st.

(** ** Rebuilding the target *)

(** [rebuildPowState(blocks, headHeight)]; [prev] is the previous timestamp. *)
Fixpoint rebuild_loop (params : powParams) (head : Z) (blocks : list loadedBlock) (powTarget : Z) (prev : option Z) : Z * Z :=
  match blocks with
  | [] => (powTarget, default 0 prev)
  | lb :: blocks' =>
      if head <? l_Height lb then (powTarget, default 0 prev)
      else match decodeLoadedBlock lb with
           | Throw _ => rebuild_loop params head blocks' powTarget prev
           | Normal blk =>
               let d := Header blk in
               let blkTarget := default powTarget (DecodeDifficulty (h_Difficulty d)) in
               let powTarget' :=
                 match prev with
                 | Some headTS => if dynamic params then default 0 (next_target params (Some blkTarget) (h_Timestamp d) headTS) else blkTarget
                 | None => blkTarget
                 end in
               rebuild_loop params head blocks' powTarget' (Some (h_Timestamp d))
           end
  end.

Definition rebuildPowState (blocks : list loadedBlock) (head : Z) : Z * powParams * Z :=
  let params := powParamsFromConfig zero_config in
  let '(powTarget, headTS) := rebuild_loop params head blocks defaultTarget None in (powTarget, params, headTS).

(** [rebuildPowStateForFork(blocks, headHeight, seed, params)] *)
Fixpoint rebuild_fork_loop (params : powParams) (head : Z) (blocks : list loadedBlock) (powTarget prevTS : Z) : Z * Z :=
  match blocks with
  | [] => (powTarget, prevTS)
  | lb :: blocks' =>
      if head <? l_Height lb then (powTarget, prevTS)
      else match decodeLoadedBlock lb with
           | Throw _ => rebuild_fork_loop params head blocks' powTarget prevTS
           | Normal blk =>
               let d := Header blk in
               let blkTarget := default powTarget (DecodeDifficulty (h_Difficulty d)) in
               let powTarget' := if dynamic params && negb (prevTS =? 0)
                 then default 0 (next_target params (Some blkTarget) (h_Timestamp d) prevTS) else blkTarget in
               rebuild_fork_loop params head blocks' powTarget' (h_Timestamp d)
           end
  end.

Definition rebuildPowStateForFork (blocks : list loadedBlock) (head : Z) (seed : option Z) (params : powParams) : Z * Z :=
  rebuild_fork_loop params head blocks (effectiveTarget seed) 0.

(** ** Loading and forking *)

(** [forkUpToHeight(height, storeOverride)] on a store that was made for the fork. *)
Fixpoint load_range (r : nat) (hp : heap) (from : Z) (n : nat) : outcome (list loadedBlock) :=
  match n with
  | O => Normal []
  | S n' =>
      match Get r (EncodeNamecoinBlockKey from) hp with
      | None => err ("missing block at height " +:+ dec from)
      | Some raw => l ← load_range r hp (from + 1) n'; Normal (MkLoaded from raw :: l)
      end
  end.

Definition forkUpToHeight (height : Z) (forkStore : nat) (c : NamecoinChain) (hp : heap) : outcome NamecoinChain :=
  if headHeight c <? height
  then err ("cannot fork to height " +:+ dec height +:+ " above head " +:+ dec (headHeight c))
  else
    blocks ← load_range forkStore hp 0 (Z.to_nat (height + 1));
    let '(st, hash, _, reached) := ReplayBlocks NewState blocks None in
    if negb (reached =? height)
    then err ("replay stopped at height " +:+ dec reached +:+ " (expected " +:+ dec height +:+ ")")
    else
      let '(target, ts) := rebuildPowStateForFork blocks height (powSeed c) (c_powParams c) in
      Normal (MkChain forkStore st hash reached (powSeed c) (Some target) (c_powParams c) ts).

(** The blocks of a base store, by height. *)
Definition loaded_le (a b : loadedBlock) : Prop := l_Height a <= l_Height b.
#[export] Instance loaded_le_dec : RelDecision loaded_le.
Proof. intros a b. unfold loaded_le. apply _. Defined.

Definition scan_blocks (m : gmap string data) : list loadedBlock :=
  merge_sort loaded_le (omap (fun kv => h ← parseNamecoinBlockHeight kv.1; Some (MkLoaded h kv.2)) (map_to_list m)).

(** [CloneBytes(store.Get(NamecoinLastBlockKey))] *)
Definition stored_head (m : gmap string data) : slice Z :=
  match m !! NamecoinLastBlockKey with
  | Some (Raw b) => CloneBytes (Some b)
  | _ => None
  end.

(** [LoadNamecoinChain(store)] on the base store of a heap that has only this store:
    the chain, and the store with the head that was found. *)
Definition LoadNamecoinChain (m : gmap string data) : NamecoinChain * gmap string data :=
  match scan_blocks m with
  | [] => (NewNamecoinChain 0, m)
  | (first :: _) as blocks =>
      let '(st, hash, _, height) := ReplayBlocks NewState blocks (stored_head m) in
      let m' := match hash with Some b => <[NamecoinLastBlockKey := Raw b]> m | None => m end in
      let '(target, params, ts) := rebuildPowState blocks height in
      let seed := match decodeLoadedBlock first with
                  | Normal genesis => default defaultTarget (DecodeDifficulty (h_Difficulty (Header genesis)))
                  | Throw _ => defaultTarget
                  end in
      (MkChain 0 st hash height (Some seed) (Some target) params ts, m')
  end.
End chain.
