(* ===== verification/NodeForks.v ===== *)
(** * Forks and the choice between them: [peer/impl/namecoin_chain_service.go]

    Chains are never removed, so that a pointer to a chain is its position in
    [Chains].  A Go map is visited in an arbitrary order: [visit] is the order in which
    the chains that contain a block are visited. *)

From S2P Require Import Prelude JsValue Json Sha256 Platform World Hash Go GoText NodeState NodeUTXO NodeCommands NodeBlocks NodeHeaders NodePow NodeLedger.
Local Open Scope Z_scope.

Record blockMeta := MkMeta { m_height : Z; m_chains : gset nat }.

(** [ChainService], with the stores its chains refer to. *)
Record ChainService := MkService {
  stores : heap; Chains : list NamecoinChain; LongestChainIndex : nat;
  orphansByPrev : gmap string (list FullBlock); blockIndex : gmap string blockMeta
}.

Definition set_stores (hp : heap) (s : ChainService) : ChainService :=
  MkService hp (Chains s) (LongestChainIndex s) (orphansByPrev s) (blockIndex s).
Definition set_Chains (l : list NamecoinChain) (s : ChainService) : ChainService :=
  MkService (stores s) l (LongestChainIndex s) (orphansByPrev s) (blockIndex s).
Definition set_Longest (i : nat) (s : ChainService) : ChainService :=
  MkService (stores s) (Chains s) i (orphansByPrev s) (blockIndex s).
Definition set_orphans (f : gmap string (list FullBlock) -> gmap string (list FullBlock)) (s : ChainService) : ChainService :=
  MkService (stores s) (Chains s) (LongestChainIndex s) (f (orphansByPrev s)) (blockIndex s).
Definition set_index (f : gmap string blockMeta -> gmap string blockMeta) (s : ChainService) : ChainService :=
  MkService (stores s) (Chains s) (LongestChainIndex s) (orphansByPrev s) (f (blockIndex s)).

(** [ErrUnknownParent] *)
Definition unknown_parent {A} : outcome A := Throw (Error "ErrUnknownParent" "unknown parent").

Definition hashKeyHex (b : slice Z) : string := match b with None => "" | Some l => bytesToHex l end.

(** [bytes.Compare(a, b) < 0] *)
Fixpoint bytes_lt (a b : list Z) : bool :=
  match a, b with
  | _, [] => false
  | [], _ :: _ => true
  | x :: a', y :: b' => (x <? y) || ((x =? y) && bytes_lt a' b')
  end.

(** ** The index of blocks *)

(** [registerBlockUnlocked(chain, blk)] *)
Definition registerBlockUnlocked (i : nat) (blk : FullBlock) (s : ChainService) : ChainService :=
  match Hash blk with
  | None => s
  | Some h =>
      set_index (fun idx =>
        let meta := default (MkMeta (h_Height (Header blk)) ∅) (idx !! bytesToHex h) in
        <[bytesToHex h := MkMeta (m_height meta) ({[i]} ∪ m_chains meta)]> idx) s
  end.

Definition blockKnownUnlocked (hash : slice Z) (height : Z) (s : ChainService) : bool :=
  match hash with
  | None => false
  | Some h => match blockIndex s !! bytesToHex h with
              | Some meta => m_height meta =? height
              | None => false
              end
  end.

(** [indexChainUnlocked(chain)] *)
Definition index_height (i : nat) (c : NamecoinChain) (s : ChainService) (h : nat) : ChainService :=
  match blockAtHeight (Z.of_nat h) c (stores s) with
  | Normal blk => registerBlockUnlocked i blk s
  | Throw _ => s
  end.
Definition indexChainUnlocked (i : nat) (s : ChainService) : ChainService :=
  match Chains s !! i with
  | None => s
  | Some c => foldl (index_height i c) s (seq 0 (S (Z.to_nat (headHeight c))))
  end.

(** [NewChainService(chain)]; the heap is the one the chain's store is in. *)
Definition NewChainService (chain : NamecoinChain) (hp : heap) : ChainService :=
  indexChainUnlocked 0 (MkService hp [chain] 0 ∅ ∅).

(** [AppendChain(chain)] *)
Definition AppendChain (chain : NamecoinChain) (s : ChainService) : ChainService :=
  indexChainUnlocked (length (Chains s)) (set_Chains (Chains s ++ [chain]) s).

(** ** Orphans *)

(** [cloneBlock(b)] *)
Definition cloneBlock (b : FullBlock) : FullBlock :=
  let d := Header b in
  MkFullBlock (MkHeader (h_Height d) (CloneBytes (h_PrevHash d)) (CloneBytes (h_TxRoot d)) (h_Timestamp d) (h_Nonce d)
    (h_Miner d) (CloneBytes (h_Difficulty d))) (Txs b) (CloneBytes (Hash b)).

Definition storeOrphanUnlocked (blk : FullBlock) (s : ChainService) : ChainService :=
  if (h_Height (Header blk) =? 0) || bool_decide (h_PrevHash (Header blk) = None) then s
  else let bc := cloneBlock blk in
       let k := hashKeyHex (h_PrevHash (Header bc)) in
       set_orphans (fun o => <[k := default [] (o !! k) ++ [bc]]> o) s.

Definition popWaitingChildrenUnlocked (parentHash : slice Z) : method ChainService (list FullBlock) := fun s =>
  match parentHash with
  | None => (Normal [], s)
  | Some h =>
      match default [] (orphansByPrev s !! bytesToHex h) with
      | [] => (Normal [], s)
      | waiting => (Normal waiting, set_orphans (delete (bytesToHex h)) s)
      end
  end.

(** ** Chains for a parent *)

(** [newEmptyChainFrom(ref)] and the append: the position of the new chain. *)
Definition newEmptyChainFrom (ref : NamecoinChain) (s : ChainService) : nat * ChainService :=
  let '(r, hp) := newOverlayStore (c_store ref) (stores s) in
  let c := MkChain r NewState None 0 (powSeed ref) (powSeed ref) (c_powParams ref) 0 in
  (length (Chains s), set_Chains (Chains s ++ [c]) (set_stores hp s)).

Definition is_empty_chain (c : NamecoinChain) : bool := bool_decide (headHash c = None) && (headHeight c =? 0).

(** The first position that satisfies a test. *)
Fixpoint find_index (f : NamecoinChain -> bool) (i : nat) (l : list NamecoinChain) : option nat :=
  match l with
  | [] => None
  | c :: l' => if f c then Some i else find_index f (S i) l'
  end.

Definition handleGenesisUnlocked (index : nat) : method ChainService nat := fun s =>
  match find_index is_empty_chain 0 (Chains s) with
  | Some i => (Normal i, s)
  | None =>
      match Chains s !! index with
      | None => (unknown_parent, s)
      | Some ref => let '(i, s') := newEmptyChainFrom ref s in (Normal i, s')
      end
  end.

Definition findHeadByHashUnlocked (hash : slice Z) (s : ChainService) : option nat :=
  find_index (fun c => bytes_Equal (headHash c) hash) 0 (Chains s).

(** The loop over the chains that contain the parent: the first highest one visited. *)
Definition better_base (s : ChainService) (base : option nat) (i : nat) : option nat :=
  match base with
  | None => Some i
  | Some b => match Chains s !! i, Chains s !! b with
              | Some ci, Some cb => if headHeight cb <? headHeight ci then Some i else Some b
              | _, _ => Some b
              end
  end.

Section service.
Context `{CanonicalJson} `{Ed25519} (visit : ChainService -> gset nat -> list nat).

(** A fork of a chain, appended and indexed: the store of the fork is allocated even if
    the replay fails, the chain is not appended then. *)
Definition fork_at (height : Z) (base : NamecoinChain) : method ChainService nat := fun s =>
  let '(r, hp) := newOverlayStore (c_store base) (stores s) in
  match forkUpToHeight height r base hp with
  | Throw e => (Throw e, set_stores hp s)
  | Normal origin =>
      let i := length (Chains s) in
      (Normal i, indexChainUnlocked i (set_Chains (Chains s ++ [origin]) (set_stores hp s)))
  end.

(** [forkFromParentMetaUnlocked(meta)] *)
Definition forkFromParentMetaUnlocked (meta : blockMeta) : method ChainService nat := fun s =>
  match foldl (better_base s) None (visit s (m_chains meta)) ≫= (fun i => Chains s !! i) with
  | None => (unknown_parent, s)
  | Some base => fork_at (m_height meta) base s
  end.

(** [ReplayLongestChainBack(originHash)]: the chain that is visited first, or a fork
    of it. *)
Definition ReplayLongestChainBack (originHash : slice Z) : method ChainService nat := fun s =>
  match (match originHash with None => None | Some _ => blockIndex s !! hashKeyHex originHash end) with
  | None => (unknown_parent, s)
  | Some meta =>
      let i := match visit s (m_chains meta) with i :: _ => i | [] => LongestChainIndex s end in
      match Chains s !! i with
      | None => (unknown_parent, s)
      | Some base => if bytes_Equal (headHash base) originHash then (Normal i, s) else fork_at (m_height meta) base s
      end
  end.

(** [ensureChainForParentUnlocked(index, blk)] *)
Definition ensureChainForParentUnlocked (index : nat) (blk : FullBlock) : method ChainService nat := fun s =>
  if h_Height (Header blk) =? 0 then handleGenesisUnlocked index s
  else match h_PrevHash (Header blk) with
       | None => (unknown_parent, s)
       | Some _ as parentHash =>
           match findHeadByHashUnlocked parentHash s with
           | Some i => (Normal i, s)
           | None =>
               match blockIndex s !! hashKeyHex parentHash with
               | None => (unknown_parent, s)
               | Some meta => forkFromParentMetaUnlocked meta s
               end
           end
       end.

(** ** The longest chain *)

(** The comparison of [maybePromoteLongest]: the candidate is not promoted. *)
Definition keeps_current (cand curr : NamecoinChain) : bool :=
  if headHeight cand <? headHeight curr then true
  else if headHeight cand =? headHeight curr then
    match headHash curr, headHash cand with
    | Some h, Some h' => negb (bytes_lt h' h)
    | _, _ => false
    end
  else false.

Definition maybePromoteLongest (i : nat) (s : ChainService) : ChainService :=
  match Chains s !! i, Chains s !! LongestChainIndex s with
  | Some cand, Some curr =>
      if keeps_current cand curr then s
      else
        let s := match stores s !! c_store cand with
                 | Some (Overlay base _ _) =>
                     set_Chains (<[i := set_c_store base cand]> (Chains s)) (set_stores (Commit (c_store cand) (stores s)) s)
                 | _ => s
                 end in
        set_Longest i s
  | _, _ => s
  end.

(** ** Blocks *)

Definition is_follow_error (e : exn) : bool :=
  match e with Error n _ => String.eqb n "ChainFollowError" | _ => false end.
Definition is_unknown_parent (e : exn) : bool :=
  match e with Error n _ => String.eqb n "ErrUnknownParent" | _ => false end.

(** [processSingleBlockUnlocked(index, blk)]: the blocks that waited for this one. *)
Definition processSingleBlockUnlocked (index : nat) (blk : FullBlock) : method ChainService (list FullBlock) := fun s =>
  if blockKnownUnlocked (Hash blk) (h_Height (Header blk)) s then popWaitingChildrenUnlocked (Hash blk) s
  else
    match ensureChainForParentUnlocked index blk s with
    | (Throw e, s) => if is_unknown_parent e then (Normal [], storeOrphanUnlocked blk s) else (Throw e, s)
    | (Normal i, s) =>
        match Chains s !! i with
        | None => (Throw (Error "panic" "index out of range"), s)
        | Some origin =>
            match NamecoinChain_ApplyBlock origin (stores s) blk with
            | (Throw e, blk) => if is_follow_error e then (Normal [], storeOrphanUnlocked blk s) else (Throw e, s)
            | (Normal (origin', hp), blk) =>
                let s := set_Chains (<[i := origin']> (Chains s)) (set_stores hp s) in
                let s := maybePromoteLongest i (registerBlockUnlocked i blk s) in
                popWaitingChildrenUnlocked (Hash blk) s
            end
        end
    end.

(** [processPendingBlocksUnlocked(index, initial)]: the loop, with the first error; the
    flag says that the queue was worked off.  A panic, which ends the process, is
    reported like an error. *)
Fixpoint pending_loop (fuel : nat) (index : nat) (pending : list FullBlock) (firstErr : option exn) (s : ChainService)
    : bool * option exn * ChainService :=
  match pending with
  | [] => (true, firstErr, s)
  | blk :: pending' =>
      match fuel with
      | O => (false, firstErr, s)
      | S f =>
          match processSingleBlockUnlocked index blk s with
          | (Normal children, s') => pending_loop f index (pending' ++ children) firstErr s'
          | (Throw e, s') => pending_loop f index pending' (match firstErr with None => Some e | _ => firstErr end) s'
          end
      end
  end.

(** How many blocks wait. *)
Definition waiting (s : ChainService) : nat := Z.to_nat (msum (fun l => Z.of_nat (length l)) (orphansByPrev s)).

(** Enough for the queue ([NodeConsensus.pending_finishes]). *)
Definition enough (n : nat) : nat := S n * S n.

Definition processPendingBlocksUnlocked (index : nat) (initial : FullBlock) (s : ChainService) : bool * option exn * ChainService :=
  pending_loop (enough (S (waiting s))) index [initial] None s.

(** [AppendBlockToChain(index, block)]: whether the head of the longest chain changed,
    and the first error. *)
Definition AppendBlockToChain (index : nat) (block : FullBlock) (s : ChainService) : (bool * option exn) * ChainService :=
  let head s := match Chains s !! LongestChainIndex s with
                | Some c => (CloneBytes (headHash c), headHeight c)
                | None => (None, 0)
                end in
  let '(beforeHash, beforeHeight) := head s in
  let '(_, firstErr, s') := processPendingBlocksUnlocked index block s in
  let '(afterHash, afterHeight) := head s' in
  ((negb (beforeHeight =? afterHeight) || negb (bytes_Equal beforeHash afterHash), firstErr), s').

Definition AppendBlockToLongestChain (block : FullBlock) (s : ChainService) : (bool * option exn) * ChainService :=
  AppendBlockToChain (LongestChainIndex s) block s.
End service.
