(* ===== verification/NodeForkChoice.v ===== *)
(** * Forks: what one step of the service changes, and its termination

    [process_finishes]: the queue of blocks is always worked off. *)

From S2P Require Import Prelude JsValue Json Sha256 Platform World Hash Go GoText NodeState NodeUTXO NodeCommands NodeBlocks NodeHeaders NodePow NodeLedger NodeForks.
Local Open Scope Z_scope.

(** ** Counting the blocks that wait *)

Definition weight (o : gmap string (list FullBlock)) : Z := msum (fun l => Z.of_nat (length l)) o.

Lemma weight_nonneg o : 0 <= weight o.
Proof. apply msum_nonneg. intros k l _. lia. Qed.

Lemma waiting_weight s : Z.of_nat (waiting s) = weight (orphansByPrev s).
Proof. unfold waiting. fold (weight (orphansByPrev s)). pose proof (weight_nonneg (orphansByPrev s)). lia. Qed.

Lemma weight_store blk s : weight (orphansByPrev (storeOrphanUnlocked blk s)) <= weight (orphansByPrev s) + 1.
Proof.
  unfold storeOrphanUnlocked. case_match; [lia|]. cbn [orphansByPrev set_orphans]. unfold weight. rewrite msum_insert.
  rewrite length_app. cbn [length]. destruct (orphansByPrev s !! _); cbn [default from_option id length]; lia.
Qed.

Lemma pop_spec h s r s' : popWaitingChildrenUnlocked h s = (r, s') ->
  exists l, r = Normal l /\ Z.of_nat (length l) + weight (orphansByPrev s') = weight (orphansByPrev s) /\
    Chains s' = Chains s /\ LongestChainIndex s' = LongestChainIndex s /\ stores s' = stores s /\ blockIndex s' = blockIndex s.
Proof.
  unfold popWaitingChildrenUnlocked. destruct h as [h|]; [|intros [= <- <-]; by exists []].
  destruct (orphansByPrev s !! bytesToHex h) as [[|b l]|] eqn:E; cbn [default from_option id]; intros [= <- <-];
    [by exists []| |by exists []].
  eexists. split; [done|]. split_and!; [|done..]. cbn [orphansByPrev set_orphans]. unfold weight.
  rewrite (msum_delete _ _ _ _ E). done.
Qed.

(** ** What the steps do to the chains and to the orphans *)

Lemma register_frame i blk s :
  let s' := registerBlockUnlocked i blk s in
  Chains s' = Chains s /\ LongestChainIndex s' = LongestChainIndex s /\ stores s' = stores s /\ orphansByPrev s' = orphansByPrev s.
Proof. unfold registerBlockUnlocked. by destruct (Hash blk). Qed.

Lemma index_frame i s :
  let s' := indexChainUnlocked i s in
  Chains s' = Chains s /\ LongestChainIndex s' = LongestChainIndex s /\ stores s' = stores s /\ orphansByPrev s' = orphansByPrev s.
Proof.
  unfold indexChainUnlocked. destruct (Chains s !! i) as [c|]; [|done]. cbv zeta.
  generalize (seq 0 (S (Z.to_nat (headHeight c)))). intros l. revert s. induction l as [|h l IH]; intros s; [done|].
  cbn [foldl]. destruct (IH (index_height i c s h)) as (-> & -> & -> & ->). unfold index_height.
  destruct (blockAtHeight _ _ _) as [b|]; [|done]. apply register_frame.
Qed.

Lemma promote_orphans i s : orphansByPrev (maybePromoteLongest i s) = orphansByPrev s.
Proof. unfold maybePromoteLongest. by repeat case_match. Qed.

Section steps.
Context `{CanonicalJson} `{Ed25519} (visit : ChainService -> gset nat -> list nat).

(** A chain for the parent is one of the chains, or one that is appended. *)
Lemma ensure_frame index blk s r s' :
  ensureChainForParentUnlocked visit index blk s = (r, s') ->
  LongestChainIndex s' = LongestChainIndex s /\ orphansByPrev s' = orphansByPrev s /\
  (Chains s' = Chains s \/ exists c, Chains s' = Chains s ++ [c] /\ r = Normal (length (Chains s)) /\
     ((headHash c = None /\ headHeight c = 0) \/
      exists i b, Chains s !! i = Some b /\ headHeight c <= headHeight b)).
Proof.
  unfold ensureChainForParentUnlocked. case_match.
  - unfold handleGenesisUnlocked, newEmptyChainFrom, newOverlayStore.
    destruct (find_index _ _ _) as [i|]; [intros [= <- <-]; auto|].
    destruct (Chains s !! index) as [ref|]; intros [= <- <-]; [|auto]. split_and!; [done..|]. right.
    eexists. split; [done|]. split; [done|]. by left.
  - destruct (h_PrevHash (Header blk)) as [p|]; [|intros [= <- <-]; auto].
    destruct (findHeadByHashUnlocked _ _) as [i|]; [intros [= <- <-]; auto|].
    destruct (blockIndex s !! _) as [meta|]; [|intros [= <- <-]; auto]. unfold forkFromParentMetaUnlocked, fork_at.
    destruct (foldl _ _ _ ≫= _) as [base|] eqn:Eb; [|intros [= <- <-]; auto].
    apply bind_Some in Eb as (ib & _ & Eb). destruct (newOverlayStore _ _) as [ref hp].
    destruct (forkUpToHeight _ _ _ _) as [origin|] eqn:Ef; intros [= <- <-]; [|auto].
    destruct (index_frame (length (Chains s)) (set_Chains (Chains s ++ [origin]) (set_stores hp s))) as (-> & -> & _ & ->).
    split_and!; [done..|]. right. exists origin. split_and!; [done..|]. right. exists ib, base. split; [done|].
    unfold forkUpToHeight in Ef. destruct (Z.ltb_spec (headHeight base) (m_height meta)) as [|Hle]; [done|].
    apply outcome_bind_Normal in Ef as (blocks & _ & Ef). destruct (ReplayBlocks _ _ _) as [[[st hash] found] reached].
    destruct (Z.eqb_spec reached (m_height meta)) as [Er|]; [|done]. cbn [negb] in Ef.
    destruct (rebuildPowStateForFork _ _ _ _) as [t ts]. injection Ef as <-. cbn. lia.
Qed.

(** ** Termination *)

Lemma single_waiting index blk s r s' :
  processSingleBlockUnlocked visit index blk s = (r, s') ->
  match r with
  | Normal l => Z.of_nat (length l) + weight (orphansByPrev s') <= weight (orphansByPrev s) \/
                (l = [] /\ weight (orphansByPrev s') <= weight (orphansByPrev s) + 1)
  | Throw _ => weight (orphansByPrev s') <= weight (orphansByPrev s)
  end.
Proof.
  unfold processSingleBlockUnlocked. case_match; [intros (l & -> & Hl & _)%pop_spec; left; lia|].
  destruct (ensureChainForParentUnlocked _ _ _ _) as [r1 s1] eqn:E. apply ensure_frame in E as (_ & Eo & _).
  destruct r1 as [i|e].
  - destruct (Chains s1 !! i) as [c|]; [|intros [= <- <-]; rewrite Eo; lia].
    destruct (NamecoinChain_ApplyBlock c (stores s1) blk) as [[[c' hp]|e] blk'].
    + intros (l & -> & Hl & _)%pop_spec. left. rewrite promote_orphans in Hl.
      destruct (register_frame i blk' (set_Chains (<[i:=c']> (Chains s1)) (set_stores hp s1))) as (_ & _ & _ & Er).
      rewrite Er in Hl. cbn [orphansByPrev set_Chains set_stores] in Hl. rewrite Eo in Hl. lia.
    + case_match; intros [= <- <-]; [|rewrite Eo; lia]. right. split; [done|].
      rewrite <- Eo. apply weight_store.
  - case_match; intros [= <- <-]; [|rewrite Eo; lia]. right. split; [done|]. rewrite <- Eo. apply weight_store.
Qed.

(** The queue is worked off: every step takes a block out of the system, or leaves
    it among the orphans with one block less to process. *)
Lemma pending_loop_finishes fuel index pending e s :
  let n := Z.of_nat (length pending) in let t := n + weight (orphansByPrev s) in
  t * (t + 1) + n <= Z.of_nat fuel -> (pending_loop visit fuel index pending e s).1.1 = true.
Proof.
  cbv zeta. revert pending e s. induction fuel as [|f IH]; intros [|blk pending] e s Hf; cbn [pending_loop]; try done.
  { exfalso. pose proof (weight_nonneg (orphansByPrev s)). cbn [length] in Hf. nia. }
  pose proof (weight_nonneg (orphansByPrev s)) as Hw. cbn [length] in Hf.
  destruct (processSingleBlockUnlocked visit index blk s) as [[l|x] s'] eqn:E; apply single_waiting in E;
    pose proof (weight_nonneg (orphansByPrev s')); apply IH; [|nia].
  rewrite length_app. destruct E as [E|[-> E]]; cbn [length]; nia.
Qed.

Lemma process_finishes index blk s : (processPendingBlocksUnlocked visit index blk s).1.1 = true.
Proof.
  unfold processPendingBlocksUnlocked. apply pending_loop_finishes. cbn [length]. unfold enough.
  pose proof (waiting_weight s). pose proof (weight_nonneg (orphansByPrev s)). nia.
Qed.
End steps.
