(* ===== verification/NodeHistory.v ===== *)
(** * The history of a chain

    What is true of a chain whose blocks were accepted one after the other, of the
    stores that hold them, and of a replay: lemmas for the invariant of the service
    ([NodeForkSafety]) and for restarts ([NodeRestart]). *)

From S2P Require Import Prelude JsValue Json JsonFacts JsonCanon Sha256 Platform World Hash Go GoText NodeState NodeUTXO NodeCommands NodeBlocks.
From S2P Require Import NodeSafety NodeChain NodeProgress NodeHeaders NodePow NodeLedger.
Local Open Scope Z_scope.

Lemma distinct_eq {A B} (f : A -> B) l a b : NoDup (f <$> l) -> a ∈ l -> b ∈ l -> f a = f b -> a = b.
Proof.
  intros Hd [i Hi]%list_elem_of_lookup [j Hj]%list_elem_of_lookup E.
  assert (i = j) as ->; [|congruence]. apply (NoDup_lookup (f <$> l) i j (f a)); [done|by rewrite list_lookup_fmap, Hi|].
  by rewrite list_lookup_fmap, Hj, E.
Qed.

(** ** Stores *)

(** Some store of the heap has the value under the key. *)
Definition holds (hp : heap) (k : string) (v : data) : Prop :=
  exists r m, m !! k = Some v /\ (hp !! r = Some (Base m) \/ exists b d, hp !! r = Some (Overlay b m d)).

Lemma Get_holds r k hp v : Get r k hp = Some v -> holds hp k v.
Proof.
  unfold Get. generalize (S r). intros fuel. revert r. induction fuel as [|f IH]; intros r; cbn [get_at]; [done|].
  destruct (hp !! r) as [[m|b m d]|] eqn:E; [|case_bool_decide; [done|]|done].
  - intros Hv. exists r, m. auto.
  - destruct (m !! k) as [v'|] eqn:Em; [|apply IH]. intros [= ->]. exists r, m. eauto.
Qed.

Lemma holds_alter (f : store -> store) r hp k v (P : Prop) :
  (forall s m, (f s = Base m \/ exists b d, f s = Overlay b m d) -> m !! k = Some v ->
     P \/ exists m', m' !! k = Some v /\ (s = Base m' \/ exists b d, s = Overlay b m' d)) ->
  holds (alter f r hp) k v -> P \/ holds hp k v.
Proof.
  intros Hf (r' & m & Hm & Hs). destruct (decide (r' = r)) as [->|Hne].
  - rewrite list_lookup_alter_eq in Hs. destruct (hp !! r) as [s|] eqn:E; [|by destruct Hs as [?|(?&?&?)]].
    destruct (Hf s m) as [?|(m' & Hm' & Hs')]; [|done|by left|].
    + destruct Hs as [[= ?]|(b & d & [= ?])]; eauto.
    + right. exists r, m'. split; [done|]. destruct Hs' as [->|(b & d & ->)]; eauto.
  - rewrite list_lookup_alter_ne in Hs by done. right. by exists r', m.
Qed.

Lemma holds_Set r k v hp k' v' : holds (Set_ r k v hp) k' v' -> (k' = k /\ v' = v) \/ holds hp k' v'.
Proof.
  apply holds_alter. intros [m|b m d] m1 [E|(b' & d' & E)] Hm; cbn in E; simplify_eq;
    apply lookup_insert_Some in Hm as [[<- <-]|[_ Hm]]; eauto 10.
Qed.

Lemma holds_Delete r k hp k' v' : holds (Delete r k hp) k' v' -> holds hp k' v'.
Proof.
  intros Hh. assert (False \/ holds hp k' v') as [[]|]; [|done]. revert Hh. apply holds_alter.
  intros [m|b m d] m1 [E|(b' & d' & E)] Hm; cbn in E; simplify_eq;
    apply lookup_delete_Some in Hm as [_ Hm]; eauto 10.
Qed.

Lemma holds_Commit r hp k v : holds (Commit r hp) k v -> holds hp k v.
Proof.
  unfold Commit. destruct (hp !! r) as [[m|b m d]|] eqn:E; [done| |done].
  assert (forall l hp', (forall k v, holds hp' k v -> holds hp k v) ->
    forall k v, holds (foldl (fun hp k => Delete b k hp) hp' l) k v -> holds hp k v) as Hd.
  { induction l as [|x l IH]; intros hp' Hhp; cbn [foldl]; [done|]. apply IH. intros k' v' Hk. apply Hhp. by apply holds_Delete in Hk. }
  assert (forall l hp', (forall kv, kv ∈ l -> m !! kv.1 = Some kv.2) -> (forall k v, holds hp' k v -> holds hp k v) ->
    forall k v, holds (foldl (fun hp kv => Set_ b kv.1 kv.2 hp) hp' l) k v -> holds hp k v) as Hs.
  { induction l as [|x l IH]; intros hp' Hl Hhp; cbn [foldl]; [done|]. apply IH; [intros kv Hkv; apply Hl; by apply elem_of_cons; right|].
    intros k' v' [[-> ->]|Hk]%holds_Set; [|by apply Hhp]. exists r, m. split; [apply Hl; by apply elem_of_cons; left|eauto]. }
  intros Hh. assert (False \/ holds (foldl (fun hp kv => Set_ b kv.1 kv.2 hp)
    (foldl (fun hp k => Delete b k hp) hp (elements d)) (map_to_list m)) k v) as [[]|Hh'].
  { revert Hh. apply holds_alter. intros s m1 [[=]|(b' & d' & [= <- <- <-])] Hm. by rewrite lookup_empty in Hm. }
  eapply Hs; [| |exact Hh']; [intros [k' v']; by rewrite elem_of_map_to_list|]. by apply Hd.
Qed.

Lemma holds_overlay base hp r hp' k v : newOverlayStore base hp = (r, hp') -> holds hp' k v -> holds hp k v.
Proof.
  intros [= <- <-] (r' & m & Hm & Hs). exists r', m. split; [done|].
  assert (forall s, (hp ++ [Overlay base ∅ ∅]) !! r' = Some s -> hp !! r' = Some s \/ s = Overlay base ∅ ∅) as Ha.
  { intros s [?|[_ Hs']]%lookup_app_Some; [by left|]. right. apply list_lookup_singleton_Some in Hs' as [_ ?]. done. }
  destruct Hs as [Hs|(b & d & Hs)]; apply Ha in Hs as [Hs|[= ]]; eauto. subst m. by rewrite lookup_empty in Hm.
Qed.

(** ** Keys *)

Lemma strip_app p s : strip p (p +:+ s) = Some s.
Proof.
  assert (is_prefix p (p +:+ s) = true /\ forall n, (String.length s <= n)%nat ->
    String.substring (String.length p) (String.length p + n) (p +:+ s) = s) as [H1 H2].
  { induction p as [|c p [IH1 IH2]].
    - rewrite string_app_nil_l. split; [done|]. intros n Hn. by apply substring_all.
    - rewrite string_app_cons. cbn [is_prefix String.length String.substring]. rewrite Ascii.eqb_refl, IH1. split; [done|].
      intros n Hn. rewrite <- (IH2 (S n)) at 2 by lia. f_equal. cbn. lia. }
  unfold strip, substr. rewrite H1, string_length_app. f_equal. by apply H2.
Qed.

Lemma parse_key h : is_u64 h -> parseNamecoinBlockHeight (EncodeNamecoinBlockKey h) = Some h.
Proof.
  intros Hh. unfold is_u64 in Hh. assert (0 <= h < 10 ^ Z.of_nat 20) as Hb by lia.
  pose proof (read_pad_start h 20 0 "" Hb ltac:(lia)) as Hr. rewrite string_app_nil_r in Hr.
  assert (exists c s, pad_start 20 "0" (nat_to_string 10 h) = String c s) as (c & s & Ep).
  { destruct (pad_start 20 "0" (nat_to_string 10 h)) as [|c s] eqn:E; [|by eauto].
    pose proof (length_nat_to_string 10 ltac:(lia) h 20 Hb ltac:(lia)). pose proof (length_pad_start 20 "0" (nat_to_string 10 h)). rewrite E in *. cbn in *. lia. }
  unfold parseNamecoinBlockHeight, EncodeNamecoinBlockKey. rewrite Ep in *.
  rewrite strip_app.
  cbn [mbind option_bind String.eqb]. unfold ParseUint, starts_digit. cbn [read_digits] in Hr.
  destruct (digit_val 10 c) as [d|] eqn:Ed; [|discriminate Hr].
  cbn [read_digits]. rewrite Ed, Hr, Z.mul_0_l, Z.add_0_l. cbn [String.eqb andb]. destruct (Z.ltb_spec h (2 ^ 64)); [done|lia].
Qed.

Lemma key_inj h h' : is_u64 h -> is_u64 h' -> EncodeNamecoinBlockKey h = EncodeNamecoinBlockKey h' -> h = h'.
Proof. intros Hh Hh' E. apply parse_key in Hh, Hh'. rewrite E in Hh. congruence. Qed.

Lemma key_not_head h : is_u64 h -> EncodeNamecoinBlockKey h <> NamecoinLastBlockKey.
Proof. intros Hh E. apply parse_key in Hh. rewrite E in Hh. vm_compute in Hh. done. Qed.

(** ** Accepted blocks *)

Section history.
Context `{CanonicalJson} `{Ed25519}.

(** The block with the hash of its header. *)
Definition sealed (b : FullBlock) : FullBlock := set_Hash (Some (ComputeHash b)) b.

Definition rooted (b : FullBlock) : Prop :=
  exists root, ComputeTxRoot (Txs b) = Normal root /\ elems (h_TxRoot (Header b)) = root.

(** The hash does not exceed the target the header names. *)
Definition worked (b : FullBlock) : Prop :=
  forall t, DecodeDifficulty (h_Difficulty (Header b)) = Some t -> SetBytes (ComputeHash b) <= t.

(** It does not exceed a target that is not below the one the header names. *)
Definition meets (b : FullBlock) (t : Z) : Prop :=
  SetBytes (ComputeHash b) <= t /\ forall d, DecodeDifficulty (h_Difficulty (Header b)) = Some d -> d <= t.

Lemma clone_hash b : CloneBytes (Some (ComputeHash b)) = Some (ComputeHash b).
Proof. pose proof (ComputeHash_nonempty b). unfold CloneBytes. by destruct (ComputeHash b). Qed.

Lemma sealed_hash b : ComputeHash (sealed b) = ComputeHash b.
Proof. done. Qed.

Lemma check_header_spec m1 m2 m3 height hash b r b' :
  check_header m1 m2 m3 height hash b = (r, b') ->
  (b' = b \/ b' = sealed b) /\
  (r = Normal tt -> b' = sealed b /\ ensureNextBlockFollows height hash b = Normal tt /\ rooted b).
Proof.
  unfold check_header. rewrite bind_asks. unfold id. destruct (negb _ && negb _); [intros [= <- <-]; split; [by auto|done]|].
  rewrite bind_assigns, clone_hash, !bind_try. fold (sealed b).
  change (ensureNextBlockFollows height hash (sealed b)) with (ensureNextBlockFollows height hash b).
  destruct (ensureNextBlockFollows height hash b) as [[]|]; [|intros [= <- <-]; split; [by auto|done]].
  change (Txs (sealed b)) with (Txs b). destruct (wrapped m3 (ComputeTxRoot (Txs b))) as [root|] eqn:Er; [|intros [= <- <-]; split; [by auto|done]].
  apply wrapped_Normal in Er. unfold bytes_Equal. case_bool_decide as Hr; intros [= <- <-]; [|split; [by auto|done]].
  split; [by right|]. intros _. split_and!; [done..|]. by exists root.
Qed.

Lemma check_header_ok m1 m2 m3 height hash b :
  (elems (Hash b) = [] \/ elems (Hash b) = ComputeHash b) -> ensureNextBlockFollows height hash b = Normal tt -> rooted b ->
  check_header m1 m2 m3 height hash b = (Normal tt, sealed b).
Proof.
  intros Hb Hf (root & Hr & Ht). unfold check_header. rewrite bind_asks. unfold id.
  assert (negb (bool_decide (elems (Hash b) = [])) && negb (bytes_Equal (Hash b) (Some (ComputeHash b))) = false) as ->.
  { apply andb_false_iff. unfold bytes_Equal. cbn [elems default from_option id].
    destruct Hb as [Hb|Hb]; [left|right]; by rewrite bool_decide_true. }
  rewrite bind_assigns, clone_hash, !bind_try. fold (sealed b).
  change (ensureNextBlockFollows height hash (sealed b)) with (ensureNextBlockFollows height hash b). rewrite Hf.
  change (Txs (sealed b)) with (Txs b). rewrite (proj2 (wrapped_Normal _ _ _) Hr). unfold bytes_Equal. cbn. by rewrite bool_decide_true.
Qed.

(** The hash of the head: none, or not empty. *)
Definition head_hash_ok (c : NamecoinChain) : Prop := headHash c <> Some [].

(** What an accepted block does to a chain. *)
Record applied (c : NamecoinChain) (hp : heap) (b : FullBlock) (c' : NamecoinChain) (hp' : heap) : Prop := {
  ap_follows : ensureNextBlockFollows (headHeight c) (headHash c) b = Normal tt;
  ap_rooted : rooted b;
  ap_worked : worked b;
  ap_target : forall t, powTarget c = Some t -> meets b t;
  ap_state : chainApplyBlock (contents b) (c_state c) = (Normal tt, c_state c');
  ap_chain : c' = advance c (sealed b) (applyBlockStrict (contents b) (c_state c)).2;
  ap_heap : hp' = persist (c_store c) (sealed b) hp
}.

Lemma header_spec height hash target b r b' :
  ValidateBlockHeader height hash target b = (r, b') ->
  (b' = b \/ b' = sealed b) /\
  (r = Normal tt -> b' = sealed b /\ ensureNextBlockFollows height hash b = Normal tt /\ rooted b /\ worked b /\
     forall t, target = Some t -> meets b t).
Proof.
  unfold ValidateBlockHeader, mbind, method_bind.
  match goal with |- context [check_header ?m1 ?m2 ?m3 ?h ?p b] => destruct (check_header m1 m2 m3 h p b) as [r1 b1] eqn:E end. destruct (check_header_spec _ _ _ _ _ _ _ _ E) as [Hb Hn].
  destruct r1 as [[]|]; [|intros [= <- <-]; split; [by auto|done]]. destruct (Hn eq_refl) as (-> & Hf & Hr).
  unfold enforceDifficultyTarget, validateWorkForTarget, IsBlockComplexityValid, worked, meets, try.
  change (Header (sealed b)) with (Header b). rewrite sealed_hash.
  destruct (DecodeDifficulty (h_Difficulty (Header b))) as [t|] eqn:Ed.
  - destruct target as [t'|]; cbn [effectiveTarget default from_option id].
    + match goal with |- context [?x <? ?y] => destruct (Z.ltb_spec x y) end; [intros [= <- <-]; split; [by auto|done]|]. cbn [effectiveTarget default from_option id].
      destruct (Z.leb_spec (SetBytes (ComputeHash b)) t); intros [= <- <-]; [|split; [by auto|done]]. split; [by right|]. intros _.
      split_and!; try done; [intros t1 [= <-]; lia|]. intros t1 [= <-]. split; [lia|]. by intros d [= <-].
    + destruct (Z.leb_spec (SetBytes (ComputeHash b)) t); intros [= <- <-]; [|split; [by auto|done]]. split; [by right|]. intros _.
      split_and!; try done; intros t1 [= <-]; lia.
  - destruct (Z.leb_spec (SetBytes (ComputeHash b)) (effectiveTarget target)) as [Hl|]; intros [= <- <-]; [|split; [by auto|done]]. split; [by right|]. intros _.
    split_and!; try done. intros t1 ->. by split.
Qed.

Lemma apply_spec c hp b r b' :
  head_hash_ok c -> NamecoinChain_ApplyBlock c hp b = (r, b') ->
  (b' = b \/ b' = sealed b) /\
  (forall c' hp', r = Normal (c', hp') -> b' = sealed b /\ applied c hp b c' hp').
Proof.
  intros Hc. unfold NamecoinChain_ApplyBlock, ValidateBlock.
  assert (CloneBytes (headHash c) = headHash c) as -> by (unfold head_hash_ok in Hc; destruct (headHash c) as [[|]|]; done).
  destruct (ValidateBlockHeader (headHeight c) (headHash c) (powTarget c) b) as [r1 b1] eqn:E1.
  unfold mbind, method_bind. rewrite E1. destruct (header_spec _ _ _ _ _ _ E1) as [Hb Hn].
  destruct r1 as [[]|]; [|intros [= <- <-]; split; [by auto|done]]. destruct (Hn eq_refl) as (-> & Hf & Hr & Hw & Ht). unfold try, asks.
  change (contents (sealed b)) with (contents b).
  destruct (applyBlockStrict (contents b) (c_state c)) as [[[]|e] st] eqn:Es; [|intros [= <- <-]; split; [by auto|done]].
  destruct (ValidateBlockHeader (headHeight c) (headHash c) (powTarget c) (sealed b)) as [r2 b2] eqn:E2.
  destruct (header_spec _ _ _ _ _ _ E2) as [Hb2 Hn2].
  destruct r2 as [[]|]; [|intros [= <- <-]; split; [by destruct Hb2 as [->| ->]; auto|done]].
  destruct (Hn2 eq_refl) as (-> & _). intros [= <- <-]. split; [by auto|]. intros c' hp' [= <- <-]. split; [done|].
  split; try done.
  - unfold chainApplyBlock. by rewrite Es.
  - by rewrite Es.
Qed.
End history.

(** ** Targets *)

(** The parameters of the adjustment and the target of the first block, which all
    chains of a node share. *)
Class PowRules := { rule_params : powParams; rule_seed : Z }.

Definition rules_of (cfg : PoWConfig) : PowRules :=
  {| rule_params := powParamsFromConfig cfg; rule_seed := effectiveTarget (Target cfg) |}.

(** The target for the next block and the time of the last one. *)
Definition target_step (params : powParams) (a : Z * Z) (b : FullBlock) : Z * Z :=
  let t := default a.1 (DecodeDifficulty (h_Difficulty (Header b))) in
  let ts := h_Timestamp (Header b) in
  (if dynamic params && negb (a.2 =? 0)
   then AdjustDifficulty (Some t) (spacing_of ts a.2) (targetBlockTime params) (maxAdjustUp params) (maxAdjustDown params)
   else t, ts).

Definition target_after `{PowRules} (L : list FullBlock) : Z * Z := foldl (target_step rule_params) (rule_seed, 0) L.

(** A block that is applied makes this step. *)
Lemma advance_target (c : NamecoinChain) b st a :
  (powTarget c, headTS c) = (Some a.1, a.2) ->
  let c' := advance c b st in
  (powTarget c', headTS c') = (Some (target_step (c_powParams c) a b).1, (target_step (c_powParams c) a b).2).
Proof.
  intros [= Et Eh]. unfold advance, target_step. cbn [powTarget headTS fst snd]. rewrite Et, Eh.
  destruct (DecodeDifficulty (h_Difficulty (Header b))); destruct (dynamic (c_powParams c) && negb (a.2 =? 0)); done.
Qed.

(** ** Histories *)

Section histories.
Context `{CanonicalJson} `{Ed25519} {Rules : PowRules} (U : FullBlock -> Prop).

(** The blocks that occur: their fields are within their types, and a hash determines
    a block among them. *)
Record universe : Prop := {
  u_typed : forall b, U b -> header_ok (Header b) /\ Forall tx_range (Txs b);
  u_binds : forall a b, U a -> U b -> ComputeHash a = ComputeHash b -> Header a = Header b /\ Txs a = Txs b;
  u_seal : forall b h, U b -> U (set_Hash h b)
}.
Context (HU : universe).

(** Blocks that follow one another. *)
Record at_position (L : list FullBlock) (k : nat) (b : FullBlock) : Prop := {
  pos_known : U b;
  pos_sealed : b = sealed b;
  pos_height : h_Height (Header b) = Z.of_nat k;
  pos_rooted : rooted b;
  pos_worked : worked b;
  pos_prev : match k with
             | O => elems (h_PrevHash (Header b)) = []
             | S k' => exists p, L !! k' = Some p /\ elems (h_PrevHash (Header b)) = ComputeHash p
             end;
  pos_target : meets b (target_after (take k L)).1
}.
Definition history (L : list FullBlock) : Prop := forall k b, L !! k = Some b -> at_position L k b.

(** The height and the hash of the head. *)
Definition head_of (L : list FullBlock) : Z * slice Z :=
  match last L with
  | None => (0, None)
  | Some b => (Z.of_nat (length L) - 1, Some (ComputeHash b))
  end.

(** A chain whose blocks are [L]. *)
Record chain_of (c : NamecoinChain) (L : list FullBlock) : Prop := {
  co_history : history L;
  co_state : chain (contents <$> L) (c_state c);
  co_head : (headHeight c, headHash c) = head_of L;
  co_rules : powSeed c = Some rule_seed /\ c_powParams c = rule_params;
  co_target : (powTarget c, headTS c) = (Some (target_after L).1, (target_after L).2)
}.

Lemma chain_of_hash c L : chain_of c L -> head_hash_ok c.
Proof.
  intros [_ _ Hh _ _]. unfold head_hash_ok, head_of in *. destruct (last L) as [b|]; injection Hh as _ ->; [|done].
  intros E. exact (ComputeHash_nonempty b (f_equal elems E)).
Qed.

Lemma sealed_eq a b : a = sealed a -> b = sealed b -> Header a = Header b -> Txs a = Txs b -> a = b.
Proof.
  intros Ha Hb Hh Ht. transitivity (sealed a); [done|]. transitivity (sealed b); [|by symmetry].
  unfold sealed, set_Hash, ComputeHash. by rewrite Hh, Ht.
Qed.

Lemma same_block L L' k k' a b : history L -> history L' -> L !! k = Some a -> L' !! k' = Some b ->
  ComputeHash a = ComputeHash b -> a = b.
Proof.
  intros HL HL' Ha Hb E. destruct (HL _ _ Ha), (HL' _ _ Hb). apply u_binds in E as [? ?]; [|done..]. by apply sealed_eq.
Qed.

(** Two histories with the same block at a position agree up to it. *)
Lemma same_prefix L L' k b : history L -> history L' -> L !! k = Some b -> L' !! k = Some b -> take (S k) L = take (S k) L'.
Proof.
  intros HL HL'. revert b. induction k as [|k IH]; intros b Hb Hb'.
  - by rewrite (take_S_r L 0 b), (take_S_r L' 0 b).
  - rewrite (take_S_r L (S k) b), (take_S_r L' (S k) b) by done. f_equal.
    destruct (pos_prev _ _ _ (HL _ _ Hb)) as (p & Hp & E). destruct (pos_prev _ _ _ (HL' _ _ Hb')) as (p' & Hp' & E').
    rewrite E in E'. pose proof (same_block _ _ _ _ _ _ HL HL' Hp Hp' E') as <-. by apply (IH p).
Qed.

Lemma history_take n L : history L -> history (take n L).
Proof.
  intros HL k b Hb. apply lookup_take_Some in Hb as [Hb Hk]. destruct (HL _ _ Hb) as [? ? ? ? ? Hp ?]. split; try done; [|by rewrite take_take, Nat.min_l by lia].
  destruct k as [|k]; [done|]. destruct Hp as (p & Hp & E). exists p. split; [|done]. apply lookup_take_Some. split; [done|lia].
Qed.

(** ** States *)

Lemma chain_det blks st st' : chain blks st -> chain blks st' -> st = st'.
Proof.
  intros Hc. revert st'. induction Hc as [|blks st blk st1 Hc IH Hh Hb]; intros st' Hc'; inversion Hc' as [|? ? ? ? Hc2 Hh2 Hb2 El]; try done.
  - by apply app_nil in El as [_ ?].
  - by apply eq_sym, app_nil in El as [_ ?] || by destruct blks.
  - apply app_inj_tail in El as [-> ->]. rewrite (IH _ Hc2) in Hb. congruence.
Qed.

Lemma chain_take blks st n : chain blks st -> exists st', chain (take n blks) st'.
Proof.
  intros Hc. induction Hc as [|blks st blk st1 Hc IH Hh Hb]; [exists NewState; rewrite take_nil; constructor|].
  destruct (decide (n <= length blks)%nat).
  - rewrite take_app_le by done. exact IH.
  - rewrite take_ge by (rewrite length_app; cbn; lia). eexists. by econstructor.
Qed.

(** The block at a position is accepted on the state of the blocks before it. *)
Lemma chain_step blks st n b : chain blks st -> blks !! n = Some b ->
  exists st1 st2, chain (take n blks) st1 /\ chainApplyBlock b st1 = (Normal tt, st2) /\ chain (take (S n) blks) st2.
Proof.
  intros Hc Hb. destruct (chain_take blks st (S n) Hc) as [st2 H2]. rewrite (take_S_r _ _ _ Hb) in H2.
  inversion H2 as [E|? st1 ? ? Hc1 _ Hap E]; [by apply eq_sym, app_nil in E as [_ ?]|].
  apply app_inj_tail in E as [-> ->]. exists st1, st2. by rewrite (take_S_r _ _ _ Hb).
Qed.

(** ** Stored blocks *)

Lemma stored_ApplyTx txID tx st st' : ApplyTx txID tx st = (Normal tt, st') -> ApplyTx txID (stored_tx tx) st = (Normal tt, st').
Proof.
  unfold ApplyTx. rewrite !bind_asks. destruct (IsTxApplied txID st); [done|].
  unfold ApplyCommandUTXO, ApplyCommandState. change (Type_ (stored_tx tx)) with (Type_ tx).
  unfold mbind, method_bind, try. destruct (ResolveCommand (Type_ tx) (Payload tx)) as [cmd|] eqn:E; [|done].
  rewrite (stored_command _ _ E). change (ApplyUTXO cmd txID (stored_tx tx)) with (ApplyUTXO cmd txID tx).
  change (ApplyState cmd (stored_tx tx)) with (ApplyState cmd tx). done.
Qed.

Lemma stored_ApplyBlock b st st' :
  ApplyBlock (contents b) st = (Normal tt, st') -> ApplyBlock (contents (stored b)) st = (Normal tt, st').
Proof.
  unfold ApplyBlock, applyBlockInPlace. rewrite !bind_assigns. cbn [contents Height Transactions stored Header Txs].
  generalize (pruneExpired (h_Height (Header b)) (setHeight (h_Height (Header b)) st)). intros s0.
  destruct (for_each _ (Txs b) s0) as [[[]|] w] eqn:E; [|done].
  enough (for_each (fun tx => txID ← try (fun _ => BuildTransactionID tx); ApplyTx txID tx) (stored_tx <$> Txs b) s0 = (Normal tt, w)) as -> by done.
  revert s0 E. induction (Txs b) as [|tx l IH]; intros s0; [done|]. rewrite fmap_cons. cbn [for_each].
  intros ([] & s1 & Hx & Hl)%method_bind_Normal. apply method_bind_Normal. exists tt, s1. split; [|by apply IH].
  rewrite bind_try in Hx |- *. rewrite stored_tx_id. destruct (BuildTransactionID tx) as [id|]; [|done]. by apply stored_ApplyTx.
Qed.

Lemma replay_stored b st st' :
  chainApplyBlock (contents b) st = (Normal tt, st') -> ApplyBlock (contents (stored b)) st = (Normal tt, st').
Proof. intros Hb. by apply stored_ApplyBlock, replay_block. Qed.

Definition loaded (k : nat) (b : FullBlock) : loadedBlock := MkLoaded (Z.of_nat k) (Doc (Marshal b)).

Fixpoint loaded_from (n : nat) (bs : list FullBlock) : list loadedBlock :=
  match bs with
  | [] => []
  | b :: bs' => loaded n b :: loaded_from (S n) bs'
  end.

Lemma decode_loaded L k b : at_position L k b -> decodeLoadedBlock (loaded k b) = Normal (stored b).
Proof.
  intros [Hk Hs Hh _ _ _ _]. destruct (u_typed HU b Hk) as [Ho Ht]. unfold decodeLoadedBlock, loaded. cbn [l_Raw l_Height].
  rewrite block_roundtrip; [|done..|rewrite Hs; apply sha256_bytes].
  cbn [wrapped mbind outcome_bind]. change (Header (stored b)) with (Header b). rewrite Hh, Z.eqb_refl. cbn [negb].
  destruct (Z.eqb_spec (Z.of_nat k) 0) as [E|]; [|done]. rewrite <- Hh. clear. by destruct b as [[] ? ?].
Qed.

Lemma validate_stored height hash b : b = sealed b -> rooted b ->
  validateBlockOnReplay height hash (stored b) =
  match ensureNextBlockFollows height hash b with Normal _ => Normal (ComputeHash b) | Throw e => Throw e end.
Proof.
  intros Hs Hr. unfold validateBlockOnReplay. destruct (ensureNextBlockFollows height hash b) as [[]|e] eqn:Ef.
  - rewrite check_header_ok; [done| |done|].
    + right. cbn [stored Hash elems default from_option id]. by rewrite Hs at 1.
    + destruct Hr as (root & Hr & Ht). exists root. by rewrite stored_root.
  - unfold check_header. rewrite bind_asks. unfold id.
    assert (bytes_Equal (Hash (stored b)) (Some (ComputeHash (stored b))) = true) as ->.
    { unfold bytes_Equal. cbn [stored Hash elems default from_option id]. rewrite bool_decide_true; [done|]. by rewrite Hs at 1. }
    rewrite andb_false_r, bind_assigns, bind_try.
    change (ensureNextBlockFollows height hash _) with (ensureNextBlockFollows height hash b). by rewrite Ef.
Qed.

(** A fork recomputes the target of its blocks. *)
Lemma rebuild_fork_target params head n bs a :
  (forall i b, bs !! i = Some b -> exists L, at_position L (n + i) b) -> Z.of_nat (n + length bs) <= head + 1 ->
  rebuild_fork_loop params head (loaded_from n bs) a.1 a.2 = foldl (target_step params) a bs.
Proof.
  revert n a. induction bs as [|b bs IH]; intros n a Hbs Hl; [by destruct a|]. cbn [loaded_from rebuild_fork_loop length foldl] in *.
  change (l_Height (loaded n b)) with (Z.of_nat n). destruct (Z.ltb_spec head (Z.of_nat n)); [lia|].
  destruct (Hbs 0%nat b eq_refl) as [L Hb]. rewrite Nat.add_0_r in Hb. rewrite (decode_loaded L) by done.
  change (Header (stored b)) with (Header b). rewrite <- (IH (S n) (target_step params a b)); [|intros i x Hx|lia].
  - f_equal.
  - replace (S n + i)%nat with (n + S i)%nat by lia. by apply Hbs.
Qed.

(** ** Extending a history *)

Lemma follows_spec L b : Z.of_nat (length L) < 2 ^ 64 ->
  ensureNextBlockFollows (head_of L).1 (head_of L).2 b = Normal tt <->
  h_Height (Header b) = Z.of_nat (length L) /\
  match last L with None => elems (h_PrevHash (Header b)) = [] | Some p => elems (h_PrevHash (Header b)) = ComputeHash p end.
Proof.
  intros Hl. unfold ensureNextBlockFollows, head_of. destruct (last L) as [p|] eqn:E; cbn [fst snd].
  - rewrite Z.sub_add, u64_id by (unfold is_u64; lia). destruct (Z.eqb_spec (h_Height (Header b)) (Z.of_nat (length L))) as [E1|]; cbn [negb].
    + unfold bytes_Equal. cbn [elems default from_option id]. case_bool_decide; cbn [negb]; split; try done; by intros [_ ?].
    + split; [done|]. by intros [? _].
  - apply last_None in E as ->. destruct (Z.eqb_spec (h_Height (Header b)) 0) as [E1|]; cbn [negb length].
    + case_bool_decide; cbn [negb]; split; try done; by intros [_ ?].
    + split; [done|]. by intros [? _].
Qed.

Lemma history_snoc L b : history L -> U b -> rooted b -> worked b -> h_Height (Header b) = Z.of_nat (length L) ->
  match last L with None => elems (h_PrevHash (Header b)) = [] | Some p => elems (h_PrevHash (Header b)) = ComputeHash p end ->
  meets b (target_after L).1 -> history (L ++ [sealed b]).
Proof.
  intros HL Hb Hr Hw Hh Hp Ht k x Hx. apply lookup_app_Some in Hx as [Hx|[Hk Hx]].
  - destruct (HL _ _ Hx) as [? ? ? ? ? Hq ?]. apply lookup_lt_Some in Hx as Hlt. split; try done; [|by rewrite take_app_le by lia].
    destruct k as [|k]; [done|]. destruct Hq as (q & Hq & E). exists q. split; [|done]. by apply lookup_app_l_Some.
  - apply list_lookup_singleton_Some in Hx as [Hk' <-]. assert (k = length L) as -> by lia.
    split; try done; [by apply (u_seal HU)| |by rewrite take_app_length by done]. rewrite last_lookup in Hp. destruct (length L) as [|n] eqn:En; cbn [pred] in Hp.
    + apply nil_length_inv in En as ->. done.
    + destruct (L !! n) as [p|] eqn:E; [|apply lookup_ge_None in E; lia]. exists p. split; [|done]. by apply lookup_app_l_Some.
Qed.

Lemma extend_history c hp b c' hp' L :
  chain_of c L -> U b -> Z.of_nat (length L) < 2 ^ 64 -> applied c hp b c' hp' -> chain_of c' (L ++ [sealed b]).
Proof.
  intros [HL Hc Hh [Hse Hpa] Hta] Hb Hl [Hf Hr Hw Ht Hs Hc' _]. assert (headHeight c = (head_of L).1 /\ headHash c = (head_of L).2) as [E1 E2] by (by rewrite <- Hh).
  rewrite E1, E2 in Hf. apply follows_spec in Hf as [Hh' Hp]; [|done].
  assert (powTarget c = Some (target_after L).1) as Et by (by injection Hta). split.
  - by apply history_snoc; [..|apply Ht].
  - rewrite fmap_app. econstructor; [exact Hc| |exact Hs]. by rewrite length_fmap.
  - subst c'. unfold advance, head_of. cbn [headHeight headHash]. rewrite last_snoc, length_app, clone_hash. cbn [length].
    change (Header (sealed b)) with (Header b). rewrite Hh'. f_equal. lia.
  - by subst c'.
  - subst c'. unfold target_after. rewrite foldl_snoc.
    pose proof (advance_target c (sealed b) (applyBlockStrict (contents b) (c_state c)).2 _ Hta) as Hx. by rewrite Hpa in Hx.
Qed.

(** ** Replay *)

(** A block that some history has at a position. *)
Definition listed (k : nat) (b : FullBlock) : Prop :=
  exists L st, history L /\ chain (contents <$> L) st /\ L !! k = Some b.

(** The blocks and the state of a beginning of some history. *)
Definition beginning (P : list FullBlock) (st : NamecoinState) : Prop :=
  history P /\ chain (contents <$> P) st.

(** A block with a listed position that follows the replayed ones. *)
Lemma beginning_snoc P st b : Z.of_nat (length P) < 2 ^ 64 -> beginning P st -> listed (length P) b ->
  ensureNextBlockFollows (head_of P).1 (head_of P).2 b = Normal tt ->
  exists st', beginning (P ++ [b]) st' /\ chainApplyBlock (contents b) st = (Normal tt, st').
Proof.
  intros Hl [HP Hc] (L & stL & HL & HcL & Hb) Hf. apply follows_spec in Hf as [Hh Hp]; [|done].
  assert (P = take (length P) L) as EP.
  { pose proof (pos_prev _ _ _ (HL _ _ Hb)) as Hq. destruct (last P) as [p|] eqn:Ep; [|apply last_None in Ep as ->; done].
    rewrite last_lookup in Ep. destruct (length P) as [|n] eqn:En; cbn [pred] in Ep; [apply nil_length_inv in En as ->; done|].
    destruct Hq as (q & Hq & E). rewrite E in Hp. pose proof (same_block _ _ _ _ _ _ HL HP Hq Ep Hp) as ->.
    rewrite <- (same_prefix _ _ _ _ HP HL Ep Hq). by rewrite take_ge by lia. }
  assert ((contents <$> L) !! length P = Some (contents b)) as Hb' by (by rewrite list_lookup_fmap, Hb).
  destruct (chain_step _ _ _ _ HcL Hb') as (st1 & st2 & Hst1 & Hst2 & Hst3).
  rewrite <- fmap_take, <- EP in Hst1. rewrite (chain_det _ _ _ Hc Hst1). exists st2. split; [|done].
  assert (P ++ [b] = take (S (length P)) L) as -> by (rewrite (take_S_r _ _ _ Hb); by rewrite <- EP).
  split; [by apply history_take|]. by rewrite fmap_take.
Qed.

(** Nothing follows a head that is too low. *)
Lemma replay_stuck (sh : slice Z) bs n st hash height :
  (forall i b, bs !! i = Some b -> listed (n + i) b) -> Z.of_nat (n + length bs) <= 2 ^ 64 ->
  0 <= height -> height + 1 < Z.of_nat n -> hash <> None ->
  replay_loop sh (loaded_from n bs) hash height st = (st, hash, false, height).
Proof.
  revert n. induction bs as [|b bs IH]; intros n Hbs Hl H0 Hn Hh; [done|]. cbn [loaded_from replay_loop length] in *.
  destruct (Hbs 0%nat b eq_refl) as (L & stL & HL & HcL & Hb). rewrite Nat.add_0_r in Hb. pose proof (HL _ _ Hb) as Hp.
  rewrite (decode_loaded L) by done. rewrite validate_stored by apply Hp.
  assert (exists e, ensureNextBlockFollows height hash b = Throw e) as [e ->].
  { unfold ensureNextBlockFollows. destruct hash as [h|]; [|done]. rewrite u64_id by (unfold is_u64; lia).
    rewrite (pos_height _ _ _ Hp). destruct (Z.eqb_spec (Z.of_nat n) (height + 1)); [lia|]. cbn [negb]. by eexists. }
  apply IH; try done; [|lia..]. intros i x Hx. replace (S n + i)%nat with (n + S i)%nat by lia. by apply Hbs.
Qed.

(** A replay applies all blocks, or stops before the last one. *)
Lemma replay_listed (sh : slice Z) bs P st :
  beginning P st -> (forall i b, bs !! i = Some b -> listed (length P + i) b) -> Z.of_nat (length P + length bs) <= 2 ^ 64 ->
  (forall i b, bs !! i = Some b -> negb (bool_decide (sh = None)) && bytes_Equal (Some (ComputeHash b)) sh = true -> S i = length bs) ->
  let '(st', hash, _, height) := replay_loop sh (loaded_from (length P) bs) (head_of P).2 (head_of P).1 st in
  (beginning (P ++ bs) st' /\ hash = (head_of (P ++ bs)).2 /\ height = (head_of (P ++ bs)).1) \/
  (height + 1 < Z.of_nat (length P + length bs) /\ ~ history (P ++ bs)).
Proof.
  revert P st. induction bs as [|b bs IH]; intros P st HP Hbs Hl Hsh.
  { cbn [loaded_from replay_loop]. left. by rewrite app_nil_r. }
  cbn [loaded_from replay_loop length] in *. pose proof (Hbs 0%nat b eq_refl) as Hb. rewrite Nat.add_0_r in Hb.
  pose proof Hb as (L & stL & HL & _ & HbL). pose proof (HL _ _ HbL) as Hp.
  rewrite (decode_loaded L) by done. rewrite validate_stored by apply Hp.
  destruct (ensureNextBlockFollows (head_of P).1 (head_of P).2 b) as [[]|e] eqn:Ef.
  - destruct (beginning_snoc P st b ltac:(lia) HP Hb Ef) as (st' & HP' & Hap). rewrite (replay_stored _ _ _ Hap).
    change (h_Height (Header (stored b))) with (h_Height (Header b)). rewrite clone_hash.
    assert (head_of (P ++ [b]) = (h_Height (Header b), Some (ComputeHash b))) as Eh.
    { unfold head_of. rewrite last_snoc, length_app. cbn [length]. rewrite (pos_height _ _ _ Hp). f_equal. lia. }
    destruct (negb (bool_decide (sh = None)) && bytes_Equal (Some (ComputeHash b)) sh) eqn:Es.
    + apply (Hsh 0%nat b) in Es; [|done]. injection Es as Es. symmetry in Es. apply nil_length_inv in Es as ->. left. by rewrite Eh.
    + specialize (IH (P ++ [b]) st' HP'). rewrite Eh in IH. cbn [fst snd] in IH. rewrite length_app, Nat.add_1_r in IH.
      rewrite <- app_assoc in IH. cbn [app] in IH. rewrite Nat.add_succ_r. cbn [Nat.add] in IH. apply IH.
      * intros i x Hx. rewrite <- Nat.add_succ_r. by apply Hbs.
      * lia.
      * intros i x Hx Hs'. specialize (Hsh (S i) x Hx Hs'). lia.
  - destruct (last P) as [p|] eqn:Ep.
    + assert (head_of P = (Z.of_nat (length P) - 1, Some (ComputeHash p))) as -> by (unfold head_of; by rewrite Ep). cbn [fst snd].
      assert (length P <> 0%nat) by (by destruct P).
      rewrite replay_stuck; [right; split; [lia|]| |lia|lia|lia|done].
      { intros Hall. enough (ensureNextBlockFollows (head_of P).1 (head_of P).2 b = Normal tt) by congruence.
        assert (Hpos := Hall (length P) b ltac:(by apply list_lookup_middle)). apply follows_spec; [lia|]. split; [apply Hpos|]. rewrite Ep.
        pose proof (pos_prev _ _ _ Hpos) as Hq. rewrite last_lookup in Ep. destruct (length P) as [|n] eqn:En; [done|]. cbn [pred] in Ep.
        destruct Hq as (q & Hq & E). rewrite lookup_app_l in Hq by lia. by simplify_eq. }
      intros i x Hx. replace (S (length P) + i)%nat with (length P + S i)%nat by lia. by apply Hbs.
    + apply last_None in Ep as ->. exfalso. enough (ensureNextBlockFollows (head_of []).1 (head_of []).2 b = Normal tt) by congruence.
      apply follows_spec; [cbn; lia|]. split; [apply Hp|]. apply (pos_prev _ _ _ Hp).
Qed.
End histories.
