(* ===== verification/NodeForkDemo.v ===== *)
(** * A small fork

    Blocks with rewards only, on two branches that leave the genesis block, under a
    target that every hash meets, and two blocks with the work that the default target
    asks for: concrete data for the theorems about forks and restarts. *)

From S2P Require Import Prelude JsValue Json Sha256 Platform World Hash Go GoText NodeState NodeUTXO NodeCommands NodeBlocks.
From S2P Require Import NodeMempool NodeDemo NodeHeaders NodePow NodeLedger NodeForks.
Import SmallChain.
Local Open Scope Z_scope.

Module SmallFork.

(** An equation that holds by evaluation. *)
Ltac evaluates := lazymatch goal with |- _ = ?r => vm_cast_no_check (eq_refl r) end.

(** Every hash is below the target, which stays. *)
Definition easy : PoWConfig := MkPoWConfig (Some (2 ^ 256)) true 0 (Float 0 0) (Float 0 0) 0 "".

Definition block_after (height : Z) (prev : slice Z) (ts nonce : Z) (miner : string) : FullBlock :=
  match AssembleBlock (MkHeader height prev None ts nonce miner None) [] miner with
  | Normal b => b
  | Throw _ => MkFullBlock (MkHeader 0 None None 0 0 "" None) [] None
  end.

Definition g : FullBlock := Eval vm_compute in block_after 0 None 1 0 "m".
Definition a1 : FullBlock := Eval vm_compute in block_after 1 (Hash g) 2 0 "a".
Definition b1 : FullBlock := Eval vm_compute in block_after 1 (Hash g) 3 0 "b".
Definition b2 : FullBlock := Eval vm_compute in block_after 2 (Hash b1) 4 0 "b".
Definition a2 : FullBlock := Eval vm_compute in block_after 2 (Hash a1) 5 0 "a".

(** Chains are visited in the order of their positions. *)
Definition in_order (_ : ChainService) (X : gset nat) : list nat := elements X.

Definition boot : ChainService := NewChainService (ConfigurePow easy (NewNamecoinChain 0)) [Base ∅].

(** The service after blocks that are appended to the longest chain. *)
Definition feed (s : ChainService) (b : FullBlock) : ChainService := (AppendBlockToLongestChain in_order b s).2.

Definition svc1 : ChainService := Eval vm_compute in feed boot g.
Definition svc2 : ChainService := Eval vm_compute in feed svc1 a1.
Definition svc3 : ChainService := Eval vm_compute in feed svc2 b1.
Definition svc4 : ChainService := Eval vm_compute in feed svc3 b2.
Definition svc5 : ChainService := Eval vm_compute in feed svc4 a2.

(** ** A chain and its store *)

Definition start (cfg : PoWConfig) : NamecoinChain * gmap string data := (ConfigurePow cfg (NewNamecoinChain 0), ∅).
Definition extend (cm : NamecoinChain * gmap string data) (b : FullBlock) : NamecoinChain * gmap string data :=
  match NamecoinChain_ApplyBlock cm.1 [Base cm.2] b with
  | (Normal (c, [Base m]), _) => (c, m)
  | _ => cm
  end.

(** Blocks of the default target: the hashes begin with two zero bytes. *)
Definition d0 : FullBlock := Eval vm_compute in block_after 0 None 1 7591 "m".
Definition d1 : FullBlock := Eval vm_compute in block_after 1 (Hash d0) 21 3163 "m".
Definition ledger1 : NamecoinChain * gmap string data := Eval vm_compute in extend (start zero_config) d0.
Definition ledger2 : NamecoinChain * gmap string data := Eval vm_compute in extend ledger1 d1.

(** The chain of two blocks under the target that stays. *)
Definition easy1 : NamecoinChain * gmap string data := Eval vm_compute in extend (start easy) g.
Definition easy2 : NamecoinChain * gmap string data := Eval vm_compute in extend easy1 b1.
Definition easy3 : NamecoinChain * gmap string data := Eval vm_compute in extend easy2 b2.

(** The block [b1] with a reward whose inputs are an empty list instead of none. *)
Definition no_inputs (tx : Tx) : Tx := MkTx (From tx) (Type_ tx) (Some []) (Outputs tx) (Amount tx) (Payload tx) (Pk tx) (TxID tx) (Signature tx).
Definition b1' : FullBlock := MkFullBlock (Header b1) (no_inputs <$> Txs b1) (Hash b1).
Definition easy2x : NamecoinChain * gmap string data := Eval vm_compute in extend easy1 b1'.

(** A miner that tries at most ten nonces, and the header after [g]. *)
Definition miner : PoWConfig := MkPoWConfig (Some (2 ^ 256)) true 0 (Float 0 0) (Float 0 0) 10 "m".
Definition mine_base : BlockHeader := MkHeader 1 (Hash g) None 0 0 "m" None.
Definition mine_world (_ : Z) : attempt := MkAttempt false 9.
Definition mined_now : FullBlock := Eval vm_compute in
  match (MineAndApply miner mine_base (Some (2 ^ 256)) mine_world NewTxBuffer).1 with Normal b => b | Throw _ => g end.

(** The same node after a restart. *)
Definition easy2' : NamecoinChain := Eval vm_compute in ConfigurePow easy (LoadNamecoinChain easy2.2).1.

Lemma fork_hashes : Forall (fun b => ComputeHash b = elems (Hash b)) [g; a1; b1; b2; a2; d0; d1].
Proof. repeat (constructor; [evaluates|]). constructor. Qed.
Lemma fork_distinct : NoDup (elems ∘ Hash <$> [g; a1; b1; b2; a2; d0; d1]).
Proof. apply (bool_decide_eq_true_1 (NoDup (elems ∘ Hash <$> [g; a1; b1; b2; a2; d0; d1]))). vm_compute. reflexivity. Qed.

(** All the blocks, and what is assumed of blocks in general. *)
Definition demo_blocks : list FullBlock := [g; a1; b1; b2; a2; d0; d1].

Lemma demo_typed : Forall (fun b => header_ok (Header b) /\ Forall tx_range (Txs b)) demo_blocks.
Proof.
  repeat (constructor; [split; [split; [| | |split_and!]|]; unfold slice_bytes_ok, bytes_ok, is_byte, tx_range, is_u64; cbn;
    repeat constructor; cbn; lia|]). constructor.
Qed.

Lemma demo_hash b : b ∈ demo_blocks -> ComputeHash b = elems (Hash b).
Proof. revert b. apply Forall_forall, fork_hashes. Qed.

Lemma demo_distinct l : l `sublist_of` demo_blocks -> NoDup (ComputeHash <$> l).
Proof.
  intros Hl. assert (ComputeHash <$> l = elems ∘ Hash <$> l) as ->.
  { apply list_fmap_ext. intros i b Hb. apply demo_hash. eapply sublist_subseteq; [exact Hl|]. by eapply list_elem_of_lookup_2. }
  eapply sublist_NoDup; [apply fork_distinct|]. by apply fmap_sublist.
Qed.
End SmallFork.
