(* ===== verification/NodeForkSafety.v ===== *)
(** * The invariant of the service of chains

    Every chain of the service consists of blocks that were accepted one after the
    other, also when it was forked off by a replay; the index and the stores only
    name such blocks; and the longest chain has the best head. *)

From S2P Require Import Prelude JsValue Json JsonFacts JsonCanon Sha256 Platform World Hash Go GoText NodeState NodeUTXO NodeCommands NodeBlocks.
From S2P Require Import NodeSafety NodeChain NodeProgress NodeMempool NodeHeaders NodePow NodeLedger NodeForks NodeForkChoice NodeHistory.
Local Open Scope Z_scope.

(** ** The order of heads *)

Lemma bytes_lt_irrefl a : bytes_lt a a = false.
Proof. induction a as [|x a IH]; [done|]. cbn. by rewrite Z.ltb_irrefl, Z.eqb_refl, IH. Qed.

Lemma bytes_lt_asym a b : bytes_lt a b = true -> bytes_lt b a = false.
Proof.
  revert b. induction a as [|x a IH]; intros [|y b]; cbn; try done.
  destruct (Z.ltb_spec x y), (Z.eqb_spec x y), (Z.ltb_spec y x), (Z.eqb_spec y x); cbn; try done; try lia. apply IH.
Qed.

(** The negation is transitive: the order is total. *)
Lemma bytes_ge_trans a b c : bytes_lt a b = false -> bytes_lt b c = false -> bytes_lt a c = false.
Proof.
  revert b c. induction a as [|x a IH]; intros [|y b] [|z c]; cbn; try done.
  destruct (Z.ltb_spec x y), (Z.eqb_spec x y), (Z.ltb_spec y z), (Z.eqb_spec y z), (Z.ltb_spec x z), (Z.eqb_spec x z);
    cbn; try done; try lia. apply IH.
Qed.

(** The first head is at least as good as the second: it is higher, or as high and its
    hash is not larger. *)
Definition dominates (a b : NamecoinChain) : Prop :=
  headHeight b < headHeight a \/
  (headHeight b = headHeight a /\
   match headHash b, headHash a with
   | None, _ => True
   | Some h, Some h' => bytes_lt h h' = false
   | Some _, None => False
   end).

Lemma dominates_refl a : dominates a a.
Proof. right. split; [done|]. destruct (headHash a); [apply bytes_lt_irrefl|done]. Qed.

Lemma dominates_trans a b c : dominates a b -> dominates b c -> dominates a c.
Proof.
  intros [H1|[E1 H1]] [H2|[E2 H2]]; [left; lia..|right]. split; [lia|].
  destruct (headHash a), (headHash b), (headHash c); try done. by eapply bytes_ge_trans.
Qed.

Lemma keeps_dominates cand curr : keeps_current cand curr = true -> dominates curr cand.
Proof.
  unfold keeps_current, dominates. destruct (Z.ltb_spec (headHeight cand) (headHeight curr)); [by left|].
  destruct (Z.eqb_spec (headHeight cand) (headHeight curr)) as [E|]; [|done].
  destruct (headHash curr), (headHash cand); try done. intros Hn%negb_true_iff. by right.
Qed.

Lemma promoted_dominates cand curr : headHash cand <> None -> keeps_current cand curr = false -> dominates cand curr.
Proof.
  unfold keeps_current, dominates. intros Hc. destruct (Z.ltb_spec (headHeight cand) (headHeight curr)); [done|].
  destruct (Z.eqb_spec (headHeight cand) (headHeight curr)) as [E|]; [|intros _; left; lia].
  intros Hk. right. split; [done|]. destruct (headHash curr), (headHash cand); try done.
  apply negb_false_iff in Hk. by apply bytes_lt_asym.
Qed.

Section safety.
Context `{CanonicalJson} `{Ed25519} {Rules : PowRules} (U : FullBlock -> Prop) (HU : universe U)
  (Uclone : forall b, U b -> U (cloneBlock b)).

(** ** The invariant *)

(** A stored block is one of the blocks of some chain. *)
Definition stores_ok (G : list (list FullBlock)) (hp : heap) : Prop := forall h v,
  is_u64 h -> holds hp (EncodeNamecoinBlockKey h) v -> exists L b, L ∈ G /\ L !! Z.to_nat h = Some b /\ v = Doc (Marshal b).

(** An indexed block is in the chains that the index names. *)
Definition index_ok (G : list (list FullBlock)) (idx : gmap string blockMeta) : Prop := forall key meta,
  idx !! key = Some meta -> exists b, U b /\ key = bytesToHex (ComputeHash b) /\ m_height meta = h_Height (Header b) /\
    forall i, i ∈ m_chains meta -> exists L x, G !! i = Some L /\ L !! Z.to_nat (m_height meta) = Some x /\ ComputeHash x = ComputeHash b.

Record service_ok (G : list (list FullBlock)) (N : Z) (s : ChainService) : Prop := {
  so_chains : Forall2 (chain_of U) (Chains s) G;
  so_bound : Forall (fun L => Z.of_nat (length L) <= N) G;
  so_stores : stores_ok G (stores s);
  so_index : index_ok G (blockIndex s);
  so_orphans : map_Forall (fun _ l => Forall U l) (orphansByPrev s);
  so_best : exists cur, Chains s !! LongestChainIndex s = Some cur /\ Forall (dominates cur) (Chains s)
}.

(** Histories only get longer. *)
Definition grows (G G' : list (list FullBlock)) : Prop := forall i L,
  G !! i = Some L -> exists L', G' !! i = Some L' /\ L `prefix_of` L'.

Lemma grows_refl G : grows G G.
Proof. intros i L HL. by exists L. Qed.

Lemma grows_app G L : grows G (G ++ [L]).
Proof. intros i L' HL. exists L'. split; [|done]. by apply lookup_app_l_Some. Qed.

Lemma grows_insert G i L L' : G !! i = Some L -> L `prefix_of` L' -> grows G (<[i := L']> G).
Proof.
  intros HL Hp j M HM. destruct (decide (j = i)) as [->|Hne].
  - exists L'. simplify_eq. split; [|done]. apply list_lookup_insert_eq. by eapply lookup_lt_Some.
  - exists M. split; [|done]. by rewrite list_lookup_insert_ne.
Qed.

Lemma grows_elem G G' L k b : grows G G' -> L ∈ G -> L !! k = Some b -> exists L', L' ∈ G' /\ L' !! k = Some b.
Proof.
  intros Hg [i HL]%list_elem_of_lookup Hb. apply Hg in HL as (L' & HL' & Hp). exists L'. split; [by eapply list_elem_of_lookup_2|].
  by eapply prefix_lookup_Some.
Qed.

Lemma stores_grow G G' hp : grows G G' -> stores_ok G hp -> stores_ok G' hp.
Proof.
  intros Hg Hs h v Hh Hv. destruct (Hs h v Hh Hv) as (L & b & HL & Hb & ->).
  destruct (grows_elem _ _ _ _ _ Hg HL Hb) as (L' & ? & ?). eauto 10.
Qed.

Lemma index_grow G G' idx : grows G G' -> index_ok G idx -> index_ok G' idx.
Proof.
  intros Hg Hi key meta Hm. destruct (Hi key meta Hm) as (b & ? & ? & ? & Hc). exists b. split_and!; try done.
  intros i Hi'. destruct (Hc i Hi') as (L & x & HL & Hx & E). apply Hg in HL as (L' & HL' & Hp). exists L', x. split_and!; try done.
  by eapply prefix_lookup_Some.
Qed.

Lemma stores_sub G hp hp' : (forall k v, holds hp' k v -> holds hp k v) -> stores_ok G hp -> stores_ok G hp'.
Proof. intros Hh Hs h v Hu Hv. apply Hs; auto. Qed.

(** ** The index *)

Lemma hex_inj a b : bytesToHex (ComputeHash a) = bytesToHex (ComputeHash b) -> ComputeHash a = ComputeHash b.
Proof. apply bytesToHex_inj; apply ComputeHash_bytes. Qed.

Lemma register_ok G i L b b' s :
  index_ok G (blockIndex s) -> G !! i = Some L -> U b -> Header b' = Header b -> elems (Hash b') = ComputeHash b ->
  (exists x, L !! Z.to_nat (h_Height (Header b)) = Some x /\ ComputeHash x = ComputeHash b) ->
  index_ok G (blockIndex (registerBlockUnlocked i b' s)).
Proof.
  intros Hi HL Hb Ehd' Hh (x & Hx & Ex). unfold registerBlockUnlocked. destruct (Hash b') as [h|]; [|done]. rewrite Ehd'. cbn in Hh. subst h.
  cbn [blockIndex set_index]. intros key meta. rewrite lookup_insert_Some. intros [[<- <-]|[_ Hm]]; [|by apply Hi].
  destruct (blockIndex s !! bytesToHex (ComputeHash b)) as [old|] eqn:E; cbn [default from_option id m_height m_chains].
  - destruct (Hi _ _ E) as (a & Ha & Ek & Em & Hc). apply hex_inj in Ek. destruct (u_binds _ HU b a Hb Ha Ek) as [Ehd _].
    exists a. rewrite Ek. split_and!; try done. intros j [->%elem_of_singleton|Hj]%elem_of_union.
    + exists L, x. split_and!; [done| |congruence]. by rewrite Em, <- Ehd.
    + destruct (Hc j Hj) as (L' & x' & ? & ? & ?). by exists L', x'.
  - exists b. split_and!; try done. intros j [->%elem_of_singleton|[]%elem_of_empty]%elem_of_union. by exists L, x.
Qed.

(** ** Forks *)

Lemma load_range_ok r hp n k l :
  load_range r hp (Z.of_nat k) n = Normal l ->
  (forall h v, is_u64 h -> Get r (EncodeNamecoinBlockKey h) hp = Some v -> exists b, listed U (Z.to_nat h) b /\ v = Doc (Marshal b)) ->
  Z.of_nat (k + n) <= 2 ^ 64 ->
  exists bs, l = loaded_from k bs /\ length bs = n /\ forall i b, bs !! i = Some b ->
    listed U (k + i) b /\ Get r (EncodeNamecoinBlockKey (Z.of_nat (k + i))) hp = Some (Doc (Marshal b)).
Proof.
  intros Hl Hs. revert k l Hl. induction n as [|n IH]; intros k l Hl Hb; cbn [load_range] in Hl.
  { injection Hl as <-. exists []. split_and!; [done..|]. intros i b Hi. by rewrite lookup_nil in Hi. }
  destruct (Get r _ hp) as [v|] eqn:Ev; [|done]. apply outcome_bind_Normal in Hl as (l' & Hl & [= <-]).
  replace (Z.of_nat k + 1) with (Z.of_nat (S k)) in Hl by lia. destruct (IH (S k) l' Hl ltac:(lia)) as (bs & -> & Hn & Hbs).
  destruct (Hs (Z.of_nat k) v ltac:(unfold is_u64; lia) Ev) as (b & Hb' & ->). rewrite Nat2Z.id in Hb'.
  exists (b :: bs). split_and!; [done|cbn; lia|]. intros [|i] x Hx; cbn in Hx.
  - simplify_eq. by rewrite Nat.add_0_r.
  - rewrite Nat.add_succ_r. by apply Hbs.
Qed.

Lemma stored_listed G s hp : Forall2 (chain_of U) (Chains s) G -> stores_ok G hp -> forall r h v,
  is_u64 h -> Get r (EncodeNamecoinBlockKey h) hp = Some v -> exists b, listed U (Z.to_nat h) b /\ v = Doc (Marshal b).
Proof.
  intros Hc Hs r h v Hh Hv%Get_holds. destruct (Hs h v Hh Hv) as (L & b & [i HL]%list_elem_of_lookup & Hb & ->).
  destruct (Forall2_lookup_r _ _ _ _ _ Hc HL) as (c & _ & [HL' Hst _ _ _]). exists b. split; [|done]. by exists L, (c_state c).
Qed.

(** A fork consists of blocks that were accepted, and its store holds them. *)
Lemma fork_ok G s hp r h base origin :
  Forall2 (chain_of U) (Chains s) G -> stores_ok G hp -> 0 <= h < 2 ^ 64 ->
  powSeed base = Some rule_seed -> c_powParams base = rule_params ->
  forkUpToHeight h r base hp = Normal origin ->
  exists L, chain_of U origin L /\ Z.of_nat (length L) = h + 1 /\ h <= headHeight base /\ c_store origin = r /\
    forall k b, L !! k = Some b -> listed U k b /\ Get r (EncodeNamecoinBlockKey (Z.of_nat k)) hp = Some (Doc (Marshal b)).
Proof.
  intros Hc Hs Hh Hse Hpa. unfold forkUpToHeight. destruct (Z.ltb_spec (headHeight base) h) as [|Hle]; [done|].
  intros (blocks & Hl & Hf)%outcome_bind_Normal.
  destruct (load_range_ok r hp _ 0 blocks Hl) as (bs & -> & Hn & Hbs); [by apply (stored_listed G s)|lia|].
  assert (history U [] /\ chain (contents <$> []) NewState) as H0 by (split; [intros k b Hk; by rewrite lookup_nil in Hk|constructor]).
  pose proof (replay_listed U HU None bs [] NewState H0 (fun i b Hi => proj1 (Hbs i b Hi)) ltac:(cbn; lia) ltac:(done)) as Hr.
  unfold ReplayBlocks in Hf. change (head_of []) with ((0, None) : Z * slice Z) in Hr. cbn [fst snd length app] in Hr.
  destruct (replay_loop None (loaded_from 0 bs) None 0 NewState) as [[[st hash] found] reached].
  destruct (Z.eqb_spec reached h) as [Er|]; [|done]. cbn [negb] in Hf.
  assert (rebuildPowStateForFork (loaded_from 0 bs) h (powSeed base) (c_powParams base) = target_after bs) as Et.
  { unfold rebuildPowStateForFork. rewrite Hse, Hpa. apply (rebuild_fork_target U HU rule_params h 0 bs (rule_seed, 0)); [|lia].
    intros i b Hi. destruct (proj1 (Hbs i b Hi)) as (L & ? & HL & _ & Hb). exists L. by apply HL. }
  rewrite Et in Hf. destruct (target_after bs) as [t ts] eqn:Ett. injection Hf as <-.
  destruct Hr as [([HL Hst] & -> & Eh)|[Hr _]]; [|lia]. exists bs. split_and!; try done; [|lia].
  split; [done|done| |by split|by rewrite Ett]. cbn [headHeight headHash]. rewrite Eh. by destruct (head_of bs).
Qed.

(** Indexing a chain whose store holds its blocks. *)
Lemma index_chain_ok G i c L s :
  Chains s !! i = Some c -> G !! i = Some L -> chain_of U c L -> Z.of_nat (length L) <= 2 ^ 64 ->
  (forall k b, L !! k = Some b -> Get (c_store c) (EncodeNamecoinBlockKey (Z.of_nat k)) (stores s) = Some (Doc (Marshal b))) ->
  (length L <> 0)%nat -> index_ok G (blockIndex s) -> index_ok G (blockIndex (indexChainUnlocked i s)).
Proof.
  intros Hc HG [HL _ Hh _ _] Hb Hg Hne Hi. unfold indexChainUnlocked. rewrite Hc.
  assert (headHeight c = Z.of_nat (length L) - 1) as Eh.
  { destruct (last L) as [p|] eqn:Ep; [|apply last_None in Ep as ->; done]. unfold head_of in Hh. rewrite Ep in Hh. by injection Hh as ->. }
  rewrite Eh. replace (S (Z.to_nat (Z.of_nat (length L) - 1))) with (length L) by lia.
  assert (forall hs, (forall h, h ∈ hs -> (h < length L)%nat) -> forall s', stores s' = stores s -> index_ok G (blockIndex s') ->
    index_ok G (blockIndex (foldl (index_height i c) s' hs))) as Hf.
  { induction hs as [|h hs IH]; intros Hhs s' Es Hs'; [done|]. cbn [foldl]. apply IH; [intros; apply Hhs; by apply elem_of_cons; right|..].
    - unfold index_height. destruct (blockAtHeight _ _ _); [|done]. by destruct (register_frame i a s') as (_ & _ & -> & _).
    - assert (h < length L)%nat as Hlt by (apply Hhs; by apply elem_of_cons; left).
      destruct (lookup_lt_is_Some_2 L h Hlt) as [b Hlb]. pose proof (HL _ _ Hlb) as Hp.
      unfold index_height, blockAtHeight. rewrite Es, (Hg _ _ Hlb). change (MkLoaded (Z.of_nat h) (Doc (Marshal b))) with (loaded h b).
      rewrite (decode_loaded U HU L) by done. apply (register_ok G i L b); try done.
      + apply Hp.
      + cbn [stored Hash elems default from_option id]. rewrite (pos_sealed _ _ _ _ Hp) at 1. done.
      + rewrite (pos_height _ _ _ _ Hp), Nat2Z.id. by exists b. }
  apply Hf; try done. intros h [_ ?]%elem_of_seq. lia.
Qed.

(** ** The chain for a parent *)

Context (visit : ChainService -> gset nat -> list nat) (Hvisit : forall s X i, i ∈ visit s X -> i ∈ X).

Lemma find_index_None f n l c : find_index f n l = None -> c ∈ l -> f c = false.
Proof.
  revert n. induction l as [|x l IH]; intros n; cbn [find_index]; [by intros _ ?%elem_of_nil|].
  destruct (f x) eqn:E; [done|]. intros Hn [->|Hc]%elem_of_cons; [done|by eapply IH].
Qed.

Lemma better_base_in s l base i : foldl (better_base s) base l = Some i -> base = Some i \/ i ∈ l.
Proof.
  revert base. induction l as [|x l IH]; intros base; cbn [foldl]; [by left|]. intros [Hb|?]%IH; [|right; by apply elem_of_cons; right].
  unfold better_base in Hb. destruct base as [b|]; [|injection Hb as ->; right; by apply elem_of_cons; left].
  repeat case_match; simplify_eq; auto; right; by apply elem_of_cons; left.
Qed.

Lemma chain_height c L : chain_of U c L -> 0 <= headHeight c.
Proof.
  intros [_ _ Hh _ _]. unfold head_of in Hh. destruct (last L) as [p|] eqn:Ep; injection Hh as -> _; [|done].
  destruct L; [done|]. cbn. lia.
Qed.

(** A chain that is not better than the longest one is appended. *)
Lemma append_ok G N s c L hp :
  service_ok G N s -> chain_of U c L -> Z.of_nat (length L) <= N -> (forall k v, holds hp k v -> holds (stores s) k v) ->
  (forall cur, Chains s !! LongestChainIndex s = Some cur -> Forall (dominates cur) (Chains s) -> dominates cur c) ->
  service_ok (G ++ [L]) N (set_Chains (Chains s ++ [c]) (set_stores hp s)).
Proof.
  intros [Hc Hb Hs Hi Ho (cur & Hcur & Hd)] HcL HN Hhp Hdom. split; cbn [Chains stores blockIndex orphansByPrev LongestChainIndex set_Chains set_stores].
  - apply Forall2_app; [done|]. by constructor.
  - apply Forall_app_2; [done|]. by constructor.
  - apply (stores_grow G); [apply grows_app|]. by eapply stores_sub.
  - apply (index_grow G); [apply grows_app|done].
  - done.
  - exists cur. split; [by apply lookup_app_l_Some|]. apply Forall_app_2; [done|]. constructor; [by apply Hdom|constructor].
Qed.

(** A chain that contains a block, which is not its head, goes on after it. *)
Lemma parent_inside G N s p meta ib base :
  service_ok G N s -> bytes_ok p -> bytes_Equal (headHash base) (Some p) = false -> blockIndex s !! hashKeyHex (Some p) = Some meta ->
  ib ∈ m_chains meta -> Chains s !! ib = Some base ->
  is_u64 (m_height meta) /\ m_height meta + 1 <= N /\ m_height meta <> headHeight base.
Proof.
  intros [Hc Hb _ Hi _ _] Hp Ef Em Hib Eb. destruct (Hi _ _ Em) as (b & Ub & Ek & Eh & Hch). destruct (Hch ib Hib) as (Lb & x & HLb & Hx & Ex).
  pose proof (Forall2_lookup_lr _ _ _ _ _ _ Hc Eb HLb) as [_ _ HhLb _ _]. destruct (u_typed U HU b Ub) as [Hhb _].
  pose proof (ho_height _ Hhb) as Hu. rewrite <- Eh in Hu. pose proof (lookup_lt_Some _ _ _ Hx) as Hlt.
  apply (Forall_lookup_1 _ _ _ _ Hb) in HLb as HNb. cbn in HNb. split_and!; [done|unfold is_u64 in Hu; lia|]. intros Em'.
  assert (last Lb = Some x) as Elast.
  { rewrite last_lookup. unfold head_of in HhLb. destruct (last Lb) as [q|] eqn:Eq; [|apply last_None in Eq as ->; done].
    injection HhLb as Ehb _. rewrite <- Hx. f_equal. lia. }
  unfold head_of in HhLb. rewrite Elast in HhLb. injection HhLb as _ Ehash.
  assert (p = ComputeHash b) as -> by (apply bytesToHex_inj; [done|apply ComputeHash_bytes|done]).
  unfold bytes_Equal in Ef.
  apply bool_decide_eq_false_1 in Ef. apply Ef. rewrite Ehash. cbn. by rewrite Ex.
Qed.

(** The service with a fork. *)
Lemma fork_service_ok G N s h base ib rs hp origin :
  service_ok G N s -> N <= 2 ^ 64 -> newOverlayStore (c_store base) (stores s) = (rs, hp) -> Chains s !! ib = Some base ->
  is_u64 h -> h + 1 <= N -> h <> headHeight base -> forkUpToHeight h rs base hp = Normal origin ->
  let s' := indexChainUnlocked (length (Chains s)) (set_Chains (Chains s ++ [origin]) (set_stores hp s)) in
  exists L, service_ok (G ++ [L]) N s'.
Proof.
  intros Hok HN En Eb Hu HhN Hne Efk. cbv zeta. pose proof Hok as [Hc Hb Hs Hi Ho _].
  assert (forall k v, holds hp k v -> holds (stores s) k v) as Hhp by (intros k v; by apply (holds_overlay _ _ _ _ k v En)).
  destruct (Forall2_lookup_l _ _ _ _ _ Hc Eb) as (Lb & _ & [_ _ _ [Hse Hpa] _]).
  destruct (fork_ok G s hp rs h base origin Hc (stores_sub _ _ _ Hhp Hs) Hu Hse Hpa Efk) as (L & HcL & Hlen & Hle & Est & HL).
  assert (service_ok (G ++ [L]) N (set_Chains (Chains s ++ [origin]) (set_stores hp s))) as [H1' H2' H3' H4' H5' H6'].
  { apply append_ok; try done; [lia|]. intros cur _ Hd. apply (dominates_trans _ base); [exact (Forall_lookup_1 _ _ _ _ Hd Eb)|]. left.
    destruct HcL as [_ _ HhL _ _]. unfold head_of in HhL. unfold is_u64 in Hu.
    destruct (last L) as [q|] eqn:Eq; [|apply last_None in Eq as ->; cbn in Hlen; lia]. injection HhL as -> _. lia. }
  destruct (index_frame (length (Chains s)) (set_Chains (Chains s ++ [origin]) (set_stores hp s))) as (E1 & E2 & E3 & E4).
  exists L. split; rewrite ?E1, ?E2, ?E3, ?E4; try done. unfold is_u64 in Hu. apply (index_chain_ok _ _ origin L); try done; [| |lia| |lia].
  - cbn [Chains set_Chains]. by apply list_lookup_middle.
  - apply list_lookup_middle. by eapply Forall2_length.
  - intros k y Hy. rewrite Est. by apply HL.
Qed.

Lemma fork_at_ok G N s p meta ib base r s' :
  service_ok G N s -> N <= 2 ^ 64 -> bytes_ok p -> bytes_Equal (headHash base) (Some p) = false -> blockIndex s !! hashKeyHex (Some p) = Some meta ->
  ib ∈ m_chains meta -> Chains s !! ib = Some base -> fork_at (m_height meta) base s = (r, s') ->
  exists G', service_ok G' N s' /\ grows G G' /\ Chains s' !! LongestChainIndex s' = Chains s !! LongestChainIndex s.
Proof.
  intros Hok HN Hp Ef Em Hib Eb. unfold fork_at. pose proof Hok as [Hc Hb Hs Hi Ho (cur & Hcur & Hd)].
  destruct (newOverlayStore _ _) as [rs hp] eqn:En. destruct (forkUpToHeight _ _ _ _) as [origin|] eqn:Efk; intros [= <- <-].
  - destruct (parent_inside _ _ _ _ _ _ _ Hok Hp Ef Em Hib Eb) as (Hu & HhN & Hne).
    destruct (fork_service_ok _ _ _ _ _ _ _ _ _ Hok HN En Eb Hu HhN Hne Efk) as [L Hok']. exists (G ++ [L]). split_and!; [done|apply grows_app|].
    destruct (index_frame (length (Chains s)) (set_Chains (Chains s ++ [origin]) (set_stores hp s))) as (-> & -> & _).
    cbn [Chains LongestChainIndex set_Chains set_stores]. rewrite Hcur. by apply lookup_app_l_Some.
  - exists G. split_and!; [|apply grows_refl|done]. split; try done; [|by exists cur].
    eapply stores_sub; [|exact Hs]. intros k v. by apply (holds_overlay _ _ _ _ k v En).
Qed.

Lemma ensure_ok G N s index blk r s' :
  service_ok G N s -> N <= 2 ^ 64 -> U blk -> ensureChainForParentUnlocked visit index blk s = (r, s') ->
  exists G', service_ok G' N s' /\ grows G G' /\ Chains s' !! LongestChainIndex s' = Chains s !! LongestChainIndex s.
Proof.
  intros Hok HN Hblk. pose proof Hok as [Hc Hb Hs Hi Ho (cur & Hcur & Hd)].
  assert (forall r1, (r1, s) = (r, s') -> exists G', service_ok G' N s' /\ grows G G' /\ Chains s' !! LongestChainIndex s' = Chains s !! LongestChainIndex s)
    as Hsame by (intros r1 [= _ <-]; exists G; auto using grows_refl).
  unfold ensureChainForParentUnlocked. destruct (h_Height (Header blk) =? 0).
  - unfold handleGenesisUnlocked, newEmptyChainFrom. destruct (find_index _ _ _) as [i|]; [apply Hsame|].
    destruct (Chains s !! index) as [ref|] eqn:Eref; [|apply Hsame].
    destruct (newOverlayStore _ _) as [rs hp] eqn:En. intros [= <- <-]. exists (G ++ [[]]).
    split_and!; [|apply grows_app|cbn [Chains LongestChainIndex set_Chains set_stores]; rewrite Hcur; by apply lookup_app_l_Some].
    destruct (Forall2_lookup_l _ _ _ _ _ Hc Hcur) as (L & HL & HcL). pose proof (chain_height _ _ HcL) as Hpos.
    apply (Forall_lookup_1 _ _ _ _ Hb) in HL. cbn in HL. apply append_ok; try done.
    + destruct (Forall2_lookup_l _ _ _ _ _ Hc Eref) as (Lr & _ & [_ _ _ [Hse Hpa] _]).
      split; [intros k b Hk; by rewrite lookup_nil in Hk|constructor|done|by split|cbn [powTarget headTS]; by rewrite Hse].
    + cbn [length]. lia.
    + intros k v. by apply (holds_overlay _ _ _ _ k v En).
    + intros cur' Hcur' _. simplify_eq. unfold dominates. cbn [headHeight headHash]. destruct (Z.eq_dec 0 (headHeight cur)); [by right|left; lia].
  - destruct (h_PrevHash (Header blk)) as [p|] eqn:Ep; [|apply Hsame].
    destruct (findHeadByHashUnlocked (Some p) s) as [i|] eqn:Ef; [apply Hsame|].
    destruct (blockIndex s !! hashKeyHex (Some p)) as [meta|] eqn:Em; [|apply Hsame].
    unfold forkFromParentMetaUnlocked. destruct (foldl _ _ _ ≫= _) as [base|] eqn:Eb; [|apply Hsame].
    apply bind_Some in Eb as (ib & Hib & Eb). apply better_base_in in Hib as [|Hib]; [done|]. apply Hvisit in Hib.
    assert (bytes_ok p) as Hp by (destruct (ho_bytes _ (proj1 (u_typed U HU blk Hblk))) as (Hpb & _); by rewrite Ep in Hpb).
    apply (fork_at_ok _ _ _ p _ ib); try done. apply (find_index_None _ _ _ base Ef). by eapply list_elem_of_lookup_2.
Qed.

(** ** Attaching a block *)

Lemma persist_ok G G' hp r b L k : grows G G' -> L ∈ G' -> L !! k = Some b -> h_Height (Header b) = Z.of_nat k ->
  Z.of_nat k < 2 ^ 64 -> stores_ok G hp -> stores_ok G' (persist r b hp).
Proof.
  intros Hg HL Hb Hh Hk Hs h v Hu Hv. assert (is_u64 (Z.of_nat k)) by (unfold is_u64; lia).
  apply holds_Set in Hv as [[E _]|Hv]; [by apply key_not_head in E|]. rewrite Hh in Hv.
  apply holds_Set in Hv as [[E ->]|Hv]; [|by apply (stores_grow _ _ _ Hg Hs)].
  apply key_inj in E as ->; [|done..]. exists L, b. by rewrite Nat2Z.id.
Qed.

(** A chain that has got a block is better than before. *)
Lemma applied_dominates c hp b c' hp' L :
  chain_of U c L -> Z.of_nat (length L) < 2 ^ 64 -> applied c hp b c' hp' -> dominates c' c /\ headHash c' <> None.
Proof.
  intros [_ _ Hh _ _] Hl [Hf _ _ _ _ -> _]. unfold advance. cbn [headHeight headHash]. rewrite clone_hash. split; [|done].
  assert (headHeight c = (head_of L).1 /\ headHash c = (head_of L).2) as [E1 E2] by (by rewrite <- Hh).
  rewrite E1, E2 in Hf. apply follows_spec in Hf as [Eh _]; [|done]. unfold dominates. cbn [headHeight headHash].
  change (Header (sealed b)) with (Header b). rewrite Eh, E1, E2. unfold head_of. destruct (last L) as [p|] eqn:Ep; cbn [fst snd].
  - left. lia.
  - apply last_None in Ep as ->. by right.
Qed.

Lemma promote_ok G N s i cand cur :
  Forall2 (chain_of U) (Chains s) G -> Forall (fun L => Z.of_nat (length L) <= N) G -> stores_ok G (stores s) ->
  index_ok G (blockIndex s) -> map_Forall (fun _ l => Forall U l) (orphansByPrev s) ->
  Chains s !! i = Some cand -> Chains s !! LongestChainIndex s = Some cur -> headHash cand <> None ->
  (forall j c, Chains s !! j = Some c -> j <> i -> dominates cur c) ->
  service_ok G N (maybePromoteLongest i s) /\
  exists cur', Chains (maybePromoteLongest i s) !! LongestChainIndex (maybePromoteLongest i s) = Some cur' /\ dominates cur' cur.
Proof.
  intros Hc Hb Hs Hi Ho Hcand Hcur Hne Hd. unfold maybePromoteLongest. rewrite Hcand, Hcur. destruct (keeps_current cand cur) eqn:Ek.
  - split; [|exists cur; split; [done|apply dominates_refl]]. split; try done. exists cur. split; [done|].
    apply Forall_lookup. intros j c Hj. destruct (decide (j = i)) as [->|]; [|by eapply Hd]. simplify_eq. by apply keeps_dominates.
  - pose proof (promoted_dominates _ _ Hne Ek) as Hp.
    assert (Forall (dominates cand) (Chains s)) as Hall.
    { apply Forall_lookup. intros j c Hj. destruct (decide (j = i)) as [->|]; [simplify_eq; apply dominates_refl|].
      eapply dominates_trans; [exact Hp|by eapply Hd]. }
    destruct (stores s !! c_store cand) as [[m|base w del]|];
      try (split; [split; try done; by exists cand|exists cand; by split]).
    assert (<[i:=set_c_store base cand]> (Chains s) !! i = Some (set_c_store base cand)) as Hnew
      by (apply list_lookup_insert_eq; by eapply lookup_lt_Some).
    split; [|exists (set_c_store base cand); by split]. split; cbn [Chains stores blockIndex orphansByPrev LongestChainIndex set_Chains set_stores set_Longest]; try done.
    + destruct (Forall2_lookup_l _ _ _ _ _ Hc Hcand) as (L & HL & [? ? ? ? ?]). rewrite <- (list_insert_id G i L) by done.
      apply Forall2_insert; [done|]. by split.
    + eapply stores_sub; [|exact Hs]. intros k v. apply holds_Commit.
    + exists (set_c_store base cand). split; [done|]. apply Forall_insert; [done|]. apply dominates_refl.
Qed.

Lemma attach_ok G N s i c b c' hp' :
  service_ok G N s -> N < 2 ^ 64 -> U b -> Chains s !! i = Some c -> applied c (stores s) b c' hp' ->
  let s' := maybePromoteLongest i (registerBlockUnlocked i (sealed b) (set_Chains (<[i := c']> (Chains s)) (set_stores hp' s))) in
  exists G', service_ok G' (N + 1) s' /\ grows G G' /\
    exists cur cur', Chains s !! LongestChainIndex s = Some cur /\ Chains s' !! LongestChainIndex s' = Some cur' /\ dominates cur' cur.
Proof.
  intros [Hc Hb Hs Hi Ho (cur & Hcur & Hd)] HN Ub Hci Hap. cbv zeta.
  destruct (Forall2_lookup_l _ _ _ _ _ Hc Hci) as (L & HL & HcL). pose proof (Forall_lookup_1 _ _ _ _ Hb HL) as HNL. cbn in HNL.
  destruct (applied_dominates _ _ _ _ _ _ HcL ltac:(lia) Hap) as [Hdc Hne]. pose proof (extend_history U HU _ _ _ _ _ _ HcL Ub ltac:(lia) Hap) as HcL'.
  set (L' := L ++ [sealed b]) in *. assert (L' !! length L = Some (sealed b)) as Hlast by (by apply list_lookup_middle).
  assert (grows G (<[i := L']> G)) as Hg by (apply (grows_insert G i L); [done|by apply prefix_app_r]).
  assert (<[i := L']> G !! i = Some L') as HG' by (apply list_lookup_insert_eq; by eapply lookup_lt_Some).
  pose proof (co_history _ _ _ HcL' _ _ Hlast) as Hpos.
  set (s1 := set_Chains (<[i := c']> (Chains s)) (set_stores hp' s)).
  assert (Chains s1 !! i = Some c') as Hc1 by (apply list_lookup_insert_eq; by eapply lookup_lt_Some).
  assert (exists cur1, Chains s1 !! LongestChainIndex s1 = Some cur1 /\ dominates cur1 cur) as (cur1 & Hcur1 & Hd1).
  { cbn [Chains LongestChainIndex s1 set_Chains set_stores]. destruct (decide (LongestChainIndex s = i)) as [E|E].
    - exists c'. rewrite E in Hcur |- *. simplify_eq. by split.
    - exists cur. rewrite list_lookup_insert_ne by done. split; [done|apply dominates_refl]. }
  destruct (register_frame i (sealed b) s1) as (E1 & E2 & E3 & E4).
  destruct (promote_ok (<[i := L']> G) (N + 1) (registerBlockUnlocked i (sealed b) s1) i c' cur1) as (Hok & cur' & Hcur' & Hd').
  - rewrite E1. by apply Forall2_insert.
  - apply Forall_insert; [eapply Forall_impl; [exact Hb|]; cbn; lia|]. unfold L'. rewrite length_app. cbn [length]. lia.
  - rewrite E3. unfold s1. cbn [stores set_Chains set_stores]. rewrite (ap_heap _ _ _ _ _ Hap). apply (persist_ok G _ _ _ _ L' (length L)); try done; [by eapply list_elem_of_lookup_2|apply Hpos|lia].
  - apply (register_ok _ i L' (sealed b)); try done.
    + apply (index_grow G); done.
    + apply Hpos.
    + rewrite (pos_height _ _ _ _ Hpos), Nat2Z.id. by exists (sealed b).
  - by rewrite E4.
  - by rewrite E1.
  - by rewrite E1, E2.
  - done.
  - rewrite E1. intros j x Hj Hne'. cbn [Chains s1 set_Chains set_stores] in Hj. rewrite list_lookup_insert_ne in Hj by done.
    eapply dominates_trans; [exact Hd1|]. exact (Forall_lookup_1 _ _ _ _ Hd Hj).
  - exists (<[i := L']> G). split_and!; [done..|]. exists cur, cur'. split_and!; [done..|]. by eapply dominates_trans.
Qed.

(** ** Processing blocks *)

Definition best_head (s : ChainService) (P : NamecoinChain -> Prop) : Prop :=
  exists cur, Chains s !! LongestChainIndex s = Some cur /\ P cur.

Lemma pop_ok G N s h r s' : service_ok G N s -> popWaitingChildrenUnlocked h s = (r, s') ->
  exists l, r = Normal l /\ Forall U l /\ service_ok G N s'.
Proof.
  intros [Hc Hb Hs Hi Ho Hbest]. unfold popWaitingChildrenUnlocked. destruct h as [h|]; [|intros [= <- <-]; by exists []].
  destruct (orphansByPrev s !! bytesToHex h) as [[|x l]|] eqn:E; cbn [default from_option id]; intros [= <- <-]; [by exists []| |by exists []].
  exists (x :: l). split_and!; [done|by apply Ho in E|]. split; try done. by apply map_Forall_delete.
Qed.

Lemma orphan_ok G N s b : service_ok G N s -> U b -> service_ok G N (storeOrphanUnlocked b s).
Proof.
  intros [Hc Hb Hs Hi Ho Hbest] Ub. unfold storeOrphanUnlocked. case_match; [done|]. split; try done.
  cbn [orphansByPrev set_orphans]. apply map_Forall_insert_2; [|done]. apply Forall_app_2; [|by repeat constructor; apply Uclone].
  destruct (orphansByPrev s !! _) as [l|] eqn:E; [by apply Ho in E|constructor].
Qed.

Lemma orphan_best b s : Chains (storeOrphanUnlocked b s) = Chains s /\ LongestChainIndex (storeOrphanUnlocked b s) = LongestChainIndex s.
Proof. unfold storeOrphanUnlocked. by case_match. Qed.

Definition children_of (r : outcome (list FullBlock)) : list FullBlock := match r with Normal l => l | Throw _ => [] end.

Lemma single_ok G N s index blk r s' :
  service_ok G N s -> N < 2 ^ 64 -> U blk -> processSingleBlockUnlocked visit index blk s = (r, s') ->
  exists G' N', service_ok G' N' s' /\ Forall U (children_of r) /\
    N' + Z.of_nat (length (children_of r)) + weight (orphansByPrev s') <= N + weight (orphansByPrev s) + 1 /\
    forall cur, Chains s !! LongestChainIndex s = Some cur -> best_head s' (fun cur' => dominates cur' cur).
Proof.
  intros Hok HN Ub Hp. unfold processSingleBlockUnlocked in Hp. destruct (blockKnownUnlocked _ _ _).
  { destruct (pop_ok _ _ _ _ _ _ Hok Hp) as (l & -> & Hl & Hok'). apply pop_spec in Hp as (l' & [= <-] & Hw & Ec & Ei & _).
    exists G, N. split_and!; [done..|cbn; lia|]. intros cur Hcur. exists cur. rewrite Ec, Ei. split; [done|apply dominates_refl]. }
  destruct (ensureChainForParentUnlocked visit index blk s) as [r1 s1] eqn:E1.
  destruct (ensure_ok _ _ _ _ _ _ _ Hok ltac:(lia) Ub E1) as (G1 & Hok1 & _ & Ecur). apply ensure_frame in E1 as (_ & Eo & _).
  assert (forall b e, U b -> (r, s') = (Normal [], storeOrphanUnlocked b s1) \/ (r, s') = (Throw e, s1) ->
    exists G' N', service_ok G' N' s' /\ Forall U (children_of r) /\
      N' + Z.of_nat (length (children_of r)) + weight (orphansByPrev s') <= N + weight (orphansByPrev s) + 1 /\
      forall cur, Chains s !! LongestChainIndex s = Some cur -> best_head s' (fun cur' => dominates cur' cur)) as Hstop.
  { intros b e Hb [[= -> ->]|[= -> ->]]; exists G1, N; cbn [children_of length].
    - pose proof (weight_store b s1) as Hw. rewrite Eo in Hw. destruct (orphan_best b s1) as [Ec Ei].
      split_and!; [by apply orphan_ok|constructor|lia|]. intros cur Hcur. exists cur. rewrite Ec, Ei, Ecur. split; [done|apply dominates_refl].
    - rewrite Eo. split_and!; [done|constructor|lia|]. intros cur Hcur. exists cur. rewrite Ecur. split; [done|apply dominates_refl]. }
  destruct r1 as [i|e].
  - destruct (Chains s1 !! i) as [c|] eqn:Ec; [|eapply (Hstop blk); [done|right; by symmetry]].
    destruct (NamecoinChain_ApplyBlock c (stores s1) blk) as [ra blk'] eqn:Ea.
    destruct (Forall2_lookup_l _ _ _ _ _ (so_chains _ _ _ Hok1) Ec) as (L & _ & HcL).
    destruct (apply_spec _ _ _ _ _ (chain_of_hash _ _ _ HcL) Ea) as [Hb Hap].
    assert (U blk') as Ub' by (destruct Hb as [-> | ->]; [done|by apply (u_seal U HU)]).
    destruct ra as [[c' hp]|e].
    + destruct (Hap _ _ eq_refl) as [-> Hap']. destruct (attach_ok _ _ _ _ _ _ _ _ Hok1 HN Ub Ec Hap') as (G2 & Hok2 & _ & cur0 & cur2 & Hc0 & Hc2 & Hd2).
      set (s2 := maybePromoteLongest _ _) in *. destruct (pop_ok _ _ _ _ _ _ Hok2 Hp) as (l & -> & Hl & Hok3).
      apply pop_spec in Hp as (l' & [= <-] & Hw & Ech & Eix & _). exists G2, (N + 1). split_and!; [done..| |].
      * assert (orphansByPrev s2 = orphansByPrev s) as Es2.
        { unfold s2. rewrite promote_orphans. destruct (register_frame i (sealed blk) (set_Chains (<[i:=c']> (Chains s1)) (set_stores hp s1))) as (_ & _ & _ & ->). done. }
        rewrite Es2 in Hw. cbn [children_of]. lia.
      * intros cur Hcur. exists cur2. rewrite Ech, Eix. split; [done|]. rewrite Ecur, Hcur in Hc0. by injection Hc0 as ->.
    + eapply (Hstop blk'); [done|]. destruct (is_follow_error e); [left|right]; by symmetry.
  - eapply (Hstop blk); [done|]. destruct (is_unknown_parent e); [left|right]; by symmetry.
Qed.

Lemma loop_ok fuel index pending e G N s :
  service_ok G N s -> Forall U pending -> N + Z.of_nat (length pending) + weight (orphansByPrev s) <= 2 ^ 64 ->
  let '(_, _, s') := pending_loop visit fuel index pending e s in
  exists G' N', service_ok G' N' s' /\ N' + weight (orphansByPrev s') <= N + Z.of_nat (length pending) + weight (orphansByPrev s) /\
    forall cur, Chains s !! LongestChainIndex s = Some cur -> best_head s' (fun cur' => dominates cur' cur).
Proof.
  revert pending e G N s. induction fuel as [|f IH]; intros [|blk pending] e G N s Hok Hp HB; cbn [pending_loop].
  1,2,3: exists G, N; split_and!; [done|cbn [length]; lia|]; intros cur Hcur; exists cur; split; [done|apply dominates_refl].
  apply Forall_cons in Hp as [Ub Hp]. pose proof (weight_nonneg (orphansByPrev s)). cbn [length] in HB.
  destruct (processSingleBlockUnlocked visit index blk s) as [r s1] eqn:E1.
  destruct (single_ok _ _ _ _ _ _ _ Hok ltac:(lia) Ub E1) as (G1 & N1 & Hok1 & Hl & Hw & Hd).
  assert (forall pending' e', Forall U pending' -> Z.of_nat (length pending') = Z.of_nat (length pending) + Z.of_nat (length (children_of r)) ->
    let '(_, _, s') := pending_loop visit f index pending' e' s1 in
    exists G' N', service_ok G' N' s' /\ N' + weight (orphansByPrev s') <= N + Z.of_nat (S (length pending)) + weight (orphansByPrev s) /\
      forall cur, Chains s !! LongestChainIndex s = Some cur -> best_head s' (fun cur' => dominates cur' cur)) as Hgo.
  { intros pending' e' Hp' Hlen. specialize (IH pending' e' G1 N1 s1 Hok1 Hp' ltac:(lia)).
    destruct (pending_loop visit f index pending' e' s1) as [[b' e''] s']. destruct IH as (G' & N' & Hok' & Hw' & Hd').
    exists G', N'. split_and!; [done|lia|]. intros cur Hcur. destruct (Hd cur Hcur) as (cur1 & Hcur1 & Hd1).
    destruct (Hd' cur1 Hcur1) as (cur2 & Hcur2 & Hd2). exists cur2. split; [done|]. by eapply dominates_trans. }
  destruct r as [l|x]; cbn [children_of length] in *; apply Hgo; [by apply Forall_app_2|rewrite length_app; lia|done|lia].
Qed.

Lemma append_block_ok index b G N s :
  service_ok G N s -> U b -> N + 1 + weight (orphansByPrev s) <= 2 ^ 64 ->
  let s' := (AppendBlockToChain visit index b s).2 in
  exists G' N', service_ok G' N' s' /\ N' + weight (orphansByPrev s') <= N + 1 + weight (orphansByPrev s) /\
    forall cur, Chains s !! LongestChainIndex s = Some cur -> best_head s' (fun cur' => dominates cur' cur).
Proof.
  intros Hok Ub HN. unfold AppendBlockToChain, processPendingBlocksUnlocked.
  pose proof (loop_ok (enough (S (waiting s))) index [b] None G N s Hok ltac:(by constructor) ltac:(cbn [length]; lia)) as Hl.
  destruct (pending_loop _ _ _ _ _ _) as [[fin err] s']. destruct Hl as (G' & N' & Hok' & Hw & Hd).
  repeat case_match; cbn [snd]; exists G', N'; (split_and!; [done|cbn [length] in Hw; lia|done]).
Qed.
End safety.
