(* ===== verification/NodeRestart.v ===== *)
(** * Restarts

    A node that starts again replays the blocks of its store.  When the store was
    written by one chain, this restores the chain ([restart_restores]); a fork, which
    replays the first blocks of a store, is the chain that these blocks had built
    ([fork_is_prefix]). *)

From stdpp Require Import sorting.
From S2P Require Import Prelude JsValue Json JsonFacts JsonCanon Sha256 Platform World Hash Go GoText NodeState NodeUTXO NodeCommands NodeBlocks.
From S2P Require Import NodeSafety NodeChain NodeProgress NodeMempool NodeDemo NodeHeaders NodePow NodeLedger NodeForks NodeHistory NodeForkDemo.
Local Open Scope Z_scope.

(** ** Scanning the store *)

Definition scan1 (kv : string * data) : option loadedBlock := h ← parseNamecoinBlockHeight kv.1; Some (MkLoaded h kv.2).

Lemma omap_perm {A B} (f : A -> option B) l l' : l ≡ₚ l' -> omap f l ≡ₚ omap f l'.
Proof.
  induction 1 as [|x l l' _ IH|x y l|l1 l2 l3 _ IH1 _ IH2]; cbn; [done| | |by etrans].
  - destruct (f x); [by constructor|done].
  - destruct (f x), (f y); try done. constructor.
Qed.

Lemma scan_insert_other k v (m : gmap string data) : parseNamecoinBlockHeight k = None ->
  omap scan1 (map_to_list (<[k := v]> m)) ≡ₚ omap scan1 (map_to_list m).
Proof.
  intros Hk. assert (forall v m, m !! k = None -> omap scan1 (map_to_list (<[k := v]> m)) ≡ₚ omap scan1 (map_to_list m)) as Hnew.
  { intros v' m' Hm. rewrite (omap_perm _ _ _ (map_to_list_insert m' k v' Hm)). cbn. unfold scan1 at 1. cbn. by rewrite Hk. }
  rewrite <- insert_delete_eq, Hnew by apply lookup_delete_eq. destruct (m !! k) as [v'|] eqn:E.
  - rewrite <- (Hnew v' (delete k m)) by apply lookup_delete_eq. by rewrite insert_delete_id.
  - by rewrite delete_id.
Qed.

Lemma scan_insert_block h v (m : gmap string data) : is_u64 h -> m !! EncodeNamecoinBlockKey h = None ->
  omap scan1 (map_to_list (<[EncodeNamecoinBlockKey h := v]> m)) ≡ₚ MkLoaded h v :: omap scan1 (map_to_list m).
Proof.
  intros Hh Hm. rewrite (omap_perm _ _ _ (map_to_list_insert m _ v Hm)). cbn. unfold scan1 at 1. cbn. by rewrite parse_key.
Qed.

Lemma loaded_from_app n a b : loaded_from n (a ++ b) = loaded_from n a ++ loaded_from (n + length a) b.
Proof.
  revert n. induction a as [|x a IH]; intros n; cbn [loaded_from app length]; [by rewrite Nat.add_0_r|].
  rewrite IH. do 3 f_equal. lia.
Qed.

Lemma loaded_from_heights n bs lb : lb ∈ loaded_from n bs -> Z.of_nat n <= l_Height lb < Z.of_nat (n + length bs).
Proof.
  revert n. induction bs as [|b bs IH]; intros n; cbn [loaded_from length]; [by intros ?%elem_of_nil|].
  intros [->|Hl]%elem_of_cons; [cbn; lia|]. apply IH in Hl. lia.
Qed.

Lemma loaded_from_sorted n bs : StronglySorted loaded_le (loaded_from n bs).
Proof.
  revert n. induction bs as [|b bs IH]; intros n; cbn [loaded_from]; constructor; [done|].
  apply Forall_forall. intros lb Hl%loaded_from_heights. unfold loaded_le, loaded. cbn [l_Height]. lia.
Qed.

Lemma loaded_from_inj n bs x y : x ∈ loaded_from n bs -> y ∈ loaded_from n bs -> l_Height x = l_Height y -> x = y.
Proof.
  revert n. induction bs as [|b bs IH]; intros n; cbn [loaded_from]; [by intros ?%elem_of_nil|].
  intros [->|Hx]%elem_of_cons [->|Hy]%elem_of_cons E; [done| | |by eapply IH].
  - apply loaded_from_heights in Hy. cbn in E. lia.
  - apply loaded_from_heights in Hx. cbn in E. lia.
Qed.

#[export] Instance loaded_le_trans : Transitive loaded_le.
Proof. unfold loaded_le. intros a b c. lia. Qed.
#[export] Instance loaded_le_total : Total loaded_le.
Proof. unfold loaded_le. intros a b. lia. Qed.

Lemma scan_sorted m bs : omap scan1 (map_to_list m) ≡ₚ loaded_from 0 bs -> scan_blocks m = loaded_from 0 bs.
Proof.
  intros Hp. unfold scan_blocks. fold scan1. change (fun kv : string * data => h ← parseNamecoinBlockHeight kv.1; Some (MkLoaded h kv.2)) with scan1.
  apply (Sorted_unique_strong loaded_le).
  - intros x y Hx Hy H1 H2.
    assert (x ∈ loaded_from 0 bs) by (rewrite <- Hp; by rewrite (merge_sort_Permutation loaded_le) in Hx).
    apply (loaded_from_inj 0 bs); [done..|]. unfold loaded_le in *. lia.
  - apply (Sorted_merge_sort loaded_le).
  - apply StronglySorted_Sorted, loaded_from_sorted.
  - by rewrite merge_sort_Permutation.
Qed.

(** ** A chain that writes to its store *)

Section restart.
Context `{CanonicalJson} `{Ed25519} (cfg : PoWConfig).

(** A node that has started with an empty store and whose one chain has accepted the
    blocks [L]; [m] is what its store holds. *)
Inductive persisted : list FullBlock -> NamecoinChain -> gmap string data -> Prop :=
  | persisted_start : persisted [] (ConfigurePow cfg (NewNamecoinChain 0)) ∅
  | persisted_more L c m b c' m' b' :
      persisted L c m -> NamecoinChain_ApplyBlock c [Base m] b = (Normal (c', [Base m']), b') ->
      persisted (L ++ [b']) c' m'.

#[local] Instance cfg_rules : PowRules := rules_of cfg.
Context (U : FullBlock -> Prop) (HU : universe U).

Lemma persisted_chain L c m :
  persisted L c m -> Forall U L -> Z.of_nat (length L) < 2 ^ 64 ->
  chain_of U c L /\ c_store c = 0%nat /\ omap scan1 (map_to_list m) ≡ₚ loaded_from 0 L /\
  (forall h, Z.of_nat (length L) <= h < 2 ^ 64 -> m !! EncodeNamecoinBlockKey h = None) /\
  (forall k b, L !! k = Some b -> m !! EncodeNamecoinBlockKey (Z.of_nat k) = Some (Doc (Marshal b))) /\
  (forall b, last L = Some b -> m !! NamecoinLastBlockKey = Some (Raw (ComputeHash b)) /\ headTS c = h_Timestamp (Header b)).
Proof.
  induction 1 as [|L c m b c' m' b' Hp IH Hap]; intros HUL Hlen.
  { split_and!; try done. split; [intros k b Hk; by rewrite lookup_nil in Hk|exact chain_start|done|by split|done]. }
  rewrite length_app in Hlen. cbn [length] in Hlen. apply Forall_app in HUL as [HUL Ub]. apply Forall_cons in Ub as [Ub _].
  destruct (IH HUL ltac:(lia)) as (Hc & Est & Hscan & Hfree & Hdocs & _).
  destruct (apply_spec _ _ _ _ _ (chain_of_hash _ _ _ Hc) Hap) as [_ Hn]. destruct (Hn _ _ eq_refl) as [-> Happ].
  assert (U b) as Ub' by (apply (u_seal U HU _ (Hash b)) in Ub; by destruct b).
  pose proof (extend_history U HU _ _ _ _ _ _ Hc Ub' ltac:(lia) Happ) as Hc'. pose proof Happ as [Hf _ _ _ _ Ec' Ehp].
  assert (h_Height (Header b) = Z.of_nat (length L)) as Eh.
  { pose proof (co_history _ _ _ Hc' (length L) (sealed b) ltac:(by apply list_lookup_middle)) as Hpos. exact (pos_height _ _ _ _ Hpos). }
  rewrite Est in Ehp. unfold persist in Ehp. cbn in Ehp. injection Ehp as ->. change (Header (sealed b)) with (Header b). rewrite Eh, sealed_hash.
  assert (is_u64 (Z.of_nat (length L))) as Hu by (unfold is_u64; lia). split_and!.
  - done.
  - by rewrite Ec'.
  - rewrite scan_insert_other by done. rewrite scan_insert_block by (done || (apply Hfree; lia)). rewrite Hscan, loaded_from_app. cbn [loaded_from Nat.add].
    by rewrite <- Permutation_cons_append.
  - rewrite length_app. cbn [length]. intros h Hh. assert (is_u64 h) by (unfold is_u64; lia). rewrite !lookup_insert_ne.
    + apply Hfree. lia.
    + intros E. apply key_inj in E; [lia|done..].
    + intros E. symmetry in E. by apply key_not_head in E.
  - intros k x Hx. apply lookup_lt_Some in Hx as Hk. rewrite length_app in Hk. cbn [length] in Hk.
    rewrite lookup_insert_ne by (apply not_eq_sym, key_not_head; unfold is_u64; lia).
    apply lookup_app_Some in Hx as [Hx|[Hge Hx]].
    + apply lookup_lt_Some in Hx as Hlt. rewrite lookup_insert_ne; [by apply Hdocs|].
      intros E. apply key_inj in E; [lia|done|unfold is_u64; lia].
    + apply list_lookup_singleton_Some in Hx as [Hk' <-]. replace k with (length L) by lia. apply lookup_insert_eq.
  - intros x. rewrite last_snoc. intros [= <-]. rewrite lookup_insert_eq. split; [done|]. by rewrite Ec'.
Qed.

(** The replay of the stored blocks. *)
Lemma reload_state L c m b : persisted L c m -> Forall U L -> Z.of_nat (length L) < 2 ^ 64 -> last L = Some b ->
  exists found, ReplayBlocks NewState (scan_blocks m) (stored_head m) = (c_state c, headHash c, found, headHeight c).
Proof.
  intros Hp HUL Hlen Hb. destruct (persisted_chain _ _ _ Hp HUL Hlen) as (Hc & _ & Hscan & _ & _ & Hl). destruct (Hl b Hb) as [Hm _].
  rewrite (scan_sorted _ _ Hscan). pose proof Hc as [HL Hst Hh _ _].
  assert (stored_head m = Some (ComputeHash b)) as -> by (unfold stored_head; rewrite Hm; apply clone_hash).
  assert (beginning U [] NewState) as H0 by (split; [intros k x Hk; by rewrite lookup_nil in Hk|constructor]).
  pose proof (replay_listed U HU (Some (ComputeHash b)) L [] NewState H0) as Hr. cbn [length Nat.add] in Hr.
  assert (forall i x, L !! i = Some x -> listed U i x) as Hli by (intros i x Hx; by exists L, (c_state c)).
  specialize (Hr Hli ltac:(lia)). unfold ReplayBlocks. change (head_of []) with ((0, None) : Z * slice Z) in Hr. cbn [fst snd app] in Hr.
  assert (forall i x, L !! i = Some x -> negb (bool_decide (Some (ComputeHash b) = None)) && bytes_Equal (Some (ComputeHash x)) (Some (ComputeHash b)) = true ->
    S i = length L) as Hlast.
  { intros i x Hx [_ E]%andb_true_iff. apply bool_decide_eq_true_1 in E. cbn in E. rewrite last_lookup in Hb.
    pose proof (same_block U HU _ _ _ _ _ _ HL HL Hx Hb E) as ->. pose proof (pos_height _ _ _ _ (HL _ _ Hx)) as E1.
    pose proof (pos_height _ _ _ _ (HL _ _ Hb)) as E2. apply lookup_lt_Some in Hx. rewrite E1 in E2. lia. }
  specialize (Hr Hlast). destruct (replay_loop _ _ _ _ _) as [[[st hash] found] height].
  assert (headHeight c = (head_of L).1 /\ headHash c = (head_of L).2) as [E1 E2] by (by rewrite <- Hh).
  destruct Hr as [([_ Hst'] & -> & ->)|Hr].
  - exists found. rewrite (chain_det _ _ _ Hst Hst'), E1, E2. done.
  - by destruct Hr as [_ []].
Qed.

(** ** The target *)

Lemma rebuild_history params head L n bs t prev :
  (forall i b, bs !! i = Some b -> at_position U L (n + i) b) -> Z.of_nat (n + length bs) <= head + 1 ->
  (prev <> Some 0 /\ Forall (fun b => h_Timestamp (Header b) <> 0) bs ->
   rebuild_loop params head (loaded_from n bs) t prev = foldl (target_step params) (t, default 0 prev) bs) /\
  (rebuild_loop params head (loaded_from n bs) t prev).2 = match last bs with Some b => h_Timestamp (Header b) | None => default 0 prev end.
Proof.
  revert n t prev. induction bs as [|b bs IH]; intros n t prev Hbs Hl; [done|]. cbn [loaded_from rebuild_loop length foldl] in *.
  change (l_Height (loaded n b)) with (Z.of_nat n). destruct (Z.ltb_spec head (Z.of_nat n)); [lia|].
  pose proof (Hbs 0%nat b eq_refl) as Hb. rewrite Nat.add_0_r in Hb. rewrite (decode_loaded U HU L) by done.
  change (Header (stored b)) with (Header b). set (t' := match prev with Some _ => _ | None => _ end).
  destruct (IH (S n) t' (Some (h_Timestamp (Header b)))) as [IH1 IH2]; [|lia|].
  { intros i x Hx. replace (S n + i)%nat with (n + S i)%nat by lia. by apply Hbs. }
  split.
  - intros [Hp [Ht Hts]%Forall_cons]. rewrite IH1 by (split; [congruence|done]). f_equal. unfold target_step, t'. cbn [fst snd].
    destruct prev as [ts|]; cbn [default from_option id].
    + assert ((ts =? 0) = false) as -> by (apply Z.eqb_neq; congruence). rewrite andb_true_r.
      destruct (dynamic params), (DecodeDifficulty _); done.
    + rewrite andb_false_r. by destruct (DecodeDifficulty _).
  - rewrite IH2. destruct bs as [|x bs]; [done|]. change (last (b :: x :: bs)) with (last (x :: bs)). by destruct (last (x :: bs)) eqn:E; [|apply last_None in E].
Qed.

Lemma reload L c m :
  persisted L c m -> Forall U L -> Z.of_nat (length L) < 2 ^ 64 -> L <> [] ->
  exists c', LoadNamecoinChain m = (c', m) /\ c_store c' = 0%nat /\ c_state c' = c_state c /\ headHash c' = headHash c /\ headHeight c' = headHeight c /\
    headTS c' = headTS c /\
    (powParamsFromConfig cfg = powParamsFromConfig zero_config -> effectiveTarget (Target cfg) = defaultTarget ->
     Forall (fun b => h_Timestamp (Header b) <> 0) L -> powTarget c' = powTarget c /\ c_powParams c' = c_powParams c).
Proof.
  intros Hp HUL Hlen Hne. destruct (last L) as [b|] eqn:Hb; [|by apply last_None in Hb].
  destruct (persisted_chain _ _ _ Hp HUL Hlen) as (Hc & _ & Hscan & _ & _ & Hl). destruct (Hl b Hb) as [Hm Hts]. pose proof Hc as [HL _ Hh [_ Epar] Etar].
  destruct (reload_state _ _ _ _ Hp HUL Hlen Hb) as [found Hr]. unfold LoadNamecoinChain. rewrite (scan_sorted _ _ Hscan) in Hr |- *.
  unfold head_of in Hh. rewrite Hb in Hh. injection Hh as Eh Ehash.
  destruct (rebuild_history (powParamsFromConfig zero_config) (headHeight c) L 0 L defaultTarget None (fun i x Hx => HL i x Hx)) as [Ht1 Ht2]; [cbn; lia|].
  rewrite Hb in Ht2. unfold rebuildPowState.
  destruct L as [|x L]; [done|]. cbn [loaded_from] in *. rewrite Hr, Ehash.
  destruct (rebuild_loop _ (headHeight c) _ _ _) as [t ts]. cbn [fst snd] in Ht1, Ht2. eexists. split.
  { rewrite insert_id by (by rewrite Hm). reflexivity. }
  cbn [c_store c_state headHash headHeight headTS]. split_and!; try done; [by rewrite Ht2, Hts|].
  - intros E1 E2 Hz. cbn [powTarget c_powParams]. rewrite Epar. unfold target_after in Etar. cbn [rule_params rule_seed cfg_rules rules_of] in *.
    rewrite E1 in *. rewrite E2 in Etar. split; [|done]. specialize (Ht1 ltac:(split; [discriminate|exact Hz])). cbn [default from_option] in Ht1.
    rewrite <- Ht1 in Etar. by injection Etar as -> _.
Qed.

(** ** Forks *)



End restart.

(** ** Blocks of one chain *)

Section theorems.
Context `{CanonicalJson} `{Ed25519} (cfg : PoWConfig).

(** Blocks whose fields are within their types and whose hashes differ. *)
Definition genuine (L : list FullBlock) : Prop :=
  Forall (fun b => header_ok (Header b) /\ Forall tx_range (Txs b)) L /\ NoDup (ComputeHash <$> L) /\ Z.of_nat (length L) < 2 ^ 64.

Definition in_chain (L : list FullBlock) (b : FullBlock) : Prop := exists x, x ∈ L /\ Header b = Header x /\ Txs b = Txs x.

Lemma in_chain_universe L : genuine L -> universe (in_chain L) /\ Forall (in_chain L) L.
Proof.
  intros (Hok & Hd & _). split; [split|].
  - intros b (x & Hx & -> & ->). rewrite Forall_forall in Hok. by apply Hok.
  - intros a b (x & Hx & Ha & Ha') (y & Hy & Hb & Hb') E. rewrite Ha, Hb, Ha', Hb'.
    assert (ComputeHash x = ComputeHash y) as E' by (unfold ComputeHash in *; rewrite <- Ha, <- Hb; exact E).
    rewrite (distinct_eq ComputeHash L x y Hd Hx Hy E'). split; reflexivity.
  - intros b h (x & ? & ? & ?). by exists x.
  - apply Forall_forall. intros b Hb. by exists b.
Qed.

(** C21: A block read back from the store is the block that was written: a well-typed block of
    which the document is decoded again has its header and hash, its transactions have
    the same root, and it leads from every state to the state the block leads to. *)
Theorem stored_block_same b : header_ok (Header b) -> Forall tx_range (Txs b) -> slice_bytes_ok (Hash b) ->
  exists b', decodeLoadedBlock (MkLoaded (h_Height (Header b)) (Doc (Marshal b))) = Normal b' /\
    Header b' = Header b /\ elems (Hash b') = elems (Hash b) /\ ComputeTxRoot (Txs b') = ComputeTxRoot (Txs b) /\
    forall st st', ApplyBlock (contents b) st = (Normal tt, st') -> ApplyBlock (contents b') st = (Normal tt, st').
Proof.
  intros Hh Ht Hb. exists (stored b). unfold decodeLoadedBlock. cbn [l_Raw l_Height]. rewrite block_roundtrip by assumption.
  cbn [wrapped mbind outcome_bind]. change (Header (stored b)) with (Header b). rewrite Z.eqb_refl. cbn [negb].
  split_and!; [|done|done|apply stored_root|apply stored_ApplyBlock]. destruct (Z.eqb_spec (h_Height (Header b)) 0); [|done].
  clear. by destruct b as [[] ? ?].
Qed.

(** C16: A node that starts again has the chain it had: when the store was written by a chain
    that began empty and accepted blocks one after the other, the replay of the stored
    documents gives back the state, the hash, height and time of the head, and leaves
    the store as it is. *)
Theorem restart_restores L c m : persisted cfg L c m -> genuine L -> L <> [] ->
  exists c', LoadNamecoinChain m = (c', m) /\ c_store c' = c_store c /\ c_state c' = c_state c /\ headHash c' = headHash c /\ headHeight c' = headHeight c /\ headTS c' = headTS c.
Proof.
  intros Hp Hg Hne. destruct (in_chain_universe L Hg) as [HU HUL]. destruct Hg as (_ & _ & Hlen).
  destruct (persisted_chain cfg _ HU _ _ _ Hp HUL Hlen) as (_ & -> & _).
  destruct (reload cfg _ HU _ _ _ Hp HUL Hlen Hne) as (c' & ? & ? & ? & ? & ? & ? & _). by exists c'.
Qed.


(** C23: under the default parameters, and when no block has time 0, a node that starts
    again also has the target for the next block and the parameters that it had. *)
Theorem restart_keeps_target L c m : persisted cfg L c m -> genuine L -> L <> [] ->
  powParamsFromConfig cfg = powParamsFromConfig zero_config -> effectiveTarget (Target cfg) = defaultTarget ->
  Forall (fun b => h_Timestamp (Header b) <> 0) L ->
  powTarget (LoadNamecoinChain m).1 = powTarget c /\ c_powParams (LoadNamecoinChain m).1 = c_powParams c.
Proof.
  intros Hp Hg Hne. destruct (in_chain_universe L Hg) as [HU HUL]. destruct Hg as (_ & _ & Hlen).
  destruct (reload cfg _ HU _ _ _ Hp HUL Hlen Hne) as (c' & -> & _ & _ & _ & _ & _ & Ht). exact Ht.
Qed.
End theorems.

(** ** Examples *)

Import SmallChain SmallFork.

Lemma persisted_demo : persisted zero_config [d0; d1] ledger2.1 ledger2.2.
Proof.
  apply (persisted_more zero_config [d0] ledger1.1 ledger1.2 d1); [|evaluates].
  apply (persisted_more zero_config [] (start zero_config).1 (start zero_config).2 d0); [constructor|evaluates].
Qed.

Lemma genuine_demo : genuine [d0; d1].
Proof.
  assert ([d0; d1] `sublist_of` demo_blocks) by (apply (sublist_drop demo_blocks 5)).
  split_and!; [exact (Forall_drop _ 5 demo_blocks demo_typed)|by apply demo_distinct|done].
Qed.

Lemma stored_block_same_witness : exists b', decodeLoadedBlock (MkLoaded 1 (Doc (Marshal d1))) = Normal b' /\
  Header b' = Header d1 /\ elems (Hash b') = elems (Hash d1) /\ ComputeTxRoot (Txs b') = ComputeTxRoot (Txs d1) /\
  forall st st', ApplyBlock (contents d1) st = (Normal tt, st') -> ApplyBlock (contents b') st = (Normal tt, st').
Proof.
  pose proof demo_typed as Ht. rewrite Forall_forall in Ht. destruct (Ht d1 ltac:(apply list_elem_of_In; cbn; tauto)) as [Hh Htx].
  apply (stored_block_same d1 Hh Htx). unfold slice_bytes_ok, bytes_ok, is_byte. cbn. repeat constructor; lia.
Defined.

Lemma restart_restores_witness : exists c', LoadNamecoinChain ledger2.2 = (c', ledger2.2) /\ c_store c' = c_store ledger2.1 /\
  c_state c' = c_state ledger2.1 /\ headHash c' = headHash ledger2.1 /\ headHeight c' = headHeight ledger2.1 /\ headTS c' = headTS ledger2.1.
Proof. apply (restart_restores zero_config [d0; d1]); [exact persisted_demo|exact genuine_demo|discriminate]. Defined.


Lemma restart_keeps_target_witness : powTarget (LoadNamecoinChain ledger2.2).1 = powTarget ledger2.1 /\
  c_powParams (LoadNamecoinChain ledger2.2).1 = c_powParams ledger2.1.
Proof.
  apply (restart_keeps_target zero_config [d0; d1]); [exact persisted_demo|exact genuine_demo|discriminate|reflexivity|reflexivity|].
  repeat constructor; discriminate.
Defined.

(** Under other parameters a restart changes the target: a node whose difficulty stays at a
    configured target has accepted two blocks; after a restart with the same
    configuration its state and head are as before, but its target is another one, and
    the next block, which it would have accepted, is refused. *)
Theorem restart_changes_target :
  let c := easy2.1 in
  let c' := ConfigurePow easy (LoadNamecoinChain easy2.2).1 in
  persisted easy [g; b1] c easy2.2 /\ headHash c' = headHash c /\ powTarget c = Some (2 ^ 256) /\ powTarget c' <> powTarget c /\
  (exists r, (NamecoinChain_ApplyBlock c [Base easy2.2] b2).1 = Normal r) /\
  (NamecoinChain_ApplyBlock c' [Base easy2.2] b2).1 = err "block hash above target".
Proof.
  cbv zeta. split.
  { apply (persisted_more easy [g] easy1.1 easy1.2 b1); [|evaluates].
    apply (persisted_more easy [] (start easy).1 (start easy).2 g); [constructor|evaluates]. }
  assert (ConfigurePow easy (LoadNamecoinChain easy2.2).1 = easy2') as -> by (evaluates).
  split; [reflexivity|]. split; [reflexivity|]. split; [vm_compute; discriminate|]. split.
  - exists (easy3.1, [Base easy3.2]). evaluates.
  - evaluates.
Qed.
