(* ===== verification/NodeConsensus.v ===== *)
(** * What the service of chains promises

    The theorems about blocks that arrive from anywhere, in any order: which chains
    the service has, which one it reports as the longest, and that a mined block is
    accepted by the chain it was mined for. *)

From S2P Require Import Prelude JsValue Json JsonFacts JsonCanon Sha256 Platform World Hash Go GoText NodeState NodeUTXO NodeCommands NodeBlocks.
From S2P Require Import NodeSafety NodeDemo NodeChain NodeProgress NodeMempool NodeHeaders NodePow NodePowFacts NodeLedger NodeForks NodeForkChoice NodeHistory NodeForkSafety NodeForkDemo.
Local Open Scope Z_scope.

(** ** Blocks that were received *)

(** A received block, or its copy among the orphans; the hash it carries does not matter. *)
Definition submitted (bs : list FullBlock) (b : FullBlock) : Prop :=
  exists x, x ∈ bs ++ (cloneBlock <$> bs) /\ Header b = Header x /\ Txs b = Txs x.

(** The fields are within their types, and no two of the blocks have one hash. *)
Record unforged (bs : list FullBlock) : Prop := {
  uf_typed : Forall (fun b => header_ok (Header b) /\ Forall tx_range (Txs b)) bs;
  uf_binds : forall a b, a ∈ bs ++ (cloneBlock <$> bs) -> b ∈ bs ++ (cloneBlock <$> bs) ->
    ComputeHash a = ComputeHash b -> Header a = Header b /\ Txs a = Txs b;
  uf_count : Z.of_nat (length bs) < 2 ^ 64
}.

Lemma CloneBytes_twice s : CloneBytes (CloneBytes s) = CloneBytes s.
Proof. by destruct s as [[|]|]. Qed.

Lemma CloneBytes_ok s : slice_bytes_ok s -> slice_bytes_ok (CloneBytes s).
Proof. by destruct s as [[|]|]. Qed.

Lemma header_clone_ok b : header_ok (Header b) -> header_ok (Header (cloneBlock b)).
Proof. intros [? ? ? (? & ? & ?)]. split; try done. split_and!; by apply CloneBytes_ok. Qed.

Lemma submitted_universe bs : unforged bs -> universe (submitted bs).
Proof.
  intros [Ht Hb _]. split.
  - rewrite Forall_forall in Ht. intros b (x & [Hx|(y & -> & Hy)%list_elem_of_fmap]%elem_of_app & -> & ->); [by apply Ht|].
    destruct (Ht _ Hy). split; [by apply header_clone_ok|done].
  - intros a b (x & Hx & Ha & Ha') (y & Hy & Hb1 & Hb2) E. rewrite Ha, Hb1, Ha', Hb2. apply Hb; [done..|].
    unfold ComputeHash in *. rewrite <- Ha, <- Hb1. exact E.
  - intros b h (x & ? & ? & ?). by exists x.
Qed.

Lemma submitted_clone bs b : submitted bs b -> submitted bs (cloneBlock b).
Proof.
  intros (x & [Hx|(y & -> & Hy)%list_elem_of_fmap]%elem_of_app & Eh & Et).
  - exists (cloneBlock x). split_and!; [apply elem_of_app; right; by apply list_elem_of_fmap_2|..|done]. unfold cloneBlock. cbn [Header]. by rewrite Eh.
  - exists (cloneBlock y). split_and!; [apply elem_of_app; right; by apply list_elem_of_fmap_2|..|done]. unfold cloneBlock in *. cbn [Header] in *. rewrite Eh.
    cbn [h_Height h_PrevHash h_TxRoot h_Timestamp h_Nonce h_Miner h_Difficulty]. by rewrite !CloneBytes_twice.
Qed.

Lemma submitted_mono bs bs' b : bs ⊆ bs' -> submitted bs b -> submitted bs' b.
Proof.
  intros Hs (x & Hx & ? & ?). exists x. split_and!; try done. apply elem_of_app in Hx as [Hx|(y & -> & Hy)%list_elem_of_fmap]; apply elem_of_app.
  - left. by apply Hs.
  - right. apply list_elem_of_fmap_2. by apply Hs.
Qed.

Section consensus.
Context `{CanonicalJson} `{Ed25519}.

(** An order in which a Go map may be visited. *)
Definition visits (visit : ChainService -> gset nat -> list nat) : Prop := forall s X i, i ∈ visit s X -> i ∈ X.

(** A node that starts with an empty store receives blocks. *)
Inductive received (cfg : PoWConfig) : list FullBlock -> ChainService -> Prop :=
  | received_none : received cfg [] (NewChainService (ConfigurePow cfg (NewNamecoinChain 0)) [Base ∅])
  | received_block bs s visit index b :
      received cfg bs s -> visits visit -> received cfg (bs ++ [b]) (AppendBlockToChain visit index b s).2.

Lemma boot_ok U cfg : service_ok (Rules := rules_of cfg) U [[]] 0 (NewChainService (ConfigurePow cfg (NewNamecoinChain 0)) [Base ∅]).
Proof.
  set (c := ConfigurePow cfg (NewNamecoinChain 0)).
  assert (NewChainService c [Base ∅] = MkService [Base ∅] [c] 0 ∅ ∅) as -> by done. split.
  - constructor; [|constructor]. split; [intros k b Hk; by rewrite lookup_nil in Hk|exact chain_start|done|by split|done].
  - constructor; [done|constructor].
  - intros h v _ (r & m & Hm & Hs). destruct r as [|r]; [|by destruct Hs as [?|(? & ? & ?)]].
    destruct Hs as [[= <-]|(? & ? & ?)]; [|done]. by rewrite lookup_empty in Hm.
  - intros key meta Hk. cbn in Hk. by rewrite lookup_empty in Hk.
  - apply map_Forall_empty.
  - exists c. split; [done|]. constructor; [apply dominates_refl|constructor].
Qed.

Lemma received_ok cfg bs all s : received cfg bs s -> bs ⊆ all -> unforged all -> Z.of_nat (length bs) < 2 ^ 64 ->
  exists G N, service_ok (Rules := rules_of cfg) (submitted all) G N s /\ N + weight (orphansByPrev s) <= Z.of_nat (length bs).
Proof.
  intros Hr. induction Hr as [|bs s visit index b Hr IH Hv]; intros Hs Hu Hl.
  - exists [[]], 0. split; [apply boot_ok|]. done.
  - rewrite length_app in Hl |- *. cbn [length] in Hl |- *. destruct IH as (G & N & Hok & HN); [set_solver|done|lia|].
    assert (submitted all b) as Hb.
    { exists b. split; [|done]. apply elem_of_app. left. apply Hs, elem_of_app. right. by apply list_elem_of_singleton. }
    destruct (append_block_ok _ (submitted_universe _ Hu) (submitted_clone all) visit Hv index b G N s Hok Hb ltac:(lia)) as (G' & N' & Hok' & Hw & _).
    exists G', N'. split; [done|lia].
Qed.

(** C13: Whatever blocks a node receives, from whom and in which order ever, every chain it keeps
    consists of received blocks that follow one another from a genesis block.  Each
    carries the hash of its header and the root of its transactions, and has enough work:
    with the target that the configuration and the blocks before it determine
    ([target_after]), its hash does not exceed this target, nor the one its header names,
    and the latter is not easier.  The state, the head and the target of the chain are
    those that these blocks lead to.  Assumed is that the fields of the blocks are within
    their types and that a hash determines the header and the transactions among the
    received blocks ([unforged]); two blocks that differ only in absent and empty lists
    have one hash ([root_ignores_null]) and are excluded by this. *)
Theorem chains_accepted cfg bs s c : received cfg bs s -> unforged bs -> c ∈ Chains s ->
  exists L,
    (forall k b, L !! k = Some b ->
       submitted bs b /\ Hash b = Some (ComputeHash b) /\ h_Height (Header b) = Z.of_nat k /\
       (exists root, ComputeTxRoot (Txs b) = Normal root /\ elems (h_TxRoot (Header b)) = root) /\
       (elems (h_PrevHash (Header b)) = match k with O => [] | S k' => from_option ComputeHash [] (L !! k') end) /\
       (let target := (target_after (H := rules_of cfg) (take k L)).1 in
        SetBytes (ComputeHash b) <= default target (DecodeDifficulty (h_Difficulty (Header b))) <= target)) /\
    chain (contents <$> L) (c_state c) /\ (headHeight c, headHash c) = head_of L /\
    powTarget c = Some (target_after (H := rules_of cfg) L).1.
Proof.
  intros Hr Hu [i Hc]%list_elem_of_lookup. destruct (received_ok _ _ bs _ Hr) as (G & N & Hok & _); [done..|apply Hu|].
  destruct (Forall2_lookup_l _ _ _ _ _ (so_chains _ _ _ _ Hok) Hc) as (L & _ & [HL Hs Hh _ Ht]). exists L.
  split_and!; [|done|done|by injection Ht]. intros k b Hb. destruct (HL _ _ Hb) as [? Es ? ? Hw Hp [Hm1 Hm2]].
  split_and!; [done|by rewrite Es at 1|done|done|..].
  - destruct k as [|k]; [done|]. destruct Hp as (p & -> & ->). done.
  - unfold worked in Hw. destruct (DecodeDifficulty (h_Difficulty (Header b))) as [d|]; cbn [default from_option id].
    + split; [by apply Hw|by apply Hm2].
    + split; [exact Hm1|apply Z.le_refl].
Qed.

(** C15: The chain the node reports as the longest is one: no other is higher, and none of
    the same height has a smaller hash. *)
Theorem longest_is_best cfg bs s : received cfg bs s -> unforged bs ->
  exists cur, Chains s !! LongestChainIndex s = Some cur /\ Forall (dominates cur) (Chains s).
Proof.
  intros Hr Hu. destruct (received_ok _ _ bs _ Hr) as (G & N & Hok & _); [done..|apply Hu|]. apply (so_best _ _ _ _ Hok).
Qed.

(** C14: One more block never makes the head of the longest chain worse: it stays, or it
    becomes higher, or as high with a smaller hash. *)
Theorem head_improves cfg bs s visit index b cur :
  received cfg bs s -> visits visit -> unforged (bs ++ [b]) -> Chains s !! LongestChainIndex s = Some cur ->
  let s' := (AppendBlockToChain visit index b s).2 in
  exists cur', Chains s' !! LongestChainIndex s' = Some cur' /\ dominates cur' cur.
Proof.
  intros Hr Hv Hu Hcur. pose proof (uf_count _ Hu) as Hl. rewrite length_app in Hl. cbn [length] in Hl.
  destruct (received_ok _ _ (bs ++ [b]) _ Hr) as (G & N & Hok & HN); [set_solver|done|lia|].
  assert (submitted (bs ++ [b]) b) as Hb by (exists b; split; [set_solver|done]).
  destruct (append_block_ok _ (submitted_universe _ Hu) (submitted_clone _) visit Hv index b G N s Hok Hb ltac:(lia)) as (_ & _ & _ & _ & Hd). by apply Hd.
Qed.

Lemma pending_more visit f index pending e s e' s' k :
  pending_loop visit f index pending e s = (true, e', s') -> pending_loop visit (f + k) index pending e s = (true, e', s').
Proof.
  revert pending e s. induction f as [|f IH]; intros [|b l] e s; cbn [pending_loop Nat.add]; try done.
  - by destruct k.
  - destruct (processSingleBlockUnlocked visit index b s) as [[|] ?]; apply IH.
Qed.

(** C17: The queue of blocks that a new block sets free is always worked off, in every state of
    the service, also when orphans wait for each other: the loop ends after a number of
    turns that the number of waiting blocks bounds, and more turns change nothing. *)
Theorem pending_finishes visit index blk s fuel : (enough (S (waiting s)) <= fuel)%nat ->
  (processPendingBlocksUnlocked visit index blk s).1.1 = true /\
  pending_loop visit fuel index [blk] None s = processPendingBlocksUnlocked visit index blk s.
Proof.
  intros Hf. pose proof (process_finishes visit index blk s) as Hp. split; [done|]. unfold processPendingBlocksUnlocked in *.
  destruct (pending_loop visit (enough (S (waiting s))) index [blk] None s) as [[fin e] s'] eqn:E. cbn in Hp. subst fin.
  apply (pending_more _ _ _ _ _ _ _ _ (fuel - enough (S (waiting s)))) in E. rewrite <- E. f_equal. lia.
Qed.

(** ** Mining *)

#[local] Strategy 100 [sha256_digest].

Lemma assemble_spec h pending key b : AssembleBlock h pending key = Normal b ->
  b = sealed b /\ rooted b /\ Txs b = rewardTx h key :: pending /\ exists root, ComputeTxRoot (Txs b) = Normal root /\ Header b = with_root h root.
Proof.
  unfold AssembleBlock. destruct (ComputeTxRoot (rewardTx h key :: pending)) as [root|[n m|m]] eqn:E; try discriminate. intros Hb.
  assert (b = set_Hash (Some (ComputeHash (MkFullBlock (with_root h root) (rewardTx h key :: pending) None)))
    (MkFullBlock (with_root h root) (rewardTx h key :: pending) None)) as -> by congruence. split_and!; [reflexivity| |reflexivity|].
  - exists root. split; [exact E|reflexivity].
  - exists root. split; [exact E|reflexivity].
Qed.

(** A block that a miner finds for a target and a header that follows the head is accepted by
    the validation of the chain whose target it is: its hash is the one of its header
    and within the target, and its transactions, the reward before the drained ones,
    have the root it names. *)
Theorem mined_block_valid powCfg base t world buffer block buffer' height hash :
  0 < t -> MineAndApply powCfg base (Some t) world buffer = (Normal block, buffer') ->
  ensureNextBlockFollows height hash (MkFullBlock base [] None) = Normal tt ->
  ValidateBlockHeader height hash (Some t) block = (Normal tt, block) /\ SetBytes (ComputeHash block) <= t /\
  exists reward, Txs block = reward :: (Drain buffer).1.1.1.
Proof.
  intros Ht Hm Hf. unfold MineAndApply in Hm. destruct (Drain buffer) as [[[pending order] snapshot] b0].
  destruct (AssembleBlock (with_difficulty base (Bytes_of t)) pending (PubKey powCfg)) as [asm|] eqn:Ea; [|discriminate].
  destruct (assemble_spec _ _ _ _ Ea) as (_ & _ & _ & root & _ & Eh).
  destruct (MineNonce _ _ _) as [[nonce ts]|]; [|discriminate].
  destruct (AssembleBlock (with_nonce (Header asm) nonce ts) pending (PubKey powCfg)) as [blk|] eqn:Eb; [|discriminate].
  destruct (assemble_spec _ _ _ _ Eb) as (Es & Hr & Et & root' & _ & Eh').
  destruct (IsBlockComplexityValid blk _) eqn:Ew; [|discriminate]. assert (blk = block) as -> by congruence. clear Hm.
  assert (h_Difficulty (Header asm) = Some (Bytes_of t) /\ h_Difficulty (Header block) = Some (Bytes_of t)) as [Ed Ed'] by (rewrite Eh', Eh; done).
  unfold IsBlockComplexityValid in Ew. rewrite Ed in Ew. cbn [elems default from_option id effectiveTarget] in Ew.
  rewrite (proj1 (Bytes_of_spec t ltac:(lia))) in Ew. apply Z.leb_le in Ew. split_and!; [|done|by eexists].
  unfold ValidateBlockHeader, mbind, method_bind.
  rewrite check_header_ok; [|right; rewrite Es at 1; reflexivity| |done].
  - rewrite <- Es. unfold try, enforceDifficultyTarget, validateWorkForTarget, IsBlockComplexityValid. rewrite Ed', DecodeDifficulty_Bytes by done.
    rewrite Z.ltb_irrefl. cbn [effectiveTarget default from_option id]. by rewrite (proj2 (Z.leb_le _ _) Ew).
  - rewrite <- Hf. unfold ensureNextBlockFollows. by rewrite Eh', Eh.
Qed.
End consensus.

(** C20: An adjustment of the target stays between the smallest and the largest factor that
    the parameters allow, however long the block took: for a target that is not
    negative and positive factors, the new target is at least 1, and lies between the
    products with the two factors when they are at least 1. *)
Theorem adjustment_bounded prev spacing time up down :
  0 <= prev -> 0 < mant up -> 0 < mant down -> float_lt up down = false ->
  Z.max 1 (times prev down) <= AdjustDifficulty (Some prev) spacing time up down <= Z.max 1 (times prev up).
Proof.
  intros Hp Hu Hd Hl. unfold AdjustDifficulty. cbn [default from_option id].
  destruct (Z.leb_spec (mant up) 0); [lia|]. destruct (Z.leb_spec (mant down) 0); [lia|].
  match goal with |- context [clamp_ratio ?r down up] => pose proof (clamp_between prev r down up Hp Hl) as Hc; set (x := clamp_ratio r down up) in * end.
  pose proof (times_nonneg prev down Hp ltac:(lia)). destruct (Z.eqb_spec (times prev x) 0); lia.
Qed.

(** ** Examples *)

Import SmallChain SmallFork.

Lemma in_order_visits : visits in_order.
Proof. intros s X i. apply elem_of_elements. Qed.

Lemma feed_received bs s b s' : received easy bs s -> feed s b = s' -> received easy (bs ++ [b]) s'.
Proof. intros Hr <-. apply (received_block easy bs s in_order); [done|apply in_order_visits]. Qed.

Lemma received_demo : received easy [g; a1; b1] svc3.
Proof.
  apply (feed_received [g; a1] svc2); [|evaluates]. apply (feed_received [g] svc1); [|evaluates].
  apply (feed_received [] boot); [constructor|evaluates].
Qed.

Lemma unforged_demo l : l `sublist_of` demo_blocks -> unforged l.
Proof.
  intros Hl. pose proof (sublist_subseteq _ _ Hl) as Hs. split.
  - apply Forall_forall. intros b Hb. pose proof demo_typed as Ht. rewrite Forall_forall in Ht. apply Ht, Hs, Hb.
  - assert (cloneBlock <$> l = l) as Ec.
    { transitivity (id <$> l); [|apply list_fmap_id]. apply list_fmap_ext. intros i b Hb. apply list_elem_of_lookup_2, Hs in Hb.
      revert b Hb. apply Forall_forall. repeat (constructor; [reflexivity|]). constructor. }
    rewrite Ec. intros a b Ha Hb E. assert (forall x, x ∈ l ++ l -> x ∈ l) as Hd by (intros x [?|?]%elem_of_app; assumption).
    apply Hd in Ha as Ha'. apply Hd in Hb as Hb'.
    rewrite (distinct_eq ComputeHash l a b (demo_distinct l Hl) Ha' Hb' E). split; reflexivity.
  - apply sublist_length in Hl. cbn in Hl. lia.
Qed.

Lemma demo_prefix n : take n demo_blocks `sublist_of` demo_blocks.
Proof. apply sublist_take. Qed.

Lemma chains_accepted_witness : exists c L, Chains svc3 !! 1%nat = Some c /\
  Forall (submitted [g; a1; b1]) L /\ chain (contents <$> L) (c_state c) /\ (headHeight c, headHash c) = head_of L.
Proof.
  destruct (Chains svc3 !! 1%nat) as [c|] eqn:E; [|discriminate E].
  destruct (chains_accepted easy [g; a1; b1] svc3 c received_demo (unforged_demo _ (demo_prefix 3)) (list_elem_of_lookup_2 _ _ _ E)) as (L & HL & Hs & Hh & _).
  exists c, L. split_and!; [reflexivity| |exact Hs|exact Hh]. apply Forall_lookup. intros k b Hb. exact (proj1 (HL k b Hb)).
Defined.

Lemma longest_is_best_witness : exists cur, Chains svc3 !! LongestChainIndex svc3 = Some cur /\ Forall (dominates cur) (Chains svc3).
Proof. exact (longest_is_best easy [g; a1; b1] svc3 received_demo (unforged_demo _ (demo_prefix 3))). Defined.

Lemma head_improves_witness : exists cur cur', Chains svc3 !! LongestChainIndex svc3 = Some cur /\
  Chains (AppendBlockToChain in_order 0 b2 svc3).2 !! LongestChainIndex (AppendBlockToChain in_order 0 b2 svc3).2 = Some cur' /\ dominates cur' cur.
Proof.
  destruct (Chains svc3 !! LongestChainIndex svc3) as [cur|] eqn:E; [|discriminate E].
  destruct (head_improves easy [g; a1; b1] svc3 in_order 0 b2 cur received_demo in_order_visits (unforged_demo _ (demo_prefix 4)) E) as (cur' & Hcur).
  exists cur, cur'. split; [reflexivity|exact Hcur].
Defined.

Lemma pending_finishes_witness : pending_loop in_order 4 0 [g] None boot = processPendingBlocksUnlocked in_order 0 g boot.
Proof. apply (pending_finishes in_order 0 g boot 4). vm_compute. lia. Defined.

Lemma adjustment_bounded_witness :
  Z.max 1 (times 1000 (Float 1 (-2))) <= AdjustDifficulty (Some 1000) (100 * Second) (10 * Second) (Float 4 0) (Float 1 (-2)) <= Z.max 1 (times 1000 (Float 4 0)).
Proof. apply (adjustment_bounded 1000 (100 * Second) (10 * Second) (Float 4 0) (Float 1 (-2))); first [lia|reflexivity|cbn; lia]. Defined.

Lemma mined_block_valid_witness :
  ValidateBlockHeader 0 (Hash g) (Some (2 ^ 256)) mined_now = (Normal tt, mined_now) /\ SetBytes (ComputeHash mined_now) <= 2 ^ 256 /\
  exists reward, Txs mined_now = reward :: (Drain NewTxBuffer).1.1.1.
Proof.
  apply (mined_block_valid miner mine_base (2 ^ 256) mine_world NewTxBuffer mined_now NewTxBuffer 0 (Hash g)); [lia|evaluates|evaluates].
Defined.

(** The root of the transactions does not fix them: two blocks have the same header and the
    same hash, and are accepted after the same block, but a list of inputs is absent in
    one and empty in the other, so that the identifiers of the transactions differ and
    the two nodes disagree about the state under one head. *)
Theorem root_ignores_null :
  Header b1' = Header b1 /\ Txs b1' <> Txs b1 /\
  (exists b, NamecoinChain_ApplyBlock easy1.1 [Base easy1.2] b1 = (Normal (easy2.1, [Base easy2.2]), b)) /\
  (exists b, NamecoinChain_ApplyBlock easy1.1 [Base easy1.2] b1' = (Normal (easy2x.1, [Base easy2x.2]), b)) /\
  headHash easy2x.1 = headHash easy2.1 /\ txMap (c_state easy2x.1) <> txMap (c_state easy2.1).
Proof.
  split; [reflexivity|]. split; [discriminate|]. split; [exists b1; evaluates|]. split; [exists b1'; evaluates|]. split; [reflexivity|].
  intros E. apply (f_equal elements) in E. vm_compute in E. discriminate E.
Qed.

(** A branch that is not the longest chain overwrites blocks of the longest one: five blocks
    arrive, two branches leave the genesis block, and the head of the longest chain is
    the second block of one branch; the second block of the other, which loses, is
    written over it in the store, and a restart finds only a head of height 1. *)
Theorem losing_branch_overwrites : exists s,
  received easy [g; a1; b1; b2; a2] s /\
  match Chains s !! LongestChainIndex s, stores s with
  | Some c, Base m :: _ =>
      (headHeight c, headHash c) = (2, Hash b2) /\
      (let c' := (LoadNamecoinChain m).1 in (headHeight c', headHash c')) = (1, Hash b1)
  | _, _ => False
  end.
Proof.
  exists svc5. split.
  - apply (feed_received [g; a1; b1; b2] svc4); [|evaluates].
    apply (feed_received [g; a1; b1] svc3 b2); [exact received_demo|evaluates].
  - split; [reflexivity|evaluates].
Qed.
