(* ===== verification/NodeMined.v ===== *)
(** * Transactions in blocks

    What a transaction does in a block that contains it, whatever else the block holds:
    a commitment is recorded, a revelation registers its name.  And that the block which
    a miner assembles from a transaction that is valid now, with the reward before it,
    is accepted: the reward is the newest output of the miner, so that the spend plans
    that were handed out before stay canonical. *)

From stdpp Require Import sorting.
From S2P Require Import Prelude JsValue Json JsonFacts JsonCanon Sha256 Platform World Hash Go GoText NodeState NodeUTXO NodeCommands NodeBlocks.
From S2P Require Import NodeSafety NodeDemo NodeChain NodeProgress NodeMempool NodeHeaders NodePow NodeHistory NodeConsensus.
Local Open Scope Z_scope.

(** ** Identifiers *)

Section effects.
Context `{CanonicalJson} `{Ed25519}.

Lemma id_digest tx id : BuildTransactionID tx = Normal id -> exists b, id = HashHex b.
Proof. unfold BuildTransactionID. destruct (SerializeTransaction tx) as [b|]; [|done]. intros [= <-]. by exists b. Qed.

(** The key of the first output of a transaction determines the transaction. *)
Lemma outpoint_inj tx tx' id id' : BuildTransactionID tx = Normal id -> BuildTransactionID tx' = Normal id' ->
  OutpointKey id 0 = OutpointKey id' 0 -> id = id'.
Proof.
  intros [b ->]%id_digest [b' ->]%id_digest. unfold OutpointKey, HashHex.
  rewrite !decodeHex_bytesToHex by apply sha256_bytes.
  generalize (bytesToHex (sha256_digest b)), (bytesToHex (sha256_digest b')). intros x y.
  change (":" +:+ nat_to_string 10 0) with ":0". revert y.
  assert (forall s, s +:+ ":0" <> ":0" \/ s = "") as Hlen.
  { intros [|c s]; [by right|left]. intros E. apply (f_equal String.length) in E. rewrite string_length_app in E. cbn in E. lia. }
  induction x as [|c x IH]; intros [|d y] E; [done|by destruct (Hlen (String d y))|by destruct (Hlen (String c x))|].
  injection E as -> E. f_equal. by apply IH.
Qed.

(** The other transactions of a block with the identifier of [t] ask for the same: their
    identifiers being hashes of what they ask for. *)
Definition same_request (t t' : Tx) : Prop := Type_ t' = Type_ t /\ Payload t' = Payload t /\ From t' = From t.

Definition identified (txs : list Tx) (t : Tx) (id : string) : Prop :=
  forall t', t' ∈ txs -> BuildTransactionID t' = Normal id -> same_request t t'.

Lemma applied_txMap id cmd tx s s1 s' : applied_tx id cmd tx s s1 s' -> txMap s' = {[ id ]} ∪ txMap s.
Proof.
  intros [_ _ _ _ Hu (st2 & Hst & ->)]. destruct (ApplyUTXO_commitments _ _ _ _ _ Hu) as (_ & Et & _).
  destruct (ApplyState_Normal _ _ _ _ Hst) as [HR _]. injection HR as _ ET _ _ _. cbn. by rewrite ET, Et.
Qed.

(** Induction over a block from the transaction on that has a new identifier. *)
Lemma once_inv (P : list Tx -> NamecoinState -> Prop) blk st st' t id :
  chainApplyBlock blk st = (Normal tt, st') -> low (Height blk) -> sound (Height blk) (opened (Height blk) st) ->
  id ∉ txMap (opened (Height blk) st) -> t ∈ Transactions blk -> BuildTransactionID t = Normal id ->
  (forall done tx cmd s s1 s', tx ∈ Transactions blk -> BuildTransactionID tx = Normal id -> sound (Height blk) s ->
     applied_tx id cmd tx s s1 s' -> P (done ++ [tx]) s') ->
  (forall done i tx s s', sound (Height blk) s -> id ∈ txMap s -> P done s -> applyTxStrict i tx s = (Normal tt, s') ->
     P (done ++ [tx]) s') ->
  exists w, P (Transactions blk) w /\ st' = replaceWith w st.
Proof.
  intros Hb Hlow Hs0 Hfresh Ht Hid Hfirst Hnext.
  destruct (block_inv (fun done w => sound (Height blk) w /\
    (id ∉ txMap w /\ Forall (fun x => BuildTransactionID x <> Normal id) done \/ id ∈ txMap w /\ P done w)) blk st st' Hb)
    as (w & [_ [[_ Hn]|[_ Hw]]] & ->).
  - split; [done|left]. by split.
  - intros done i tx l s s' El [Hs Hcase] Hx. split; [by eapply sound_tx|].
    assert (txMap s ⊆ txMap s') as Hmono.
    { apply applyTxStrict_Normal in Hx as (id' & _ & [[_ ->]|(cmd & s1 & Hap)]); [done|]. rewrite (applied_txMap _ _ _ _ _ _ Hap). set_solver. }
    destruct Hcase as [[Hn Hd]|[Hi Hp]]; [|right; split; [by apply Hmono|by eapply Hnext]].
    apply applyTxStrict_Normal in Hx as (id' & Hid' & Hx). destruct (decide (id' = id)) as [->|Hne].
    + destruct Hx as [[? _]|(cmd & s1 & Hap)]; [done|]. right. rewrite (applied_txMap _ _ _ _ _ _ Hap). split; [set_solver|].
      eapply Hfirst; [|done..]. rewrite El. apply elem_of_app. right. by left.
    + left. split.
      * destruct Hx as [[_ ->]|(cmd & s1 & Hap)]; [done|]. rewrite (applied_txMap _ _ _ _ _ _ Hap). set_solver.
      * apply Forall_app_2; [done|]. constructor; [congruence|constructor].
  - rewrite Forall_forall in Hn. by destruct (Hn t Ht).
  - by exists w.
Qed.

(** ** A commitment *)

(** A transaction that opens a commitment. *)
Definition opening (c : string) (tx : Tx) : Prop := exists d s ip ttl txid,
  ResolveCommand (Type_ tx) (Payload tx) = Normal (NameFirstUpdate d s ip ttl txid) /\ c = commitment_of d s.

(** The commitment is recorded, or was opened. *)
Definition committed (key c : string) (ttl h : Z) (done : list Tx) (w : NamecoinState) : Prop :=
  Commitments w !! key = Some (MkCommitment c ttl h) \/ exists tx, tx ∈ done /\ opening c tx.

Lemma committed_next t id c ttl h done i tx s s' :
  BuildTransactionID t = Normal id -> id ∈ txMap s -> committed (OutpointKey id 0) c ttl h done s ->
  applyTxStrict i tx s = (Normal tt, s') -> committed (OutpointKey id 0) c ttl h (done ++ [tx]) s'.
Proof.
  intros Hid Hin Hc Hx.
  assert (forall s0, committed (OutpointKey id 0) c ttl h done s0 -> committed (OutpointKey id 0) c ttl h (done ++ [tx]) s0) as Hweak.
  { intros s0 [?|(x & ? & ?)]; [by left|right]. exists x. split; [apply elem_of_app; by left|done]. }
  apply applyTxStrict_Normal in Hx as (id' & Hid' & [[_ ->]|(cmd & s1 & [Hfr Hcmd _ _ Hu (s2 & Hst & ->)])]); [by apply Hweak|].
  destruct Hc as [Hc|?]; [|apply Hweak; by right].
  assert (Commitments s1 !! OutpointKey id 0 = Some (MkCommitment c ttl h)) as Hc1.
  { destruct (ApplyUTXO_commitments _ _ _ _ _ Hu) as (_ & _ & ->). destruct cmd; try done. rewrite lookup_insert_ne; [done|].
    intros E. apply (outpoint_inj _ _ _ _ Hid' Hid) in E as ->. done. }
  destruct (ApplyState_Normal _ _ _ _ Hst) as [_ He]. destruct cmd as [|d sl ip tl txid|d ip tl|]; [subst; by left| | |subst; by left].
  - destruct He as (c' & key & Hr & _ & _ & HC). apply resolve_lookup in Hr as [Hk Hco].
    destruct (decide (key = OutpointKey id 0)) as [->|Hne].
    + right. exists tx. split; [apply elem_of_app; right; by left|]. rewrite Hc1 in Hk. injection Hk as <-. exists d, sl, ip, tl, txid. by split.
    + left. cbn. rewrite HC, lookup_delete_ne; done.
  - destruct He as (r & _ & _ & HC). left. cbn. by rewrite HC.
Qed.

(** In a block that contains a transaction which commits to a name. *)
Lemma commitment_in_block blk st st' t id c ttl :
  chainApplyBlock blk st = (Normal tt, st') -> low (Height blk) -> sound (Height blk) (opened (Height blk) st) ->
  id ∉ txMap (opened (Height blk) st) -> t ∈ Transactions blk -> BuildTransactionID t = Normal id ->
  identified (Transactions blk) t id -> ResolveCommand (Type_ t) (Payload t) = Normal (NameNew c ttl) ->
  committed (OutpointKey id 0) c (if ttl =? 0 then DefaultDomainTTLBlocks else ttl) (Height blk) (Transactions blk) st'.
Proof.
  intros Hb Hlow Hs Hfr Ht Hid Huni Hcmd.
  destruct (once_inv (committed (OutpointKey id 0) c (if ttl =? 0 then DefaultDomainTTLBlocks else ttl) (Height blk))
    blk st st' t id Hb Hlow Hs Hfr Ht Hid) as (w & Hw & ->); [| |exact Hw].
  - intros done tx cmd s s1 s' Hin Hidx (_ & _ & Hh) [_ Hc _ _ Hu (s2 & Hst & ->)]. left.
    destruct (Huni tx Hin Hidx) as (E1 & E2 & _). rewrite E1, E2, Hcmd in Hc. injection Hc as <-.
    destruct (ApplyUTXO_commitments _ _ _ _ _ Hu) as (_ & _ & HC). assert (s2 = s1) as -> by (by injection Hst).
    cbn. by rewrite HC, lookup_insert_eq, Hh.
  - intros done i tx s s' _ Hin Hp Hx. by eapply committed_next.
Qed.

(** ** A registration *)

(** In a block that contains a transaction which reveals a name. *)
Lemma registration_in_block blk st st' t id d salt ip ttl txid :
  chainApplyBlock blk st = (Normal tt, st') -> low (Height blk) -> sound (Height blk) (opened (Height blk) st) ->
  id ∉ txMap (opened (Height blk) st) -> t ∈ Transactions blk -> BuildTransactionID t = Normal id ->
  identified (Transactions blk) t id -> ResolveCommand (Type_ t) (Payload t) = Normal (NameFirstUpdate d salt ip ttl txid) ->
  exists rec, Domains st' !! d = Some rec /\ Owner rec = From t /\ Salt rec = salt /\
    (IP rec = ip \/ exists tx, tx ∈ Transactions blk /\ signed_update tx d (From t)).
Proof.
  intros Hb Hlow Hs Hfr Ht Hid Huni Hcmd.
  destruct (once_inv (fun done w => exists rec, Owner rec = From t /\ Salt rec = salt /\ IP rec = ip /\ kept d rec done w)
    blk st st' t id Hb Hlow Hs Hfr Ht Hid) as (w & (rec & Ho & Hsa & Hip & rec' & Hd & Eo & Es & Hor) & ->).
  - intros done tx cmd s s1 s' Hin Hidx _ [_ Hc _ _ Hu (s2 & Hst & ->)].
    destruct (Huni tx Hin Hidx) as (E1 & E2 & E3). rewrite E1, E2, Hcmd in Hc. injection Hc as <-.
    destruct (ApplyState_Normal _ _ _ _ Hst) as [_ (c & key & _ & _ & HD & _)].
    exists (registered tx d salt ip ttl c s1). split_and!; [exact E3|done|done|].
    exists (registered tx d salt ip ttl c s1). split_and!; [cbn; by rewrite HD, lookup_insert_eq|done|done|by left].
  - intros done i tx s s' Hs' _ (rec & ? & ? & ? & Hk) Hx. exists rec. split_and!; [done..|]. by eapply kept_tx.
  - exists rec'. split_and!; [exact Hd|congruence|congruence|]. destruct Hor as [->|(tx & ? & ?)]; [by left|right].
    exists tx. split; [done|]. by rewrite <- Ho.
Qed.
End effects.

(** ** The order of the outputs *)

(** At most [n] outputs were created, each with a number of its own below [nextUTXOSeq]. *)
Definition numbered (n : Z) (st : NamecoinState) : Prop :=
  0 <= nextUTXOSeq st <= n /\ forall a m k u, UTXOMap st !! a = Some m -> m !! k = Some u -> u_Order u < nextUTXOSeq st.

Lemma numbered_mono n n' st : n <= n' -> numbered n st -> numbered n' st.
Proof. intros Hn [? ?]. split; [lia|done]. Qed.

Lemma numbered_same n st st' : UTXOMap st' = UTXOMap st -> nextUTXOSeq st' = nextUTXOSeq st -> numbered n st -> numbered n st'.
Proof. unfold numbered. by intros -> ->. Qed.

Lemma numbered_append n u st : n + 1 < 2 ^ 64 -> numbered n st -> numbered (n + 1) (appended u st).
Proof.
  intros Hn [Hs Ho]. unfold appended, numbered. cbn. rewrite u64_id by (unfold is_u64; lia). split; [lia|].
  intros a m k v. rewrite lookup_insert_Some. intros [[<- <-]|[_ Hm]] Hk.
  - apply lookup_insert_Some in Hk as [[_ <-]|[_ Hk]]; [cbn; lia|].
    destruct (UTXOMap st !! u_To u) as [m|] eqn:E; cbn in Hk; [|by rewrite lookup_empty in Hk]. specialize (Ho _ _ _ _ E Hk). lia.
  - specialize (Ho _ _ _ _ Hm Hk). lia.
Qed.

Lemma foldr_delete_lookup (m : gmap string UTXO) ids k u : foldr delete m ids !! k = Some u -> m !! k = Some u.
Proof. induction ids as [|x ids IH]; cbn; [done|]. by intros [_ ?%IH]%lookup_delete_Some. Qed.

Lemma numbered_burn n a m ids st : UTXOMap st !! a = Some m -> numbered n st -> numbered n (set_UTXOMap (<[a := foldr delete m ids]>) st).
Proof.
  intros Hm [Hs Ho]. split; [done|]. intros b m' k u. cbn. rewrite lookup_insert_Some.
  intros [[<- <-]|[_ Hb]] Hk; [apply foldr_delete_lookup in Hk|]; by eapply Ho.
Qed.

Lemma numbered_generic n txID tx st st' : n + 1 < 2 ^ 64 -> (length (elems (Outputs tx)) <= 1)%nat -> numbered n st ->
  ApplyUTXOGeneric txID tx st = (Normal tt, st') -> numbered (n + 1) st'.
Proof.
  intros Hn Hl Hst. unfold ApplyUTXOGeneric. intros ([] & st1 & Hb & Ha)%method_bind_Normal.
  assert (numbered n st1) as Hst1.
  { destruct (in_TxID <$> elems (Inputs tx)); [by injection Hb as <-|].
    apply BurnUTXO_Normal in Hb as (m & Hm & _ & _ & ->). by apply numbered_burn. }
  destruct (elems (Outputs tx)) as [|o [|]]; cbn in Hl; [|clear Hl|lia]; cbn [for_each] in Ha.
  - injection Ha as <-. apply (numbered_mono n); [lia|done].
  - apply method_bind_Normal in Ha as ([] & st2 & [_ ->]%AppendUTXO_Normal & [= <-]). by apply numbered_append.
Qed.

Section mined.
Context `{CanonicalJson} `{Ed25519}.

Lemma numbered_tx n i tx st st' : n + 1 < 2 ^ 64 -> numbered n st -> applyTxStrict i tx st = (Normal tt, st') -> numbered (n + 1) st'.
Proof.
  intros Hn Hst (id & _ & [[_ ->]|(cmd & st1 & [_ _ _ Ha Hu (st2 & Hs & ->)])])%applyTxStrict_Normal; [apply (numbered_mono n); [lia|done]|].
  destruct (ApplyState_Normal _ _ _ _ Hs) as [HR _]. injection HR as EU _ _ _ EN.
  apply (numbered_same _ st1); [done..|].
  destruct cmd as [c ttl|d s ip ttl txid|d ip ttl|]; unfold ApplyUTXO, NameNew_ApplyUTXO, Reward_ApplyUTXO in Hu.
  - destruct (Ha ltac:(done)) as [_ Hl _ _]. apply method_bind_Normal in Hu as ([] & st0 & Hu & Hr). rewrite bind_asks in Hr. injection Hr as <-.
    apply (numbered_same _ st0); [done..|]. by eapply numbered_generic.
  - destruct (Ha ltac:(done)) as [_ Hl _ _]. by eapply numbered_generic.
  - destruct (Ha ltac:(done)) as [_ Hl _ _]. by eapply numbered_generic.
  - apply AppendUTXO_Normal in Hu as [_ ->]. by apply numbered_append.
Qed.

Lemma opened_numbered n h st : numbered n st -> numbered n (opened h st).
Proof.
  destruct (prune_buckets_without h (map_to_list (expires st)) (setHeight h st)) as [(_ & _ & HO) _].
  injection HO as _ EU _ _ _ EN. by apply numbered_same.
Qed.

Lemma chain_numbered blks st : chain blks st -> Z.of_nat (length (all_txs blks)) < 2 ^ 64 -> numbered (Z.of_nat (length (all_txs blks))) st.
Proof.
  induction 1 as [|blks st blk st' Hc IH Hh Hb]; intros Hlt; [split; [done|]; intros a m k u; cbn; by rewrite lookup_empty|].
  rewrite all_txs_snoc, length_app in *. specialize (IH ltac:(lia)).
  destruct (block_inv (fun done w => numbered (Z.of_nat (length (all_txs blks)) + Z.of_nat (length done)) w) blk st st' Hb) as (w & Hw & ->).
  - cbn [length]. rewrite Z.add_0_r. by apply opened_numbered.
  - intros done i tx l s s' El Hn Hx. rewrite El, length_app in Hlt. cbn [length] in Hlt. rewrite length_app. cbn [length].
    replace (Z.of_nat (length (all_txs blks)) + Z.of_nat (length done + 1)) with (Z.of_nat (length (all_txs blks)) + Z.of_nat (length done) + 1) by lia.
    eapply numbered_tx; [|exact Hn|exact Hx]. lia.
  - rewrite Nat2Z.inj_add. exact Hw.
Qed.

(** ** Plans and newer outputs *)

Lemma select_more amount t l e : amount <= (select amount t l).2 -> t < amount -> select amount t (l ++ [e]) = select amount t l.
Proof.
  revert t. induction l as [|x l IH]; intros t; cbn [select app snd]; [lia|]. cbv zeta.
  destruct (Z.leb_spec amount (u64 (t + e_amount x))); [done|]. intros Ha _.
  rewrite IH; [done| |lia]. by destruct (select amount (u64 (t + e_amount x)) l).
Qed.

Lemma sorted_more (m : gmap string UTXO) k u : m !! k = None -> (forall k' u', m !! k' = Some u' -> u_Order u' < u_Order u) ->
  merge_sort entry_le (snapshot (<[k := u]> m)) = merge_sort entry_le (snapshot m) ++ [MkEntry k (u_Amount u) (u_Order u)].
Proof.
  intros Hk Ho. symmetry. apply sorted_snapshot_unique.
  - unfold snapshot at 2. rewrite (map_to_list_insert m k u Hk), fmap_cons. rewrite merge_sort_Permutation. by rewrite <- Permutation_cons_append.
  - assert (forall x, x ∈ merge_sort entry_le (snapshot m) -> e_order x < u_Order u) as Hlt.
    { intros x. rewrite merge_sort_Permutation. intros ([k' u'] & -> & Hu%elem_of_map_to_list)%list_elem_of_fmap. by eapply Ho. }
    apply StronglySorted_Sorted. apply StronglySorted_app_2; [|apply StronglySorted_merge_sort; apply _|by repeat constructor].
    intros x y Hx ->%list_elem_of_singleton. left. cbn. by apply Hlt.
Qed.

(** A plan stays when a newer output is added. *)
Lemma plan_more n from amount u st p : numbered n st -> 0 < amount -> default ∅ (UTXOMap st !! u_To u) !! u_TxID u = None ->
  DeterministicSpendPlan from amount st = Normal p -> DeterministicSpendPlan from amount (appended u st) = Normal p.
Proof.
  intros [_ Ho] Ha Hnew Hp. unfold DeterministicSpendPlan in *. destruct (Z.eqb_spec amount 0); [lia|]. unfold appended. cbn.
  destruct (decide (u_To u = from)) as [<-|Hne]; [|by rewrite lookup_insert_ne]. rewrite lookup_insert_eq.
  destruct (UTXOMap st !! u_To u) as [m|] eqn:Hm; [|done]. cbn in *.
  rewrite sorted_more; [|done|intros k' u' Hu; by eapply Ho]. unfold plan_of in *.
  destruct (select amount 0 (merge_sort entry_le (snapshot m))) as [ins total] eqn:Es. destruct (Z.ltb_spec total amount) as [|Ht]; [done|].
  rewrite select_more; rewrite ?Es; try done. by destruct (Z.ltb_spec total amount); [lia|].
Qed.

(** ** A block of the miner *)

(** A node that has a valid chain, which is far from the bounds of its counters. *)
Record node_at (blks : list Block) (st : NamecoinState) : Prop := {
  na_chain : chain blks st;
  na_low : low (Z.of_nat (length blks));
  na_ok : Forall tx_ok (all_txs blks);
  na_supply : mints (all_txs blks) + 1 < 2 ^ 64;
  na_count : Z.of_nat (length (all_txs blks)) < 2 ^ 64
}.

Lemma node_sound blks st : node_at blks st -> sound (Z.of_nat (length blks)) (opened (Z.of_nat (length blks)) st).
Proof. intros [Hc Hl _ _ _]. exact (chain_opened blks st (MkBlock (Z.of_nat (length blks)) []) Hc eq_refl Hl). Qed.

Lemma node_opened blks st :
  node_at blks st -> let h := Z.of_nat (length blks) in
  currentHeight (opened h st) = h /\ Commitments (opened h st) = Commitments st /\ UTXOMap (opened h st) = UTXOMap st /\
  txMap (opened h st) = txMap st /\ forall d, Domains st !! d = None -> Domains (opened h st) !! d = None.
Proof.
  intros [Hc Hl _ _ _] h. pose proof (head_le blks).
  destruct (chain_sound _ _ Hc) as (Hi & _); [eapply low_mono; [exact Hl|lia]|].
  destruct (opened_spec h st Hi) as (_ & Eh & HD & EC & _ & EU & ET). split_and!; [done..|]. intros d Hd.
  destruct (Domains (opened h st) !! d) as [r|] eqn:E; [|done]. apply HD in E as [E _]. congruence.
Qed.

(** The state after the reward of the miner. *)
Definition rewarded (rid key : string) (st : NamecoinState) : NamecoinState :=
  MarkAsApplied rid (appended (MkUTXO rid key 1 0) st).

Lemma reward_applies hdr key rid i st : BuildTransactionID (rewardTx hdr key) = Normal rid -> rid ∉ txMap st ->
  default ∅ (UTXOMap st !! key) !! rid = None -> applyTxStrict i (rewardTx hdr key) st = (Normal tt, rewarded rid key st).
Proof.
  intros Hid Hfresh Hnew. unfold applyTxStrict. rewrite bind_try, Hid, bind_asks. unfold IsTxApplied. rewrite bool_decide_false by done.
  apply method_bind_Normal. exists tt, st. split; [done|].
  apply method_bind_Normal. exists tt, (appended (MkUTXO rid key 1 0) st). split; [|done]. apply wrap_Normal.
  by apply (AppendUTXO_Normal (MkUTXO rid key 1 0)).
Qed.

(** A transaction that is valid in the state after the reward is accepted in the block
    that a miner assembles from it. *)
Lemma assembled_accepted blks st hdr key rid t id blk : node_at blks st -> h_Height hdr = Z.of_nat (length blks) ->
  AssembleBlock hdr [t] key = Normal blk -> BuildTransactionID (rewardTx hdr key) = Normal rid -> rid ∉ txMap st ->
  0 <= Amount t -> BuildTransactionID t = Normal id ->
  validateTxStrict id t (rewarded rid key (opened (Z.of_nat (length blks)) st)) = Normal tt ->
  contents blk = MkBlock (Z.of_nat (length blks)) [rewardTx hdr key; t] /\
  exists st', chainApplyBlock (contents blk) st = (Normal tt, st').
Proof.
  intros Hn Hh Hasm Hrid Hfresh Ha Hid Hv. set (h := Z.of_nat (length blks)) in *.
  assert (contents blk = MkBlock h [rewardTx hdr key; t]) as Ec.
  { destruct (assemble_spec _ _ _ _ Hasm) as (_ & _ & Et & root & _ & Eh). unfold contents. rewrite Et, Eh. cbn [with_root h_Height]. by rewrite Hh. }
  split; [exact Ec|]. destruct (node_opened blks st Hn) as (_ & _ & EU & ET & _). fold h in EU, ET. pose proof Hn as [Hc Hlow Hok Hsu Hcnt].
  assert (default ∅ (UTXOMap (opened h st) !! key) !! rid = None) as Hnew.
  { rewrite EU. destruct (UTXOMap st !! key) as [m|] eqn:E; cbn; [|apply lookup_empty].
    apply eq_None_not_Some. intros Hx. apply Hfresh. by apply (chain_applied _ _ Hc key m). }
  pose proof (reward_applies hdr key rid 0 (opened h st) Hrid ltac:(by rewrite ET) Hnew) as Hrew.
  assert (reached blks [rewardTx hdr key] (rewarded rid key (opened h st))) as Hr.
  { exists st. split; [done|]. cbn [for_range]. unfold mbind, method_bind. fold h. by rewrite Hrew. }
  assert (healthy h (rewarded rid key (opened h st))) as Hhe.
  { apply (reached_healthy blks [rewardTx hdr key]); [exact Hr|exact Hlow| |].
    - apply Forall_app_2; [exact Hok|]. constructor; [|constructor]. split; [cbn; lia|]. cbn. by repeat constructor.
    - rewrite mints_app. change (mints [rewardTx hdr key]) with 1. exact Hsu. }
  destruct (validated_runs h 1 t id _ Hhe Ha Hid Hv) as [w Hw]. exists (replaceWith w st).
  rewrite Ec. unfold chainApplyBlock, applyBlockStrict. rewrite !bind_assigns. cbn [Transactions Height for_range].
  fold (opened h st). unfold mbind, method_bind. rewrite Hrew, Hw. reflexivity.
Qed.

(** The plans of the state are those after the reward. *)
Lemma rewarded_plan blks st rid key from amount p : node_at blks st -> rid ∉ txMap st -> 0 < amount ->
  DeterministicSpendPlan from amount st = Normal p ->
  DeterministicSpendPlan from amount (rewarded rid key (opened (Z.of_nat (length blks)) st)) = Normal p.
Proof.
  intros Hn Hfresh Ha Hp. destruct (node_opened blks st Hn) as (_ & _ & EU & _). pose proof Hn as [Hc _ _ _ Hcnt].
  set (h := Z.of_nat (length blks)) in *. pose proof (opened_numbered _ h st (chain_numbered blks st Hc Hcnt)) as Hnum.
  change (DeterministicSpendPlan from amount (appended (MkUTXO rid key 1 0) (opened h st)) = Normal p).
  apply (plan_more _ from amount (MkUTXO rid key 1 0) (opened h st) p Hnum Ha).
  - cbn [u_To u_TxID]. rewrite EU. destruct (UTXOMap st !! key) as [m|] eqn:E; cbn; [|apply lookup_empty].
    apply eq_None_not_Some. intros Hx. apply Hfresh. by apply (chain_applied _ _ Hc key m).
  - unfold DeterministicSpendPlan in *. by rewrite EU.
Qed.
End mined.
