(* ===== verification/NodeMiner.v ===== *)
(** * A node that mines and receives blocks: [MinerDoWork] of [peer/impl/impl.go] and
    [handleNamecoinBlockMessage] of [peer/impl/message_handlers.go]

    The two ways in which a block enters the chains of a node, and what happens to the
    transactions of the buffer.  Each is one step of the node.  Broadcasting a mined
    block and restarting the miner are left to the caller. *)

From S2P Require Import Prelude JsValue Json JsonFacts JsonCanon Sha256 Platform World Hash Go GoText NodeState NodeUTXO NodeCommands NodeBlocks.
From S2P Require Import NodeSafety NodeDemo NodeChain NodeProgress NodeMempool NodeHeaders NodePow NodePowFacts NodeLedger NodeForks NodeForkChoice NodeHistory NodeForkSafety NodeForkDemo NodeConsensus.
Local Open Scope Z_scope.

(** The chains, the buffer and the configuration of the consensus, the transactions whose
    senders wait for a confirmation, and the confirmations that were given. *)
Record node := MkNode {
  n_chains : ChainService; n_buffer : TxBuffer; n_powCfg : PoWConfig;
  pendingTxConfirm : gset string; answers : list (string * option exn)
}.

Definition set_n_chains (s : ChainService) (n : node) : node := MkNode s (n_buffer n) (n_powCfg n) (pendingTxConfirm n) (answers n).
Definition set_n_buffer (b : TxBuffer) (n : node) : node := MkNode (n_chains n) b (n_powCfg n) (pendingTxConfirm n) (answers n).

(** [notifyTxConfirmation(txID, err)] *)
Definition notifyTxConfirmation (e : option exn) (n : node) (txID : string) : node :=
  if bool_decide (txID ∈ pendingTxConfirm n)
  then MkNode (n_chains n) (n_buffer n) (n_powCfg n) (pendingTxConfirm n ∖ {[txID]}) (answers n ++ [(txID, e)])
  else n.

Section node.
Context `{CanonicalJson} `{Ed25519} (visit : ChainService -> gset nat -> list nat).

(** The identifiers of the transactions that have one, of all or of those that are no
    rewards. *)
Definition ids_of (all : bool) (l : list Tx) : list string :=
  omap (fun tx => if all || negb (String.eqb (Type_ tx) "Reward")
                  then match BuildTransactionID tx with Normal id => Some id | Throw _ => None end else None) l.

(** [notifyAllBlockTxs], [notifyBlockRaceLost] and [notifyBlockMined]. *)
Definition notify_txs (all : bool) (l : list Tx) (e : option exn) (n : node) : node :=
  foldl (notifyTxConfirmation e) n (ids_of all l).

Definition race_lost : exn := Error "error" "block lost race, transaction not in canonical chain".

(** The header that a miner starts from. *)
Definition next_header (conf : PoWConfig) (now : Z) (chain : NamecoinChain) : BlockHeader :=
  let headHash := CloneBytes (headHash chain) in
  MkHeader (match headHash with None => 0 | Some _ => u64 (headHeight chain + 1) end) headHash None now 0 (PubKey conf) None.

(** What the miner's flag and its stop channel show at the two places where they are read. *)
Record signals := MkSignals { disabled : bool; stopped_before : bool; stopped_after : bool }.

(** [MinerDoWork(stop)]; [conf] is the configuration of the node.  The result is the
    block to broadcast. *)
Definition MinerDoWork (conf : PoWConfig) (sig : signals) (now : Z) (world : Z -> attempt) : method node (option FullBlock) := fun n =>
  if disabled sig || stopped_before sig then (err "mining aborted", n)
  else match Chains (n_chains n) !! LongestChainIndex (n_chains n) with
  | None => (Throw (Error "panic" "index out of range"), n)
  | Some chain =>
      let target := match powTarget chain with Some t => t | None => effectiveTarget (Target conf) end in
      match MineAndApply (n_powCfg n) (next_header conf now chain) (Some target) world (n_buffer n) with
      | (Throw e, b) => (Throw e, set_n_buffer b n)
      | (Normal block, b) =>
          let n := set_n_buffer b n in
          if stopped_after sig then (err "mining aborted", n)
          else
            let '((changed, e), s) := AppendBlockToLongestChain visit block (n_chains n) in
            let n := set_n_chains s n in
            match e with
            | Some e => (Throw e, notify_txs true (Txs block) (Some e) n)
            | None =>
                if changed then (Normal (Some block), notify_txs false (Txs block) None n)
                else (Normal None, notify_txs false (Txs block) (Some race_lost) n)
            end
      end
  end.

(** The loop that removes the transactions of a block from the buffer. *)
Definition remove_tx (tx : Tx) : method node unit := fun n =>
  match BuildTransactionID tx with
  | Throw e => (Throw e, n)
  | Normal txID => (Normal tt, set_n_buffer (Remove txID (n_buffer n)) n)
  end.

(** [handleNamecoinBlockMessage]: whether the miner is to be restarted. *)
Definition handleNamecoinBlockMessage (block : FullBlock) : method node bool := fun n =>
  let '((changed, e), s) := AppendBlockToLongestChain visit block (n_chains n) in
  let n := set_n_chains s n in
  match e with
  | Some e => (Throw e, notify_txs true (Txs block) (Some e) n)
  | None =>
      if negb changed then (Normal false, n)
      else match for_each remove_tx (Txs block) n with
           | (Throw e, n) => (Throw e, n)
           | (Normal _, n) => (Normal true, notify_txs true (Txs block) None n)
           end
  end.
End node.

(** ** Mining a block *)

Section mining.
Context `{CanonicalJson} `{Ed25519} (visit : ChainService -> gset nat -> list nat).

Lemma notify_frame all l e n :
  n_chains (notify_txs all l e n) = n_chains n /\ n_buffer (notify_txs all l e n) = n_buffer n /\
  forall id e', (id, e') ∈ answers (notify_txs all l e n) -> (id, e') ∈ answers n \/ (id ∈ ids_of all l /\ e' = e).
Proof.
  unfold notify_txs. revert n. induction (ids_of all l) as [|x ids IH]; intros n; cbn [foldl]; [auto|].
  destruct (IH (notifyTxConfirmation e n x)) as (-> & -> & Ha). unfold notifyTxConfirmation in *. case_bool_decide; cbn [n_chains n_buffer answers] in *.
  - split_and!; [done..|]. intros id e' [[?|E%list_elem_of_singleton]%elem_of_app|[? ->]]%Ha; [by left| |right; split; [by right|done]].
    injection E as -> ->. right. split; [by left|done].
  - split_and!; [done..|]. intros id e' [?|[? ->]]%Ha; [by left|right; split; [by right|done]].
Qed.

(** The senders that are told: those who wait for one of the transactions, each once. *)
Lemma notify_answers all l e n : exists told,
  answers (notify_txs all l e n) = answers n ++ ((fun id => (id, e)) <$> told) /\ NoDup told /\
  (forall id, id ∈ told <-> id ∈ ids_of all l /\ id ∈ pendingTxConfirm n) /\
  (forall id, id ∈ pendingTxConfirm (notify_txs all l e n) <-> id ∈ pendingTxConfirm n /\ id ∉ ids_of all l).
Proof.
  unfold notify_txs. revert n. induction (ids_of all l) as [|x ids IH]; intros n; cbn [foldl].
  - exists []. rewrite app_nil_r. split_and!; [done|constructor|..]; intros id; rewrite elem_of_nil; naive_solver.
  - destruct (IH (notifyTxConfirmation e n x)) as (told & -> & Hnd & Hin & Hp).
    unfold notifyTxConfirmation in *. case_bool_decide as Hx; cbn [answers pendingTxConfirm] in *.
    + exists (x :: told). split; [by rewrite <- (assoc_L app)|]. split; [constructor; [|done]; rewrite Hin; set_solver|].
      split; intros id; [rewrite elem_of_cons, Hin|rewrite Hp, elem_of_cons];
        destruct (decide (id = x)) as [->|]; set_solver.
    + exists told. split_and!; [done|done|..]; intros id; [rewrite Hin|rewrite Hp]; rewrite elem_of_cons;
        destruct (decide (id = x)) as [->|]; naive_solver.
Qed.

Lemma apply_valid c hp b st :
  CloneBytes (headHash c) = headHash c -> ValidateBlockHeader (headHeight c) (headHash c) (powTarget c) b = (Normal tt, b) ->
  applyBlockStrict (contents b) (c_state c) = (Normal tt, st) ->
  NamecoinChain_ApplyBlock c hp b = (Normal (advance c b st, persist (c_store c) b hp), b).
Proof.
  intros Ec Hv Hs. unfold NamecoinChain_ApplyBlock, ValidateBlock, mbind, method_bind. rewrite Ec, Hv. unfold try. rewrite Hs, Hv. reflexivity.
Qed.

(** A block that extends the longest chain and for which no block waits. *)
Lemma extend_longest b p c c' hp s :
  let i := LongestChainIndex s in
  Chains s !! i = Some c -> h_Height (Header b) <> 0 -> h_PrevHash (Header b) = Some p -> findHeadByHashUnlocked (Some p) s = Some i ->
  blockKnownUnlocked (Hash b) (h_Height (Header b)) s = false -> orphansByPrev s !! hashKeyHex (Hash b) = None ->
  NamecoinChain_ApplyBlock c (stores s) b = (Normal (c', hp), b) -> headHash c' <> None -> headHeight c <> headHeight c' ->
  AppendBlockToLongestChain visit b s =
    ((true, None), registerBlockUnlocked i b (set_Chains (<[i := c']> (Chains s)) (set_stores hp s))).
Proof.
  intros i Hc Hh Hp Hf Hk Ho Ha Hne Hd. set (s1 := set_Chains (<[i := c']> (Chains s)) (set_stores hp s)).
  assert (Chains s1 !! i = Some c') as Hc1 by (apply list_lookup_insert_eq; by eapply lookup_lt_Some).
  destruct (register_frame i b s1) as (E1 & E2 & _ & E4).
  assert (processSingleBlockUnlocked visit i b s = (Normal [], registerBlockUnlocked i b s1)) as Hsingle.
  { unfold processSingleBlockUnlocked, ensureChainForParentUnlocked. rewrite Hk. destruct (Z.eqb_spec (h_Height (Header b)) 0); [done|].
    rewrite Hp, Hf, Hc, Ha. fold s1. assert (maybePromoteLongest i (registerBlockUnlocked i b s1) = registerBlockUnlocked i b s1) as ->.
    { unfold maybePromoteLongest. rewrite E2. change (LongestChainIndex s1) with i. rewrite E1, Hc1. unfold keeps_current.
      rewrite Z.ltb_irrefl, Z.eqb_refl. destruct (headHash c') as [h|]; [|done]. by rewrite bytes_lt_irrefl. }
    unfold popWaitingChildrenUnlocked. rewrite E4. change (orphansByPrev s1) with (orphansByPrev s).
    destruct (Hash b) as [h|]; [|done]. cbn [hashKeyHex] in Ho. by rewrite Ho. }
  unfold AppendBlockToLongestChain, AppendBlockToChain, processPendingBlocksUnlocked. fold i. rewrite Hc. unfold enough. cbn [Nat.mul Nat.add pending_loop].
  rewrite Hsingle. cbn [app].
  rewrite E2. change (LongestChainIndex s1) with i. rewrite E1, Hc1. by destruct (Z.eqb_spec (headHeight c) (headHeight c')).
Qed.

(** C18: A miner that is not interrupted extends the longest chain: when the search finds a block
    and its transactions apply to the state of the head, the block becomes the new head,
    one higher, with the state it leads to; the buffer is left as the search leaves it;
    the senders that wait for one of its transactions, rewards apart, are told that it was
    mined, each once and nobody else, and no longer wait; and the block is the one to
    broadcast. *)
Theorem mined_block_extends conf sig now world n cur h t buf block :
  let s := n_chains n in
  Chains s !! LongestChainIndex s = Some cur -> headHash cur = Some h -> h <> [] -> 0 <= headHeight cur < 2 ^ 64 - 1 ->
  powTarget cur = Some t -> 0 < t -> findHeadByHashUnlocked (Some h) s = Some (LongestChainIndex s) ->
  MineAndApply (n_powCfg n) (next_header conf now cur) (Some t) world (n_buffer n) = (Normal block, buf) ->
  (applyBlockStrict (contents block) (c_state cur)).1 = Normal tt ->
  blockKnownUnlocked (Hash block) (h_Height (Header block)) s = false -> orphansByPrev s !! hashKeyHex (Hash block) = None ->
  sig = MkSignals false false false ->
  exists n' cur', MinerDoWork visit conf sig now world n = (Normal (Some block), n') /\
    Chains (n_chains n') !! LongestChainIndex (n_chains n') = Some cur' /\
    headHash cur' = Hash block /\ headHeight cur' = headHeight cur + 1 /\ chainApplyBlock (contents block) (c_state cur) = (Normal tt, c_state cur') /\
    n_buffer n' = buf /\ (exists told,
      answers n' = answers n ++ ((fun id => (id, None)) <$> told) /\ NoDup told /\
      (forall id, id ∈ told <-> id ∈ ids_of false (Txs block) /\ id ∈ pendingTxConfirm n)) /\
    (forall id, id ∈ pendingTxConfirm n' <-> id ∈ pendingTxConfirm n /\ id ∉ ids_of false (Txs block)).
Proof.
  intros s Hcur Hh Hne Hb Ht Hpos Hf Hm Hs Hk Ho ->.
  assert (CloneBytes (Some h) = Some h) as Eh by (by destruct h).
  assert (headHash cur = Some h -> u64 (headHeight cur + 1) = headHeight cur + 1) as Eu by (intros _; apply u64_id; unfold is_u64; lia).
  specialize (Eu Hh). destruct (mined_block_valid (n_powCfg n) (next_header conf now cur) t world (n_buffer n) block buf (headHeight cur) (Some h) Hpos Hm) as [Hv _].
  { unfold ensureNextBlockFollows, next_header. rewrite Hh, Eh. cbn [Header h_Height h_PrevHash]. rewrite Z.eqb_refl. unfold bytes_Equal. by rewrite bool_decide_true. }
  destruct (header_spec _ _ _ _ _ _ Hv) as [_ Hn]. destruct (Hn eq_refl) as (Es & Hfo & _). unfold ensureNextBlockFollows in Hfo. rewrite Eu in Hfo.
  destruct (Z.eqb_spec (h_Height (Header block)) (headHeight cur + 1)) as [Ehh|]; [|done]. cbn [negb] in Hfo.
  destruct (bytes_Equal (h_PrevHash (Header block)) (Some h)) eqn:Ep; [|done]. unfold bytes_Equal in Ep. apply bool_decide_eq_true_1 in Ep.
  assert (h_PrevHash (Header block) = Some h) as Hp by (destruct (h_PrevHash (Header block)); cbn in Ep; congruence).
  destruct (applyBlockStrict (contents block) (c_state cur)) as [r st] eqn:Est. cbn in Hs. subst r.
  assert (Hash block = Some (ComputeHash block)) as Ehash by (rewrite Es at 1; reflexivity).
  pose proof (apply_valid cur (stores s) block st ltac:(by rewrite Hh) ltac:(by rewrite Hh, Ht) Est) as Ha.
  set (cur' := advance cur block st) in *. assert (headHash cur' = Hash block) as Ehc by (unfold cur', advance; cbn [headHash]; by rewrite clone_hash, Ehash).
  pose proof (extend_longest block h cur cur' _ s Hcur ltac:(lia) Hp Hf Hk Ho Ha ltac:(by rewrite Ehc, Ehash) ltac:(unfold cur', advance; cbn [headHeight]; lia)) as Hx.
  unfold MinerDoWork. cbn [disabled stopped_before stopped_after orb]. fold s. rewrite Hcur, Ht, Hm.
  change (n_chains (set_n_buffer buf n)) with s. rewrite Hx. eexists _, cur'. split; [reflexivity|].
  match goal with |- context [notify_txs false (Txs block) None ?m] => destruct (notify_frame false (Txs block) None m) as (-> & -> & _);
    destruct (notify_answers false (Txs block) None m) as (told & Ha1 & Ha2 & Ha3 & Ha4) end.
  split_and!; [|done|exact Ehh| |done|exists told; exact (conj Ha1 (conj Ha2 Ha3))|exact Ha4].
  - cbn [n_chains set_n_chains]. match goal with |- context [registerBlockUnlocked ?i block ?s1] => destruct (register_frame i block s1) as (-> & -> & _) end.
    apply list_lookup_insert_eq. by eapply lookup_lt_Some.
  - unfold chainApplyBlock. by rewrite Est.
Qed.
End mining.

(** ** Interruptions *)

Section interruptions.
Context `{CanonicalJson} `{Ed25519} (visit : ChainService -> gset nat -> list nat).

Lemma assemble_panics h pending key e : AssembleBlock h pending key = Throw e -> exists m, e = Error "panic" m.
Proof. unfold AssembleBlock. destruct (ComputeTxRoot _) as [|[]]; intros E; [discriminate E|injection E as <-; eauto..]. Qed.

(** The buffer is empty after a success or a panic, and unchanged after an error. *)
Lemma mine_buffer cfg base t world b r b' : buffer_ok b -> MineAndApply cfg base (Some t) world b = (r, b') ->
  match r with Throw (Error n _) => if String.eqb n "panic" then b' = NewTxBuffer else b' = b | Throw _ => False | Normal _ => b' = NewTxBuffer end.
Proof.
  intros Hb. unfold MineAndApply. pose proof (requeue_restores b Hb) as Hr. destruct (Drain b) as [[[pending ord] m] b0] eqn:Ed.
  assert (b0 = NewTxBuffer) as -> by (unfold Drain in Ed; by injection Ed). cbv zeta.
  destruct (AssembleBlock (with_difficulty base (Bytes_of t)) pending (PubKey cfg)) as [asm|e] eqn:E1; [|apply assemble_panics in E1 as [m1 ->]; intros [<- <-]%pair_equal_spec; reflexivity].
  destruct (MineNonce _ _ _) as [[nonce ts]|]; [|intros [<- <-]%pair_equal_spec; exact Hr].
  destruct (AssembleBlock (with_nonce (Header asm) nonce ts) pending (PubKey cfg)) as [blk|e] eqn:E2; [|apply assemble_panics in E2 as [m2 ->]; intros [<- <-]%pair_equal_spec; reflexivity].
  destruct (IsBlockComplexityValid _ _); intros [<- <-]%pair_equal_spec; [reflexivity|exact Hr].
Qed.


(** C19: A miner that is stopped after it has found a block, before it appends it, loses the
    transactions: they are taken from the buffer and in no chain, and their senders get
    no answer. *)
Theorem late_stop_loses conf sig now world n cur t block buf :
  buffer_ok (n_buffer n) -> Chains (n_chains n) !! LongestChainIndex (n_chains n) = Some cur -> powTarget cur = Some t ->
  sig = MkSignals false false true ->
  MineAndApply (n_powCfg n) (next_header conf now cur) (Some t) world (n_buffer n) = (Normal block, buf) ->
  MinerDoWork visit conf sig now world n = (err "mining aborted", set_n_buffer NewTxBuffer n).
Proof.
  intros Hb Hc Ht -> Hm. unfold MinerDoWork. rewrite Hc, Ht, Hm. cbn [disabled stopped_before stopped_after orb].
  by apply mine_buffer in Hm as ->.
Qed.
End interruptions.

(** ** Examples *)

Import SmallChain SmallFork.

Definition node1 : node := MkNode svc1 (Add new_tx "1" NewTxBuffer) miner {["1"]} [].
Definition idle : node := MkNode svc1 NewTxBuffer miner ∅ [].
Definition head1 : NamecoinChain := Eval vm_compute in default (NewNamecoinChain 0) (Chains svc1 !! LongestChainIndex svc1).

Definition mined1 : FullBlock := Eval vm_compute in
  match (MineAndApply miner (next_header miner 0 head1) (Some (2 ^ 256)) mine_world (n_buffer node1)).1 with Normal b => b | Throw _ => g end.

Lemma buffer1_ok : buffer_ok (n_buffer node1).
Proof. apply Add_ok. split; [constructor|]. intros id. cbn. rewrite lookup_empty, elem_of_nil. by split; [|intros []]. Qed.


Lemma late_stop_loses_witness : exists block, MineAndApply miner (next_header miner 0 head1) (Some (2 ^ 256)) mine_world (n_buffer node1) = (Normal block, NewTxBuffer) /\
  MinerDoWork in_order miner (MkSignals false false true) 0 mine_world node1 = (err "mining aborted", set_n_buffer NewTxBuffer node1).
Proof.
  exists mined1. split; [evaluates|].
  apply (late_stop_loses in_order miner (MkSignals false false true) 0 mine_world node1 head1 (2 ^ 256) mined1 NewTxBuffer);
    [exact buffer1_ok|reflexivity|reflexivity|reflexivity|evaluates].
Defined.

(** A node whose key has the coins of the genesis block, and which waits for the
    confirmation of a commitment that it has buffered. *)
Definition own_genesis : FullBlock := Eval vm_compute in block_after 0 None 1 0 addr.
Definition own_svc : ChainService := Eval vm_compute in feed boot own_genesis.
Definition own_head : NamecoinChain := Eval vm_compute in default (NewNamecoinChain 0) (Chains own_svc !! LongestChainIndex own_svc).
Definition own_tx : Tx := Eval vm_compute in
  signed "NameNew" 1 (obj [("commitment", Str (commitment_of "example.bit" "salt"))]) (c_state own_head).
Definition own_node : node := MkNode own_svc (Add own_tx (TxID own_tx) NewTxBuffer) miner {[TxID own_tx]} [].
Definition own_mined : FullBlock := Eval vm_compute in
  match (MineAndApply miner (next_header miner 0 own_head) (Some (2 ^ 256)) mine_world (n_buffer own_node)).1 with Normal b => b | Throw _ => g end.

Lemma own_waits : TxID own_tx ∈ ids_of false (Txs own_mined) /\ TxID own_tx ∈ pendingTxConfirm own_node.
Proof.
  split; [|cbn [pendingTxConfirm own_node]; apply elem_of_singleton; reflexivity].
  apply (bool_decide_eq_true_1 (TxID own_tx ∈ ids_of false (Txs own_mined))).
  vm_compute. reflexivity.
Qed.

Lemma mined_block_extends_witness : exists n' cur', MinerDoWork in_order miner (MkSignals false false false) 0 mine_world own_node = (Normal (Some own_mined), n') /\
  Chains (n_chains n') !! LongestChainIndex (n_chains n') = Some cur' /\
  headHash cur' = Hash own_mined /\ headHeight cur' = headHeight own_head + 1 /\
  chainApplyBlock (contents own_mined) (c_state own_head) = (Normal tt, c_state cur') /\
  n_buffer n' = NewTxBuffer /\ (TxID own_tx, None) ∈ answers n' /\ TxID own_tx ∉ pendingTxConfirm n'.
Proof.
  destruct (mined_block_extends in_order miner (MkSignals false false false) 0 mine_world own_node own_head
    (elems (Hash own_genesis)) (2 ^ 256) NewTxBuffer own_mined)
    as (n' & cur' & H1 & H2 & H3 & H4 & H5 & H6 & (told & Ha & _ & Ht) & Hp);
    [reflexivity|reflexivity|discriminate|split; [discriminate|reflexivity]|reflexivity|reflexivity|evaluates..|reflexivity|].
  exists n', cur'. split_and!; [exact H1|exact H2|exact H3|exact H4|exact H5|exact H6|..].
  - rewrite Ha. apply elem_of_app. right. apply list_elem_of_fmap. exists (TxID own_tx). split; [reflexivity|].
    apply Ht. exact own_waits.
  - rewrite Hp. intros [_ Hn]. exact (Hn (proj1 own_waits)).
Defined.

(** A block whose transactions do not have the root it names, after [b1]. *)
Definition bad_child : FullBlock := MkFullBlock (Header b2) [] (Hash b2).
(** The node waits for the confirmation of the reward of [b1]. *)
Definition waiting_node : node := MkNode svc1 NewTxBuffer miner (list_to_set (ids_of true (Txs b1))) [].
Definition after_child : node := Eval vm_compute in (handleNamecoinBlockMessage in_order bad_child waiting_node).2.
Definition after_parent : node := Eval vm_compute in (handleNamecoinBlockMessage in_order b1 after_child).2.

(** A bad block that waits for a good one makes the node report the good one as failed: the
    bad child arrives first and is kept as an orphan without an error; when the parent
    arrives it becomes the head of the longest chain, but the error of the child is
    returned for it, and the senders of its transactions are told that they failed. *)
Theorem orphan_error_hides_success :
  handleNamecoinBlockMessage in_order bad_child waiting_node = (Normal false, after_child) /\
  handleNamecoinBlockMessage in_order b1 after_child = (err "txRoot mismatch", after_parent) /\
  (headHash <$> Chains (n_chains after_parent) !! LongestChainIndex (n_chains after_parent)) = Some (Hash b1) /\
  answers after_parent = (fun id => (id, Some (Error "error" "txRoot mismatch"))) <$> ids_of true (Txs b1) /\
  ids_of true (Txs b1) <> [].
Proof. split; [evaluates|]. split; [evaluates|]. split; [reflexivity|]. split; [evaluates|]. vm_compute. discriminate. Qed.
