(* ===== verification/NodeWire.v ===== *)
(** * Messages between the wallet and the node

    The node decodes the fields of a message independently of the order of its
    members, so that the message a wallet sends denotes for the node the transaction
    that the wallet signed. *)

From S2P Require Import Prelude JsValue Json JsonFacts JsonCanon Sha256 Platform World Hash Go NodeState NodeCommands NodeBlocks.
Local Open Scope Z_scope.

(** ** Data that both sides treat alike *)

(** No control characters, which the two packages escape differently. *)
Fixpoint printable (s : string) : bool :=
  match s with
  | EmptyString => true
  | String c s' => (32 <=? code c) && printable s'
  end.

(** Integers that numbers of both languages represent, printable text, and members
    that differ not only in case. *)
Fixpoint portable (v : value) : bool :=
  match v with
  | Num (Fin m 0) => Z.abs m <? 2 ^ 53
  | Num _ => false
  | Str s => printable s
  | Arr l => forallb portable l
  | Obj o =>
      bool_decide (NoDup (to_lower <$> o.*1)) && forallb printable o.*1 && forallb (fun kv => portable kv.2) o
  | _ => true
  end.

Lemma forallb_perm {A} (f : A -> bool) l l' : l ≡ₚ l' -> forallb f l = forallb f l'.
Proof.
  induction 1 as [|x l l' _ IH|x y l|l1 l2 l3 _ IH1 _ IH2]; cbn; [done|by rewrite IH|by destruct (f x), (f y)|congruence].
Qed.

Lemma canon_members (o : list (string * value)) :
  sort_props (map (fun '(k, x) => (k, canon x)) o) ≡ₚ map (fun '(k, x) => (k, canon x)) o.
Proof. apply sort_props_perm. Qed.

Lemma portable_canon v : portable (canon v) = portable v.
Proof.
  induction v as [| |b|n|s|l IH|o IH|l] using value_nested_ind; try done; cbn [canon portable].
  - induction IH as [|x l Hx _ IHl]; [done|]. cbn. by rewrite Hx, IHl.
  - pose proof (canon_members o) as Hp. rewrite (forallb_perm (fun kv => portable kv.2) _ _ Hp).
    assert ((sort_props (map (fun '(k, x) => (k, canon x)) o)).*1 ≡ₚ o.*1) as Hk by (rewrite Hp; by rewrite keys_map).
    rewrite (forallb_perm printable _ _ Hk). f_equal; [f_equal|].
    + apply bool_decide_ext. by rewrite Hk.
    + clear Hp Hk. induction IH as [|[k x] o Hx _ IHo]; [done|]. cbn in *. by rewrite Hx, IHo.
Qed.

Lemma portable_equiv v w : v ≡ⱼ w -> portable v = portable w.
Proof. unfold json_equiv. intros E. by rewrite <- portable_canon, E, portable_canon. Qed.

(** ** Fields *)

(** The member that matches a field. *)
Definition matching (name : string) (o : list (string * value)) : list (string * value) :=
  filter (fun kv => to_lower kv.1 = to_lower name) o.

Lemma matching_short name o :
  NoDup (to_lower <$> o.*1) -> matching name o = [] \/ exists kv, matching name o = [kv].
Proof.
  unfold matching. induction o as [|kv o IH]; [by left|]. rewrite !fmap_cons. intros [Hk Hn]%NoDup_cons. rewrite filter_cons.
  destruct (IH Hn) as [E|[kv' E]]; case_decide as Hd; rewrite ?E; eauto. exfalso. apply Hk.
  assert (kv' ∈ filter (fun kv => to_lower kv.1 = to_lower name) o) as Hin by (rewrite E; by left).
  apply list_elem_of_filter in Hin as [Hn' Hin]. rewrite Hd, <- Hn'. by apply list_elem_of_fmap_2, list_elem_of_fmap_2.
Qed.

(** The value a field is decoded from. *)
Definition field_of (name : string) (o : list (string * value)) : option value := snd <$> head (matching name o).

Lemma matching_canon name (o : list (string * value)) :
  NoDup (to_lower <$> o.*1) ->
  field_of name (sort_props (map (fun '(k, x) => (k, canon x)) o)) = canon <$> field_of name o.
Proof.
  intros Hn. unfold field_of. pose proof (canon_members o) as Hp.
  assert (matching name (sort_props (map (fun '(k, x) => (k, canon x)) o)) ≡ₚ
          map (fun '(k, x) => (k, canon x)) (matching name o)) as Hm.
  { unfold matching. rewrite Hp. clear. induction o as [|[k x] o IH]; [done|]. cbn [map]. rewrite !filter_cons.
    cbn [fst]. case_decide; cbn; by rewrite IH. }
  destruct (matching_short name o Hn) as [E|[[k x] E]]; rewrite E in Hm |- *; cbn in Hm.
  - apply Permutation_nil_r in Hm. by rewrite Hm.
  - apply Permutation_singleton_r in Hm. by rewrite Hm.
Qed.

Lemma json_field_of {A} (conv : value -> outcome A) zero name o :
  NoDup (to_lower <$> o.*1) ->
  json_field conv zero name o = match field_of name o with None | Some Null => Normal zero | Some v => conv v end.
Proof.
  intros Hn. assert (forall acc, fold_left (json_step conv name) o acc = fold_left (json_step conv name) (matching name o) acc) as Hf.
  { clear Hn. unfold matching. induction o as [|kv o IH]; intros acc; [done|]. cbn [fold_left]. rewrite filter_cons.
    case_decide as Hd; [by rewrite IH|]. rewrite IH. f_equal. unfold json_step.
    destruct (String.eqb_spec (to_lower kv.1) (to_lower name)); [done|]. by destruct acc. }
  unfold json_field. rewrite Hf. unfold field_of. destruct (matching_short name o Hn) as [E|[[k x] E]]; rewrite E; [done|].
  assert ((k, x) ∈ matching name o) as Hin by (rewrite E; by left). apply list_elem_of_filter in Hin as [Hk _].
  cbn in *. rewrite Hk, String.eqb_refl. by destruct x.
Qed.

(** Decoders that do not depend on the order of members. *)
Definition stable {A} (conv : value -> outcome A) : Prop := forall v, portable v = true -> conv (canon v) = conv v.

Lemma field_portable name o v : forallb (fun kv => portable kv.2) o = true -> field_of name o = Some v -> portable v = true.
Proof.
  unfold field_of. intros Hp%forallb_Forall Hv. destruct (matching name o) as [|kv l] eqn:E; [done|]. injection Hv as <-.
  assert (kv ∈ matching name o) as [_ Hin]%list_elem_of_filter by (rewrite E; by left).
  rewrite Forall_forall in Hp. by apply Hp.
Qed.

Lemma portable_obj o :
  portable (Obj o) = true -> NoDup (to_lower <$> o.*1) /\ forallb (fun kv => portable kv.2) o = true.
Proof. cbn [portable]. rewrite !andb_true_iff, bool_decide_eq_true. tauto. Qed.

Lemma json_field_canon {A} (conv : value -> outcome A) zero name o :
  stable conv -> portable (Obj o) = true ->
  json_field conv zero name (sort_props (map (fun '(k, x) => (k, canon x)) o)) = json_field conv zero name o.
Proof.
  intros Hs Hp. pose proof Hp as Hp'. rewrite <- portable_canon in Hp'. apply portable_obj in Hp as [Hn Hv], Hp' as [Hn' _].
  rewrite !json_field_of, matching_canon by done. destruct (field_of name o) as [v|] eqn:E; [|done]. cbn.
  rewrite <- (Hs v) by (by eapply field_portable). by destruct v.
Qed.

Lemma stable_string : stable as_string.
Proof. by intros []. Qed.
Lemma stable_uint bits : stable (as_uint bits).
Proof. by intros []. Qed.

Lemma stable_slice {A} (conv : value -> outcome A) : stable conv -> stable (as_slice conv).
Proof.
  intros Hs v Hv. destruct v as [| | | | |l| |]; try done. cbn [canon as_slice]. f_equal. cbn in Hv.
  induction l as [|x l IH]; [done|]. apply andb_true_iff in Hv as [Hx Hl]. cbn [map all_out]. by rewrite (Hs x Hx), IH.
Qed.

(** A struct whose fields are decoded by stable decoders. *)
Lemma stable_input : stable as_input.
Proof.
  intros v Hv. destruct v as [| | | | | |o|]; try done. unfold as_input. cbn [canon as_struct mbind outcome_bind].
  by rewrite !json_field_canon by (done || apply stable_string || apply stable_uint).
Qed.
Lemma stable_output : stable as_output.
Proof.
  intros v Hv. destruct v as [| | | | | |o|]; try done. unfold as_output. cbn [canon as_struct mbind outcome_bind].
  by rewrite !json_field_canon by (done || apply stable_string || apply stable_uint).
Qed.

#[local] Hint Resolve stable_string stable_uint stable_slice stable_input stable_output : go.

Lemma raw_field_of name o : NoDup (to_lower <$> o.*1) -> raw_field name o = field_of name o.
Proof.
  intros Hn. unfold raw_field.
  set (f := fun acc kv => if String.eqb (to_lower kv.1) (to_lower name) then Some kv.2 else acc).
  assert (forall acc, fold_left f o acc = fold_left f (matching name o) acc) as Hf.
  { clear Hn. unfold matching. induction o as [|kv o IH]; intros acc; [done|]. cbn [fold_left]. rewrite filter_cons.
    case_decide as Hd; [by rewrite IH|]. rewrite IH. f_equal. unfold f.
    by destruct (String.eqb_spec (to_lower kv.1) (to_lower name)). }
  rewrite Hf. unfold field_of. destruct (matching_short name o Hn) as [E|[[k x] E]]; rewrite E; [done|].
  assert ((k, x) ∈ matching name o) as Hin by (rewrite E; by left). apply list_elem_of_filter in Hin as [Hk _].
  cbn in *. unfold f. cbn. by rewrite Hk, String.eqb_refl.
Qed.

(** A transaction up to the order of the members of its payload. *)
Definition canon_payload (t : Tx) : Tx :=
  MkTx (From t) (Type_ t) (Inputs t) (Outputs t) (Amount t) (canon <$> Payload t) (Pk t) (TxID t) (Signature t).

Lemma unmarshal_canon v :
  portable v = true -> unmarshalTransaction (canon v) = canon_payload <$> unmarshalTransaction v.
Proof.
  intros Hv. destruct v as [| | | | | |o|]; try done. pose proof Hv as Hv'. rewrite <- portable_canon in Hv'.
  apply portable_obj in Hv' as [Hn' _]. pose proof (portable_obj o Hv) as [Hn _]. unfold unmarshalTransaction.
  cbn [canon as_struct mbind outcome_bind]. rewrite !json_field_canon by auto with go.
  rewrite !raw_field_of, matching_canon by done.
  repeat (match goal with |- (json_field ?c ?z ?n o ≫= _) = _ => destruct (json_field c z n o) end;
    [cbn [mbind outcome_bind]|done]).
  done.
Qed.

(** Equal messages are decoded alike. *)
Lemma unmarshal_equiv v w t :
  portable w = true -> v ≡ⱼ w -> unmarshalTransaction w = Normal t ->
  exists p, unmarshalTransaction v = Normal (MkTx (From t) (Type_ t) (Inputs t) (Outputs t) (Amount t) p (Pk t) (TxID t) (Signature t)) /\
    canon <$> p = canon <$> Payload t.
Proof.
  intros Hw E Ht. assert (portable v = true) as Hv by (by rewrite (portable_equiv v w E)).
  pose proof (unmarshal_canon v Hv) as Hcv. unfold json_equiv in E. rewrite E, (unmarshal_canon w Hw), Ht in Hcv.
  destruct (unmarshalTransaction v) as [t'|]; [|done]. injection Hcv as E1 E2 E3 E4 E5 E6 E7 E8 E9.
  exists (Payload t'). split; [|done]. destruct t'; cbn in *; congruence.
Qed.

(** Commands do not depend on the order of the members of the payload. *)
Lemma ResolveCommand_canon type p : portable p = true -> ResolveCommand type (Some (canon p)) = ResolveCommand type (Some p).
Proof.
  intros Hp. unfold ResolveCommand. cbn [payload_members].
  destruct p as [| | | | | |o|]; try done. cbn [canon as_struct mbind outcome_bind].
  by rewrite !json_field_canon by auto with go.
Qed.

Lemma ResolveCommand_equiv type p q :
  portable q = true -> p ≡ⱼ q -> ResolveCommand type (Some p) = ResolveCommand type (Some q).
Proof.
  intros Hq E. rewrite <- (ResolveCommand_canon type q Hq), <- (ResolveCommand_canon type p) by (by rewrite (portable_equiv p q E)).
  unfold json_equiv in E. by rewrite E.
Qed.
