(* ===== verification/NodeWallet.v ===== *)
(** * From the wallet to the chain

    The wallet and the node together.  A message that the wallet view sends, with the
    spend plan the node handed out, is decoded by the node to the transaction that
    was signed, passes its checks and has its effect in the next block that contains it: a
    submitted name is committed to under the identifier the wallet stores, a revealed
    name is registered for the wallet.  Blocks that a miner assembles from it are
    accepted. *)

From S2P Require Import Prelude JsValue Json JsonFacts JsonCanon Sha256 Async Platform World Hash.
From S2P Require Import Storage DomainStorage TransactionService CryptoService WalletService.
From S2P Require Import ApiService UseWallet UseTransaction TransactionFlow WalletView WalletFlow.
From S2P Require Import Go GoText NodeState NodeUTXO NodeCommands NodeBlocks NodeSafety NodeDemo NodeChain NodeProgress NodeMempool NodeHeaders NodePow NodeMined NodeWire.
Local Open Scope Z_scope.

(** The packages of the two languages implement the same standards: canonical JSON, on
    data whose text they do not disagree about, and Ed25519. *)
Class SameStandards `{Canonicalizer} `{NaCl} `{CanonicalJson} `{Ed25519} : Prop := {
  same_text v s : json_ok v -> portable v = true -> canonicalize v = Normal (Str s) -> marshal v = Normal s;
  same_signatures m sig pk : length pk = 32%nat -> length sig = 64%nat ->
    verify_detached m sig pk = Normal true -> ed25519_valid pk m sig = true
}.

(** The data [SpendPlanHandler] answers with. *)
Definition plan_reply (p : slice TxInput * slice TxOutput) : value :=
  obj [("inputs", slice_json input_json p.1); ("outputs", slice_json output_json p.2)].

Definition SpendPlanHandler (body : value) (st : NamecoinState) : outcome value :=
  match (o ← as_struct body; from ← json_field as_string "" "from" o; amount ← json_field (as_uint 64) 0 "amount" o;
         Normal (from, amount)) with
  | Throw e => wrapped "invalid body: " (Throw e)
  | Normal (from, amount) =>
      plan_reply <$> wrapped "failed to compute spend plan: " (DeterministicSpendPlan from amount st)
  end.

(** ** Plans *)

(** What a plan for a positive amount looks like. *)
Lemma plan_some from amount st p :
  0 < amount -> DeterministicSpendPlan from amount st = Normal p ->
  exists i o, p = (Some i, Some o) /\ i <> [] /\ Forall (fun x => in_Index x = 0) i /\ Forall (fun x => 0 <= out_Amount x) o.
Proof.
  intros Ha. unfold DeterministicSpendPlan. destruct (Z.eqb_spec amount 0); [lia|].
  destruct (UTXOMap st !! from) as [m|]; [|done]. generalize (sorting.merge_sort entry_le (snapshot m)). intros l. unfold plan_of.
  assert (forall l t, Forall (fun x => in_Index x = 0) (select amount t l).1) as Hs.
  { clear. induction l as [|e l IH]; intros t; cbn [select]; [done|]. cbv zeta. destruct (_ <=? _); [by repeat constructor|].
    specialize (IH (u64 (t + e_amount e))). destruct (select _ _ l). by constructor. }
  specialize (Hs l 0). destruct (select amount 0 l) as [i t] eqn:E. destruct (Z.ltb_spec t amount); [done|].
  intros [= <-]. cbn in Hs. destruct i as [|x i].
  - destruct l; cbn in E; [injection E as <-; lia|]. destruct (_ <=? _); [done|]. by destruct (select _ _ l).
  - eexists _, _. split_and!; [done..|]. destruct (Z.ltb_spec 0 (t - amount)); repeat constructor. cbn. lia.
Qed.

Lemma inputs_decode i : Forall (fun x => in_Index x = 0) i -> as_slice as_input (Arr (input_json <$> i)) = Normal (Some i).
Proof.
  intros Hi. cbn [as_slice]. assert (all_out as_input (input_json <$> i) = Normal i) as ->; [|done].
  induction Hi as [|[t x] i Hx _ IH]; [done|]. cbn in Hx. subst x. rewrite fmap_cons. cbn [all_out]. rewrite IH. done.
Qed.

Lemma outputs_decode o :
  Forall (fun x => 0 <= out_Amount x) o -> portable (Arr (output_json <$> o)) = true ->
  as_slice as_output (Arr (output_json <$> o)) = Normal (Some o).
Proof.
  intros Ho Hp. cbn [as_slice]. assert (all_out as_output (output_json <$> o) = Normal o) as ->; [|done].
  induction Ho as [|[t x] o Hx _ IH]; [done|]. rewrite fmap_cons in Hp |- *. cbn [portable forallb] in Hp.
  apply andb_true_iff in Hp as [Hpx Hpo]. cbn [all_out]. rewrite IH by done.
  change (output_json _) with (Obj [("To", Str t); ("Amount", Num (int x))]) in Hpx |- *.
  apply portable_obj in Hpx as [_ Hpx]. cbn [forallb portable snd int] in Hpx. cbn in Hx. rewrite !andb_true_iff, Z.ltb_lt in Hpx.
  unfold as_output. cbn. destruct (Z.leb_spec 0 x); [|lia]. destruct (Z.ltb_spec x (2 ^ 64)); [done|lia].
Qed.

(** ** Decoding *)

Lemma hex_printable s : all_hex s = true -> printable s = true.
Proof.
  induction s as [|c s IH]; [done|]. cbn [all_hex printable]. intros [Hc Hs]%andb_true_iff. rewrite IH by done.
  rewrite andb_true_r. revert Hc. by destruct c as [[] [] [] [] [] [] [] []].
Qed.

Lemma bytes_printable l : bytes_ok l -> printable (bytesToHex l) = true.
Proof. intros Hl. by apply hex_printable, bytesToHex_hex. Qed.

Section wallet.
Context `{CanonicalizerLaws} `{NaClLaws} `{CanonicalJson} `{Ed25519} `{!SameStandards}.

(** The address of the wallet of a key pair. *)
Definition address (n : nat) : string := wallet_id (keyPair n).1.

(** The transaction a signed message stands for. *)
Definition wallet_tx (n : nat) (type : string) (i : list TxInput) (o : list TxOutput) (payload : value) (id sig : string) : Tx :=
  MkTx (address n) type (Some i) (Some o) 1 (Some payload) (bytesToHex (keyPair n).1) id sig.

(** The message as an object. *)
Definition message_of (n : nat) (type : string) (i : list TxInput) (o : list TxOutput) (payload : value) (id sig : string) : value :=
  Obj [("type", Str type); ("from", Str (address n)); ("amount", Num (int 1)); ("payload", payload);
       ("inputs", Arr (input_json <$> i)); ("outputs", Arr (output_json <$> o));
       ("pk", Str (bytesToHex (keyPair n).1)); ("txId", Str id); ("signature", Str sig)].

Lemma sent_message n type payload i o id sig :
  truthy payload = true -> id <> "" ->
  sent (key_params type n payload) (plan_reply (Some i, Some o)) id sig = message_of n type i o payload id sig.
Proof.
  intros Hp Hid. assert (js_or (encodePayload payload) (Obj []) = payload) as E1
    by (rewrite encodePayload_truthy by done; unfold js_or; by rewrite Hp).
  assert (js_or (Str id) (Str "") = Str id) as E2 by (by destruct id).
  transitivity (Obj [("type", Str type); ("from", Str (address n)); ("amount", Num (int 1));
    ("payload", js_or (encodePayload payload) (Obj []));
    ("inputs", Arr (input_json <$> i)); ("outputs", Arr (output_json <$> o));
    ("pk", Str (bytesToHex (keyPair n).1)); ("txId", js_or (Str id) (Str "")); ("signature", Str sig)]);
    [reflexivity|]. by rewrite E1, E2.
Qed.

(** Data the two sides agree on. *)
Record agreed (type : string) (payload : value) (i : list TxInput) (o : list TxOutput) : Prop := {
  ag_type : printable type = true;
  ag_truthy : truthy payload = true;
  ag_ok : json_ok payload;
  ag_payload : portable payload = true;
  ag_inputs : portable (Arr (input_json <$> i)) = true;
  ag_outputs : portable (Arr (output_json <$> o)) = true;
  ag_index : Forall (fun x => in_Index x = 0) i;
  ag_amount : Forall (fun x => 0 <= out_Amount x) o
}.

Lemma address_printable n : printable (address n) = true.
Proof. apply bytes_printable, sha256_bytes. Qed.

Lemma key_printable n : printable (bytesToHex (keyPair n).1) = true.
Proof. apply bytes_printable, keyPair_bytes. Qed.

Lemma message_portable n type payload i o id sig :
  agreed type payload i o -> printable id = true -> printable sig = true ->
  portable (message_of n type i o payload id sig) = true.
Proof.
  intros [Ht _ _ Hp Hi Ho _ _] Hid Hsig. unfold message_of.
  pose proof (address_printable n). pose proof (key_printable n).
  cbn [portable fmap list_fmap fst snd]. rewrite !andb_true_iff. split_and!; [done..|].
  cbn [forallb snd]. rewrite Hp, Hi, Ho. cbn [portable int]. by rewrite !andb_true_iff.
Qed.

Lemma message_decodes n type payload i o id sig :
  agreed type payload i o ->
  unmarshalTransaction (message_of n type i o payload id sig) = Normal (wallet_tx n type i o payload id sig).
Proof.
  intros [_ _ _ _ _ Hpo Hi Ho]. unfold unmarshalTransaction, message_of. cbn [as_struct mbind outcome_bind].
  pose proof (inputs_decode i Hi) as Di. pose proof (outputs_decode o Ho Hpo) as Do.
  unfold json_field. cbn [fold_left]. unfold json_step. cbn -[as_slice as_input as_output]. rewrite Di. cbn -[as_slice as_output].
  rewrite Do. reflexivity.
Qed.

(** ** The transaction for the node *)

Lemma int_ok z : json_ok (Num (int z)).
Proof. by constructor. Qed.

Lemma inputs_ok i : json_ok (Arr (input_json <$> i)).
Proof.
  constructor. apply Forall_fmap, Forall_forall. intros x _. apply obj_ok. repeat constructor; apply int_ok.
Qed.
Lemma outputs_json_ok o : json_ok (Arr (output_json <$> o)).
Proof.
  constructor. apply Forall_fmap, Forall_forall. intros x _. apply obj_ok. repeat constructor; apply int_ok.
Qed.

Lemma tx_data_ok type from p i o :
  json_ok p -> json_ok (tx_data (Str type) (Str from) (Num (int 1)) p (Arr (input_json <$> i)) (Arr (output_json <$> o))).
Proof.
  intros Hp. apply obj_ok. repeat apply Forall_cons_2; try apply Forall_nil_2; cbn [snd];
    auto using inputs_ok, outputs_json_ok, int_ok, ok_str.
Qed.

(** The node hashes the text that the wallet hashed. *)
Lemma wallet_text n type payload p i o id sig :
  agreed type payload i o -> json_ok p -> p ≡ⱼ payload ->
  exists s, SerializeTransaction (wallet_tx n type i o p id sig) = Normal (encode s) /\
    tx_id type n payload (plan_reply (Some i, Some o)) = sha256_hex s.
Proof.
  intros [Ht Htr Hok Hp Hi Ho _ _] Hpok Heq.
  set (data := fun q => tx_data (Str type) (Str (address n)) (Num (int 1)) q (Arr (input_json <$> i)) (Arr (output_json <$> o))).
  assert (data p ≡ⱼ data payload) as Hd.
  { apply obj_equiv; [|by apply (bool_decide_unpack _)]. by repeat constructor. }
  pose proof (tx_data_ok type (address n) p i o Hpok) as Hdp. pose proof (tx_data_ok type (address n) payload i o Hok) as Hdq.
  destruct (canonicalize_text (data payload) Hdq) as (s & _ & Hs & _). exists s.
  assert (portable (data payload) = true) as Hport.
  { pose proof (address_printable n).
    change (portable (Obj [("type", Str type); ("from", Str (address n)); ("amount", Num (int 1)); ("payload", payload);
      ("inputs", Arr (input_json <$> i)); ("outputs", Arr (output_json <$> o))]) = true).
    cbn [portable fmap list_fmap fst snd]. rewrite !andb_true_iff. split_and!; [done..|].
    cbn [forallb snd]. rewrite Hp, Hi, Ho. cbn [portable int]. by rewrite !andb_true_iff. }
  split.
  - unfold SerializeTransaction. change (tx_json (wallet_tx n type i o p id sig)) with (data p).
    rewrite (same_text (data p) s); [done|exact Hdp|by rewrite (portable_equiv _ _ Hd)|].
    by rewrite (canonicalize_equiv _ _ Hdp Hdq Hd).
  - unfold tx_id. rewrite planned_core, !js_or_twice.
    change (prop (key_params type n payload) "payload") with payload. rewrite encodePayload_truthy by done.
    change (canonicalize (tx_data _ _ _ _ _ _)) with (canonicalize (data payload)). by rewrite Hs.
Qed.

Lemma payload_ok b t p : json_ok b -> unmarshalTransaction b = Normal t -> Payload t = Some p -> json_ok p.
Proof.
  intros Hb. unfold unmarshalTransaction. destruct b as [| | | | | |o|]; try done.
  { cbn. intros [= <-]. done. }
  cbn [as_struct mbind outcome_bind]. intros Hu. do 8 (apply outcome_bind_Normal in Hu as (? & _ & Hu)).
  injection Hu as <-. cbn. inversion Hb as [| | | | |? Ho _]; subst. unfold raw_field.
  assert (forall acc, (forall q, acc = Some q -> json_ok q) ->
    fold_left (fun acc kv => if String.eqb (to_lower kv.1) (to_lower "payload") then Some kv.2 else acc) o acc = Some p -> json_ok p) as Hf;
    [|by apply Hf].
  clear Hb. induction Ho as [|kv o Hk _ IH]; intros acc Hacc; cbn [fold_left]; [apply Hacc|]. apply IH.
  intros q. destruct (String.eqb _ _); [by intros [= <-]|apply Hacc].
Qed.

(** What the node derives from a message of the wallet. *)
Lemma wallet_message_derived n type payload i o b st cmd :
  agreed type payload i o -> signed_message n (plan_reply (Some i, Some o)) type payload b -> json_ok b ->
  DeterministicSpendPlan (address n) 1 st = Normal (Some i, Some o) ->
  ResolveCommand type (Some payload) = Normal cmd ->
  (forall t, From t = address n -> Validate cmd t st = Normal tt) ->
  (forall t, Inputs t = Some i -> ValidateWithInputs cmd t st = Normal tt) ->
  let id := tx_id type n payload (plan_reply (Some i, Some o)) in
  exists p sig, let t := wallet_tx n type i o p id (bytesToHex sig) in
    unmarshalTransaction b = Normal t /\ p ≡ⱼ payload /\ derive_tx t st = Normal (t, id) /\
    ResolveCommand type (Some p) = Normal cmd.
Proof.
  intros Hag (sig & Hlen & Hsig & Hver & Heq) Hb Hplan Hcmd Hval Hinp id.
  assert (exists s0, id = sha256_hex s0) as [s0 Eid].
  { destruct (wallet_text n type payload payload i o "" "" Hag (ag_ok _ _ _ _ Hag) (reflexivity _)) as (s0 & _ & E). by exists s0. }
  assert (id <> "") as Hne by (rewrite Eid; apply HashHex_nonempty).
  fold id in Heq, Hver. rewrite sent_message in Heq by (done || apply Hag).
  destruct (unmarshal_equiv b _ _ (message_portable n type payload i o id (bytesToHex sig) Hag
      ltac:(rewrite Eid; apply bytes_printable, sha256_bytes) (bytes_printable sig Hsig)) Heq
    (message_decodes n type payload i o id (bytesToHex sig) Hag)) as (p0 & Hun & Hp0). cbn in Hp0.
  destruct p0 as [p|]; [|done]. injection Hp0 as Hp. cbn [From Type_ Inputs Outputs Amount Pk TxID Signature wallet_tx] in Hun.
  pose proof (payload_ok b _ p Hb Hun eq_refl) as Hpok.
  assert (ResolveCommand type (Some p) = Normal cmd) as Hcmd' by (rewrite <- Hcmd; apply ResolveCommand_equiv; [apply Hag|done]).
  destruct (wallet_text n type payload p i o id (bytesToHex sig) Hag Hpok Hp) as (s & Hser & Es). fold id in Es.
  exists p, sig. set (t := wallet_tx n type i o p id (bytesToHex sig)) in *.
  split_and!; [exact Hun|exact Hp| |exact Hcmd'].
  assert (ValidateTransaction t st = Normal tt) as Hvt.
  { unfold ValidateTransaction. cbn [Pk t wallet_tx]. destruct (keyPair_bytes n) as [Hkb _], (keyPair_sizes n) as [Hks _].
    rewrite decodeHex_bytesToHex by done. unfold VerifyOwnership. cbn [From t wallet_tx].
    change (HashHex (keyPair n).1) with (address n). rewrite String.eqb_refl. cbn [mbind outcome_bind].
    unfold canonical_plan. cbn [From Amount Inputs Outputs t wallet_tx]. rewrite Hplan. cbn [mbind outcome_bind].
    unfold equalTxInputs, equalTxOutputs. rewrite !bool_decide_true by done. cbn [negb].
    fold t. rewrite Hser. cbn [wrapped mbind outcome_bind TxID t wallet_tx].
    change (HashHex (encode s)) with (sha256_hex s). rewrite <- Es, String.eqb_refl. cbn [negb].
    unfold VerifySignature. cbn [Signature t wallet_tx]. rewrite decodeHex_bytesToHex by done. unfold ed25519_Verify.
    rewrite decide_True, bool_decide_true by done. cbn [andb mbind outcome_bind].
    rewrite <- message_sha256, <- Es, same_signatures by done. unfold ValidateCommand. cbn [Type_ Payload t wallet_tx].
    rewrite Hcmd'. cbn. by apply Hval. }
  unfold derive_tx. rewrite Hvt. cbn [mbind outcome_bind From Amount t wallet_tx]. rewrite Hplan. cbn [mbind outcome_bind].
  change (MkTx _ _ _ _ _ _ _ _ _) with t. unfold ValidateCommandWithInputs. cbn [Type_ Payload t wallet_tx]. rewrite Hcmd'.
  cbn [mbind outcome_bind]. fold t. rewrite (Hinp t) by done. cbn [mbind outcome_bind]. unfold BuildTransactionID. rewrite Hser.
  cbn. change (HashHex (encode s)) with (sha256_hex s). by rewrite <- Es.
Qed.
End wallet.

Section registration.
Context `{CanonicalizerLaws} `{NaClLaws} `{CanonicalJson} `{Ed25519} `{!SameStandards}.

Lemma plan_agreed from st p :
  DeterministicSpendPlan from 1 st = Normal p -> portable (plan_reply p) = true ->
  exists i o, p = (Some i, Some o) /\ i <> [] /\ forall type payload,
    printable type = true -> truthy payload = true -> json_ok payload -> portable payload = true -> agreed type payload i o.
Proof.
  intros (i & o & -> & Hne & Hi & Ho)%plan_some Hp; [|lia]. exists i, o. split_and!; [done..|]. intros type payload Ht Htr Hok Hpp.
  change (portable (Obj [("inputs", Arr (input_json <$> i)); ("outputs", Arr (output_json <$> o))]) = true) in Hp.
  apply portable_obj in Hp as [_ Hp]. cbn [forallb snd] in Hp. rewrite !andb_true_iff in Hp. destruct Hp as (? & ? & _). by split.
Qed.

(** The identifier in the message. *)
Lemma message_txId n type payload i o b :
  agreed type payload i o -> json_ok b -> signed_message n (plan_reply (Some i, Some o)) type payload b ->
  prop b "txId" = Str (tx_id type n payload (plan_reply (Some i, Some o))).
Proof.
  intros Hag Hb (sig & _ & _ & _ & Heq). set (id := tx_id _ _ _ _) in *.
  destruct (wallet_text n type payload payload i o "" "" Hag (ag_ok _ _ _ _ Hag) (reflexivity _)) as (s0 & _ & E). fold id in E.
  assert (json_ok (message_of n type i o payload id (bytesToHex sig))) as Hm.
  { unfold message_of. change (Obj ?l) with (obj l). apply obj_ok. destruct Hag.
    repeat apply Forall_cons_2; try apply Forall_nil_2; cbn [snd]; auto using inputs_ok, outputs_json_ok, int_ok, ok_str. }
  rewrite sent_message in Heq by (apply Hag || (rewrite E; apply HashHex_nonempty)).
  apply equiv_str. exact (prop_equiv _ b "txId" Hm Hb Heq).
Qed.

(** The block that a miner assembles from the transaction, for the height [h]; its reward
    is not a transaction that was applied before. *)
Definition assembled (h : Z) (t : Tx) (st : NamecoinState) (blk : FullBlock) : Prop := exists hdr key rid,
  h_Height hdr = h /\ AssembleBlock hdr [t] key = Normal blk /\
  BuildTransactionID (rewardTx hdr key) = Normal rid /\ rid ∉ txMap st /\ rid <> TxID t.

(** A message of the wallet whose command is valid now and in the next block is accepted by
    the node, and so is the block that a miner assembles from it. *)
Lemma wallet_message_mined n type payload i o b blks st cmd :
  let h := Z.of_nat (length blks) in let id := tx_id type n payload (plan_reply (Some i, Some o)) in
  node_at blks st -> agreed type payload i o -> json_ok b -> signed_message n (plan_reply (Some i, Some o)) type payload b ->
  DeterministicSpendPlan (address n) 1 st = Normal (Some i, Some o) -> ResolveCommand type (Some payload) = Normal cmd ->
  (forall s t, s = st \/ s = opened h st -> From t = address n -> Validate cmd t s = Normal tt) ->
  (forall s t, s = st \/ s = opened h st -> Inputs t = Some i -> ValidateWithInputs cmd t s = Normal tt) ->
  exists t, unmarshalTransaction b = Normal t /\ TxID t = id /\ From t = address n /\ BuildTransactionID t = Normal id /\
    ResolveCommand (Type_ t) (Payload t) = Normal cmd /\ derive_tx t st = Normal (t, TxID t) /\
    forall blk, assembled h t st blk -> Height (contents blk) = h /\ t ∈ Transactions (contents blk) /\
      (forall t', t' ∈ Transactions (contents blk) -> t' = t \/ Type_ t' = "Reward") /\
      identified (Transactions (contents blk)) t id /\
      exists st', chainApplyBlock (contents blk) st = (Normal tt, st').
Proof.
  intros h id Hn Hag Hb Hs Hplan Hc Hv Hi.
  destruct (wallet_message_derived n type payload i o b st cmd Hag Hs Hb Hplan Hc) as (p & sig & Hu & _ & Hd & Hc');
    [intros t; apply Hv; by left|intros t; apply Hi; by left|].
  fold id in Hd, Hu. set (t := wallet_tx n type i o p id (bytesToHex sig)) in *. exists t.
  destruct (derive_tx_valid _ _ _ _ Hd eq_refl) as [Hid _].
  split_and!; [exact Hu|reflexivity|reflexivity|exact Hid|exact Hc'|exact Hd|].
  intros blk (hdr & key & rid & Hh & Hasm & Hrid & Hfresh & Hne). set (sr := rewarded rid key (opened h st)).
  pose proof (rewarded_plan blks st rid key (address n) 1 _ Hn Hfresh ltac:(lia) Hplan : DeterministicSpendPlan (address n) 1 sr = _) as Hplan'.
  assert (names sr = names (opened h st) /\ Commitments sr = Commitments (opened h st)) as [En EC] by done.
  destruct (wallet_message_derived n type payload i o b sr cmd Hag Hs Hb Hplan' Hc) as (p' & sig' & Hu' & _ & Hd' & _).
  { intros t' Ht'. rewrite (Validate_same _ _ _ _ En). apply Hv; [by right|exact Ht']. }
  { intros t' Ht'. rewrite (ValidateWithInputs_same _ _ _ _ En EC). apply Hi; [by right|exact Ht']. }
  rewrite Hu in Hu'. injection Hu' as <- E2. rewrite <- E2 in Hd'. fold id in Hd'. fold t in Hd'.
  destruct (derive_tx_valid _ _ _ _ Hd' eq_refl) as [_ Hval].
  destruct (assembled_accepted blks st hdr key rid t id blk Hn Hh Hasm Hrid Hfresh ltac:(cbn; lia) Hid Hval) as [Ec Hst].
  rewrite Ec in Hst |- *. cbn [Height Transactions]. split_and!; [done| | | |exact Hst].
  - apply elem_of_cons. right. by left.
  - intros t' [->|[->|[]%elem_of_nil]%elem_of_cons]%elem_of_cons; [by right|by left].
  - intros t' [->|[->|[]%elem_of_nil]%elem_of_cons]%elem_of_cons Hid'; [|by split_and!].
    rewrite Hrid in Hid'. injection Hid' as Eid. by destruct Hne.
Qed.
End registration.

Section commands.
Context `{Browser} `{CanonicalizerLaws} `{NaClLaws} `{Config} `{CanonicalJson} `{Ed25519} `{!SameStandards}.

(** A time to live that was entered as a number of blocks. *)
Definition blocks (z : Z) : Prop := 0 <= z < 2 ^ 53.

Lemma ttl_number z : js_or (Num (int z)) (Num (int 0)) = Num (int z).
Proof. unfold js_or. cbn [truthy int]. destruct z; reflexivity. Qed.

Lemma ttl_decodes z : blocks z -> as_uint 64 (Num (int z)) = Normal z.
Proof. unfold blocks. intros Hz. cbn. destruct (Z.leb_spec 0 z), (Z.ltb_spec z (2 ^ 64)); cbn; try done; lia. Qed.

Lemma ttl_portable z : blocks z -> (Z.abs z <? 2 ^ 53) = true.
Proof. unfold blocks. intros Hz. apply Z.ltb_lt. lia. Qed.

(** The command of a submission. *)
Lemma submit_command w z :
  ttl (view w) = Num (int z) -> blocks z ->
  ResolveCommand "NameNew" (Some (submit_payload w)) = Normal (NameNew (submit_commitment w) z) /\
  portable (submit_payload w) = true.
Proof.
  intros Ht Hz. assert (submit_payload w = Obj [("commitment", Str (submit_commitment w)); ("ttl", Num (int z))]) as ->.
  { unfold submit_payload. by rewrite Ht, ttl_number. }
  split.
  - unfold ResolveCommand, json_field, json_step. cbn -[as_uint]. by rewrite ttl_decodes.
  - cbn [portable fmap list_fmap fst snd forallb int]. rewrite (ttl_portable z Hz).
    by rewrite (bytes_printable (sha256_digest _) (sha256_bytes _) : printable (submit_commitment w) = true).
Qed.

(** The entry of a name that can be revealed, as the page shows it. *)
Record revealable (o : props) (d salt id ip : string) (z : Z) : Prop := {
  rv_domain : prop (Obj o) "domain" = Str d /\ d <> "" /\ printable d = true;
  rv_salt : prop (Obj o) "salt" = Str salt /\ salt <> "" /\ printable salt = true;
  rv_txid : prop (Obj o) "txid" = Str id /\ id <> "" /\ printable id = true;
  rv_ip : prop (Obj o) "revealIp" = Str ip /\ trim ip <> "" /\ printable (trim ip) = true;
  rv_ttl : prop (Obj o) "revealTtl" = Num (int z) /\ blocks z
}.

Lemma reveal_command o d salt id ip z :
  revealable o d salt id ip z ->
  ResolveCommand "NameFirstUpdate" (Some (reveal_payload (Obj o) ip)) = Normal (NameFirstUpdate d salt (trim ip) z id) /\
  portable (reveal_payload (Obj o) ip) = true.
Proof.
  intros [(Hd & _ & Pd) (Hs & _ & Ps) (Ht & _ & Pt) (_ & _ & Pi) (Hz & Hb)].
  assert (reveal_payload (Obj o) ip = Obj [("domain", Str d); ("salt", Str salt); ("ip", Str (trim ip));
    ("ttl", Num (int z)); ("txid", Str id)]) as ->.
  { unfold reveal_payload. by rewrite Hd, Hs, Ht, Hz, ttl_number. }
  split.
  - unfold ResolveCommand, json_field, json_step. cbn -[as_uint trim]. by rewrite ttl_decodes.
  - cbn [portable fmap list_fmap fst snd forallb int]. rewrite (ttl_portable z Hb). by rewrite Pd, Ps, Pt, Pi.
Qed.

(** A revelation that opens a recent commitment to a free name is valid. *)
Lemma reveal_valid d salt ip z id c t s :
  d <> "" -> salt <> "" -> ip <> "" -> id <> "" -> GetCommitment (OutpointKey id 0) s = Some c ->
  Commit c = commitment_of d salt -> currentHeight s - CHeight c <= MaxFirstUpdateDepth -> live d s = None ->
  Validate (NameFirstUpdate d salt ip z id) t s = Normal tt /\
  ValidateWithInputs (NameFirstUpdate d salt ip z id) t s = Normal tt.
Proof.
  intros Hd Hs Hip Hid Hc Ho Hage Hl. unfold Validate, ValidateWithInputs, NameFirstUpdate_Validate, NameFirstUpdate_ValidateWithInputs. rewrite Hl. split.
  - by destruct (String.eqb_spec d ""), (String.eqb_spec salt ""), (String.eqb_spec ip "").
  - unfold resolveCommitment. destruct (String.eqb_spec id ""); [done|]. cbn [mbind outcome_bind].
    rewrite Hc, Ho, String.eqb_refl. cbn [mbind outcome_bind].
    destruct (Z.ltb_spec MaxFirstUpdateDepth (currentHeight s - CHeight c)); [lia|]. by rewrite andb_false_r.
Qed.
End commands.

(** ** Properties *)

(** C1: a name submitted on a ready page whose backend is a node is committed to on the
    chain: the node accepts the message the page sends.  Every next block that contains
    the transaction, whatever else it contains, records the commitment to the name and
    the salt that the page stored, under the transaction identifier that the page stored,
    unless a revelation of the same block opens the commitment already; transactions of
    the block with this identifier are assumed to have the request that was hashed.  The
    block that a miner assembles from it, with the reward first, is accepted and records
    the commitment. *)
Theorem submitted_name_committed `{Browser} `{CanonicalizerLaws} `{NaClLaws} `{Config} `{CanonicalJson} `{Ed25519}
    `{!SameStandards} server n es response w l blks st p z :
  let plan := plan_reply p in let h := Z.of_nat (length blks) in
  has_global_length = true -> node_at blks st ->
  DeterministicSpendPlan (address n) 1 st = Normal p -> portable plan = true ->
  ready n es plan response w -> domainName (view w) <> "" -> ttl (view w) = Num (int z) -> blocks z ->
  accepting server (key_params "NameNew" n (submit_payload w)) plan response l ->
  tx_id "NameNew" n (submit_payload w) plan ∉ txMap st ->
  exists b body w' t e salt,
    run server handleSubmit w l = (Normal tt, w',
      l ++ [plan_request (key_params "NameNew" n (submit_payload w)); handle_request body]) /\
    json_parse body = Normal b /\ unmarshalTransaction b = Normal t /\ derive_tx t st = Normal (t, TxID t) /\
    entries (storage w') (pending_key (Str (address n))) = Some (es ++ [e]) /\
    prop e "domain" = Str (domainName (view w)) /\ prop e "salt" = Str salt /\ prop e "txid" = Str (TxID t) /\
    (forall blk st', Height blk = h -> t ∈ Transactions blk -> identified (Transactions blk) t (TxID t) ->
       chainApplyBlock blk st = (Normal tt, st') ->
       (exists c, GetCommitment (OutpointKey (TxID t) 0) st' = Some c /\
          Commit c = commitment_of (domainName (view w)) salt /\ CHeight c = h) \/
       exists t', t' ∈ Transactions blk /\ opening (commitment_of (domainName (view w)) salt) t') /\
    (forall blk, assembled h t st blk -> exists st' c,
       chainApplyBlock (contents blk) st = (Normal tt, st') /\ GetCommitment (OutpointKey (TxID t) 0) st' = Some c /\
       Commit c = commitment_of (domainName (view w)) salt /\ CHeight c = h).
Proof.
  intros plan h Hg Hnode Hplan Hport [Hq Hw Hes Hpl Hr] Hname Httl Hz [Ha Hs] Hfresh.
  assert (json_ok (ttl (view w))) as Hjt by (rewrite Httl; apply int_ok).
  destruct (run_handleSubmit server Hq n plan response es w l Hg Hw Hname Hjt Hes Hpl Hr Ha Hs)
    as (b & body & w' & Hrun & Hparse & (_ & _ & _ & Hsigned) & He & _).
  destruct (submit_command w z Httl Hz) as [Hcmd Hpp]. destruct (plan_agreed _ _ _ Hplan Hport) as (i & o & -> & Hne & Hag).
  specialize (Hag "NameNew" (submit_payload w) eq_refl eq_refl (submit_payload_ok w Hjt) Hpp).
  pose proof (json_parse_ok _ _ Hparse) as Hb. pose proof (message_txId n _ _ i o b Hag Hb Hsigned) as Htx.
  destruct (wallet_message_mined n "NameNew" (submit_payload w) i o b blks st (NameNew (submit_commitment w) z))
    as (t & Hu & Hid & _ & Hbid & Hc & Hd & Hasm); try done.
  { intros s t _ _. unfold Validate, NameNew_Validate, NameFirstUpdate_Validate, NameUpdate_Validate. destruct (String.eqb_spec (submit_commitment w) "") as [E|_]; [|reflexivity].
    exfalso. exact (HashHex_nonempty _ E). }
  { intros s t _ Hin. unfold ValidateWithInputs, NameNew_ValidateWithInputs. rewrite Hin. cbn. by destruct i. }
  unfold plan in Hfresh. rewrite <- Hid in Hfresh, Hbid, Hasm. destruct (node_opened blks st Hnode) as (_ & _ & _ & ET & _). fold h in ET, Hasm.
  assert (forall blk st', Height blk = h -> t ∈ Transactions blk -> identified (Transactions blk) t (TxID t) ->
    chainApplyBlock blk st = (Normal tt, st') -> committed (OutpointKey (TxID t) 0) (submit_commitment w)
      (if z =? 0 then DefaultDomainTTLBlocks else z) h (Transactions blk) st') as Heff.
  { intros blk st' Eh Hin Huni Hblk. rewrite <- Eh. apply (commitment_in_block blk st st' t); rewrite ?Eh; try done.
    - apply Hnode.
    - by apply node_sound.
    - by rewrite ET. }
  eexists b, body, w', t, _, (submit_salt w). rewrite Htx, <- Hid in He.
  split_and!; [exact Hrun|exact Hparse|exact Hu|exact Hd|exact He|reflexivity|reflexivity|reflexivity|..].
  - intros blk st' Eh Hin Huni Hblk. destruct (Heff blk st' Eh Hin Huni Hblk) as [Hk|Ho]; [left|by right].
    eexists. split_and!; [exact Hk|reflexivity..].
  - intros blk Hblk. destruct (Hasm blk Hblk) as (Eh & Hin & Honly & Huni & st' & Hst).
    destruct (Heff _ st' Eh Hin Huni Hst) as [Hk|(t' & Ht' & d & s & ip & ttl & txid & Hrc & _)].
    + eexists st', _. split_and!; [exact Hst|exact Hk|reflexivity..].
    + exfalso. destruct (Honly t' Ht') as [->|Et]; [congruence|]. by apply (resolve_reward _ _ _ Hrc) in Et.
Qed.

(** C2: a name revealed on a ready page whose backend is a node is registered: when the
    node has the commitment that the entry opens, at most [MaxFirstUpdateDepth] blocks
    old, and the name is free, the node accepts the message the page sends.  Every next
    block that contains the transaction, whatever else it contains, registers the name
    for the wallet with the salt of the entry and with the address that was entered,
    unless the block also contains an update of the address signed by the wallet;
    transactions of the block with its identifier are assumed to have the request that
    was hashed.  The block that a miner assembles from it, with the reward first, is
    accepted and registers the name. *)
Theorem revealed_name_registered `{Browser} `{CanonicalizerLaws} `{NaClLaws} `{Config} `{CanonicalJson} `{Ed25519}
    `{!SameStandards} server n es response w l blks st p r o d salt id ip z c :
  let plan := plan_reply p in let h := Z.of_nat (length blks) in let payload := reveal_payload (Obj o) ip in
  node_at blks st -> DeterministicSpendPlan (address n) 1 st = Normal p -> portable plan = true ->
  ready n es plan response w -> heap (view w) !! r = Some (Obj o) -> json_ok (Obj o) -> revealable o d salt id ip z ->
  accepting server (key_params "NameFirstUpdate" n payload) plan response l ->
  GetCommitment (OutpointKey id 0) st = Some c -> Commit c = commitment_of d salt -> h - CHeight c <= MaxFirstUpdateDepth ->
  Domains st !! d = None -> tx_id "NameFirstUpdate" n payload plan ∉ txMap st ->
  exists b body w' t,
    run server (handleFirstUpdate r) w l = (Normal tt, w',
      l ++ [plan_request (key_params "NameFirstUpdate" n payload); handle_request body;
            GET (getBaseURL +:+ "/namecoin/dns")]) /\
    json_parse body = Normal b /\ unmarshalTransaction b = Normal t /\ derive_tx t st = Normal (t, TxID t) /\
    (forall blk st', Height blk = h -> t ∈ Transactions blk -> identified (Transactions blk) t (TxID t) ->
       chainApplyBlock blk st = (Normal tt, st') ->
       exists rec, Domains st' !! d = Some rec /\ Owner rec = address n /\ Salt rec = salt /\
         (IP rec = trim ip \/ exists t', t' ∈ Transactions blk /\ signed_update t' d (address n))) /\
    (forall blk, assembled h t st blk -> exists st' rec,
       chainApplyBlock (contents blk) st = (Normal tt, st') /\ Domains st' !! d = Some rec /\
       Owner rec = address n /\ Salt rec = salt /\ IP rec = trim ip).
Proof.
  intros plan h payload Hnode Hplan Hport Hready Hheap Hok Hrv Hacc Hcom Hopen Hage Hfree Hfresh.
  destruct (reveal_command o d salt id ip z Hrv) as [Hcmd Hpp].
  pose proof Hrv as [(Hd & Hd0 & _) (Hs & Hs0 & _) (Ht & Ht0 & _) (Hi & Hi0 & _) _].
  assert (json_ok (prop (Obj o) "salt")) as Hjs by (rewrite Hs; constructor).
  assert (json_ok (prop (Obj o) "txid")) as Hjt by (rewrite Ht; constructor).
  assert (json_ok (prop (Obj o) "domain")) as Hjd by (rewrite Hd; constructor).
  destruct (run_handleFirstUpdate server n es plan response r o d ip w l Hready Hheap Hok Hd Hjs Hjt Hi Hi0 Hacc)
    as (b & body & w' & Hrun & Hparse & (_ & _ & _ & Hsigned) & _).
  destruct (plan_agreed _ _ _ Hplan Hport) as (i & out & -> & Hne & Hag).
  specialize (Hag "NameFirstUpdate" payload eq_refl eq_refl (reveal_payload_ok _ ip Hok Hjd Hjs Hjt) Hpp).
  pose proof (json_parse_ok _ _ Hparse) as Hb. destruct (node_opened blks st Hnode) as (Eh & EC & _ & ET & HD). fold h in Eh, EC, ET, HD.
  assert (currentHeight st <= h) as Hcur.
  { destruct Hnode as [Hc Hl _ _ _]. pose proof (head_le blks). destruct (chain_sound _ _ Hc) as (_ & _ & ->); [|unfold h; lia].
    eapply low_mono; [exact Hl|lia]. }
  assert (forall s t, s = st \/ s = opened h st -> Validate (NameFirstUpdate d salt (trim ip) z id) t s = Normal tt /\
    ValidateWithInputs (NameFirstUpdate d salt (trim ip) z id) t s = Normal tt) as Hval.
  { intros s t [->| ->]; apply reveal_valid with c; try done; unfold GetCommitment, live, NameLookup;
      [lia|by rewrite Hfree|by rewrite EC|lia|by rewrite (HD d Hfree)]. }
  destruct (wallet_message_mined n "NameFirstUpdate" payload i out b blks st (NameFirstUpdate d salt (trim ip) z id))
    as (t & Hu & Hid & Hf & Hbid & Hc & Hder & Hasm); try done;
    [intros s t Hs' _; by apply Hval|intros s t Hs' _; by apply Hval|].
  unfold plan in Hfresh. rewrite <- Hid in Hfresh, Hbid, Hasm. fold h in Hasm.
  assert (forall blk st', Height blk = h -> t ∈ Transactions blk -> identified (Transactions blk) t (TxID t) ->
    chainApplyBlock blk st = (Normal tt, st') -> exists rec, Domains st' !! d = Some rec /\ Owner rec = address n /\ Salt rec = salt /\
      (IP rec = trim ip \/ exists t', t' ∈ Transactions blk /\ signed_update t' d (address n))) as Heff.
  { intros blk st' Eh' Hin Huni Hblk. rewrite <- Hf. apply (registration_in_block blk st st' t (TxID t) d salt (trim ip) z id); rewrite ?Eh'; try done.
    - apply Hnode.
    - by apply node_sound.
    - by rewrite ET. }
  eexists b, body, w', t. split_and!; [exact Hrun|exact Hparse|exact Hu|exact Hder|exact Heff|].
  intros blk Hblk. destruct (Hasm blk Hblk) as (Eh' & Hin & Honly & Huni & st' & Hst).
  destruct (Heff _ st' Eh' Hin Huni Hst) as (rec & Hrec & Ho & Hsa & [Hip|(t' & Ht' & ip' & ttl & txid & Hr & _)]).
  - exists st', rec. split_and!; done.
  - exfalso. destruct (Honly t' Ht') as [->|Et]; [congruence|]. by apply (resolve_reward _ _ _ Hr) in Et.
Qed.

(** ** A page in front of the small chain *)

Module Registered.
Import Reference DefaultConfig SmallChain Page.

Ltac evaluates := lazymatch goal with |- _ = ?r => vm_cast_no_check (eq_refl r) end.

#[export] Instance demo_standards : SameStandards.
Proof.
  split.
  - intros v s _ _ Hs. cbn [marshal demo_json]. by rewrite Hs.
  - intros m sig k Hk Hsig. cbn [verify_detached nacl ed25519_valid demo_ed25519].
    rewrite decide_False by (rewrite Hsig; lia). rewrite decide_False by (rewrite Hk; lia). by intros [= ->].
Qed.

(** The plan of the node for the wallet at a state. *)
Definition plan_at (st : NamecoinState) : slice TxInput * slice TxOutput :=
  match DeterministicSpendPlan (address 0) 1 st with Normal p => p | Throw _ => (None, None) end.

(** The node as the backend of the page: it hands out its plan, and the message ends up in a block. *)
Definition node_backend (st : NamecoinState) (l : list request) (r : request) : fetch_result :=
  Resp (Response 200 "OK" (Normal
    (if includes (url r) "spendplan" then to_string (stringify (plan_reply (plan_at st)))
     else "{" +:+ quoted "status" "success" +:+ "}"))).

Definition shown_entry : props :=
  props_of [("domain", Str "example.bit"); ("salt", Str "salt"); ("txid", Str (TxID new_tx)); ("status", Str "pending");
            ("revealIp", Str " 10.0.0.1"); ("revealTtl", Num (int 0)); ("isRevealing", Bool false)].
Definition page : world :=
  set_view (set_myDomains [0%nat] {[ 0%nat := Obj shown_entry ]}) (set_wallet (key_wallet 0) (page_load ∅ 5)).

Lemma node0 : node_at [b0] s0.
Proof.
  split; [apply chain0|unfold low, MaxDomainTTLBlocks; cbn; lia| |by vm_compute|by vm_compute]. repeat constructor; cbn; lia.
Qed.
Lemma node1 : node_at [b0; b1] s1.
Proof.
  split; [apply chain1|unfold low, MaxDomainTTLBlocks; cbn; lia| |by vm_compute|by vm_compute].
  assert (bool_decide (Forall tx_ok (all_txs [b0; b1])) = true) as Ht by (by vm_compute). by apply bool_decide_eq_true_1 in Ht.
Qed.

(** The transaction among the requests of a page. *)
Definition message_in (log : list request) : outcome Tx :=
  match List.filter (fun r => includes (url r) "/namecoin/handle") log with
  | r :: _ => v ← json_parse (to_string (Async.body r)); unmarshalTransaction v
  | [] => err "no message"
  end.

Definition taken (o : outcome Tx) : Tx := match o with Normal t => t | Throw _ => new_tx end.

(** The block of a miner whose rewards go to the wallet. *)
Definition miner_header (h : Z) : BlockHeader := MkHeader h None None 2 0 addr None.
Definition miner_block (h : Z) (t : Tx) : FullBlock :=
  match AssembleBlock (miner_header h) [t] addr with Normal b => b | Throw _ => MkFullBlock (miner_header h) [] None end.

Definition submit_tx : Tx := Eval vm_compute in taken (message_in (run (node_backend s0) handleSubmit typed []).2).
Definition submit_block : FullBlock := Eval vm_compute in miner_block 1 submit_tx.

Lemma submit_assembled : assembled 1 submit_tx s0 submit_block.
Proof.
  exists (miner_header 1), addr, (id_of (rewardTx (miner_header 1) addr)). split_and!; [reflexivity|evaluates|evaluates| |].
  - apply not_applied. by vm_compute.
  - vm_compute. discriminate.
Qed.

Lemma submitted_name_committed_witness : exists w' e salt st' c,
  entries (storage w') (pending_key (Str (address 0))) = Some ([] ++ [e]) /\ prop e "salt" = Str salt /\
  prop e "txid" = Str (TxID submit_tx) /\ chainApplyBlock (contents submit_block) s0 = (Normal tt, st') /\
  GetCommitment (OutpointKey (TxID submit_tx) 0) st' = Some c /\ Commit c = commitment_of "example.com" salt.
Proof.
  destruct (submitted_name_committed (node_backend s0) 0 [] accepted typed [] [b0] s0 (plan_at s0) 0)
    as (b & body & w' & t & e & salt & Hrun & Hp & Hu & _ & He & _ & Hs & Hx & _ & Hm).
  - reflexivity.
  - exact node0.
  - by vm_compute.
  - by vm_compute.
  - split; [done|reflexivity|by vm_compute| |by vm_compute].
    constructor; [done|apply json_okb_spec; by vm_compute|by vm_compute..].
  - discriminate.
  - reflexivity.
  - split; lia.
  - split; [by vm_compute|]. intros body. reflexivity.
  - apply not_applied. by vm_compute.
  - assert (message_in (run (node_backend s0) handleSubmit typed []).2 = Normal t) as Hmsg
      by (rewrite Hrun; transitivity (v ← json_parse body; unmarshalTransaction v); [reflexivity|]; rewrite Hp; exact Hu).
    assert (message_in (run (node_backend s0) handleSubmit typed []).2 = Normal submit_tx) as Hmsg' by evaluates.
    rewrite Hmsg' in Hmsg. injection Hmsg as <-. destruct (Hm submit_block submit_assembled) as (st' & c & Hb & Hc & Ho & _).
    exists w', e, salt, st', c. exact (conj He (conj Hs (conj Hx (conj Hb (conj Hc Ho))))).
Defined.

Lemma shown_revealable : revealable shown_entry "example.bit" "salt" (TxID new_tx) " 10.0.0.1" 0.
Proof. split; (split; [reflexivity|]); [by vm_compute..|split; lia]. Qed.

Definition reveal_sent : Tx := Eval vm_compute in taken (message_in (run (node_backend s1) (handleFirstUpdate 0) page []).2).
Definition reveal_block : FullBlock := Eval vm_compute in miner_block 2 reveal_sent.

Lemma reveal_assembled : assembled 2 reveal_sent s1 reveal_block.
Proof.
  exists (miner_header 2), addr, (id_of (rewardTx (miner_header 2) addr)). split_and!; [reflexivity|evaluates|evaluates| |].
  - apply not_applied. by vm_compute.
  - vm_compute. discriminate.
Qed.

Lemma revealed_name_registered_witness : exists st' rec,
  chainApplyBlock (contents reveal_block) s1 = (Normal tt, st') /\ Domains st' !! "example.bit" = Some rec /\
  Owner rec = address 0 /\ Salt rec = "salt" /\ IP rec = trim " 10.0.0.1".
Proof.
  destruct (revealed_name_registered (node_backend s1) 0 [] accepted page [] [b0; b1] s1 (plan_at s1) 0 shown_entry
    "example.bit" "salt" (TxID new_tx) " 10.0.0.1" 0
    (MkCommitment (commitment_of "example.bit" "salt") DefaultDomainTTLBlocks 1))
    as (b & body & w' & t & Hrun & Hp & Hu & _ & _ & Hm).
  - exact node1.
  - by vm_compute.
  - by vm_compute.
  - split; [done|reflexivity|by vm_compute| |by vm_compute].
    constructor; [done|apply json_okb_spec; by vm_compute|by vm_compute..].
  - apply lookup_singleton_eq.
  - apply json_okb_spec. by vm_compute.
  - exact shown_revealable.
  - split; [by vm_compute|]. intros body. reflexivity.
  - by vm_compute.
  - reflexivity.
  - done.
  - by vm_compute.
  - apply not_applied. by vm_compute.
  - assert (message_in (run (node_backend s1) (handleFirstUpdate 0) page []).2 = Normal t) as Hmsg
      by (rewrite Hrun; transitivity (v ← json_parse body; unmarshalTransaction v); [reflexivity|]; rewrite Hp; exact Hu).
    assert (message_in (run (node_backend s1) (handleFirstUpdate 0) page []).2 = Normal reveal_sent) as Hmsg' by evaluates.
    rewrite Hmsg' in Hmsg. injection Hmsg as <-. exact (Hm reveal_block reveal_assembled).
Defined.
End Registered.
